(* ===== verification/_CoqProject ===== *)
-Q . S2P
Prelude.v
Kube.v
Types.v
Samples.v
Platform.v
Defaulting.v
Fmt.v
Encoding.v
Validation.v
Common.v
Toml.v
ConfigToml.v
Settings.v
Postgres.v
Backup.v
Bip39Words.v
Mnemonic.v
ManagementRPC.v
Orchard.v
Workload.v
Storage.v
Networking.v
Client.v
Controller.v
Server.v
Safety.v
Phases.v
Pipeline.v
Segments.v
Sequence.v
Progress.v
Convergence.v
Wiring.v
Isolation.v
Memory.v
CopyRules.v
DeepCopy.v
Manager.v
