(* ===== verification/Prelude.v ===== *)
(** * Cashu operator: a verification development

    The program is a Kubernetes operator in Go.  A user writes a [CashuMint]
    object; the admission webhooks complete and check it; the reconciler turns
    it into the objects that run a mint (configuration file, Deployment,
    storage, Services, database, backups, certificates, monitoring) and reports
    progress in the object's status.

    ** The parts

    - [src/api/v1alpha1/cashumint_types.go]: [Types], a record per struct with
      the Go field names, prefixed by the struct.
    - [src/api/v1alpha1/cashumint_webhook.go]: [Defaulting] (the mutating
      webhook, [Default]) and [Validation] (the validating webhook; every
      validator returns the Go error, message included).
    - [src/internal/controller/generators/*.go]: pure functions from a mint to
      an object or an error.  [Common] (constants, labels, names), [ConfigToml]
      (configmap.go; the text it prints is read back by the TOML reader of
      [Toml] and compared with [Settings], a table of the keys and of the fields
      of the spec they come from), [Orchard] and [Workload] (orchard.go and
      deployment.go: the pod),
      [Storage] (pvc.go), [Networking] (service.go, ingress.go, certificate.go,
      podmonitor.go), [Postgres], [Backup], [Mnemonic] (with the word list in
      [Bip39Words]) and [ManagementRPC].  The Orchard counterparts of a resource
      are modelled next to the mint's.
    - [src/internal/controller/cashumint_controller.go] and [helpers.go]:
      [Controller], one definition per handler, from [Reconcile] down.
    - [src/api/v1alpha1/zz_generated.deepcopy.go]: [DeepCopy], a definition per
      generated method, over the heap of [Memory] and with the proof rules of
      [CopyRules].
    - [src/api/v1alpha1/groupversion_info.go], the RBAC markers and
      [SetupWithManager] of the controller: [Wiring], the group and its
      registration, the permissions granted, the kinds watched.
    - [src/cmd/main.go]: [Manager], the flags and the start-up sequence.

    ** How it is modelled

    A generator is a function to [res]: [Ok], a Go [error], or a panic (the only
    one the code can reach is [resource.MustParse] of a malformed quantity).
    Pointers are options, a nil object is [None], integers are [Z], a map is a
    [gmap], and a slice is a list in the order of the appends.

    A handler is a program ([Client.Prog]) over the calls it makes: reads,
    creates, server-side applies, deletes, status updates, events, random draws.
    The mint in memory is the state the Go code mutates through its pointer.
    The API server is not modelled: a run ([Client.runs]) is a sequence of calls
    with any reply of the right type, so a theorem about all runs covers every
    server, every failure and every interleaving with other clients.  [Server]
    is one executable server, for closed examples and witnesses only;
    [Convergence] states what a cooperating server answers, as a predicate.

    The model of the controller passes values: a record is copied when it is
    read.  What makes that sound for the Go code is that the client cache hands
    out deep copies, and [DeepCopy] proves the generated methods to be such
    copies, in a model where pointers, slices and maps are references into an
    explicit heap ([Memory]).

    Code outside the repository is an interface of [Platform], an operation
    class with a class of laws that state its documented behaviour
    ([controllerutil], [meta.SetStatusCondition], [resource.Quantity], map
    iteration, Unicode tables) and a reference instance that satisfies them;
    [ManagementRPC.X509] is the crypto library: what a certificate keeps of its
    template, and that its signature verifies under the signer's key.  The
    formatting verbs ([Fmt]) and encodings and SHA-256 ([Encoding]) of the Go
    standard library are modelled as far as the source uses them.  [Kube] holds the records of the
    Kubernetes, cert-manager and Prometheus operator types, with the fields the
    source sets or reads.  [Samples] has the mints of the witnesses.

    ** What is shown

    - Webhooks: [Default] reaches a fixpoint in one call and keeps a valid mint
      valid; [ValidateCreate] accepts exactly the declaratively valid specs and
      the message of a rejection has an error of every violated section and of
      no other; an accepted mint has exactly one payment backend.
    - Generators: the printed configuration reads back to the table of the
      mint's settings, as long as the items of lists need no escaping (the code
      does not escape them); the Deployment of an accepted mint exists and its
      pod is well formed; the database URL of the configuration, the Secret and
      the backups logs in to the server the generated objects run; volumes,
      claims, Services, Ingresses, certificates and the PodMonitor refer to each
      other's names and ports; the seed phrase decodes to its entropy and reaches the container from its
      Secret; passwords have their strength and existing secrets are kept; the
      management certificates form a chain a verifier accepts.
    - Reconciler, over all runs: [Safety] (only owned objects are touched,
      secrets are created once, deletion cleans up before the finalizer goes,
      the Deployment carries the hash of the configuration), [Phases] (each run
      is a pass over the resources and what its end calls for: the outcome of a
      small phase machine is written once, or the error is retried, reported and
      returned according to its kind; an invariant of the whole life of a mint under concurrent edits and stale
      caches), [Sequence] (with the reference of [Pipeline] and the logic of
      [Segments]: a completed run applied exactly what the generators make of
      the mint, in order, a run that stops early a prefix of it, and nothing
      depends on earlier runs), [Progress] (every run ends within forty calls),
      [Isolation] (a run patches no object twice, and runs of two mints patch a
      common object only if their names clash, which is possible),
      [Convergence] (against a cooperating server an accepted mint is carried
      through to [Ready], and a deleted one is released; such a server exists),
      [Wiring] (every call of every run is granted by the RBAC markers; every
      applied object is of a registered kind, and all but the PodMonitor are
      watched).
    - Deep copies: every generated method returns an equal value that shares no
      reference with the original, so that later writes to one are not seen in
      the other.
    - Manager: printing a setting as flags and parsing it gives it back; the
      start-up sequence reaches [Start] exactly when every step succeeds, in
      the order of the source, and exits at the first that fails.

    ** Bounds and fuel

    [Encoding] runs SHA-256 over a fixed number of rounds and as many blocks as
    the padded message has; the TOML reader takes the length of its input as
    fuel, which [Toml.read_document] shows to be enough for every document the
    printer makes; the decimal printers are those of the library.  No other
    definition needs fuel.  Machine integers are [Z] without wrap-around: the
    code only copies them and compares them, apart from the rotations of
    SHA-256, which are reduced modulo 2^32.

    ** Not modelled

    What the client library does with a registration (the work queue, the
    informers behind a watch, the admission server, leader election) is behind
    the calls of [Wiring] and [Manager].  [payment_processor.go] has no code;
    logging has no effect on the objects; the fields of Kubernetes objects that
    the operator copies from the custom resource unread are opaque JSON values,
    and their own deep copies are a parameter with laws ([CopyRules]). *)

From stdpp Require Export base tactics option list strings gmap pretty.
From Stdlib Require Export ZArith Lia Ascii.
From stdpp Require Export ssreflect.

#[export] Set Default Goal Selector "!".

(** ** Notation scope of the development *)

Declare Scope op_scope.
Delimit Scope op_scope with op.
Open Scope op_scope.

(** ** Functional record update

    Go mutates structs in place; the model returns an updated record.  A
    record becomes updatable by an [eta_of] instance, from which the setter of
    any of its projections is computed. *)

Class Settable (R : Type) : Type := eta_of : R -> R.
Class Setter {R E : Type} (proj : R -> E) : Type := upd : (E -> E) -> R -> R.
Arguments upd {R E} proj {Setter} f r /.

Ltac build_setter R proj :=
  let e := eval cbv delta [eta_of] in (@eta_of R _) in
  let e := match e with ?h => let h' := eval red in h in h' end in
  lazymatch eval pattern proj in e with
  | ?u _ => let t := eval cbv beta in (fun f => u (fun r => f (proj r))) in exact t
  end.

#[export] Hint Extern 1 (@Setter ?R ?E ?proj) => build_setter R proj : typeclass_instances.

Notation "r <| p := v |>" := (upd p (fun _ => v) r)
  (at level 1, v at level 99, left associativity) : op_scope.
Notation "r <| p ::= f |>" := (upd p f r)
  (at level 1, f at level 99, left associativity) : op_scope.

(** ** Go errors and outcomes

    A Go [error] is its message and, for an API error somewhere in its [%w]
    chain, the reason that [apierrors.IsNotFound] and friends look up.  *)

Inductive StatusReason : Set :=
  | ReasonNotFound
  | ReasonAlreadyExists
  | ReasonConflict
  | ReasonNoMatch
  | ReasonOther.

#[export] Instance StatusReason_eq_dec : EqDecision StatusReason.
Proof. solve_decision. Defined.

Record goerror := mk_goerror {
  err_msg : string;
  err_reason : option StatusReason
}.

#[export] Instance goerror_eq_dec : EqDecision goerror.
Proof. solve_decision. Defined.

(** [fmt.Errorf] without [%w] loses the chain, with [%w] it keeps it. *)
Definition Errorf (msg : string) : goerror := mk_goerror msg None.
Definition Wrapf (prefix : string) (e : goerror) : goerror :=
  mk_goerror (prefix +:+ err_msg e) (err_reason e).

Definition has_reason (r : StatusReason) (e : goerror) : bool :=
  bool_decide (err_reason e = Some r).

(** The outcome of a Go call: a value, an [error], or a panic. *)
Inductive res (A : Type) : Type :=
  | Ok (a : A)
  | Err (e : goerror)
  | Panic (msg : string).
Arguments Ok {A} a.
Arguments Err {A} e.
Arguments Panic {A} msg.

Definition res_bind {A B} (m : res A) (f : A -> res B) : res B :=
  match m with
  | Ok a => f a
  | Err e => Err e
  | Panic s => Panic s
  end.

Definition res_map {A B} (f : A -> B) (m : res A) : res B :=
  res_bind m (fun a => Ok (f a)).

(** [if err != nil { return nil, fmt.Errorf("prefix: %w", err) }] *)
Definition res_wrap {A} (prefix : string) (m : res A) : res A :=
  match m with
  | Ok a => Ok a
  | Err e => Err (Wrapf prefix e)
  | Panic s => Panic s
  end.

Notation "'let?' x := m 'in' k" := (res_bind m (fun x => k))
  (at level 10, x pattern, m at level 100, k at level 200,
   format "'[hv' 'let?'  x  :=  m  'in'  '/' k ']'") : op_scope.

Definition is_ok {A} (m : res A) : bool :=
  match m with Ok _ => true | _ => false end.

(** The object of a call that returned one. *)
Definition ok_some {A} (d : A) (m : res (option A)) : A :=
  match m with Ok (Some a) => a | _ => d end.
Definition ok_or {A} (d : A) (m : res A) : A := match m with Ok a => a | _ => d end.

Lemma res_bind_ok {A B} (m : res A) (f : A -> res B) b :
  res_bind m f = Ok b <-> exists a, m = Ok a /\ f a = Ok b.
Proof.
  split; [|by intros (a & -> & ?)].
  destruct m; simpl; intros H; [by eauto|discriminate..].
Qed.

Lemma res_wrap_ok {A} p (m : res A) a : res_wrap p m = Ok a <-> m = Ok a.
Proof. by destruct m. Qed.

Lemma res_bind_assoc {A B C} (m : res A) (f : A -> res B) (g : B -> res C) :
  res_bind (res_bind m f) g = res_bind m (fun a => res_bind (f a) g).
Proof. by destruct m. Qed.

Lemma res_bind_ret {A} (m : res A) : res_bind m Ok = m.
Proof. by destruct m. Qed.

Lemma has_reason_wrap r p e : has_reason r (Wrapf p e) = has_reason r e.
Proof. reflexivity. Qed.

Lemma has_reason_errorf r s : has_reason r (Errorf s) = false.
Proof. reflexivity. Qed.

(** ** Nil pointers, zero values and defaults *)

(** [x == ""] *)
Definition str_empty (s : string) : bool :=
  match s with EmptyString => true | _ => false end.

(** [if x == "" { x = d }] *)
Definition default_str (d s : string) : string := if str_empty s then d else s.

(** [if x == 0 { x = d }] *)
Definition default_int (d n : Z) : Z := if (n =? 0)%Z then d else n.

(** [if p == nil { p = &d }] *)
Definition default_ptr {A} (d : A) (p : option A) : option A :=
  match p with None => Some d | Some _ => p end.

(** [if len(l) == 0 { l = d }] *)
Definition default_list {A} (d l : list A) : list A :=
  match l with [] => d | _ => l end.

(** [p != nil] *)
Definition non_nil {A} (p : option A) : bool := match p with Some _ => true | None => false end.

(** [p != nil && f(p)] *)
Definition ptr_test {A} (f : A -> bool) (p : option A) : bool :=
  match p with Some a => f a | None => false end.

(** [if b { l = append(l, x) }] *)
Definition append_if {A} (b : bool) (x : list A) : list A := if b then x else [].

#[global] Arguments default_str : simpl never.
#[global] Arguments default_int : simpl never.
#[global] Arguments default_ptr : simpl never.
#[global] Arguments default_list : simpl never.

Lemma str_empty_true s : str_empty s = true <-> s = "".
Proof. by destruct s. Qed.

Lemma str_empty_false s : str_empty s = false <-> s <> "".
Proof. by destruct s. Qed.

Lemma default_str_idemp d s : default_str d (default_str d s) = default_str d s.
Proof. by destruct s, d. Qed.

Lemma default_str_nonempty d s : d <> "" -> default_str d s <> "".
Proof. by destruct s. Qed.

Lemma default_str_id d s : s <> "" -> default_str d s = s.
Proof. by destruct s. Qed.

Lemma default_int_idemp d n : default_int d (default_int d n) = default_int d n.
Proof. unfold default_int. repeat case_match; lia. Qed.

Lemma default_int_nonzero d n : (d <> 0)%Z -> (default_int d n <> 0)%Z.
Proof. unfold default_int. case_match; lia. Qed.

Lemma default_int_id d n : (n <> 0)%Z -> default_int d n = n.
Proof. unfold default_int. case_match; lia. Qed.

Lemma default_ptr_idemp {A} (d : A) p : default_ptr d (default_ptr d p) = default_ptr d p.
Proof. by destruct p. Qed.

Lemma default_list_idemp {A} (d l : list A) :
  default_list d (default_list d l) = default_list d l.
Proof. by destruct l, d. Qed.

(** Updating through a pointer field: [if p != nil { f(p) }]. *)
Definition ptr_upd {A} (f : A -> A) (p : option A) : option A := f <$> p.

(** [if p != nil && b(p) { f(p) }] *)
Definition ptr_upd_if {A} (b : A -> bool) (f : A -> A) (p : option A) : option A :=
  (fun a => if b a then f a else a) <$> p.

(** [if p == nil { p = &d }; f(p)] *)
Definition alloc_upd {A} (d : A) (f : A -> A) (p : option A) : option A :=
  Some (f (match p with Some a => a | None => d end)).

#[global] Arguments alloc_upd : simpl never.
#[global] Arguments ptr_upd : simpl never.
#[global] Arguments ptr_upd_if : simpl never.

(** The tests a completed struct passes: [x != ""], [x != 0], [len(x) != 0];
    [ptr_all] holds vacuously of a nil pointer. *)
Definition is_set (s : string) : bool := negb (str_empty s).
Definition nonzero (n : Z) : bool := negb (n =? 0)%Z.
Definition non_empty {A} (l : list A) : bool := match l with [] => false | _ => true end.
Definition ptr_all {A} (f : A -> bool) (p : option A) : bool :=
  match p with Some a => f a | None => true end.

#[global] Arguments is_set : simpl never.
#[global] Arguments nonzero : simpl never.
#[global] Arguments non_empty : simpl never.
#[global] Arguments non_nil : simpl never.
#[global] Arguments ptr_all : simpl never.
#[global] Arguments ptr_test : simpl never.

(** A completion [f] of a struct with its test [c]: [f] reaches a complete
    struct and leaves a complete struct alone.  The guard of [ptr_upd_if]
    survives a completion that keeps the field it reads. *)
Class Completes {A} (c : A -> bool) (f : A -> A) : Prop := {
  compl_ok a : c (f a) = true;
  compl_id a : c a = true -> f a = a
}.
Class Keeps {A B} (g : A -> B) (f : A -> A) : Prop := keeps a : g (f a) = g a.

Lemma compl_idemp {A} (c : A -> bool) f a : Completes c f -> f (f a) = f a.
Proof. intros H. apply compl_id, compl_ok. Qed.

Lemma compl_fixed {A} (c : A -> bool) f a : Completes c f -> f a = a <-> c a = true.
Proof. intros H. split; [|apply compl_id]. intros <-. apply compl_ok. Qed.

Lemma default_str_completes d : is_set d = true -> Completes is_set (default_str d).
Proof. intros Hd. split; intros a; by destruct a. Qed.

Lemma default_int_completes d : nonzero d = true -> Completes nonzero (default_int d).
Proof.
  intros Hd. split; intros a; unfold default_int; destruct (a =? 0)%Z eqn:E; try done.
  - by rw /nonzero E.
  - by rw /nonzero E.
Qed.

Lemma default_list_completes {A} (d : list A) :
  non_empty d = true -> Completes non_empty (default_list d).
Proof. intros Hd. split; intros a; by destruct a. Qed.

#[export] Instance default_ptr_completes {A} (d : A) : Completes non_nil (default_ptr d).
Proof. split; intros a; by destruct a. Qed.

#[export] Hint Extern 2 (Completes is_set (default_str _)) =>
  apply default_str_completes; reflexivity : typeclass_instances.
#[export] Hint Extern 2 (Completes nonzero (default_int _)) =>
  apply default_int_completes; reflexivity : typeclass_instances.
#[export] Hint Extern 2 (Completes non_empty (default_list _)) =>
  apply default_list_completes; reflexivity : typeclass_instances.

#[export] Instance ptr_upd_completes {A} (c : A -> bool) f :
  Completes c f -> Completes (ptr_all c) (ptr_upd f).
Proof.
  intros H. split; intros [a|]; rw /ptr_upd /ptr_all //=; [apply compl_ok|].
  intros Ha. by rw compl_id.
Qed.

(** [c] holds where the guard [b] does. *)
Definition complete_if {A} (b c : A -> bool) (a : A) : bool := implb (b a) (c a).

#[export] Instance ptr_upd_if_completes {A} (b : A -> bool) (c : A -> bool) f :
  Keeps b f -> Completes c f -> Completes (ptr_all (complete_if b c)) (ptr_upd_if b f).
Proof.
  intros Hb H. split; intros [a|]; rw /ptr_upd_if /ptr_all /complete_if //=; destruct (b a) eqn:E.
  - by rw Hb E /= compl_ok.
  - by rw E.
  - intros Ha. by rw compl_id.
  - done.
Qed.

#[export] Instance alloc_upd_completes {A} (c : A -> bool) f (d : A) :
  Completes c f -> Completes (ptr_test c) (alloc_upd d f).
Proof.
  intros H. split; intros [a|]; rw /alloc_upd /ptr_test /=.
  - apply compl_ok.
  - apply compl_ok.
  - intros Ha. by rw compl_id.
  - done.
Qed.

Lemma ptr_upd_none {A} (f : A -> A) p : ptr_upd f p = None <-> p = None.
Proof. by destruct p. Qed.

Lemma non_nil_ptr_upd {A} (f : A -> A) p : non_nil (ptr_upd f p) = non_nil p.
Proof. by destruct p. Qed.

Lemma ptr_test_upd {A} (g : A -> bool) f p :
  Keeps g f -> ptr_test g (ptr_upd f p) = ptr_test g p.
Proof. intros H. destruct p; [|done]. apply H. Qed.

Lemma ptr_test_upd_if {A} (g : A -> bool) b f p :
  Keeps g f -> ptr_test g (ptr_upd_if b f p) = ptr_test g p.
Proof. intros H. destruct p as [a|]; [|done]. rw /ptr_upd_if /=. by destruct (b a); [apply H|]. Qed.

(** ** Machine integers *)

Definition int32_min : Z := (-2147483648)%Z.
Definition int32_max : Z := 2147483647%Z.
Definition is_int32 (n : Z) : bool := ((int32_min <=? n) && (n <=? int32_max))%Z.

Definition int64_min : Z := (-9223372036854775808)%Z.
Definition int64_max : Z := 9223372036854775807%Z.
Definition is_int64 (n : Z) : bool := ((int64_min <=? n) && (n <=? int64_max))%Z.

(** ** Strings *)

(** Control and quote characters, by code (a literal quote is avoided). *)
Definition chr (n : nat) : string := String (ascii_of_nat n) "".
Definition LF : string := chr 10.
Definition DQ : string := chr 34.

(** Concatenation of a list of fragments. *)
Definition str_concat (l : list string) : string := foldr String.append "" l.

Lemma string_app_cons c (a b : string) : String c a +:+ b = String c (a +:+ b).
Proof. reflexivity. Qed.

Lemma string_app_nil_l (a : string) : "" +:+ a = a.
Proof. reflexivity. Qed.

Lemma string_app_nil_r (s : string) : s +:+ "" = s.
Proof. induction s as [|c s IH]; [done|]. by rw string_app_cons IH. Qed.

Lemma string_app_assoc (a b c : string) : a +:+ (b +:+ c) = (a +:+ b) +:+ c.
Proof. induction a as [|x a IH]; [done|]. by rw !string_app_cons IH. Qed.

Lemma string_app_inj_l (a b c : string) : a +:+ b = a +:+ c -> b = c.
Proof.
  induction a as [|x a IH]; rw ?string_app_cons; [done|].
  intros [=]. auto.
Qed.

Lemma string_length_app (a b : string) :
  String.length (a +:+ b) = String.length a + String.length b.
Proof.
  induction a as [|x a IH]; [done|]. rw string_app_cons.
  simpl String.length. by rw IH.
Qed.

Lemma string_app_inj_r (a b c : string) : b +:+ a = c +:+ a -> b = c.
Proof.
  revert c. induction b as [|x b IH]; intros [|y c]; rw ?string_app_cons.
  - done.
  - intros H. apply (f_equal String.length) in H.
    rw string_app_nil_l in H. simpl in H. rw string_length_app in H. lia.
  - intros H. apply (f_equal String.length) in H.
    rw string_app_nil_l in H. simpl in H. rw string_length_app in H. lia.
  - intros [= -> H]. by rw (IH _ H).
Qed.

(** Two ways of splitting a text into a part and a suffix. *)
Lemma string_app_suffix (a b s t : string) :
  a +:+ s = b +:+ t -> String.length s <= String.length t -> exists u, t = u +:+ s /\ a = b +:+ u.
Proof.
  revert a. induction b as [|c b IH]; intros a He Hl; [by exists a|].
  destruct a as [|c' a]; rewrite -> !string_app_cons in He.
  - change (s = String c (b +:+ t)) in He. subst s. simpl in Hl. rw string_length_app in Hl. lia.
  - injection He as -> He. destruct (IH _ He Hl) as (u & -> & ->). by exists u.
Qed.

Lemma str_concat_cons s l : str_concat (s :: l) = s +:+ str_concat l.
Proof. reflexivity. Qed.

Lemma str_concat_app l1 l2 : str_concat (l1 ++ l2) = str_concat l1 +:+ str_concat l2.
Proof.
  induction l1 as [|x l1 IH]; [done|].
  by rw -app_comm_cons !str_concat_cons IH string_app_assoc.
Qed.

(** ** Automation

    [op_db] closes the goals the components share; [op_case] splits the
    conditionals and nil checks of a translated handler. *)

Create HintDb op_db discriminated.
Create Rewrite HintDb op_db.
Create Rewrite HintDb op_res.
#[export] Hint Constants Transparent : op_db.
#[export] Hint Resolve default_str_nonempty default_int_nonzero : op_db.
#[export] Hint Rewrite default_str_idemp default_int_idemp @default_ptr_idemp
  @default_list_idemp : op_db.
#[export] Hint Rewrite @res_bind_ok @res_wrap_ok : op_res.

Ltac op_inv :=
  repeat match goal with
  | H : res_bind _ _ = Ok _ |- _ => apply res_bind_ok in H as (? & ? & ?)
  | H : res_wrap _ _ = Ok _ |- _ => apply res_wrap_ok in H
  | H : Ok _ = Ok _ |- _ => injection H as H
  | H : Err _ = Ok _ |- _ => discriminate H
  | H : Panic _ = Ok _ |- _ => discriminate H
  end.

(** Completion of a record: expand the setters, then work field by field. *)
Ltac split_andb :=
  repeat match goal with
  | H : _ && _ = true |- _ => apply andb_true_iff in H as [? ?]
  end.

Ltac complete_id :=
  match goal with
  | |- ?x = ?x => reflexivity
  | H : ?c ?a = true |- ?f ?a = ?a => exact (@compl_id _ c f _ a H)
  end.

Ltac complete_fields :=
  repeat match goal with
  | |- _ && _ = true => apply andb_true_iff; split
  | |- true = true => reflexivity
  | |- ?c (?f ?a) = true => exact (@compl_ok _ c f _ a)
  end.

Ltac solve_completes :=
  split; intros r;
  [ cbn; complete_fields
  | destruct r; cbn; intros ?; split_andb; f_equal; complete_id ].

Ltac op_case := repeat (case_match; simplify_eq/=; try done).
