(* ===== verification/Kube.v ===== *)
(** * The Kubernetes objects the operator reads and writes

    The API machinery types of [k8s.io/api], [cert-manager] and the Prometheus
    operator are not code of this repository: the records below keep the fields
    the generators set or the controller reads, under their Go names (prefixed
    by the struct).  Parts that the operator only copies from the custom
    resource into a pod are opaque JSON values. *)

From S2P Require Import Prelude.

(** Opaque structured data that is only passed through. *)
#[warnings="-register-all"]
Inductive JSON : Type :=
  | JNull
  | JBool (b : bool)
  | JNumber (n : Z)
  | JString (s : string)
  | JList (l : list JSON)
  | JObject (l : list (string * JSON)).

(** A [resource.Quantity], by its serialised form.  Parsing and comparing
    quantities is library code: see [Quantities] in [Platform]. *)
Record Quantity := mkQuantity { q_text : string }.

#[export] Instance Quantity_eq_dec : EqDecision Quantity.
Proof. solve_decision. Defined.

(** [map[string]string] and [corev1.ResourceList]; a Go map that may be nil is
    an [option]. *)
Abbreviation StringMap := (gmap string string).
Abbreviation ResourceList := (gmap string Quantity).

(** ** References, environment and security *)

Record LocalObjectReference := mkLocalObjectReference {
  lor_Name : string
}.
#[export] Instance eta_LocalObjectReference : Settable LocalObjectReference := fun r =>
  mkLocalObjectReference r.(lor_Name).

(** [LocalObjectReference] is embedded in [SecretKeySelector]. *)
Record SecretKeySelector := mkSecretKeySelector {
  sks_Name : string;
  sks_Key : string;
  sks_Optional : option bool
}.
#[export] Instance eta_SecretKeySelector : Settable SecretKeySelector := fun r =>
  mkSecretKeySelector r.(sks_Name) r.(sks_Key) r.(sks_Optional).

Record EnvVarSource := mkEnvVarSource {
  evs_SecretKeyRef : option SecretKeySelector;
  evs_Other : JSON
}.
#[export] Instance eta_EnvVarSource : Settable EnvVarSource := fun r =>
  mkEnvVarSource r.(evs_SecretKeyRef) r.(evs_Other).

Record EnvVar := mkEnvVar {
  env_Name : string;
  env_Value : string;
  env_ValueFrom : option EnvVarSource
}.
#[export] Instance eta_EnvVar : Settable EnvVar := fun r =>
  mkEnvVar r.(env_Name) r.(env_Value) r.(env_ValueFrom).

Record ResourceRequirements := mkResourceRequirements {
  rr_Limits : option ResourceList;
  rr_Requests : option ResourceList;
  rr_Claims : list JSON
}.
#[export] Instance eta_ResourceRequirements : Settable ResourceRequirements := fun r =>
  mkResourceRequirements r.(rr_Limits) r.(rr_Requests) r.(rr_Claims).

Record SecurityContext := mkSecurityContext {
  sctx_AllowPrivilegeEscalation : option bool;
  sctx_ReadOnlyRootFilesystem : option bool;
  sctx_RunAsNonRoot : option bool;
  sctx_RunAsUser : option Z;
  sctx_CapabilitiesDrop : list string;
  sctx_Rest : JSON
}.
#[export] Instance eta_SecurityContext : Settable SecurityContext := fun r =>
  mkSecurityContext r.(sctx_AllowPrivilegeEscalation) r.(sctx_ReadOnlyRootFilesystem)
    r.(sctx_RunAsNonRoot) r.(sctx_RunAsUser) r.(sctx_CapabilitiesDrop) r.(sctx_Rest).

Record PodSecurityContext := mkPodSecurityContext {
  psctx_RunAsNonRoot : option bool;
  psctx_RunAsUser : option Z;
  psctx_FSGroup : option Z;
  psctx_Rest : JSON
}.
#[export] Instance eta_PodSecurityContext : Settable PodSecurityContext := fun r =>
  mkPodSecurityContext r.(psctx_RunAsNonRoot) r.(psctx_RunAsUser) r.(psctx_FSGroup)
    r.(psctx_Rest).

Definition Toleration := JSON.
Definition Affinity := JSON.

(** ** Object metadata *)

Record OwnerReference := mkOwnerReference {
  own_APIVersion : string;
  own_Kind : string;
  own_Name : string;
  own_UID : string;
  own_Controller : bool;
  own_BlockOwnerDeletion : bool
}.
#[export] Instance eta_OwnerReference : Settable OwnerReference := fun r =>
  mkOwnerReference r.(own_APIVersion) r.(own_Kind) r.(own_Name) r.(own_UID) r.(own_Controller)
    r.(own_BlockOwnerDeletion).

Record ObjectMeta := mkObjectMeta {
  om_Name : string;
  om_Namespace : string;
  om_UID : string;
  om_ResourceVersion : string;
  om_Generation : Z;
  om_Labels : StringMap;
  om_Annotations : option StringMap;
  om_Finalizers : list string;
  om_OwnerReferences : list OwnerReference;
  om_DeletionTimestamp : option Z
}.
#[export] Instance eta_ObjectMeta : Settable ObjectMeta := fun r =>
  mkObjectMeta r.(om_Name) r.(om_Namespace) r.(om_UID) r.(om_ResourceVersion) r.(om_Generation)
    r.(om_Labels) r.(om_Annotations) r.(om_Finalizers) r.(om_OwnerReferences)
    r.(om_DeletionTimestamp).

(** The metadata literal the generators write: everything else is zero. *)
Definition newMeta (name namespace : string) (labels : StringMap)
    (annotations : option StringMap) : ObjectMeta :=
  mkObjectMeta name namespace "" "" 0 labels annotations [] [] None.

Record TypeMeta := mkTypeMeta {
  tm_APIVersion : string;
  tm_Kind : string
}.
#[export] Instance eta_TypeMeta : Settable TypeMeta := fun r =>
  mkTypeMeta r.(tm_APIVersion) r.(tm_Kind).

(** [metav1.Condition]; [LastTransitionTime] is stamped by the library from the
    clock and never read by the operator, so it is left out. *)
Inductive ConditionStatus : Set := ConditionTrue | ConditionFalse | ConditionUnknown.

#[export] Instance ConditionStatus_eq_dec : EqDecision ConditionStatus.
Proof. solve_decision. Defined.

Record Condition := mkCondition {
  cond_Type : string;
  cond_Status : ConditionStatus;
  cond_ObservedGeneration : Z;
  cond_Reason : string;
  cond_Message : string
}.
#[export] Instance eta_Condition : Settable Condition := fun r =>
  mkCondition r.(cond_Type) r.(cond_Status) r.(cond_ObservedGeneration) r.(cond_Reason)
    r.(cond_Message).

(** ** Pods *)

Inductive IntOrString : Set := FromInt (n : Z) | FromString (s : string).

#[export] Instance IntOrString_eq_dec : EqDecision IntOrString.
Proof. solve_decision. Defined.

Record ContainerPort := mkContainerPort {
  cp_Name : string;
  cp_ContainerPort : Z;
  cp_Protocol : string
}.
#[export] Instance eta_ContainerPort : Settable ContainerPort := fun r =>
  mkContainerPort r.(cp_Name) r.(cp_ContainerPort) r.(cp_Protocol).

Record VolumeMount := mkVolumeMount {
  vm_Name : string;
  vm_MountPath : string;
  vm_SubPath : string;
  vm_ReadOnly : bool
}.
#[export] Instance eta_VolumeMount : Settable VolumeMount := fun r =>
  mkVolumeMount r.(vm_Name) r.(vm_MountPath) r.(vm_SubPath) r.(vm_ReadOnly).

Inductive ProbeHandler : Set :=
  | HTTPGet (path : string) (port : IntOrString) (scheme : string)
  | TCPSocket (port : IntOrString)
  | Exec (command : list string).

Record Probe := mkProbe {
  probe_Handler : ProbeHandler;
  probe_InitialDelaySeconds : Z;
  probe_PeriodSeconds : Z;
  probe_TimeoutSeconds : Z;
  probe_SuccessThreshold : Z;
  probe_FailureThreshold : Z
}.
#[export] Instance eta_Probe : Settable Probe := fun r =>
  mkProbe r.(probe_Handler) r.(probe_InitialDelaySeconds) r.(probe_PeriodSeconds)
    r.(probe_TimeoutSeconds) r.(probe_SuccessThreshold) r.(probe_FailureThreshold).

Record Container := mkContainer {
  c_Name : string;
  c_Image : string;
  c_ImagePullPolicy : string;
  c_Command : list string;
  c_Args : list string;
  c_Ports : list ContainerPort;
  c_Env : list EnvVar;
  c_VolumeMounts : list VolumeMount;
  c_Resources : ResourceRequirements;
  c_LivenessProbe : option Probe;
  c_ReadinessProbe : option Probe;
  c_SecurityContext : option SecurityContext
}.
#[export] Instance eta_Container : Settable Container := fun r =>
  mkContainer r.(c_Name) r.(c_Image) r.(c_ImagePullPolicy) r.(c_Command) r.(c_Args) r.(c_Ports)
    r.(c_Env) r.(c_VolumeMounts) r.(c_Resources) r.(c_LivenessProbe) r.(c_ReadinessProbe)
    r.(c_SecurityContext).

(** The zero [corev1.ResourceRequirements]. *)
Definition noResources : ResourceRequirements := mkResourceRequirements None None [].

Inductive VolumeSource : Set :=
  | VolumeConfigMap (name : string)
  | VolumePVC (claimName : string)
  | VolumeEmptyDir
  | VolumeSecret (secretName : string).

Record Volume := mkVolume {
  vol_Name : string;
  vol_Source : VolumeSource
}.
#[export] Instance eta_Volume : Settable Volume := fun r =>
  mkVolume r.(vol_Name) r.(vol_Source).

Record PodSpec := mkPodSpec {
  ps_InitContainers : list Container;
  ps_Containers : list Container;
  ps_Volumes : list Volume;
  ps_ImagePullSecrets : list LocalObjectReference;
  ps_NodeSelector : option StringMap;
  ps_Tolerations : list Toleration;
  ps_Affinity : option Affinity;
  ps_SecurityContext : option PodSecurityContext;
  ps_RestartPolicy : string
}.
#[export] Instance eta_PodSpec : Settable PodSpec := fun r =>
  mkPodSpec r.(ps_InitContainers) r.(ps_Containers) r.(ps_Volumes) r.(ps_ImagePullSecrets)
    r.(ps_NodeSelector) r.(ps_Tolerations) r.(ps_Affinity) r.(ps_SecurityContext)
    r.(ps_RestartPolicy).

Record PodTemplateSpec := mkPodTemplateSpec {
  pt_Labels : StringMap;
  pt_Annotations : option StringMap;
  pt_Spec : PodSpec
}.
#[export] Instance eta_PodTemplateSpec : Settable PodTemplateSpec := fun r =>
  mkPodTemplateSpec r.(pt_Labels) r.(pt_Annotations) r.(pt_Spec).

(** ** Objects *)

Record ConfigMap := mkConfigMap {
  cfg_TypeMeta : TypeMeta;
  cfg_Meta : ObjectMeta;
  cfg_Data : option StringMap
}.
#[export] Instance eta_ConfigMap : Settable ConfigMap := fun r =>
  mkConfigMap r.(cfg_TypeMeta) r.(cfg_Meta) r.(cfg_Data).

(** [StringData] is write-only: the API server merges it into [Data]. *)
Record Secret := mkSecret {
  sec_TypeMeta : TypeMeta;
  sec_Meta : ObjectMeta;
  sec_Type : string;
  sec_Data : StringMap;
  sec_StringData : StringMap
}.
#[export] Instance eta_Secret : Settable Secret := fun r =>
  mkSecret r.(sec_TypeMeta) r.(sec_Meta) r.(sec_Type) r.(sec_Data) r.(sec_StringData).

Record ServicePort := mkServicePort {
  sp_Name : string;
  sp_Port : Z;
  sp_TargetPort : IntOrString;
  sp_Protocol : string
}.
#[export] Instance eta_ServicePort : Settable ServicePort := fun r =>
  mkServicePort r.(sp_Name) r.(sp_Port) r.(sp_TargetPort) r.(sp_Protocol).

Record Service := mkService {
  svco_TypeMeta : TypeMeta;
  svco_Meta : ObjectMeta;
  svco_Type : string;
  svco_Selector : StringMap;
  svco_Ports : list ServicePort;
  svco_ClusterIP : string;
  svco_LoadBalancerIP : string
}.
#[export] Instance eta_Service : Settable Service := fun r =>
  mkService r.(svco_TypeMeta) r.(svco_Meta) r.(svco_Type) r.(svco_Selector) r.(svco_Ports)
    r.(svco_ClusterIP) r.(svco_LoadBalancerIP).

Record PersistentVolumeClaim := mkPersistentVolumeClaim {
  pvc_TypeMeta : TypeMeta;
  pvc_Meta : ObjectMeta;
  pvc_AccessModes : list string;
  pvc_Requests : ResourceList;
  pvc_StorageClassName : option string
}.
#[export] Instance eta_PersistentVolumeClaim : Settable PersistentVolumeClaim := fun r =>
  mkPersistentVolumeClaim r.(pvc_TypeMeta) r.(pvc_Meta) r.(pvc_AccessModes) r.(pvc_Requests)
    r.(pvc_StorageClassName).

Record Deployment := mkDeployment {
  dep_TypeMeta : TypeMeta;
  dep_Meta : ObjectMeta;
  dep_Replicas : option Z;
  dep_Selector : StringMap;
  dep_StrategyType : string;
  dep_MaxUnavailable : IntOrString;
  dep_MaxSurge : IntOrString;
  dep_Template : PodTemplateSpec;
  dep_ReadyReplicas : Z;
  dep_UpdatedReplicas : Z;
  dep_AvailableReplicas : Z
}.
#[export] Instance eta_Deployment : Settable Deployment := fun r =>
  mkDeployment r.(dep_TypeMeta) r.(dep_Meta) r.(dep_Replicas) r.(dep_Selector)
    r.(dep_StrategyType) r.(dep_MaxUnavailable) r.(dep_MaxSurge) r.(dep_Template)
    r.(dep_ReadyReplicas) r.(dep_UpdatedReplicas) r.(dep_AvailableReplicas).

Record StatefulSet := mkStatefulSet {
  sts_TypeMeta : TypeMeta;
  sts_Meta : ObjectMeta;
  sts_Replicas : option Z;
  sts_ServiceName : string;
  sts_Selector : StringMap;
  sts_Template : PodTemplateSpec;
  sts_VolumeClaimTemplates : list PersistentVolumeClaim;
  sts_ReadyReplicas : Z;
  sts_CurrentReplicas : Z;
  sts_UpdatedReplicas : Z
}.
#[export] Instance eta_StatefulSet : Settable StatefulSet := fun r =>
  mkStatefulSet r.(sts_TypeMeta) r.(sts_Meta) r.(sts_Replicas) r.(sts_ServiceName)
    r.(sts_Selector) r.(sts_Template) r.(sts_VolumeClaimTemplates) r.(sts_ReadyReplicas)
    r.(sts_CurrentReplicas) r.(sts_UpdatedReplicas).

Record CronJob := mkCronJob {
  cj_TypeMeta : TypeMeta;
  cj_Meta : ObjectMeta;
  cj_Schedule : string;
  cj_ConcurrencyPolicy : string;
  cj_SuccessfulJobsHistoryLimit : option Z;
  cj_FailedJobsHistoryLimit : option Z;
  cj_Template : PodTemplateSpec
}.
#[export] Instance eta_CronJob : Settable CronJob := fun r =>
  mkCronJob r.(cj_TypeMeta) r.(cj_Meta) r.(cj_Schedule) r.(cj_ConcurrencyPolicy)
    r.(cj_SuccessfulJobsHistoryLimit) r.(cj_FailedJobsHistoryLimit) r.(cj_Template).

Record Job := mkJob {
  job_TypeMeta : TypeMeta;
  job_Meta : ObjectMeta;
  job_BackoffLimit : option Z;
  job_TTLSecondsAfterFinished : option Z;
  job_Template : PodTemplateSpec
}.
#[export] Instance eta_Job : Settable Job := fun r =>
  mkJob r.(job_TypeMeta) r.(job_Meta) r.(job_BackoffLimit) r.(job_TTLSecondsAfterFinished)
    r.(job_Template).

Record IngressTLS := mkIngressTLS {
  itls_Hosts : list string;
  itls_SecretName : string
}.
#[export] Instance eta_IngressTLS : Settable IngressTLS := fun r =>
  mkIngressTLS r.(itls_Hosts) r.(itls_SecretName).

(** One rule with one HTTP path, the only shape the generators emit. *)
Record IngressRule := mkIngressRule {
  ir_Host : string;
  ir_Path : string;
  ir_PathType : string;
  ir_ServiceName : string;
  ir_ServicePort : Z
}.
#[export] Instance eta_IngressRule : Settable IngressRule := fun r =>
  mkIngressRule r.(ir_Host) r.(ir_Path) r.(ir_PathType) r.(ir_ServiceName) r.(ir_ServicePort).

Record Ingress := mkIngress {
  ingo_TypeMeta : TypeMeta;
  ingo_Meta : ObjectMeta;
  ingo_ClassName : option string;
  ingo_Rules : list IngressRule;
  ingo_TLS : list IngressTLS;
  ingo_LoadBalancerIngress : list string
}.
#[export] Instance eta_Ingress : Settable Ingress := fun r =>
  mkIngress r.(ingo_TypeMeta) r.(ingo_Meta) r.(ingo_ClassName) r.(ingo_Rules) r.(ingo_TLS)
    r.(ingo_LoadBalancerIngress).

(** Durations are [time.Duration], int64 nanoseconds. *)
Record Certificate := mkCertificate {
  crt_TypeMeta : TypeMeta;
  crt_Meta : ObjectMeta;
  crt_SecretName : string;
  crt_DNSNames : list string;
  crt_IssuerName : string;
  crt_IssuerKind : string;
  crt_IssuerGroup : string;
  crt_Duration : Z;
  crt_RenewBefore : Z;
  crt_Usages : list string
}.
#[export] Instance eta_Certificate : Settable Certificate := fun r =>
  mkCertificate r.(crt_TypeMeta) r.(crt_Meta) r.(crt_SecretName) r.(crt_DNSNames)
    r.(crt_IssuerName) r.(crt_IssuerKind) r.(crt_IssuerGroup) r.(crt_Duration)
    r.(crt_RenewBefore) r.(crt_Usages).

Record PodMetricsEndpoint := mkPodMetricsEndpoint {
  pme_Port : string;
  pme_Path : string
}.
#[export] Instance eta_PodMetricsEndpoint : Settable PodMetricsEndpoint := fun r =>
  mkPodMetricsEndpoint r.(pme_Port) r.(pme_Path).

Record PodMonitor := mkPodMonitor {
  pm_TypeMeta : TypeMeta;
  pm_Meta : ObjectMeta;
  pm_Selector : StringMap;
  pm_PodMetricsEndpoints : list PodMetricsEndpoint
}.
#[export] Instance eta_PodMonitor : Settable PodMonitor := fun r =>
  mkPodMonitor r.(pm_TypeMeta) r.(pm_Meta) r.(pm_Selector) r.(pm_PodMetricsEndpoints).

(** [client.Object]: anything the operator creates or applies. *)
Inductive Object : Type :=
  | OConfigMap (o : ConfigMap)
  | OSecret (o : Secret)
  | OService (o : Service)
  | OPVC (o : PersistentVolumeClaim)
  | ODeployment (o : Deployment)
  | OStatefulSet (o : StatefulSet)
  | OCronJob (o : CronJob)
  | OJob (o : Job)
  | OIngress (o : Ingress)
  | OCertificate (o : Certificate)
  | OPodMonitor (o : PodMonitor).

(** [GetObjectMeta] *)
Definition object_meta (o : Object) : ObjectMeta :=
  match o with
  | OConfigMap o => o.(cfg_Meta)
  | OSecret o => o.(sec_Meta)
  | OService o => o.(svco_Meta)
  | OPVC o => o.(pvc_Meta)
  | ODeployment o => o.(dep_Meta)
  | OStatefulSet o => o.(sts_Meta)
  | OCronJob o => o.(cj_Meta)
  | OJob o => o.(job_Meta)
  | OIngress o => o.(ingo_Meta)
  | OCertificate o => o.(crt_Meta)
  | OPodMonitor o => o.(pm_Meta)
  end.

(** [GetObjectKind]: what the generator wrote in [TypeMeta]. *)
Definition object_type (o : Object) : TypeMeta :=
  match o with
  | OConfigMap o => o.(cfg_TypeMeta)
  | OSecret o => o.(sec_TypeMeta)
  | OService o => o.(svco_TypeMeta)
  | OPVC o => o.(pvc_TypeMeta)
  | ODeployment o => o.(dep_TypeMeta)
  | OStatefulSet o => o.(sts_TypeMeta)
  | OCronJob o => o.(cj_TypeMeta)
  | OJob o => o.(job_TypeMeta)
  | OIngress o => o.(ingo_TypeMeta)
  | OCertificate o => o.(crt_TypeMeta)
  | OPodMonitor o => o.(pm_TypeMeta)
  end.

(** ** Shapes shared by the generators *)

(** [corev1.EnvVar{Name: n, Value: v}] *)
Definition envValue (name value : string) : EnvVar := mkEnvVar name value None.

(** [corev1.EnvVar{Name: n, ValueFrom: &EnvVarSource{SecretKeyRef: ref}}]; the
    reference is a pointer that the Go code may leave nil. *)
Definition envSecret (name : string) (ref : option SecretKeySelector) : EnvVar :=
  mkEnvVar name "" (Some (mkEnvVarSource ref JNull)).

(** [intstr.FromString], [corev1.ProtocolTCP] *)
Definition ProtocolTCP : string := "TCP".
Definition PullIfNotPresent : string := "IfNotPresent".
Definition ServiceTypeClusterIP : string := "ClusterIP".
Definition ServiceTypeLoadBalancer : string := "LoadBalancer".
Definition ReadWriteOnce : string := "ReadWriteOnce".
Definition SecretTypeOpaque : string := "Opaque".

Definition tcpPort (name : string) (port : Z) : ContainerPort :=
  mkContainerPort name port ProtocolTCP.

(** The names a pod spec declares and uses. *)
Definition volume_names (p : PodSpec) : list string := vol_Name <$> p.(ps_Volumes).
Definition mount_names (c : Container) : list string := vm_Name <$> c.(c_VolumeMounts).
Definition port_names (c : Container) : list string := cp_Name <$> c.(c_Ports).
Definition env_names (l : list EnvVar) : list string := env_Name <$> l.

(** A label selector matches a label set when it is contained in it. *)
Definition selects (selector labels : StringMap) : Prop := selector ⊆ labels.
