(* ===== verification/Types.v ===== *)
(** * The CashuMint API: [api/v1alpha1/cashumint_types.go]

    One record per Go struct, under its Go field names prefixed by the struct.
    Pointers are [option]s, [int32]/[int64] are [Z] (see [is_int32]), a
    [float64] is a [spec_float], the IEEE 754 value itself, and string enums
    stay strings because the code compares them with literals and with the
    empty string. *)

From Stdlib Require Export SpecFloat.
From S2P Require Import Prelude Kube.

(** ** Constants *)

(** [cashumint_types.go: DatabaseEnginePostgres] *)
Definition DatabaseEnginePostgres : string := "postgres".
(** [cashumint_types.go: DatabaseEngineSQLite] *)
Definition DatabaseEngineSQLite : string := "sqlite".
(** [cashumint_types.go: DatabaseEngineRedb] *)
Definition DatabaseEngineRedb : string := "redb".

(** [cashumint_types.go: DefaultListenHost] *)
Definition DefaultListenHost : string := "0.0.0.0".
(** [cashumint_types.go: DefaultLoopbackHost] *)
Definition DefaultLoopbackHost : string := "127.0.0.1".
(** [cashumint_types.go: DefaultStorageSize] *)
Definition DefaultStorageSize : string := "10Gi".
(** [cashumint_types.go: DefaultClusterIssuerKind] *)
Definition DefaultClusterIssuerKind : string := "ClusterIssuer".
(** [cashumint_types.go: DefaultIngressClassName] *)
Definition DefaultIngressClassName : string := "nginx".
(** [cashumint_types.go: DefaultMintImage] *)
Definition DefaultMintImage : string := "cashubtc/mintd:0.16".
(** [cashumint_types.go: DefaultOrchardSQLiteImage] *)
Definition DefaultOrchardSQLiteImage : string := "ghcr.io/cashubtc/orchard-mintdb-sqlite:1.8.1".
(** [cashumint_types.go: DefaultOrchardPostgresImage] *)
Definition DefaultOrchardPostgresImage : string := "ghcr.io/cashubtc/orchard-mintdb-postgres:1.8.1".
(** [cashumint_types.go: DefaultPrometheusPort] *)
Definition DefaultPrometheusPort : Z := 9000.

(** [cashumint_types.go: PaymentBackendLND] *)
Definition PaymentBackendLND : string := "lnd".
(** [cashumint_types.go: PaymentBackendCLN] *)
Definition PaymentBackendCLN : string := "cln".
(** [cashumint_types.go: PaymentBackendLNBits] *)
Definition PaymentBackendLNBits : string := "lnbits".
(** [cashumint_types.go: PaymentBackendFakeWallet] *)
Definition PaymentBackendFakeWallet : string := "fakewallet".
(** [cashumint_types.go: PaymentBackendGRPCProcessor] *)
Definition PaymentBackendGRPCProcessor : string := "grpcprocessor".

(** [cashumint_types.go: AuthLevel] *)
Definition AuthLevel : Set := string.
(** [cashumint_types.go: AuthLevelClear] *)
Definition AuthLevelClear : AuthLevel := "clear".

Definition float64 : Set := spec_float.

(** ** The spec, leaves first *)

(** [cashumint_types.go: QuoteTTLConfig] *)
Record QuoteTTLConfig := mkQuoteTTLConfig {
  qt_MintTTL : option Z;
  qt_MeltTTL : option Z
}.
#[export] Instance eta_QuoteTTLConfig : Settable QuoteTTLConfig := fun r =>
  mkQuoteTTLConfig r.(qt_MintTTL) r.(qt_MeltTTL).

(** [cashumint_types.go: MintInfo] *)
Record MintInfo := mkMintInfo {
  mi_URL : string;
  mi_ListenHost : string;
  mi_ListenPort : Z;
  mi_MnemonicSecretRef : option SecretKeySelector;
  mi_AutoGenerateMnemonic : bool;
  mi_Name : string;
  mi_Description : string;
  mi_DescriptionLong : string;
  mi_MOTD : string;
  mi_PubkeyHex : string;
  mi_IconURL : string;
  mi_ContactEmail : string;
  mi_ContactNostrPubkey : string;
  mi_TosURL : string;
  mi_InputFeePPK : option Z;
  mi_EnableSwaggerUI : bool;
  mi_UseKeysetV2 : option bool;
  mi_QuoteTTL : option QuoteTTLConfig
}.
#[export] Instance eta_MintInfo : Settable MintInfo := fun r =>
  mkMintInfo r.(mi_URL) r.(mi_ListenHost) r.(mi_ListenPort) r.(mi_MnemonicSecretRef)
    r.(mi_AutoGenerateMnemonic) r.(mi_Name) r.(mi_Description) r.(mi_DescriptionLong)
    r.(mi_MOTD) r.(mi_PubkeyHex) r.(mi_IconURL) r.(mi_ContactEmail) r.(mi_ContactNostrPubkey)
    r.(mi_TosURL) r.(mi_InputFeePPK) r.(mi_EnableSwaggerUI) r.(mi_UseKeysetV2) r.(mi_QuoteTTL).

(** [cashumint_types.go: PostgresAutoProvisionSpec] *)
Record PostgresAutoProvisionSpec := mkPostgresAutoProvisionSpec {
  ap_StorageSize : string;
  ap_StorageClassName : option string;
  ap_Resources : option ResourceRequirements;
  ap_Version : string
}.
#[export] Instance eta_PostgresAutoProvisionSpec : Settable PostgresAutoProvisionSpec := fun r =>
  mkPostgresAutoProvisionSpec r.(ap_StorageSize) r.(ap_StorageClassName) r.(ap_Resources)
    r.(ap_Version).

(** [cashumint_types.go: PostgresConfig] *)
Record PostgresConfig := mkPostgresConfig {
  pg_URL : string;
  pg_URLSecretRef : option SecretKeySelector;
  pg_TLSMode : string;
  pg_MaxConnections : option Z;
  pg_ConnectionTimeoutSeconds : option Z;
  pg_AutoProvision : bool;
  pg_AutoProvisionSpec : option PostgresAutoProvisionSpec
}.
#[export] Instance eta_PostgresConfig : Settable PostgresConfig := fun r =>
  mkPostgresConfig r.(pg_URL) r.(pg_URLSecretRef) r.(pg_TLSMode) r.(pg_MaxConnections)
    r.(pg_ConnectionTimeoutSeconds) r.(pg_AutoProvision) r.(pg_AutoProvisionSpec).

(** [cashumint_types.go: SQLiteConfig] *)
Record SQLiteConfig := mkSQLiteConfig {
  sq_DataDir : string
}.
#[export] Instance eta_SQLiteConfig : Settable SQLiteConfig := fun r =>
  mkSQLiteConfig r.(sq_DataDir).

(** [cashumint_types.go: DatabaseConfig] *)
Record DatabaseConfig := mkDatabaseConfig {
  db_Engine : string;
  db_Postgres : option PostgresConfig;
  db_SQLite : option SQLiteConfig
}.
#[export] Instance eta_DatabaseConfig : Settable DatabaseConfig := fun r =>
  mkDatabaseConfig r.(db_Engine) r.(db_Postgres) r.(db_SQLite).

(** [cashumint_types.go: AuthDatabaseConfig] *)
Record AuthDatabaseConfig := mkAuthDatabaseConfig {
  adb_Postgres : option PostgresConfig
}.
#[export] Instance eta_AuthDatabaseConfig : Settable AuthDatabaseConfig := fun r =>
  mkAuthDatabaseConfig r.(adb_Postgres).

(** [cashumint_types.go: LNDConfig] *)
Record LNDConfig := mkLNDConfig {
  lnd_Address : string;
  lnd_MacaroonSecretRef : option SecretKeySelector;
  lnd_CertSecretRef : option SecretKeySelector;
  lnd_FeePercent : option float64;
  lnd_ReserveFeeMin : option Z
}.
#[export] Instance eta_LNDConfig : Settable LNDConfig := fun r =>
  mkLNDConfig r.(lnd_Address) r.(lnd_MacaroonSecretRef) r.(lnd_CertSecretRef)
    r.(lnd_FeePercent) r.(lnd_ReserveFeeMin).

(** [cashumint_types.go: CLNConfig] *)
Record CLNConfig := mkCLNConfig {
  cln_RPCPath : string;
  cln_Bolt12 : option bool;
  cln_FeePercent : option float64;
  cln_ReserveFeeMin : option Z
}.
#[export] Instance eta_CLNConfig : Settable CLNConfig := fun r =>
  mkCLNConfig r.(cln_RPCPath) r.(cln_Bolt12) r.(cln_FeePercent) r.(cln_ReserveFeeMin).

(** [cashumint_types.go: LNBitsConfig] *)
Record LNBitsConfig := mkLNBitsConfig {
  lnb_API : string;
  lnb_AdminAPIKeySecretRef : SecretKeySelector;
  lnb_InvoiceAPIKeySecretRef : SecretKeySelector;
  lnb_RetroAPI : bool;
  lnb_FeePercent : option float64;
  lnb_ReserveFeeMin : option Z
}.
#[export] Instance eta_LNBitsConfig : Settable LNBitsConfig := fun r =>
  mkLNBitsConfig r.(lnb_API) r.(lnb_AdminAPIKeySecretRef) r.(lnb_InvoiceAPIKeySecretRef)
    r.(lnb_RetroAPI) r.(lnb_FeePercent) r.(lnb_ReserveFeeMin).

(** [cashumint_types.go: FakeWalletConfig] *)
Record FakeWalletConfig := mkFakeWalletConfig {
  fw_SupportedUnits : list string;
  fw_FeePercent : option float64;
  fw_ReserveFeeMin : option Z;
  fw_MinDelayTime : option Z;
  fw_MaxDelayTime : option Z
}.
#[export] Instance eta_FakeWalletConfig : Settable FakeWalletConfig := fun r =>
  mkFakeWalletConfig r.(fw_SupportedUnits) r.(fw_FeePercent) r.(fw_ReserveFeeMin)
    r.(fw_MinDelayTime) r.(fw_MaxDelayTime).

(** [cashumint_types.go: SidecarProcessorConfig] *)
Record SidecarProcessorConfig := mkSidecarProcessorConfig {
  sc_Enabled : bool;
  sc_Image : string;
  sc_ImagePullPolicy : string;
  sc_Command : list string;
  sc_Args : list string;
  sc_Env : list EnvVar;
  sc_WorkingDir : string;
  sc_Resources : option ResourceRequirements;
  sc_EnableTLS : bool;
  sc_TLSSecretRef : option SecretKeySelector
}.
#[export] Instance eta_SidecarProcessorConfig : Settable SidecarProcessorConfig := fun r =>
  mkSidecarProcessorConfig r.(sc_Enabled) r.(sc_Image) r.(sc_ImagePullPolicy) r.(sc_Command)
    r.(sc_Args) r.(sc_Env) r.(sc_WorkingDir) r.(sc_Resources) r.(sc_EnableTLS)
    r.(sc_TLSSecretRef).

(** [cashumint_types.go: GRPCProcessorConfig] *)
Record GRPCProcessorConfig := mkGRPCProcessorConfig {
  gp_Address : string;
  gp_Port : Z;
  gp_SupportedUnits : list string;
  gp_TLSSecretRef : option SecretKeySelector;
  gp_SidecarProcessor : option SidecarProcessorConfig
}.
#[export] Instance eta_GRPCProcessorConfig : Settable GRPCProcessorConfig := fun r =>
  mkGRPCProcessorConfig r.(gp_Address) r.(gp_Port) r.(gp_SupportedUnits) r.(gp_TLSSecretRef)
    r.(gp_SidecarProcessor).

(** [cashumint_types.go: PaymentBackendConfig] *)
Record PaymentBackendConfig := mkPaymentBackendConfig {
  pb_MinMint : option Z;
  pb_MaxMint : option Z;
  pb_MinMelt : option Z;
  pb_MaxMelt : option Z;
  pb_LND : option LNDConfig;
  pb_CLN : option CLNConfig;
  pb_LNBits : option LNBitsConfig;
  pb_FakeWallet : option FakeWalletConfig;
  pb_GRPCProcessor : option GRPCProcessorConfig
}.
#[export] Instance eta_PaymentBackendConfig : Settable PaymentBackendConfig := fun r =>
  mkPaymentBackendConfig r.(pb_MinMint) r.(pb_MaxMint) r.(pb_MinMelt) r.(pb_MaxMelt) r.(pb_LND)
    r.(pb_CLN) r.(pb_LNBits) r.(pb_FakeWallet) r.(pb_GRPCProcessor).

(** [cashumint_types.go: BitcoinRPCConfig] *)
Record BitcoinRPCConfig := mkBitcoinRPCConfig {
  brpc_Host : string;
  brpc_Port : Z;
  brpc_UserSecretRef : SecretKeySelector;
  brpc_PasswordSecretRef : SecretKeySelector
}.
#[export] Instance eta_BitcoinRPCConfig : Settable BitcoinRPCConfig := fun r =>
  mkBitcoinRPCConfig r.(brpc_Host) r.(brpc_Port) r.(brpc_UserSecretRef)
    r.(brpc_PasswordSecretRef).

(** [cashumint_types.go: LDKNodeConfig] *)
Record LDKNodeConfig := mkLDKNodeConfig {
  ldk_Enabled : bool;
  ldk_Image : string;
  ldk_FeePercent : option float64;
  ldk_ReserveFeeMin : option Z;
  ldk_BitcoinNetwork : string;
  ldk_ChainSourceType : string;
  ldk_EsploraURL : string;
  ldk_BitcoinRPC : option BitcoinRPCConfig;
  ldk_StorageDirPath : string;
  ldk_LogDirPath : string;
  ldk_MnemonicSecretRef : option SecretKeySelector;
  ldk_Host : string;
  ldk_Port : Z;
  ldk_AnnounceAddresses : list string;
  ldk_GossipSourceType : string;
  ldk_RGSURL : string;
  ldk_WebserverHost : string;
  ldk_WebserverPort : Z
}.
#[export] Instance eta_LDKNodeConfig : Settable LDKNodeConfig := fun r =>
  mkLDKNodeConfig r.(ldk_Enabled) r.(ldk_Image) r.(ldk_FeePercent) r.(ldk_ReserveFeeMin)
    r.(ldk_BitcoinNetwork) r.(ldk_ChainSourceType) r.(ldk_EsploraURL) r.(ldk_BitcoinRPC)
    r.(ldk_StorageDirPath) r.(ldk_LogDirPath) r.(ldk_MnemonicSecretRef) r.(ldk_Host)
    r.(ldk_Port) r.(ldk_AnnounceAddresses) r.(ldk_GossipSourceType) r.(ldk_RGSURL)
    r.(ldk_WebserverHost) r.(ldk_WebserverPort).

(** [cashumint_types.go: AuthConfig] *)
Record AuthConfig := mkAuthConfig {
  auth_Enabled : bool;
  auth_OpenIDDiscovery : string;
  auth_OpenIDClientID : string;
  auth_MintMaxBat : option Z;
  auth_Mint : AuthLevel;
  auth_GetMintQuote : AuthLevel;
  auth_CheckMintQuote : AuthLevel;
  auth_Melt : AuthLevel;
  auth_GetMeltQuote : AuthLevel;
  auth_CheckMeltQuote : AuthLevel;
  auth_Swap : AuthLevel;
  auth_Restore : AuthLevel;
  auth_CheckProofState : AuthLevel;
  auth_Database : option AuthDatabaseConfig
}.
#[export] Instance eta_AuthConfig : Settable AuthConfig := fun r =>
  mkAuthConfig r.(auth_Enabled) r.(auth_OpenIDDiscovery) r.(auth_OpenIDClientID)
    r.(auth_MintMaxBat) r.(auth_Mint) r.(auth_GetMintQuote) r.(auth_CheckMintQuote)
    r.(auth_Melt) r.(auth_GetMeltQuote) r.(auth_CheckMeltQuote) r.(auth_Swap) r.(auth_Restore)
    r.(auth_CheckProofState) r.(auth_Database).

(** [cashumint_types.go: RedisCacheConfig] *)
Record RedisCacheConfig := mkRedisCacheConfig {
  rc_KeyPrefix : string;
  rc_ConnectionString : string;
  rc_ConnectionStringSecretRef : option SecretKeySelector
}.
#[export] Instance eta_RedisCacheConfig : Settable RedisCacheConfig := fun r =>
  mkRedisCacheConfig r.(rc_KeyPrefix) r.(rc_ConnectionString) r.(rc_ConnectionStringSecretRef).

(** [cashumint_types.go: HTTPCacheConfig] *)
Record HTTPCacheConfig := mkHTTPCacheConfig {
  hc_Backend : string;
  hc_TTL : option Z;
  hc_TTI : option Z;
  hc_Redis : option RedisCacheConfig
}.
#[export] Instance eta_HTTPCacheConfig : Settable HTTPCacheConfig := fun r =>
  mkHTTPCacheConfig r.(hc_Backend) r.(hc_TTL) r.(hc_TTI) r.(hc_Redis).

(** [cashumint_types.go: ManagementRPCConfig] *)
Record ManagementRPCConfig := mkManagementRPCConfig {
  rpc_Enabled : bool;
  rpc_Address : string;
  rpc_Port : Z;
  rpc_TLSSecretRef : option LocalObjectReference
}.
#[export] Instance eta_ManagementRPCConfig : Settable ManagementRPCConfig := fun r =>
  mkManagementRPCConfig r.(rpc_Enabled) r.(rpc_Address) r.(rpc_Port) r.(rpc_TLSSecretRef).

(** [cashumint_types.go: CertManagerConfig] *)
Record CertManagerConfig := mkCertManagerConfig {
  cm_Enabled : bool;
  cm_IssuerName : string;
  cm_IssuerKind : string
}.
#[export] Instance eta_CertManagerConfig : Settable CertManagerConfig := fun r =>
  mkCertManagerConfig r.(cm_Enabled) r.(cm_IssuerName) r.(cm_IssuerKind).

(** [cashumint_types.go: IngressTLSConfig] *)
Record IngressTLSConfig := mkIngressTLSConfig {
  tls_Enabled : bool;
  tls_SecretName : string;
  tls_CertManager : option CertManagerConfig
}.
#[export] Instance eta_IngressTLSConfig : Settable IngressTLSConfig := fun r =>
  mkIngressTLSConfig r.(tls_Enabled) r.(tls_SecretName) r.(tls_CertManager).

(** [cashumint_types.go: IngressConfig] *)
Record IngressConfig := mkIngressConfig {
  ing_Enabled : bool;
  ing_ClassName : string;
  ing_Host : string;
  ing_TLS : option IngressTLSConfig;
  ing_Annotations : option StringMap
}.
#[export] Instance eta_IngressConfig : Settable IngressConfig := fun r =>
  mkIngressConfig r.(ing_Enabled) r.(ing_ClassName) r.(ing_Host) r.(ing_TLS)
    r.(ing_Annotations).

(** [cashumint_types.go: ServiceConfig] *)
Record ServiceConfig := mkServiceConfig {
  svc_Type : string;
  svc_Annotations : option StringMap;
  svc_LoadBalancerIP : string
}.
#[export] Instance eta_ServiceConfig : Settable ServiceConfig := fun r =>
  mkServiceConfig r.(svc_Type) r.(svc_Annotations) r.(svc_LoadBalancerIP).

(** [cashumint_types.go: StorageConfig] *)
Record StorageConfig := mkStorageConfig {
  sto_Size : string;
  sto_StorageClassName : option string
}.
#[export] Instance eta_StorageConfig : Settable StorageConfig := fun r =>
  mkStorageConfig r.(sto_Size) r.(sto_StorageClassName).

(** [cashumint_types.go: OrchardMintRPCConfig] *)
Record OrchardMintRPCConfig := mkOrchardMintRPCConfig {
  omr_Host : string;
  omr_Port : Z;
  omr_MTLS : option bool
}.
#[export] Instance eta_OrchardMintRPCConfig : Settable OrchardMintRPCConfig := fun r =>
  mkOrchardMintRPCConfig r.(omr_Host) r.(omr_Port) r.(omr_MTLS).

(** [cashumint_types.go: OrchardMintConfig] *)
Record OrchardMintConfig := mkOrchardMintConfig {
  orm_Type : string;
  orm_API : string;
  orm_Database : string;
  orm_DatabaseCASecretRef : option SecretKeySelector;
  orm_DatabaseCertSecretRef : option SecretKeySelector;
  orm_DatabaseKeySecretRef : option SecretKeySelector;
  orm_RPC : option OrchardMintRPCConfig
}.
#[export] Instance eta_OrchardMintConfig : Settable OrchardMintConfig := fun r =>
  mkOrchardMintConfig r.(orm_Type) r.(orm_API) r.(orm_Database) r.(orm_DatabaseCASecretRef)
    r.(orm_DatabaseCertSecretRef) r.(orm_DatabaseKeySecretRef) r.(orm_RPC).

(** [cashumint_types.go: OrchardBitcoinConfig] *)
Record OrchardBitcoinConfig := mkOrchardBitcoinConfig {
  ob_Type : string;
  ob_RPCHost : string;
  ob_RPCPort : Z;
  ob_RPCUserSecretRef : option SecretKeySelector;
  ob_RPCPasswordSecretRef : option SecretKeySelector
}.
#[export] Instance eta_OrchardBitcoinConfig : Settable OrchardBitcoinConfig := fun r =>
  mkOrchardBitcoinConfig r.(ob_Type) r.(ob_RPCHost) r.(ob_RPCPort) r.(ob_RPCUserSecretRef)
    r.(ob_RPCPasswordSecretRef).

(** [cashumint_types.go: OrchardLightningConfig] *)
Record OrchardLightningConfig := mkOrchardLightningConfig {
  ol_Type : string;
  ol_RPCHost : string;
  ol_RPCPort : Z;
  ol_MacaroonSecretRef : option SecretKeySelector;
  ol_CertSecretRef : option SecretKeySelector;
  ol_KeySecretRef : option SecretKeySelector;
  ol_CASecretRef : option SecretKeySelector
}.
#[export] Instance eta_OrchardLightningConfig : Settable OrchardLightningConfig := fun r =>
  mkOrchardLightningConfig r.(ol_Type) r.(ol_RPCHost) r.(ol_RPCPort) r.(ol_MacaroonSecretRef)
    r.(ol_CertSecretRef) r.(ol_KeySecretRef) r.(ol_CASecretRef).

(** [cashumint_types.go: OrchardTaprootAssetsConfig] *)
Record OrchardTaprootAssetsConfig := mkOrchardTaprootAssetsConfig {
  ot_Type : string;
  ot_RPCHost : string;
  ot_RPCPort : Z;
  ot_MacaroonSecretRef : option SecretKeySelector;
  ot_CertSecretRef : option SecretKeySelector
}.
#[export] Instance eta_OrchardTaprootAssetsConfig : Settable OrchardTaprootAssetsConfig := fun r =>
  mkOrchardTaprootAssetsConfig r.(ot_Type) r.(ot_RPCHost) r.(ot_RPCPort)
    r.(ot_MacaroonSecretRef) r.(ot_CertSecretRef).

(** [cashumint_types.go: OrchardAIConfig] *)
Record OrchardAIConfig := mkOrchardAIConfig {
  oai_API : string
}.
#[export] Instance eta_OrchardAIConfig : Settable OrchardAIConfig := fun r =>
  mkOrchardAIConfig r.(oai_API).

(** [cashumint_types.go: OrchardConfig] *)
Record OrchardConfig := mkOrchardConfig {
  or_Enabled : bool;
  or_Image : string;
  or_ImagePullPolicy : string;
  or_Host : string;
  or_Port : Z;
  or_BasePath : string;
  or_LogLevel : string;
  or_SetupKeySecretRef : option SecretKeySelector;
  or_ThrottleTTL : option Z;
  or_ThrottleLimit : option Z;
  or_Proxy : string;
  or_Compression : option bool;
  or_Mint : option OrchardMintConfig;
  or_Bitcoin : option OrchardBitcoinConfig;
  or_Lightning : option OrchardLightningConfig;
  or_TaprootAssets : option OrchardTaprootAssetsConfig;
  or_AI : option OrchardAIConfig;
  or_Service : option ServiceConfig;
  or_Ingress : option IngressConfig;
  or_Storage : option StorageConfig;
  or_Resources : option ResourceRequirements;
  or_ContainerSecurityContext : option SecurityContext;
  or_ExtraEnv : list EnvVar
}.
#[export] Instance eta_OrchardConfig : Settable OrchardConfig := fun r =>
  mkOrchardConfig r.(or_Enabled) r.(or_Image) r.(or_ImagePullPolicy) r.(or_Host) r.(or_Port)
    r.(or_BasePath) r.(or_LogLevel) r.(or_SetupKeySecretRef) r.(or_ThrottleTTL)
    r.(or_ThrottleLimit) r.(or_Proxy) r.(or_Compression) r.(or_Mint) r.(or_Bitcoin)
    r.(or_Lightning) r.(or_TaprootAssets) r.(or_AI) r.(or_Service) r.(or_Ingress)
    r.(or_Storage) r.(or_Resources) r.(or_ContainerSecurityContext) r.(or_ExtraEnv).

(** [cashumint_types.go: PrometheusConfig] *)
Record PrometheusConfig := mkPrometheusConfig {
  prom_Enabled : bool;
  prom_Address : string;
  prom_Port : option Z
}.
#[export] Instance eta_PrometheusConfig : Settable PrometheusConfig := fun r =>
  mkPrometheusConfig r.(prom_Enabled) r.(prom_Address) r.(prom_Port).

(** [cashumint_types.go: LimitsConfig] *)
Record LimitsConfig := mkLimitsConfig {
  lim_MaxInputs : option Z;
  lim_MaxOutputs : option Z
}.
#[export] Instance eta_LimitsConfig : Settable LimitsConfig := fun r =>
  mkLimitsConfig r.(lim_MaxInputs) r.(lim_MaxOutputs).

(** [cashumint_types.go: LoggingConfig] *)
Record LoggingConfig := mkLoggingConfig {
  log_Level : string;
  log_FileLevel : string;
  log_Format : string
}.
#[export] Instance eta_LoggingConfig : Settable LoggingConfig := fun r =>
  mkLoggingConfig r.(log_Level) r.(log_FileLevel) r.(log_Format).

(** [cashumint_types.go: S3BackupConfig] *)
Record S3BackupConfig := mkS3BackupConfig {
  s3_Bucket : string;
  s3_Prefix : string;
  s3_Region : string;
  s3_Endpoint : string;
  s3_AccessKeyIDSecretRef : SecretKeySelector;
  s3_SecretAccessKeySecretRef : SecretKeySelector
}.
#[export] Instance eta_S3BackupConfig : Settable S3BackupConfig := fun r =>
  mkS3BackupConfig r.(s3_Bucket) r.(s3_Prefix) r.(s3_Region) r.(s3_Endpoint)
    r.(s3_AccessKeyIDSecretRef) r.(s3_SecretAccessKeySecretRef).

(** [cashumint_types.go: BackupConfig] *)
Record BackupConfig := mkBackupConfig {
  bk_Enabled : bool;
  bk_Schedule : string;
  bk_RetentionCount : option Z;
  bk_S3 : option S3BackupConfig
}.
#[export] Instance eta_BackupConfig : Settable BackupConfig := fun r =>
  mkBackupConfig r.(bk_Enabled) r.(bk_Schedule) r.(bk_RetentionCount) r.(bk_S3).

(** [cashumint_types.go: CashuMintSpec] *)
Record CashuMintSpec := mkCashuMintSpec {
  spec_Image : string;
  spec_ImagePullPolicy : string;
  spec_ImagePullSecrets : list LocalObjectReference;
  spec_Replicas : option Z;
  spec_MintInfo : MintInfo;
  spec_Database : DatabaseConfig;
  spec_PaymentBackend : PaymentBackendConfig;
  spec_LDKNode : option LDKNodeConfig;
  spec_Auth : option AuthConfig;
  spec_HTTPCache : option HTTPCacheConfig;
  spec_ManagementRPC : option ManagementRPCConfig;
  spec_Orchard : option OrchardConfig;
  spec_Prometheus : option PrometheusConfig;
  spec_Limits : option LimitsConfig;
  spec_Ingress : option IngressConfig;
  spec_Service : option ServiceConfig;
  spec_Resources : option ResourceRequirements;
  spec_NodeSelector : option StringMap;
  spec_Tolerations : list Toleration;
  spec_Affinity : option Affinity;
  spec_Logging : option LoggingConfig;
  spec_Storage : option StorageConfig;
  spec_Backup : option BackupConfig;
  spec_PodSecurityContext : option PodSecurityContext;
  spec_ContainerSecurityContext : option SecurityContext
}.
#[export] Instance eta_CashuMintSpec : Settable CashuMintSpec := fun r =>
  mkCashuMintSpec r.(spec_Image) r.(spec_ImagePullPolicy) r.(spec_ImagePullSecrets)
    r.(spec_Replicas) r.(spec_MintInfo) r.(spec_Database) r.(spec_PaymentBackend)
    r.(spec_LDKNode) r.(spec_Auth) r.(spec_HTTPCache) r.(spec_ManagementRPC) r.(spec_Orchard)
    r.(spec_Prometheus) r.(spec_Limits) r.(spec_Ingress) r.(spec_Service) r.(spec_Resources)
    r.(spec_NodeSelector) r.(spec_Tolerations) r.(spec_Affinity) r.(spec_Logging)
    r.(spec_Storage) r.(spec_Backup) r.(spec_PodSecurityContext)
    r.(spec_ContainerSecurityContext).

(** ** The status *)

(** [cashumint_types.go: MintPhase]; [PhaseUnset] is the empty string of a
    fresh object (the CRD admits no other value). *)
Inductive MintPhase : Set :=
  | PhaseUnset
  | MintPhasePending
  | MintPhaseProvisioning
  | MintPhaseReady
  | MintPhaseFailed
  | MintPhaseUpdating.

#[export] Instance MintPhase_eq_dec : EqDecision MintPhase.
Proof. solve_decision. Defined.

(** [cashumint_types.go: DatabaseStatus] *)
Record DatabaseStatus := mkDatabaseStatus {
  dbs_Connected : bool;
  dbs_Message : string;
  dbs_LastChecked : option Z
}.
#[export] Instance eta_DatabaseStatus : Settable DatabaseStatus := fun r =>
  mkDatabaseStatus r.(dbs_Connected) r.(dbs_Message) r.(dbs_LastChecked).

(** [cashumint_types.go: PaymentBackendStatus] *)
Record PaymentBackendStatus := mkPaymentBackendStatus {
  pbs_Connected : bool;
  pbs_Message : string;
  pbs_LastChecked : option Z
}.
#[export] Instance eta_PaymentBackendStatus : Settable PaymentBackendStatus := fun r =>
  mkPaymentBackendStatus r.(pbs_Connected) r.(pbs_Message) r.(pbs_LastChecked).

(** [cashumint_types.go: CashuMintStatus] *)
Record CashuMintStatus := mkCashuMintStatus {
  st_Phase : MintPhase;
  st_Conditions : list Condition;
  st_ObservedGeneration : Z;
  st_BackendType : string;
  st_DeploymentName : string;
  st_ServiceName : string;
  st_IngressName : string;
  st_ConfigMapName : string;
  st_DatabaseStatus : DatabaseStatus;
  st_PaymentBackendStatus : PaymentBackendStatus;
  st_URL : string;
  st_ReadyReplicas : Z
}.
#[export] Instance eta_CashuMintStatus : Settable CashuMintStatus := fun r =>
  mkCashuMintStatus r.(st_Phase) r.(st_Conditions) r.(st_ObservedGeneration) r.(st_BackendType)
    r.(st_DeploymentName) r.(st_ServiceName) r.(st_IngressName) r.(st_ConfigMapName)
    r.(st_DatabaseStatus) r.(st_PaymentBackendStatus) r.(st_URL) r.(st_ReadyReplicas).

(** [cashumint_types.go: ConditionTypeReady] *)
Definition ConditionTypeReady : string := "Ready".
(** [cashumint_types.go: ConditionTypeDatabaseReady] *)
Definition ConditionTypeDatabaseReady : string := "DatabaseReady".
(** [cashumint_types.go: ConditionTypePaymentBackendReady] *)
Definition ConditionTypePaymentBackendReady : string := "PaymentBackendReady".
(** [cashumint_types.go: ConditionTypeConfigValid] *)
Definition ConditionTypeConfigValid : string := "ConfigValid".
(** [cashumint_types.go: ConditionTypeIngressReady] *)
Definition ConditionTypeIngressReady : string := "IngressReady".
(** [cashumint_types.go: ConditionTypeBackupReady] *)
Definition ConditionTypeBackupReady : string := "BackupReady".

(** [cashumint_types.go: CashuMint] *)
Record CashuMint := mkCashuMint {
  mint_Meta : ObjectMeta;
  mint_Spec : CashuMintSpec;
  mint_Status : CashuMintStatus
}.
#[export] Instance eta_CashuMint : Settable CashuMint := fun r =>
  mkCashuMint r.(mint_Meta) r.(mint_Spec) r.(mint_Status).

(** [mint.Name], [mint.Namespace] *)
Definition mint_Name (m : CashuMint) : string := m.(mint_Meta).(om_Name).
Definition mint_Namespace (m : CashuMint) : string := m.(mint_Meta).(om_Namespace).

(** ** Accessors of the API package *)

(** [cashumint_types.go: DefaultOrchardImage] *)
Definition DefaultOrchardImage (databaseEngine : string) : string :=
  if String.eqb databaseEngine DatabaseEnginePostgres
  then DefaultOrchardPostgresImage
  else DefaultOrchardSQLiteImage.

(** [cashumint_types.go: ManagementRPCTLSEnabled]; the callers never pass nil. *)
Definition ManagementRPCTLSEnabled (spec : CashuMintSpec) : bool :=
  match spec.(spec_ManagementRPC) with
  | None => false
  | Some rpc =>
      if negb rpc.(rpc_Enabled) then false
      else ptr_test or_Enabled spec.(spec_Orchard) || non_nil rpc.(rpc_TLSSecretRef)
  end.

(** [cashumint_types.go: ManagementRPCTLSSecretName] *)
Definition ManagementRPCTLSSecretName (spec : CashuMintSpec) (mintName : string) : string :=
  match spec.(spec_ManagementRPC) with
  | Some rpc =>
      match rpc.(rpc_TLSSecretRef) with
      | Some ref =>
          if str_empty ref.(lor_Name)
          then mintName +:+ "-management-rpc-tls"
          else ref.(lor_Name)
      | None => mintName +:+ "-management-rpc-tls"
      end
  | None => mintName +:+ "-management-rpc-tls"
  end.

(** The five tests of [ActiveBackend] in order: each populated field bumps the
    counter and overwrites the result. *)
Definition backend_step (set : bool) (name : string) (acc : nat * string) : nat * string :=
  if set then (S acc.1, name) else acc.

(** [cashumint_types.go: ActiveBackend] *)
Definition ActiveBackend (p : PaymentBackendConfig) : string :=
  let acc := (0, "") in
  let acc := backend_step (non_nil p.(pb_LND)) PaymentBackendLND acc in
  let acc := backend_step (non_nil p.(pb_CLN)) PaymentBackendCLN acc in
  let acc := backend_step (non_nil p.(pb_LNBits)) PaymentBackendLNBits acc in
  let acc := backend_step (non_nil p.(pb_FakeWallet)) PaymentBackendFakeWallet acc in
  let '(count, result) :=
    backend_step (non_nil p.(pb_GRPCProcessor)) PaymentBackendGRPCProcessor acc in
  if negb (count =? 1) then "" else result.

(** ** Facts shared by the components *)

(** The mint name with a suffix, as every managed resource is named. *)
Lemma ActiveBackend_LND p :
  ActiveBackend p = PaymentBackendLND -> non_nil p.(pb_LND) = true.
Proof.
  unfold ActiveBackend. by destruct (pb_LND p), (pb_CLN p), (pb_LNBits p),
    (pb_FakeWallet p), (pb_GRPCProcessor p).
Qed.

Lemma ActiveBackend_GRPC p :
  ActiveBackend p = PaymentBackendGRPCProcessor -> non_nil p.(pb_GRPCProcessor) = true.
Proof.
  unfold ActiveBackend. by destruct (pb_LND p), (pb_CLN p), (pb_LNBits p),
    (pb_FakeWallet p), (pb_GRPCProcessor p).
Qed.
