(* ===== verification/Samples.v ===== *)
(** * Concrete mints for the witnesses

    [zeroSpec] is the zero value of the Go struct; the samples set the fields
    a user would write. *)

From S2P Require Import Prelude Kube Types.

Definition zeroMintInfo : MintInfo :=
  mkMintInfo "" "" 0 None false "" "" "" "" "" "" "" "" "" None false None None.
Definition zeroDatabase : DatabaseConfig := mkDatabaseConfig "" None None.
Definition zeroPostgres : PostgresConfig := mkPostgresConfig "" None "" None None false None.
Definition zeroBackends : PaymentBackendConfig :=
  mkPaymentBackendConfig None None None None None None None None None.
Definition zeroFakeWallet : FakeWalletConfig := mkFakeWalletConfig [] None None None None.

Definition zeroSpec : CashuMintSpec :=
  mkCashuMintSpec "" "" [] None zeroMintInfo zeroDatabase zeroBackends None None None None None
    None None None None None None [] None None None None None None.

Definition zeroStatus : CashuMintStatus :=
  mkCashuMintStatus PhaseUnset [] 0 "" "" "" "" "" (mkDatabaseStatus false "" None)
    (mkPaymentBackendStatus false "" None) "" 0.

Definition sampleMeta : ObjectMeta :=
  mkObjectMeta "mint" "wallets" "uid-1" "7" 1 ∅ None [] [] None.

(** A mint on SQLite with the fake wallet, as in the minimal example. *)
Definition minimalSpec : CashuMintSpec :=
  zeroSpec <| spec_MintInfo := zeroMintInfo <| mi_URL := "http://mint.local" |> |>
           <| spec_Database := zeroDatabase <| db_Engine := DatabaseEngineSQLite |> |>
           <| spec_PaymentBackend := zeroBackends <| pb_FakeWallet := Some zeroFakeWallet |> |>.

Definition minimalMint : CashuMint := mkCashuMint sampleMeta minimalSpec zeroStatus.

(** A production-like mint: provisioned PostgreSQL with backups, LND, Orchard,
    ingress with cert-manager, resources, Prometheus and management RPC. *)
Definition sampleRef (name key : string) : SecretKeySelector := mkSecretKeySelector name key None.

Definition samplePostgres : PostgresConfig := zeroPostgres <| pg_AutoProvision := true |>.

Definition sampleBackup : BackupConfig :=
  mkBackupConfig true "0 */6 * * *" None
    (Some (mkS3BackupConfig "bucket" "" "eu-central-1" "" (sampleRef "s3" "id") (sampleRef "s3" "key"))).

Definition sampleLND : LNDConfig :=
  mkLNDConfig "https://lnd:10009" (Some (sampleRef "lnd" "macaroon")) (Some (sampleRef "lnd" "cert")) None None.

Definition sampleIngress : IngressConfig :=
  mkIngressConfig true "" "mint.example.com"
    (Some (mkIngressTLSConfig true "" (Some (mkCertManagerConfig true "letsencrypt" "")))) None.

Definition sampleOrchard : OrchardConfig :=
  mkOrchardConfig true "" "" "" 0 "" "" (Some (sampleRef "orchard" "setup-key")) None None "" None
    None None None None None None None None None None [].

Definition sampleResources : ResourceRequirements :=
  mkResourceRequirements (Some {[ "cpu" := mkQuantity "500m" ]}) (Some {[ "cpu" := mkQuantity "100m" ]}) [].

Definition fullSpec : CashuMintSpec :=
  zeroSpec <| spec_MintInfo := zeroMintInfo <| mi_URL := "https://mint.example.com" |>
                                            <| mi_AutoGenerateMnemonic := true |> |>
           <| spec_Database := mkDatabaseConfig DatabaseEnginePostgres (Some samplePostgres) None |>
           <| spec_PaymentBackend := zeroBackends <| pb_LND := Some sampleLND |> |>
           <| spec_Ingress := Some sampleIngress |>
           <| spec_Orchard := Some sampleOrchard |>
           <| spec_Resources := Some sampleResources |>
           <| spec_Prometheus := Some (mkPrometheusConfig true "" None) |>
           <| spec_Backup := Some sampleBackup |>.

Definition fullMint : CashuMint := mkCashuMint sampleMeta fullSpec zeroStatus.
