(* ===== verification/Platform.v ===== *)
(** * The libraries the operator relies on, as interfaces

    Code outside this repository enters the model as a type class of
    operations; what the operator relies on is a second class of laws, taken
    from the documented behaviour of the library.  Each interface comes with a
    reference instance (local definitions named [std_...]) that satisfies the
    laws, so every theorem stated against an interface applies to something. *)

From S2P Require Import Prelude Kube Types.

(** ** [controllerutil]: owner references and finalizers *)

Class ControllerUtil := {
  set_controller_reference : ObjectMeta -> ObjectMeta -> res ObjectMeta;
  ContainsFinalizer : ObjectMeta -> string -> bool;
  AddFinalizer : ObjectMeta -> string -> ObjectMeta;
  RemoveFinalizer : ObjectMeta -> string -> ObjectMeta
}.

(** The owner is passed as a [metav1.Object], that is, as its metadata. *)
Definition SetControllerReference `{ControllerUtil} (mint : CashuMint) (m : ObjectMeta) : res ObjectMeta :=
  set_controller_reference mint.(mint_Meta) m.

(** [refs_only m m']: the two metadata differ at most in the owner references. *)
Definition refs_only (m m' : ObjectMeta) : Prop :=
  m' = m <| om_OwnerReferences := m'.(om_OwnerReferences) |>.

(** [controlled_by mint m]: an owner reference makes [mint] the controller. *)
Definition controlled_by (mint : CashuMint) (m : ObjectMeta) : Prop :=
  exists r, In r m.(om_OwnerReferences) /\ r.(own_Controller) = true /\
    r.(own_Name) = mint_Name mint /\ r.(own_UID) = mint.(mint_Meta).(om_UID).

Class ControllerUtilLaws `{ControllerUtil} : Prop := {
  scr_refs_only mint m m' : SetControllerReference mint m = Ok m' -> refs_only m m';
  scr_controlled mint m m' : SetControllerReference mint m = Ok m' -> controlled_by mint m';
  scr_no_panic mint m s : SetControllerReference mint m <> Panic s;
  scr_no_reason mint m e : SetControllerReference mint m = Err e -> err_reason e = None;
  scr_fresh mint m :
    m.(om_OwnerReferences) = [] -> m.(om_Namespace) = mint_Namespace mint ->
    exists m', SetControllerReference mint m = Ok m';
  fin_add_contains m f : ContainsFinalizer (AddFinalizer m f) f = true;
  fin_add_only m f :
    AddFinalizer m f = m <| om_Finalizers := (AddFinalizer m f).(om_Finalizers) |>;
  fin_remove_gone m f : ContainsFinalizer (RemoveFinalizer m f) f = false;
  fin_remove_only m f :
    RemoveFinalizer m f = m <| om_Finalizers := (RemoveFinalizer m f).(om_Finalizers) |>;
  fin_remove_other m f g :
    f <> g -> ContainsFinalizer (RemoveFinalizer m f) g = ContainsFinalizer m g
}.

(** ** [meta.SetStatusCondition] *)

Definition find_condition (t : string) (l : list Condition) : option Condition :=
  List.find (fun c => String.eqb c.(cond_Type) t) l.

Class StatusConditions := {
  SetStatusCondition : list Condition -> Condition -> list Condition
}.

Class StatusConditionsLaws `{StatusConditions} : Prop := {
  ssc_set l c : find_condition c.(cond_Type) (SetStatusCondition l c) = Some c;
  ssc_other l c t :
    t <> c.(cond_Type) -> find_condition t (SetStatusCondition l c) = find_condition t l
}.

(** ** [resource.Quantity] *)

(** [MustParse] panics on text that is not a quantity; [Cmp] is negative,
    zero or positive. *)
Class Quantities := {
  MustParse : string -> res Quantity;
  Cmp : Quantity -> Quantity -> Z
}.

(** The quantity literals written in the generators. *)
Definition quantity_literals : list string :=
  ["100m"; "128Mi"; "256Mi"; "500m"; "1000m"; "512Mi"; "1Gi"; DefaultStorageSize].

Class QuantitiesLaws `{Quantities} : Prop := {
  parse_no_error s e : MustParse s <> Err e;
  parse_literal s : In s quantity_literals -> exists q, MustParse s = Ok q
}.

(** ** Iteration over a Go map

    [range m] visits every entry once, in an order the language leaves open. *)

Class MapRange := {
  map_range : forall {V}, gmap string V -> list (string * V)
}.

Class MapRangeLaws `{MapRange} : Prop := {
  map_range_perm V (m : gmap string V) : map_range m ≡ₚ map_to_list m
}.

(** ** [unicode.IsPrint] above ASCII (a table of the Go distribution) *)

Class UnicodeTables := {
  IsPrintHigh : Z -> bool
}.

(** ** Reference instances *)

Definition std_owner (owner : ObjectMeta) : OwnerReference :=
  mkOwnerReference "mint.cashu.asmogo.github.io/v1alpha1" "CashuMint"
    owner.(om_Name) owner.(om_UID) true true.

Definition std_SetControllerReference (owner m : ObjectMeta) : res ObjectMeta :=
  if negb (String.eqb m.(om_Namespace) owner.(om_Namespace))
  then Err (Errorf "cross-namespace owner references are disallowed")
  else if existsb own_Controller m.(om_OwnerReferences)
  then Err (Errorf "object is already owned by another controller")
  else Ok (m <| om_OwnerReferences ::= fun l => l ++ [std_owner owner] |>).

Definition std_contains (m : ObjectMeta) (f : string) : bool :=
  existsb (String.eqb f) m.(om_Finalizers).

#[local] Instance std_ControllerUtil : ControllerUtil := {
  set_controller_reference := std_SetControllerReference;
  ContainsFinalizer := std_contains;
  AddFinalizer m f :=
    if std_contains m f then m else m <| om_Finalizers ::= fun l => l ++ [f] |>;
  RemoveFinalizer m f :=
    m <| om_Finalizers ::= List.filter (fun g => negb (String.eqb f g)) |>
}.

Fixpoint std_set_condition (l : list Condition) (c : Condition) : list Condition :=
  match l with
  | [] => [c]
  | d :: l =>
      if String.eqb d.(cond_Type) c.(cond_Type) then c :: l
      else d :: std_set_condition l c
  end.

#[local] Instance std_StatusConditions : StatusConditions := {
  SetStatusCondition := std_set_condition
}.

(** Decimal digits with an optional suffix, compared as text lengths only to
    have some order: enough to run the witnesses. *)
Definition std_is_quantity (s : string) : bool :=
  match s with
  | String c _ => (48 <=? nat_of_ascii c) && (nat_of_ascii c <=? 57)
  | EmptyString => false
  end.

#[local] Instance std_Quantities : Quantities := {
  MustParse s := if std_is_quantity s then Ok (mkQuantity s)
                 else Panic ("cannot parse '" +:+ s +:+ "': quantities must match the regular expression");
  Cmp a b := (Z.of_nat (String.length (q_text a)) - Z.of_nat (String.length (q_text b)))%Z
}.

#[local] Instance std_MapRange : MapRange := {
  map_range V m := map_to_list m
}.

#[local] Instance std_UnicodeTables : UnicodeTables := {
  IsPrintHigh r := (161 <=? r)%Z
}.

#[local] Instance std_ControllerUtilLaws : ControllerUtilLaws.
Proof.
  split; unfold SetControllerReference; simpl.
  - intros mint m m' H. unfold std_SetControllerReference in H. repeat case_match; op_inv.
    by subst.
  - intros mint m m' H. unfold std_SetControllerReference in H. repeat case_match; op_inv.
    subst. exists (std_owner (mint_Meta mint)). split; [|done]. apply in_or_app. right. by left.
  - intros mint m s. unfold std_SetControllerReference. by repeat case_match.
  - intros mint m e H. unfold std_SetControllerReference in H.
    repeat case_match; by inversion H.
  - intros mint m Hr Hn. unfold std_SetControllerReference. unfold mint_Namespace in Hn. rw Hn String.eqb_refl Hr /=. eauto.
  - intros m f. case_match; [done|]. unfold std_contains. simpl.
    rw existsb_app /= String.eqb_refl. by rw orb_true_r.
  - intros m f. case_match; [by destruct m|done].
  - intros m f. unfold std_contains. simpl.
    apply not_true_is_false. rw existsb_exists. intros (x & [_ Hx]%filter_In & Hf).
    by rw Hf in Hx.
  - done.
  - intros m f g Hfg. unfold std_contains. simpl.
    induction (om_Finalizers m) as [|x l IH]; [done|]. simpl.
    destruct (String.eqb_spec f x) as [<-|]; simpl; rw IH; [|done].
    destruct (String.eqb_spec g f); [congruence|done].
Qed.

#[local] Instance std_StatusConditionsLaws : StatusConditionsLaws.
Proof.
  split; simpl.
  - intros l c. induction l as [|d l IH]; simpl; [by rw String.eqb_refl|].
    destruct (String.eqb (cond_Type d) (cond_Type c)) eqn:E; simpl.
    + by rw String.eqb_refl.
    + by rw E.
  - intros l c t Ht. induction l as [|d l IH]; simpl.
    + destruct (String.eqb_spec (cond_Type c) t); congruence.
    + destruct (String.eqb_spec (cond_Type d) (cond_Type c)) as [E|E]; simpl.
      * destruct (String.eqb_spec (cond_Type c) t), (String.eqb_spec (cond_Type d) t); congruence.
      * by rw IH.
Qed.

#[local] Instance std_QuantitiesLaws : QuantitiesLaws.
Proof.
  split; simpl.
  - intros s e. by case_match.
  - intros s Hs. repeat (destruct Hs as [<-|Hs]; [eexists; reflexivity|]). done.
Qed.

#[local] Instance std_MapRangeLaws : MapRangeLaws.
Proof. done. Qed.
