(* ===== verification/Defaulting.v ===== *)
(** * The mutating webhook: [api/v1alpha1/cashumint_webhook.go], [Default]

    Every [default...] method writes through [r] in place; the model returns
    the updated object.  A nested struct is updated only where the Go code
    dereferences a non-nil pointer. *)

From S2P Require Import Prelude Kube Types.

(** Float64 literals of the source, as the IEEE 754 values the compiler emits. *)
Definition f64_0_02 : float64 := S754_finite false 5764607523034235 (-58).
Definition f64_0_04 : float64 := S754_finite false 5764607523034235 (-57).

(** ** The defaulting functions *)

Definition defaultQuoteTTL (q : QuoteTTLConfig) : QuoteTTLConfig :=
  q <| qt_MintTTL ::= default_ptr 600%Z |> <| qt_MeltTTL ::= default_ptr 120%Z |>.

(** The fields of [defaultMintInfo] inside [r.Spec.MintInfo]. *)
Definition defaultMintInfoFields (mi : MintInfo) : MintInfo :=
  mi <| mi_ListenHost ::= default_str DefaultListenHost |>
     <| mi_ListenPort ::= default_int 8085 |>
     <| mi_QuoteTTL ::= ptr_upd defaultQuoteTTL |>.

(** [cashumint_webhook.go: defaultMintInfo] *)
Definition defaultMintInfo (spec : CashuMintSpec) : CashuMintSpec :=
  spec <| spec_MintInfo ::= defaultMintInfoFields |>
       <| spec_Image ::= default_str DefaultMintImage |>
       <| spec_Replicas ::= default_ptr 1%Z |>.

Definition defaultAutoProvisionSpec (a : PostgresAutoProvisionSpec) : PostgresAutoProvisionSpec :=
  a <| ap_StorageSize ::= default_str DefaultStorageSize |>
    <| ap_Version ::= default_str "15" |>.

(** [cashumint_webhook.go: defaultPostgres] *)
Definition defaultPostgres (pg : PostgresConfig) : PostgresConfig :=
  let pg := pg <| pg_TLSMode ::=
                default_str (if pg.(pg_AutoProvision) then "disable" else "require") |> in
  let pg := pg <| pg_MaxConnections ::= default_ptr 20%Z |>
               <| pg_ConnectionTimeoutSeconds ::= default_ptr 10%Z |> in
  if pg.(pg_AutoProvision)
  then pg <| pg_AutoProvisionSpec ::= ptr_upd defaultAutoProvisionSpec |>
  else pg.

Definition defaultSQLite (s : SQLiteConfig) : SQLiteConfig :=
  s <| sq_DataDir ::= default_str "/data" |>.

Definition defaultDatabaseFields (db : DatabaseConfig) : DatabaseConfig :=
  let db := db <| db_Engine ::= default_str DatabaseEnginePostgres |> in
  let db := if String.eqb db.(db_Engine) DatabaseEnginePostgres
            then db <| db_Postgres ::= ptr_upd defaultPostgres |> else db in
  if String.eqb db.(db_Engine) DatabaseEngineSQLite
  then db <| db_SQLite ::= ptr_upd defaultSQLite |>
  else db.

(** [cashumint_webhook.go: defaultDatabase] *)
Definition defaultDatabase (spec : CashuMintSpec) : CashuMintSpec :=
  spec <| spec_Database ::= defaultDatabaseFields |>.

Definition defaultCertManager (cm : CertManagerConfig) : CertManagerConfig :=
  cm <| cm_IssuerKind ::= default_str DefaultClusterIssuerKind |>.

Definition defaultIngressTLS (tls : IngressTLSConfig) : IngressTLSConfig :=
  tls <| tls_CertManager ::= ptr_upd defaultCertManager |>.

(** [cashumint_webhook.go: defaultIngressConfig]; a nil or disabled
    configuration is returned as it is. *)
Definition defaultIngressConfig (ingress : IngressConfig) : IngressConfig :=
  if negb ingress.(ing_Enabled) then ingress
  else ingress
    <| ing_ClassName ::= default_str DefaultIngressClassName |>
    <| ing_TLS ::= ptr_upd defaultIngressTLS |>.

(** [cashumint_webhook.go: defaultIngress] *)
Definition defaultIngress (spec : CashuMintSpec) : CashuMintSpec :=
  spec <| spec_Ingress ::= ptr_upd_if ing_Enabled defaultIngressConfig |>.

(** The zero structs the Go code allocates with [&T{}]. *)
Definition emptyStorage : StorageConfig := mkStorageConfig "" None.
Definition emptyService : ServiceConfig := mkServiceConfig "" None "".
Definition emptyOrchardMint : OrchardMintConfig := mkOrchardMintConfig "" "" "" None None None None.
Definition enabledManagementRPC : ManagementRPCConfig := mkManagementRPCConfig true "" 0 None.

Definition defaultStorage (s : StorageConfig) : StorageConfig :=
  s <| sto_Size ::= default_str DefaultStorageSize |>.

Definition defaultService (s : ServiceConfig) : ServiceConfig :=
  s <| svc_Type ::= default_str ServiceTypeClusterIP |>.

Definition defaultOrchardMintRPC (tls : bool) (r : OrchardMintRPCConfig) : OrchardMintRPCConfig :=
  r <| omr_Host ::= default_str DefaultLoopbackHost |>
    <| omr_Port ::= default_int 8086 |>
    <| omr_MTLS ::= default_ptr tls |>.

Definition defaultOrchardMint (tls : bool) (m : OrchardMintConfig) : OrchardMintConfig :=
  m <| orm_Type ::= default_str "cdk" |> <| orm_RPC ::= ptr_upd (defaultOrchardMintRPC tls) |>.

Definition defaultOrchardBitcoin (b : OrchardBitcoinConfig) : OrchardBitcoinConfig :=
  b <| ob_Type ::= default_str "core" |>.

Definition defaultOrchardTaproot (t : OrchardTaprootAssetsConfig) : OrchardTaprootAssetsConfig :=
  t <| ot_Type ::= default_str "tapd" |>.

(** The part of [defaultOrchard] that fills in the Orchard struct.  [tls] is
    [ManagementRPCTLSEnabled(&r.Spec)] at the point where it is called: Orchard
    is enabled and [r.Spec.ManagementRPC] has been allocated. *)
Definition defaultOrchardConfig (engine : string) (tls : bool) (o : OrchardConfig) : OrchardConfig :=
  let o := o <| or_Image ::= default_str (DefaultOrchardImage engine) |>
             <| or_ImagePullPolicy ::= default_str PullIfNotPresent |>
             <| or_Host ::= default_str DefaultListenHost |>
             <| or_Port ::= default_int 3321 |>
             <| or_BasePath ::= default_str "api" |>
             <| or_LogLevel ::= default_str "warn" |>
             <| or_ThrottleTTL ::= default_ptr 60000%Z |>
             <| or_ThrottleLimit ::= default_ptr 20%Z |> in
  let o := o <| or_Storage ::= alloc_upd emptyStorage defaultStorage |>
             <| or_Service ::= alloc_upd emptyService defaultService |> in
  let o := o <| or_Ingress ::= ptr_upd_if ing_Enabled defaultIngressConfig |> in
  o <| or_Mint ::= alloc_upd emptyOrchardMint (defaultOrchardMint tls) |>
    <| or_Bitcoin ::= ptr_upd defaultOrchardBitcoin |>
    <| or_TaprootAssets ::= ptr_upd defaultOrchardTaproot |>.

(** [cashumint_webhook.go: defaultOrchard] *)
Definition defaultOrchard (spec : CashuMintSpec) : CashuMintSpec :=
  if negb (ptr_test or_Enabled spec.(spec_Orchard)) then spec
  else
    let spec := spec <| spec_ManagementRPC ::= default_ptr enabledManagementRPC |> in
    spec <| spec_Orchard ::=
      ptr_upd (defaultOrchardConfig spec.(spec_Database).(db_Engine) (ManagementRPCTLSEnabled spec)) |>.

(** [cashumint_webhook.go: defaultHTTPCache] *)
Definition defaultHTTPCache (c : HTTPCacheConfig) : HTTPCacheConfig :=
  c <| hc_Backend ::= default_str "memory" |>
    <| hc_TTL ::= default_ptr 60%Z |>
    <| hc_TTI ::= default_ptr 60%Z |>.

(** [cashumint_webhook.go: defaultPrometheus] *)
Definition defaultPrometheus (p : PrometheusConfig) : PrometheusConfig :=
  p <| prom_Address ::= default_str DefaultListenHost |>
    <| prom_Port ::= default_ptr DefaultPrometheusPort |>.

Definition defaultS3 (name : string) (s3 : S3BackupConfig) : S3BackupConfig :=
  s3 <| s3_Prefix ::= default_str name |>.

(** [cashumint_webhook.go: defaultBackup] *)
Definition defaultBackup (name : string) (b : BackupConfig) : BackupConfig :=
  b <| bk_Schedule ::= default_str "0 */6 * * *" |>
    <| bk_RetentionCount ::= default_ptr 14%Z |>
    <| bk_S3 ::= ptr_upd (defaultS3 name) |>.

(** [cashumint_webhook.go: defaultAuth] *)
Definition defaultAuth (a : AuthConfig) : AuthConfig :=
  a <| auth_MintMaxBat ::= default_ptr 50%Z |>
    <| auth_Mint ::= default_str AuthLevelClear |>
    <| auth_GetMintQuote ::= default_str AuthLevelClear |>
    <| auth_CheckMintQuote ::= default_str AuthLevelClear |>
    <| auth_Melt ::= default_str AuthLevelClear |>
    <| auth_GetMeltQuote ::= default_str AuthLevelClear |>
    <| auth_CheckMeltQuote ::= default_str AuthLevelClear |>
    <| auth_Swap ::= default_str AuthLevelClear |>
    <| auth_Restore ::= default_str AuthLevelClear |>
    <| auth_CheckProofState ::= default_str AuthLevelClear |>.

Definition defaultManagementRPC (r : ManagementRPCConfig) : ManagementRPCConfig :=
  r <| rpc_Address ::= default_str DefaultLoopbackHost |>
    <| rpc_Port ::= default_int 8086 |>.

Definition defaultLogging (l : LoggingConfig) : LoggingConfig :=
  l <| log_Level ::= default_str "info" |> <| log_Format ::= default_str "json" |>.

(** [cashumint_webhook.go: defaultOperational] *)
Definition defaultOperational (name : string) (spec : CashuMintSpec) : CashuMintSpec :=
  spec <| spec_Logging ::= ptr_upd defaultLogging |>
       <| spec_Storage ::= ptr_upd defaultStorage |>
       <| spec_Service ::= ptr_upd defaultService |>
       <| spec_HTTPCache ::= ptr_upd defaultHTTPCache |>
       <| spec_ManagementRPC ::= ptr_upd_if rpc_Enabled defaultManagementRPC |>
       <| spec_Prometheus ::= ptr_upd_if prom_Enabled defaultPrometheus |>
       <| spec_Backup ::= ptr_upd_if bk_Enabled (defaultBackup name) |>
       <| spec_Auth ::= ptr_upd_if auth_Enabled defaultAuth |>.

(** [cashumint_webhook.go: defaultFakeWallet] *)
Definition defaultFakeWallet (fw : FakeWalletConfig) : FakeWalletConfig :=
  fw <| fw_FeePercent ::= default_ptr f64_0_02 |>
     <| fw_ReserveFeeMin ::= default_ptr 1%Z |>
     <| fw_MinDelayTime ::= default_ptr 1%Z |>
     <| fw_MaxDelayTime ::= default_ptr 3%Z |>
     <| fw_SupportedUnits ::= default_list ["sat"] |>.

Definition defaultSidecar (sc : SidecarProcessorConfig) : SidecarProcessorConfig :=
  sc <| sc_ImagePullPolicy ::= default_str "IfNotPresent" |>.

(** [cashumint_webhook.go: defaultGRPCProcessor] *)
Definition defaultGRPCProcessor (gp : GRPCProcessorConfig) : GRPCProcessorConfig :=
  gp <| gp_SupportedUnits ::= default_list ["sat"] |>
     <| gp_Port ::= default_int 50051 |>
     <| gp_SidecarProcessor ::= ptr_upd_if sc_Enabled defaultSidecar |>.

(** [cashumint_webhook.go: defaultLDKNode] *)
Definition defaultLDKNode (l : LDKNodeConfig) : LDKNodeConfig :=
  l <| ldk_FeePercent ::= default_ptr f64_0_04 |>
    <| ldk_ReserveFeeMin ::= default_ptr 4%Z |>
    <| ldk_BitcoinNetwork ::= default_str "signet" |>
    <| ldk_ChainSourceType ::= default_str "esplora" |>
    <| ldk_Host ::= default_str DefaultListenHost |>
    <| ldk_Port ::= default_int 8090 |>
    <| ldk_GossipSourceType ::= default_str "rgs" |>
    <| ldk_WebserverHost ::= default_str DefaultLoopbackHost |>
    <| ldk_WebserverPort ::= default_int 8888 |>.

Definition defaultLND (l : LNDConfig) : LNDConfig :=
  l <| lnd_FeePercent ::= default_ptr f64_0_04 |> <| lnd_ReserveFeeMin ::= default_ptr 4%Z |>.

Definition defaultCLN (c : CLNConfig) : CLNConfig :=
  c <| cln_FeePercent ::= default_ptr f64_0_04 |> <| cln_ReserveFeeMin ::= default_ptr 4%Z |>.

Definition defaultLNBits (l : LNBitsConfig) : LNBitsConfig :=
  l <| lnb_FeePercent ::= default_ptr f64_0_02 |> <| lnb_ReserveFeeMin ::= default_ptr 2%Z |>.

Definition defaultBackends (pb : PaymentBackendConfig) : PaymentBackendConfig :=
  pb <| pb_LND ::= ptr_upd defaultLND |>
     <| pb_CLN ::= ptr_upd defaultCLN |>
     <| pb_LNBits ::= ptr_upd defaultLNBits |>
     <| pb_FakeWallet ::= ptr_upd defaultFakeWallet |>
     <| pb_GRPCProcessor ::= ptr_upd defaultGRPCProcessor |>.

(** [cashumint_webhook.go: defaultPaymentBackend] *)
Definition defaultPaymentBackend (spec : CashuMintSpec) : CashuMintSpec :=
  spec <| spec_PaymentBackend ::= defaultBackends |>
       <| spec_LDKNode ::= ptr_upd_if ldk_Enabled defaultLDKNode |>.

(** The composition in [Default], on the spec. *)
Definition defaultSpec (name : string) (spec : CashuMintSpec) : CashuMintSpec :=
  let spec := defaultMintInfo spec in
  let spec := defaultDatabase spec in
  let spec := defaultIngress spec in
  let spec := defaultOrchard spec in
  let spec := defaultOperational name spec in
  defaultPaymentBackend spec.

(** [cashumint_webhook.go: Default] *)
Definition Default (r : CashuMint) : CashuMint :=
  r <| mint_Spec ::= defaultSpec (mint_Name r) |>.

(** ** Completeness

    For every defaulting function, the test that a fully defaulted struct
    passes.  [Completes] says that the function reaches such a struct and
    leaves one alone, from which idempotence follows. *)

Definition complete_QuoteTTL (q : QuoteTTLConfig) : bool :=
  non_nil q.(qt_MintTTL) && non_nil q.(qt_MeltTTL).
#[export] Instance defaultQuoteTTL_completes : Completes complete_QuoteTTL defaultQuoteTTL.
Proof. unfold complete_QuoteTTL, defaultQuoteTTL. solve_completes. Qed.

Definition complete_MintInfo (x : MintInfo) : bool :=
  is_set x.(mi_ListenHost) && nonzero x.(mi_ListenPort) && ptr_all complete_QuoteTTL x.(mi_QuoteTTL).
#[export] Instance defaultMintInfoFields_completes : Completes complete_MintInfo defaultMintInfoFields.
Proof. unfold complete_MintInfo, defaultMintInfoFields. solve_completes. Qed.

Definition complete_AutoProvisionSpec (x : PostgresAutoProvisionSpec) : bool :=
  is_set x.(ap_StorageSize) && is_set x.(ap_Version).
#[export] Instance defaultAutoProvisionSpec_completes : Completes complete_AutoProvisionSpec defaultAutoProvisionSpec.
Proof. unfold complete_AutoProvisionSpec, defaultAutoProvisionSpec. solve_completes. Qed.

Definition complete_Postgres (x : PostgresConfig) : bool :=
  is_set x.(pg_TLSMode) && non_nil x.(pg_MaxConnections) &&
  non_nil x.(pg_ConnectionTimeoutSeconds) &&
  implb x.(pg_AutoProvision) (ptr_all complete_AutoProvisionSpec x.(pg_AutoProvisionSpec)).
#[export] Instance defaultPostgres_completes : Completes complete_Postgres defaultPostgres.
Proof.
  unfold complete_Postgres, defaultPostgres.
  split; intros [u r t c s [] a]; cbn; intros; split_andb; complete_fields;
    f_equal; complete_id.
Qed.

Definition complete_SQLite (x : SQLiteConfig) : bool :=
  is_set x.(sq_DataDir).
#[export] Instance defaultSQLite_completes : Completes complete_SQLite defaultSQLite.
Proof. unfold complete_SQLite, defaultSQLite. solve_completes. Qed.

Definition complete_Database (x : DatabaseConfig) : bool :=
  is_set x.(db_Engine) &&
  implb (String.eqb x.(db_Engine) DatabaseEnginePostgres) (ptr_all complete_Postgres x.(db_Postgres)) &&
  implb (String.eqb x.(db_Engine) DatabaseEngineSQLite) (ptr_all complete_SQLite x.(db_SQLite)).
#[export] Instance defaultDatabaseFields_completes : Completes complete_Database defaultDatabaseFields.
Proof.
  unfold complete_Database, defaultDatabaseFields.
  split; intros [e pg sq]; cbn.
  - pose proof (compl_ok (c := is_set) (f := default_str DatabaseEnginePostgres) e) as He.
    revert He. generalize (default_str DatabaseEnginePostgres e). intros e' He'.
    destruct (String.eqb e' DatabaseEnginePostgres) eqn:E1; cbn;
      destruct (String.eqb e' DatabaseEngineSQLite) eqn:E2; cbn; rw E1 E2 He' /=;
      complete_fields.
  - intros ?; split_andb. rw (@compl_id _ is_set (default_str DatabaseEnginePostgres) _ e) //.
    destruct (String.eqb e DatabaseEnginePostgres) eqn:E1; cbn;
      destruct (String.eqb e DatabaseEngineSQLite) eqn:E2; cbn in *; f_equal; complete_id.
Qed.

Definition complete_CertManager (x : CertManagerConfig) : bool :=
  is_set x.(cm_IssuerKind).
#[export] Instance defaultCertManager_completes : Completes complete_CertManager defaultCertManager.
Proof. unfold complete_CertManager, defaultCertManager. solve_completes. Qed.

Definition complete_IngressTLS (x : IngressTLSConfig) : bool :=
  ptr_all complete_CertManager x.(tls_CertManager).
#[export] Instance defaultIngressTLS_completes : Completes complete_IngressTLS defaultIngressTLS.
Proof. unfold complete_IngressTLS, defaultIngressTLS. solve_completes. Qed.

Definition complete_Ingress (x : IngressConfig) : bool :=
  implb x.(ing_Enabled) (is_set x.(ing_ClassName) && ptr_all complete_IngressTLS x.(ing_TLS)).
#[export] Instance defaultIngressConfig_completes : Completes complete_Ingress defaultIngressConfig.
Proof.
  unfold complete_Ingress, defaultIngressConfig.
  split; intros [[] c h t a]; cbn; try done; intros; split_andb; complete_fields;
    f_equal; complete_id.
Qed.
#[export] Instance defaultIngressConfig_enabled : Keeps ing_Enabled defaultIngressConfig.
Proof. intros i. unfold defaultIngressConfig. by destruct (ing_Enabled i) eqn:E; cbn. Qed.

Definition complete_Storage (x : StorageConfig) : bool :=
  is_set x.(sto_Size).
#[export] Instance defaultStorage_completes : Completes complete_Storage defaultStorage.
Proof. unfold complete_Storage, defaultStorage. solve_completes. Qed.

Definition complete_Service (x : ServiceConfig) : bool :=
  is_set x.(svc_Type).
#[export] Instance defaultService_completes : Completes complete_Service defaultService.
Proof. unfold complete_Service, defaultService. solve_completes. Qed.

Definition complete_OrchardMintRPC (x : OrchardMintRPCConfig) : bool :=
  is_set x.(omr_Host) && nonzero x.(omr_Port) && non_nil x.(omr_MTLS).
#[export] Instance defaultOrchardMintRPC_completes tls : Completes complete_OrchardMintRPC (defaultOrchardMintRPC tls).
Proof. unfold complete_OrchardMintRPC, defaultOrchardMintRPC. solve_completes. Qed.

Definition complete_OrchardMint (x : OrchardMintConfig) : bool :=
  is_set x.(orm_Type) && ptr_all complete_OrchardMintRPC x.(orm_RPC).
#[export] Instance defaultOrchardMint_completes tls : Completes complete_OrchardMint (defaultOrchardMint tls).
Proof. unfold complete_OrchardMint, defaultOrchardMint. solve_completes. Qed.

Definition complete_OrchardBitcoin (x : OrchardBitcoinConfig) : bool :=
  is_set x.(ob_Type).
#[export] Instance defaultOrchardBitcoin_completes : Completes complete_OrchardBitcoin defaultOrchardBitcoin.
Proof. unfold complete_OrchardBitcoin, defaultOrchardBitcoin. solve_completes. Qed.

Definition complete_OrchardTaproot (x : OrchardTaprootAssetsConfig) : bool :=
  is_set x.(ot_Type).
#[export] Instance defaultOrchardTaproot_completes : Completes complete_OrchardTaproot defaultOrchardTaproot.
Proof. unfold complete_OrchardTaproot, defaultOrchardTaproot. solve_completes. Qed.

Definition complete_Orchard (x : OrchardConfig) : bool :=
  is_set x.(or_Image) && is_set x.(or_ImagePullPolicy) && is_set x.(or_Host) &&
  nonzero x.(or_Port) && is_set x.(or_BasePath) && is_set x.(or_LogLevel) &&
  non_nil x.(or_ThrottleTTL) && non_nil x.(or_ThrottleLimit) &&
  ptr_test complete_Storage x.(or_Storage) && ptr_test complete_Service x.(or_Service) &&
  ptr_all (complete_if ing_Enabled complete_Ingress) x.(or_Ingress) &&
  ptr_test complete_OrchardMint x.(or_Mint) &&
  ptr_all complete_OrchardBitcoin x.(or_Bitcoin) &&
  ptr_all complete_OrchardTaproot x.(or_TaprootAssets).
(** The image default is never empty. *)
#[export] Instance default_image_completes engine :
  Completes is_set (default_str (DefaultOrchardImage engine)).
Proof. apply default_str_completes. unfold DefaultOrchardImage. by case_match. Qed.

#[export] Instance defaultOrchardConfig_completes engine tls : Completes complete_Orchard (defaultOrchardConfig engine tls).
Proof. unfold complete_Orchard, defaultOrchardConfig. solve_completes. Qed.

Definition complete_HTTPCache (x : HTTPCacheConfig) : bool :=
  is_set x.(hc_Backend) && non_nil x.(hc_TTL) && non_nil x.(hc_TTI).
#[export] Instance defaultHTTPCache_completes : Completes complete_HTTPCache defaultHTTPCache.
Proof. unfold complete_HTTPCache, defaultHTTPCache. solve_completes. Qed.

Definition complete_Prometheus (x : PrometheusConfig) : bool :=
  is_set x.(prom_Address) && non_nil x.(prom_Port).
#[export] Instance defaultPrometheus_completes : Completes complete_Prometheus defaultPrometheus.
Proof. unfold complete_Prometheus, defaultPrometheus. solve_completes. Qed.

(** The prefix defaults to the mint's name, which may itself be empty. *)
Definition complete_S3 (name : string) (x : S3BackupConfig) : bool :=
  is_set x.(s3_Prefix) || str_empty name.
#[export] Instance defaultS3_completes name : Completes (complete_S3 name) (defaultS3 name).
Proof.
  unfold complete_S3, defaultS3, default_str, is_set.
  split; intros [b p r e a k]; cbn; by destruct p, name.
Qed.

Definition complete_Backup (name : string) (x : BackupConfig) : bool :=
  is_set x.(bk_Schedule) && non_nil x.(bk_RetentionCount) && ptr_all (complete_S3 name) x.(bk_S3).
#[export] Instance defaultBackup_completes name : Completes (complete_Backup name) (defaultBackup name).
Proof. unfold complete_Backup, defaultBackup. solve_completes. Qed.

Definition complete_Auth (x : AuthConfig) : bool :=
  non_nil x.(auth_MintMaxBat) && is_set x.(auth_Mint) && is_set x.(auth_GetMintQuote) &&
  is_set x.(auth_CheckMintQuote) && is_set x.(auth_Melt) && is_set x.(auth_GetMeltQuote) &&
  is_set x.(auth_CheckMeltQuote) && is_set x.(auth_Swap) && is_set x.(auth_Restore) &&
  is_set x.(auth_CheckProofState).
#[export] Instance defaultAuth_completes : Completes complete_Auth defaultAuth.
Proof. unfold complete_Auth, defaultAuth. solve_completes. Qed.

Definition complete_ManagementRPC (x : ManagementRPCConfig) : bool :=
  is_set x.(rpc_Address) && nonzero x.(rpc_Port).
#[export] Instance defaultManagementRPC_completes : Completes complete_ManagementRPC defaultManagementRPC.
Proof. unfold complete_ManagementRPC, defaultManagementRPC. solve_completes. Qed.

Definition complete_Logging (x : LoggingConfig) : bool :=
  is_set x.(log_Level) && is_set x.(log_Format).
#[export] Instance defaultLogging_completes : Completes complete_Logging defaultLogging.
Proof. unfold complete_Logging, defaultLogging. solve_completes. Qed.

Definition complete_FakeWallet (x : FakeWalletConfig) : bool :=
  non_nil x.(fw_FeePercent) && non_nil x.(fw_ReserveFeeMin) &&
  non_nil x.(fw_MinDelayTime) && non_nil x.(fw_MaxDelayTime) &&
  non_empty x.(fw_SupportedUnits).
#[export] Instance defaultFakeWallet_completes : Completes complete_FakeWallet defaultFakeWallet.
Proof. unfold complete_FakeWallet, defaultFakeWallet. solve_completes. Qed.

Definition complete_Sidecar (x : SidecarProcessorConfig) : bool :=
  is_set x.(sc_ImagePullPolicy).
#[export] Instance defaultSidecar_completes : Completes complete_Sidecar defaultSidecar.
Proof. unfold complete_Sidecar, defaultSidecar. solve_completes. Qed.

#[export] Instance defaultSidecar_enabled : Keeps sc_Enabled defaultSidecar.
Proof. done. Qed.
#[export] Instance defaultManagementRPC_enabled : Keeps rpc_Enabled defaultManagementRPC.
Proof. done. Qed.
#[export] Instance defaultPrometheus_enabled : Keeps prom_Enabled defaultPrometheus.
Proof. done. Qed.
#[export] Instance defaultBackup_enabled name : Keeps bk_Enabled (defaultBackup name).
Proof. done. Qed.
#[export] Instance defaultAuth_enabled : Keeps auth_Enabled defaultAuth.
Proof. done. Qed.

Definition complete_GRPCProcessor (x : GRPCProcessorConfig) : bool :=
  non_empty x.(gp_SupportedUnits) && nonzero x.(gp_Port) &&
  ptr_all (complete_if sc_Enabled complete_Sidecar) x.(gp_SidecarProcessor).
#[export] Instance defaultGRPCProcessor_completes : Completes complete_GRPCProcessor defaultGRPCProcessor.
Proof. unfold complete_GRPCProcessor, defaultGRPCProcessor. solve_completes. Qed.

Definition complete_LDKNode (x : LDKNodeConfig) : bool :=
  non_nil x.(ldk_FeePercent) && non_nil x.(ldk_ReserveFeeMin) &&
  is_set x.(ldk_BitcoinNetwork) && is_set x.(ldk_ChainSourceType) && is_set x.(ldk_Host) &&
  nonzero x.(ldk_Port) && is_set x.(ldk_GossipSourceType) &&
  is_set x.(ldk_WebserverHost) && nonzero x.(ldk_WebserverPort).
#[export] Instance defaultLDKNode_completes : Completes complete_LDKNode defaultLDKNode.
Proof. unfold complete_LDKNode, defaultLDKNode. solve_completes. Qed.

#[export] Instance defaultLDKNode_enabled : Keeps ldk_Enabled defaultLDKNode.
Proof. done. Qed.

Definition complete_LND (x : LNDConfig) : bool :=
  non_nil x.(lnd_FeePercent) && non_nil x.(lnd_ReserveFeeMin).
#[export] Instance defaultLND_completes : Completes complete_LND defaultLND.
Proof. unfold complete_LND, defaultLND. solve_completes. Qed.

Definition complete_CLN (x : CLNConfig) : bool :=
  non_nil x.(cln_FeePercent) && non_nil x.(cln_ReserveFeeMin).
#[export] Instance defaultCLN_completes : Completes complete_CLN defaultCLN.
Proof. unfold complete_CLN, defaultCLN. solve_completes. Qed.

Definition complete_LNBits (x : LNBitsConfig) : bool :=
  non_nil x.(lnb_FeePercent) && non_nil x.(lnb_ReserveFeeMin).
#[export] Instance defaultLNBits_completes : Completes complete_LNBits defaultLNBits.
Proof. unfold complete_LNBits, defaultLNBits. solve_completes. Qed.

Definition complete_Backends (x : PaymentBackendConfig) : bool :=
  ptr_all complete_LND x.(pb_LND) && ptr_all complete_CLN x.(pb_CLN) &&
  ptr_all complete_LNBits x.(pb_LNBits) && ptr_all complete_FakeWallet x.(pb_FakeWallet) &&
  ptr_all complete_GRPCProcessor x.(pb_GRPCProcessor).
#[export] Instance defaultBackends_completes : Completes complete_Backends defaultBackends.
Proof. unfold complete_Backends, defaultBackends. solve_completes. Qed.

#[export] Instance defaultOrchardConfig_enabled engine tls :
  Keeps or_Enabled (defaultOrchardConfig engine tls).
Proof. done. Qed.

(** A spec in which the webhook has nothing left to fill in.  An enabled
    Orchard comes with a management RPC section. *)
Definition is_defaulted (name : string) (x : CashuMintSpec) : bool :=
  complete_MintInfo x.(spec_MintInfo) && is_set x.(spec_Image) && non_nil x.(spec_Replicas) &&
  complete_Database x.(spec_Database) &&
  ptr_all (complete_if ing_Enabled complete_Ingress) x.(spec_Ingress) &&
  implb (ptr_test or_Enabled x.(spec_Orchard)) (non_nil x.(spec_ManagementRPC)) &&
  ptr_all (complete_if or_Enabled complete_Orchard) x.(spec_Orchard) &&
  ptr_all complete_Logging x.(spec_Logging) && ptr_all complete_Storage x.(spec_Storage) &&
  ptr_all complete_Service x.(spec_Service) && ptr_all complete_HTTPCache x.(spec_HTTPCache) &&
  ptr_all (complete_if rpc_Enabled complete_ManagementRPC) x.(spec_ManagementRPC) &&
  ptr_all (complete_if prom_Enabled complete_Prometheus) x.(spec_Prometheus) &&
  ptr_all (complete_if bk_Enabled (complete_Backup name)) x.(spec_Backup) &&
  ptr_all (complete_if auth_Enabled complete_Auth) x.(spec_Auth) &&
  complete_Backends x.(spec_PaymentBackend) &&
  ptr_all (complete_if ldk_Enabled complete_LDKNode) x.(spec_LDKNode).

(** [defaultOrchard] field by field: the Orchard RPC client uses mTLS exactly
    when the management RPC it will find is enabled. *)
Definition orchard_rpc (o : option OrchardConfig) :
    option ManagementRPCConfig -> option ManagementRPCConfig :=
  if ptr_test or_Enabled o then default_ptr enabledManagementRPC else id.

Lemma orchard_rpc_tls spec o :
  spec.(spec_Orchard) = Some o -> or_Enabled o = true ->
  ManagementRPCTLSEnabled (spec <| spec_ManagementRPC ::= default_ptr enabledManagementRPC |>) =
  ptr_all rpc_Enabled spec.(spec_ManagementRPC).
Proof.
  intros Ho E. unfold ManagementRPCTLSEnabled. cbn. rw Ho.
  unfold default_ptr, ptr_all, ptr_test.
  destruct (spec_ManagementRPC spec) as [r|]; cbn; rw E; [|reflexivity].
  destruct (rpc_Enabled r); reflexivity.
Qed.

Lemma defaultOrchard_fields spec :
  defaultOrchard spec =
    spec <| spec_ManagementRPC ::= orchard_rpc spec.(spec_Orchard) |>
         <| spec_Orchard ::= ptr_upd_if or_Enabled
              (defaultOrchardConfig spec.(spec_Database).(db_Engine)
                 (ptr_all rpc_Enabled spec.(spec_ManagementRPC))) |>.
Proof.
  unfold defaultOrchard, orchard_rpc.
  destruct (spec_Orchard spec) as [o|] eqn:Ho; [destruct (or_Enabled o) eqn:E|].
  - rw (orchard_rpc_tls spec o Ho E). unfold ptr_test, ptr_upd_if. cbn.
    rw E Ho. cbn. rw E. reflexivity.
  - destruct spec. cbn in *. subst. unfold ptr_test, ptr_upd_if. cbn. rw E. reflexivity.
  - destruct spec. cbn in *. subst. reflexivity.
Qed.

#[export] Instance defaultSpec_completes name : Completes (is_defaulted name) (defaultSpec name).
Proof.
  unfold defaultSpec, is_defaulted, orchard_rpc.
  split; intros r; rw defaultOrchard_fields.
  - unfold orchard_rpc. cbn. complete_fields.
    rw (ptr_test_upd_if or_Enabled). rw /ptr_upd_if non_nil_ptr_upd.
    destruct (ptr_test or_Enabled (spec_Orchard r)); [|done]. by destruct (spec_ManagementRPC r).
  - destruct r as [? ? ? ? ? ? ? ? ? ? rpc o]. intros H; split_andb; cbn in *.
    unfold defaultPaymentBackend, defaultOperational, orchard_rpc. cbn.
    f_equal; try complete_id.
    destruct (ptr_test or_Enabled o), rpc; cbv [default_ptr id non_nil implb] in *; try done; complete_id.
Qed.

(** ** Properties *)

(** C6: [Default] reaches a fixpoint in one call: its result passes the
    completeness test [is_defaulted], a second call changes nothing, and the
    mints it leaves unchanged are exactly the complete ones. *)
Theorem Default_fixpoint r :
  is_defaulted (mint_Name r) (Default r).(mint_Spec) = true /\
  Default (Default r) = Default r /\
  (Default r = r <-> is_defaulted (mint_Name r) r.(mint_Spec) = true).
Proof.
  destruct r as [meta spec st]. unfold Default, mint_Name. cbn.
  split; [apply compl_ok|]. split; [by rw (compl_idemp (is_defaulted (om_Name meta)))|].
  rw -(compl_fixed (is_defaulted (om_Name meta)) (defaultSpec (om_Name meta)) spec).
  split; [by intros [=]|by intros ->].
Qed.
