(* ===== verification/Fmt.v ===== *)
(** * Go formatting: the verbs of [fmt], [strconv] and [strings] the source uses

    [%d], [%t], [%q], [%f], [%v] of an error list, [strings.Join], prefixes
    and hexadecimal text, with the lemmas the clients need: decimal text reads
    back, and what characters it can contain. *)

From Stdlib Require Import DecimalString DecimalZ DecimalFacts.
From S2P Require Import Prelude Kube Types Platform.

(** ** Integers: [%d] and [strconv.Itoa] *)

Definition Itoa (n : Z) : string := NilZero.string_of_int (Z.to_int n).

(** Decimal text back to a number. *)
Definition Atoi (s : string) : option Z := Z.of_int <$> NilZero.int_of_string s.

Lemma Atoi_Itoa n : Atoi (Itoa n) = Some n.
Proof.
  unfold Atoi, Itoa. rw NilZero.isi; [by rw /= DecimalZ.of_to| |];
    intros H; destruct n as [|p|p]; simpl in H; try done; injection H as H;
    by destruct (DecimalPos.Unsigned.to_uint_nonnil p).
Qed.

#[export] Instance Itoa_inj : Inj (=) (=) Itoa.
Proof. intros a b H. apply (f_equal Atoi) in H. rw !Atoi_Itoa in H. by injection H. Qed.

(** ** Characters of a string *)

Fixpoint str_all (p : ascii -> bool) (s : string) : bool :=
  match s with
  | EmptyString => true
  | String c s => p c && str_all p s
  end.

Lemma str_all_app p a b : str_all p (a +:+ b) = str_all p a && str_all p b.
Proof.
  induction a as [|c a IH]; [done|]. rw string_app_cons. simpl str_all.
  by rw IH andb_assoc.
Qed.

Lemma str_all_impl (p q : ascii -> bool) s :
  (forall c, p c = true -> q c = true) -> str_all p s = true -> str_all q s = true.
Proof.
  intros H. induction s as [|c s IH]; simpl; [done|].
  intros [Hc Hs]%andb_true_iff. rw H //. by apply IH.
Qed.

Definition code (c : ascii) : Z := Z.of_nat (nat_of_ascii c).

Definition is_digit (c : ascii) : bool := ((48 <=? code c) && (code c <=? 57))%Z.

Lemma string_of_uint_digits d : str_all is_digit (NilEmpty.string_of_uint d) = true.
Proof. by induction d. Qed.

Definition is_num_char (c : ascii) : bool := is_digit c || (code c =? 45)%Z.

Lemma Itoa_chars n : str_all is_num_char (Itoa n) = true.
Proof.
  assert (H : forall d, str_all is_num_char (NilZero.string_of_uint d) = true).
  { intros d. apply (str_all_impl is_digit); [intros c Hc; unfold is_num_char; by rw Hc|].
    destruct d; [done|apply string_of_uint_digits..]. }
  unfold Itoa. destruct n; simpl; [done|apply H..].
Qed.

Lemma Itoa_nonempty n : Itoa n <> "".
Proof. intros H. pose proof (Atoi_Itoa n) as Hn. by rw H in Hn. Qed.

(** ** Booleans: [%t], [strconv.FormatBool] *)

Definition FormatBool (b : bool) : string := if b then "true" else "false".

(** ** Lists *)

(** [strings.Join(l, sep)] *)
Definition Join (l : list string) (sep : string) : string := String.concat sep l.

(** [fmt.Sprintf("%v", errs)] on a slice of errors. *)
Definition fmt_errs (errs : list goerror) : string :=
  "[" +:+ Join (err_msg <$> errs) " " +:+ "]".

(** [strings.HasPrefix(s, p)] *)
Definition HasPrefix (s p : string) : bool := String.prefix p s.

Lemma HasPrefix_app p s : HasPrefix (p +:+ s) p = true.
Proof.
  unfold HasPrefix. induction p as [|c p IH]; [by destruct s|].
  rw string_app_cons. simpl. by destruct (ascii_dec c c).
Qed.

(** ** Hexadecimal text *)

Definition hex_digit (n : Z) : string :=
  chr (Z.to_nat (if n <? 10 then 48 + n else 87 + n)%Z).

(** The low [k] hexadecimal digits of [n], most significant first. *)
Fixpoint hex_text (k : nat) (n : Z) : string :=
  match k with
  | O => ""
  | S k => hex_digit (Z.land (Z.shiftr n (4 * Z.of_nat k)) 15) +:+ hex_text k n
  end.

(** ** UTF-8: [utf8.DecodeRuneInString] *)

Definition RuneError : Z := 65533.

Definition in_range (lo hi n : Z) : bool := ((lo <=? n) && (n <=? hi))%Z.

(** A continuation byte of the string, in the range the first byte allows. *)
Definition cont (lo hi : Z) (s : string) : option (Z * string) :=
  match s with
  | String c s => if in_range lo hi (code c) then Some (Z.land (code c) 63, s) else None
  | EmptyString => None
  end.

(** The range of the second byte and the sequence length, by first byte. *)
Definition utf8_class (b : Z) : option (nat * Z * Z) :=
  if in_range 194 223 b then Some (2, 128%Z, 191%Z)
  else if (b =? 224)%Z then Some (3, 160%Z, 191%Z)
  else if (b =? 237)%Z then Some (3, 128%Z, 159%Z)
  else if in_range 225 239 b then Some (3, 128%Z, 191%Z)
  else if (b =? 240)%Z then Some (4, 144%Z, 191%Z)
  else if in_range 241 243 b then Some (4, 128%Z, 191%Z)
  else if (b =? 244)%Z then Some (4, 128%Z, 143%Z)
  else None.

(** The rune and its width; [(RuneError, 1)] on an invalid encoding. *)
Definition DecodeRune (c : ascii) (s : string) : Z * nat :=
  let b := code c in
  if (b <? 128)%Z then (b, 1)
  else
    let invalid := (RuneError, 1) in
    match utf8_class b with
    | None => invalid
    | Some (w, lo, hi) =>
        match cont lo hi s with
        | None => invalid
        | Some (b1, s1) =>
            if (w =? 2)%nat then (Z.lor (Z.shiftl (Z.land b 31) 6) b1, 2)
            else
              match cont 128 191 s1 with
              | None => invalid
              | Some (b2, s2) =>
                  if (w =? 3)%nat
                  then (Z.lor (Z.shiftl (Z.land b 15) 12) (Z.lor (Z.shiftl b1 6) b2), 3)
                  else
                    match cont 128 191 s2 with
                    | None => invalid
                    | Some (b3, _) =>
                        (Z.lor (Z.shiftl (Z.land b 7) 18)
                           (Z.lor (Z.shiftl b1 12) (Z.lor (Z.shiftl b2 6) b3)), 4)
                    end
              end
        end
    end.

(** ** [%q]: [strconv.Quote] *)

Section Quote.
Context `{UnicodeTables}.

(** [strconv.IsPrint]; the table above Latin-1 is the interface. *)
Definition IsPrint (r : Z) : bool :=
  if (r <=? 255)%Z then
    in_range 32 126 r || (in_range 161 255 r && negb (r =? 173)%Z)
  else IsPrintHigh r.

(** [strconv.appendEscapedRune] with the double quote; [raw] is the text of the
    rune in the source string. *)
Definition escape_rune (r : Z) (raw : string) : string :=
  if ((r =? 34) || (r =? 92))%Z then chr 92 +:+ raw
  else if IsPrint r then raw
  else if (r =? 7)%Z then chr 92 +:+ "a"
  else if (r =? 8)%Z then chr 92 +:+ "b"
  else if (r =? 12)%Z then chr 92 +:+ "f"
  else if (r =? 10)%Z then chr 92 +:+ "n"
  else if (r =? 13)%Z then chr 92 +:+ "r"
  else if (r =? 9)%Z then chr 92 +:+ "t"
  else if (r =? 11)%Z then chr 92 +:+ "v"
  else if ((r <? 32) || (r =? 127))%Z then chr 92 +:+ "x" +:+ hex_text 2 r
  else if (r <? 65536)%Z then chr 92 +:+ "u" +:+ hex_text 4 r
  else chr 92 +:+ "U" +:+ hex_text 8 r.

(** The loop of [strconv.appendQuotedWith]; [skip] bytes belong to the rune
    already written. *)
Fixpoint quote_body (skip : nat) (s : string) : string :=
  match s with
  | EmptyString => ""
  | String c s' =>
      match skip with
      | S k => quote_body k s'
      | O =>
          let '(r, w) := DecodeRune c s' in
          (if (w =? 1)%nat && (r =? RuneError)%Z
           then chr 92 +:+ "x" +:+ hex_text 2 (code c)
           else escape_rune r (String.substring 0 w s)) +:+ quote_body (w - 1) s'
      end
  end.

Definition Quote (s : string) : string := DQ +:+ quote_body 0 s +:+ DQ.

Definition is_ascii (c : ascii) : bool := (code c <? 128)%Z.

(** On ASCII text the loop handles one character at a time. *)
Lemma quote_body_cons c s :
  is_ascii c = true ->
  quote_body 0 (String c s) = escape_rune (code c) (String c "") +:+ quote_body 0 s.
Proof.
  intros Hc. simpl. unfold DecodeRune. unfold is_ascii in Hc. rw Hc.
  assert ((code c =? RuneError)%Z = false) as ->.
  { apply Z.eqb_neq. apply Z.ltb_lt in Hc. unfold RuneError. lia. }
  simpl. by destruct s.
Qed.
End Quote.

(** ** [%f]: six decimals, correctly rounded *)

(** [m * 2^e] in millionths, rounded half to even. *)
Definition millionths (m : Z) (e : Z) : Z :=
  if (0 <=? e)%Z then (m * 2 ^ e * 1000000)%Z
  else
    let d := (2 ^ (- e))%Z in
    let q := (m * 1000000 / d)%Z in
    let r := ((m * 1000000) mod d)%Z in
    if (2 * r <? d)%Z then q
    else if (d <? 2 * r)%Z then (q + 1)%Z
    else if Z.even q then q else (q + 1)%Z.

(** The low [k] decimal digits of [n], most significant first. *)
Fixpoint dec_text (k : nat) (n : Z) : string :=
  match k with
  | O => ""
  | S k => chr (Z.to_nat (48 + (n / 10 ^ Z.of_nat k) mod 10)%Z) +:+ dec_text k n
  end.

Definition sign_text (neg : bool) : string := if neg then "-" else "".

Definition fixed_text (neg : bool) (micros : Z) : string :=
  sign_text neg +:+ Itoa (micros / 1000000) +:+ "." +:+ dec_text 6 micros.

Definition FormatFloat (f : float64) : string :=
  match f with
  | S754_zero s => fixed_text s 0
  | S754_finite s m e => fixed_text s (millionths (Zpos m) e)
  | S754_infinity s => if s then "-Inf" else "+Inf"
  | S754_nan => "NaN"
  end.

(** ** [strings.TrimSpace] *)

(** [unicode.IsSpace]. *)
Definition IsSpace (r : Z) : bool :=
  in_range 9 13 r || (r =? 32)%Z || (r =? 133)%Z || (r =? 160)%Z || (r =? 5760)%Z ||
  in_range 8192 8202 r || (r =? 8232)%Z || (r =? 8233)%Z || (r =? 8239)%Z || (r =? 8287)%Z ||
  (r =? 12288)%Z.

(** The runes of a string with their encodings. *)
Fixpoint runes (skip : nat) (s : string) : list (Z * string) :=
  match s with
  | EmptyString => []
  | String c s' =>
      match skip with
      | S k => runes k s'
      | O =>
          let '(r, w) := DecodeRune c s' in
          (r, String.substring 0 w s) :: runes (w - 1) s'
      end
  end.

Fixpoint drop_spaces (l : list (Z * string)) : list (Z * string) :=
  match l with
  | (r, t) :: l' => if IsSpace r then drop_spaces l' else l
  | [] => []
  end.

Definition TrimSpace (s : string) : string :=
  str_concat (snd <$> reverse (drop_spaces (reverse (drop_spaces (runes 0 s))))).

(** ** Raw string literals

    A Go raw string cannot contain a back quote, so the multi-line scripts are
    written here with a back quote for every double quote. *)

Fixpoint raw (s : string) : string :=
  match s with
  | EmptyString => ""
  | String c s => (if (code c =? 96)%Z then DQ else String c "") +:+ raw s
  end.

Definition raw_lines (l : list string) : string := Join (raw <$> l) LF.
