(* ===== verification/Encoding.v ===== *)
(** * Encodings and hashes of the Go standard library

    [encoding/base64] (URL alphabet), [encoding/hex] and [crypto/sha256], as
    the generators and the controller use them on byte strings. *)

From S2P Require Import Prelude Kube Types Platform Fmt.

(** ** Bytes *)

Definition is_byte (b : Z) : bool := ((0 <=? b) && (b <? 256))%Z.

(** [[]byte(s)] *)
Fixpoint bytes_of (s : string) : list Z :=
  match s with
  | EmptyString => []
  | String c s => code c :: bytes_of s
  end.

(** [hex.EncodeToString(b)] *)
Definition hex_encode (l : list Z) : string := str_concat (hex_text 2 <$> l).

(** ** Base64, URL alphabet *)

Definition b64_alphabet : string :=
  "ABCDEFGHIJKLMNOPQRSTUVWXYZabcdefghijklmnopqrstuvwxyz0123456789-_".

Definition b64_char (n : Z) : string :=
  match String.get (Z.to_nat n) b64_alphabet with
  | Some c => String c ""
  | None => ""
  end.

(** [base64.URLEncoding.EncodeToString] *)
Fixpoint b64_encode (l : list Z) : string :=
  match l with
  | a :: b :: c :: l =>
      let v := Z.lor (Z.lor (Z.shiftl a 16) (Z.shiftl b 8)) c in
      b64_char (Z.land (Z.shiftr v 18) 63) +:+ b64_char (Z.land (Z.shiftr v 12) 63) +:+
      b64_char (Z.land (Z.shiftr v 6) 63) +:+ b64_char (Z.land v 63) +:+ b64_encode l
  | [a; b] =>
      let v := Z.lor (Z.shiftl a 16) (Z.shiftl b 8) in
      b64_char (Z.land (Z.shiftr v 18) 63) +:+ b64_char (Z.land (Z.shiftr v 12) 63) +:+
      b64_char (Z.land (Z.shiftr v 6) 63) +:+ "="
  | [a] =>
      let v := Z.shiftl a 16 in
      b64_char (Z.land (Z.shiftr v 18) 63) +:+ b64_char (Z.land (Z.shiftr v 12) 63) +:+ "=="
  | [] => ""
  end.

(** ** SHA-256 on 32-bit words *)

Definition w32 (n : Z) : Z := Z.land n 4294967295.
Definition rotr (k n : Z) : Z := Z.lor (Z.shiftr n k) (w32 (Z.shiftl n (32 - k))).

Definition sha_k : list Z :=
  [1116352408; 1899447441; 3049323471; 3921009573; 961987163; 1508970993; 2453635748; 2870763221;
   3624381080; 310598401; 607225278; 1426881987; 1925078388; 2162078206; 2614888103; 3248222580;
   3835390401; 4022224774; 264347078; 604807628; 770255983; 1249150122; 1555081692; 1996064986;
   2554220882; 2821834349; 2952996808; 3210313671; 3336571891; 3584528711; 113926993; 338241895;
   666307205; 773529912; 1294757372; 1396182291; 1695183700; 1986661051; 2177026350; 2456956037;
   2730485921; 2820302411; 3259730800; 3345764771; 3516065817; 3600352804; 4094571909; 275423344;
   430227734; 506948616; 659060556; 883997877; 958139571; 1322822218; 1537002063; 1747873779;
   1955562222; 2024104815; 2227730452; 2361852424; 2428436474; 2756734187; 3204031479; 3329325298]%Z.

Definition sha_init : list Z :=
  [1779033703; 3144134277; 1013904242; 2773480762; 1359893119; 2600822924; 528734635; 1541459225]%Z.

(** The message schedule, newest word first, extended by [n] words. *)
Fixpoint sha_extend (n : nat) (w : list Z) : list Z :=
  match n with
  | O => w
  | S n =>
      let w15 := nth 14 w 0%Z in
      let w2 := nth 1 w 0%Z in
      let s0 := Z.lxor (Z.lxor (rotr 7 w15) (rotr 18 w15)) (Z.shiftr w15 3) in
      let s1 := Z.lxor (Z.lxor (rotr 17 w2) (rotr 19 w2)) (Z.shiftr w2 10) in
      sha_extend n (w32 (nth 15 w 0%Z + s0 + nth 6 w 0%Z + s1) :: w)
  end.

Definition sha_round (st : list Z) (kw : Z * Z) : list Z :=
  match st with
  | [a; b; c; d; e; f; g; h] =>
      let s1 := Z.lxor (Z.lxor (rotr 6 e) (rotr 11 e)) (rotr 25 e) in
      let ch := Z.lxor (Z.land e f) (Z.land (Z.lxor e 4294967295) g) in
      let t1 := (h + s1 + ch + kw.1 + kw.2)%Z in
      let s0 := Z.lxor (Z.lxor (rotr 2 a) (rotr 13 a)) (rotr 22 a) in
      let maj := Z.lxor (Z.lxor (Z.land a b) (Z.land a c)) (Z.land b c) in
      [w32 (t1 + s0 + maj); a; b; c; w32 (d + t1); e; f; g]
  | _ => st
  end.

Definition sha_block (h : list Z) (block : list Z) : list Z :=
  let w := reverse (sha_extend 48 (reverse block)) in
  let st := fold_left sha_round (combine sha_k w) h in
  zip_with (fun a b => w32 (a + b)) h st.

Fixpoint be_bytes (k : nat) (n : Z) : list Z :=
  match k with
  | O => []
  | S k => Z.land (Z.shiftr n (8 * Z.of_nat k)) 255 :: be_bytes k n
  end.

Fixpoint be_words (l : list Z) : list Z :=
  match l with
  | a :: b :: c :: d :: l =>
      Z.lor (Z.shiftl a 24) (Z.lor (Z.shiftl b 16) (Z.lor (Z.shiftl c 8) d)) :: be_words l
  | _ => []
  end.

Fixpoint blocks (fuel : nat) (w : list Z) : list (list Z) :=
  match fuel, w with
  | S fuel, _ :: _ => take 16 w :: blocks fuel (drop 16 w)
  | _, _ => []
  end.

Definition sha_pad (msg : list Z) : list Z :=
  let len := length msg in
  let zeros := ((119 - len mod 64) mod 64)%nat in
  msg ++ [128%Z] ++ replicate zeros 0%Z ++ be_bytes 8 (8 * Z.of_nat len).

(** [sha256.Sum256] *)
Definition Sum256 (msg : list Z) : list Z :=
  let words := be_words (sha_pad msg) in
  fold_left sha_block (blocks (length words) words) sha_init ≫= be_bytes 4.

Definition sha256_hex (s : string) : string := hex_encode (Sum256 (bytes_of s)).

Example sha256_empty :
  sha256_hex "" = "e3b0c44298fc1c149afbf4c8996fb92427ae41e4649b934ca495991b7852b855".
Proof. vm_compute. reflexivity. Qed.

Example sha256_abc :
  sha256_hex "abc" = "ba7816bf8f01cfea414140de5dae2223b00361a396177a9cb410ff61f20015ad".
Proof. vm_compute. reflexivity. Qed.

Example sha256_two_blocks :
  sha256_hex "abcdbcdecdefdefgefghfghighijhijkijkljklmklmnlmnomnopnopq" =
  "248d6a61d20638b8e5c026930c3e6039a33ce45964ff2167f6ecedd419db06c1".
Proof. vm_compute. reflexivity. Qed.

(** ** Lengths and alphabets *)

Lemma hex_text_length k n : String.length (hex_text k n) = k.
Proof. induction k as [|k IH]; [done|]. cbn [hex_text]. rw string_length_app IH. done. Qed.

Lemma hex_encode_length l : String.length (hex_encode l) = 2 * length l.
Proof.
  unfold hex_encode. induction l as [|b l IH]; [done|].
  rw fmap_cons str_concat_cons string_length_app hex_text_length IH. simpl. lia.
Qed.

Lemma sha_round_length st kw : length st = 8 -> length (sha_round st kw) = 8.
Proof. intros H. do 8 (destruct st as [|? st]; [done|]). by destruct st. Qed.

Lemma sha_rounds_length kws st : length st = 8 -> length (fold_left sha_round kws st) = 8.
Proof.
  revert st. induction kws as [|kw kws IH]; intros st H; [done|].
  simpl. by apply IH, sha_round_length.
Qed.

Lemma sha_blocks_length bs h : length h = 8 -> length (fold_left sha_block bs h) = 8.
Proof.
  revert h. induction bs as [|b bs IH]; intros h H; [done|]. simpl. apply IH.
  unfold sha_block. rw length_zip_with sha_rounds_length //. lia.
Qed.

Lemma be_bytes_length k n : length (be_bytes k n) = k.
Proof. induction k as [|k IH]; simpl; [done|]. by rw IH. Qed.

Lemma be_words_bytes_length l : length (l ≫= be_bytes 4) = 4 * length l.
Proof. induction l as [|w l IH]; [done|]. rw bind_cons length_app be_bytes_length IH. simpl. lia. Qed.

(** A digest has 32 bytes, so its hexadecimal text has 64 characters. *)
Lemma Sum256_length msg : length (Sum256 msg) = 32.
Proof. unfold Sum256. by rw be_words_bytes_length sha_blocks_length. Qed.

Lemma sha256_hex_length s : String.length (sha256_hex s) = 64.
Proof. unfold sha256_hex. by rw hex_encode_length Sum256_length. Qed.

(** ** Base64 text *)

Definition b64_url_char (c : ascii) : bool :=
  in_range 65 90 (code c) || in_range 97 122 (code c) || in_range 48 57 (code c) ||
  (code c =? 45)%Z || (code c =? 95)%Z.

Definition b64_val (c : ascii) : Z :=
  if in_range 65 90 (code c) then (code c - 65)%Z
  else if in_range 97 122 (code c) then (code c - 71)%Z
  else if in_range 48 57 (code c) then (code c + 4)%Z
  else if (code c =? 45)%Z then 62%Z else 63%Z.

(** The alphabet, checked on its 64 entries: one URL-safe character each, and
    [b64_val] inverts it. *)
Definition b64_check (n : Z) : bool :=
  match b64_char n with
  | String c EmptyString => b64_url_char c && (b64_val c =? n)%Z
  | _ => false
  end.

Lemma b64_char_spec n :
  (0 <= n < 64)%Z -> exists c, b64_char n = String c "" /\ b64_url_char c = true /\ b64_val c = n.
Proof.
  intros Hn. assert (Ht : forallb b64_check (Z.of_nat <$> seq 0 64) = true) by (vm_compute; reflexivity).
  rw forallb_forall in Ht. specialize (Ht n). unfold b64_check in Ht.
  destruct (b64_char n) as [|c [|]].
  - discriminate Ht. rw -(Z2Nat.id n); [|lia]. apply in_map, in_seq. lia.
  - exists c. split; [done|]. apply andb_true_iff in Ht as [H1 H2%Z.eqb_eq]; [done|].
    rw -(Z2Nat.id n); [|lia]. apply in_map, in_seq. lia.
  - discriminate Ht. rw -(Z2Nat.id n); [|lia]. apply in_map, in_seq. lia.
Qed.

Lemma lor_shiftl_add a b n :
  (0 <= n)%Z -> (0 <= b < 2 ^ n)%Z -> Z.lor (Z.shiftl a n) b = (a * 2 ^ n + b)%Z.
Proof.
  intros Hn Hb. rw -Z.add_lor_land Z.shiftl_mul_pow2 //.
  assert (Z.land (a * 2 ^ n) b = 0)%Z as ->; [|lia].
  apply Z.bits_inj'. intros m Hm. rw Z.land_spec Z.bits_0.
  destruct (Z.lt_ge_cases m n).
  - by rw Z.mul_pow2_bits_low.
  - rw -(Z.mod_small b (2 ^ n) Hb) Z.mod_pow2_bits_high; [|lia]. apply andb_false_r.
Qed.

Lemma land_63 n : Z.land n 63 = (n mod 64)%Z.
Proof. apply (Z.land_ones n 6). lia. Qed.

(** The 24 bits of a group and its four sextets. *)
Definition group_val (a b c : Z) : Z := (a * 65536 + b * 256 + c)%Z.

Lemma b64_encode_group a b c l :
  is_byte a = true -> is_byte b = true -> is_byte c = true ->
  let v := group_val a b c in
  b64_encode (a :: b :: c :: l) =
    b64_char (v / 262144) +:+ b64_char (v / 4096 mod 64) +:+ b64_char (v / 64 mod 64) +:+
    b64_char (v mod 64) +:+ b64_encode l.
Proof.
  unfold is_byte, group_val. intros Ha Hb Hc. cbn [b64_encode].
  assert (Z.lor (Z.lor (Z.shiftl a 16) (Z.shiftl b 8)) c = a * 65536 + b * 256 + c)%Z as ->.
  { rw -Z.lor_assoc (lor_shiftl_add b c 8); [|lia..]. rw lor_shiftl_add; [|lia..]. lia. }
  rw !land_63 !Z.shiftr_div_pow2; [|lia..]. rw (Z.mod_small (_ / 2 ^ 18) 64) //.
  change (2 ^ 18)%Z with 262144%Z. 
  split; [apply Z.div_pos; lia|]. apply Z.div_lt_upper_bound; lia.
Qed.

(** Whole groups encode independently of what follows them. *)
Lemma b64_encode_app k l1 l2 :
  length l1 = 3 * k -> b64_encode (l1 ++ l2) = b64_encode l1 +:+ b64_encode l2.
Proof.
  revert l1. induction k as [|k IH]; intros l1 H.
  - by destruct l1.
  - destruct l1 as [|a [|b [|c l1]]]; simpl in H; try lia.
    simpl app. cbn [b64_encode]. rw (IH l1); [|lia]. by rw -!string_app_assoc.
Qed.

Lemma sextets v :
  (0 <= v < 16777216)%Z ->
  (0 <= v / 262144 < 64)%Z /\ (0 <= v / 4096 mod 64 < 64)%Z /\ (0 <= v / 64 mod 64 < 64)%Z /\
  (0 <= v mod 64 < 64)%Z /\
  v = (v / 262144 * 262144 + v / 4096 mod 64 * 4096 + v / 64 mod 64 * 64 + v mod 64)%Z.
Proof. intros H. Z.to_euclidean_division_equations. lia. Qed.

Lemma group_bytes a b c :
  is_byte a = true -> is_byte b = true -> is_byte c = true ->
  (0 <= group_val a b c < 16777216)%Z.
Proof. unfold is_byte, group_val. lia. Qed.

(** [3k] bytes become [4k] characters of the URL alphabet, and no two byte
    strings of that length share an encoding. *)
Lemma b64_encode_chars k l :
  length l = 3 * k -> forallb is_byte l = true ->
  String.length (b64_encode l) = 4 * k /\ str_all b64_url_char (b64_encode l) = true.
Proof.
  revert l. induction k as [|k IH]; intros l Hl Hb; [by destruct l|].
  destruct l as [|a [|b [|c l]]]; simpl in Hl; try lia.
  simpl in Hb. split_andb.
  destruct (IH l) as [IHl IHc]; [lia|done|].
  rw b64_encode_group //. destruct (sextets (group_val a b c)) as (R0 & R1 & R2 & R3 & _);
    [by apply group_bytes|].
  apply b64_char_spec in R0 as (c0 & -> & U0 & _), R1 as (c1 & -> & U1 & _),
    R2 as (c2 & -> & U2 & _), R3 as (c3 & -> & U3 & _).
  rw !string_app_cons !string_app_nil_l. simpl. rw IHl IHc U0 U1 U2 U3. split; [lia|done].
Qed.

Lemma group_inj a b c a' b' c' :
  is_byte a = true -> is_byte b = true -> is_byte c = true ->
  is_byte a' = true -> is_byte b' = true -> is_byte c' = true ->
  group_val a b c = group_val a' b' c' -> a = a' /\ b = b' /\ c = c'.
Proof. unfold is_byte, group_val. lia. Qed.

Lemma b64_char_eq m n s t :
  (0 <= m < 64)%Z -> (0 <= n < 64)%Z -> b64_char m +:+ s = b64_char n +:+ t -> m = n /\ s = t.
Proof.
  intros Hm Hn. apply b64_char_spec in Hm as (c & -> & _ & <-), Hn as (d & -> & _ & <-).
  rw !string_app_cons !string_app_nil_l. by intros [= -> ->].
Qed.

Lemma b64_encode_inj k l1 l2 :
  length l1 = 3 * k -> length l2 = 3 * k ->
  forallb is_byte l1 = true -> forallb is_byte l2 = true ->
  b64_encode l1 = b64_encode l2 -> l1 = l2.
Proof.
  revert l1 l2. induction k as [|k IH]; intros l1 l2 H1 H2 B1 B2; [by destruct l1, l2|].
  destruct l1 as [|a [|b [|c l1]]], l2 as [|a' [|b' [|c' l2]]]; simpl in H1, H2; try lia.
  simpl in B1, B2. split_andb. rw !b64_encode_group //.
  destruct (sextets (group_val a b c)) as (P0 & P1 & P2 & P3 & Ev); [by apply group_bytes|].
  destruct (sextets (group_val a' b' c')) as (Q0 & Q1 & Q2 & Q3 & Ev'); [by apply group_bytes|].
  intros E. apply b64_char_eq in E as [E0 E]; [|done..]. apply b64_char_eq in E as [E1 E]; [|done..].
  apply b64_char_eq in E as [E2 E]; [|done..]. apply b64_char_eq in E as [E3 E]; [|done..].
  apply IH in E as ->; [|lia|lia|done..].
  assert (Hv : group_val a b c = group_val a' b' c') by (rw Ev Ev' E0 E1 E2 E3; done).
  by apply group_inj in Hv as (-> & -> & ->).
Qed.
