(* ===== verification/Validation.v ===== *)
(** * The validating webhook: [api/v1alpha1/cashumint_webhook.go], [Validate...]

    A Go [error] result is an [option]: [None] is nil.  Every validator returns
    the error the code builds, message included; [valid_...] are the boolean
    conditions the code tests, and the theorems relate the two. *)

From S2P Require Import Prelude Kube Types Platform Fmt Samples Defaulting.

(** ** Collecting errors *)

(** [if cond { errs = append(errs, fmt.Errorf(msg)) }] *)
Definition err_if (cond : bool) (msg : string) : list goerror := append_if cond [Errorf msg].

(** [if err := f(); err != nil { errs = append(errs, err) }] *)
Definition err_of (e : option goerror) : list goerror :=
  match e with Some e => [e] | None => [] end.

(** [if len(errs) > 0 { return fmt.Errorf(prefix + "%v", errs) }; return nil] *)
Definition join_errs (prefix : string) (errs : list goerror) : option goerror :=
  match errs with
  | [] => None
  | _ => Some (Errorf (prefix +:+ fmt_errs errs))
  end.

Lemma err_if_nil b msg : err_if b msg = [] <-> b = false.
Proof. by destruct b. Qed.

Lemma err_of_nil e : err_of e = [] <-> e = None.
Proof. by destruct e. Qed.

Lemma join_errs_none p l : join_errs p l = None <-> l = [].
Proof. by destruct l. Qed.

(** ** The validators *)

(** [cashumint_webhook.go: validateSecretKeySelector] *)
Definition validateSecretKeySelector (path : string) (ref : option SecretKeySelector)
    (required : bool) : option goerror :=
  match ref with
  | None => if required then Some (Errorf (path +:+ " is required")) else None
  | Some ref =>
      if str_empty ref.(sks_Name) || str_empty ref.(sks_Key)
      then Some (Errorf (path +:+ ".name and key are required"))
      else None
  end.

(** [cashumint_webhook.go: validateIngressConfig] *)
Definition validateIngressConfig (path : string) (ingress : option IngressConfig) : option goerror :=
  match ingress with
  | None => None
  | Some ingress =>
      if negb ingress.(ing_Enabled) then None
      else
        join_errs (path +:+ " validation errors: ")
          (err_if (str_empty ingress.(ing_Host))
             (path +:+ ".host is required when ingress is enabled") ++
           match ingress.(ing_TLS) with
           | Some tls =>
               if tls.(tls_Enabled) then
                 match tls.(tls_CertManager) with
                 | Some cm =>
                     if cm.(cm_Enabled) then
                       err_if (str_empty cm.(cm_IssuerName))
                         (path +:+ ".tls.certManager.issuerName is required when cert-manager is enabled")
                     else []
                 | None => []
                 end
               else []
           | None => []
           end)
  end.

(** [cashumint_webhook.go: validateDatabase] *)
Definition validateDatabase (spec : CashuMintSpec) : option goerror :=
  let db := spec.(spec_Database) in
  join_errs "database validation errors: "
    (if String.eqb db.(db_Engine) DatabaseEnginePostgres then
       match db.(db_Postgres) with
       | None => err_if true "spec.database.postgres is required when engine is postgres"
       | Some pg =>
           let hasURL := negb (str_empty pg.(pg_URL)) in
           let hasSecretRef := non_nil pg.(pg_URLSecretRef) in
           err_if (negb pg.(pg_AutoProvision) && negb hasURL && negb hasSecretRef)
             "spec.database.postgres must have either url, urlSecretRef, or autoProvision enabled" ++
           err_if (hasURL && hasSecretRef)
             "spec.database.postgres cannot specify both url and urlSecretRef"
       end
     else if String.eqb db.(db_Engine) DatabaseEngineSQLite
             || String.eqb db.(db_Engine) DatabaseEngineRedb then []
     else err_if true ("invalid database engine: " +:+ db.(db_Engine) +:+
                       " (must be postgres, sqlite, or redb)")).

(** The counter of [validatePaymentBackend]: one per populated field. *)
Definition backend_count (pb : PaymentBackendConfig) : nat :=
  let bump (b : bool) (n : nat) := if b then S n else n in
  bump (non_nil pb.(pb_GRPCProcessor)) (bump (non_nil pb.(pb_FakeWallet))
    (bump (non_nil pb.(pb_LNBits)) (bump (non_nil pb.(pb_CLN)) (bump (non_nil pb.(pb_LND)) 0)))).

(** [pb.GRPCProcessor.SidecarProcessor != nil && ....Enabled] *)
Definition sidecarEnabled (gp : GRPCProcessorConfig) : bool := ptr_test sc_Enabled gp.(gp_SidecarProcessor).

(** The errors of [validatePaymentBackend] about a gRPC processor.
    [cashumint_webhook.go: validatePaymentBackend 683-701] *)
Definition grpc_errors (gp : GRPCProcessorConfig) : list goerror :=
  err_if (negb (sidecarEnabled gp) && str_empty gp.(gp_Address))
    "spec.paymentBackend.grpcProcessor.address is required when sidecarProcessor is not enabled" ++
  match gp.(gp_SidecarProcessor) with
  | Some sidecar =>
      if sidecarEnabled gp then
        err_if (str_empty sidecar.(sc_Image))
          "spec.paymentBackend.grpcProcessor.sidecarProcessor.image is required when enabled" ++
        err_if (sidecar.(sc_EnableTLS) && negb (non_nil sidecar.(sc_TLSSecretRef)))
          "spec.paymentBackend.grpcProcessor.sidecarProcessor.tlsSecretRef is required when enableTLS is true"
      else []
  | None => []
  end.

(** [cashumint_webhook.go: validatePaymentBackend] *)
Definition validatePaymentBackend (spec : CashuMintSpec) : option goerror :=
  let pb := spec.(spec_PaymentBackend) in
  let count := backend_count pb in
  join_errs "payment backend validation errors: "
    (err_if (count =? 0)
       "spec.paymentBackend: exactly one backend must be specified (lnd, cln, lnbits, fakeWallet, or grpcProcessor)" ++
     err_if (1 <? count)
       ("spec.paymentBackend: only one backend may be specified, but " +:+
        Itoa (Z.of_nat count) +:+ " were found") ++
     match pb.(pb_LND) with
     | Some lnd => err_if (str_empty lnd.(lnd_Address)) "spec.paymentBackend.lnd.address is required"
     | None => []
     end ++
     match pb.(pb_CLN) with
     | Some cln => err_if (str_empty cln.(cln_RPCPath)) "spec.paymentBackend.cln.rpcPath is required"
     | None => []
     end ++
     match pb.(pb_LNBits) with
     | Some lnb => err_if (str_empty lnb.(lnb_API)) "spec.paymentBackend.lnbits.api is required"
     | None => []
     end ++
     match pb.(pb_GRPCProcessor) with
     | Some gp => grpc_errors gp
     | None => []
     end).

(** [cashumint_webhook.go: validateIngress] *)
Definition validateIngress (spec : CashuMintSpec) : option goerror :=
  validateIngressConfig "spec.ingress" spec.(spec_Ingress).

(** [cashumint_webhook.go: validateManagementRPC] *)
Definition validateManagementRPC (spec : CashuMintSpec) : option goerror :=
  match spec.(spec_ManagementRPC) with
  | None => None
  | Some rpc =>
      match rpc.(rpc_TLSSecretRef) with
      | Some ref =>
          if str_empty ref.(lor_Name)
          then Some (Errorf "management RPC validation errors: [spec.managementRPC.tlsSecretRef.name is required]")
          else None
      | None => None
      end
  end.

(** [cashumint_webhook.go: validateBackup] *)
Definition validateBackup (spec : CashuMintSpec) : option goerror :=
  match spec.(spec_Backup) with
  | None => None
  | Some bk =>
      if negb bk.(bk_Enabled) then None
      else
        join_errs "backup validation errors: "
          (err_if (negb (String.eqb spec.(spec_Database).(db_Engine) "postgres"))
             "spec.backup.enabled requires spec.database.engine to be postgres" ++
           err_if (negb (ptr_test pg_AutoProvision spec.(spec_Database).(db_Postgres)))
             "spec.backup.enabled currently requires spec.database.postgres.autoProvision=true" ++
           err_if (str_empty bk.(bk_Schedule))
             "spec.backup.schedule is required when backup is enabled" ++
           match bk.(bk_S3) with
           | None => err_if true "spec.backup.s3 is required when backup is enabled"
           | Some s3 =>
               err_if (str_empty s3.(s3_Bucket)) "spec.backup.s3.bucket is required" ++
               err_if (str_empty s3.(s3_AccessKeyIDSecretRef).(sks_Name)
                       || str_empty s3.(s3_AccessKeyIDSecretRef).(sks_Key))
                 "spec.backup.s3.accessKeyIdSecretRef.name and key are required" ++
               err_if (str_empty s3.(s3_SecretAccessKeySecretRef).(sks_Name)
                       || str_empty s3.(s3_SecretAccessKeySecretRef).(sks_Key))
                 "spec.backup.s3.secretAccessKeySecretRef.name and key are required"
           end)
  end.

(** [cashumint_webhook.go: validateOrchardMint] *)
Definition validateOrchardMint (spec : CashuMintSpec) (orchard : OrchardConfig) : list goerror :=
  match orchard.(or_Mint) with
  | None => []
  | Some m =>
      err_of (validateSecretKeySelector "spec.orchard.mint.databaseCaSecretRef" m.(orm_DatabaseCASecretRef) false) ++
      err_of (validateSecretKeySelector "spec.orchard.mint.databaseCertSecretRef" m.(orm_DatabaseCertSecretRef) false) ++
      err_of (validateSecretKeySelector "spec.orchard.mint.databaseKeySecretRef" m.(orm_DatabaseKeySecretRef) false) ++
      err_if (ptr_test (fun rpc => ptr_test id rpc.(omr_MTLS)) m.(orm_RPC)
              && negb (ptr_test rpc_Enabled spec.(spec_ManagementRPC)))
        "spec.orchard.mint.rpc.mTLS=true requires spec.managementRPC.enabled=true"
  end.

(** [cashumint_webhook.go: validateOrchardBitcoin] *)
Definition validateOrchardBitcoin (orchard : OrchardConfig) : list goerror :=
  match orchard.(or_Bitcoin) with
  | None => []
  | Some b =>
      err_if (str_empty b.(ob_RPCHost)) "spec.orchard.bitcoin.rpcHost is required" ++
      err_if (b.(ob_RPCPort) =? 0)%Z "spec.orchard.bitcoin.rpcPort is required" ++
      err_of (validateSecretKeySelector "spec.orchard.bitcoin.rpcUserSecretRef" b.(ob_RPCUserSecretRef) true) ++
      err_of (validateSecretKeySelector "spec.orchard.bitcoin.rpcPasswordSecretRef" b.(ob_RPCPasswordSecretRef) true)
  end.

(** [cashumint_webhook.go: validateOrchardLightning] *)
Definition validateOrchardLightning (orchard : OrchardConfig) : list goerror :=
  match orchard.(or_Lightning) with
  | None => []
  | Some l =>
      err_if (str_empty l.(ol_RPCHost)) "spec.orchard.lightning.rpcHost is required" ++
      err_if (l.(ol_RPCPort) =? 0)%Z "spec.orchard.lightning.rpcPort is required" ++
      (if String.eqb l.(ol_Type) "lnd" then
         err_of (validateSecretKeySelector "spec.orchard.lightning.macaroonSecretRef" l.(ol_MacaroonSecretRef) true) ++
         err_of (validateSecretKeySelector "spec.orchard.lightning.certSecretRef" l.(ol_CertSecretRef) true)
       else if String.eqb l.(ol_Type) "cln" then
         err_of (validateSecretKeySelector "spec.orchard.lightning.keySecretRef" l.(ol_KeySecretRef) true) ++
         err_of (validateSecretKeySelector "spec.orchard.lightning.caSecretRef" l.(ol_CASecretRef) true)
       else [])
  end.

(** [cashumint_webhook.go: validateOrchardTaprootAssets] *)
Definition validateOrchardTaprootAssets (orchard : OrchardConfig) : list goerror :=
  match orchard.(or_TaprootAssets) with
  | None => []
  | Some t =>
      err_if (str_empty t.(ot_RPCHost)) "spec.orchard.taprootAssets.rpcHost is required" ++
      err_if (t.(ot_RPCPort) =? 0)%Z "spec.orchard.taprootAssets.rpcPort is required" ++
      err_of (validateSecretKeySelector "spec.orchard.taprootAssets.macaroonSecretRef" t.(ot_MacaroonSecretRef) true) ++
      err_of (validateSecretKeySelector "spec.orchard.taprootAssets.certSecretRef" t.(ot_CertSecretRef) true)
  end.

(** [cashumint_webhook.go: validateOrchardAI] *)
Definition validateOrchardAI (orchard : OrchardConfig) : list goerror :=
  match orchard.(or_AI) with
  | None => []
  | Some ai => err_if (str_empty ai.(oai_API)) "spec.orchard.ai.api is required"
  end.

(** [cashumint_webhook.go: validateOrchard] *)
Definition validateOrchard (spec : CashuMintSpec) : option goerror :=
  match spec.(spec_Orchard) with
  | None => None
  | Some orchard =>
      if negb orchard.(or_Enabled) then None
      else
        join_errs "orchard validation errors: "
          (err_if (String.eqb spec.(spec_Database).(db_Engine) DatabaseEngineRedb)
             "spec.orchard.enabled requires spec.database.engine to be postgres or sqlite" ++
           err_of (validateSecretKeySelector "spec.orchard.setupKeySecretRef" orchard.(or_SetupKeySecretRef) true) ++
           err_of (validateIngressConfig "spec.orchard.ingress" orchard.(or_Ingress)) ++
           validateOrchardMint spec orchard ++
           validateOrchardBitcoin orchard ++
           validateOrchardLightning orchard ++
           validateOrchardTaprootAssets orchard ++
           validateOrchardAI orchard)
  end.

Section Resources.
Context `{Quantities, MapRange}.

(** The body of the loop: the error for one limit. *)
Definition limit_exceeded (requests : ResourceList) (entry : string * Quantity) : bool :=
  match requests !! entry.1 with
  | Some request => (0 <? Cmp request entry.2)%Z
  | None => false
  end.

(** [cashumint_webhook.go: validateResources]; the loop returns at the first
    limit, in the iteration order of the map, that a request exceeds. *)
Definition validateResources (spec : CashuMintSpec) : option goerror :=
  match spec.(spec_Resources) with
  | None => None
  | Some rr =>
      match rr.(rr_Limits), rr.(rr_Requests) with
      | Some limits, Some requests =>
          match List.find (limit_exceeded requests) (map_range limits) with
          | Some (resource, _) =>
              Some (Errorf ("resource request for " +:+ resource +:+ " exceeds limit"))
          | None => None
          end
      | _, _ => None
      end
  end.

(** [cashumint_webhook.go: validateCashuMint] *)
Definition validateCashuMint (r : CashuMint) : option goerror :=
  let spec := r.(mint_Spec) in
  join_errs "validation failed: "
    (err_if (str_empty spec.(spec_MintInfo).(mi_URL)) "spec.mintInfo.url is required" ++
     err_of (validateDatabase spec) ++
     err_of (validatePaymentBackend spec) ++
     err_of (validateIngress spec) ++
     err_of (validateResources spec) ++
     err_of (validateBackup spec) ++
     err_of (validateManagementRPC spec) ++
     err_of (validateOrchard spec)).

(** [cashumint_webhook.go: ValidateCreate] *)
Definition ValidateCreate (r : CashuMint) : option goerror := validateCashuMint r.

(** [cashumint_webhook.go: ValidateUpdate]; the old object is ignored. *)
Definition ValidateUpdate (r old : CashuMint) : option goerror := validateCashuMint r.

(** [cashumint_webhook.go: ValidateDelete] *)
Definition ValidateDelete (r : CashuMint) : option goerror := None.
End Resources.

(** ** What an accepted mint satisfies *)

(** A secret reference names a secret and a key. *)
Definition ref_set (ref : SecretKeySelector) : Prop :=
  ref.(sks_Name) <> "" /\ ref.(sks_Key) <> "".

Definition required_ref (p : option SecretKeySelector) : Prop := exists ref, p = Some ref /\ ref_set ref.
Definition optional_ref (p : option SecretKeySelector) : Prop := forall ref, p = Some ref -> ref_set ref.

Inductive valid_database : DatabaseConfig -> Prop :=
  | valid_postgres db pg :
      db.(db_Engine) = DatabaseEnginePostgres -> db.(db_Postgres) = Some pg ->
      pg.(pg_AutoProvision) = true \/ pg.(pg_URL) <> "" \/ non_nil pg.(pg_URLSecretRef) = true ->
      ~ (pg.(pg_URL) <> "" /\ non_nil pg.(pg_URLSecretRef) = true) ->
      valid_database db
  | valid_sqlite db : db.(db_Engine) = DatabaseEngineSQLite -> valid_database db
  | valid_redb db : db.(db_Engine) = DatabaseEngineRedb -> valid_database db.

Definition valid_sidecar (sc : SidecarProcessorConfig) : Prop :=
  sc.(sc_Image) <> "" /\ (sc.(sc_EnableTLS) = true -> non_nil sc.(sc_TLSSecretRef) = true).

(** A gRPC processor runs as a sidecar or is reached at an address. *)
Inductive valid_grpc : GRPCProcessorConfig -> Prop :=
  | valid_grpc_sidecar gp sc :
      gp.(gp_SidecarProcessor) = Some sc -> sc.(sc_Enabled) = true -> valid_sidecar sc -> valid_grpc gp
  | valid_grpc_remote gp :
      ptr_test sc_Enabled gp.(gp_SidecarProcessor) = false -> gp.(gp_Address) <> "" -> valid_grpc gp.

(** The five backends a payment section can populate, and the one it did. *)
Inductive Backend : Type :=
  | BLND (c : LNDConfig)
  | BCLN (c : CLNConfig)
  | BLNBits (c : LNBitsConfig)
  | BFakeWallet (c : FakeWalletConfig)
  | BGRPC (c : GRPCProcessorConfig).

Definition populated (pb : PaymentBackendConfig) : list Backend :=
  option_list (BLND <$> pb.(pb_LND)) ++ option_list (BCLN <$> pb.(pb_CLN)) ++
  option_list (BLNBits <$> pb.(pb_LNBits)) ++ option_list (BFakeWallet <$> pb.(pb_FakeWallet)) ++
  option_list (BGRPC <$> pb.(pb_GRPCProcessor)).

Definition valid_backend (b : Backend) : Prop :=
  match b with
  | BLND c => c.(lnd_Address) <> ""
  | BCLN c => c.(cln_RPCPath) <> ""
  | BLNBits c => c.(lnb_API) <> ""
  | BFakeWallet _ => True
  | BGRPC c => valid_grpc c
  end.

Definition valid_payment (pb : PaymentBackendConfig) : Prop :=
  exists b, populated pb = [b] /\ valid_backend b.

Definition valid_ingress (p : option IngressConfig) : Prop :=
  forall i, p = Some i -> i.(ing_Enabled) = true ->
    i.(ing_Host) <> "" /\
    forall tls cm, i.(ing_TLS) = Some tls -> tls.(tls_Enabled) = true ->
      tls.(tls_CertManager) = Some cm -> cm.(cm_Enabled) = true -> cm.(cm_IssuerName) <> "".

Definition valid_rpc (p : option ManagementRPCConfig) : Prop :=
  forall rpc ref, p = Some rpc -> rpc.(rpc_TLSSecretRef) = Some ref -> ref.(lor_Name) <> "".

Definition valid_backup (spec : CashuMintSpec) : Prop :=
  forall bk, spec.(spec_Backup) = Some bk -> bk.(bk_Enabled) = true ->
    spec.(spec_Database).(db_Engine) = DatabaseEnginePostgres /\
    ptr_test pg_AutoProvision spec.(spec_Database).(db_Postgres) = true /\
    bk.(bk_Schedule) <> "" /\
    exists s3, bk.(bk_S3) = Some s3 /\ s3.(s3_Bucket) <> "" /\
      ref_set s3.(s3_AccessKeyIDSecretRef) /\ ref_set s3.(s3_SecretAccessKeySecretRef).

Definition valid_orchard_mint (rpc : option ManagementRPCConfig) (m : OrchardMintConfig) : Prop :=
  optional_ref m.(orm_DatabaseCASecretRef) /\ optional_ref m.(orm_DatabaseCertSecretRef) /\
  optional_ref m.(orm_DatabaseKeySecretRef) /\
  (ptr_test (fun c => ptr_test id c.(omr_MTLS)) m.(orm_RPC) = true -> ptr_test rpc_Enabled rpc = true).

Definition valid_orchard_bitcoin (b : OrchardBitcoinConfig) : Prop :=
  b.(ob_RPCHost) <> "" /\ (b.(ob_RPCPort) <> 0)%Z /\
  required_ref b.(ob_RPCUserSecretRef) /\ required_ref b.(ob_RPCPasswordSecretRef).

Definition valid_orchard_lightning (l : OrchardLightningConfig) : Prop :=
  l.(ol_RPCHost) <> "" /\ (l.(ol_RPCPort) <> 0)%Z /\
  (l.(ol_Type) = "lnd" -> required_ref l.(ol_MacaroonSecretRef) /\ required_ref l.(ol_CertSecretRef)) /\
  (l.(ol_Type) = "cln" -> required_ref l.(ol_KeySecretRef) /\ required_ref l.(ol_CASecretRef)).

Definition valid_orchard_taproot (t : OrchardTaprootAssetsConfig) : Prop :=
  t.(ot_RPCHost) <> "" /\ (t.(ot_RPCPort) <> 0)%Z /\
  required_ref t.(ot_MacaroonSecretRef) /\ required_ref t.(ot_CertSecretRef).

Definition valid_orchard (spec : CashuMintSpec) : Prop :=
  forall o, spec.(spec_Orchard) = Some o -> o.(or_Enabled) = true ->
    spec.(spec_Database).(db_Engine) <> DatabaseEngineRedb /\
    required_ref o.(or_SetupKeySecretRef) /\
    valid_ingress o.(or_Ingress) /\
    (forall m, o.(or_Mint) = Some m -> valid_orchard_mint spec.(spec_ManagementRPC) m) /\
    (forall b, o.(or_Bitcoin) = Some b -> valid_orchard_bitcoin b) /\
    (forall l, o.(or_Lightning) = Some l -> valid_orchard_lightning l) /\
    (forall t, o.(or_TaprootAssets) = Some t -> valid_orchard_taproot t) /\
    (forall a, o.(or_AI) = Some a -> a.(oai_API) <> "").

(** No request of the container exceeds the limit of the same resource. *)
Definition valid_resources `{Quantities} (spec : CashuMintSpec) : Prop :=
  forall rr limits requests name limit request,
    spec.(spec_Resources) = Some rr -> rr.(rr_Limits) = Some limits ->
    rr.(rr_Requests) = Some requests -> limits !! name = Some limit ->
    requests !! name = Some request -> (Cmp request limit <= 0)%Z.

Record valid_spec `{Quantities} (spec : CashuMintSpec) : Prop := {
  valid_url : spec.(spec_MintInfo).(mi_URL) <> "";
  valid_db : valid_database spec.(spec_Database);
  valid_pb : valid_payment spec.(spec_PaymentBackend);
  valid_ing : valid_ingress spec.(spec_Ingress);
  valid_res : valid_resources spec;
  valid_bk : valid_backup spec;
  valid_mrpc : valid_rpc spec.(spec_ManagementRPC);
  valid_orch : valid_orchard spec
}.

(** ** Each validator decides its condition *)

Lemma validateSecretKeySelector_required path p :
  validateSecretKeySelector path p true = None <-> required_ref p.
Proof.
  unfold required_ref, ref_set. destruct p as [[n k o]|]; simpl.
  - destruct n, k; simpl; split; try done; try (intros (? & [= <-] & ? & ?); simpl in *; done).
    intros _. eauto.
  - split; [done|by intros (? & ? & ?)].
Qed.

Lemma validateSecretKeySelector_optional path p :
  validateSecretKeySelector path p false = None <-> optional_ref p.
Proof.
  unfold optional_ref, ref_set. destruct p as [[n k o]|]; simpl; [|done].
  destruct n, k; simpl; split; try done;
    try (intros H; by destruct (H _ eq_refl)); by intros _ ? [= <-].
Qed.

Lemma validateIngressConfig_none path p :
  validateIngressConfig path p = None <-> valid_ingress p.
Proof.
  unfold valid_ingress. destruct p as [i|]; simpl; [|done].
  destruct (ing_Enabled i) eqn:E; simpl.
  2: { split; [|done]. intros _ j [= <-]. congruence. }
  rw join_errs_none app_nil err_if_nil str_empty_false. split.
  - intros [Hh Ht] j [= <-] _. split; [done|]. intros tls cm Etls Het Ecm Hec.
    rw Etls Het Ecm Hec err_if_nil str_empty_false in Ht. done.
  - intros H. destruct (H _ eq_refl E) as [Hh Ht]. split; [done|].
    destruct (ing_TLS i) as [tls|]; [|done]. destruct (tls_Enabled tls) eqn:Et; [|done].
    destruct (tls_CertManager tls) as [cm|] eqn:Ec; [|done].
    destruct (cm_Enabled cm) eqn:Ecm; [|done]. rw err_if_nil str_empty_false. eauto.
Qed.

Lemma validateDatabase_none spec :
  validateDatabase spec = None <-> valid_database spec.(spec_Database).
Proof.
  unfold validateDatabase. destruct (spec_Database spec) as [e pg sq]. simpl.
  rw join_errs_none. destruct (String.eqb_spec e DatabaseEnginePostgres) as [->|Hp].
  - destruct pg as [[u ref t mc ct auto aps]|]; simpl.
    + rw app_nil !err_if_nil. split.
      * intros [H1 H2]. eapply valid_postgres; simpl; [done..| |]; destruct u, ref, auto; simpl in *;
          try done; try (by auto); intuition done.
      * intros H. inversion H as [? pg' ? Hpg Hone Hboth| |]; subst; try done. simpl in *.
        injection Hpg as <-. destruct u, ref, auto; simpl in *; try done; intuition done.
    + split; [done|]. intros H; by inversion H.
  - destruct (String.eqb_spec e DatabaseEngineSQLite) as [->|Hs]; simpl;
      [split; [intros _; by apply valid_sqlite|done]|].
    destruct (String.eqb_spec e DatabaseEngineRedb) as [->|Hr]; simpl;
      [split; [intros _; by apply valid_redb|done]|].
    split; [done|]. intros H; by inversion H.
Qed.

Lemma grpc_errors_nil gp :
  grpc_errors gp = [] <-> valid_grpc gp.
Proof.
  unfold grpc_errors, sidecarEnabled. destruct gp as [addr port units tls sc]. cbn.
  destruct sc as [sc|]; [destruct (sc_Enabled sc) eqn:E|]; unfold ptr_test; rw ?E;
    rw ?app_nil ?err_if_nil /= ?str_empty_false.
  - split.
    + intros (_ & Hi & Ht). eapply valid_grpc_sidecar; [done..|]. split; [done|].
      intros Htls. rw Htls in Ht. by destruct (sc_TLSSecretRef sc).
    + intros H. inversion H as [? sc' Hs' ? [Hi Ht]|? Hd]; subst; simpl in *; simplify_eq; [|unfold ptr_test in *; congruence].
      split; [done|]. split; [done|]. destruct (sc_EnableTLS sc'); [by rw Ht|done].
  - split; [intros [Ha _]; apply valid_grpc_remote; simpl; by rw ?E|].
    intros H. inversion H as [? sc' Hs' ?|]; subst; simpl in *; simplify_eq; [unfold ptr_test in *; congruence|done].
  - split; [intros [Ha _]; by apply valid_grpc_remote|].
    intros H. by inversion H.
Qed.

Lemma validatePaymentBackend_none spec :
  validatePaymentBackend spec = None <-> valid_payment spec.(spec_PaymentBackend).
Proof.
  unfold validatePaymentBackend, valid_payment, populated, backend_count.
  destruct (spec_PaymentBackend spec) as [? ? ? ? lnd cln lnb fw gp]. simpl.
  rw join_errs_none. 
  destruct lnd as [lnd|], cln as [cln|], lnb as [lnb|], fw as [fw|], gp as [gp|];
    cbn; try (split; [done|intros (b & [=] & _)]);
    rw ?app_nil_r ?err_if_nil ?str_empty_false.
  - split; [intros H; by exists (BLND lnd)|by intros (b & [= <-] & H)].
  - split; [intros H; by exists (BCLN cln)|by intros (b & [= <-] & H)].
  - split; [intros H; by exists (BLNBits lnb)|by intros (b & [= <-] & H)].
  - split; [intros H; by exists (BFakeWallet fw)|by intros (b & [= <-] & H)].
  - trans (valid_grpc gp).
    2: { split; [intros H; by exists (BGRPC gp)|by intros (b & [= <-] & H)]. }
    apply grpc_errors_nil.
Qed.

Lemma validateManagementRPC_none spec :
  validateManagementRPC spec = None <-> valid_rpc spec.(spec_ManagementRPC).
Proof.
  unfold validateManagementRPC, valid_rpc. destruct (spec_ManagementRPC spec) as [rpc|]; [|done].
  destruct (rpc_TLSSecretRef rpc) as [ref|] eqn:E.
  - destruct (str_empty (lor_Name ref)) eqn:Hn.
    + apply str_empty_true in Hn. split; [done|]. intros H. by destruct (H _ _ eq_refl E).
    + apply str_empty_false in Hn. split; [|done]. intros _ ? ? [= <-]. congruence.
  - split; [|done]. intros _ ? ? [= <-]. congruence.
Qed.

Lemma ref_errors_nil ref msg :
  err_if (str_empty ref.(sks_Name) || str_empty ref.(sks_Key)) msg = [] <-> ref_set ref.
Proof. rw err_if_nil orb_false_iff !str_empty_false. done. Qed.

Lemma validateBackup_none spec : validateBackup spec = None <-> valid_backup spec.
Proof.
  unfold validateBackup, valid_backup. destruct (spec_Backup spec) as [bk|]; [|done].
  destruct (bk_Enabled bk) eqn:E; simpl; [|split; [by intros _ ? [= <-]; congruence|done]].
  rw join_errs_none !app_nil !err_if_nil !negb_false_iff String.eqb_eq str_empty_false.
  split.
  - intros (He & Ha & Hs & H3) ? [= <-] _. split; [done|]. split; [done|]. split; [done|].
    destruct (bk_S3 bk) as [s3|]; [|done]. exists s3.
    by rw !app_nil err_if_nil str_empty_false !ref_errors_nil in H3.
  - intros H. destruct (H _ eq_refl E) as (He & Ha & Hs & s3 & H3 & Hrest).
    split; [done|]. split; [done|]. split; [done|].
    by rw H3 !app_nil err_if_nil str_empty_false !ref_errors_nil.
Qed.

(** The Orchard subsections, each present or absent. *)
Lemma section_nil {A} (f : A -> list goerror) (P : A -> Prop) (p : option A) :
  (forall a, f a = [] <-> P a) ->
  match p with None => [] | Some a => f a end = [] <-> (forall a, p = Some a -> P a).
Proof.
  intros H. destruct p as [a|]; [|done]. rw H. split; [by intros ? ? [= <-]|eauto].
Qed.

Lemma validateOrchardMint_nil spec o :
  validateOrchardMint spec o = [] <->
  (forall m, o.(or_Mint) = Some m -> valid_orchard_mint spec.(spec_ManagementRPC) m).
Proof.
  apply section_nil. intros m. unfold valid_orchard_mint.
  rw !app_nil !err_of_nil !validateSecretKeySelector_optional err_if_nil andb_false_iff negb_false_iff.
  by destruct (ptr_test _ (orm_RPC m)); intuition.
Qed.

Lemma validateOrchardBitcoin_nil o :
  validateOrchardBitcoin o = [] <-> (forall b, o.(or_Bitcoin) = Some b -> valid_orchard_bitcoin b).
Proof.
  apply section_nil. intros b. unfold valid_orchard_bitcoin.
  by rw !app_nil !err_of_nil !validateSecretKeySelector_required !err_if_nil str_empty_false Z.eqb_neq.
Qed.

Lemma validateOrchardLightning_nil o :
  validateOrchardLightning o = [] <->
  (forall l, o.(or_Lightning) = Some l -> valid_orchard_lightning l).
Proof.
  apply section_nil. intros l. unfold valid_orchard_lightning.
  rw !app_nil !err_if_nil str_empty_false Z.eqb_neq.
  destruct (String.eqb_spec (ol_Type l) "lnd") as [->|Hl];
    [|destruct (String.eqb_spec (ol_Type l) "cln") as [->|Hc]];
    rw ?app_nil ?err_of_nil ?validateSecretKeySelector_required; intuition done.
Qed.

Lemma validateOrchardTaprootAssets_nil o :
  validateOrchardTaprootAssets o = [] <->
  (forall t, o.(or_TaprootAssets) = Some t -> valid_orchard_taproot t).
Proof.
  apply section_nil. intros t. unfold valid_orchard_taproot.
  by rw !app_nil !err_of_nil !validateSecretKeySelector_required !err_if_nil str_empty_false Z.eqb_neq.
Qed.

Lemma validateOrchardAI_nil o :
  validateOrchardAI o = [] <-> (forall a, o.(or_AI) = Some a -> a.(oai_API) <> "").
Proof. apply section_nil. intros a. by rw err_if_nil str_empty_false. Qed.

Lemma validateOrchard_none spec : validateOrchard spec = None <-> valid_orchard spec.
Proof.
  unfold validateOrchard, valid_orchard. destruct (spec_Orchard spec) as [o|]; [|done].
  destruct (or_Enabled o) eqn:E; simpl; [|split; [by intros _ ? [= <-]; congruence|done]].
  rw join_errs_none !app_nil !err_of_nil err_if_nil String.eqb_neq validateSecretKeySelector_required
    validateIngressConfig_none validateOrchardMint_nil validateOrchardBitcoin_nil
    validateOrchardLightning_nil validateOrchardTaprootAssets_nil validateOrchardAI_nil.
  split; [by intros H ? [= <-] _|]. intros H. exact (H _ eq_refl E).
Qed.

Section ResourcesSpec.
Context `{Quantities, MapRangeLaws}.

(** The verdict does not depend on the iteration order of the map. *)
Lemma validateResources_none spec : validateResources spec = None <-> valid_resources spec.
Proof.
  unfold validateResources, valid_resources.
  destruct (spec_Resources spec) as [[lim req claims]|]; [simpl|by split; [intros _ rr * Hr; discriminate Hr|]].
  destruct lim as [lim|]; [|by split; [intros _ rr * [= <-]|]].
  destruct req as [req|]; [|by split; [intros _ rr * [= <-]|]].
  split.
  - intros Hf rr l' r' name limit request [= <-] [= <-] [= <-] Hl Hr.
    destruct (List.find _ _) as [[n q]|] eqn:Ef; [done|].
    pose proof (List.find_none _ _ Ef (name, limit)) as Hn.
    unfold limit_exceeded in Hn. simpl in Hn. rw Hr in Hn. apply Z.ltb_ge, Hn.
    apply list_elem_of_In. rw map_range_perm. by apply elem_of_map_to_list.
  - intros Hall. destruct (List.find _ _) as [[n q]|] eqn:Ef; [|done].
    apply List.find_some in Ef as [Hin Hex]. apply list_elem_of_In in Hin.
    rw map_range_perm in Hin. apply elem_of_map_to_list in Hin.
    unfold limit_exceeded in Hex. simpl in Hex. destruct (req !! n) as [r|] eqn:Er; [|done].
    apply Z.ltb_lt in Hex. pose proof (Hall _ _ _ _ _ _ eq_refl eq_refl eq_refl Hin Er). lia.
Qed.

Lemma validateCashuMint_none r : validateCashuMint r = None <-> valid_spec r.(mint_Spec).
Proof.
  unfold validateCashuMint.
  rw join_errs_none !app_nil !err_of_nil err_if_nil str_empty_false validateDatabase_none
    validatePaymentBackend_none validateIngressConfig_none validateResources_none
    validateBackup_none validateManagementRPC_none validateOrchard_none.
  split; [intros (? & ? & ? & ? & ? & ? & ? & ?); by constructor|].
  intros []. by repeat (split; [done|]).
Qed.
End ResourcesSpec.

(** ** Defaulting keeps a mint valid *)

Definition default_backend (b : Backend) : Backend :=
  match b with
  | BLND c => BLND (defaultLND c)
  | BCLN c => BCLN (defaultCLN c)
  | BLNBits c => BLNBits (defaultLNBits c)
  | BFakeWallet c => BFakeWallet (defaultFakeWallet c)
  | BGRPC c => BGRPC (defaultGRPCProcessor c)
  end.

Lemma populated_default pb : populated (defaultBackends pb) = default_backend <$> populated pb.
Proof. destruct pb as [? ? ? ? [] [] [] [] []]; reflexivity. Qed.

Lemma default_backend_valid b : valid_backend b -> valid_backend (default_backend b).
Proof.
  destruct b as [| | | |gp]; simpl; try done. intros H.
  inversion H as [? sc Hs He [Hi Ht]|? Hd Ha]; subst.
  - eapply (valid_grpc_sidecar _ (defaultSidecar sc)); [|done|done].
    unfold defaultGRPCProcessor. cbn. rw Hs /ptr_upd_if /= He. done.
  - apply valid_grpc_remote; [|done]. unfold defaultGRPCProcessor. cbn.
    by rw (ptr_test_upd_if sc_Enabled).
Qed.

Lemma default_payment_valid pb : valid_payment pb -> valid_payment (defaultBackends pb).
Proof.
  intros (b & Hb & Hv). exists (default_backend b).
  rw populated_default Hb. split; [done|by apply default_backend_valid].
Qed.

Lemma defaultPostgres_kept pg :
  pg_AutoProvision (defaultPostgres pg) = pg_AutoProvision pg /\
  pg_URL (defaultPostgres pg) = pg_URL pg /\ pg_URLSecretRef (defaultPostgres pg) = pg_URLSecretRef pg.
Proof. unfold defaultPostgres. by destruct pg as [? ? ? ? ? [] ?]. Qed.

#[export] Instance defaultPostgres_auto : Keeps pg_AutoProvision defaultPostgres.
Proof. intros pg. apply defaultPostgres_kept. Qed.

Lemma default_engine db : db_Engine (defaultDatabaseFields db) = default_str DatabaseEnginePostgres (db_Engine db).
Proof. unfold defaultDatabaseFields. cbn. repeat (case_match; cbn); done. Qed.

Lemma valid_engine_set db : valid_database db -> db_Engine (defaultDatabaseFields db) = db_Engine db.
Proof. intros H. rw default_engine. by inversion H as [? ? E|? E|? E]; rw E. Qed.

Lemma default_postgres db :
  db_Engine db = DatabaseEnginePostgres ->
  db_Postgres (defaultDatabaseFields db) = ptr_upd defaultPostgres (db_Postgres db).
Proof. intros E. unfold defaultDatabaseFields. cbn. by rw E. Qed.

Lemma default_database_valid db : valid_database db -> valid_database (defaultDatabaseFields db).
Proof.
  intros H. pose proof (valid_engine_set db H) as E. inversion H as [? pg Hp Hpg H1 H2|? Hs|? Hr]; subst.
  - destruct (defaultPostgres_kept pg) as (Ea & Eu & Er).
    eapply (valid_postgres _ (defaultPostgres pg)); [congruence| |by rw Ea Eu Er|by rw Eu Er].
    by rw default_postgres // Hpg.
  - apply valid_sqlite. congruence.
  - apply valid_redb. congruence.
Qed.

Lemma default_ingress_valid p : valid_ingress p -> valid_ingress (ptr_upd_if ing_Enabled defaultIngressConfig p).
Proof.
  unfold valid_ingress. intros H i Hi He. destruct p as [j|]; [|done].
  unfold ptr_upd_if in Hi. simpl in Hi. injection Hi as <-. unfold defaultIngressConfig in *.
  destruct (ing_Enabled j) eqn:Ej; [|by rw Ej in He].
  destruct (H _ eq_refl Ej) as [Hh Ht]. split; [done|]. cbn.
  intros tls cm Etls Het Ecm Hec. destruct (ing_TLS j) as [t|]; [|done].
  unfold ptr_upd in Etls. simpl in Etls. injection Etls as <-. cbn in *.
  destruct (tls_CertManager t) as [c|] eqn:Ec; [|done].
  unfold ptr_upd in Ecm. simpl in Ecm. injection Ecm as <-. cbn in *. eauto.
Qed.

Lemma default_backup_valid name spec :
  valid_database spec.(spec_Database) -> valid_backup spec -> valid_backup (defaultSpec name spec).
Proof.
  intros Hdb H bk Hbk He. unfold defaultSpec in *. rw defaultOrchard_fields in Hbk. cbn in Hbk.
  rw defaultOrchard_fields. cbn.
  destruct (spec_Backup spec) as [b|] eqn:Eb; [|done]. unfold ptr_upd_if in Hbk. simpl in Hbk.
  injection Hbk as <-. destruct (bk_Enabled b) eqn:Ebk; [|congruence].
  destruct (H _ Eb Ebk) as (Hen & Ha & Hs & s3 & H3 & Hb & Hr1 & Hr2).
  rw valid_engine_set // default_postgres //. split; [done|]. split.
  { by rw ptr_test_upd. }
  cbn. split; [by rw default_str_id|]. rw H3. exists (defaultS3 name s3). done.
Qed.

Lemma default_rpc_valid (o : option OrchardConfig) p :
  valid_rpc p -> valid_rpc (ptr_upd_if rpc_Enabled defaultManagementRPC (orchard_rpc o p)).
Proof.
  unfold valid_rpc, ptr_upd_if, orchard_rpc. intros H rpc ref Hr Href.
  destruct (ptr_test or_Enabled o), p as [r|]; simpl in *; try done; cbn in *.
  - injection Hr as <-. apply (H r ref eq_refl). by destruct (rpc_Enabled r).
  - injection Hr as <-. done.
  - injection Hr as <-. apply (H r ref eq_refl). by destruct (rpc_Enabled r).
Qed.

(** Whether the management RPC is enabled after defaulting. *)
Lemma default_rpc_enabled o p :
  ptr_test or_Enabled o = true ->
  ptr_test rpc_Enabled (ptr_upd_if rpc_Enabled defaultManagementRPC (orchard_rpc o p)) = ptr_all rpc_Enabled p.
Proof.
  intros H. rw (ptr_test_upd_if rpc_Enabled). unfold orchard_rpc. rw H. by destruct p.
Qed.

Lemma default_orchard_mint_valid rpc rpc' m :
  ptr_test rpc_Enabled rpc' = ptr_all rpc_Enabled rpc ->
  (forall m0, m = Some m0 -> valid_orchard_mint rpc m0) ->
  forall m', alloc_upd emptyOrchardMint (defaultOrchardMint (ptr_all rpc_Enabled rpc)) m = Some m' ->
  valid_orchard_mint rpc' m'.
Proof.
  intros Hrpc H m' [= <-]. destruct m as [m|].
  - destruct (H m eq_refl) as (H1 & H2 & H3 & H4). split; [done|]. split; [done|]. split; [done|].
    rw Hrpc. cbn. destruct (orm_RPC m) as [c|]; [|done]. unfold ptr_upd, ptr_test in *. cbn.
    destruct (omr_MTLS c) as [b|]; cbn in *; [|done].
    intros Hb. specialize (H4 Hb). by destruct rpc.
  - by split.
Qed.

Lemma default_orchard_valid name spec :
  valid_database spec.(spec_Database) -> valid_orchard spec -> valid_orchard (defaultSpec name spec).
Proof.
  intros Hdb H o Ho He. unfold defaultSpec in *. rw defaultOrchard_fields in Ho. cbn in Ho.
  rw defaultOrchard_fields. cbn.
  destruct (spec_Orchard spec) as [o0|] eqn:Eo; [|done]. unfold ptr_upd_if in Ho. simpl in Ho.
  injection Ho as <-. destruct (or_Enabled o0) eqn:Eo0; [|congruence].
  destruct (H _ Eo Eo0) as (Hen & Hk & Hi & Hm & Hb & Hl & Ht & Ha).
  rw valid_engine_set //. split; [done|]. split; [done|].
  split; [by apply default_ingress_valid|]. split.
  { eapply default_orchard_mint_valid; [|done]. apply default_rpc_enabled. by rw /ptr_test Eo0. }
  split.
  { intros b Hb'. destruct (or_Bitcoin o0) as [b0|] eqn:Eb;
      unfold defaultOrchardConfig in Hb'; cbn in Hb'; rw ?Eb in Hb'; [|done].
    injection Hb' as <-. exact (Hb b0 eq_refl). }
  split; [done|]. split; [|done].
  intros t Ht'. unfold defaultOrchardConfig in Ht'. cbn in Ht'.
  destruct (or_TaprootAssets o0) as [t0|] eqn:Et; [|done].
  injection Ht' as <-. exact (Ht t0 eq_refl).
Qed.

Lemma default_valid_spec `{Quantities} name spec :
  valid_spec spec -> valid_spec (defaultSpec name spec).
Proof.
  intros []. constructor.
  - unfold defaultSpec. rw defaultOrchard_fields. cbn. assumption.
  - unfold defaultSpec. rw defaultOrchard_fields. by apply default_database_valid.
  - unfold defaultSpec. rw defaultOrchard_fields. by apply default_payment_valid.
  - unfold defaultSpec. rw defaultOrchard_fields. by apply default_ingress_valid.
  - unfold valid_resources, defaultSpec. rw defaultOrchard_fields. cbn. assumption.
  - by apply default_backup_valid.
  - unfold defaultSpec. rw defaultOrchard_fields. by apply default_rpc_valid.
  - by apply default_orchard_valid.
Qed.

(** The name under which a backend appears in the configuration. *)
Definition backend_name (b : Backend) : string :=
  match b with
  | BLND _ => PaymentBackendLND
  | BCLN _ => PaymentBackendCLN
  | BLNBits _ => PaymentBackendLNBits
  | BFakeWallet _ => PaymentBackendFakeWallet
  | BGRPC _ => PaymentBackendGRPCProcessor
  end.

Lemma ActiveBackend_populated pb :
  ActiveBackend pb = match populated pb with [b] => backend_name b | _ => "" end.
Proof. destruct pb as [? ? ? ? [] [] [] [] []]; reflexivity. Qed.

(** ** Properties *)

(** C5: [ValidateCreate] accepts a mint exactly when the spec satisfies the
    declarative conditions [valid_spec]: a URL, one database with what its
    engine needs, exactly one payment backend with its required fields, and
    well-formed ingress, resources, backup, management RPC and Orchard
    sections.  The verdict is the same for every iteration order of the
    resource maps. *)
Theorem ValidateCreate_accepts `{Quantities, MapRangeLaws} r :
  ValidateCreate r = None <-> valid_spec r.(mint_Spec).
Proof. apply validateCashuMint_none. Qed.

(** C38: the mutating webhook never breaks a valid mint: what [ValidateCreate]
    accepts before defaulting it still accepts after [Default]. *)
Theorem Default_keeps_valid `{Quantities, MapRangeLaws} r :
  ValidateCreate r = None -> ValidateCreate (Default r) = None.
Proof.
  unfold ValidateCreate. rw !validateCashuMint_none. apply default_valid_spec.
Qed.

(** [ActiveBackend] names the backend when exactly one is configured and
    is empty otherwise; for an accepted mint it is never empty. *)
Theorem ActiveBackend_accepted `{Quantities, MapRangeLaws} r :
  ValidateCreate r = None ->
  exists b, populated r.(mint_Spec).(spec_PaymentBackend) = [b] /\ valid_backend b /\
    ActiveBackend r.(mint_Spec).(spec_PaymentBackend) = backend_name b /\ backend_name b <> "".
Proof.
  unfold ValidateCreate. rw validateCashuMint_none. intros [_ _ (b & Hb & Hv) _ _ _ _ _].
  exists b. rw ActiveBackend_populated Hb. by destruct b.
Qed.

(** ** What a rejection says *)

(** The sections of the spec in the order they are checked. *)
Inductive spec_section : Set :=
  | SectionURL | SectionDatabase | SectionPayment | SectionIngress
  | SectionResources | SectionBackup | SectionManagementRPC | SectionOrchard.

Definition all_sections : list spec_section :=
  [SectionURL; SectionDatabase; SectionPayment; SectionIngress;
   SectionResources; SectionBackup; SectionManagementRPC; SectionOrchard].

(** How the errors of a section begin. *)
Definition section_heading (s : spec_section) : string :=
  match s with
  | SectionURL => "spec.mintInfo.url is required"
  | SectionDatabase => "database validation errors: ["
  | SectionPayment => "payment backend validation errors: ["
  | SectionIngress => "spec.ingress validation errors: ["
  | SectionResources => "resource request for "
  | SectionBackup => "backup validation errors: ["
  | SectionManagementRPC => "management RPC validation errors: ["
  | SectionOrchard => "orchard validation errors: ["
  end.

Section Rejection.
Context `{Quantities}.

Definition section_valid (spec : CashuMintSpec) (s : spec_section) : Prop :=
  match s with
  | SectionURL => spec.(spec_MintInfo).(mi_URL) <> ""
  | SectionDatabase => valid_database spec.(spec_Database)
  | SectionPayment => valid_payment spec.(spec_PaymentBackend)
  | SectionIngress => valid_ingress spec.(spec_Ingress)
  | SectionResources => valid_resources spec
  | SectionBackup => valid_backup spec
  | SectionManagementRPC => valid_rpc spec.(spec_ManagementRPC)
  | SectionOrchard => valid_orchard spec
  end.

Context `{!MapRange, !MapRangeLaws}.

Definition section_verdict (spec : CashuMintSpec) (s : spec_section) : option goerror :=
  match s with
  | SectionURL => if str_empty spec.(spec_MintInfo).(mi_URL) then Some (Errorf "spec.mintInfo.url is required") else None
  | SectionDatabase => validateDatabase spec
  | SectionPayment => validatePaymentBackend spec
  | SectionIngress => validateIngress spec
  | SectionResources => validateResources spec
  | SectionBackup => validateBackup spec
  | SectionManagementRPC => validateManagementRPC spec
  | SectionOrchard => validateOrchard spec
  end.

Lemma section_verdict_none spec s : section_verdict spec s = None <-> section_valid spec s.
Proof.
  destruct s; simpl.
  - rw -str_empty_false. by destruct (str_empty _).
  - apply validateDatabase_none.
  - apply validatePaymentBackend_none.
  - apply validateIngressConfig_none.
  - apply validateResources_none.
  - apply validateBackup_none.
  - apply validateManagementRPC_none.
  - apply validateOrchard_none.
Qed.

Lemma join_errs_heading p l e : join_errs p l = Some e -> HasPrefix (err_msg e) (p +:+ "[") = true.
Proof.
  destruct l as [|x l]; [done|]. intros [= <-]. simpl. unfold fmt_errs. rw string_app_assoc. apply HasPrefix_app.
Qed.

Lemma section_verdict_heading spec s e :
  section_verdict spec s = Some e -> HasPrefix (err_msg e) (section_heading s) = true.
Proof.
  destruct s; simpl.
  - destruct (str_empty _); [|done]. by intros [= <-].
  - apply join_errs_heading.
  - apply join_errs_heading.
  - unfold validateIngress, validateIngressConfig. destruct (spec_Ingress spec) as [i|]; [|done].
    destruct (negb _); [done|]. apply join_errs_heading.
  - unfold validateResources. destruct (spec_Resources spec) as [rr|]; [|done].
    destruct (rr_Limits rr), (rr_Requests rr); try done. destruct (List.find _ _) as [[n q]|]; [|done].
    intros [= <-]. apply HasPrefix_app.
  - unfold validateBackup. destruct (spec_Backup spec) as [bk|]; [|done]. destruct (negb _); [done|].
    apply join_errs_heading.
  - unfold validateManagementRPC. destruct (spec_ManagementRPC spec) as [rpc|]; [|done].
    destruct (rpc_TLSSecretRef rpc) as [r|]; [|done]. destruct (str_empty _); [|done]. by intros [= <-].
  - unfold validateOrchard. destruct (spec_Orchard spec) as [o|]; [|done]. destruct (negb _); [done|].
    apply join_errs_heading.
Qed.

Lemma validateCashuMint_sections r :
  validateCashuMint r = join_errs "validation failed: " (omap (section_verdict r.(mint_Spec)) all_sections).
Proof.
  unfold validateCashuMint, all_sections. cbn [omap list_omap section_verdict].
  destruct (str_empty _), (validateDatabase _), (validatePaymentBackend _), (validateIngress _), (validateResources _),
    (validateBackup _), (validateManagementRPC _), (validateOrchard _); reflexivity.
Qed.

(** The sections a list of verdicts is about. *)
Lemma omap_verdicts spec l :
  exists violated, violated `sublist_of` l /\
    (forall s, In s violated <-> In s l /\ ~ section_valid spec s) /\
    Forall2 (fun s d => HasPrefix (err_msg d) (section_heading s) = true) violated (omap (section_verdict spec) l).
Proof.
  induction l as [|s l (v & Hsub & Hin & Hf)]; [by exists []; split; [|split; [simpl; tauto|constructor]]|].
  simpl. destruct (section_verdict spec s) as [e|] eqn:E.
  - exists (s :: v). split; [by constructor|]. split; [|constructor; [by apply section_verdict_heading in E|done]].
    assert (Hs : ~ section_valid spec s) by (rw -section_verdict_none E; done).
    intros s'. simpl. rw Hin. split; [intros [<-|[? ?]]; tauto|tauto].
  - exists v. split; [by constructor|]. split; [|done]. apply section_verdict_none in E.
    intros s'. rw Hin. split; [tauto|]. by intros [[<-|?] ?].
Qed.

(** C39: a rejection lists every violated section and no other, once each and in
    order: the parts of the message are errors of exactly the sections that the
    declarative conditions reject, each under the section's heading.  It carries
    no API status reason, so a client never takes it for a conflict or a missing
    object. *)
Theorem ValidateCreate_rejects r e :
  ValidateCreate r = Some e ->
  exists violated errs, violated `sublist_of` all_sections /\ violated <> [] /\
    (forall s, In s violated <-> ~ section_valid r.(mint_Spec) s) /\
    Forall2 (fun s d => HasPrefix (err_msg d) (section_heading s) = true) violated errs /\
    e = Errorf ("validation failed: " +:+ fmt_errs errs) /\ err_reason e = None /\ ~ valid_spec r.(mint_Spec).
Proof.
  intros He. assert (Hv : ~ valid_spec (mint_Spec r)).
  { rw -validateCashuMint_none. unfold ValidateCreate in He. by rw He. }
  unfold ValidateCreate in He. rw validateCashuMint_sections in He.
  destruct (omap_verdicts r.(mint_Spec) all_sections) as (v & Hsub & Hin & Hf).
  exists v, (omap (section_verdict r.(mint_Spec)) all_sections). split; [done|].
  destruct (omap _ all_sections) as [|d l]; [done|]. injection He as <-.
  split; [by intros ->; inversion Hf|]. split; [|done]. intros s. rw Hin.
  assert (In s all_sections) by by destruct s; simpl; tauto. tauto.
Qed.
End Rejection.

Section Witnesses.
#[local] Existing Instance std_Quantities.
#[local] Existing Instance std_MapRange.
#[local] Existing Instance std_MapRangeLaws.

Lemma fullSpec_valid : valid_spec fullSpec.
Proof. apply (validateCashuMint_none fullMint). vm_compute. reflexivity. Qed.

Lemma ValidateCreate_accepts_witness :
  ValidateCreate fullMint = None /\ valid_spec fullSpec.
Proof.
  split; [reflexivity|]. apply (ValidateCreate_accepts fullMint). reflexivity.
Defined.

Lemma Default_keeps_valid_witness : ValidateCreate (Default fullMint) = None.
Proof. apply (Default_keeps_valid fullMint). reflexivity. Defined.

Lemma ActiveBackend_accepted_witness :
  exists b, populated fullSpec.(spec_PaymentBackend) = [b] /\ valid_backend b /\
    ActiveBackend fullSpec.(spec_PaymentBackend) = backend_name b /\ backend_name b <> "".
Proof. apply (ActiveBackend_accepted fullMint). reflexivity. Defined.

Definition brokenMint : CashuMint :=
  fullMint <| mint_Spec ::= fun s => s <| spec_PaymentBackend := zeroBackends |> |>.

Definition brokenError : goerror :=
  Errorf "validation failed: [payment backend validation errors: [spec.paymentBackend: exactly one backend must be specified (lnd, cln, lnbits, fakeWallet, or grpcProcessor)]]".

Lemma ValidateCreate_rejects_witness :
  exists violated errs, (forall s, In s violated <-> ~ section_valid brokenMint.(mint_Spec) s) /\
    length violated = length errs /\ brokenError = Errorf ("validation failed: " +:+ fmt_errs errs).
Proof.
  assert (H : ValidateCreate brokenMint = Some brokenError) by (vm_compute; reflexivity).
  destruct (ValidateCreate_rejects brokenMint brokenError H) as (violated & errs & _ & _ & Hin & Hf & He & _).
  exists violated, errs. exact (conj Hin (conj (Forall2_length _ _ _ Hf) He)).
Defined.
End Witnesses.
