(* ===== verification/Common.v ===== *)
(** * Names shared by the generators

    The constants of [generators/constants.go] and the other generator files,
    the label maps and the ports several generators compute alike. *)

From S2P Require Import Prelude Kube Types Platform.

(** ** Constants *)

(** [constants.go: orchardStr] *)
Definition orchardStr : string := "orchard".
(** [constants.go: trueStr] *)
Definition trueStr : string := "true".
(** [constants.go: lndStr] *)
Definition lndStr : string := "lnd".
(** [constants.go: tapdStr] *)
Definition tapdStr : string := "tapd".
(** [constants.go: grpcProcessorTLSMountPath] *)
Definition grpcProcessorTLSMountPath : string := "/secrets/grpc".
(** [constants.go: prometheusMetricsPortName] *)
Definition prometheusMetricsPortName : string := "metrics".
(** [orchard.go: orchardDataDir] *)
Definition orchardDataDir : string := "/app/data".
(** [orchard.go: orchardTmpDir] *)
Definition orchardTmpDir : string := "/app/data/tmp".
(** [orchard.go: orchardMintDataDir] *)
Definition orchardMintDataDir : string := "/mnt/mint".
(** [orchard.go: orchardMintSQLitePath] *)
Definition orchardMintSQLitePath : string := "/mnt/mint/cdk-mintd.sqlite".
(** [orchard.go: orchardManagementRPCTLSMountPath] *)
Definition orchardManagementRPCTLSMountPath : string := "/secrets/management-rpc-tls".
(** [orchard.go: orchardLightningMacaroonPath] *)
Definition orchardLightningMacaroonPath : string := "/secrets/orchard/lightning/macaroon".
(** [orchard.go: orchardLightningCertPath] *)
Definition orchardLightningCertPath : string := "/secrets/orchard/lightning/cert".
(** [orchard.go: orchardLightningKeyPath] *)
Definition orchardLightningKeyPath : string := "/secrets/orchard/lightning/key".
(** [orchard.go: orchardLightningCAPath] *)
Definition orchardLightningCAPath : string := "/secrets/orchard/lightning/ca".
(** [orchard.go: orchardTaprootMacaroonPath] *)
Definition orchardTaprootMacaroonPath : string := "/secrets/orchard/taproot/macaroon".
(** [orchard.go: orchardTaprootCertPath] *)
Definition orchardTaprootCertPath : string := "/secrets/orchard/taproot/cert".
(** [orchard.go: orchardDataVolumeName] *)
Definition orchardDataVolumeName : string := "orchard-data".
(** [orchard.go: orchardTmpVolumeName] *)
Definition orchardTmpVolumeName : string := "orchard-tmp".
(** [orchard.go: orchardLightningMacaroonVolumeName] *)
Definition orchardLightningMacaroonVolumeName : string := "orchard-lightning-macaroon".
(** [orchard.go: orchardLightningCertVolumeName] *)
Definition orchardLightningCertVolumeName : string := "orchard-lightning-cert".
(** [orchard.go: orchardLightningKeyVolumeName] *)
Definition orchardLightningKeyVolumeName : string := "orchard-lightning-key".
(** [orchard.go: orchardLightningCAVolumeName] *)
Definition orchardLightningCAVolumeName : string := "orchard-lightning-ca".
(** [orchard.go: orchardTaprootMacaroonVolumeName] *)
Definition orchardTaprootMacaroonVolumeName : string := "orchard-taproot-macaroon".
(** [orchard.go: orchardTaprootCertVolumeName] *)
Definition orchardTaprootCertVolumeName : string := "orchard-taproot-cert".
(** [management_rpc.go: managementRPCTLSVolumeName] *)
Definition managementRPCTLSVolumeName : string := "management-rpc-tls".
(** [orchard.go: orchardPortDefault] *)
Definition orchardPortDefault : Z := 3321.

(** ** Guards and names *)

(** [orchard.go: orchardEnabled] *)
Definition orchardEnabled (mint : CashuMint) : bool :=
  ptr_test or_Enabled mint.(mint_Spec).(spec_Orchard).

(** [orchard.go: orchardResourceName] *)
Definition orchardResourceName (mint : CashuMint) : string := mint_Name mint +:+ "-orchard".

(** [orchard.go: orchardPVCName] *)
Definition orchardPVCName (mint : CashuMint) : string := orchardResourceName mint +:+ "-data".

(** [mint.Spec.LDKNode != nil && mint.Spec.LDKNode.Enabled] and its likes. *)
Definition ldkEnabled (mint : CashuMint) : bool := ptr_test ldk_Enabled mint.(mint_Spec).(spec_LDKNode).
Definition rpcEnabled (mint : CashuMint) : bool :=
  ptr_test rpc_Enabled mint.(mint_Spec).(spec_ManagementRPC).
Definition prometheusEnabled (mint : CashuMint) : bool :=
  ptr_test prom_Enabled mint.(mint_Spec).(spec_Prometheus).

(** ** Labels *)

(** [orchard.go: mintSelectorLabels] *)
Definition mintSelectorLabels (mint : CashuMint) : StringMap :=
  {[ "app.kubernetes.io/name" := "cashu-mint";
     "app.kubernetes.io/instance" := mint_Name mint;
     "app.kubernetes.io/managed-by" := "cashu-operator" ]}.

(** [labels["app.kubernetes.io/component"] = c] *)
Definition with_component (c : string) (labels : StringMap) : StringMap :=
  <[ "app.kubernetes.io/component" := c ]> labels.

(** [orchard.go: orchardLabels] *)
Definition orchardLabels (mint : CashuMint) : StringMap :=
  with_component orchardStr (mintSelectorLabels mint).

(** The four-label map literal most generators write, with its component. *)
Definition componentLabels (mint : CashuMint) (c : string) : StringMap :=
  with_component c (mintSelectorLabels mint).

(** ** Ports, with the zero value defaulted where the code reads them *)

Definition listenPort (mint : CashuMint) : Z :=
  default_int 8085 mint.(mint_Spec).(spec_MintInfo).(mi_ListenPort).
Definition ldkPort (ldk : LDKNodeConfig) : Z := default_int 8090 ldk.(ldk_Port).
Definition ldkWebserverPort (ldk : LDKNodeConfig) : Z := default_int 8888 ldk.(ldk_WebserverPort).
Definition managementPort (rpc : ManagementRPCConfig) : Z := default_int 8086 rpc.(rpc_Port).
Definition prometheusPort (p : PrometheusConfig) : Z :=
  match p.(prom_Port) with Some n => n | None => DefaultPrometheusPort end.

Lemma with_component_selects c labels :
  labels !! "app.kubernetes.io/component" = None -> selects labels (with_component c labels).
Proof. apply insert_subseteq. Qed.

Lemma selector_no_component mint : mintSelectorLabels mint !! "app.kubernetes.io/component" = None.
Proof. reflexivity. Qed.

(** ** Shapes the generators share *)

(** [&corev1.SecretKeySelector{Name: name, Key: key}] *)
Definition secretKey (name key : string) : option SecretKeySelector :=
  Some (mkSecretKeySelector name key None).

(** A container security context with the three fields the generators set. *)
Definition securityContext (privEsc : bool) (nonRoot : option bool) (user : option Z) : SecurityContext :=
  mkSecurityContext (Some privEsc) None nonRoot user [] JNull.

(** The container literal with its zero fields. *)
Definition newContainer (name image : string) : Container :=
  mkContainer name image "" [] [] [] [] [] noResources None None None.

(** The pod spec literal with its zero fields. *)
Definition newPodSpec (containers : list Container) : PodSpec :=
  mkPodSpec [] containers [] [] None [] None None "".

(** [corev1.ResourceList] literals parse their quantities in order. *)
Fixpoint resourceList `{Quantities} (l : list (string * string)) : res ResourceList :=
  match l with
  | [] => Ok ∅
  | (k, v) :: l => let? q := MustParse v in let? m := resourceList l in Ok (<[ k := q ]> m)
  end.

Lemma resourceList_ok `{QuantitiesLaws} l :
  Forall (fun kv => In kv.2 quantity_literals) l -> exists m, resourceList l = Ok m.
Proof.
  induction 1 as [|[k v] l Hv _ [m IH]]; [by eexists|].
  destruct (parse_literal v Hv) as [q Hq]. simpl. rw Hq /= IH /=. by eexists.
Qed.

(** ** What a container sees *)

(** The variables of the name [name]. *)
Definition env_named (name : string) (env : list EnvVar) : list EnvVar :=
  List.filter (fun e => String.eqb e.(env_Name) name) env.

(** The variable [name] of a container; of two the later one counts. *)
Definition container_env (name : string) (c : Container) : option EnvVar := last (env_named name c.(c_Env)).

(** The variable has the value [v]. *)
Definition env_given (name v : string) (c : Container) : Prop :=
  exists e, container_env name c = Some e /\ e.(env_Value) = v /\ e.(env_ValueFrom) = None.

(** The variable takes its value from an entry of the Secret, which is [v]. *)
Definition env_secret (name : string) (s : Secret) (v : string) (c : Container) : Prop :=
  exists e src ref, container_env name c = Some e /\ e.(env_ValueFrom) = Some src /\
    src.(evs_SecretKeyRef) = Some ref /\ ref.(sks_Name) = s.(sec_Meta).(om_Name) /\
    s.(sec_StringData) !! ref.(sks_Key) = Some v.

(** What every managed object has in common: its name and namespace, the
    instance label and a controlling owner reference to the mint. *)
Record managed (mint : CashuMint) (name : string) (m : ObjectMeta) : Prop := {
  managed_name : m.(om_Name) = name;
  managed_namespace : m.(om_Namespace) = mint_Namespace mint;
  managed_instance : m.(om_Labels) !! "app.kubernetes.io/instance" = Some (mint_Name mint);
  managed_owner : controlled_by mint m
}.

Lemma set_reference_managed `{ControllerUtilLaws} mint name labels annotations m :
  labels !! "app.kubernetes.io/instance" = Some (mint_Name mint) ->
  SetControllerReference mint (newMeta name (mint_Namespace mint) labels annotations) = Ok m ->
  managed mint name m /\ m.(om_Labels) = labels /\ m.(om_Annotations) = annotations.
Proof.
  intros Hl Hs. pose proof (scr_controlled _ _ _ Hs). apply scr_refs_only in Hs.
  rw Hs. split; [|done]. by split.
Qed.

Lemma set_reference_fresh `{ControllerUtilLaws} mint name labels annotations :
  exists m, SetControllerReference mint (newMeta name (mint_Namespace mint) labels annotations) = Ok m.
Proof. by apply scr_fresh. Qed.

(** The errors of [SetControllerReference], wrapped as the generators do. *)
Definition set_reference `{ControllerUtil} (mint : CashuMint) (m : ObjectMeta) : res ObjectMeta :=
  res_wrap "failed to set controller reference: " (SetControllerReference mint m).
