(* ===== verification/Toml.v ===== *)
(** * The TOML the operator writes, and a reader for it

    A document is a list of sections: what one [WriteString] of a table header
    and the [Fprintf]s after it print ([generators/configmap.go]).  The reader
    covers the part of TOML these documents use: table headers, basic strings
    with the short escapes, integers, booleans, decimal fractions and arrays
    of strings.  [read_document] states that it recovers every entry. *)

From S2P Require Import Prelude Kube Types Platform Fmt.

(** ** Documents *)

(** The right-hand side of one [Fprintf]: the verb and its argument.
    [VText s] is a literal between quotes in a [WriteString]; [VList l] is a
    bracketed and quoted [%s] applied to the join of [l]. *)
Inductive value : Type :=
  | VQ (s : string)
  | VD (n : Z)
  | VT (b : bool)
  | VF (f : float64)
  | VList (l : list string)
  | VText (s : string).

Record section := mk_section {
  s_lead : string;
  s_name : string;
  s_entries : list (string * value)
}.

Section Printing.
Context `{UnicodeTables}.

Definition list_sep : string := DQ +:+ ", " +:+ DQ.

Definition value_text (v : value) : string :=
  match v with
  | VQ s => Quote s
  | VD n => Itoa n
  | VT b => FormatBool b
  | VF f => FormatFloat f
  | VList l => "[" +:+ DQ +:+ Join l list_sep +:+ DQ +:+ "]"
  | VText s => DQ +:+ s +:+ DQ
  end.

(** [Fprintf(buf, "key = %verb\n", arg)], without the newline. *)
Definition entry_text (e : string * value) : string := e.1 +:+ " = " +:+ value_text e.2.

Definition section_lines (s : section) : list string :=
  ("[" +:+ s.(s_name) +:+ "]") :: (entry_text <$> s.(s_entries)).

Definition end_line (l : string) : string := l +:+ LF.

Definition section_text (s : section) : string :=
  s.(s_lead) +:+ str_concat (end_line <$> section_lines s).

Definition document_text (d : list section) : string := str_concat (section_text <$> d).
End Printing.

(** ** The reader *)

Inductive tval : Type :=
  | TStr (s : string)
  | TInt (n : Z)
  | TBool (b : bool)
  | TFix (neg : bool) (micros : Z)
  | TArr (l : list string).

Definition is_char (n : Z) (c : ascii) : bool := (code c =? n)%Z.

Fixpoint split_lines (s : string) : list string :=
  match s with
  | EmptyString => [""]
  | String c s =>
      if is_char 10 c then "" :: split_lines s
      else match split_lines s with
           | l :: ls => String c l :: ls
           | [] => [String c ""]
           end
  end.

Fixpoint drop_chars (n : nat) (s : string) : string :=
  match n, s with
  | S n, String _ s => drop_chars n s
  | _, _ => s
  end.

(** The text before and after the first [sep]. *)
Fixpoint split_at (sep s : string) : option (string * string) :=
  if HasPrefix s sep then Some ("", drop_chars (String.length sep) s)
  else match s with
       | EmptyString => None
       | String c s => '(a, b) ← split_at sep s; Some (String c a, b)
       end.

Definition unescape (c : ascii) : option ascii :=
  if is_char 98 c then Some (ascii_of_nat 8)
  else if is_char 116 c then Some (ascii_of_nat 9)
  else if is_char 110 c then Some (ascii_of_nat 10)
  else if is_char 102 c then Some (ascii_of_nat 12)
  else if is_char 114 c then Some (ascii_of_nat 13)
  else if is_char 34 c then Some c
  else if is_char 92 c then Some c
  else None.

Definition is_control (c : ascii) : bool := (code c <? 32)%Z || (code c =? 127)%Z.

(** A basic string after its opening quote: its contents and what follows. *)
Fixpoint read_basic (s : string) : option (string * string) :=
  match s with
  | EmptyString => None
  | String c s =>
      if is_char 34 c then Some ("", s)
      else if is_char 92 c then
        match s with
        | EmptyString => None
        | String d s => e ← unescape d; '(t, r) ← read_basic s; Some (String e t, r)
        end
      else if is_control c then None
      else '(t, r) ← read_basic s; Some (String c t, r)
  end.

(** The strings of an array after its opening bracket and quote. *)
Fixpoint read_items (fuel : nat) (s : string) : option (list string) :=
  match fuel with
  | O => None
  | S fuel =>
      '(t, r) ← read_basic s;
      if String.eqb r "]" then Some [t]
      else if HasPrefix r (", " +:+ DQ) then
        l ← read_items fuel (drop_chars 3 r); Some (t :: l)
      else None
  end.

Fixpoint read_digits (acc : Z) (s : string) : option Z :=
  match s with
  | EmptyString => Some acc
  | String c s => if is_digit c then read_digits (acc * 10 + (code c - 48))%Z s else None
  end.

Definition split_sign (s : string) : bool * string :=
  match s with
  | String c w => if is_char 45 c then (true, w) else (false, s)
  | EmptyString => (false, s)
  end.

Definition read_fixed (whole frac : string) : option tval :=
  let '(neg, w) := split_sign whole in
  n ← Atoi w;
  if String.length frac =? 6 then m ← read_digits 0 frac; Some (TFix neg (n * 1000000 + m))
  else None.

Definition read_value (s : string) : option tval :=
  match s with
  | EmptyString => None
  | String c r =>
      if is_char 34 c then
        '(t, rest) ← read_basic r; if str_empty rest then Some (TStr t) else None
      else if is_char 91 c then
        if HasPrefix r DQ then TArr <$> read_items (String.length r) (drop_chars 1 r) else None
      else if String.eqb s "true" then Some (TBool true)
      else if String.eqb s "false" then Some (TBool false)
      else match split_at "." s with
           | Some (a, b) => read_fixed a b
           | None => TInt <$> Atoi s
           end
  end.

Definition entry : Type := string * string * tval.

Fixpoint read_lines (tbl : string) (ls : list string) : option (list entry) :=
  match ls with
  | [] => Some []
  | EmptyString :: ls => read_lines tbl ls
  | (String c r as l) :: ls =>
      if is_char 91 c then
        '(name, rest) ← split_at "]" r; if str_empty rest then read_lines name ls else None
      else
        '(k, v) ← split_at " = " l;
        t ← read_value v;
        es ← read_lines tbl ls;
        Some ((tbl, k, t) :: es)
  end.

Definition toml_read (s : string) : option (list entry) := read_lines "" (split_lines s).

(** ** What a document means, and which documents read back *)

(** The sign and magnitude a [%f] prints. *)
Definition float_fixed (f : float64) : tval :=
  match f with
  | S754_zero s => TFix s 0
  | S754_finite s m e => TFix s (millionths (Zpos m) e)
  | _ => TFix false 0
  end.

Definition meaning (v : value) : tval :=
  match v with
  | VQ s => TStr s
  | VD n => TInt n
  | VT b => TBool b
  | VF f => float_fixed f
  | VList l => TArr l
  | VText s => TStr s
  end.

Definition section_entries (s : section) : list entry :=
  (fun e => (s.(s_name), e.1, meaning e.2)) <$> s.(s_entries).

Definition document_entries (d : list section) : list entry := d ≫= section_entries.

(** ASCII text whose escapes in Go and in TOML agree: no control characters
    but backspace, tab, newline, form feed and carriage return. *)
Definition quotable (c : ascii) : bool :=
  is_ascii c && (negb (is_control c) || in_range 8 10 (code c) || in_range 12 13 (code c)).

(** Text that stands for itself between quotes. *)
Definition plain (c : ascii) : bool :=
  is_ascii c && negb (is_control c) && negb (is_char 34 c) && negb (is_char 92 c).

Definition key_char (c : ascii) : bool :=
  in_range 97 122 (code c) || in_range 48 57 (code c) || is_char 95 c || is_char 46 c.

Definition key_ok (k : string) : bool := negb (str_empty k) && str_all key_char k.

Definition is_finite (f : float64) : bool :=
  match f with S754_zero _ | S754_finite _ _ _ => true | _ => false end.

(** What the arguments must satisfy, and what the writers guarantee. *)
Definition value_safe (v : value) : bool :=
  match v with
  | VQ s => str_all quotable s
  | VD _ | VT _ => true
  | VF f => is_finite f
  | VList l => forallb (str_all plain) l
  | VText s => str_all plain s
  end.

Definition list_given (v : value) : bool :=
  match v with VList l => non_empty l | VText s => str_all plain s | _ => true end.

Definition section_safe (s : section) : bool := forallb (fun e => value_safe e.2) s.(s_entries).

Definition section_shaped (s : section) : bool :=
  (str_empty s.(s_lead) || String.eqb s.(s_lead) LF) && key_ok s.(s_name) &&
  forallb (fun e => key_ok e.1 && list_given e.2) s.(s_entries).

(** ** Lines and separators *)

Definition no_lf (c : ascii) : bool := negb (is_char 10 c).

Lemma split_lines_end l s : str_all no_lf l = true -> split_lines (end_line l +:+ s) = l :: split_lines s.
Proof.
  unfold end_line. rw -string_app_assoc. induction l as [|c l IH]; [done|].
  rw string_app_cons. simpl str_all. intros [Hc Hl]%andb_true_iff.
  unfold no_lf in Hc. apply negb_true_iff in Hc. simpl split_lines. rw Hc. by rw IH.
Qed.

Lemma split_lines_concat ls :
  Forall (fun l => str_all no_lf l = true) ls -> split_lines (str_concat (end_line <$> ls)) = ls ++ [""].
Proof.
  induction 1 as [|l ls Hl _ IH]; [done|]. rw fmap_cons str_concat_cons split_lines_end // IH. done.
Qed.

Lemma drop_chars_app a s : drop_chars (String.length a) (a +:+ s) = s.
Proof. induction a as [|c a IH]; [by destruct s|]. rw string_app_cons. simpl. apply IH. Qed.

Lemma prefix_head c sep x s : c <> x -> HasPrefix (String c s) (String x sep) = false.
Proof. intros H. unfold HasPrefix. simpl. by destruct (ascii_dec x c). Qed.

Lemma split_at_app x sep k v :
  str_all (fun c => negb (Ascii.eqb x c)) k = true ->
  split_at (String x sep) (k +:+ String x sep +:+ v) = Some (k, v).
Proof.
  induction k as [|c k IH]; intros H.
  - pose proof (HasPrefix_app (String x sep) v) as Hp.
    pose proof (drop_chars_app (String x sep) v) as Hd.
    rw string_app_nil_l. rw string_app_cons in Hp, Hd |- *. cbn [split_at]. by rw Hp Hd.
  - rw string_app_cons. simpl in H. apply andb_true_iff in H as [Hc Hk].
    cbn [split_at]. rw prefix_head.
    + by rw IH.
    + intros ->. by rw Ascii.eqb_refl in Hc.
Qed.

(** ** Basic strings *)

Section Strings.
Context `{UnicodeTables}.

(** How a quotable character is written and read back, checked on the table. *)
Definition escape_check (c : ascii) : bool :=
  negb (quotable c) ||
  match escape_rune (code c) (String c "") with
  | String b (String d EmptyString) =>
      is_char 92 b && bool_decide (unescape d = Some c) && no_lf d
  | String b EmptyString =>
      Ascii.eqb b c && negb (is_char 34 c) && negb (is_char 92 c) && negb (is_control c) && no_lf c
  | _ => false
  end.

Lemma escape_table : forallb escape_check (ascii_of_nat <$> seq 0 256) = true.
Proof. vm_compute. reflexivity. Qed.

Lemma escape_checked c : escape_check c = true.
Proof.
  pose proof escape_table as Ht. rw forallb_forall in Ht. apply Ht.
  rw -(ascii_nat_embedding c). apply in_map, in_seq. pose proof (nat_ascii_bounded c). lia.
Qed.

Lemma escape_quotable c :
  quotable c = true ->
  (exists b d, escape_rune (code c) (String c "") = String b (String d "") /\ is_char 92 b = true /\
     unescape d = Some c /\ no_lf d = true) \/
  (escape_rune (code c) (String c "") = String c "" /\
     is_char 34 c = false /\ is_char 92 c = false /\ is_control c = false /\ no_lf c = true).
Proof.
  intros Hq. pose proof (escape_checked c) as Hc. unfold escape_check in Hc. rw Hq in Hc. simpl in Hc.
  destruct (escape_rune _ _) as [|b [|d [|]]]; try discriminate; split_andb.
  - right. repeat match goal with E : negb _ = true |- _ => apply negb_true_iff in E end.
    by match goal with E : Ascii.eqb _ _ = true |- _ => apply Ascii.eqb_eq in E as -> end.
  - left. exists b, d. by match goal with E : bool_decide _ = true |- _ => apply bool_decide_eq_true in E end.
Qed.

Lemma quotable_ascii c : quotable c = true -> is_ascii c = true.
Proof. unfold quotable. by intros [? _]%andb_true_iff. Qed.

Lemma read_basic_quote s rest :
  str_all quotable s = true -> read_basic (quote_body 0 s +:+ DQ +:+ rest) = Some (s, rest).
Proof.
  induction s as [|c s IH]; intros Hs; [done|].
  simpl in Hs. apply andb_true_iff in Hs as [Hc Hs].
  rw quote_body_cons; [|by apply quotable_ascii]. rw -string_app_assoc.
  destruct (escape_quotable c Hc) as [(b & d & -> & Hb & Hd & _)|(-> & H1 & H2 & H3 & _)].
  - rw !string_app_cons string_app_nil_l. cbn [read_basic].
    assert ((is_char 34 b) = false) as -> by (unfold is_char in *; lia). by rw Hb Hd /= IH.
  - rw !string_app_cons string_app_nil_l. cbn [read_basic]. by rw H1 H2 H3 IH.
Qed.

Lemma quote_body_no_lf s : str_all quotable s = true -> str_all no_lf (quote_body 0 s) = true.
Proof.
  induction s as [|c s IH]; intros Hs; [done|].
  simpl in Hs. apply andb_true_iff in Hs as [Hc Hs].
  rw quote_body_cons; [|by apply quotable_ascii]. rw str_all_app IH // andb_true_r.
  destruct (escape_quotable c Hc) as [(b & d & -> & Hb & _ & Hd)|(-> & _ & _ & _ & Hd)]; [|by rw /= Hd].
  assert (no_lf b = true) as Hb' by (unfold no_lf, is_char in *; lia). by rw /= Hb' Hd.
Qed.
End Strings.

Lemma plain_char c :
  plain c = true -> is_char 34 c = false /\ is_char 92 c = false /\ is_control c = false /\ no_lf c = true.
Proof.
  unfold plain, no_lf, is_control, is_char. intros H. repeat split; lia.
Qed.

Lemma read_basic_plain s rest :
  str_all plain s = true -> read_basic (s +:+ DQ +:+ rest) = Some (s, rest).
Proof.
  induction s as [|c s IH]; intros Hs; [done|].
  simpl in Hs. apply andb_true_iff in Hs as [Hc Hs].
  apply plain_char in Hc as (H1 & H2 & H3 & _).
  rw string_app_cons. cbn [read_basic]. by rw H1 H2 H3 IH.
Qed.

Lemma plain_no_lf s : str_all plain s = true -> str_all no_lf s = true.
Proof. apply str_all_impl. intros c Hc. by apply plain_char in Hc as (_ & _ & _ & ?). Qed.

(** ** Arrays *)

Lemma Join_cons a b l sep : Join (a :: b :: l) sep = a +:+ sep +:+ Join (b :: l) sep.
Proof. reflexivity. Qed.

Lemma read_items_last f a :
  str_all plain a = true -> read_items (S f) (a +:+ DQ +:+ "]") = Some [a].
Proof. intros Ha. cbn [read_items]. by rw read_basic_plain. Qed.

Lemma read_items_next f a r :
  str_all plain a = true ->
  read_items (S f) (a +:+ DQ +:+ ", " +:+ DQ +:+ r) = l ← read_items f r; Some (a :: l).
Proof.
  intros Ha. cbn [read_items]. rw read_basic_plain // /= string_app_nil_l. by destruct r.
Qed.

Lemma read_items_join l fuel :
  l <> [] -> forallb (str_all plain) l = true -> length l <= fuel ->
  read_items fuel (Join l list_sep +:+ DQ +:+ "]") = Some l.
Proof.
  intros Hl. revert fuel. induction l as [|a l IH]; [done|].
  intros [|fuel] Hp Hf; [simpl in Hf; lia|].
  simpl in Hp. apply andb_true_iff in Hp as [Ha Hp].
  destruct l as [|b l]; [by apply read_items_last|].
  rw Join_cons. unfold list_sep at 1. rw -!string_app_assoc read_items_next // IH //.
  simpl in *. lia.
Qed.

(** ** Numbers *)

Lemma read_digits_app acc a b :
  read_digits acc (a +:+ b) = n ← read_digits acc a; read_digits n b.
Proof.
  revert acc. induction a as [|c a IH]; intros acc; [done|].
  rw string_app_cons. cbn [read_digits]. destruct (is_digit c); [apply IH|done].
Qed.

Lemma digit_char n : (0 <= n < 10)%Z ->
  code (ascii_of_nat (Z.to_nat (48 + n))) = (48 + n)%Z.
Proof. intros H. unfold code. rw nat_ascii_embedding; lia. Qed.

Lemma read_digits_text k n acc :
  (0 <= n)%Z -> read_digits acc (dec_text k n) = Some (acc * 10 ^ Z.of_nat k + n mod 10 ^ Z.of_nat k)%Z.
Proof.
  intros Hn. revert acc. induction k as [|k IH]; intros acc.
  - simpl. f_equal. rw Z.mod_1_r. lia.
  - cbn [dec_text]. set (d := ((n / 10 ^ Z.of_nat k) mod 10)%Z).
    assert (Hd : (0 <= d < 10)%Z) by (apply Z.mod_pos_bound; lia).
    unfold chr. rw string_app_cons string_app_nil_l. cbn [read_digits].
    unfold is_digit. rw digit_char //.
    assert (((48 <=? 48 + d) && (48 + d <=? 57))%Z = true) as -> by lia.
    rw IH. f_equal. rw Nat2Z.inj_succ Z.pow_succ_r; [|lia].
    pose proof (Z.pow_pos_nonneg 10 (Z.of_nat k) ltac:(lia) ltac:(lia)) as Hp. unfold d in *.
    revert Hp. generalize (10 ^ Z.of_nat k)%Z. intros p Hp.
    rw (Z.mul_comm 10 p) Z.rem_mul_r; [|lia..]. ring.
Qed.

Lemma length_dec_text k n : String.length (dec_text k n) = k.
Proof. induction k as [|k IH]; [done|]. cbn [dec_text]. rw string_length_app IH. done. Qed.

Lemma millionths_nonneg m e : (0 <= m)%Z -> (0 <= millionths m e)%Z.
Proof.
  intros Hm. unfold millionths. destruct (Z.leb_spec 0 e) as [He|He].
  - pose proof (Z.pow_nonneg 2 e). nia.
  - pose proof (Z.pow_pos_nonneg 2 (- e) ltac:(lia) ltac:(lia)) as Hp.
    pose proof (Z.div_pos (m * 1000000) (2 ^ (- e)) ltac:(lia) Hp). repeat case_match; lia.
Qed.

Lemma split_at_none x sep s :
  str_all (fun c => negb (Ascii.eqb x c)) s = true -> split_at (String x sep) s = None.
Proof.
  induction s as [|c s IH]; intros Hs; [done|]. simpl in Hs. apply andb_true_iff in Hs as [Hc Hs].
  cbn [split_at]. rw prefix_head; [by rw IH|].
  intros ->. by rw Ascii.eqb_refl in Hc.
Qed.

Lemma is_char_false n c : is_num_char c = true ->
  (n <> 45)%Z -> (n < 48 \/ 57 < n)%Z -> is_char n c = false.
Proof. unfold is_num_char, is_digit, is_char. lia. Qed.

Lemma num_char_no_dot c : is_num_char c = true -> negb (Ascii.eqb "." c) = true.
Proof.
  intros H. destruct (Ascii.eqb_spec "." c) as [<-|]; [by vm_compute in H|done].
Qed.

Lemma Itoa_digits n : (0 <= n)%Z -> str_all is_digit (Itoa n) = true.
Proof.
  intros Hn. unfold Itoa. destruct n as [|p|p]; [done| |lia]. simpl.
  destruct (Pos.to_uint p); [done|apply string_of_uint_digits..].
Qed.

(** A number text is none of the other kinds of value. *)
Lemma read_value_num c r :
  is_num_char c = true ->
  read_value (String c r) =
    match split_at "." (String c r) with
    | Some (a, b) => read_fixed a b
    | None => TInt <$> Atoi (String c r)
    end.
Proof.
  intros Hc. cbn [read_value].
  rw (is_char_false 34 c Hc ltac:(lia) ltac:(lia)) (is_char_false 91 c Hc ltac:(lia) ltac:(lia)).
  assert (Ht : c <> "t"%char /\ c <> "f"%char) by (split; intros ->; by vm_compute in Hc).
  destruct Ht as [Ht Hf]. cbn [String.eqb].
  apply Ascii.eqb_neq in Ht, Hf. by rw Ht Hf.
Qed.

Lemma read_value_int n : read_value (Itoa n) = Some (TInt n).
Proof.
  pose proof (Itoa_chars n) as Hc. pose proof (Itoa_nonempty n) as Hne.
  pose proof (Atoi_Itoa n) as Ha. destruct (Itoa n) as [|c r]; [done|].
  rw read_value_num; [|by simpl in Hc; apply andb_true_iff in Hc as [? _]].
  rw split_at_none; [by rw Ha|]. eapply str_all_impl; [|exact Hc]. apply num_char_no_dot.
Qed.

Lemma split_sign_text neg n : (0 <= n)%Z -> split_sign (sign_text neg +:+ Itoa n) = (neg, Itoa n).
Proof.
  intros Hn. destruct neg; [reflexivity|]. simpl sign_text. rw string_app_nil_l.
  pose proof (Itoa_digits n Hn) as Hd. unfold split_sign.
  destruct (Itoa n) as [|c r]; [done|]. simpl in Hd. apply andb_true_iff in Hd as [Hd _].
  assert ((is_char 45 c) = false) as Hc by (unfold is_char, is_digit in *; lia). by rw Hc.
Qed.

Lemma read_fixed_text neg m :
  (0 <= m)%Z -> read_fixed (sign_text neg +:+ Itoa (m / 1000000)) (dec_text 6 m) = Some (TFix neg m).
Proof.
  intros Hm. unfold read_fixed. rw split_sign_text; [|apply Z.div_pos; lia].
  rw Atoi_Itoa length_dec_text read_digits_text //. cbn -[Z.div Z.modulo Z.mul Z.pow].
  f_equal. f_equal. change (10 ^ Z.of_nat 6)%Z with 1000000%Z.
  pose proof (Z.div_mod m 1000000). lia.
Qed.

Lemma read_value_fixed neg m :
  (0 <= m)%Z -> read_value (fixed_text neg m) = Some (TFix neg m).
Proof.
  intros Hm. unfold fixed_text. rw string_app_assoc.
  set (w := sign_text neg +:+ Itoa (m / 1000000)).
  assert (Hw : str_all is_num_char w = true).
  { unfold w. rw str_all_app Itoa_chars andb_true_r. by destruct neg. }
  assert (Hne : w <> "").
  { unfold w. destruct neg; [done|]. rw string_app_nil_l. apply Itoa_nonempty. }
  pose proof (split_at_app "." "" w (dec_text 6 m)) as Hsp.
  rw -(read_fixed_text neg m Hm). fold w.
  destruct w as [|c r]; [done|]. rw string_app_cons read_value_num.
  - rw string_app_cons in Hsp. rw Hsp //. eapply str_all_impl; [|exact Hw]. apply num_char_no_dot.
  - simpl in Hw. by apply andb_true_iff in Hw as [? _].
Qed.

(** ** Values, entries and sections *)

Section Reading.
Context {U : UnicodeTables}.

Lemma read_value_str s t : read_basic s = Some (t, "") -> read_value (DQ +:+ s) = Some (TStr t).
Proof.
  intros H. unfold DQ, chr. rw string_app_cons string_app_nil_l. cbn [read_value].
  change (is_char 34 (ascii_of_nat 34)) with true. cbv iota. by rw H.
Qed.

Lemma read_value_arr r : read_value ("[" +:+ DQ +:+ r) = TArr <$> read_items (S (String.length r)) r.
Proof. by destruct r. Qed.

Lemma join_length l : length l <= S (String.length (Join l list_sep)).
Proof.
  induction l as [|a l IH]; [simpl; lia|]. destruct l as [|b l]; [simpl; lia|].
  rw Join_cons !string_length_app. simpl in *. lia.
Qed.

Lemma read_value_text v :
  value_safe v = true -> list_given v = true -> read_value (value_text v) = Some (meaning v).
Proof.
  destruct v as [s|n|b|f|l|s]; simpl value_text; simpl value_safe; simpl list_given; intros Hs Hg.
  - apply read_value_str. rw -(string_app_nil_r DQ). by apply read_basic_quote.
  - apply read_value_int.
  - by destruct b.
  - destruct f as [b| | |b m e]; try done; apply read_value_fixed; [lia|].
    by apply millionths_nonneg.
  - rw read_value_arr read_items_join //; [by destruct l|].
    rw string_length_app. pose proof (join_length l). simpl. lia.
  - apply read_value_str. rw -(string_app_nil_r DQ). by apply read_basic_plain.
Qed.

(** No value text contains a newline. *)
Lemma is_num_no_lf c : is_num_char c = true -> no_lf c = true.
Proof. unfold is_num_char, is_digit, no_lf, is_char. lia. Qed.

Lemma dec_text_no_lf k n : (0 <= n)%Z -> str_all no_lf (dec_text k n) = true.
Proof.
  intros Hn. induction k as [|k IH]; [done|]. cbn [dec_text]. rw str_all_app IH andb_true_r.
  simpl. rw andb_true_r. unfold no_lf, is_char.
  pose proof (Z.mod_pos_bound (n / 10 ^ Z.of_nat k) 10 ltac:(lia)) as Hd.
  rw digit_char //. lia.
Qed.

Lemma fixed_text_no_lf neg m : (0 <= m)%Z -> str_all no_lf (fixed_text neg m) = true.
Proof.
  intros Hm. unfold fixed_text. do 3 rw str_all_app. rw dec_text_no_lf //.
  rw (str_all_impl _ _ _ is_num_no_lf (Itoa_chars _)). by destruct neg.
Qed.

Lemma join_no_lf l : forallb (str_all plain) l = true -> str_all no_lf (Join l list_sep) = true.
Proof.
  induction l as [|a l IH]; intros Hl; [done|]. simpl in Hl. apply andb_true_iff in Hl as [Ha Hl].
  destruct l as [|b l]; [by apply plain_no_lf|].
  rw Join_cons str_all_app str_all_app (plain_no_lf a) // IH //.
Qed.

Lemma value_text_no_lf v : value_safe v = true -> str_all no_lf (value_text v) = true.
Proof.
  destruct v as [s|n|b|f|l|s]; simpl value_text; simpl value_safe; intros Hs.
  - unfold Quote. do 2 rw str_all_app. by rw quote_body_no_lf.
  - apply (str_all_impl _ _ _ is_num_no_lf), Itoa_chars.
  - by destruct b.
  - destruct f as [b| | |b m e]; try done; apply fixed_text_no_lf; [lia|]. by apply millionths_nonneg.
  - do 4 rw str_all_app. by rw join_no_lf.
  - do 2 rw str_all_app. by rw (plain_no_lf s).
Qed.

Lemma key_char_facts c : key_char c = true ->
  no_lf c = true /\ is_char 91 c = false /\ Ascii.eqb "]" c = false /\ Ascii.eqb " " c = false.
Proof.
  intros Hc. assert (Hn : c <> "]"%char /\ c <> " "%char) by (split; intros ->; by vm_compute in Hc).
  destruct Hn as [Hb Hs]. unfold key_char, no_lf, is_char, in_range in *.
  split; [lia|]. split; [lia|]. by split; apply Ascii.eqb_neq.
Qed.

Lemma key_all p k :
  (forall c, key_char c = true -> p c = true) -> key_ok k = true -> str_all p k = true.
Proof. unfold key_ok. intros Hp [_ H]%andb_true_iff. by eapply str_all_impl. Qed.

(** A header line switches the table, an entry line yields its entry. *)
Lemma read_header tbl name ls :
  key_ok name = true -> read_lines tbl (("[" +:+ name +:+ "]") :: ls) = read_lines name ls.
Proof.
  intros Hk. rw string_app_cons string_app_nil_l. cbn [read_lines].
  change (is_char 91 "[") with true. cbv iota.
  pose proof (split_at_app "]" "" name "") as Hs. rw string_app_nil_r in Hs. rw Hs //.
  eapply key_all; [|exact Hk]. intros c Hc. apply key_char_facts in Hc as (_ & _ & Hc & _). by rw Hc.
Qed.

Lemma read_entry tbl e ls :
  key_ok e.1 = true -> value_safe e.2 = true -> list_given e.2 = true ->
  read_lines tbl (entry_text e :: ls) = es ← read_lines tbl ls; Some ((tbl, e.1, meaning e.2) :: es).
Proof.
  destruct e as [k v]. simpl. intros Hk Hs Hg. unfold entry_text. simpl.
  pose proof (split_at_app " " "= " k (value_text v)) as Hsp.
  assert (Hc : exists c r, k = String c r /\ is_char 91 c = false).
  { unfold key_ok in Hk. destruct k as [|c r]; [done|]. simpl in Hk. exists c, r. split; [done|].
    split_andb. by eapply key_char_facts. }
  destruct Hc as (c & r & -> & Hc). cbn [read_lines]. rw string_app_cons. cbn [read_lines]. rw Hc.
  rw string_app_cons in Hsp. rw Hsp; [rw /= read_value_text //|].
  eapply key_all; [|exact Hk]. intros x Hx. apply key_char_facts in Hx as (_ & _ & _ & Hx). by rw Hx.
Qed.

Lemma read_entries tbl es ls :
  forallb (fun e => key_ok e.1 && list_given e.2) es = true ->
  forallb (fun e => value_safe e.2) es = true ->
  read_lines tbl ((entry_text <$> es) ++ ls) =
    l ← read_lines tbl ls; Some (((fun e => (tbl, e.1, meaning e.2)) <$> es) ++ l).
Proof.
  induction es as [|e es IH]; intros Hk Hs.
  - simpl. by destruct (read_lines tbl ls).
  - simpl in Hk, Hs. split_andb. rw fmap_cons -app_comm_cons read_entry // IH //.
    by destruct (read_lines tbl ls).
Qed.

Lemma section_lines_no_lf s :
  section_shaped s = true -> section_safe s = true ->
  Forall (fun l => str_all no_lf l = true) (section_lines s).
Proof.
  unfold section_shaped, section_safe, section_lines. intros Hk Hs. split_andb. constructor.
  - do 2 rw str_all_app. by rw (key_all no_lf (s_name s)) //; intros c Hc; apply key_char_facts.
  - apply Forall_fmap, Forall_forall. intros e He%list_elem_of_In.
    rw forallb_forall in Hs. pose proof (Hs _ He) as Hv.
    match goal with H : forallb _ _ = true |- _ => rw forallb_forall in H; specialize (H _ He) end.
    simpl in *. split_andb. unfold entry_text. do 2 rw str_all_app. rw value_text_no_lf //.
    by rw (key_all no_lf e.1) //; intros c Hc; apply key_char_facts.
Qed.

(** The lines of a section, an empty one for its lead. *)
Definition printed_lines (s : section) : list string :=
  append_if (negb (str_empty s.(s_lead))) [""] ++ section_lines s.

Lemma section_text_lines s :
  section_shaped s = true -> section_text s = str_concat (end_line <$> printed_lines s).
Proof.
  unfold section_shaped, section_text, printed_lines. intros Hs. split_andb.
  match goal with E : _ || _ = true |- _ => apply orb_true_iff in E as [E|E] end.
  - apply str_empty_true in H as ->. reflexivity.
  - apply String.eqb_eq in H as ->. reflexivity.
Qed.

Lemma read_section tbl s ls :
  section_shaped s = true -> section_safe s = true ->
  read_lines tbl (printed_lines s ++ ls) =
    l ← read_lines s.(s_name) ls; Some (section_entries s ++ l).
Proof.
  intros Hk Hs. unfold printed_lines. rw -app_assoc.
  assert (Hl : forall b ls', read_lines tbl (append_if b [""] ++ ls') = read_lines tbl ls') by by intros [].
  rw Hl /section_lines -app_comm_cons. unfold section_shaped, section_safe in *. split_andb.
  rw read_header // read_entries //.
Qed.

Definition section_ok (s : section) : Prop := section_shaped s = true /\ section_safe s = true.

Lemma document_lines d :
  Forall section_ok d ->
  split_lines (document_text d) = (d ≫= printed_lines) ++ [""].
Proof.
  intros Hd. unfold document_text.
  assert (section_text <$> d = (fun s => str_concat (end_line <$> printed_lines s)) <$> d) as ->.
  { apply list_fmap_ext. intros i s Hi. apply section_text_lines.
    by apply (Forall_lookup_1 _ _ _ _ Hd Hi). }
  assert (str_concat ((fun s => str_concat (end_line <$> printed_lines s)) <$> d) =
          str_concat (end_line <$> (d ≫= printed_lines))) as ->.
  { clear Hd. induction d as [|s d IH]; [done|].
    rw fmap_cons bind_cons fmap_app str_concat_cons str_concat_app IH. done. }
  apply split_lines_concat. induction Hd as [|s d [Hk Hs] _ IH]; [constructor|].
  rw bind_cons. apply Forall_app; split; [|done]. unfold printed_lines.
  apply Forall_app; split; [|by apply section_lines_no_lf]. destruct (negb _); by repeat constructor.
Qed.

(** Reading the printed document recovers every entry, in order, under its
    table. *)
Lemma read_document d : Forall section_ok d -> toml_read (document_text d) = Some (document_entries d).
Proof.
  intros Hd. unfold toml_read. rw document_lines //. generalize "" at 1. unfold document_entries.
  induction Hd as [|s d [Hk Hs] _ IH]; intros tbl; [done|].
  rw !bind_cons -app_assoc read_section // IH. done.
Qed.
End Reading.
