(* ===== verification/ConfigToml.v ===== *)
(** * The configuration file: [internal/controller/generators/configmap.go]

    A writer appends to one buffer.  Its [WriteString] of a table header and
    the [Fprintf]s that follow it are one [section]; the order of sections and
    of keys is the order of the calls, and [section_text] is what the calls
    print. *)

From S2P Require Import Prelude Kube Types Platform Fmt Samples Common Toml Validation.

(** ** Sections of the buffer *)

(** [WriteString] of a newline, the header and a newline, then the entries. *)
Definition table (name : string) (entries : list (string * value)) : section :=
  mk_section LF name entries.

(** [if p != nil { Fprintf(buf, "k = %verb\n", *p) }] *)
Definition opt_entry {A} (k : string) (f : A -> value) (p : option A) : list (string * value) :=
  match p with Some a => [(k, f a)] | None => [] end.

(** [if s != "" { Fprintf(buf, "k = %q\n", s) }] *)
Definition str_entry (k s : string) : list (string * value) :=
  append_if (negb (str_empty s)) [(k, VQ s)].

(** ** The writers *)

(** [configmap.go: writeInfoSection] *)
Definition writeInfoSection (mint : CashuMint) : list section :=
  let spec := mint.(mint_Spec) in
  let mi := spec.(spec_MintInfo) in
  [mk_section "" "info"
     ([("url", VQ mi.(mi_URL));
       ("listen_host", VQ (default_str DefaultListenHost mi.(mi_ListenHost)));
       ("listen_port", VD (default_int 8085 mi.(mi_ListenPort)))] ++
      opt_entry "use_keyset_v2" VT mi.(mi_UseKeysetV2))] ++
  match mi.(mi_QuoteTTL) with
  | Some q =>
      [table "info.quote_ttl"
         (opt_entry "mint_ttl" VD q.(qt_MintTTL) ++ opt_entry "melt_ttl" VD q.(qt_MeltTTL))]
  | None => []
  end ++
  match spec.(spec_HTTPCache) with
  | Some c =>
      [table "info.http_cache"
         ([("backend", VQ (default_str "memory" c.(hc_Backend)))] ++
          opt_entry "ttl" VD c.(hc_TTL) ++
          opt_entry "tti" VD c.(hc_TTI) ++
          match c.(hc_Redis) with
          | Some redis =>
              if String.eqb c.(hc_Backend) "redis" then
                str_entry "key_prefix" redis.(rc_KeyPrefix) ++
                str_entry "connection_string" redis.(rc_ConnectionString)
              else []
          | None => []
          end)]
  | None => []
  end ++
  match spec.(spec_Logging) with
  | Some l =>
      [table "info.logging"
         ([("output", VText "stderr")] ++
          str_entry "console_level" l.(log_Level) ++
          str_entry "file_level" l.(log_FileLevel))]
  | None => []
  end.

(** [configmap.go: writeMintInfoSection] *)
Definition writeMintInfoSection (mint : CashuMint) : list section :=
  let mi := mint.(mint_Spec).(spec_MintInfo) in
  if str_empty mi.(mi_Name) && str_empty mi.(mi_Description) && str_empty mi.(mi_DescriptionLong) &&
     str_empty mi.(mi_MOTD) && str_empty mi.(mi_PubkeyHex) && str_empty mi.(mi_IconURL) &&
     str_empty mi.(mi_ContactEmail) && str_empty mi.(mi_ContactNostrPubkey) &&
     str_empty mi.(mi_TosURL) && negb (non_nil mi.(mi_InputFeePPK))
  then []
  else
    [table "mint_info"
       (str_entry "name" mi.(mi_Name) ++
        str_entry "description" mi.(mi_Description) ++
        str_entry "description_long" mi.(mi_DescriptionLong) ++
        str_entry "motd" mi.(mi_MOTD) ++
        str_entry "pubkey" mi.(mi_PubkeyHex) ++
        str_entry "icon_url" mi.(mi_IconURL) ++
        str_entry "contact_email" mi.(mi_ContactEmail) ++
        str_entry "contact_nostr_public_key" mi.(mi_ContactNostrPubkey) ++
        str_entry "tos_url" mi.(mi_TosURL) ++
        opt_entry "input_fee_ppk" VD mi.(mi_InputFeePPK))].

(** The connection string of the provisioned server.
    [configmap.go: writeDatabaseSection 199-200] *)
Definition provisionedURL (mint : CashuMint) (dbPassword : string) : string :=
  "postgresql://cdk:" +:+ dbPassword +:+ "@" +:+ mint_Name mint +:+
  "-postgres:5432/cdk_mintd?sslmode=disable".

(** [configmap.go: writeDatabaseSection] *)
Definition writeDatabaseSection (mint : CashuMint) (dbPassword : string) : list section :=
  let spec := mint.(mint_Spec) in
  let db := spec.(spec_Database) in
  [table "database" [("engine", VQ db.(db_Engine))]] ++
  match db.(db_Postgres) with
  | Some pg =>
      if String.eqb db.(db_Engine) DatabaseEnginePostgres then
        [table "database.postgres"
           ((if pg.(pg_AutoProvision) then [("url", VQ (provisionedURL mint dbPassword))]
             else str_entry "url" pg.(pg_URL)) ++
            [("tls_mode", VQ (if pg.(pg_AutoProvision) then "disable"
                              else default_str "require" pg.(pg_TLSMode)))] ++
            opt_entry "max_connections" VD pg.(pg_MaxConnections) ++
            opt_entry "connection_timeout_seconds" VD pg.(pg_ConnectionTimeoutSeconds))]
      else []
  | None => []
  end ++
  match spec.(spec_Auth) with
  | Some auth =>
      match auth.(auth_Database) with
      | Some adb =>
          match adb.(adb_Postgres) with
          | Some pg =>
              if auth.(auth_Enabled) then
                [table "auth_database.postgres"
                   ([("url", if str_empty pg.(pg_URL) then VText "" else VQ pg.(pg_URL));
                     ("tls_mode", VQ (default_str "disable" pg.(pg_TLSMode)))] ++
                    opt_entry "max_connections" VD pg.(pg_MaxConnections) ++
                    opt_entry "connection_timeout_seconds" VD pg.(pg_ConnectionTimeoutSeconds))]
              else []
          | None => []
          end
      | None => []
      end
  | None => []
  end.

(** [configmap.go: writeLNDSection] *)
Definition writeLNDSection (mint : CashuMint) : list section :=
  match mint.(mint_Spec).(spec_PaymentBackend).(pb_LND) with
  | None => []
  | Some lnd =>
      [table "lnd"
         ([("address", VQ lnd.(lnd_Address))] ++
          append_if (non_nil lnd.(lnd_MacaroonSecretRef)) [("macaroon_file", VText "/secrets/lnd/macaroon")] ++
          append_if (non_nil lnd.(lnd_CertSecretRef)) [("cert_file", VText "/secrets/lnd/cert")] ++
          opt_entry "fee_percent" VF lnd.(lnd_FeePercent) ++
          opt_entry "reserve_fee_min" VD lnd.(lnd_ReserveFeeMin))]
  end.

(** [configmap.go: writeCLNSection] *)
Definition writeCLNSection (mint : CashuMint) : list section :=
  match mint.(mint_Spec).(spec_PaymentBackend).(pb_CLN) with
  | None => []
  | Some cln =>
      [table "cln"
         ([("rpc_path", VQ cln.(cln_RPCPath))] ++
          opt_entry "bolt12" VT cln.(cln_Bolt12) ++
          opt_entry "fee_percent" VF cln.(cln_FeePercent) ++
          opt_entry "reserve_fee_min" VD cln.(cln_ReserveFeeMin))]
  end.

(** [configmap.go: writeLNBitsSection] *)
Definition writeLNBitsSection (mint : CashuMint) : list section :=
  match mint.(mint_Spec).(spec_PaymentBackend).(pb_LNBits) with
  | None => []
  | Some lnbits =>
      [table "lnbits"
         ([("lnbits_api", VQ lnbits.(lnb_API))] ++
          append_if lnbits.(lnb_RetroAPI) [("retro_api", VT true)] ++
          opt_entry "fee_percent" VF lnbits.(lnb_FeePercent) ++
          opt_entry "reserve_fee_min" VD lnbits.(lnb_ReserveFeeMin))]
  end.

(** The local fallbacks of [writeFakeWalletSection]; the float is [0.02]. *)
Definition fakeWalletFee : float64 := S754_finite false 5764607523034235 (-58).

Definition ptr_or {A} (d : A) (p : option A) : A := match p with Some a => a | None => d end.

(** [configmap.go: writeFakeWalletSection] *)
Definition writeFakeWalletSection (mint : CashuMint) : list section :=
  let fw := mint.(mint_Spec).(spec_PaymentBackend).(pb_FakeWallet) in
  let field {A} (f : FakeWalletConfig -> option A) (d : A) := ptr_or d (p ← fw; f p) in
  [table "fake_wallet"
     [("supported_units", VList (default_list ["sat"] (ptr_or [] (fw_SupportedUnits <$> fw))));
      ("fee_percent", VF (field fw_FeePercent fakeWalletFee));
      ("reserve_fee_min", VD (field fw_ReserveFeeMin 1%Z));
      ("min_delay_time", VD (field fw_MinDelayTime 1%Z));
      ("max_delay_time", VD (field fw_MaxDelayTime 3%Z))]].

(** [configmap.go: grpcProcessorAddress] *)
Definition grpcProcessorAddress (gp : option GRPCProcessorConfig) : string :=
  let addr := match gp with Some gp => gp.(gp_Address) | None => "" end in
  let addr := if str_empty addr then "http://127.0.0.1" else addr in
  if negb (HasPrefix addr "http://") && negb (HasPrefix addr "https://")
  then "http://" +:+ addr else addr.

(** [configmap.go: grpcProcessorPort] *)
Definition grpcProcessorPort (gp : option GRPCProcessorConfig) : Z :=
  match gp with
  | None => 50051%Z
  | Some gp => if (gp.(gp_Port) =? 0)%Z then 50051%Z else gp.(gp_Port)
  end.

(** [configmap.go: grpcProcessorSupportedUnits] *)
Definition grpcProcessorSupportedUnits (gp : option GRPCProcessorConfig) : list string :=
  match gp with
  | None => ["sat"]
  | Some gp => match gp.(gp_SupportedUnits) with [] => ["sat"] | l => l end
  end.

(** [configmap.go: writeGRPCProcessorSection] *)
Definition writeGRPCProcessorSection (mint : CashuMint) : list section :=
  match mint.(mint_Spec).(spec_PaymentBackend).(pb_GRPCProcessor) with
  | None => []
  | Some gp =>
      [table "grpc_processor"
         ([("addr", VQ (grpcProcessorAddress (Some gp)));
           ("port", VD (grpcProcessorPort (Some gp)));
           ("supported_units", VList (grpcProcessorSupportedUnits (Some gp)))] ++
          append_if (non_nil gp.(gp_TLSSecretRef)) [("tls_dir", VQ grpcProcessorTLSMountPath)])]
  end.

(** [configmap.go: writePaymentBackendSection] *)
Definition writePaymentBackendSection (mint : CashuMint) : list section :=
  let pb := mint.(mint_Spec).(spec_PaymentBackend) in
  let backend := ActiveBackend pb in
  [table "ln"
     ([("ln_backend", VQ backend)] ++
      opt_entry "min_mint" VD pb.(pb_MinMint) ++
      opt_entry "max_mint" VD pb.(pb_MaxMint) ++
      opt_entry "min_melt" VD pb.(pb_MinMelt) ++
      opt_entry "max_melt" VD pb.(pb_MaxMelt))] ++
  (if String.eqb backend PaymentBackendLND then writeLNDSection mint
   else if String.eqb backend PaymentBackendCLN then writeCLNSection mint
   else if String.eqb backend PaymentBackendLNBits then writeLNBitsSection mint
   else if String.eqb backend PaymentBackendFakeWallet then writeFakeWalletSection mint
   else if String.eqb backend PaymentBackendGRPCProcessor then writeGRPCProcessorSection mint
   else []).

(** [configmap.go: writeLDKNodeSection] *)
Definition writeLDKNodeSection (mint : CashuMint) : list section :=
  match mint.(mint_Spec).(spec_LDKNode) with
  | None => []
  | Some ldk =>
      if negb ldk.(ldk_Enabled) then []
      else
        [table "ldk_node"
           (opt_entry "fee_percent" VF ldk.(ldk_FeePercent) ++
            opt_entry "reserve_fee_min" VD ldk.(ldk_ReserveFeeMin) ++
            [("bitcoin_network", VQ ldk.(ldk_BitcoinNetwork));
             ("chain_source", VQ ldk.(ldk_ChainSourceType))] ++
            str_entry "esplora_url" ldk.(ldk_EsploraURL) ++
            match ldk.(ldk_BitcoinRPC) with
            | Some rpc =>
                [("bitcoin_rpc_host", VQ rpc.(brpc_Host)); ("bitcoin_rpc_port", VD rpc.(brpc_Port))]
            | None => []
            end ++
            str_entry "storage_dir_path" ldk.(ldk_StorageDirPath) ++
            str_entry "log_dir_path" ldk.(ldk_LogDirPath) ++
            [("ldk_node_host", VQ (default_str DefaultListenHost ldk.(ldk_Host)));
             ("ldk_node_port", VD (default_int 8090 ldk.(ldk_Port)))] ++
            append_if (non_empty ldk.(ldk_AnnounceAddresses))
              [("announce_addresses", VList ldk.(ldk_AnnounceAddresses))] ++
            [("gossip_source", VQ ldk.(ldk_GossipSourceType))] ++
            str_entry "rgs_url" ldk.(ldk_RGSURL) ++
            [("webserver_host", VQ (default_str DefaultLoopbackHost ldk.(ldk_WebserverHost)));
             ("webserver_port", VD (default_int 8888 ldk.(ldk_WebserverPort)))])]
  end.

(** [configmap.go: writeAuthSection] *)
Definition writeAuthSection (mint : CashuMint) : list section :=
  match mint.(mint_Spec).(spec_Auth) with
  | None => []
  | Some auth =>
      if negb auth.(auth_Enabled) then []
      else
        [table "auth"
           ([("auth_enabled", VT true)] ++
            str_entry "openid_discovery" auth.(auth_OpenIDDiscovery) ++
            str_entry "openid_client_id" auth.(auth_OpenIDClientID) ++
            opt_entry "mint_max_bat" VD auth.(auth_MintMaxBat) ++
            str_entry "mint" auth.(auth_Mint) ++
            str_entry "get_mint_quote" auth.(auth_GetMintQuote) ++
            str_entry "check_mint_quote" auth.(auth_CheckMintQuote) ++
            str_entry "melt" auth.(auth_Melt) ++
            str_entry "get_melt_quote" auth.(auth_GetMeltQuote) ++
            str_entry "check_melt_quote" auth.(auth_CheckMeltQuote) ++
            str_entry "swap" auth.(auth_Swap) ++
            str_entry "restore" auth.(auth_Restore) ++
            str_entry "check_proof_state" auth.(auth_CheckProofState))]
  end.

(** [configmap.go: writeManagementRPCSection] *)
Definition writeManagementRPCSection (mint : CashuMint) : list section :=
  match mint.(mint_Spec).(spec_ManagementRPC) with
  | None => []
  | Some rpc =>
      if negb rpc.(rpc_Enabled) then []
      else
        [table "mint_management_rpc"
           ([("enabled", VT true);
             ("address", VQ (default_str DefaultLoopbackHost rpc.(rpc_Address)));
             ("port", VD (default_int 8086 rpc.(rpc_Port)))] ++
            append_if (ManagementRPCTLSEnabled mint.(mint_Spec))
              [("tls_dir_path", VQ orchardManagementRPCTLSMountPath)])]
  end.

(** [configmap.go: writeLimitsSection] *)
Definition writeLimitsSection (mint : CashuMint) : list section :=
  match mint.(mint_Spec).(spec_Limits) with
  | None => []
  | Some l =>
      [table "limits"
         (opt_entry "max_inputs" VD l.(lim_MaxInputs) ++ opt_entry "max_outputs" VD l.(lim_MaxOutputs))]
  end.

(** [configmap.go: writePrometheusSection] *)
Definition writePrometheusSection (mint : CashuMint) : list section :=
  match mint.(mint_Spec).(spec_Prometheus) with
  | None => []
  | Some p =>
      if negb p.(prom_Enabled) then []
      else
        [table "prometheus"
           [("enabled", VT true);
            ("address", VQ (default_str DefaultListenHost p.(prom_Address)));
            ("port", VD (ptr_or DefaultPrometheusPort p.(prom_Port)))]]
  end.

(** The calls of [generateConfigToml] in order.
    [configmap.go: generateConfigToml 72-81] *)
Definition config_sections (mint : CashuMint) (dbPassword : string) : list section :=
  writeInfoSection mint ++
  writeMintInfoSection mint ++
  writeDatabaseSection mint dbPassword ++
  writePaymentBackendSection mint ++
  writeLDKNodeSection mint ++
  writeAuthSection mint ++
  writeManagementRPCSection mint ++
  writeLimitsSection mint ++
  writePrometheusSection mint.

(** ** Printing *)

Section Printing.
Context `{UnicodeTables}.

(** [configmap.go: generateConfigToml] *)
Definition generateConfigToml (mint : CashuMint) (dbPassword : string) : string :=
  document_text (config_sections mint dbPassword).

Context `{ControllerUtil}.

(** [configmap.go: GenerateConfigMap] *)
Definition GenerateConfigMap (mint : CashuMint) (dbPassword : string) : res ConfigMap :=
  let configToml := generateConfigToml mint dbPassword in
  let meta := newMeta (mint_Name mint +:+ "-config") (mint_Namespace mint)
                (componentLabels mint "config") None in
  let? meta := res_wrap "failed to set controller reference: " (SetControllerReference mint meta) in
  Ok (mkConfigMap (mkTypeMeta "v1" "ConfigMap") meta (Some {[ "config.toml" := configToml ]})).
End Printing.

(** ** The shape of the file

    [config_tables] lists every table and key the writers can print, in
    order; [within] and [fits] say that a list of entries or sections takes
    some of them without changing the order. *)

Inductive within : list string -> list (string * value) -> Prop :=
  | within_nil : within [] []
  | within_skip k ks es : within ks es -> within (k :: ks) es
  | within_take k v ks es : list_given v = true -> within ks es -> within (k :: ks) ((k, v) :: es).

Inductive fits : list (string * list string) -> list section -> Prop :=
  | fits_nil : fits [] []
  | fits_skip t ts ss : fits ts ss -> fits (t :: ts) ss
  | fits_take lead name ks ts es ss :
      (lead = "" \/ lead = LF) -> within ks es -> fits ts ss ->
      fits ((name, ks) :: ts) (mk_section lead name es :: ss).

Lemma within_str k s ks es : within ks es -> within (k :: ks) (str_entry k s ++ es).
Proof. intros H. destruct s; simpl; [by apply within_skip|by apply within_take]. Qed.

Lemma within_opt {A} k (f : A -> value) p ks es :
  (forall a, list_given (f a) = true) -> within ks es -> within (k :: ks) (opt_entry k f p ++ es).
Proof. intros Hf H. destruct p; simpl; [by apply within_take|by apply within_skip]. Qed.

Lemma within_if (b : bool) k v ks es :
  implb b (list_given v) = true -> within ks es -> within (k :: ks) (append_if b [(k, v)] ++ es).
Proof. intros Hv H. destruct b; simpl; [by apply within_take|by apply within_skip]. Qed.

Lemma within_last ks es : within ks (es ++ []) -> within ks es.
Proof. by rw app_nil_r. Qed.

Lemma fits_app t1 t2 s1 s2 : fits t1 s1 -> fits t2 s2 -> fits (t1 ++ t2) (s1 ++ s2).
Proof. intros H1 H2. induction H1; simpl; [done|by apply fits_skip|by apply fits_take]. Qed.

Lemma fits_none t : fits t [].
Proof. induction t; constructor; auto. Qed.

Lemma fits_head t ts ss : fits [t] ss -> fits (t :: ts) ss.
Proof. intros H. rw -(app_nil_r ss). by apply (fits_app [t]); [|apply fits_none]. Qed.

Lemma fits_table name ks es : within ks es -> fits [(name, ks)] [table name es].
Proof. intros H. apply fits_take; [by right|done|constructor]. Qed.

Ltac solve_within :=
  apply within_last; rw -?app_assoc; simpl app;
  repeat first
    [ apply within_nil
    | apply within_take; [reflexivity|]
    | apply within_str
    | apply within_opt; [reflexivity|]
    | apply within_if; [apply Bool.implb_true_r || assumption|]
    | apply within_skip ].

Definition info_tables : list (string * list string) :=
  [("info", ["url"; "listen_host"; "listen_port"; "use_keyset_v2"]);
   ("info.quote_ttl", ["mint_ttl"; "melt_ttl"]);
   ("info.http_cache", ["backend"; "ttl"; "tti"; "key_prefix"; "connection_string"]);
   ("info.logging", ["output"; "console_level"; "file_level"])].

Lemma writeInfoSection_fits mint : fits info_tables (writeInfoSection mint).
Proof.
  unfold writeInfoSection. apply (fits_app [_]).
  { apply fits_take; [by left|solve_within|constructor]. }
  apply (fits_app [_]); [|apply (fits_app [_])]; case_match; try apply fits_none; apply fits_table.
  - solve_within.
  - case_match; [case_match|]; solve_within.
  - solve_within.
Qed.

Definition mint_info_tables : list (string * list string) :=
  [("mint_info", ["name"; "description"; "description_long"; "motd"; "pubkey"; "icon_url";
                  "contact_email"; "contact_nostr_public_key"; "tos_url"; "input_fee_ppk"])].

Lemma writeMintInfoSection_fits mint : fits mint_info_tables (writeMintInfoSection mint).
Proof.
  unfold writeMintInfoSection. case_match; [apply fits_none|]. apply fits_table. solve_within.
Qed.

Definition database_tables : list (string * list string) :=
  [("database", ["engine"]);
   ("database.postgres", ["url"; "tls_mode"; "max_connections"; "connection_timeout_seconds"]);
   ("auth_database.postgres", ["url"; "tls_mode"; "max_connections"; "connection_timeout_seconds"])].

Lemma writeDatabaseSection_fits mint pw : fits database_tables (writeDatabaseSection mint pw).
Proof.
  unfold writeDatabaseSection. apply (fits_app [_]); [apply fits_table; solve_within|].
  apply (fits_app [_]); repeat case_match; try apply fits_none; apply fits_table; solve_within.
Qed.

Definition backend_tables : list (string * list string) :=
  [("ln", ["ln_backend"; "min_mint"; "max_mint"; "min_melt"; "max_melt"]);
   ("lnd", ["address"; "macaroon_file"; "cert_file"; "fee_percent"; "reserve_fee_min"]);
   ("cln", ["rpc_path"; "bolt12"; "fee_percent"; "reserve_fee_min"]);
   ("lnbits", ["lnbits_api"; "retro_api"; "fee_percent"; "reserve_fee_min"]);
   ("fake_wallet", ["supported_units"; "fee_percent"; "reserve_fee_min"; "min_delay_time"; "max_delay_time"]);
   ("grpc_processor", ["addr"; "port"; "supported_units"; "tls_dir"])].

Lemma units_given l : list_given (VList (default_list ["sat"] l)) = true.
Proof. by destruct l. Qed.

Lemma grpc_units_given gp : list_given (VList (grpcProcessorSupportedUnits gp)) = true.
Proof. by destruct gp as [[? ? [] ? ?]|]. Qed.

Ltac solve_table := repeat case_match; try apply fits_none; apply fits_table; solve_within.

Lemma writeLNDSection_fits mint :
  fits [("lnd", ["address"; "macaroon_file"; "cert_file"; "fee_percent"; "reserve_fee_min"])] (writeLNDSection mint).
Proof. unfold writeLNDSection. solve_table. Qed.

Lemma writeCLNSection_fits mint :
  fits [("cln", ["rpc_path"; "bolt12"; "fee_percent"; "reserve_fee_min"])] (writeCLNSection mint).
Proof. unfold writeCLNSection. solve_table. Qed.

Lemma writeLNBitsSection_fits mint :
  fits [("lnbits", ["lnbits_api"; "retro_api"; "fee_percent"; "reserve_fee_min"])] (writeLNBitsSection mint).
Proof. unfold writeLNBitsSection. solve_table. Qed.

Lemma writeFakeWalletSection_fits mint :
  fits [("fake_wallet", ["supported_units"; "fee_percent"; "reserve_fee_min"; "min_delay_time"; "max_delay_time"])] (writeFakeWalletSection mint).
Proof.
  apply fits_table. apply within_take; [apply units_given|]. solve_within.
Qed.

Lemma writeGRPCProcessorSection_fits mint :
  fits [("grpc_processor", ["addr"; "port"; "supported_units"; "tls_dir"])] (writeGRPCProcessorSection mint).
Proof.
  unfold writeGRPCProcessorSection. case_match; [|apply fits_none]. apply fits_table.
  do 2 (apply within_take; [reflexivity|]). apply within_take; [apply grpc_units_given|]. solve_within.
Qed.

Lemma writePaymentBackendSection_fits mint : fits backend_tables (writePaymentBackendSection mint).
Proof.
  unfold writePaymentBackendSection. apply (fits_app [_]); [apply fits_table; solve_within|].
  repeat case_match; try apply fits_none.
  - apply fits_head, writeLNDSection_fits.
  - apply fits_skip, fits_head, writeCLNSection_fits.
  - do 2 apply fits_skip. apply fits_head, writeLNBitsSection_fits.
  - do 3 apply fits_skip. apply fits_head, writeFakeWalletSection_fits.
  - do 4 apply fits_skip. apply writeGRPCProcessorSection_fits.
Qed.

Definition other_tables : list (string * list string) :=
  [("ldk_node", ["fee_percent"; "reserve_fee_min"; "bitcoin_network"; "chain_source"; "esplora_url";
     "bitcoin_rpc_host"; "bitcoin_rpc_port"; "storage_dir_path"; "log_dir_path"; "ldk_node_host";
     "ldk_node_port"; "announce_addresses"; "gossip_source"; "rgs_url"; "webserver_host"; "webserver_port"]);
   ("auth", ["auth_enabled"; "openid_discovery"; "openid_client_id"; "mint_max_bat"; "mint";
     "get_mint_quote"; "check_mint_quote"; "melt"; "get_melt_quote"; "check_melt_quote"; "swap";
     "restore"; "check_proof_state"]);
   ("mint_management_rpc", ["enabled"; "address"; "port"; "tls_dir_path"]);
   ("limits", ["max_inputs"; "max_outputs"]);
   ("prometheus", ["enabled"; "address"; "port"])].

Lemma announce_given l : implb (non_empty l) (list_given (VList l)) = true.
Proof. by destruct l. Qed.

Lemma other_fits mint :
  fits other_tables (writeLDKNodeSection mint ++ writeAuthSection mint ++
    writeManagementRPCSection mint ++ writeLimitsSection mint ++ writePrometheusSection mint).
Proof.
  apply (fits_app [_]); [|apply (fits_app [_]); [|apply (fits_app [_]); [|apply (fits_app [_])]]].
  - unfold writeLDKNodeSection. destruct (spec_LDKNode _) as [ldk|]; [|apply fits_none].
    case_match; [apply fits_none|].
    apply fits_table. pose proof (announce_given (ldk_AnnounceAddresses ldk)).
    destruct (ldk_BitcoinRPC ldk); solve_within.
  - unfold writeAuthSection. solve_table.
  - unfold writeManagementRPCSection. solve_table.
  - unfold writeLimitsSection. solve_table.
  - unfold writePrometheusSection. solve_table.
Qed.

Definition config_tables : list (string * list string) :=
  info_tables ++ mint_info_tables ++ database_tables ++ backend_tables ++ other_tables.

Lemma config_fits mint pw : fits config_tables (config_sections mint pw).
Proof.
  apply fits_app; [apply writeInfoSection_fits|].
  apply fits_app; [apply writeMintInfoSection_fits|].
  apply fits_app; [apply writeDatabaseSection_fits|].
  apply fits_app; [apply writePaymentBackendSection_fits|]. apply other_fits.
Qed.

(** ** What a fitting document satisfies *)

Lemma within_shaped ks es :
  within ks es -> forallb key_ok ks = true ->
  forallb (fun e => key_ok e.1 && list_given e.2) es = true.
Proof.
  induction 1 as [|k ks es _ IH|k v ks es Hv _ IH]; simpl; [done| |]; intros H; split_andb; [auto|].
  by rw Hv IH // andb_true_r andb_true_r.
Qed.

Lemma fits_shaped ts ss :
  fits ts ss -> forallb (fun t => key_ok t.1 && forallb key_ok t.2) ts = true ->
  Forall (fun s => section_shaped s = true) ss.
Proof.
  induction 1 as [|t ts ss _ IH|lead name ks ts es ss Hl Hw _ IH]; simpl; intros H; [done| |];
    split_andb; [auto|]. constructor; [|auto].
  unfold section_shaped. simpl. rw (within_shaped ks es) // andb_true_r.
  rw H // andb_true_r. by destruct Hl as [->| ->].
Qed.

Lemma within_sublist ks es : within ks es -> sublist (fst <$> es) ks.
Proof. induction 1; simpl; by constructor. Qed.

Definition table_keys (t : string * list string) : list (string * string) := pair t.1 <$> t.2.

Lemma fits_sublist ts ss :
  fits ts ss -> sublist (fst <$> document_entries ss) (ts ≫= table_keys).
Proof.
  unfold document_entries.
  induction 1 as [|t ts ss _ IH|lead name ks ts es ss Hl Hw _ IH].
  - constructor.
  - rw bind_cons. by apply sublist_inserts_l.
  - rw !bind_cons fmap_app. apply sublist_app; [|done].
    unfold section_entries, table_keys. simpl.
    assert (E : fst <$> ((fun e => (name, e.1, meaning e.2)) <$> es) = pair name <$> (fst <$> es)).
    { clear. induction es as [|e es IH]; [done|]. by rw !fmap_cons IH. }
    rw E. apply fmap_sublist. by apply within_sublist.
Qed.

Lemma config_shaped mint pw : Forall (fun s => section_shaped s = true) (config_sections mint pw).
Proof. eapply fits_shaped; [apply config_fits|]. vm_compute. reflexivity. Qed.

Lemma config_keys_NoDup mint pw : NoDup (fst <$> document_entries (config_sections mint pw)).
Proof.
  eapply sublist_NoDup; [|apply fits_sublist, config_fits].
  apply (bool_decide_unpack _). vm_compute. reflexivity.
Qed.

(** The value the file gives a key of a table. *)
Definition config_lookup (tbl key : string) (es : list entry) : option tval :=
  snd <$> List.find (fun e => String.eqb e.1.1 tbl && String.eqb e.1.2 key) es.

Lemma config_lookup_unique tbl key v es :
  NoDup (fst <$> es) -> In (tbl, key, v) es -> config_lookup tbl key es = Some v.
Proof.
  unfold config_lookup. induction es as [|[[t k] w] es IH]; [done|].
  rw fmap_cons NoDup_cons. intros [Hn Hd] [[= -> -> ->]|Hin]; simpl.
  - by rw !String.eqb_refl.
  - destruct (String.eqb_spec t tbl) as [->|]; simpl; [|by apply IH].
    destruct (String.eqb_spec k key) as [->|]; simpl; [|by apply IH].
    exfalso. apply Hn. simpl. change (tbl, key) with ((tbl, key, v).1).
    by apply list_elem_of_fmap_2, list_elem_of_In.
Qed.

(** ** Contents *)

Lemma document_entries_app d1 d2 :
  document_entries (d1 ++ d2) = document_entries d1 ++ document_entries d2.
Proof. apply bind_app. Qed.

Lemma config_entries mint pw :
  document_entries (config_sections mint pw) =
    document_entries (writeInfoSection mint) ++ document_entries (writeMintInfoSection mint) ++
    document_entries (writeDatabaseSection mint pw) ++
    document_entries (writePaymentBackendSection mint) ++
    document_entries (writeLDKNodeSection mint ++ writeAuthSection mint ++
      writeManagementRPCSection mint ++ writeLimitsSection mint ++ writePrometheusSection mint).
Proof. unfold config_sections. do 4 (etrans; [apply document_entries_app|]; f_equal). Qed.

Lemma entry_in_document s e d : In s d -> In e (section_entries s) -> In e (document_entries d).
Proof.
  intros Hs He. apply list_elem_of_In. apply list_elem_of_bind. exists s.
  split; by apply list_elem_of_In.
Qed.

Lemma config_lookup_in mint pw tbl key v :
  In (tbl, key, v) (document_entries (config_sections mint pw)) ->
  config_lookup tbl key (document_entries (config_sections mint pw)) = Some v.
Proof. apply config_lookup_unique, config_keys_NoDup. Qed.

Lemma config_in_backend mint pw e :
  In e (document_entries (writePaymentBackendSection mint)) ->
  In e (document_entries (config_sections mint pw)).
Proof. rw config_entries in_app_iff in_app_iff in_app_iff in_app_iff. tauto. Qed.

(** The entries of one table all come from the writer that owns it. *)
Lemma fits_table_names ts ss e :
  fits ts ss -> In e (document_entries ss) -> In e.1.1 (fst <$> ts).
Proof.
  unfold document_entries. intros Hf. induction Hf as [|t ts ss _ IH|lead name ks ts es ss _ _ _ IH].
  - done.
  - intros H. right. by apply IH.
  - rw bind_cons in_app_iff. intros [H|H]; [left|right; by apply IH].
    unfold section_entries in H. apply in_map_iff in H as (x & <- & _). reflexivity.
Qed.

Definition backend_table_names : list string := ["lnd"; "cln"; "lnbits"; "fake_wallet"; "grpc_processor"].

(** The table of a backend and its first entry. *)
Definition backend_entry (b : Backend) : entry :=
  match b with
  | BLND c => ("lnd", "address", TStr c.(lnd_Address))
  | BCLN c => ("cln", "rpc_path", TStr c.(cln_RPCPath))
  | BLNBits c => ("lnbits", "lnbits_api", TStr c.(lnb_API))
  | BFakeWallet c => ("fake_wallet", "supported_units", TArr (default_list ["sat"] c.(fw_SupportedUnits)))
  | BGRPC c => ("grpc_processor", "addr", TStr (grpcProcessorAddress (Some c)))
  end.

Lemma backend_sections mint b :
  populated mint.(mint_Spec).(spec_PaymentBackend) = [b] ->
  exists s rest, writePaymentBackendSection mint = [s] ++ rest /\ s.(s_name) = "ln" /\
    In ("ln", "ln_backend", TStr (backend_name b)) (section_entries s) /\
    In (backend_entry b) (document_entries rest) /\
    fits [((backend_entry b).1.1, snd (ptr_or ("", [])
      (List.find (fun t => String.eqb t.1 (backend_entry b).1.1) backend_tables)))] rest.
Proof.
  intros Hb. unfold writePaymentBackendSection. rw ActiveBackend_populated Hb.
  eexists _, _. split; [reflexivity|]. split; [reflexivity|]. split; [by left|].
  pose proof (writeLNDSection_fits mint) as H1. pose proof (writeCLNSection_fits mint) as H2.
  pose proof (writeLNBitsSection_fits mint) as H3. pose proof (writeFakeWalletSection_fits mint) as H4.
  pose proof (writeGRPCProcessorSection_fits mint) as H5.
  unfold populated in Hb.
  destruct (spec_PaymentBackend (mint_Spec mint)) as [? ? ? ? [l|] [c|] [n|] [f|] [g|]] eqn:E;
    simpl in Hb; try discriminate; injection Hb as <-; (split; [|first [exact H1|exact H2|exact H3|exact H4|exact H5]]);
    simpl;
    [unfold writeLNDSection|unfold writeCLNSection|unfold writeLNBitsSection
    |unfold writeFakeWalletSection|unfold writeGRPCProcessorSection]; rw E; by left.
Qed.

(** C25: an accepted mint configures exactly one Lightning backend: [ln.ln_backend]
    names it, its table carries its address, path, URL or units, and no other
    backend table appears in the file. *)
Theorem generateConfigToml_backend mint pw b :
  populated mint.(mint_Spec).(spec_PaymentBackend) = [b] ->
  let es := document_entries (config_sections mint pw) in
  config_lookup "ln" "ln_backend" es = Some (TStr (backend_name b)) /\
  config_lookup (backend_entry b).1.1 (backend_entry b).1.2 es = Some (backend_entry b).2 /\
  (forall e, In e es -> In e.1.1 backend_table_names -> e.1.1 = (backend_entry b).1.1).
Proof.
  intros Hb. destruct (backend_sections mint b Hb) as (s & rest & Hw & Hn & Hln & He & Hf).
  assert (Hsec : document_entries (writePaymentBackendSection mint) = section_entries s ++ document_entries rest).
  { rw Hw document_entries_app. unfold document_entries at 1. by rw bind_cons app_nil_r. }
  split; [|split].
  - apply config_lookup_in, config_in_backend. rw Hsec in_app_iff. by left.
  - destruct (backend_entry b) as [[t k] v]. simpl.
    apply config_lookup_in, config_in_backend. rw Hsec in_app_iff. by right.
  - intros e Hin Htab.
    assert (Hother : forall ts ss, fits ts ss -> In e (document_entries ss) ->
              existsb (fun n => existsb (String.eqb n) backend_table_names) (fst <$> ts) = false -> False).
    { intros ts ss Hfit Hine Hex. pose proof (fits_table_names ts ss e Hfit Hine) as Hname.
      apply not_true_iff_false in Hex. apply Hex. apply existsb_exists. exists e.1.1. split; [done|].
      apply existsb_exists. exists e.1.1. split; [done|]. apply String.eqb_refl. }
    rw config_entries in Hin.
    apply in_app_or in Hin as [H|Hin]; [by destruct (Hother _ _ (writeInfoSection_fits mint) H)|].
    apply in_app_or in Hin as [H|Hin]; [by destruct (Hother _ _ (writeMintInfoSection_fits mint) H)|].
    apply in_app_or in Hin as [H|Hin]; [by destruct (Hother _ _ (writeDatabaseSection_fits mint pw) H)|].
    apply in_app_or in Hin as [Hin|H]; [|by destruct (Hother _ _ (other_fits mint) H)].
    rw Hsec in Hin. apply in_app_or in Hin as [H|H].
    + exfalso. unfold section_entries in H. apply in_map_iff in H as (x & <- & _). simpl in Htab.
      rw Hn in Htab. clear -Htab. simpl in Htab. intuition discriminate.
    + pose proof (fits_table_names _ _ e Hf H) as [E|[]]. by rw -E.
Qed.

(** The address handed to the gRPC client always has a URI scheme, and an
    address that already has one is passed on unchanged. *)
Theorem grpcProcessorAddress_scheme gp :
  (HasPrefix (grpcProcessorAddress gp) "http://" = true \/
   HasPrefix (grpcProcessorAddress gp) "https://" = true) /\
  (forall c, gp = Some c -> HasPrefix c.(gp_Address) "http://" = true \/
     HasPrefix c.(gp_Address) "https://" = true -> grpcProcessorAddress gp = c.(gp_Address)).
Proof.
  split.
  - unfold grpcProcessorAddress.
    set (a := if str_empty _ then _ else _). destruct (HasPrefix a "http://") eqn:E1; simpl; [by left|].
    destruct (HasPrefix a "https://") eqn:E2; simpl; [by right|]. left. apply HasPrefix_app.
  - intros c -> H. unfold grpcProcessorAddress. destruct (gp_Address c) as [|x s]; [by destruct H|].
    simpl str_empty. cbv iota. by destruct H as [-> | ->]; rw ?andb_false_r.
Qed.

Section Witnesses.
#[local] Existing Instance std_UnicodeTables.

Lemma generateConfigToml_backend_witness :
  let es := document_entries (config_sections fullMint "pw") in
  config_lookup "ln" "ln_backend" es = Some (TStr "lnd") /\
  config_lookup "lnd" "address" es = Some (TStr "https://lnd:10009") /\
  (forall e, In e es -> In e.1.1 backend_table_names -> e.1.1 = "lnd").
Proof. apply (generateConfigToml_backend fullMint "pw" (BLND sampleLND)). reflexivity. Defined.

End Witnesses.
