(* ===== verification/Settings.v ===== *)
(** * What the configuration file is to say

    A declarative table of the settings of a mint: for every key the file can
    have, the fields of the spec it comes from and the value it then has.  The
    table does not use the writers of [ConfigToml]; the theorem is that what a
    TOML reader gets from the generated file is the table. *)

From S2P Require Import Prelude Kube Types Platform Fmt Samples Common Toml Validation ConfigToml.

(** ** Settings *)

Inductive setting_value : Type :=
  | Text (s : string)
  | Number (n : Z)
  | Flag (b : bool)
  | Percent (f : float64)
  | Items (l : list string).

(** The table, the key, and the value if the key is set. *)
Definition setting : Type := string * string * option setting_value.

(** The value a reader of the file gets; percentages have six decimals. *)
Definition as_toml (v : setting_value) : tval :=
  match v with
  | Text s => TStr s
  | Number n => TInt n
  | Flag b => TBool b
  | Percent f => float_fixed f
  | Items l => TArr l
  end.

(** A text that is left out when it is empty. *)
Definition text (s : string) : option setting_value := if str_empty s then None else Some (Text s).

(** [p] if the flag of its section is on. *)
Definition enabled {A} (on : A -> bool) (p : option A) : option A := a ← p; if on a then Some a else None.

(** The URI of a PostgreSQL server without TLS. *)
Definition connection_url (user password host : string) (port : Z) (database : string) : string :=
  "postgresql://" +:+ user +:+ ":" +:+ password +:+ "@" +:+ host +:+ ":" +:+ Itoa port +:+ "/" +:+ database +:+
  "?sslmode=disable".

Definition info_settings (mint : CashuMint) : list setting :=
  let mi := mint.(mint_Spec).(spec_MintInfo) in
  let ttl := mi.(mi_QuoteTTL) in
  let cache := mint.(mint_Spec).(spec_HTTPCache) in
  let redis := c ← cache; if String.eqb c.(hc_Backend) "redis" then c.(hc_Redis) else None in
  let log := mint.(mint_Spec).(spec_Logging) in
  [("info", "url", Some (Text mi.(mi_URL)));
   ("info", "listen_host", Some (Text (default_str "0.0.0.0" mi.(mi_ListenHost))));
   ("info", "listen_port", Some (Number (default_int 8085 mi.(mi_ListenPort))));
   ("info", "use_keyset_v2", Flag <$> mi.(mi_UseKeysetV2))] ++
  [("info.quote_ttl", "mint_ttl", q ← ttl; Number <$> q.(qt_MintTTL));
   ("info.quote_ttl", "melt_ttl", q ← ttl; Number <$> q.(qt_MeltTTL))] ++
  [("info.http_cache", "backend", c ← cache; Some (Text (default_str "memory" c.(hc_Backend))));
   ("info.http_cache", "ttl", c ← cache; Number <$> c.(hc_TTL));
   ("info.http_cache", "tti", c ← cache; Number <$> c.(hc_TTI));
   ("info.http_cache", "key_prefix", r ← redis; text r.(rc_KeyPrefix));
   ("info.http_cache", "connection_string", r ← redis; text r.(rc_ConnectionString))] ++
  [("info.logging", "output", _ ← log; Some (Text "stderr"));
   ("info.logging", "console_level", l ← log; text l.(log_Level));
   ("info.logging", "file_level", l ← log; text l.(log_FileLevel))] ++
  [("mint_info", "name", text mi.(mi_Name));
   ("mint_info", "description", text mi.(mi_Description));
   ("mint_info", "description_long", text mi.(mi_DescriptionLong));
   ("mint_info", "motd", text mi.(mi_MOTD));
   ("mint_info", "pubkey", text mi.(mi_PubkeyHex));
   ("mint_info", "icon_url", text mi.(mi_IconURL));
   ("mint_info", "contact_email", text mi.(mi_ContactEmail));
   ("mint_info", "contact_nostr_public_key", text mi.(mi_ContactNostrPubkey));
   ("mint_info", "tos_url", text mi.(mi_TosURL));
   ("mint_info", "input_fee_ppk", Number <$> mi.(mi_InputFeePPK))].

Definition database_settings (mint : CashuMint) (password : string) : list setting :=
  let db := mint.(mint_Spec).(spec_Database) in
  let pg := if String.eqb db.(db_Engine) "postgres" then db.(db_Postgres) else None in
  let auth := a ← enabled auth_Enabled mint.(mint_Spec).(spec_Auth); d ← a.(auth_Database); d.(adb_Postgres) in
  [("database", "engine", Some (Text db.(db_Engine)))] ++
  [("database.postgres", "url",
      p ← pg; if p.(pg_AutoProvision)
              then Some (Text (connection_url "cdk" password (mint_Name mint +:+ "-postgres") 5432 "cdk_mintd"))
              else text p.(pg_URL));
   ("database.postgres", "tls_mode",
      p ← pg; Some (Text (if p.(pg_AutoProvision) then "disable" else default_str "require" p.(pg_TLSMode))));
   ("database.postgres", "max_connections", p ← pg; Number <$> p.(pg_MaxConnections));
   ("database.postgres", "connection_timeout_seconds", p ← pg; Number <$> p.(pg_ConnectionTimeoutSeconds))] ++
  [("auth_database.postgres", "url", p ← auth; Some (Text p.(pg_URL)));
   ("auth_database.postgres", "tls_mode", p ← auth; Some (Text (default_str "disable" p.(pg_TLSMode))));
   ("auth_database.postgres", "max_connections", p ← auth; Number <$> p.(pg_MaxConnections));
   ("auth_database.postgres", "connection_timeout_seconds", p ← auth; Number <$> p.(pg_ConnectionTimeoutSeconds))].

(** The one backend that is configured. *)
Definition configured_backend (mint : CashuMint) : option Backend :=
  match populated mint.(mint_Spec).(spec_PaymentBackend) with [b] => Some b | _ => None end.

Definition units (l : list string) : option setting_value := Some (Items (default_list ["sat"] l)).

Definition backend_settings (mint : CashuMint) : list setting :=
  let pb := mint.(mint_Spec).(spec_PaymentBackend) in
  let b := configured_backend mint in
  let lnd := b ← b; match b with BLND c => Some c | _ => None end in
  let cln := b ← b; match b with BCLN c => Some c | _ => None end in
  let lnbits := b ← b; match b with BLNBits c => Some c | _ => None end in
  let fake := b ← b; match b with BFakeWallet c => Some c | _ => None end in
  let grpc := b ← b; match b with BGRPC c => Some c | _ => None end in
  [("ln", "ln_backend", Some (Text (match b with Some b => backend_name b | None => "" end)));
   ("ln", "min_mint", Number <$> pb.(pb_MinMint));
   ("ln", "max_mint", Number <$> pb.(pb_MaxMint));
   ("ln", "min_melt", Number <$> pb.(pb_MinMelt));
   ("ln", "max_melt", Number <$> pb.(pb_MaxMelt))] ++
  [("lnd", "address", c ← lnd; Some (Text c.(lnd_Address)));
   ("lnd", "macaroon_file", c ← lnd; _ ← c.(lnd_MacaroonSecretRef); Some (Text "/secrets/lnd/macaroon"));
   ("lnd", "cert_file", c ← lnd; _ ← c.(lnd_CertSecretRef); Some (Text "/secrets/lnd/cert"));
   ("lnd", "fee_percent", c ← lnd; Percent <$> c.(lnd_FeePercent));
   ("lnd", "reserve_fee_min", c ← lnd; Number <$> c.(lnd_ReserveFeeMin))] ++
  [("cln", "rpc_path", c ← cln; Some (Text c.(cln_RPCPath)));
   ("cln", "bolt12", c ← cln; Flag <$> c.(cln_Bolt12));
   ("cln", "fee_percent", c ← cln; Percent <$> c.(cln_FeePercent));
   ("cln", "reserve_fee_min", c ← cln; Number <$> c.(cln_ReserveFeeMin))] ++
  [("lnbits", "lnbits_api", c ← lnbits; Some (Text c.(lnb_API)));
   ("lnbits", "retro_api", c ← lnbits; if c.(lnb_RetroAPI) then Some (Flag true) else None);
   ("lnbits", "fee_percent", c ← lnbits; Percent <$> c.(lnb_FeePercent));
   ("lnbits", "reserve_fee_min", c ← lnbits; Number <$> c.(lnb_ReserveFeeMin))] ++
  [("fake_wallet", "supported_units", c ← fake; units c.(fw_SupportedUnits));
   ("fake_wallet", "fee_percent", c ← fake; Some (Percent (ptr_or fakeWalletFee c.(fw_FeePercent))));
   ("fake_wallet", "reserve_fee_min", c ← fake; Some (Number (ptr_or 1%Z c.(fw_ReserveFeeMin))));
   ("fake_wallet", "min_delay_time", c ← fake; Some (Number (ptr_or 1%Z c.(fw_MinDelayTime))));
   ("fake_wallet", "max_delay_time", c ← fake; Some (Number (ptr_or 3%Z c.(fw_MaxDelayTime))))] ++
  [("grpc_processor", "addr", c ← grpc;
      let a := default_str "http://127.0.0.1" c.(gp_Address) in
      Some (Text (if HasPrefix a "http://" || HasPrefix a "https://" then a else "http://" +:+ a)));
   ("grpc_processor", "port", c ← grpc; Some (Number (default_int 50051 c.(gp_Port))));
   ("grpc_processor", "supported_units", c ← grpc; units c.(gp_SupportedUnits));
   ("grpc_processor", "tls_dir", c ← grpc; _ ← c.(gp_TLSSecretRef); Some (Text "/secrets/grpc"))].

Definition other_settings (mint : CashuMint) : list setting :=
  let spec := mint.(mint_Spec) in
  let ldk := enabled ldk_Enabled spec.(spec_LDKNode) in
  let auth := enabled auth_Enabled spec.(spec_Auth) in
  let rpc := enabled rpc_Enabled spec.(spec_ManagementRPC) in
  let limits := spec.(spec_Limits) in
  let prom := enabled prom_Enabled spec.(spec_Prometheus) in
  [("ldk_node", "fee_percent", l ← ldk; Percent <$> l.(ldk_FeePercent));
   ("ldk_node", "reserve_fee_min", l ← ldk; Number <$> l.(ldk_ReserveFeeMin));
   ("ldk_node", "bitcoin_network", l ← ldk; Some (Text l.(ldk_BitcoinNetwork)));
   ("ldk_node", "chain_source", l ← ldk; Some (Text l.(ldk_ChainSourceType)));
   ("ldk_node", "esplora_url", l ← ldk; text l.(ldk_EsploraURL));
   ("ldk_node", "bitcoin_rpc_host", l ← ldk; r ← l.(ldk_BitcoinRPC); Some (Text r.(brpc_Host)));
   ("ldk_node", "bitcoin_rpc_port", l ← ldk; r ← l.(ldk_BitcoinRPC); Some (Number r.(brpc_Port)));
   ("ldk_node", "storage_dir_path", l ← ldk; text l.(ldk_StorageDirPath));
   ("ldk_node", "log_dir_path", l ← ldk; text l.(ldk_LogDirPath));
   ("ldk_node", "ldk_node_host", l ← ldk; Some (Text (default_str "0.0.0.0" l.(ldk_Host))));
   ("ldk_node", "ldk_node_port", l ← ldk; Some (Number (default_int 8090 l.(ldk_Port))));
   ("ldk_node", "announce_addresses", l ← ldk;
      if non_empty l.(ldk_AnnounceAddresses) then Some (Items l.(ldk_AnnounceAddresses)) else None);
   ("ldk_node", "gossip_source", l ← ldk; Some (Text l.(ldk_GossipSourceType)));
   ("ldk_node", "rgs_url", l ← ldk; text l.(ldk_RGSURL));
   ("ldk_node", "webserver_host", l ← ldk; Some (Text (default_str "127.0.0.1" l.(ldk_WebserverHost))));
   ("ldk_node", "webserver_port", l ← ldk; Some (Number (default_int 8888 l.(ldk_WebserverPort))))] ++
  [("auth", "auth_enabled", _ ← auth; Some (Flag true));
   ("auth", "openid_discovery", a ← auth; text a.(auth_OpenIDDiscovery));
   ("auth", "openid_client_id", a ← auth; text a.(auth_OpenIDClientID));
   ("auth", "mint_max_bat", a ← auth; Number <$> a.(auth_MintMaxBat));
   ("auth", "mint", a ← auth; text a.(auth_Mint));
   ("auth", "get_mint_quote", a ← auth; text a.(auth_GetMintQuote));
   ("auth", "check_mint_quote", a ← auth; text a.(auth_CheckMintQuote));
   ("auth", "melt", a ← auth; text a.(auth_Melt));
   ("auth", "get_melt_quote", a ← auth; text a.(auth_GetMeltQuote));
   ("auth", "check_melt_quote", a ← auth; text a.(auth_CheckMeltQuote));
   ("auth", "swap", a ← auth; text a.(auth_Swap));
   ("auth", "restore", a ← auth; text a.(auth_Restore));
   ("auth", "check_proof_state", a ← auth; text a.(auth_CheckProofState))] ++
  [("mint_management_rpc", "enabled", _ ← rpc; Some (Flag true));
   ("mint_management_rpc", "address", r ← rpc; Some (Text (default_str "127.0.0.1" r.(rpc_Address))));
   ("mint_management_rpc", "port", r ← rpc; Some (Number (default_int 8086 r.(rpc_Port))));
   ("mint_management_rpc", "tls_dir_path",
      _ ← rpc; if ManagementRPCTLSEnabled spec then Some (Text "/secrets/management-rpc-tls") else None)] ++
  [("limits", "max_inputs", l ← limits; Number <$> l.(lim_MaxInputs));
   ("limits", "max_outputs", l ← limits; Number <$> l.(lim_MaxOutputs))] ++
  [("prometheus", "enabled", _ ← prom; Some (Flag true));
   ("prometheus", "address", p ← prom; Some (Text (default_str "0.0.0.0" p.(prom_Address))));
   ("prometheus", "port", p ← prom; Some (Number (ptr_or 9000%Z p.(prom_Port))))].

Definition settings (mint : CashuMint) (password : string) : list setting :=
  info_settings mint ++ database_settings mint password ++ backend_settings mint ++ other_settings mint.

(** The settings that are made. *)
Definition made (l : list setting) : list (string * string * setting_value) :=
  omap (fun s => v ← s.2; Some (s.1, v)) l.

(** What can be printed: the escapes of Go and TOML agree on ASCII texts without
    exotic control characters, [%f] needs a finite number, and the items of a
    list are printed between quotes without any escaping. *)
Definition printable (v : setting_value) : bool :=
  match v with
  | Text s => str_all quotable s
  | Number _ | Flag _ => true
  | Percent f => is_finite f
  | Items l => forallb (str_all plain) l
  end.
Definition config_printable (mint : CashuMint) (password : string) : bool :=
  forallb (fun e => printable e.2) (made (settings mint password)).

(** ** The writers follow the table *)

(** The setting an argument of [Fprintf] stands for. *)
Definition value_setting (v : value) : setting_value :=
  match v with
  | VQ s | VText s => Text s
  | VD n => Number n
  | VT b => Flag b
  | VF f => Percent f
  | VList l => Items l
  end.

Definition section_settings (s : section) : list (string * string * setting_value) :=
  (fun e => (s.(s_name), e.1, value_setting e.2)) <$> s.(s_entries).
Definition document_settings (d : list section) : list (string * string * setting_value) := d ≫= section_settings.

Lemma document_settings_app d1 d2 : document_settings (d1 ++ d2) = document_settings d1 ++ document_settings d2.
Proof. apply bind_app. Qed.
Lemma made_app l1 l2 : made (l1 ++ l2) = made l1 ++ made l2.
Proof. apply omap_app. Qed.

(** [states tbl es l]: the entries are the settings of the rows that are made. *)
Definition states (tbl : string) (es : list (string * value)) (l : list setting) : Prop :=
  (fun e => (tbl, e.1, value_setting e.2)) <$> es = made l.

Lemma states_nil tbl : states tbl [] [].
Proof. done. Qed.
Lemma states_skip tbl k es l : states tbl es l -> states tbl es ((tbl, k, None) :: l).
Proof. done. Qed.
Lemma states_take tbl k v es l x :
  value_setting v = x -> states tbl es l -> states tbl ((k, v) :: es) ((tbl, k, Some x) :: l).
Proof. intros <- Hes. unfold states. cbn. by f_equal. Qed.
Lemma states_str tbl k s es l : states tbl es l -> states tbl (str_entry k s ++ es) ((tbl, k, text s) :: l).
Proof. intros Hes. unfold str_entry, text. destruct (str_empty s); cbn; [done|by apply states_take]. Qed.
Lemma states_opt {A} tbl k (f : A -> value) (g : A -> setting_value) p es l :
  (forall a, value_setting (f a) = g a) -> states tbl es l ->
  states tbl (opt_entry k f p ++ es) ((tbl, k, g <$> p) :: l).
Proof. intros Hf Hes. destruct p as [a|]; cbn; [by apply states_take|done]. Qed.
Lemma states_if tbl k (b : bool) v x es l :
  value_setting v = x -> states tbl es l ->
  states tbl (append_if b [(k, v)] ++ es) ((tbl, k, if b then Some x else None) :: l).
Proof. intros Hv Hes. destruct b; cbn; [by apply states_take|done]. Qed.
Lemma states_last tbl es l : states tbl (es ++ []) l -> states tbl es l.
Proof. by rewrite -> app_nil_r. Qed.

Lemma states_table tbl es l : states tbl es l -> document_settings [table tbl es] = made l.
Proof. intros Hes. unfold document_settings. cbn. by rewrite -> app_nil_r. Qed.

Ltac solve_states :=
  apply states_last; rewrite <- ?app_assoc; cbn [app];
  repeat first
    [ apply states_nil
    | apply states_take; [reflexivity|]
    | apply states_str
    | apply states_opt; [reflexivity|]
    | apply states_if; [reflexivity|]
    | apply states_skip ].

Lemma both {A} (a b c d : list A) : a = c -> b = d -> a ++ b = c ++ d.
Proof. by intros -> ->. Qed.

(** Tables around it that are not printed. *)
Lemma placed tbl es l rest : rest = [] -> states tbl es l -> document_settings [table tbl es] = made l ++ rest.
Proof. intros ->. rewrite -> app_nil_r. apply states_table. Qed.
Lemma skipped {A} (a b d : list A) : a = [] -> d = b -> d = a ++ b.
Proof. by intros -> ->. Qed.

Lemma info_states mint :
  document_settings (writeInfoSection mint) ++ document_settings (writeMintInfoSection mint) = made (info_settings mint).
Proof.
  unfold writeInfoSection, info_settings. rewrite -> !document_settings_app, !made_app, <- !app_assoc.
  apply both; [apply (states_table "info"); solve_states|].
  apply both; [destruct (mi_QuoteTTL _); [apply states_table; solve_states|reflexivity]|].
  apply both.
  { destruct (spec_HTTPCache _) as [c|]; [|reflexivity]. apply states_table. cbn [mbind option_bind].
    destruct (hc_Redis c) as [r|]; destruct (String.eqb _ _); cbn [mbind option_bind]; solve_states. }
  apply both; [destruct (spec_Logging _); [apply states_table; solve_states|reflexivity]|].
  unfold writeMintInfoSection. case_match; [|apply states_table; solve_states]. split_andb. unfold text.
  repeat match goal with E : str_empty _ = true |- _ => rewrite -> E; clear E end.
  by destruct (mi_InputFeePPK _).
Qed.

Lemma provisioned_connection mint pw :
  provisionedURL mint pw = connection_url "cdk" pw (mint_Name mint +:+ "-postgres") 5432 "cdk_mintd".
Proof. unfold provisionedURL, connection_url. by rewrite <- !string_app_assoc. Qed.

Lemma database_states mint pw : document_settings (writeDatabaseSection mint pw) = made (database_settings mint pw).
Proof.
  unfold writeDatabaseSection, database_settings. rewrite -> !document_settings_app, !made_app.
  apply both; [apply states_table; solve_states|]. apply both.
  - change DatabaseEnginePostgres with "postgres". destruct (db_Postgres _) as [pg|]; destruct (String.eqb _ _); try reflexivity.
    rewrite <- provisioned_connection. apply states_table. cbn [mbind option_bind].
    destruct (pg_AutoProvision pg); solve_states.
  - unfold enabled. destruct (spec_Auth _) as [auth|]; [|reflexivity]. cbn [mbind option_bind].
    destruct (auth_Enabled auth); cbn [mbind option_bind]; [|by repeat case_match].
    destruct (auth_Database auth) as [d|]; [|reflexivity]. cbn [mbind option_bind].
    destruct (adb_Postgres d) as [pg|]; [|reflexivity]. apply states_table. cbn [mbind option_bind].
    destruct (str_empty (pg_URL pg)) eqn:E; [apply str_empty_true in E as ->|]; solve_states.
Qed.

Lemma grpc_address c :
  grpcProcessorAddress (Some c) =
  let a := default_str "http://127.0.0.1" c.(gp_Address) in
  if HasPrefix a "http://" || HasPrefix a "https://" then a else "http://" +:+ a.
Proof.
  unfold grpcProcessorAddress, default_str. set (a := if str_empty _ then _ else _). cbn zeta.
  by destruct (HasPrefix a "http://"), (HasPrefix a "https://").
Qed.

Lemma backend_states mint : document_settings (writePaymentBackendSection mint) = made (backend_settings mint).
Proof.
  unfold writePaymentBackendSection, backend_settings.
  rewrite -> document_settings_app, !made_app, ActiveBackend_populated. cbn zeta.
  remember (configured_backend mint) as b eqn:Hb. unfold configured_backend in Hb.
  apply both; [apply states_table; subst b; destruct (populated _) as [|? []]; solve_states|].
  unfold writeLNDSection, writeCLNSection, writeLNBitsSection, writeFakeWalletSection, writeGRPCProcessorSection.
  destruct (spec_PaymentBackend (mint_Spec mint)) as [? ? ? ? [l|] [c|] [n|] [f|] [g|]]; cbv in Hb; subst b;
    try reflexivity; cbn [mbind option_bind].
  - apply placed; [reflexivity|]. destruct (lnd_MacaroonSecretRef l), (lnd_CertSecretRef l); solve_states.
  - apply skipped; [reflexivity|]. apply placed; [reflexivity|solve_states].
  - do 2 (apply skipped; [reflexivity|]). apply placed; [reflexivity|solve_states].
  - do 4 (apply skipped; [reflexivity|]). apply states_table. cbn [pb_GRPCProcessor]. rewrite -> grpc_address.
    destruct g as [a p [|u us] [t|] sc]; solve_states.
Qed.

Lemma other_states mint :
  document_settings (writeLDKNodeSection mint ++ writeAuthSection mint ++ writeManagementRPCSection mint ++
    writeLimitsSection mint ++ writePrometheusSection mint) = made (other_settings mint).
Proof.
  unfold other_settings, enabled. rewrite -> !document_settings_app, !made_app. cbn zeta.
  apply both; [|apply both; [|apply both; [|apply both]]].
  - unfold writeLDKNodeSection. destruct (spec_LDKNode _) as [l|]; [|reflexivity]. cbn [mbind option_bind].
    destruct (ldk_Enabled l); [|reflexivity]. apply states_table. cbn [mbind option_bind].
    destruct (ldk_BitcoinRPC l); solve_states.
  - unfold writeAuthSection. destruct (spec_Auth _) as [a|]; [|reflexivity]. cbn [mbind option_bind].
    destruct (auth_Enabled a); [|reflexivity]. apply states_table. cbn [mbind option_bind]. solve_states.
  - unfold writeManagementRPCSection. destruct (spec_ManagementRPC _) as [r|] eqn:E; [|reflexivity]. cbn [mbind option_bind].
    destruct (rpc_Enabled r); [|reflexivity]. apply states_table. cbn [mbind option_bind]. solve_states.
  - unfold writeLimitsSection. destruct (spec_Limits _) as [l|]; [|reflexivity]. apply states_table. solve_states.
  - unfold writePrometheusSection. destruct (spec_Prometheus _) as [p|]; [|reflexivity]. cbn [mbind option_bind].
    destruct (prom_Enabled p); [|reflexivity]. apply states_table. solve_states.
Qed.

Lemma config_states mint pw : document_settings (config_sections mint pw) = made (settings mint pw).
Proof.
  unfold config_sections, settings. rewrite -> !made_app, <- other_states, <- backend_states, <- database_states, <- info_states.
  by rewrite <- !app_assoc, !document_settings_app.
Qed.

(** ** What a reader gets *)

(** The contents of the file: every setting that is made, as TOML. *)
Definition config_contents (mint : CashuMint) (password : string) : list entry :=
  (fun e => (e.1, as_toml e.2)) <$> made (settings mint password).

Lemma meaning_setting v : meaning v = as_toml (value_setting v).
Proof. by destruct v. Qed.

Lemma document_contents d : document_entries d = (fun e => (e.1, as_toml e.2)) <$> document_settings d.
Proof.
  unfold document_entries, document_settings. induction d as [|s d IH]; [done|].
  rewrite -> !bind_cons, fmap_app, IH. f_equal. unfold section_entries, section_settings.
  rewrite <- list_fmap_compose. apply list_fmap_ext. intros i e _. cbn. by rewrite -> meaning_setting.
Qed.

Lemma config_document mint pw : document_entries (config_sections mint pw) = config_contents mint pw.
Proof. by rewrite -> document_contents, config_states. Qed.

Lemma value_printable v : list_given v = true -> printable (value_setting v) = true -> value_safe v = true.
Proof. by destruct v. Qed.

Lemma section_printable s :
  section_shaped s = true -> forallb (fun e => printable e.2) (section_settings s) = true -> section_safe s = true.
Proof.
  unfold section_shaped, section_settings, section_safe. intros [_ Hk]%andb_true_iff Hp.
  induction (s_entries s) as [|e es IH]; [done|]. cbn in Hk, Hp |- *. split_andb. apply andb_true_iff. split; [|auto].
  by apply value_printable.
Qed.

Lemma printable_sections d :
  Forall (fun s => section_shaped s = true) d -> forallb (fun e => printable e.2) (document_settings d) = true ->
  Forall section_ok d.
Proof.
  unfold document_settings. induction 1 as [|s d Hs _ IH]; intros Hp; [constructor|].
  rewrite -> bind_cons, forallb_app in Hp. split_andb. constructor; [split; [done|by apply section_printable]|auto].
Qed.

Lemma config_sections_ok mint pw : config_printable mint pw = true -> Forall section_ok (config_sections mint pw).
Proof. intros Hp. apply printable_sections; [apply config_shaped|by rewrite -> config_states]. Qed.

(** ** Properties *)

(** C13: a TOML reader gets from the generated file exactly the table of
    settings of the mint - for every key the value the table derives from the
    spec, in order, nothing else and no key twice - provided that the texts are
    ASCII without exotic control characters, the percentages are finite and the
    items of the lists (the supported units, the announced addresses) hold
    neither a quote nor a backslash nor a control character. *)
Theorem generateConfigToml_reads_back `{UnicodeTables} mint pw :
  config_printable mint pw = true ->
  toml_read (generateConfigToml mint pw) = Some (config_contents mint pw) /\
  NoDup (fst <$> config_contents mint pw).
Proof.
  intros Hp. rewrite <- config_document. split; [|apply config_keys_NoDup].
  by apply read_document, config_sections_ok.
Qed.

(** The value a key of the file has is the one of the table. *)
Lemma config_setting mint pw tbl key v :
  In (tbl, key, Some v) (settings mint pw) ->
  config_lookup tbl key (document_entries (config_sections mint pw)) = Some (as_toml v).
Proof.
  intros Hin. apply config_lookup_in. rewrite -> config_document. unfold config_contents, made.
  apply list_elem_of_In, list_elem_of_fmap. exists (tbl, key, v). split; [done|].
  apply list_elem_of_omap. exists (tbl, key, Some v). split; [by apply list_elem_of_In|done].
Qed.

(** The condition on the items is needed: they are printed between quotes
    without escaping, so a unit can close its list and set another key. *)
Definition injectingMint : CashuMint :=
  let units := ["sat" +:+ DQ +:+ "]" +:+ LF +:+ "injected = [" +:+ DQ +:+ "x"] in
  let backends := zeroBackends <| pb_FakeWallet := Some (zeroFakeWallet <| fw_SupportedUnits := units |>) |> in
  minimalMint <| mint_Spec := minimalSpec <| spec_PaymentBackend := backends |> |>.

Section Witnesses.
#[local] Existing Instance std_UnicodeTables.

Example unit_injects_key :
  config_lookup "fake_wallet" "injected" <$> toml_read (generateConfigToml injectingMint "pw") = Some (Some (TArr ["x"])) /\
  ~ In ("fake_wallet", "injected") (fst <$> settings injectingMint "pw").
Proof.
  split; [vm_compute; reflexivity|]. rewrite <- list_elem_of_In. apply (bool_decide_unpack _). vm_compute. reflexivity.
Qed.

Lemma generateConfigToml_reads_back_witness :
  toml_read (generateConfigToml fullMint "pw") = Some (config_contents fullMint "pw") /\
  NoDup (fst <$> config_contents fullMint "pw").
Proof. apply generateConfigToml_reads_back. vm_compute. reflexivity. Defined.
End Witnesses.
