(* ===== verification/Postgres.v ===== *)
(** * The provisioned database: [internal/controller/generators/postgres.go]

    The Secret, the headless Service and the StatefulSet of an auto-provisioned
    PostgreSQL server.  Each generator returns a nil object when the mint does
    not ask for one.  The bytes of [crypto/rand] are an argument.
    [reaches_database] says that a connection string logs in to the server the
    three objects run; the configuration file and the Secret carry such a one. *)

From S2P Require Import Prelude Kube Types Platform Fmt Samples Encoding Common Toml Validation ConfigToml Settings.

(** [postgres.go: postgresUser] *)
Definition postgresUser : string := "cdk".
(** [postgres.go: postgresDatabase] *)
Definition postgresDatabase : string := "cdk_mintd".

(** [postgres.go: initPasswordScript] *)
Definition initPasswordScript : string :=
  raw_lines
    ["set -e";
     "if [ -f /var/lib/postgresql/data/pgdata/PG_VERSION ]; then";
     "  echo `Database already initialized, ensuring password is correct...`";
     "  chown -R 999:999 /var/lib/postgresql/data/pgdata";
     "  chmod 0700 /var/lib/postgresql/data/pgdata";
     "  su-exec 999:999 pg_ctl -D /var/lib/postgresql/data/pgdata -o `-c listen_addresses='' -c local_preload_libraries=''` -w start";
     "  su-exec 999:999 psql -U " +:+ postgresUser +:+ " -d " +:+ postgresDatabase +:+
       " -c `ALTER USER " +:+ postgresUser +:+ " WITH PASSWORD '${POSTGRES_PASSWORD}';`";
     "  su-exec 999:999 pg_ctl -D /var/lib/postgresql/data/pgdata -w stop";
     "  echo `Password updated successfully`";
     "else";
     "  echo `Database not yet initialized, skipping password update`";
     "fi"].

(** [mint.Spec.Database.Postgres != nil && ....AutoProvision] *)
Definition autoProvisioned (mint : CashuMint) : option PostgresConfig :=
  match mint.(mint_Spec).(spec_Database).(db_Postgres) with
  | Some pg => if pg.(pg_AutoProvision) then Some pg else None
  | None => None
  end.

Definition postgresSecretName (mint : CashuMint) : string := mint_Name mint +:+ "-postgres-secret".
Definition postgresName (mint : CashuMint) : string := mint_Name mint +:+ "-postgres".

(** The labels of the three objects. [postgres.go: GeneratePostgresSecret 67-72] *)
Definition postgresLabels (mint : CashuMint) : StringMap :=
  <[ "app.kubernetes.io/name" := "postgresql" ]> (componentLabels mint "database").

(** [postgres.go: generateSecurePassword]; [rnd] is what [rand.Read] puts into
    a slice of the given length, or its error. *)
Definition generateSecurePassword (len : nat) (rnd : res (list Z)) : res string :=
  let? bytes := rnd in Ok (String.substring 0 len (b64_encode bytes)).

(** The [database-url] entry. [postgres.go: GeneratePostgresSecret 86-87] *)
Definition databaseURL (mint : CashuMint) (password : string) : string :=
  "postgresql://" +:+ postgresUser +:+ ":" +:+ password +:+ "@" +:+ mint_Name mint +:+
  "-postgres:5432/" +:+ postgresDatabase +:+ "?sslmode=disable".

(** [postgres.go: GeneratePostgresSecret] *)
Definition GeneratePostgresSecret (mint : CashuMint) (existingPassword : string)
    (rnd : res (list Z)) : res (option Secret) :=
  match autoProvisioned mint with
  | None => Ok None
  | Some _ =>
      let? password :=
        (if str_empty existingPassword
         then res_wrap "failed to generate password: " (generateSecurePassword 32 rnd)
         else Ok existingPassword) in
      Ok (Some (mkSecret (mkTypeMeta "v1" "Secret")
        (newMeta (postgresSecretName mint) (mint_Namespace mint) (postgresLabels mint) None)
        SecretTypeOpaque ∅
        {[ "password" := password; "database-url" := databaseURL mint password ]}))
  end.

Section Objects.
Context `{ControllerUtil, Quantities}.

(** [postgres.go: GeneratePostgresService] *)
Definition GeneratePostgresService (mint : CashuMint) : res (option Service) :=
  match autoProvisioned mint with
  | None => Ok None
  | Some _ =>
      let? meta := set_reference mint
        (newMeta (postgresName mint) (mint_Namespace mint) (postgresLabels mint) None) in
      Ok (Some (mkService (mkTypeMeta "v1" "Service") meta ServiceTypeClusterIP (postgresLabels mint)
        [mkServicePort "postgres" 5432 (FromInt 0) ProtocolTCP] "None" ""))
  end.

(** [postgres.go: getPostgresResources]; the caller never passes nil. *)
Definition getPostgresResources (spec : PostgresAutoProvisionSpec) : res ResourceRequirements :=
  match spec.(ap_Resources) with
  | Some rr => Ok rr
  | None =>
      let? requests := resourceList [("cpu", "100m"); ("memory", "256Mi")] in
      let? limits := resourceList [("cpu", "1000m"); ("memory", "1Gi")] in
      Ok (mkResourceRequirements (Some limits) (Some requests) [])
  end.

(** The two environment variables both containers share. *)
Definition passwordEnv (mint : CashuMint) : EnvVar :=
  envSecret "POSTGRES_PASSWORD" (secretKey (postgresSecretName mint) "password").
Definition pgdataEnv : EnvVar := envValue "PGDATA" "/var/lib/postgresql/data/pgdata".
Definition dataMount : VolumeMount := mkVolumeMount "data" "/var/lib/postgresql/data" "" false.

(** [postgres.go: GeneratePostgresStatefulSet 205-242] *)
Definition initPasswordContainer (mint : CashuMint) (version : string) : Container :=
  (newContainer "init-password" ("postgres:" +:+ version +:+ "-alpine"))
    <| c_Command := ["sh"; "-c"; initPasswordScript] |>
    <| c_Env := [passwordEnv mint; pgdataEnv] |>
    <| c_VolumeMounts := [dataMount] |>
    <| c_SecurityContext := Some (securityContext false (Some false) (Some 0%Z)) |>.

Definition pgIsReady : ProbeHandler := Exec ["pg_isready"; "-U"; postgresUser; "-d"; postgresDatabase].

(** [postgres.go: GeneratePostgresStatefulSet 245-319] *)
Definition postgresContainer (mint : CashuMint) (version : string) (rr : ResourceRequirements) : Container :=
  (newContainer "postgres" ("postgres:" +:+ version +:+ "-alpine"))
    <| c_Env := [envValue "POSTGRES_DB" postgresDatabase; envValue "POSTGRES_USER" postgresUser;
                 passwordEnv mint; pgdataEnv] |>
    <| c_Ports := [tcpPort "postgres" 5432] |>
    <| c_VolumeMounts := [dataMount] |>
    <| c_Resources := rr |>
    <| c_LivenessProbe := Some (mkProbe pgIsReady 30 10 5 0 3) |>
    <| c_ReadinessProbe := Some (mkProbe pgIsReady 10 5 3 0 3) |>
    <| c_SecurityContext := Some (securityContext false (Some true) (Some 999%Z)) |>.

(** The spec the StatefulSet is built from. [postgres.go: GeneratePostgresStatefulSet 159-165] *)
Definition provisionSpec (pg : PostgresConfig) : PostgresAutoProvisionSpec :=
  match pg.(pg_AutoProvisionSpec) with
  | Some spec => spec
  | None => mkPostgresAutoProvisionSpec DefaultStorageSize None None "15"
  end.

(** [postgres.go: GeneratePostgresStatefulSet 205-329] *)
Definition postgresPod (mint : CashuMint) (version : string) (rr : ResourceRequirements) : PodSpec :=
  (newPodSpec [postgresContainer mint version rr])
    <| ps_InitContainers := [initPasswordContainer mint version] |>
    <| ps_SecurityContext := Some (mkPodSecurityContext None None (Some 999%Z) JNull) |>.

(** [postgres.go: GeneratePostgresStatefulSet 332-349] *)
Definition postgresClaim (labels : StringMap) (size : Quantity) (class : option string) : PersistentVolumeClaim :=
  mkPersistentVolumeClaim (mkTypeMeta "" "") (newMeta "data" "" labels None) [ReadWriteOnce] {[ "storage" := size ]} class.

(** [postgres.go: GeneratePostgresStatefulSet] *)
Definition GeneratePostgresStatefulSet (mint : CashuMint) : res (option StatefulSet) :=
  match autoProvisioned mint with
  | None => Ok None
  | Some pg =>
      let spec := provisionSpec pg in
      let labels := postgresLabels mint in
      let version := default_str "15" spec.(ap_Version) in
      let storageSize := default_str DefaultStorageSize spec.(ap_StorageSize) in
      let? rr := getPostgresResources spec in
      let? size := MustParse storageSize in
      let? meta := set_reference mint (newMeta (postgresName mint) (mint_Namespace mint) labels None) in
      Ok (Some (mkStatefulSet (mkTypeMeta "apps/v1" "StatefulSet") meta (Some 1%Z) (postgresName mint)
        labels (mkPodTemplateSpec labels None (postgresPod mint version rr))
        [postgresClaim labels size spec.(ap_StorageClassName)] 0 0 0))
  end.
End Objects.

(** ** Properties *)

Lemma substring_all n s t : String.length s = n -> String.substring 0 n (s +:+ t) = s.
Proof.
  revert n. induction s as [|c s IH]; intros n <-; [by destruct t|].
  rw string_app_cons. simpl. by rw IH.
Qed.

(** The password is the encoding of the first 24 random bytes. *)
Lemma password_text l :
  length l = 32 -> forallb is_byte l = true ->
  generateSecurePassword 32 (Ok l) = Ok (b64_encode (take 24 l)) /\
  length (take 24 l) = 24 /\ forallb is_byte (take 24 l) = true.
Proof.
  intros Hl Hb. assert (Ht : length (take 24 l) = 3 * 8) by (rw length_take; lia).
  assert (Hbt : forallb is_byte (take 24 l) = true).
  { rw -(take_drop 24 l) forallb_app in Hb. by apply andb_true_iff in Hb as [? _]. }
  split; [|done]. simpl. f_equal. rw -{1}(take_drop 24 l) (b64_encode_app 8) //.
  apply substring_all. by apply (b64_encode_chars 8).
Qed.

Lemma url_safe_quotable c : b64_url_char c = true -> quotable c = true.
Proof.
  unfold b64_url_char, quotable, is_ascii, is_control, in_range. lia.
Qed.

(** C33: a generated password has 32 characters of the URL-safe alphabet, so it
    needs no escaping in the connection string or in the TOML file.  It depends
    on the first 24 of the 32 bytes drawn and on nothing else, and on all of
    these: two draws give the same password exactly if they agree on the first
    24 bytes, so it carries 192 random bits and the last 8 bytes are unused. *)
Theorem generateSecurePassword_strength l :
  length l = 32 -> forallb is_byte l = true ->
  exists p, generateSecurePassword 32 (Ok l) = Ok p /\ String.length p = 32 /\
    str_all b64_url_char p = true /\ str_all quotable p = true /\
    forall l', length l' = 32 -> forallb is_byte l' = true ->
      (generateSecurePassword 32 (Ok l') = Ok p <-> take 24 l' = take 24 l).
Proof.
  intros Hl Hb. destruct (password_text l Hl Hb) as (Hp & Hlen & Hbt).
  destruct (b64_encode_chars 8 (take 24 l) Hlen Hbt) as [Hn Hc].
  eexists. split; [exact Hp|]. split; [done|]. split; [done|].
  split; [by eapply str_all_impl; [apply url_safe_quotable|]|].
  intros l' Hl' Hb'. destruct (password_text l' Hl' Hb') as (-> & Hlen' & Hbt').
  split; [|by intros ->]. intros [= E]. by apply (b64_encode_inj 8) in E.
Qed.

(** ** How a client reaches the server *)

(** [url] logs in to the server that the StatefulSet runs: it names the Service
    in the same namespace that selects the pods, a port of it that a container
    listens on, and the user, the password and the database this container is
    started with. *)
Definition reaches_database (s : Secret) (sts : StatefulSet) (svc : Service) (url : string) : Prop :=
  exists c user password port database,
    In c sts.(sts_Template).(pt_Spec).(ps_Containers) /\
    env_given "POSTGRES_USER" user c /\ env_secret "POSTGRES_PASSWORD" s password c /\
    env_given "POSTGRES_DB" database c /\
    In port (cp_ContainerPort <$> c.(c_Ports)) /\
    (exists sp, In sp svc.(svco_Ports) /\ sp.(sp_Port) = port /\ sp.(sp_TargetPort) = FromInt 0) /\
    selects svc.(svco_Selector) sts.(sts_Template).(pt_Labels) /\
    svc.(svco_Meta).(om_Namespace) = sts.(sts_Meta).(om_Namespace) /\
    s.(sec_Meta).(om_Namespace) = sts.(sts_Meta).(om_Namespace) /\
    url = connection_url user password svc.(svco_Meta).(om_Name) port database.

Lemma databaseURL_connection mint p :
  databaseURL mint p = connection_url "cdk" p (postgresName mint) 5432 "cdk_mintd".
Proof. unfold databaseURL, connection_url, postgresName. by rw -!string_app_assoc. Qed.

(** The Secret keeps an existing password and otherwise draws a new one; its
    [database-url] is made of it, and it has no owner reference. *)
Lemma GeneratePostgresSecret_made mint existing rnd s :
  GeneratePostgresSecret mint existing rnd = Ok (Some s) ->
  exists p, s.(sec_StringData) !! "password" = Some p /\
    s.(sec_StringData) !! "database-url" = Some (databaseURL mint p) /\
    (existing <> "" -> p = existing) /\
    (existing = "" -> generateSecurePassword 32 rnd = Ok p) /\
    s.(sec_Meta).(om_Name) = postgresSecretName mint /\
    s.(sec_Meta).(om_Namespace) = mint_Namespace mint /\ s.(sec_Meta).(om_OwnerReferences) = [].
Proof.
  unfold GeneratePostgresSecret. destruct (autoProvisioned mint); [|done]. intros Hg. op_inv. simplify_eq.
  eexists. split; [reflexivity|]. split; [reflexivity|]. split; [|split; [|done]].
  - intros Hne. destruct existing; [done|]. simpl in *. by op_inv.
  - intros ->. simpl in *. by op_inv.
Qed.

Section Wiring.
Context `{ControllerUtilLaws, Quantities}.

(** What the generators make of the server's two objects. *)
Lemma postgres_objects_made mint sts svc :
  GeneratePostgresStatefulSet mint = Ok (Some sts) -> GeneratePostgresService mint = Ok (Some svc) ->
  managed mint (postgresName mint) sts.(sts_Meta) /\ managed mint (postgresName mint) svc.(svco_Meta) /\
  sts.(sts_ServiceName) = postgresName mint /\ sts.(sts_Selector) = postgresLabels mint /\
  (exists v rr, sts.(sts_Template) = mkPodTemplateSpec (postgresLabels mint) None (postgresPod mint v rr)) /\
  (fun p => p.(pvc_Meta).(om_Name)) <$> sts.(sts_VolumeClaimTemplates) = ["data"] /\
  svc.(svco_Selector) = postgresLabels mint /\ svc.(svco_Ports) = [mkServicePort "postgres" 5432 (FromInt 0) ProtocolTCP].
Proof.
  unfold GeneratePostgresStatefulSet, GeneratePostgresService, set_reference.
  destruct (autoProvisioned mint); [|done]. intros Hs Hv. op_inv. simplify_eq. simpl.
  repeat match goal with E : SetControllerReference _ _ = Ok _ |- _ =>
    apply set_reference_managed in E as (? & ? & ?); [|reflexivity] end.
  repeat (split; [done|]). split; [by do 2 eexists|done].
Qed.

Lemma database_reached mint existing rnd s sts svc p :
  GeneratePostgresSecret mint existing rnd = Ok (Some s) ->
  GeneratePostgresStatefulSet mint = Ok (Some sts) -> GeneratePostgresService mint = Ok (Some svc) ->
  s.(sec_StringData) !! "password" = Some p -> reaches_database s sts svc (databaseURL mint p).
Proof.
  intros Hg Hs Hv Hp. apply GeneratePostgresSecret_made in Hg as (p' & Hp' & _ & _ & _ & Hn & Hns & _).
  destruct (postgres_objects_made _ _ _ Hs Hv) as (Hms & Hmv & _ & _ & (v & rr & Ht) & _ & Hsel & Hports).
  unfold reaches_database. rw Ht Hsel Hports (managed_name _ _ _ Hmv) databaseURL_connection.
  rw (managed_namespace _ _ _ Hms) (managed_namespace _ _ _ Hmv) Hns.
  exists (postgresContainer mint v rr), "cdk", p, 5432%Z, "cdk_mintd".
  split; [by left|]. split; [by eexists|].
  split; [by do 3 eexists; do 4 (split; [first [reflexivity|done]|])|].
  split; [by eexists|]. split; [by left|]. split; [by eexists; split; [left|]|].
  split; [done|]. split; [done|]. by split.
Qed.

(** C32: the three objects of a provisioned database fit together: the Service
    the StatefulSet names selects its pods; the generated Secret is in the
    pods' namespace, every container takes its password from the entry of that
    Secret that holds the password, and the Secret's [database-url] logs in to
    the server with it; every volume mount is backed by a claim template. *)
Theorem postgres_objects_wired mint existing rnd s sts svc :
  GeneratePostgresSecret mint existing rnd = Ok (Some s) ->
  GeneratePostgresStatefulSet mint = Ok (Some sts) -> GeneratePostgresService mint = Ok (Some svc) ->
  managed mint (postgresName mint) sts.(sts_Meta) /\ managed mint (postgresName mint) svc.(svco_Meta) /\
  s.(sec_Meta).(om_Namespace) = mint_Namespace mint /\
  sts.(sts_ServiceName) = svc.(svco_Meta).(om_Name) /\
  selects svc.(svco_Selector) sts.(sts_Template).(pt_Labels) /\
  sts.(sts_Selector) = sts.(sts_Template).(pt_Labels) /\
  exists p, s.(sec_StringData) !! "password" = Some p /\
    (forall c, In c (sts.(sts_Template).(pt_Spec).(ps_InitContainers) ++ sts.(sts_Template).(pt_Spec).(ps_Containers)) ->
       env_secret "POSTGRES_PASSWORD" s p c /\
       forall m, In m c.(c_VolumeMounts) ->
         In m.(vm_Name) ((fun p => p.(pvc_Meta).(om_Name)) <$> sts.(sts_VolumeClaimTemplates))) /\
    exists url, s.(sec_StringData) !! "database-url" = Some url /\ reaches_database s sts svc url.
Proof.
  intros Hg Hs Hv. pose proof Hg as Hg'.
  apply GeneratePostgresSecret_made in Hg' as (p & Hp & Hu & _ & _ & Hn & Hns & _).
  destruct (postgres_objects_made _ _ _ Hs Hv) as (Hms & Hmv & Hname & Hsts & (v & rr & Ht) & Hclaims & Hsel & _).
  rw Hname Hsts Hclaims Hsel Ht (managed_name _ _ _ Hmv).
  do 6 (split; [done|]). exists p. split; [done|]. split.
  - intros c Hc. split.
    + assert (container_env "POSTGRES_PASSWORD" c = Some (passwordEnv mint)) as Henv
        by by destruct Hc as [<-|[<-|[]]].
      do 3 eexists. split; [exact Henv|]. split; [reflexivity|]. split; [reflexivity|]. by rw Hn.
    + destruct Hc as [<-|[<-|[]]]; intros m [<-|[]]; by left.
  - exists (databaseURL mint p). split; [done|]. by eapply database_reached.
Qed.

(** C26: the configuration file connects the mint to its database.  For a
    provisioned one the URL logs in to the server that the generated objects
    run, with the password of the generated Secret, and is the Secret's
    [database-url]; TLS is off, whatever [tlsMode] says.  For an external one
    the URL is the given one and [tlsMode] defaults to [require]. *)
Theorem generateConfigToml_database mint pw pg :
  mint.(mint_Spec).(spec_Database).(db_Engine) = DatabaseEnginePostgres ->
  mint.(mint_Spec).(spec_Database).(db_Postgres) = Some pg ->
  let es := document_entries (config_sections mint pw) in
  config_lookup "database" "engine" es = Some (TStr "postgres") /\
  (pg.(pg_AutoProvision) = true ->
     config_lookup "database.postgres" "tls_mode" es = Some (TStr "disable") /\
     exists url, config_lookup "database.postgres" "url" es = Some (TStr url) /\
       forall existing rnd s sts svc,
         GeneratePostgresSecret mint existing rnd = Ok (Some s) -> s.(sec_StringData) !! "password" = Some pw ->
         GeneratePostgresStatefulSet mint = Ok (Some sts) -> GeneratePostgresService mint = Ok (Some svc) ->
         reaches_database s sts svc url /\ s.(sec_StringData) !! "database-url" = Some url) /\
  (pg.(pg_AutoProvision) = false ->
     (pg.(pg_URL) <> "" -> config_lookup "database.postgres" "url" es = Some (TStr pg.(pg_URL))) /\
     config_lookup "database.postgres" "tls_mode" es = Some (TStr (default_str "require" pg.(pg_TLSMode)))).
Proof.
  intros He Hp. cbv zeta.
  assert (Hdb : forall key v, In ("database.postgres", key, Some v) (database_settings mint pw) ->
     config_lookup "database.postgres" key (document_entries (config_sections mint pw)) = Some (as_toml v)).
  { intros key v Hin. apply config_setting. unfold settings. rw in_app_iff in_app_iff. by right; left. }
  split.
  { apply (config_setting mint pw "database" "engine" (Text _)). unfold settings. rw in_app_iff in_app_iff.
    right; left. left. by rw He. }
  unfold database_settings in Hdb. rw He Hp in Hdb. simpl in Hdb. split; intros Ha; rw Ha in Hdb.
  - split; [apply (Hdb "tls_mode" (Text _)); eauto 8|]. exists (databaseURL mint pw). split.
    + rw databaseURL_connection. apply (Hdb "url" (Text _)). eauto 8.
    + intros existing rnd s sts svc Hg Hpw Hs Hv. split; [by eapply database_reached|].
      apply GeneratePostgresSecret_made in Hg as (p & Hp' & Hu & _). by rw Hpw in Hp'; injection Hp' as <-.
  - split; [|apply (Hdb "tls_mode" (Text _)); eauto 8]. intros Hu. apply (Hdb "url" (Text _)). right; left.
    unfold text. by destruct (pg_URL pg).
Qed.
End Wiring.

Section Witnesses.
#[local] Existing Instance std_ControllerUtil.
#[local] Existing Instance std_ControllerUtilLaws.
#[local] Existing Instance std_Quantities.

Definition sampleBytes : list Z := Z.of_nat <$> seq 0 32.

Lemma generateSecurePassword_strength_witness :
  exists p, generateSecurePassword 32 (Ok sampleBytes) = Ok p /\ String.length p = 32.
Proof.
  destruct (generateSecurePassword_strength sampleBytes eq_refl eq_refl) as (p & Hp & Hl & _).
  by exists p.
Defined.

Definition samplePassword : string := "AAECAwQFBgcICQoLDA0ODxAREhMUFRYX".

Definition sampleSecret : Secret :=
  mkSecret (mkTypeMeta "v1" "Secret")
    (newMeta "mint-postgres-secret" "wallets" (postgresLabels fullMint) None) SecretTypeOpaque ∅
    {[ "password" := samplePassword; "database-url" := databaseURL fullMint samplePassword ]}.

Definition zeroStatefulSet : StatefulSet :=
  mkStatefulSet (mkTypeMeta "" "") sampleMeta None "" ∅ (mkPodTemplateSpec ∅ None (newPodSpec [])) [] 0 0 0.
Definition zeroService : Service := mkService (mkTypeMeta "" "") sampleMeta "" ∅ [] "" "".

Definition sampleStatefulSet : StatefulSet := ok_some zeroStatefulSet (GeneratePostgresStatefulSet fullMint).
Definition sampleService : Service := ok_some zeroService (GeneratePostgresService fullMint).

Lemma postgres_objects_wired_witness :
  exists url, sampleSecret.(sec_StringData) !! "database-url" = Some url /\
    reaches_database sampleSecret sampleStatefulSet sampleService url.
Proof.
  assert (H : GeneratePostgresSecret fullMint "" (Ok sampleBytes) = Ok (Some sampleSecret)) by (vm_compute; reflexivity).
  assert (H1 : GeneratePostgresStatefulSet fullMint = Ok (Some sampleStatefulSet)) by (vm_compute; reflexivity).
  assert (H2 : GeneratePostgresService fullMint = Ok (Some sampleService)) by (vm_compute; reflexivity).
  destruct (postgres_objects_wired fullMint "" _ _ _ _ H H1 H2) as (_ & _ & _ & _ & _ & _ & p & _ & _ & Hu).
  exact Hu.
Defined.

Lemma generateConfigToml_database_witness :
  let es := document_entries (config_sections fullMint samplePassword) in
  config_lookup "database" "engine" es = Some (TStr "postgres") /\
  exists url, config_lookup "database.postgres" "url" es = Some (TStr url) /\
    reaches_database sampleSecret sampleStatefulSet sampleService url.
Proof.
  assert (H : GeneratePostgresSecret fullMint "" (Ok sampleBytes) = Ok (Some sampleSecret)) by (vm_compute; reflexivity).
  assert (H1 : GeneratePostgresStatefulSet fullMint = Ok (Some sampleStatefulSet)) by (vm_compute; reflexivity).
  assert (H2 : GeneratePostgresService fullMint = Ok (Some sampleService)) by (vm_compute; reflexivity).
  destruct (generateConfigToml_database fullMint samplePassword samplePostgres eq_refl eq_refl) as (He & Ha & _).
  split; [exact He|]. destruct (Ha eq_refl) as (_ & url & Hu & Hr). exists url. split; [exact Hu|].
  exact (proj1 (Hr _ _ _ _ _ H eq_refl H1 H2)).
Defined.
End Witnesses.
