(* ===== verification/Backup.v ===== *)
(** * Backups: [internal/controller/generators/backup.go]

    The CronJob that dumps the provisioned database to object storage and the
    one-shot Job that restores a dump requested by annotation. *)

From S2P Require Import Prelude Kube Types Platform Fmt Samples Encoding Common Validation Settings Postgres.

(** [backup.go: RestoreObjectKeyAnnotation] *)
Definition RestoreObjectKeyAnnotation : string := "mint.cashu.asmogo.github.io/restore-object-key".
(** [backup.go: RestoreRequestIDAnnotation] *)
Definition RestoreRequestIDAnnotation : string := "mint.cashu.asmogo.github.io/restore-request-id".

(** [backup.go: shortHash] *)
Definition shortHash (input : string) : string :=
  String.substring 0 10 (hex_encode (Sum256 (bytes_of input))).

Record backupTarget := mk_backupTarget {
  bt_backup : BackupConfig;
  bt_s3 : S3BackupConfig;
  bt_pg : PostgresConfig
}.

(** The two guards both generators start with.
    [backup.go: GeneratePostgresBackupCronJob 41-49] *)
Definition backupEnabled (mint : CashuMint) : option backupTarget :=
  let spec := mint.(mint_Spec) in
  bk ← spec.(spec_Backup);
  if negb bk.(bk_Enabled) then None
  else if negb (String.eqb spec.(spec_Database).(db_Engine) "postgres") then None
  else
    pg ← autoProvisioned mint;
    s3 ← bk.(bk_S3);
    Some (mk_backupTarget bk s3 pg).

(** [backup.go: GeneratePostgresBackupCronJob 68-72] *)
Definition backupPgVersion (pg : PostgresConfig) : string :=
  match pg.(pg_AutoProvisionSpec) with
  | Some spec => default_str "15" spec.(ap_Version)
  | None => "15"
  end.

Definition databaseURLEnv (mint : CashuMint) : EnvVar :=
  envSecret "DATABASE_URL" (secretKey (postgresSecretName mint) "database-url").

Definition s3CredentialEnv (s3 : S3BackupConfig) : list EnvVar :=
  [envSecret "AWS_ACCESS_KEY_ID" (Some s3.(s3_AccessKeyIDSecretRef));
   envSecret "AWS_SECRET_ACCESS_KEY" (Some s3.(s3_SecretAccessKeySecretRef))] ++
  append_if (negb (str_empty s3.(s3_Region))) [envValue "AWS_DEFAULT_REGION" s3.(s3_Region)] ++
  append_if (negb (str_empty s3.(s3_Endpoint))) [envValue "S3_ENDPOINT" s3.(s3_Endpoint)].

(** The environment of the backup container.
    [backup.go: GeneratePostgresBackupCronJob 74-123] *)
Definition backupEnv (mint : CashuMint) (s3 : S3BackupConfig) : list EnvVar :=
  [databaseURLEnv mint; envValue "MINT_NAME" (mint_Name mint);
   envValue "S3_BUCKET" s3.(s3_Bucket); envValue "S3_PREFIX" s3.(s3_Prefix)] ++ s3CredentialEnv s3.

(** The script of the backup container.
    [backup.go: GeneratePostgresBackupCronJob 155-169] *)
Definition backupScript : string :=
  raw_lines
    ["set -euo pipefail";
     "apk add --no-cache aws-cli >/dev/null";
     "timestamp=`$(date -u +%Y%m%dT%H%M%SZ)`";
     "tmp_file=`/tmp/${MINT_NAME}-${timestamp}.sql.gz`";
     "object_key=`${MINT_NAME}-${timestamp}.sql.gz`";
     "if [ -n `${S3_PREFIX:-}` ]; then";
     "  prefix=`${S3_PREFIX%/}`";
     "  object_key=`${prefix}/${object_key}`";
     "fi";
     "pg_dump `${DATABASE_URL}` | gzip > `${tmp_file}`";
     "if [ -n `${S3_ENDPOINT:-}` ]; then";
     "  aws s3 cp `${tmp_file}` `s3://${S3_BUCKET}/${object_key}` --endpoint-url `${S3_ENDPOINT}`";
     "else";
     "  aws s3 cp `${tmp_file}` `s3://${S3_BUCKET}/${object_key}`";
     "fi"].

(** The script of the restore container.
    [backup.go: GeneratePostgresRestoreJob 310-318] *)
Definition restoreScript : string :=
  raw_lines
    ["set -euo pipefail";
     "apk add --no-cache aws-cli >/dev/null";
     "tmp_file=`/tmp/restore.sql.gz`";
     "if [ -n `${S3_ENDPOINT:-}` ]; then";
     "  aws s3 cp `s3://${S3_BUCKET}/${RESTORE_OBJECT_KEY}` `${tmp_file}` --endpoint-url `${S3_ENDPOINT}`";
     "else";
     "  aws s3 cp `s3://${S3_BUCKET}/${RESTORE_OBJECT_KEY}` `${tmp_file}`";
     "fi";
     "gunzip -c `${tmp_file}` | psql `${DATABASE_URL}`"].

(** The one container of the CronJob and of the Job. *)
Definition backupContainer (name version script : string) (env : list EnvVar) : Container :=
  (newContainer name ("postgres:" +:+ version +:+ "-alpine"))
    <| c_Command := ["sh"; "-ec"; script] |>
    <| c_Env := env |>
    <| c_SecurityContext := Some (securityContext false (Some false) None) |>.

Definition backupPod (c : Container) : PodSpec := (newPodSpec [c]) <| ps_RestartPolicy := "OnFailure" |>.

Definition backupName (mint : CashuMint) : string := mint_Name mint +:+ "-backup".

Section Objects.
Context `{ControllerUtil}.

(** [backup.go: GeneratePostgresBackupCronJob] *)
Definition GeneratePostgresBackupCronJob (mint : CashuMint) : res (option CronJob) :=
  match backupEnabled mint with
  | None => Ok None
  | Some t =>
      let labels := componentLabels mint "backup" in
      let schedule := default_str "0 */6 * * *" t.(bt_backup).(bk_Schedule) in
      let history := match t.(bt_backup).(bk_RetentionCount) with Some n => n | None => 14%Z end in
      let c := backupContainer "postgres-backup" (backupPgVersion t.(bt_pg)) backupScript
                 (backupEnv mint t.(bt_s3)) in
      let? meta := set_reference mint (newMeta (backupName mint) (mint_Namespace mint) labels None) in
      Ok (Some (mkCronJob (mkTypeMeta "batch/v1" "CronJob") meta schedule "Forbid"
        (Some history) (Some history) (mkPodTemplateSpec labels None (backupPod c))))
  end.

(** What a restore asks for: the object key and the request id.
    [backup.go: GeneratePostgresRestoreJob 203-216] *)
Definition restoreRequest (mint : CashuMint) : option (string * string) :=
  annotations ← mint.(mint_Meta).(om_Annotations);
  let get k := match annotations !! k with Some v => v | None => "" end in
  let key := TrimSpace (get RestoreObjectKeyAnnotation) in
  if str_empty key then None
  else
    let id := TrimSpace (get RestoreRequestIDAnnotation) in
    Some (key, if str_empty id then key else id).

(** [backup.go: GeneratePostgresRestoreJob] *)
Definition GeneratePostgresRestoreJob (mint : CashuMint) : res (option Job) :=
  match backupEnabled mint, restoreRequest mint with
  | Some t, Some (key, id) =>
      let jobNameSeed := id +:+ ":" +:+ key in
      let labels := componentLabels mint "backup" in
      let env := [databaseURLEnv mint; envValue "S3_BUCKET" t.(bt_s3).(s3_Bucket);
                  envValue "RESTORE_OBJECT_KEY" key] ++ s3CredentialEnv t.(bt_s3) in
      let c := backupContainer "postgres-restore" (backupPgVersion t.(bt_pg)) restoreScript env in
      let? meta := set_reference mint
        (newMeta (mint_Name mint +:+ "-restore-" +:+ shortHash jobNameSeed) (mint_Namespace mint) labels
           (Some {[ RestoreObjectKeyAnnotation := key; RestoreRequestIDAnnotation := id ]})) in
      Ok (Some (mkJob (mkTypeMeta "batch/v1" "Job") meta (Some 1%Z) (Some 86400%Z)
        (mkPodTemplateSpec labels None (backupPod c))))
  | _, _ => Ok None
  end.
End Objects.

(** ** Properties *)

Lemma shortHash_length s : String.length (shortHash s) = 10.
Proof.
  unfold shortHash. pose proof (sha256_hex_length s) as H. unfold sha256_hex in H.
  destruct (hex_encode _) as [|c0 [|c1 [|c2 [|c3 [|c4 [|c5 [|c6 [|c7 [|c8 [|c9 r]]]]]]]]]]; try done.
  simpl. by destruct r.
Qed.

(** An accepted mint that enables backups gets them. *)
Lemma backupEnabled_valid `{Quantities} mint bk :
  valid_spec mint.(mint_Spec) -> mint.(mint_Spec).(spec_Backup) = Some bk -> bk.(bk_Enabled) = true ->
  exists t, backupEnabled mint = Some t /\ t.(bt_backup) = bk /\ bk.(bk_S3) = Some t.(bt_s3).
Proof.
  intros Hv Hb He. destruct (valid_bk _ Hv bk Hb He) as (Hen & Ha & _ & s3 & Hs3 & _).
  unfold backupEnabled, autoProvisioned. rw Hb /= He Hen /=.
  destruct (db_Postgres _) as [pg|]; [|done]. unfold ptr_test in Ha. rw Ha /= Hs3 /=. by eexists.
Qed.

(** C36: for an accepted mint with backups enabled the CronJob exists, runs on
    the requested schedule without overlapping and keeps as many jobs as the
    retention count says.  Its containers dump the provisioned database: their
    [DATABASE_URL] is the entry of the generated Secret, in the same namespace,
    that logs in to the server of the generated StatefulSet and Service. *)
Theorem GeneratePostgresBackupCronJob_accepted `{ControllerUtilLaws, Quantities} mint bk :
  valid_spec mint.(mint_Spec) -> mint.(mint_Spec).(spec_Backup) = Some bk -> bk.(bk_Enabled) = true ->
  exists cj, GeneratePostgresBackupCronJob mint = Ok (Some cj) /\
    managed mint (backupName mint) cj.(cj_Meta) /\
    cj.(cj_Schedule) = bk.(bk_Schedule) /\ cj.(cj_ConcurrencyPolicy) = "Forbid" /\
    cj.(cj_SuccessfulJobsHistoryLimit) = cj.(cj_FailedJobsHistoryLimit) /\
    (forall n, bk.(bk_RetentionCount) = Some n -> cj.(cj_SuccessfulJobsHistoryLimit) = Some n) /\
    cj.(cj_Template).(pt_Spec).(ps_Containers) <> [] /\
    forall c existing rnd s sts svc, In c cj.(cj_Template).(pt_Spec).(ps_Containers) ->
      GeneratePostgresSecret mint existing rnd = Ok (Some s) ->
      GeneratePostgresStatefulSet mint = Ok (Some sts) -> GeneratePostgresService mint = Ok (Some svc) ->
      s.(sec_Meta).(om_Namespace) = cj.(cj_Meta).(om_Namespace) /\
      exists url, env_secret "DATABASE_URL" s url c /\ reaches_database s sts svc url.
Proof.
  intros Hv Hb He. destruct (backupEnabled_valid mint bk Hv Hb He) as (t & Ht & Htb & Hs3).
  destruct (valid_bk _ Hv bk Hb He) as (_ & _ & Hsched & _).
  unfold GeneratePostgresBackupCronJob, set_reference. rw Ht Htb.
  destruct (set_reference_fresh mint (backupName mint) (componentLabels mint "backup") None) as [m Hm].
  pose proof Hm as Hmm. apply set_reference_managed in Hmm as (Hmm & _ & _); [|reflexivity].
  rw Hm /=. eexists. split; [reflexivity|]. simpl.
  split; [done|]. split; [by rw default_str_id|]. split; [done|]. split; [done|].
  split; [by intros n ->|]. split; [done|]. intros c existing rnd s sts svc [<-|[]] Hs Hsts Hsvc. pose proof Hs as Hmade.
  apply GeneratePostgresSecret_made in Hmade as (p & Hp & Hu & _ & _ & Hn & Hns & _).
  split; [by rw Hns (managed_namespace _ _ _ Hmm)|]. exists (databaseURL mint p). split; [|by eapply database_reached].
  exists (databaseURLEnv mint). do 2 eexists. rw Hn. split; [|done].
  unfold container_env, env_named. simpl. unfold s3CredentialEnv. by destruct (negb _), (negb _).
Qed.

(** C37: restores are idempotent per request: the Job's name is a function of
    the mint, the request id and the object key alone, always ten hash
    characters long, and the Job restores exactly the annotated key; without a
    key annotation there is no Job. *)
Theorem GeneratePostgresRestoreJob_keyed `{ControllerUtilLaws} mint t job :
  backupEnabled mint = Some t ->
  (restoreRequest mint = None -> GeneratePostgresRestoreJob mint = Ok None) /\
  (GeneratePostgresRestoreJob mint = Ok (Some job) ->
   exists key id, restoreRequest mint = Some (key, id) /\ key <> "" /\ id <> "" /\
     job.(job_Meta).(om_Name) = mint_Name mint +:+ "-restore-" +:+ shortHash (id +:+ ":" +:+ key) /\
     String.length job.(job_Meta).(om_Name) = String.length (mint_Name mint) + 19 /\
     managed mint (job.(job_Meta).(om_Name)) job.(job_Meta) /\
     forall c, In c job.(job_Template).(pt_Spec).(ps_Containers) ->
       In (envValue "RESTORE_OBJECT_KEY" key) c.(c_Env)).
Proof.
  intros Ht. unfold GeneratePostgresRestoreJob. rw Ht. split; [by intros ->|].
  destruct (restoreRequest mint) as [[key id]|] eqn:Er; [|by intros [=]].
  intros Hj. unfold set_reference in Hj. op_inv. simplify_eq. simpl.
  match goal with E : SetControllerReference _ _ = Ok _ |- _ =>
    apply set_reference_managed in E as (Hm & _ & _); [|reflexivity] end.
  exists key, id. split; [done|].
  assert (Hne : key <> "" /\ id <> "").
  { unfold restoreRequest in Er. destruct (om_Annotations _); [|done]. simpl in Er.
    destruct (str_empty (TrimSpace _)) eqn:E1; [done|]. apply str_empty_false in E1.
    destruct (str_empty (TrimSpace _)) eqn:E2 in Er; simplify_eq; [done|].
    by apply str_empty_false in E2. }
  destruct Hne as [Hk Hi]. split; [done|]. split; [done|].
  pose proof (managed_name _ _ _ Hm) as Hname. split; [done|].
  split; [by rw Hname !string_length_app shortHash_length /=|].
  split; [by rw Hname|]. intros c [<-|[]]. simpl. tauto.
Qed.

Section Witnesses.
#[local] Existing Instance std_ControllerUtil.
#[local] Existing Instance std_ControllerUtilLaws.
#[local] Existing Instance std_Quantities.
#[local] Existing Instance std_MapRange.
#[local] Existing Instance std_MapRangeLaws.

Lemma GeneratePostgresBackupCronJob_accepted_witness :
  exists cj, GeneratePostgresBackupCronJob fullMint = Ok (Some cj) /\
    managed fullMint "mint-backup" cj.(cj_Meta) /\ cj.(cj_Schedule) = "0 */6 * * *" /\
    forall c, In c cj.(cj_Template).(pt_Spec).(ps_Containers) ->
      exists url, env_secret "DATABASE_URL" sampleSecret url c /\
        reaches_database sampleSecret sampleStatefulSet sampleService url.
Proof.
  assert (H : GeneratePostgresSecret fullMint "" (Ok sampleBytes) = Ok (Some sampleSecret)) by (vm_compute; reflexivity).
  assert (H1 : GeneratePostgresStatefulSet fullMint = Ok (Some sampleStatefulSet)) by (vm_compute; reflexivity).
  assert (H2 : GeneratePostgresService fullMint = Ok (Some sampleService)) by (vm_compute; reflexivity).
  destruct (GeneratePostgresBackupCronJob_accepted fullMint sampleBackup fullSpec_valid eq_refl eq_refl)
    as (cj & Hcj & Hm & Hs & _ & _ & _ & _ & Hr).
  exists cj. split; [exact Hcj|]. split; [exact Hm|]. split; [exact Hs|]. intros c Hc.
  exact (proj2 (Hr c _ _ _ _ _ Hc H H1 H2)).
Defined.

Definition restoreMint : CashuMint :=
  fullMint <| mint_Meta ::= fun m => m <| om_Annotations :=
    Some {[ RestoreObjectKeyAnnotation := " dumps/a.sql.gz " ]} |> |>.

Definition zeroJob : Job :=
  mkJob (mkTypeMeta "" "") sampleMeta None None (mkPodTemplateSpec ∅ None (newPodSpec [])).
Definition sampleJob : Job := ok_some zeroJob (GeneratePostgresRestoreJob restoreMint).

Lemma GeneratePostgresRestoreJob_keyed_witness :
  exists key id, restoreRequest restoreMint = Some (key, id) /\ key <> "" /\ id <> "".
Proof.
  assert (H : GeneratePostgresRestoreJob restoreMint = Ok (Some sampleJob)) by (vm_compute; reflexivity).
  destruct (GeneratePostgresRestoreJob_keyed restoreMint (mk_backupTarget sampleBackup
    (mkS3BackupConfig "bucket" "" "eu-central-1" "" (sampleRef "s3" "id") (sampleRef "s3" "key"))
    samplePostgres) sampleJob eq_refl) as [_ Hj].
  destruct (Hj H) as (key & id & Hr & Hk & Hi & _).
  exists key, id. exact (conj Hr (conj Hk Hi)).
Defined.
End Witnesses.
