(* ===== verification/Mnemonic.v ===== *)
(** * The mint's seed phrase: [internal/controller/generators/mnemonic.go]

    A fresh mint gets a 24-word BIP39 phrase: 256 bits of [crypto/rand] (an
    argument of the model) and an 8-bit SHA-256 checksum, eleven bits to a word.
    The theorems relate it to an independent decoder. *)

From S2P Require Import Prelude Kube Types Platform Fmt Samples Encoding Common Bip39Words.

(** [mnemonic.go: MnemonicSecretKeySuffix] *)
Definition MnemonicSecretKeySuffix : string := "-mnemonic".
(** [mnemonic.go: MnemonicSecretKey] *)
Definition MnemonicSecretKey : string := "mnemonic".

(** [mnemonic.go: MnemonicSecretName] *)
Definition MnemonicSecretName (mintName : string) : string := mintName +:+ MnemonicSecretKeySuffix.

(** [new(big.Int).SetBytes(b)]: big-endian. *)
Definition SetBytes (l : list Z) : Z := fold_left (fun acc b => acc * 256 + b)%Z l 0%Z.

(** [bip39WordList[idx]]; the index is masked to eleven bits. *)
Definition bip39_at (idx : Z) : string := nth (Z.to_nat idx) bip39WordList "".

(** The loop of [generateBIP39Mnemonic] from [i = n - 1] down to 0: the words it
    stores at positions [0 .. n - 1].  [words] holds those already stored above.
    [mnemonic.go: generateBIP39Mnemonic 113-118] *)
Fixpoint mnemonic_loop (n : nat) (combined : Z) (words : list string) : list string :=
  match n with
  | O => words
  | S n =>
      let idx := Z.land combined 2047 in
      mnemonic_loop n (Z.shiftr combined 11) (bip39_at idx :: words)
  end.

(** [mnemonic.go: generateBIP39Mnemonic] *)
Definition generateBIP39Mnemonic (rnd : res (list Z)) : res string :=
  let? entropy := res_wrap "failed to read random entropy: " rnd in
  let hash := Sum256 entropy in
  let entropyWithChecksum := entropy ++ take 1 hash in
  let combined := SetBytes entropyWithChecksum in
  Ok (Join (mnemonic_loop 24 combined []) " ").

(** [mnemonic.go: GenerateMnemonicSecret] *)
Definition GenerateMnemonicSecret `{ControllerUtil} (mint : CashuMint) (existingMnemonic : string)
    (rnd : res (list Z)) : res Secret :=
  let? mnemonic :=
    (if str_empty existingMnemonic
     then res_wrap "failed to generate BIP39 mnemonic: " (generateBIP39Mnemonic rnd)
     else Ok existingMnemonic) in
  let? meta := res_wrap "failed to set controller reference on mnemonic secret: "
    (SetControllerReference mint (newMeta (MnemonicSecretName (mint_Name mint)) (mint_Namespace mint)
       (componentLabels mint "mnemonic") None)) in
  Ok (mkSecret (mkTypeMeta "v1" "Secret") meta SecretTypeOpaque ∅ {[ MnemonicSecretKey := mnemonic ]}).

(** ** The decoder of the BIP39 specification *)

(** The words of a phrase, separated by single spaces. *)
Fixpoint split_words (s : string) : list string :=
  match s with
  | EmptyString => [""]
  | String c s =>
      if Ascii.eqb c " " then "" :: split_words s
      else match split_words s with
           | w :: ws => String c w :: ws
           | [] => [String c ""]
           end
  end.

Fixpoint words_value (acc : Z) (ws : list string) : option Z :=
  match ws with
  | [] => Some acc
  | w :: ws => i ← word_index w; words_value (acc * 2048 + i) ws
  end.

(** The entropy of a phrase of 24 words whose checksum is right. *)
Definition decode_phrase (s : string) : option Z :=
  let ws := split_words s in
  if length ws =? 24 then
    v ← words_value 0 ws;
    let entropy := Z.shiftr v 8 in
    if (Z.land v 255 =? nth 0 (Sum256 (be_bytes 32 entropy)) 0)%Z then Some entropy else None
  else None.

(** ** The loop stores the base-2048 digits *)

Lemma bip39_at_spec i :
  (0 <= i < 2048)%Z -> lower_word (bip39_at i) = true /\ bip39_at i <> "" /\ word_index (bip39_at i) = Some i.
Proof.
  intros Hi. destruct (bip39_word (Z.to_nat i)) as (w & Hw & Hl & Hn & Hx); [lia|].
  unfold bip39_at. rw (nth_lookup_Some _ _ "" w Hw).
  split; [done|]. split; [done|]. rw Hx Z2Nat.id //. lia.
Qed.

Lemma land_2047 n : Z.land n 2047 = (n mod 2048)%Z.
Proof. apply (Z.land_ones n 11). lia. Qed.

Lemma mnemonic_loop_spec n v ws acc :
  (0 <= v)%Z ->
  length (mnemonic_loop n v ws) = n + length ws /\
  words_value acc (mnemonic_loop n v ws) =
    words_value (acc * 2048 ^ Z.of_nat n + v mod 2048 ^ Z.of_nat n) ws.
Proof.
  revert v ws acc. induction n as [|n IH]; intros v ws acc Hv.
  - split; [done|]. simpl. f_equal. rw Z.mod_1_r. lia.
  - cbn [mnemonic_loop].
    destruct (IH (Z.shiftr v 11) (bip39_at (Z.land v 2047) :: ws) acc) as (Hl & Hw).
    { by apply Z.shiftr_nonneg. }
    split; [rw Hl /=; lia|]. rw Hw. cbn [words_value].
    pose proof (Z.mod_pos_bound v 2048 ltac:(lia)) as Hm.
    rw land_2047. destruct (bip39_at_spec _ Hm) as (_ & _ & ->). simpl. f_equal.
    rw Z.shiftr_div_pow2; [|lia]. change (2 ^ 11)%Z with 2048%Z.
    rw Nat2Z.inj_succ Z.pow_succ_r; [|lia].
    pose proof (Z.pow_pos_nonneg 2048 (Z.of_nat n) ltac:(lia) ltac:(lia)) as Hp.
    rw Z.rem_mul_r; [|lia..]. ring.
Qed.

Definition word_ok (w : string) : Prop := lower_word w = true /\ w <> "" /\ is_Some (word_index w).

Lemma mnemonic_loop_words n v ws :
  (0 <= v)%Z -> Forall word_ok ws -> Forall word_ok (mnemonic_loop n v ws).
Proof.
  revert v ws. induction n as [|n IH]; intros v ws Hv Hw; [done|].
  cbn [mnemonic_loop]. apply IH; [by apply Z.shiftr_nonneg|]. constructor; [|done].
  rw land_2047. destruct (bip39_at_spec (v mod 2048)) as (? & ? & Hx).
  - apply Z.mod_pos_bound. lia.
  - unfold word_ok. by rw Hx.
Qed.

Lemma split_words_word w s :
  lower_word w = true -> split_words (w +:+ String " " s) = w :: split_words s.
Proof.
  induction w as [|c w IH]; [done|]. rw string_app_cons. simpl lower_word.
  intros [Hc Hw]%andb_true_iff. cbn [split_words].
  destruct (Ascii.eqb_spec c " ") as [->|]; [by vm_compute in Hc|]. by rw IH.
Qed.

Lemma split_words_last w : lower_word w = true -> split_words w = [w].
Proof.
  induction w as [|c w IH]; [done|]. simpl lower_word. intros [Hc Hw]%andb_true_iff.
  cbn [split_words]. destruct (Ascii.eqb_spec c " ") as [->|]; [by vm_compute in Hc|]. by rw IH.
Qed.

Lemma split_words_join ws : ws <> [] -> Forall word_ok ws -> split_words (Join ws " ") = ws.
Proof.
  intros Hne. induction 1 as [|w ws [Hw _] Hws IH]; [done|].
  destruct ws as [|w' ws]; [by apply split_words_last|].
  change (Join (w :: w' :: ws) " ") with (w +:+ String " " (Join (w' :: ws) " ")).
  rw split_words_word // IH //.
Qed.

(** ** Bytes and their value *)

Lemma SetBytes_app l b : SetBytes (l ++ [b]) = (SetBytes l * 256 + b)%Z.
Proof. unfold SetBytes. by rw fold_left_app. Qed.

Lemma SetBytes_bound l :
  forallb is_byte l = true -> (0 <= SetBytes l < 256 ^ Z.of_nat (length l))%Z.
Proof.
  induction l as [|b l IH] using rev_ind; intros Hl; [done|].
  rw forallb_app in Hl. simpl in Hl. split_andb. rw SetBytes_app length_app Nat.add_comm.
  simpl length. rw Nat2Z.inj_succ Z.pow_succ_r; [|lia]. specialize (IH ltac:(done)).
  unfold is_byte in *. lia.
Qed.

Lemma land_255 n : Z.land n 255 = (n mod 256)%Z.
Proof. apply (Z.land_ones n 8). lia. Qed.

Lemma be_bytes_snoc k n : be_bytes (S k) n = be_bytes k (n / 256) ++ [(n mod 256)%Z].
Proof.
  revert n. induction k as [|k IH]; intros n.
  - simpl. by rw land_255.
  - change (be_bytes (S (S k)) n) with
      (Z.land (Z.shiftr n (8 * Z.of_nat (S k))) 255 :: be_bytes (S k) n).
    rw IH app_comm_cons. f_equal. cbn [be_bytes]. f_equal.
    rw !Z.shiftr_div_pow2; [|lia..]. rw Z.div_div; [|lia|by apply Z.pow_pos_nonneg; lia].
    f_equal. f_equal. rw Nat2Z.inj_succ. rw Z.mul_succ_r Z.pow_add_r; lia.
Qed.

Lemma be_bytes_SetBytes l :
  forallb is_byte l = true -> be_bytes (length l) (SetBytes l) = l.
Proof.
  induction l as [|b l IH] using rev_ind; intros Hl; [done|].
  rw forallb_app in Hl. simpl in Hl. split_andb. rw SetBytes_app length_app Nat.add_comm.
  simpl plus. rw be_bytes_snoc. unfold is_byte in *.
  rw Z.add_comm Z.div_add; [|lia]. rw Z.mod_add; [|lia].
  rw Z.div_small; [|lia]. rw Z.mod_small; [|lia]. by rw Z.add_0_l IH.
Qed.

Lemma Sum256_head msg : exists b, take 1 (Sum256 msg) = [b] /\ nth 0 (Sum256 msg) 0%Z = b /\ (0 <= b < 256)%Z.
Proof.
  pose proof (Sum256_length msg) as Hl.
  assert (Hb : Forall (fun b => 0 <= b < 256)%Z (Sum256 msg)).
  { unfold Sum256. apply Forall_bind, Forall_true. intros w. 
    assert (Hw : forall k, Forall (fun b => 0 <= b < 256)%Z (be_bytes k w)).
    { induction k as [|k IHk]; simpl; constructor; [|done]. rw land_255. apply Z.mod_pos_bound. lia. }
    apply Hw. }
  destruct (Sum256 msg) as [|b l]; [done|]. exists b. split; [done|]. split; [done|].
  by inversion Hb.
Qed.

(** ** Properties *)

(** C34: a generated phrase has 24 words of the list and decodes, with a
    correct checksum, to exactly the 256 bits of entropy that were drawn. *)
Theorem generateBIP39Mnemonic_decodes entropy :
  length entropy = 32 -> forallb is_byte entropy = true ->
  exists p, generateBIP39Mnemonic (Ok entropy) = Ok p /\
    length (split_words p) = 24 /\
    (forall w, In w (split_words p) -> is_Some (word_index w)) /\
    decode_phrase p = Some (SetBytes entropy).
Proof.
  intros Hl Hb. eexists. split; [reflexivity|].
  destruct (Sum256_head entropy) as (c & Hc & Hn & Hcb). rw Hc SetBytes_app.
  pose proof (SetBytes_bound _ Hb) as He. rw Hl in He.
  set (v := (SetBytes entropy * 256 + c)%Z).
  assert (Hv : (0 <= v < 2048 ^ Z.of_nat 24)%Z).
  { change (2048 ^ Z.of_nat 24)%Z with (256 ^ Z.of_nat 32 * 256)%Z. unfold v. lia. }
  destruct (mnemonic_loop_spec 24 v [] 0) as (Hlen & Hval); [lia|].
  pose proof (mnemonic_loop_words 24 v [] ltac:(lia) (Forall_nil_2 _)) as Hok.
  assert (Hm : (v mod 2048 ^ Z.of_nat 24 = v)%Z) by (apply Z.mod_small; exact Hv).
  rw Hm Z.mul_0_l Z.add_0_l in Hval. cbn [words_value] in Hval.
  set (ws := mnemonic_loop 24 v []) in *.
  assert (Hsplit : split_words (Join ws " ") = ws).
  { apply split_words_join; [|done]. intros E. by rw E in Hlen. }
  rw Hsplit. split; [done|]. split.
  - intros w Hin%list_elem_of_In. by apply (proj1 (Forall_forall _ _) Hok w Hin).
  - unfold decode_phrase. rw Hsplit Hlen Hval. cbn -[Sum256 be_bytes Z.shiftr Z.land].
    assert (Z.shiftr v 8 = SetBytes entropy) as ->.
    { rw Z.shiftr_div_pow2; [|lia]. change (2 ^ 8)%Z with 256%Z. unfold v.
      rw Z.add_comm Z.div_add; [|lia]. rw Z.div_small; lia. }
    assert (Z.land v 255 = c) as ->.
    { rw land_255. unfold v. rw Z.add_comm Z.mod_add; [|lia]. by rw Z.mod_small. }
    rw -Hl be_bytes_SetBytes // Hn Z.eqb_refl. done.
Qed.

(** The seed is drawn once: with an existing phrase the Secret carries that
    phrase whatever the random source returns, and the Secret is named after
    the mint and owned by it; without one a failing random source is an error,
    never an empty seed. *)
Theorem GenerateMnemonicSecret_preserves `{ControllerUtilLaws} mint existing rnd :
  (existing <> "" ->
     exists s, GenerateMnemonicSecret mint existing rnd = Ok s /\
       s.(sec_StringData) = {[ MnemonicSecretKey := existing ]} /\
       managed mint (MnemonicSecretName (mint_Name mint)) s.(sec_Meta)) /\
  (forall e, existing = "" -> rnd = Err e ->
     GenerateMnemonicSecret mint existing rnd =
       Err (Wrapf "failed to generate BIP39 mnemonic: " (Wrapf "failed to read random entropy: " e))).
Proof.
  split; [|by intros e -> ->].
  intros He. unfold GenerateMnemonicSecret. apply str_empty_false in He. rw He /=.
  destruct (set_reference_fresh mint (MnemonicSecretName (mint_Name mint))
    (componentLabels mint "mnemonic") None) as [m Hm].
  rw Hm /=. eexists. split; [reflexivity|]. split; [done|].
  by apply set_reference_managed in Hm as (? & _ & _).
Qed.

Section Witnesses.
#[local] Existing Instance std_ControllerUtil.
#[local] Existing Instance std_ControllerUtilLaws.

Definition zeroEntropy : list Z := replicate 32 0%Z.

Example zero_phrase :
  generateBIP39Mnemonic (Ok zeroEntropy) =
  Ok (Join (replicate 23 "abandon" ++ ["art"]) " ").
Proof. vm_compute. reflexivity. Qed.

Lemma generateBIP39Mnemonic_decodes_witness :
  exists p, generateBIP39Mnemonic (Ok zeroEntropy) = Ok p /\ length (split_words p) = 24.
Proof.
  destruct (generateBIP39Mnemonic_decodes zeroEntropy eq_refl eq_refl) as (p & Hp & Hl & _).
  exists p. exact (conj Hp Hl).
Defined.

Lemma GenerateMnemonicSecret_preserves_witness :
  exists s, GenerateMnemonicSecret fullMint "seed" (Err (Errorf "none")) = Ok s /\
    s.(sec_StringData) = {[ MnemonicSecretKey := "seed" ]} /\
    managed fullMint "mint-mnemonic" s.(sec_Meta).
Proof.
  destruct (GenerateMnemonicSecret_preserves fullMint "seed" (Err (Errorf "none"))) as [H _].
  apply H. discriminate.
Defined.
End Witnesses.
