(* ===== verification/ManagementRPC.v ===== *)
(** * The management RPC certificates: [internal/controller/generators/management_rpc.go]

    A certificate authority, a server and a client certificate for the mutual
    TLS between the mint and Orchard.  The crypto libraries are the interface
    [X509]; the random draws and the clock are arguments. *)

From S2P Require Import Prelude Kube Types Platform Samples Common.

(** ** Certificates *)

Inductive KeyUsage : Set := KeyUsageCertSign | KeyUsageCRLSign | KeyUsageDigitalSignature | KeyUsageKeyEncipherment.
Inductive ExtKeyUsage : Set := ExtKeyUsageServerAuth | ExtKeyUsageClientAuth.

(** The fields of [x509.Certificate] the templates set; times are nanoseconds. *)
Record CertTemplate := mk_CertTemplate {
  ct_SerialNumber : Z;
  ct_CommonName : string;
  ct_Organization : list string;
  ct_NotBefore : Z;
  ct_NotAfter : Z;
  ct_KeyUsage : list KeyUsage;
  ct_ExtKeyUsage : list ExtKeyUsage;
  ct_DNSNames : list string;
  ct_IPAddresses : list string;
  ct_BasicConstraintsValid : bool;
  ct_IsCA : bool
}.

(** A name of [pkix.Name]: common name and organizations. *)
Definition name : Type := string * list string.
Definition ct_Subject (t : CertTemplate) : name := (t.(ct_CommonName), t.(ct_Organization)).

(** A whole [x509.Certificate]: what a template leaves unset, parsing fills in. *)
Record X509Certificate {K : Type} := mk_X509Certificate {
  xc_Fields : CertTemplate;
  xc_Issuer : name;
  xc_PublicKey : option K
}.
Arguments X509Certificate : clear implicits.
Arguments mk_X509Certificate {K}.

(** A template used as a certificate. *)
Definition unparsed {K} (t : CertTemplate) : X509Certificate K := mk_X509Certificate t ("", []) None.

(** [crypto/rsa], [crypto/x509] and [encoding/pem].  [CreateCertificate] takes
    the template, the parent, the subject's key and the signing key;
    [CheckSignature] verifies the signature of a certificate under a key. *)
Class X509 := {
  PrivateKey : Type;
  PublicKey : Type;
  DER : Type;
  Public : PrivateKey -> PublicKey;
  CreateCertificate : CertTemplate -> X509Certificate PublicKey -> PublicKey -> PrivateKey -> res DER;
  ParseCertificate : DER -> res (X509Certificate PublicKey);
  CheckSignature : PublicKey -> DER -> bool;
  MarshalPKCS1PrivateKey : PrivateKey -> DER;
  EncodePEM : string -> DER -> string
}.

(** The encoding of a time has no fractions of a second. *)
Definition whole_seconds (t : Z) : Z := t / 1000000000 * 1000000000.

(** What a certificate carries of its template: times in whole seconds, and
    [IsCA] only inside the basic constraints extension. *)
Definition encoded (t : CertTemplate) : CertTemplate :=
  mk_CertTemplate t.(ct_SerialNumber) t.(ct_CommonName) t.(ct_Organization)
    (whole_seconds t.(ct_NotBefore)) (whole_seconds t.(ct_NotAfter)) t.(ct_KeyUsage) t.(ct_ExtKeyUsage)
    t.(ct_DNSNames) t.(ct_IPAddresses) t.(ct_BasicConstraintsValid) (t.(ct_BasicConstraintsValid) && t.(ct_IsCA)).

(** A created certificate parses to the encoding of its template, issued under
    the parent's subject for the given key, and its signature verifies under
    the public half of the signing key. *)
Class X509Laws `{X509} : Prop := {
  create_parse t p pub k der :
    CreateCertificate t p pub k = Ok der ->
    ParseCertificate der = Ok (mk_X509Certificate (encoded t) (ct_Subject p.(xc_Fields)) (Some pub));
  create_signed t p pub k der : CreateCertificate t p pub k = Ok der -> CheckSignature (Public k) der = true
}.

Definition Minute : Z := 60000000000.
Definition Hour : Z := 3600000000000.

Section Bundle.
Context `{X509}.

(** One draw of [rsa.GenerateKey] and one of [rand.Int] below [2^128] per
    certificate, and [time.Now]. *)
Record tlsDraws := mk_tlsDraws {
  dr_caKey : res PrivateKey;
  dr_caSerial : res Z;
  dr_serverKey : res PrivateKey;
  dr_serverSerial : res Z;
  dr_clientKey : res PrivateKey;
  dr_clientSerial : res Z;
  dr_now : Z
}.

(** [management_rpc.go: newTLSSerialNumber] *)
Definition newTLSSerialNumber (draw : res Z) : res Z := let? serial := draw in Ok serial.

(** [management_rpc.go: generateManagementRPCTLSBundle 87-98] *)
Definition caTemplate (serial now : Z) : CertTemplate :=
  mk_CertTemplate serial "cashu-management-rpc-ca" ["cashu-operator"]
    (now - 5 * Minute) (now + 3650 * 24 * Hour)
    [KeyUsageCertSign; KeyUsageCRLSign; KeyUsageDigitalSignature] [] [] [] true true.

(** [management_rpc.go: generateManagementRPCTLSBundle 118-130] *)
Definition serverTemplate (serial now : Z) : CertTemplate :=
  mk_CertTemplate serial "cashu-management-rpc-server" ["cashu-operator"]
    (now - 5 * Minute) (now + 825 * 24 * Hour)
    [KeyUsageDigitalSignature; KeyUsageKeyEncipherment] [ExtKeyUsageServerAuth]
    ["localhost"] [DefaultLoopbackHost] false false.

(** [management_rpc.go: generateManagementRPCTLSBundle 144-154] *)
Definition clientTemplate (serial now : Z) : CertTemplate :=
  mk_CertTemplate serial "cashu-management-rpc-client" ["cashu-operator"]
    (now - 5 * Minute) (now + 825 * 24 * Hour)
    [KeyUsageDigitalSignature; KeyUsageKeyEncipherment] [ExtKeyUsageClientAuth] [] [] false false.

(** [management_rpc.go: generateManagementRPCTLSBundle] *)
Definition generateManagementRPCTLSBundle (d : tlsDraws) : res StringMap :=
  let? caKey := res_wrap "failed to generate management RPC CA key: " d.(dr_caKey) in
  let now := d.(dr_now) in
  let? caSerial := res_wrap "failed to generate management RPC CA serial number: " (newTLSSerialNumber d.(dr_caSerial)) in
  let ca := caTemplate caSerial now in
  let? caDER := res_wrap "failed to create management RPC CA certificate: "
    (CreateCertificate ca (unparsed ca) (Public caKey) caKey) in
  let? caCert := res_wrap "failed to parse management RPC CA certificate: " (ParseCertificate caDER) in
  let? serverKey := res_wrap "failed to generate management RPC server key: " d.(dr_serverKey) in
  let? serverSerial := res_wrap "failed to generate management RPC server serial number: " (newTLSSerialNumber d.(dr_serverSerial)) in
  let? serverDER := res_wrap "failed to create management RPC server certificate: "
    (CreateCertificate (serverTemplate serverSerial now) caCert (Public serverKey) caKey) in
  let? clientKey := res_wrap "failed to generate management RPC client key: " d.(dr_clientKey) in
  let? clientSerial := res_wrap "failed to generate management RPC client serial number: " (newTLSSerialNumber d.(dr_clientSerial)) in
  let? clientDER := res_wrap "failed to create management RPC client certificate: "
    (CreateCertificate (clientTemplate clientSerial now) caCert (Public clientKey) caKey) in
  Ok {[ "ca.pem" := EncodePEM "CERTIFICATE" caDER;
        "server.pem" := EncodePEM "CERTIFICATE" serverDER;
        "server.key" := EncodePEM "RSA PRIVATE KEY" (MarshalPKCS1PrivateKey serverKey);
        "client.pem" := EncodePEM "CERTIFICATE" clientDER;
        "client.key" := EncodePEM "RSA PRIVATE KEY" (MarshalPKCS1PrivateKey clientKey) ]}.

Context `{ControllerUtil}.

(** [management_rpc.go: GenerateManagementRPCTLSSecret] *)
Definition GenerateManagementRPCTLSSecret (mint : CashuMint) (d : tlsDraws) : res (option Secret) :=
  if negb (ManagementRPCTLSEnabled mint.(mint_Spec)) then Ok None
  else
    let? bundle := generateManagementRPCTLSBundle d in
    let? meta := set_reference mint
      (newMeta (ManagementRPCTLSSecretName mint.(mint_Spec) (mint_Name mint)) (mint_Namespace mint)
         (componentLabels mint "management-rpc-tls") None) in
    Ok (Some (mkSecret (mkTypeMeta "v1" "Secret") meta SecretTypeOpaque bundle ∅)).
End Bundle.

(** ** Properties *)

(** The names the mint and Orchard mount from the Secret. *)
Definition tls_files : list string := ["ca.pem"; "server.pem"; "server.key"; "client.pem"; "client.key"].

Section Trust.
Context `{X509}.

(** A verifier accepts [ca] as a signer. *)
Definition may_sign (ca : CertTemplate) : Prop :=
  ca.(ct_BasicConstraintsValid) = true /\ ca.(ct_IsCA) = true /\ In KeyUsageCertSign ca.(ct_KeyUsage).

Definition validity_within (t ca : CertTemplate) : Prop :=
  (ca.(ct_NotBefore) <= t.(ct_NotBefore))%Z /\ (t.(ct_NotBefore) < t.(ct_NotAfter))%Z /\
  (t.(ct_NotAfter) <= ca.(ct_NotAfter))%Z.

(** The chain of two from [der], for the key [pub], to the authority [ca]: the
    issuer is the authority's subject, the signature verifies under its key,
    it is valid within the authority's lifetime, and it may not sign itself. *)
Record issued (der : DER) (cert : X509Certificate PublicKey) (pub : PublicKey) (ca : X509Certificate PublicKey) : Prop := {
  issued_parse : ParseCertificate der = Ok cert;
  issued_key : cert.(xc_PublicKey) = Some pub;
  issued_name : cert.(xc_Issuer) = ct_Subject ca.(xc_Fields);
  issued_signed : exists k, ca.(xc_PublicKey) = Some k /\ CheckSignature k der = true;
  issued_validity : validity_within cert.(xc_Fields) ca.(xc_Fields);
  issued_leaf : cert.(xc_Fields).(ct_IsCA) = false /\ ~ In KeyUsageCertSign cert.(xc_Fields).(ct_KeyUsage)
}.
End Trust.

Lemma whole_seconds_bounds t : (t - 1000000000 < whole_seconds t <= t)%Z.
Proof.
  unfold whole_seconds. pose proof (Z.div_mod t 1000000000 ltac:(lia)).
  pose proof (Z.mod_pos_bound t 1000000000 ltac:(lia)). lia.
Qed.

(** The certificate the CA template gives. *)
Definition caCertificate `{X509} (serial now : Z) (caKey : PrivateKey) : X509Certificate PublicKey :=
  let ca := encoded (caTemplate serial now) in mk_X509Certificate ca (ct_Subject ca) (Some (Public caKey)).

Lemma leaf_issued `{X509Laws} t serial now caKey pub der :
  CreateCertificate t (caCertificate serial now caKey) pub caKey = Ok der ->
  t.(ct_NotBefore) = (now - 5 * Minute)%Z -> t.(ct_NotAfter) = (now + 825 * 24 * Hour)%Z ->
  t.(ct_IsCA) = false -> ~ In KeyUsageCertSign t.(ct_KeyUsage) ->
  exists cert, cert.(xc_Fields) = encoded t /\ issued der cert pub (caCertificate serial now caKey) /\
    (cert.(xc_Fields).(ct_NotBefore) < now < cert.(xc_Fields).(ct_NotAfter))%Z.
Proof.
  intros Hc Hb Ha Hca Hu. pose proof (create_parse _ _ _ _ _ Hc) as Hp. apply create_signed in Hc.
  eexists. split; [|split; [split; [exact Hp|reflexivity|reflexivity|by exists (Public caKey)|..]|]]; try reflexivity.
  all: unfold validity_within; simpl; rw ?Hb ?Ha ?Hca ?andb_false_r; try done.
  all: pose proof (whole_seconds_bounds (now - 5 * Minute)); pose proof (whole_seconds_bounds (now + 825 * 24 * Hour));
    pose proof (whole_seconds_bounds (now + 3650 * 24 * Hour)); unfold Minute, Hour in *; lia.
Qed.

(** C35: the generated bundle is a working mutual TLS set.  The five files are
    exactly those mounted.  [ca.pem] is a certificate that verifiers accept as
    an authority; [server.pem] and [client.pem] are certificates of the keys in
    [server.key] and [client.key], issued and signed by this authority, valid
    now and within its lifetime, and not authorities themselves; the server's
    is for server authentication of [localhost] and [127.0.0.1], the client's
    for client authentication. *)
Theorem management_bundle_trust `{X509Laws} d data :
  generateManagementRPCTLSBundle d = Ok data ->
  exists caDER serverDER clientDER ca server client serverKey clientKey,
    dom data = list_to_set tls_files /\
    data !! "ca.pem" = Some (EncodePEM "CERTIFICATE" caDER) /\
    data !! "server.pem" = Some (EncodePEM "CERTIFICATE" serverDER) /\
    data !! "client.pem" = Some (EncodePEM "CERTIFICATE" clientDER) /\
    data !! "server.key" = Some (EncodePEM "RSA PRIVATE KEY" (MarshalPKCS1PrivateKey serverKey)) /\
    data !! "client.key" = Some (EncodePEM "RSA PRIVATE KEY" (MarshalPKCS1PrivateKey clientKey)) /\
    ParseCertificate caDER = Ok ca /\ may_sign ca.(xc_Fields) /\
    issued serverDER server (Public serverKey) ca /\ issued clientDER client (Public clientKey) ca /\
    server.(xc_Fields).(ct_ExtKeyUsage) = [ExtKeyUsageServerAuth] /\
    client.(xc_Fields).(ct_ExtKeyUsage) = [ExtKeyUsageClientAuth] /\
    server.(xc_Fields).(ct_DNSNames) = ["localhost"] /\
    server.(xc_Fields).(ct_IPAddresses) = [DefaultLoopbackHost] /\
    (server.(xc_Fields).(ct_NotBefore) < d.(dr_now) < server.(xc_Fields).(ct_NotAfter))%Z /\
    (client.(xc_Fields).(ct_NotBefore) < d.(dr_now) < client.(xc_Fields).(ct_NotAfter))%Z.
Proof.
  unfold generateManagementRPCTLSBundle. intros Hb. op_inv. subst.
  match goal with E : CreateCertificate (caTemplate ?s ?n) _ (Public ?k) _ = Ok _ |- _ =>
    apply create_parse in E; change (Ok _) with (Ok (A := X509Certificate PublicKey) (caCertificate s n k)) in E end.
  match goal with E : ParseCertificate _ = Ok ?x, E' : ParseCertificate _ = Ok (caCertificate _ _ _) |- _ =>
    pose proof E' as Hca; rw E in Hca; injection Hca as -> end.
  repeat match goal with E : CreateCertificate _ _ _ _ = Ok _ |- _ =>
    apply leaf_issued in E as (? & ? & ? & ?); [|reflexivity|reflexivity|reflexivity|simpl; intuition discriminate] end.
  repeat match goal with E : xc_Fields ?c = encoded _ |- _ => destruct c; simpl in E; subst end.
  do 8 eexists. do 6 (split; [reflexivity|]). split; [eassumption|].
  split; [split; [reflexivity|split; [reflexivity|by left]]|]. do 2 (split; [eassumption|]).
  do 4 (split; [reflexivity|]). by split.
Qed.

(** The Secret exists exactly when management TLS is on, under the name the
    workload mounts it by; a failing key, serial or certificate step is an error
    that leaves no Secret. *)
Theorem GenerateManagementRPCTLSSecret_total `{X509, ControllerUtilLaws} mint d :
  (ManagementRPCTLSEnabled mint.(mint_Spec) = false -> GenerateManagementRPCTLSSecret mint d = Ok None) /\
  (forall s, GenerateManagementRPCTLSSecret mint d = Ok (Some s) ->
     ManagementRPCTLSEnabled mint.(mint_Spec) = true /\
     managed mint (ManagementRPCTLSSecretName mint.(mint_Spec) (mint_Name mint)) s.(sec_Meta) /\
     generateManagementRPCTLSBundle d = Ok s.(sec_Data)) /\
  (forall data, ManagementRPCTLSEnabled mint.(mint_Spec) = true ->
     generateManagementRPCTLSBundle d = Ok data ->
     exists s, GenerateManagementRPCTLSSecret mint d = Ok (Some s) /\ s.(sec_Data) = data).
Proof.
  unfold GenerateManagementRPCTLSSecret, set_reference. split; [by intros ->|]. split.
  - intros s Hs. destruct (ManagementRPCTLSEnabled _); [|done]. simpl in Hs. op_inv. simplify_eq.
    match goal with E : SetControllerReference _ _ = Ok _ |- _ =>
      apply set_reference_managed in E as (? & _ & _); [|reflexivity] end.
    done.
  - intros data -> Hd. rw Hd /=.
    destruct (set_reference_fresh mint (ManagementRPCTLSSecretName mint.(mint_Spec) (mint_Name mint))
      (componentLabels mint "management-rpc-tls") None) as [m ->].
    simpl. eexists. split; reflexivity.
Qed.

(** ** A reference instance *)

(** [encoded], kept folded when the witnesses are evaluated. *)
Lemma folded_encoded : { f : CertTemplate -> CertTemplate | forall t, f t = encoded t }.
Proof. by exists encoded. Qed.

(** A certificate is its template, its issuer, its key and the signing key. *)
#[local] Instance std_X509 : X509 := {
  PrivateKey := Z;
  PublicKey := Z;
  DER := CertTemplate * name * Z * Z;
  Public k := k;
  CreateCertificate t p pub k := Ok (t, ct_Subject p.(xc_Fields), pub, k);
  ParseCertificate d :=
    let '(t, issuer, pub, _) := d in Ok (mk_X509Certificate (proj1_sig folded_encoded t) issuer (Some pub));
  CheckSignature k d := (k =? d.2)%Z;
  MarshalPKCS1PrivateKey k := (mk_CertTemplate 0 "" [] 0 0 [] [] [] [] false false, ("", []), k, k);
  EncodePEM kind d := kind +:+ d.1.1.1.(ct_CommonName)
}.

#[local] Instance std_X509Laws : X509Laws.
Proof.
  split; simpl; intros t p pub k der [= <-]; [|apply Z.eqb_refl]. by rewrite -> (proj2_sig folded_encoded t).
Qed.

Section Witnesses.
#[local] Existing Instance std_ControllerUtil.
#[local] Existing Instance std_ControllerUtilLaws.

Definition sampleDraws : tlsDraws := mk_tlsDraws (Ok 1%Z) (Ok 10%Z) (Ok 2%Z) (Ok 11%Z) (Ok 3%Z) (Ok 12%Z) 0.
Definition sampleBundle : StringMap := ok_or ∅ (generateManagementRPCTLSBundle sampleDraws).

Lemma management_bundle_trust_witness : exists pem, sampleBundle !! "server.pem" = Some pem.
Proof.
  assert (H : generateManagementRPCTLSBundle sampleDraws = Ok sampleBundle) by (vm_compute; reflexivity).
  destruct (management_bundle_trust sampleDraws sampleBundle H)
    as (? & der & ? & ? & ? & ? & ? & ? & _ & _ & Hs & _).
  exists (EncodePEM "CERTIFICATE" der). exact Hs.
Defined.

Definition rpcMint : CashuMint :=
  fullMint <| mint_Spec ::= fun s => s <| spec_ManagementRPC := Some (mkManagementRPCConfig true "" 0 None) |> |>.

Lemma GenerateManagementRPCTLSSecret_total_witness :
  exists s, GenerateManagementRPCTLSSecret rpcMint sampleDraws = Ok (Some s) /\ s.(sec_Data) = sampleBundle.
Proof.
  apply (GenerateManagementRPCTLSSecret_total rpcMint sampleDraws); vm_compute; reflexivity.
Defined.
End Witnesses.
