(* ===== verification/Orchard.v ===== *)
(** * The Orchard companion: [internal/controller/generators/orchard.go], pod part

    The container, its environment, volumes and mounts.  The generators are
    only called for a mint with an enabled Orchard section, so they take that
    section as an argument next to the mint; a nil section is the caller's
    [orchardEnabled] test. *)

From S2P Require Import Prelude Kube Types Platform Fmt Samples Common Postgres.

(** ** Fallbacks read from the spec *)

(** [mint.Spec.Orchard != nil && ....Mint != nil], then a field. *)
Definition orchardMint (mint : CashuMint) : option OrchardMintConfig :=
  o ← mint.(mint_Spec).(spec_Orchard); o.(or_Mint).
Definition orchardMintRPC (mint : CashuMint) : option OrchardMintRPCConfig :=
  m ← orchardMint mint; m.(orm_RPC).

(** [orchard.go: orchardPort] *)
Definition orchardPort (mint : CashuMint) : Z :=
  match mint.(mint_Spec).(spec_Orchard) with
  | Some o => if negb (o.(or_Port) =? 0)%Z then o.(or_Port) else orchardPortDefault
  | None => orchardPortDefault
  end.

(** [orchard.go: orchardMintType] *)
Definition orchardMintType (mint : CashuMint) : string :=
  match orchardMint mint with
  | Some m => if negb (str_empty m.(orm_Type)) then m.(orm_Type) else "cdk"
  | None => "cdk"
  end.

(** [http://127.0.0.1:port]. [orchard.go: orchardMintAPI 694-698] *)
Definition loopbackAPI (mint : CashuMint) : string :=
  "http://" +:+ DefaultLoopbackHost +:+ ":" +:+ Itoa (listenPort mint).

(** [orchard.go: orchardMintAPI] *)
Definition orchardMintAPI (mint : CashuMint) : string :=
  match orchardMint mint with
  | Some m => if negb (str_empty m.(orm_API)) then m.(orm_API) else loopbackAPI mint
  | None => loopbackAPI mint
  end.

(** [orchard.go: orchardMintRPCHost] *)
Definition orchardMintRPCHost (mint : CashuMint) : string :=
  match orchardMintRPC mint with
  | Some r => if negb (str_empty r.(omr_Host)) then r.(omr_Host) else DefaultLoopbackHost
  | None => DefaultLoopbackHost
  end.

(** [orchard.go: orchardMintRPCPort] *)
Definition orchardMintRPCPort (mint : CashuMint) : Z :=
  let fallback :=
    match mint.(mint_Spec).(spec_ManagementRPC) with
    | Some rpc => if negb (rpc.(rpc_Port) =? 0)%Z then rpc.(rpc_Port) else 8086%Z
    | None => 8086%Z
    end in
  match orchardMintRPC mint with
  | Some r => if negb (r.(omr_Port) =? 0)%Z then r.(omr_Port) else fallback
  | None => fallback
  end.

(** [orchard.go: orchardMintRPCMTLS] *)
Definition orchardMintRPCMTLS (mint : CashuMint) : bool :=
  match r ← orchardMintRPC mint; r.(omr_MTLS) with
  | Some b => b
  | None => ManagementRPCTLSEnabled mint.(mint_Spec)
  end.

(** [orchard.go: orchardSpecifiesMintDatabaseTLS] *)
Definition orchardSpecifiesMintDatabaseTLS (o : OrchardConfig) : bool :=
  ptr_test (fun m => non_nil m.(orm_DatabaseCASecretRef) || non_nil m.(orm_DatabaseCertSecretRef)
                     || non_nil m.(orm_DatabaseKeySecretRef)) o.(or_Mint).

(** ** Environment *)

(** An environment variable per secret reference that is set. *)
Definition refEnv (name : string) (ref : option SecretKeySelector) : list EnvVar :=
  append_if (non_nil ref) [envSecret name ref].
Definition pathEnv (name path : string) (ref : option SecretKeySelector) : list EnvVar :=
  append_if (non_nil ref) [envValue name path].

(** [orchard.go: generateOrchardMintDatabaseEnvVar] *)
Definition generateOrchardMintDatabaseEnvVar (mint : CashuMint) : option EnvVar :=
  let db := mint.(mint_Spec).(spec_Database) in
  let by_engine :=
    if String.eqb db.(db_Engine) DatabaseEngineSQLite
    then Some (envValue "MINT_DATABASE" orchardMintSQLitePath)
    else if String.eqb db.(db_Engine) DatabaseEnginePostgres then
      match db.(db_Postgres) with
      | None => None
      | Some pg =>
          if pg.(pg_AutoProvision)
          then Some (envSecret "MINT_DATABASE" (secretKey (postgresSecretName mint) "database-url"))
          else if non_nil pg.(pg_URLSecretRef) then Some (envSecret "MINT_DATABASE" pg.(pg_URLSecretRef))
          else if negb (str_empty pg.(pg_URL)) then Some (envValue "MINT_DATABASE" pg.(pg_URL))
          else None
      end
    else None in
  match orchardMint mint with
  | Some m => if negb (str_empty m.(orm_Database)) then Some (envValue "MINT_DATABASE" m.(orm_Database))
              else by_engine
  | None => by_engine
  end.

(** [orchard.go: generateOrchardEnvironmentVariables 220-238] *)
Definition orchardBitcoinEnv (o : OrchardConfig) : list EnvVar :=
  match o.(or_Bitcoin) with
  | None => []
  | Some b =>
      [envValue "BITCOIN_TYPE" b.(ob_Type); envValue "BITCOIN_RPC_HOST" b.(ob_RPCHost);
       envValue "BITCOIN_RPC_PORT" (Itoa b.(ob_RPCPort));
       envSecret "BITCOIN_RPC_USER" b.(ob_RPCUserSecretRef);
       envSecret "BITCOIN_RPC_PASSWORD" b.(ob_RPCPasswordSecretRef)]
  end.

(** [orchard.go: generateOrchardEnvironmentVariables 240-258] *)
Definition orchardLightningEnv (o : OrchardConfig) : list EnvVar :=
  match o.(or_Lightning) with
  | None => []
  | Some l =>
      [envValue "LIGHTNING_TYPE" l.(ol_Type); envValue "LIGHTNING_RPC_HOST" l.(ol_RPCHost);
       envValue "LIGHTNING_RPC_PORT" (Itoa l.(ol_RPCPort))] ++
      pathEnv "LIGHTNING_MACAROON" orchardLightningMacaroonPath l.(ol_MacaroonSecretRef) ++
      pathEnv "LIGHTNING_CERT" orchardLightningCertPath l.(ol_CertSecretRef) ++
      pathEnv "LIGHTNING_KEY" orchardLightningKeyPath l.(ol_KeySecretRef) ++
      pathEnv "LIGHTNING_CA" orchardLightningCAPath l.(ol_CASecretRef)
  end.

(** [orchard.go: generateOrchardEnvironmentVariables 260-272] *)
Definition orchardTaprootEnv (o : OrchardConfig) : list EnvVar :=
  match o.(or_TaprootAssets) with
  | None => []
  | Some t =>
      [envValue "TAPROOT_ASSETS_TYPE" t.(ot_Type); envValue "TAPROOT_ASSETS_RPC_HOST" t.(ot_RPCHost);
       envValue "TAPROOT_ASSETS_RPC_PORT" (Itoa t.(ot_RPCPort))] ++
      pathEnv "TAPROOT_ASSETS_MACAROON" orchardTaprootMacaroonPath t.(ot_MacaroonSecretRef) ++
      pathEnv "TAPROOT_ASSETS_CERT" orchardTaprootCertPath t.(ot_CertSecretRef)
  end.

(** [orchard.go: generateOrchardEnvironmentVariables] *)
Definition generateOrchardEnvironmentVariables (mint : CashuMint) (o : OrchardConfig) : list EnvVar :=
  [envValue "NODE_ENV" "production";
   envValue "SERVER_HOST" o.(or_Host);
   envValue "SERVER_PORT" (Itoa (orchardPort mint));
   envValue "BASE_PATH" o.(or_BasePath);
   envValue "LOG_LEVEL" o.(or_LogLevel);
   envValue "DATABASE_DIR" orchardDataDir;
   envValue "MINT_TYPE" (orchardMintType mint);
   envValue "MINT_API" (orchardMintAPI mint);
   envValue "MINT_RPC_HOST" (orchardMintRPCHost mint);
   envValue "MINT_RPC_PORT" (Itoa (orchardMintRPCPort mint));
   envValue "MINT_RPC_MTLS" (FormatBool (orchardMintRPCMTLS mint));
   envSecret "SETUP_KEY" o.(or_SetupKeySecretRef)] ++
  match o.(or_ThrottleTTL) with Some n => [envValue "THROTTLE_TTL" (Itoa n)] | None => [] end ++
  match o.(or_ThrottleLimit) with Some n => [envValue "THROTTLE_LIMIT" (Itoa n)] | None => [] end ++
  append_if (negb (str_empty o.(or_Proxy))) [envValue "TOR_PROXY_SERVER" o.(or_Proxy)] ++
  match o.(or_Compression) with
  | Some b => [envValue "SERVER_COMPRESSION" (FormatBool b)]
  | None => []
  end ++
  option_list (generateOrchardMintDatabaseEnvVar mint) ++
  match o.(or_Mint) with
  | Some m =>
      if orchardSpecifiesMintDatabaseTLS o then
        refEnv "MINT_DATABASE_CA" m.(orm_DatabaseCASecretRef) ++
        refEnv "MINT_DATABASE_CERT" m.(orm_DatabaseCertSecretRef) ++
        refEnv "MINT_DATABASE_KEY" m.(orm_DatabaseKeySecretRef)
      else []
  | None => []
  end ++
  append_if (orchardMintRPCMTLS mint)
    [envValue "MINT_RPC_KEY" (orchardManagementRPCTLSMountPath +:+ "/client.key");
     envValue "MINT_RPC_CERT" (orchardManagementRPCTLSMountPath +:+ "/client.pem");
     envValue "MINT_RPC_CA" (orchardManagementRPCTLSMountPath +:+ "/ca.pem")] ++
  orchardBitcoinEnv o ++ orchardLightningEnv o ++ orchardTaprootEnv o ++
  match o.(or_AI) with Some ai => [envValue "AI_API" ai.(oai_API)] | None => [] end ++
  o.(or_ExtraEnv).

(** ** Volumes and mounts *)

(** A secret key mounted as a file, and the volume of the secret. *)
Definition keyMount (name path : string) (ref : option SecretKeySelector) : list VolumeMount :=
  match ref with Some r => [mkVolumeMount name path r.(sks_Key) true] | None => [] end.
Definition secretVolume (name : string) (ref : option SecretKeySelector) : list Volume :=
  match ref with Some r => [mkVolume name (VolumeSecret r.(sks_Name))] | None => [] end.

(** [orchard.go: generateOrchardVolumeMounts] *)
Definition generateOrchardVolumeMounts (mint : CashuMint) (o : OrchardConfig) : list VolumeMount :=
  [mkVolumeMount orchardDataVolumeName orchardDataDir "" false;
   mkVolumeMount orchardTmpVolumeName orchardTmpDir "" false;
   mkVolumeMount "data" orchardMintDataDir "" false] ++
  append_if (orchardMintRPCMTLS mint)
    [mkVolumeMount managementRPCTLSVolumeName orchardManagementRPCTLSMountPath "" true] ++
  match o.(or_Lightning) with
  | Some l =>
      keyMount orchardLightningMacaroonVolumeName orchardLightningMacaroonPath l.(ol_MacaroonSecretRef) ++
      keyMount orchardLightningCertVolumeName orchardLightningCertPath l.(ol_CertSecretRef) ++
      keyMount orchardLightningKeyVolumeName orchardLightningKeyPath l.(ol_KeySecretRef) ++
      keyMount orchardLightningCAVolumeName orchardLightningCAPath l.(ol_CASecretRef)
  | None => []
  end ++
  match o.(or_TaprootAssets) with
  | Some t =>
      keyMount orchardTaprootMacaroonVolumeName orchardTaprootMacaroonPath t.(ot_MacaroonSecretRef) ++
      keyMount orchardTaprootCertVolumeName orchardTaprootCertPath t.(ot_CertSecretRef)
  | None => []
  end.

(** [orchard.go: GenerateOrchardVolumes] *)
Definition GenerateOrchardVolumes (mint : CashuMint) : list Volume :=
  match mint.(mint_Spec).(spec_Orchard) with
  | None => []
  | Some o =>
      if negb o.(or_Enabled) then []
      else
        [mkVolume orchardDataVolumeName (VolumePVC (orchardPVCName mint));
         mkVolume orchardTmpVolumeName VolumeEmptyDir] ++
        match o.(or_Lightning) with
        | Some l =>
            secretVolume orchardLightningMacaroonVolumeName l.(ol_MacaroonSecretRef) ++
            secretVolume orchardLightningCertVolumeName l.(ol_CertSecretRef) ++
            secretVolume orchardLightningKeyVolumeName l.(ol_KeySecretRef) ++
            secretVolume orchardLightningCAVolumeName l.(ol_CASecretRef)
        | None => []
        end ++
        match o.(or_TaprootAssets) with
        | Some t =>
            secretVolume orchardTaprootMacaroonVolumeName t.(ot_MacaroonSecretRef) ++
            secretVolume orchardTaprootCertVolumeName t.(ot_CertSecretRef)
        | None => []
        end
  end.

(** ** The container *)

Section Container.
Context `{Quantities}.

(** [orchard.go: getOrchardResourceRequirements] *)
Definition getOrchardResourceRequirements (o : OrchardConfig) : res ResourceRequirements :=
  match o.(or_Resources) with
  | Some rr => Ok rr
  | None =>
      let? requests := resourceList [("cpu", "100m"); ("memory", "128Mi")] in
      let? limits := resourceList [("cpu", "500m"); ("memory", "512Mi")] in
      Ok (mkResourceRequirements (Some limits) (Some requests) [])
  end.

(** [orchard.go: getOrchardContainerSecurityContext] *)
Definition getOrchardContainerSecurityContext (o : OrchardConfig) : SecurityContext :=
  match o.(or_ContainerSecurityContext) with
  | Some s => s
  | None => mkSecurityContext (Some false) (Some false) (Some false) (Some 0%Z) ["ALL"] JNull
  end.

(** [orchard.go: GenerateOrchardContainer] *)
Definition GenerateOrchardContainer (mint : CashuMint) (o : OrchardConfig) : res Container :=
  let image := default_str (DefaultOrchardImage mint.(mint_Spec).(spec_Database).(db_Engine)) o.(or_Image) in
  let port := default_int orchardPortDefault o.(or_Port) in
  let? rr := getOrchardResourceRequirements o in
  Ok ((newContainer orchardStr image)
        <| c_ImagePullPolicy := default_str PullIfNotPresent o.(or_ImagePullPolicy) |>
        <| c_Ports := [tcpPort orchardStr port] |>
        <| c_Env := generateOrchardEnvironmentVariables mint o |>
        <| c_VolumeMounts := generateOrchardVolumeMounts mint o |>
        <| c_Resources := rr |>
        <| c_LivenessProbe := Some (mkProbe (TCPSocket (FromString orchardStr)) 30 30 5 0 3) |>
        <| c_ReadinessProbe := Some (mkProbe (TCPSocket (FromString orchardStr)) 10 10 5 0 3) |>
        <| c_SecurityContext := Some (getOrchardContainerSecurityContext o) |>).
End Container.
