(* ===== verification/Workload.v ===== *)
(** * The mint's Deployment: [internal/controller/generators/deployment.go]

    The pod with the mint container and its sidecars: containers, environment,
    volumes and mounts.  The theorems say that the pod is well formed: volumes
    are distinct, every mount is backed, ports are named apart. *)

From S2P Require Import Prelude Kube Types Platform Fmt Samples Defaulting Common Validation Toml ConfigToml.
From S2P Require Import Mnemonic Postgres Orchard.

(** ** Environment of the mint container *)

(** [deployment.go: mintCoreEnvVars] *)
Definition mintCoreEnvVars (mint : CashuMint) : list EnvVar :=
  let spec := mint.(mint_Spec) in
  [envValue "CDK_MINTD_WORK_DIR" "/data";
   envValue "HOME" "/data";
   envValue "CDK_MINTD_LN_BACKEND" (ActiveBackend spec.(spec_PaymentBackend));
   envValue "CDK_MINTD_URL" spec.(spec_MintInfo).(mi_URL);
   envValue "CDK_MINTD_LISTEN_HOST" (default_str DefaultListenHost spec.(spec_MintInfo).(mi_ListenHost));
   envValue "CDK_MINTD_LISTEN_PORT" (Itoa (listenPort mint));
   envValue "CDK_MINTD_DATABASE" spec.(spec_Database).(db_Engine);
   envValue "CDK_MINTD_LOGGING_OUTPUT" "stderr"].

(** [deployment.go: mintLoggingEnvVars] *)
Definition mintLoggingEnvVars (mint : CashuMint) : list EnvVar :=
  match mint.(mint_Spec).(spec_Logging) with
  | None => []
  | Some l =>
      append_if (negb (str_empty l.(log_Level)))
        [envValue "RUST_LOG" l.(log_Level); envValue "CDK_MINTD_LOGGING_CONSOLE_LEVEL" l.(log_Level)] ++
      append_if (negb (str_empty l.(log_FileLevel)))
        [envValue "CDK_MINTD_LOGGING_FILE_LEVEL" l.(log_FileLevel)]
  end.

(** [deployment.go: mintMnemonicEnvVars] *)
Definition mintMnemonicEnvVars (mint : CashuMint) : list EnvVar :=
  let mi := mint.(mint_Spec).(spec_MintInfo) in
  let ref := match mi.(mi_MnemonicSecretRef) with
             | Some r => Some r
             | None => if mi.(mi_AutoGenerateMnemonic)
                       then secretKey (MnemonicSecretName (mint_Name mint)) MnemonicSecretKey
                       else None
             end in
  match ref with
  | None => []
  | Some r => [envSecret "CDK_MINTD_MNEMONIC" (Some r)]
  end.

(** [deployment.go: mintManagementRPCEnvVars] *)
Definition mintManagementRPCEnvVars (mint : CashuMint) : list EnvVar :=
  match mint.(mint_Spec).(spec_ManagementRPC) with
  | None => []
  | Some rpc =>
      if negb rpc.(rpc_Enabled) then []
      else
        [envValue "CDK_MINTD_MINT_MANAGEMENT_ENABLED" trueStr;
         envValue "CDK_MINTD_MANAGEMENT_ADDRESS" (default_str DefaultLoopbackHost rpc.(rpc_Address));
         envValue "CDK_MINTD_MANAGEMENT_PORT" (Itoa (managementPort rpc))] ++
        append_if (ManagementRPCTLSEnabled mint.(mint_Spec))
          [envValue "CDK_MINTD_MANAGEMENT_TLS_DIR_PATH" orchardManagementRPCTLSMountPath]
  end.

(** [deployment.go: mintPrometheusEnvVars] *)
Definition mintPrometheusEnvVars (mint : CashuMint) : list EnvVar :=
  append_if (prometheusEnabled mint) [envValue "CDK_MINTD_PROMETHEUS_ENABLED" trueStr].

(** [deployment.go: mintLNBitsEnvVars] *)
Definition mintLNBitsEnvVars (mint : CashuMint) : list EnvVar :=
  match mint.(mint_Spec).(spec_PaymentBackend).(pb_LNBits) with
  | None => []
  | Some l =>
      [envSecret "LNBITS_ADMIN_API_KEY" (Some l.(lnb_AdminAPIKeySecretRef));
       envSecret "LNBITS_INVOICE_API_KEY" (Some l.(lnb_InvoiceAPIKeySecretRef))]
  end.

(** [deployment.go: mintGRPCProcessorEnvVars] *)
Definition mintGRPCProcessorEnvVars (mint : CashuMint) : list EnvVar :=
  match mint.(mint_Spec).(spec_PaymentBackend).(pb_GRPCProcessor) with
  | None => []
  | Some gp =>
      [envValue "CDK_MINTD_GRPC_PAYMENT_PROCESSOR_SUPPORTED_UNITS"
         (Join (grpcProcessorSupportedUnits (Some gp)) ",");
       envValue "CDK_MINTD_GRPC_PAYMENT_PROCESSOR_ADDRESS" (grpcProcessorAddress (Some gp));
       envValue "CDK_MINTD_GRPC_PAYMENT_PROCESSOR_PORT" (Itoa (grpcProcessorPort (Some gp)))] ++
      append_if (non_nil gp.(gp_TLSSecretRef))
        [envValue "CDK_MINTD_GRPC_PAYMENT_PROCESSOR_TLS_DIR" grpcProcessorTLSMountPath]
  end.

(** [deployment.go: mintPaymentBackendEnvVars] *)
Definition mintPaymentBackendEnvVars (mint : CashuMint) : list EnvVar :=
  let backend := ActiveBackend mint.(mint_Spec).(spec_PaymentBackend) in
  if String.eqb backend PaymentBackendLNBits then mintLNBitsEnvVars mint
  else if String.eqb backend PaymentBackendGRPCProcessor then mintGRPCProcessorEnvVars mint
  else [].

(** [deployment.go: mintLDKEnvVars] *)
Definition mintLDKEnvVars (mint : CashuMint) : list EnvVar :=
  match mint.(mint_Spec).(spec_LDKNode) with
  | None => []
  | Some ldk =>
      if negb ldk.(ldk_Enabled) then []
      else
        match ldk.(ldk_BitcoinRPC) with
        | Some rpc =>
            [envSecret "BITCOIN_RPC_USER" (Some rpc.(brpc_UserSecretRef));
             envSecret "BITCOIN_RPC_PASSWORD" (Some rpc.(brpc_PasswordSecretRef))]
        | None => []
        end ++
        refEnv "CDK_LDK_NODE_MNEMONIC" ldk.(ldk_MnemonicSecretRef)
  end.

(** [deployment.go: mintHTTPCacheEnvVars] *)
Definition mintHTTPCacheEnvVars (mint : CashuMint) : list EnvVar :=
  match mint.(mint_Spec).(spec_HTTPCache) with
  | None => []
  | Some c =>
      if negb (String.eqb c.(hc_Backend) "redis") then []
      else
        match c.(hc_Redis) with
        | None => []
        | Some r =>
            if non_nil r.(rc_ConnectionStringSecretRef)
            then [envSecret "REDIS_CONNECTION_STRING" r.(rc_ConnectionStringSecretRef)]
            else append_if (negb (str_empty r.(rc_ConnectionString)))
                   [envValue "REDIS_CONNECTION_STRING" r.(rc_ConnectionString)]
        end
  end.

(** [deployment.go: generateEnvironmentVariables] *)
Definition generateEnvironmentVariables (mint : CashuMint) : list EnvVar :=
  mintCoreEnvVars mint ++ mintLoggingEnvVars mint ++ mintMnemonicEnvVars mint ++
  mintManagementRPCEnvVars mint ++ mintPrometheusEnvVars mint ++ mintPaymentBackendEnvVars mint ++
  mintLDKEnvVars mint ++ mintHTTPCacheEnvVars mint.

(** ** Volumes and mounts *)

(** The sections the volume code reads: LND and the gRPC processor, each only
    when it is the active backend. *)
Definition activeLND (mint : CashuMint) : option LNDConfig :=
  let pb := mint.(mint_Spec).(spec_PaymentBackend) in
  if String.eqb (ActiveBackend pb) PaymentBackendLND then pb.(pb_LND) else None.

Definition activeGRPC (mint : CashuMint) : option GRPCProcessorConfig :=
  let pb := mint.(mint_Spec).(spec_PaymentBackend) in
  if String.eqb (ActiveBackend pb) PaymentBackendGRPCProcessor then pb.(pb_GRPCProcessor) else None.

(** The enabled sidecar of the active gRPC processor. *)
Definition activeSidecar (mint : CashuMint) : option SidecarProcessorConfig :=
  gp ← activeGRPC mint; sc ← gp.(gp_SidecarProcessor); if sc.(sc_Enabled) then Some sc else None.

(** [deployment.go: generateVolumeMounts] *)
Definition generateVolumeMounts (mint : CashuMint) : list VolumeMount :=
  [mkVolumeMount "data" "/data" "" false;
   mkVolumeMount "config" "/data/config.toml" "config.toml" true] ++
  match activeLND mint with
  | Some lnd =>
      keyMount "lnd-macaroon" "/secrets/lnd/macaroon" lnd.(lnd_MacaroonSecretRef) ++
      keyMount "lnd-cert" "/secrets/lnd/cert" lnd.(lnd_CertSecretRef)
  | None => []
  end ++
  match activeGRPC mint with
  | Some gp => append_if (non_nil gp.(gp_TLSSecretRef))
                 [mkVolumeMount "grpc-tls" grpcProcessorTLSMountPath "" true]
  | None => []
  end ++
  append_if (ManagementRPCTLSEnabled mint.(mint_Spec))
    [mkVolumeMount managementRPCTLSVolumeName orchardManagementRPCTLSMountPath "" true].

(** [deployment.go: generateVolumes] *)
Definition generateVolumes (mint : CashuMint) : list Volume :=
  let engine := mint.(mint_Spec).(spec_Database).(db_Engine) in
  [mkVolume "config" (VolumeConfigMap (mint_Name mint +:+ "-config"))] ++
  [mkVolume "data"
     (if String.eqb engine DatabaseEngineSQLite || String.eqb engine DatabaseEngineRedb
      then VolumePVC (mint_Name mint +:+ "-data") else VolumeEmptyDir)] ++
  match activeLND mint with
  | Some lnd =>
      secretVolume "lnd-macaroon" lnd.(lnd_MacaroonSecretRef) ++
      secretVolume "lnd-cert" lnd.(lnd_CertSecretRef)
  | None => []
  end ++
  match activeGRPC mint with
  | Some gp => secretVolume "grpc-tls" gp.(gp_TLSSecretRef)
  | None => []
  end ++
  append_if (ManagementRPCTLSEnabled mint.(mint_Spec))
    [mkVolume managementRPCTLSVolumeName
       (VolumeSecret (ManagementRPCTLSSecretName mint.(mint_Spec) (mint_Name mint)))] ++
  match activeSidecar mint with
  | Some sc => if sc.(sc_EnableTLS) then secretVolume "sidecar-tls" sc.(sc_TLSSecretRef) else []
  | None => []
  end.

(** ** Containers *)

(** [deployment.go: getPodSecurityContext] *)
Definition getPodSecurityContext (mint : CashuMint) : PodSecurityContext :=
  match mint.(mint_Spec).(spec_PodSecurityContext) with
  | Some s => s
  | None => mkPodSecurityContext (Some true) (Some 1000%Z) (Some 1000%Z) JNull
  end.

(** [deployment.go: getContainerSecurityContext] *)
Definition getContainerSecurityContext (mint : CashuMint) : SecurityContext :=
  match mint.(mint_Spec).(spec_ContainerSecurityContext) with
  | Some s => s
  | None => mkSecurityContext (Some false) (Some false) (Some true) None ["ALL"] JNull
  end.

(** [deployment.go: generateLDKContainer] *)
Definition generateLDKContainer (ldk : LDKNodeConfig) : Container :=
  (newContainer "ldk-node" (default_str "ghcr.io/cashubtc/ldk-node:latest" ldk.(ldk_Image)))
    <| c_Ports := [tcpPort "ldk" (ldkPort ldk); tcpPort "webserver" (ldkWebserverPort ldk)] |>
    <| c_VolumeMounts := [mkVolumeMount "data" "/data" "" false] |>
    <| c_SecurityContext := Some (securityContext false (Some true) None) |>.

(** [deployment.go: generateSidecarProcessorContainer] *)
Definition generateSidecarProcessorContainer (gp : GRPCProcessorConfig) (sc : SidecarProcessorConfig) : Container :=
  (newContainer "grpc-processor" sc.(sc_Image))
    <| c_ImagePullPolicy := default_str PullIfNotPresent sc.(sc_ImagePullPolicy) |>
    <| c_Command := sc.(sc_Command) |>
    <| c_Args := sc.(sc_Args) |>
    <| c_Ports := [tcpPort "grpc" (default_int 50051 gp.(gp_Port))] |>
    <| c_Env := sc.(sc_Env) |>
    <| c_VolumeMounts :=
         append_if (negb (str_empty sc.(sc_WorkingDir)))
           [mkVolumeMount "data" sc.(sc_WorkingDir) "sidecar-processor" false] ++
         append_if (sc.(sc_EnableTLS) && non_nil sc.(sc_TLSSecretRef))
           [mkVolumeMount "sidecar-tls" "/secrets/sidecar-tls" "" true] |>
    <| c_Resources := match sc.(sc_Resources) with Some rr => rr | None => noResources end |>
    <| c_SecurityContext := Some (securityContext false None None) |>.

Definition infoProbe : ProbeHandler := HTTPGet "/v1/info" (FromString "api") "HTTP".

Section Deployment.
Context `{Quantities}.

(** [deployment.go: getResourceRequirements] *)
Definition getResourceRequirements (mint : CashuMint) : res ResourceRequirements :=
  match mint.(mint_Spec).(spec_Resources) with
  | Some rr => Ok rr
  | None =>
      let? requests := resourceList [("cpu", "100m"); ("memory", "128Mi")] in
      let? limits := resourceList [("cpu", "1000m"); ("memory", "512Mi")] in
      Ok (mkResourceRequirements (Some limits) (Some requests) [])
  end.

(** [deployment.go: generateMintContainer] *)
Definition generateMintContainer (mint : CashuMint) : res Container :=
  let spec := mint.(mint_Spec) in
  let? rr := getResourceRequirements mint in
  Ok ((newContainer "mintd" (default_str DefaultMintImage spec.(spec_Image)))
        <| c_ImagePullPolicy := default_str PullIfNotPresent spec.(spec_ImagePullPolicy) |>
        <| c_Ports := [tcpPort "api" (listenPort mint)] ++
             match spec.(spec_Prometheus) with
             | Some p => append_if p.(prom_Enabled) [tcpPort prometheusMetricsPortName (prometheusPort p)]
             | None => []
             end |>
        <| c_Env := generateEnvironmentVariables mint |>
        <| c_VolumeMounts := generateVolumeMounts mint |>
        <| c_Resources := rr |>
        <| c_LivenessProbe := Some (mkProbe infoProbe 30 30 10 1 3) |>
        <| c_ReadinessProbe := Some (mkProbe infoProbe 10 10 5 1 3) |>
        <| c_SecurityContext := Some (getContainerSecurityContext mint) |>).

(** The optional Orchard container. [deployment.go: generatePodSpec 113-115] *)
Definition orchardContainers (mint : CashuMint) : res (list Container) :=
  match mint.(mint_Spec).(spec_Orchard) with
  | Some o => if o.(or_Enabled) then let? c := GenerateOrchardContainer mint o in Ok [c] else Ok []
  | None => Ok []
  end.

(** The sidecar containers before the mint container.
    [deployment.go: generatePodSpec 99-111] *)
Definition sidecarContainers (mint : CashuMint) : list Container :=
  match activeGRPC mint, activeSidecar mint with
  | Some gp, Some sc => [generateSidecarProcessorContainer gp sc]
  | _, _ => []
  end ++
  match mint.(mint_Spec).(spec_LDKNode) with
  | Some ldk => append_if ldk.(ldk_Enabled) [generateLDKContainer ldk]
  | None => []
  end.

(** [deployment.go: generatePodSpec] *)
Definition generatePodSpec (mint : CashuMint) : res PodSpec :=
  let spec := mint.(mint_Spec) in
  let? c := generateMintContainer mint in
  let? orchard := orchardContainers mint in
  Ok (mkPodSpec [] (sidecarContainers mint ++ [c] ++ orchard)
        (generateVolumes mint ++ GenerateOrchardVolumes mint)
        spec.(spec_ImagePullSecrets) spec.(spec_NodeSelector) spec.(spec_Tolerations)
        spec.(spec_Affinity) (Some (getPodSecurityContext mint)) "").

Context `{ControllerUtil}.

(** [deployment.go: GenerateDeployment] *)
Definition GenerateDeployment (mint : CashuMint) (configHash : string) : res Deployment :=
  let labels := mintSelectorLabels mint in
  let replicas := match mint.(mint_Spec).(spec_Replicas) with Some n => n | None => 1%Z end in
  let? pod := generatePodSpec mint in
  let? meta := set_reference mint (newMeta (mint_Name mint) (mint_Namespace mint) labels None) in
  Ok (mkDeployment (mkTypeMeta "apps/v1" "Deployment") meta (Some replicas) labels "RollingUpdate"
        (FromInt 0) (FromInt 1)
        (mkPodTemplateSpec labels (Some {[ "config-hash" := configHash ]}) pod) 0 0 0).
End Deployment.

(** ** The shape of the pod *)

(** Every mount of the container names a volume of the pod. *)
Definition backed (pod : PodSpec) (c : Container) : Prop := mount_names c ⊆ volume_names pod.

(** A probe that names a port names one of its own container. *)
Definition probe_port (p : option Probe) : option string :=
  match p with
  | Some pr => match pr.(probe_Handler) with
               | HTTPGet _ (FromString s) _ | TCPSocket (FromString s) => Some s
               | _ => None
               end
  | None => None
  end.
Definition probes_resolve (c : Container) : Prop :=
  forall s, probe_port c.(c_LivenessProbe) = Some s \/ probe_port c.(c_ReadinessProbe) = Some s ->
    s ∈ port_names c.

(** All the volume names the generators use, in the order of the code. *)
Definition all_volumes : list string :=
  ["config"; "data"; "lnd-macaroon"; "lnd-cert"; "grpc-tls"; managementRPCTLSVolumeName; "sidecar-tls";
   orchardDataVolumeName; orchardTmpVolumeName; orchardLightningMacaroonVolumeName;
   orchardLightningCertVolumeName; orchardLightningKeyVolumeName; orchardLightningCAVolumeName;
   orchardTaprootMacaroonVolumeName; orchardTaprootCertVolumeName].

(** An optional secret volume has at most its own name. *)
Lemma secretVolume_names n ref : vol_Name <$> secretVolume n ref `sublist_of` [n].
Proof. destruct ref; [done|apply sublist_nil_l]. Qed.

Lemma sublist_names {A} {f : A -> string} (l1 l2 : list A) ns1 ns2 :
  f <$> l1 `sublist_of` ns1 -> f <$> l2 `sublist_of` ns2 -> f <$> (l1 ++ l2) `sublist_of` ns1 ++ ns2.
Proof. rw fmap_app. apply sublist_app. Qed.

#[local] Hint Resolve secretVolume_names sublist_nil_l : core.

Lemma mint_volume_names mint : vol_Name <$> generateVolumes mint `sublist_of` take 7 all_volumes.
Proof.
  unfold generateVolumes.
  apply (sublist_names _ _ ["config"] (drop 1 (take 7 all_volumes))); [done|].
  apply (sublist_names _ _ ["data"] (drop 2 (take 7 all_volumes))); [done|].
  apply (sublist_names _ _ ["lnd-macaroon"; "lnd-cert"] (drop 4 (take 7 all_volumes))).
  { destruct (activeLND mint); [by apply (sublist_names _ _ [_])|apply sublist_nil_l]. }
  apply (sublist_names _ _ ["grpc-tls"] (drop 5 (take 7 all_volumes))).
  { destruct (activeGRPC mint); auto. }
  apply (sublist_names _ _ [managementRPCTLSVolumeName] ["sidecar-tls"]).
  { by destruct (ManagementRPCTLSEnabled _); [|apply sublist_nil_l]. }
  destruct (activeSidecar mint) as [sc|]; [|apply sublist_nil_l].
  destruct (sc_EnableTLS sc); auto.
Qed.

Lemma orchard_volume_names mint : vol_Name <$> GenerateOrchardVolumes mint `sublist_of` drop 7 all_volumes.
Proof.
  unfold GenerateOrchardVolumes. destruct (spec_Orchard _) as [o|]; [|apply sublist_nil_l].
  destruct (or_Enabled o); [|apply sublist_nil_l]. cbn [negb].
  apply (sublist_names _ _ [_; _] (drop 9 all_volumes)); [done|].
  apply (sublist_names _ _ [_; _; _; _] (drop 13 all_volumes)).
  - destruct (or_Lightning o); [|apply sublist_nil_l].
    repeat (apply (sublist_names _ _ [_]); [auto|]). auto.
  - destruct (or_TaprootAssets o); [|apply sublist_nil_l].
    apply (sublist_names _ _ [_]); auto.
Qed.

Lemma management_volume mint :
  ManagementRPCTLSEnabled mint.(mint_Spec) = true ->
  In (mkVolume managementRPCTLSVolumeName (VolumeSecret (ManagementRPCTLSSecretName mint.(mint_Spec) (mint_Name mint))))
    (generateVolumes mint).
Proof.
  intros Et. unfold generateVolumes. do 4 (apply in_or_app; right). apply in_or_app. left. rw Et. by left.
Qed.

Lemma pod_volumes_NoDup mint : NoDup (vol_Name <$> (generateVolumes mint ++ GenerateOrchardVolumes mint)).
Proof.
  apply (sublist_NoDup _ all_volumes).
  - apply (bool_decide_unpack _). vm_compute. exact I.
  - apply (sublist_names _ _ (take 7 all_volumes) (drop 7 all_volumes));
      [apply mint_volume_names|apply orchard_volume_names].
Qed.

(** ** Every mount is backed *)

Lemma key_backed n path ref : vm_Name <$> keyMount n path ref = vol_Name <$> secretVolume n ref.
Proof. by destruct ref. Qed.

Lemma app_mono {A} (l1 l2 k1 k2 : list A) : l1 ⊆ k1 -> l2 ⊆ k2 -> l1 ++ l2 ⊆ k1 ++ k2.
Proof. intros H1 H2 x. rw !elem_of_app. intros [?|?]; auto. Qed.

Lemma opt_backed {A} (p : option A) f g :
  (forall a, vm_Name <$> f a = vol_Name <$> g a) ->
  vm_Name <$> match p with Some a => f a | None => [] end ⊆
  vol_Name <$> match p with Some a => g a | None => [] end.
Proof. intros H. by destruct p; [rw H|]. Qed.

Lemma mint_mounts_backed mint :
  vm_Name <$> generateVolumeMounts mint ⊆ vol_Name <$> generateVolumes mint.
Proof.
  unfold generateVolumeMounts, generateVolumes. rw !fmap_app.
  rw !app_assoc. apply list_subseteq_app_l, app_mono; [|by destruct (ManagementRPCTLSEnabled _)].
  repeat apply app_mono.
  - intros n. rw -fmap_app /= !elem_of_cons. naive_solver.
  - apply opt_backed. intros lnd. by rw !fmap_app !key_backed.
  - apply opt_backed. intros gp. by destruct (gp_TLSSecretRef gp).
Qed.

Lemma data_volume mint : "data" ∈ vol_Name <$> generateVolumes mint.
Proof. right. left. Qed.

Lemma sidecar_mounts_backed mint gp sc :
  activeSidecar mint = Some sc ->
  vm_Name <$> (generateSidecarProcessorContainer gp sc).(c_VolumeMounts) ⊆ vol_Name <$> generateVolumes mint.
Proof.
  intros Hs n Hn. cbn in Hn. rw fmap_app elem_of_app in Hn. destruct Hn as [Hn|Hn].
  - destruct (str_empty _) in Hn; cbn in Hn; [by apply not_elem_of_nil in Hn|].
    apply list_elem_of_singleton in Hn as ->. apply data_volume.
  - unfold generateVolumes. rw Hs !fmap_app !elem_of_app. do 5 right.
    destruct (sc_EnableTLS sc), (sc_TLSSecretRef sc); cbn in *; by try apply not_elem_of_nil in Hn.
Qed.

(** mTLS towards the mint is only possible with the management RPC's TLS
    material, which a valid mint with Orchard has. *)
Lemma orchard_mtls_volume mint o :
  valid_orchard mint.(mint_Spec) -> mint.(mint_Spec).(spec_Orchard) = Some o -> o.(or_Enabled) = true ->
  orchardMintRPCMTLS mint = true -> ManagementRPCTLSEnabled mint.(mint_Spec) = true.
Proof.
  intros Hv Ho He. destruct (Hv o Ho He) as (_ & _ & _ & Hm & _).
  unfold orchardMintRPCMTLS, orchardMintRPC, orchardMint. rw Ho. simpl.
  destruct (or_Mint o) as [m|]; [|done]. simpl. destruct (orm_RPC m) as [r|] eqn:Er; [|done]. simpl.
  destruct (omr_MTLS r) as [b|] eqn:Eb; [|done]. intros ->.
  destruct (Hm m eq_refl) as (_ & _ & _ & Hr). rw Er /ptr_test Eb in Hr.
  unfold ManagementRPCTLSEnabled. rw Ho /ptr_test He. specialize (Hr eq_refl).
  destruct (spec_ManagementRPC _) as [rpc|]; [|done]. by rw Hr.
Qed.

Lemma orchard_mounts_backed mint o :
  valid_orchard mint.(mint_Spec) -> mint.(mint_Spec).(spec_Orchard) = Some o -> o.(or_Enabled) = true ->
  vm_Name <$> generateOrchardVolumeMounts mint o ⊆
  vol_Name <$> (generateVolumes mint ++ GenerateOrchardVolumes mint).
Proof.
  intros Hv Ho He. unfold generateOrchardVolumeMounts, GenerateOrchardVolumes. rw Ho He.
  cbn [negb]. assert (Hd := data_volume mint).
  assert (Hm : vm_Name <$> append_if (orchardMintRPCMTLS mint)
     [mkVolumeMount managementRPCTLSVolumeName orchardManagementRPCTLSMountPath "" true] ⊆
     vol_Name <$> generateVolumes mint).
  { destruct (orchardMintRPCMTLS mint) eqn:Em; [|apply list_subseteq_nil].
    intros n ->%list_elem_of_singleton. unfold generateVolumes.
    rw (orchard_mtls_volume mint o) // !fmap_app !elem_of_app. do 4 right. left. left. }
  rw (fmap_app vol_Name (generateVolumes mint)). revert Hd Hm.
  generalize (vol_Name <$> generateVolumes mint) as vs. intros vs Hd Hm.
  rw !fmap_app !app_assoc. apply app_mono; [apply app_mono|].
  - intros n. rw !elem_of_app. intros [Hn|Hn]; [|left; by apply Hm].
    rw /= !elem_of_cons in Hn. rw /= !elem_of_cons. naive_solver.
  - apply opt_backed. intros l. by rw !fmap_app !key_backed.
  - apply opt_backed. intros t. by rw !fmap_app !key_backed.
Qed.

(** ** Generation succeeds *)

Section Totality.
Context `{ControllerUtilLaws, QuantitiesLaws}.

Lemma resources_ok {A} l1 l2 (f : ResourceList -> ResourceList -> A) :
  Forall (fun kv => In kv.2 quantity_literals) l1 -> Forall (fun kv => In kv.2 quantity_literals) l2 ->
  exists a, (let? r1 := resourceList l1 in let? r2 := resourceList l2 in Ok (f r1 r2)) = Ok a.
Proof.
  intros [r1 E1]%resourceList_ok [r2 E2]%resourceList_ok. rw E1 E2. by eexists.
Qed.

Lemma getResourceRequirements_ok mint : exists rr, getResourceRequirements mint = Ok rr.
Proof.
  unfold getResourceRequirements. destruct (spec_Resources _) as [rr|]; [by eexists|].
  apply (resources_ok _ _ (fun r l => mkResourceRequirements (Some l) (Some r) []));
    repeat constructor; simpl; tauto.
Qed.

Lemma getOrchardResourceRequirements_ok o : exists rr, getOrchardResourceRequirements o = Ok rr.
Proof.
  unfold getOrchardResourceRequirements. destruct (or_Resources o) as [rr|]; [by eexists|].
  apply (resources_ok _ _ (fun r l => mkResourceRequirements (Some l) (Some r) []));
    repeat constructor; simpl; tauto.
Qed.

Lemma orchardContainers_ok mint : exists l, orchardContainers mint = Ok l.
Proof.
  unfold orchardContainers. destruct (spec_Orchard _) as [o|]; [|by eexists].
  destruct (or_Enabled o); [|by eexists]. unfold GenerateOrchardContainer.
  destruct (getOrchardResourceRequirements_ok o) as [rr ->]. by eexists.
Qed.

Lemma generatePodSpec_ok mint : exists pod, generatePodSpec mint = Ok pod.
Proof.
  unfold generatePodSpec, generateMintContainer.
  destruct (getResourceRequirements_ok mint) as [rr ->], (orchardContainers_ok mint) as [l Hl].
  rw Hl. by eexists.
Qed.

Lemma GenerateDeployment_ok mint h : exists d, GenerateDeployment mint h = Ok d.
Proof.
  unfold GenerateDeployment, set_reference. destruct (generatePodSpec_ok mint) as [pod ->].
  destruct (set_reference_fresh mint (mint_Name mint) (mintSelectorLabels mint) None) as [m Hm].
  simpl. rw Hm. by eexists.
Qed.
End Totality.

(** ** The containers of a generated pod *)

Inductive pod_container `{Quantities} (mint : CashuMint) : Container -> Prop :=
  | container_sidecar gp sc :
      activeSidecar mint = Some sc -> pod_container mint (generateSidecarProcessorContainer gp sc)
  | container_ldk ldk : pod_container mint (generateLDKContainer ldk)
  | container_mint c : generateMintContainer mint = Ok c -> pod_container mint c
  | container_orchard o c :
      mint.(mint_Spec).(spec_Orchard) = Some o -> o.(or_Enabled) = true ->
      GenerateOrchardContainer mint o = Ok c -> pod_container mint c.

Section Pod.
Context `{Quantities}.

Lemma sidecarContainers_in mint c : In c (sidecarContainers mint) -> pod_container mint c.
Proof.
  unfold sidecarContainers. rw in_app_iff. intros [Hin|Hin].
  - destruct (activeGRPC mint) as [gp|]; [|done]. destruct (activeSidecar mint) as [sc|] eqn:Es; [|done].
    destruct Hin as [<-|[]]. by apply container_sidecar.
  - destruct (spec_LDKNode _) as [ldk|]; [|done]. destruct (ldk_Enabled ldk); [|done].
    destruct Hin as [<-|[]]. apply container_ldk.
Qed.

Lemma orchardContainers_in mint l c : orchardContainers mint = Ok l -> In c l -> pod_container mint c.
Proof.
  unfold orchardContainers. destruct (spec_Orchard _) as [o|] eqn:Eo; intros Hl Hin; op_inv; subst; [|done].
  destruct (or_Enabled o) eqn:Ee; op_inv; subst; [|done]. destruct Hin as [<-|[]]. by eapply container_orchard.
Qed.

Lemma generatePodSpec_containers mint pod c :
  generatePodSpec mint = Ok pod -> In c pod.(ps_Containers) -> pod_container mint c.
Proof.
  unfold generatePodSpec. intros Hp Hin. op_inv. subst pod. cbn in Hin.
  rw in_app_iff in Hin. destruct Hin as [Hin|[<-|Hin]].
  - by apply sidecarContainers_in.
  - by apply container_mint.
  - by eapply orchardContainers_in.
Qed.

Lemma generatePodSpec_volumes mint pod :
  generatePodSpec mint = Ok pod -> pod.(ps_Volumes) = generateVolumes mint ++ GenerateOrchardVolumes mint.
Proof. unfold generatePodSpec. intros Hp. op_inv. by subst. Qed.

Lemma generateMintContainer_name mint c : generateMintContainer mint = Ok c -> c_Name c = "mintd".
Proof. unfold generateMintContainer. intros Hc. op_inv. by subst. Qed.

Lemma orchardContainers_names mint l : orchardContainers mint = Ok l -> c_Name <$> l `sublist_of` [orchardStr].
Proof.
  unfold orchardContainers. destruct (spec_Orchard _) as [o|]; [|intros [= <-]; apply sublist_nil_l].
  destruct (or_Enabled o); [|intros [= <-]; apply sublist_nil_l].
  unfold GenerateOrchardContainer. intros Hc. op_inv. by subst.
Qed.

Lemma sidecarContainers_names mint : c_Name <$> sidecarContainers mint `sublist_of` ["grpc-processor"; "ldk-node"].
Proof.
  unfold sidecarContainers. rw fmap_app. apply (sublist_app _ ["grpc-processor"] _ ["ldk-node"]).
  - destruct (activeGRPC mint), (activeSidecar mint); try apply sublist_nil_l. done.
  - destruct (spec_LDKNode _) as [ldk|]; [destruct (ldk_Enabled ldk)|]; try apply sublist_nil_l. done.
Qed.

Lemma container_names_NoDup mint pod :
  generatePodSpec mint = Ok pod -> NoDup (c_Name <$> pod.(ps_Containers)).
Proof.
  unfold generatePodSpec. intros Hp. op_inv. subst pod. cbn [ps_Containers].
  apply (sublist_NoDup _ ["grpc-processor"; "ldk-node"; "mintd"; orchardStr]).
  - apply (bool_decide_unpack _). vm_compute. exact I.
  - apply (sublist_names _ _ ["grpc-processor"; "ldk-node"]); [apply sidecarContainers_names|].
    apply (sublist_names [_] _ ["mintd"] [orchardStr]); [|by eapply orchardContainers_names].
    erewrite fmap_cons, generateMintContainer_name; done.
Qed.

Lemma pod_container_backed mint pod c :
  valid_orchard mint.(mint_Spec) -> generatePodSpec mint = Ok pod -> pod_container mint c -> backed pod c.
Proof.
  intros Hv Hp Hc. unfold backed, volume_names, mount_names. rw (generatePodSpec_volumes _ _ Hp).
  destruct Hc as [gp sc Hs|ldk|c Hc|o c Ho He Hc].
  - rw (fmap_app vol_Name (generateVolumes mint)). apply list_subseteq_app_l. by apply sidecar_mounts_backed.
  - rw (fmap_app vol_Name (generateVolumes mint)). apply list_subseteq_app_l. intros n ->%list_elem_of_singleton. apply data_volume.
  - rw (fmap_app vol_Name (generateVolumes mint)). apply list_subseteq_app_l. unfold generateMintContainer in Hc. op_inv. subst c.
    apply mint_mounts_backed.
  - unfold GenerateOrchardContainer in Hc. op_inv. subst c. by apply orchard_mounts_backed.
Qed.

Lemma pod_container_probes mint c : pod_container mint c -> probes_resolve c.
Proof.
  intros Hc s Hs. destruct Hc as [gp sc Hsc|ldk|c Hc|o c Ho He Hc]; [by destruct Hs..| |].
  - unfold generateMintContainer in Hc. op_inv. subst c. cbn in Hs. destruct Hs as [[= <-]|[= <-]]; left.
  - unfold GenerateOrchardContainer in Hc. op_inv. subst c. cbn in Hs. destruct Hs as [[= <-]|[= <-]]; left.
Qed.
End Pod.

(** C27: the Deployment of an accepted mint is always generated and its pod is
    well formed: the selector is the pod's labels, volume and container names
    are unique, every mount of every container (mint, sidecars, Orchard) is
    backed by a volume of the pod, and every probe names a port of its
    container.  The config hash is the pod's annotation. *)
Theorem GenerateDeployment_wellformed `{ControllerUtilLaws, QuantitiesLaws} mint h :
  valid_spec mint.(mint_Spec) ->
  exists d, GenerateDeployment mint h = Ok d /\ managed mint (mint_Name mint) d.(dep_Meta) /\
    d.(dep_Selector) = d.(dep_Template).(pt_Labels) /\
    d.(dep_Template).(pt_Annotations) = Some {[ "config-hash" := h ]} /\
    let pod := d.(dep_Template).(pt_Spec) in
    NoDup (volume_names pod) /\ NoDup (c_Name <$> pod.(ps_Containers)) /\
    forall c, In c pod.(ps_Containers) -> backed pod c /\ probes_resolve c.
Proof.
  intros Hv. destruct (GenerateDeployment_ok mint h) as [d Hd]. exists d. split; [done|].
  unfold GenerateDeployment, set_reference in Hd. op_inv. subst d. cbn.
  match goal with E : SetControllerReference _ _ = Ok _ |- _ =>
    apply set_reference_managed in E as (Hm & _); [|reflexivity] end.
  match goal with E : generatePodSpec _ = Ok _ |- _ => rename E into Hp end.
  split; [done|]. split; [done|]. split; [done|].
  split; [by unfold volume_names; rw (generatePodSpec_volumes _ _ Hp); apply pod_volumes_NoDup|].
  split; [by eapply container_names_NoDup|]. intros c Hc.
  apply (generatePodSpec_containers _ _ _ Hp) in Hc.
  split; [|by eapply pod_container_probes]. by eapply pod_container_backed; [apply valid_orch|..].
Qed.

(** ** Secrets and ports across components *)

(** The variables of one group of [generateEnvironmentVariables] are not in
    the others. *)
Lemma env_named_app n l1 l2 : env_named n (l1 ++ l2) = env_named n l1 ++ env_named n l2.
Proof. apply List.filter_app. Qed.

Lemma env_named_elsewhere n mint :
  In n ["CDK_MINTD_MNEMONIC"; "CDK_MINTD_MANAGEMENT_PORT"; "CDK_MINTD_MINT_MANAGEMENT_ENABLED"] ->
  env_named n (mintCoreEnvVars mint) = [] /\ env_named n (mintLoggingEnvVars mint) = [] /\
  env_named n (mintPrometheusEnvVars mint) = [] /\ env_named n (mintPaymentBackendEnvVars mint) = [] /\
  env_named n (mintLDKEnvVars mint) = [] /\ env_named n (mintHTTPCacheEnvVars mint) = [].
Proof.
  unfold mintLoggingEnvVars, mintPrometheusEnvVars, mintPaymentBackendEnvVars, mintLNBitsEnvVars,
    mintGRPCProcessorEnvVars, mintLDKEnvVars, refEnv, mintHTTPCacheEnvVars, append_if.
  intros [<-|[<-|[<-|[]]]]; repeat split; repeat case_match; reflexivity.
Qed.

Lemma mnemonic_named mint :
  env_named "CDK_MINTD_MNEMONIC" (generateEnvironmentVariables mint) = mintMnemonicEnvVars mint.
Proof.
  destruct (env_named_elsewhere "CDK_MINTD_MNEMONIC" mint ltac:(simpl; tauto)) as (E1 & E2 & E3 & E4 & E5 & E6).
  unfold generateEnvironmentVariables. rw !env_named_app E1 E2 E3 E4 E5 E6 !app_nil_r.
  unfold mintManagementRPCEnvVars, mintMnemonicEnvVars, append_if. repeat case_match; reflexivity.
Qed.

Lemma management_named n mint rpc :
  In n ["CDK_MINTD_MANAGEMENT_PORT"; "CDK_MINTD_MINT_MANAGEMENT_ENABLED"] ->
  mint.(mint_Spec).(spec_ManagementRPC) = Some rpc -> rpc.(rpc_Enabled) = true ->
  env_named n (generateEnvironmentVariables mint) =
    env_named n [envValue "CDK_MINTD_MINT_MANAGEMENT_ENABLED" trueStr;
                 envValue "CDK_MINTD_MANAGEMENT_PORT" (Itoa (managementPort rpc))].
Proof.
  intros Hn Hr He. destruct (env_named_elsewhere n mint ltac:(simpl in *; tauto)) as (E1 & E2 & E3 & E4 & E5 & E6).
  unfold generateEnvironmentVariables. rw !env_named_app E1 E2 E3 E4 E5 E6 !app_nil_r.
  unfold mintManagementRPCEnvVars, mintMnemonicEnvVars, append_if. rw Hr He. cbn [negb].
  destruct Hn as [<-|[<-|[]]]; repeat case_match; reflexivity.
Qed.

(** The mint container of a generated pod. *)
Lemma mintd_env `{Quantities} mint pod c :
  generatePodSpec mint = Ok pod -> In c pod.(ps_Containers) -> c.(c_Name) = "mintd" ->
  c.(c_Env) = generateEnvironmentVariables mint.
Proof.
  intros Hp Hin Hn. apply (generatePodSpec_containers _ _ _ Hp) in Hin. destruct Hin as [gp sc Hs|ldk|c Hc|o c Ho He Hc].
  - done.
  - done.
  - unfold generateMintContainer in Hc. op_inv. by subst.
  - unfold GenerateOrchardContainer in Hc. op_inv. by subst.
Qed.

Lemma mintd_present `{Quantities} mint pod :
  generatePodSpec mint = Ok pod ->
  exists c, In c pod.(ps_Containers) /\ c.(c_Name) = "mintd" /\ c.(c_Env) = generateEnvironmentVariables mint.
Proof.
  unfold generatePodSpec. intros Hp. op_inv. subst pod. cbn [ps_Containers].
  match goal with E : generateMintContainer _ = Ok ?c |- _ => exists c; rename E into Hc end.
  split; [apply in_or_app; right; by left|]. split; [by eapply generateMintContainer_name|].
  unfold generateMintContainer in Hc. op_inv. by subst.
Qed.

(** C28: the seed reaches the mint by reference only.  In every generated
    Deployment the mint's container takes [CDK_MINTD_MNEMONIC] from the Secret
    the user names, if any; otherwise, if a seed is to be generated, from the
    entry of the generated Secret, in the same namespace, that holds the phrase:
    the existing one, or the 24 words made of the fresh entropy; with neither
    the variable is not set. *)
Theorem mnemonic_env_provided `{ControllerUtilLaws, Quantities} mint h d c existing rnd s :
  GenerateDeployment mint h = Ok d -> In c d.(dep_Template).(pt_Spec).(ps_Containers) -> c.(c_Name) = "mintd" ->
  GenerateMnemonicSecret mint existing rnd = Ok s ->
  let mi := mint.(mint_Spec).(spec_MintInfo) in
  (forall r, mi.(mi_MnemonicSecretRef) = Some r ->
     container_env "CDK_MINTD_MNEMONIC" c = Some (envSecret "CDK_MINTD_MNEMONIC" (Some r))) /\
  (mi.(mi_MnemonicSecretRef) = None -> mi.(mi_AutoGenerateMnemonic) = false ->
     container_env "CDK_MINTD_MNEMONIC" c = None) /\
  (mi.(mi_MnemonicSecretRef) = None -> mi.(mi_AutoGenerateMnemonic) = true ->
     s.(sec_Meta).(om_Namespace) = d.(dep_Meta).(om_Namespace) /\
     exists phrase, env_secret "CDK_MINTD_MNEMONIC" s phrase c /\
       (existing <> "" -> phrase = existing) /\ (existing = "" -> generateBIP39Mnemonic rnd = Ok phrase)).
Proof.
  intros Hd Hin Hn Hs. unfold GenerateDeployment, set_reference in Hd. op_inv. subst d. cbn in Hin |- *.
  match goal with E : generatePodSpec _ = Ok _ |- _ => rename E into Hp end.
  match goal with E : SetControllerReference _ _ = Ok _ |- _ =>
    apply set_reference_managed in E as (Hdm & _ & _); [|reflexivity] end.
  assert (Henv : container_env "CDK_MINTD_MNEMONIC" c = last (mintMnemonicEnvVars mint))
    by (unfold container_env; by rw (mintd_env mint _ c Hp Hin Hn) mnemonic_named).
  unfold env_secret. rw Henv. unfold mintMnemonicEnvVars. split; [by intros r ->|]. split; [by intros -> ->|].
  intros -> ->. unfold GenerateMnemonicSecret in Hs. op_inv. subst s. cbn.
  match goal with E : SetControllerReference _ _ = Ok _ |- _ =>
    apply set_reference_managed in E as (Hm & _ & _); [|reflexivity] end.
  split; [by rw (managed_namespace _ _ _ Hm) (managed_namespace _ _ _ Hdm)|].
  eexists. split.
  - do 3 eexists. do 3 (split; [reflexivity|]). split; [by rw (managed_name _ _ _ Hm)|apply (lookup_insert_eq ∅)].
  - split; [intros Hne; destruct existing; [done|]|intros ->]; cbn in *; by op_inv.
Qed.

Lemma defaultSpec_orchard name spec :
  exists engine tls, (defaultSpec name spec).(spec_Orchard) =
    ptr_upd_if or_Enabled (defaultOrchardConfig engine tls) spec.(spec_Orchard).
Proof. unfold defaultSpec. rw defaultOrchard_fields. cbn. by eexists _, _. Qed.

Lemma defaultSpec_management name spec :
  (defaultSpec name spec).(spec_ManagementRPC) =
    ptr_upd_if rpc_Enabled defaultManagementRPC (orchard_rpc spec.(spec_Orchard) spec.(spec_ManagementRPC)).
Proof. unfold defaultSpec. rw defaultOrchard_fields. cbn. reflexivity. Qed.

Lemma default_orchard_mint mint o :
  mint.(mint_Spec).(spec_Orchard) = Some o -> o.(or_Enabled) = true ->
  exists tls, orchardMint (Default mint) = alloc_upd emptyOrchardMint (defaultOrchardMint tls) o.(or_Mint).
Proof.
  intros Ho He. destruct (defaultSpec_orchard (mint_Name mint) (mint_Spec mint)) as (engine & tls & Hs).
  exists tls. unfold orchardMint. change (mint_Spec (Default mint)) with (defaultSpec (mint_Name mint) (mint_Spec mint)).
  rewrite -> Hs, Ho. unfold ptr_upd_if. simpl. rewrite -> He. reflexivity.
Qed.

Lemma default_management mint o rpc :
  mint.(mint_Spec).(spec_Orchard) = Some o -> o.(or_Enabled) = true ->
  mint.(mint_Spec).(spec_ManagementRPC) = Some rpc -> rpc.(rpc_Enabled) = true ->
  (Default mint).(mint_Spec).(spec_ManagementRPC) = Some (defaultManagementRPC rpc).
Proof.
  intros Ho He Hr Hre. change (mint_Spec (Default mint)) with (defaultSpec (mint_Name mint) (mint_Spec mint)).
  rewrite -> defaultSpec_management, Ho, Hr. unfold orchard_rpc, ptr_test. rewrite -> He. unfold ptr_upd_if. simpl.
  by rewrite -> Hre.
Qed.

Lemma management_port_env m rpc :
  m.(mint_Spec).(spec_ManagementRPC) = Some rpc -> rpc.(rpc_Enabled) = true ->
  In (envValue "CDK_MINTD_MANAGEMENT_PORT" (Itoa (managementPort rpc))) (generateEnvironmentVariables m).
Proof.
  intros Hm He. unfold generateEnvironmentVariables. do 3 (apply in_or_app; right). apply in_or_app. left.
  unfold mintManagementRPCEnvVars. rw Hm He. cbn [negb]. do 2 right. by left.
Qed.

(** An override with a port wins over [managementRPC.port]. *)
Lemma orchardMintRPCPort_spec m rpc om :
  m.(mint_Spec).(spec_ManagementRPC) = Some rpc -> (rpc.(rpc_Port) <> 0)%Z -> orchardMint m = Some om ->
  orchardMintRPCPort m = match om.(orm_RPC) with
                         | Some r => default_int rpc.(rpc_Port) r.(omr_Port)
                         | None => rpc.(rpc_Port)
                         end.
Proof.
  intros Hm Hp Ho. unfold orchardMintRPCPort, orchardMintRPC. rw Hm Ho. cbn.
  rewrite -> (proj2 (Z.eqb_neq _ _) Hp). cbn. destruct (orm_RPC om) as [r|]; [|done].
  unfold default_int. by destruct (omr_Port r =? 0)%Z.
Qed.

(** Where Orchard reaches the mint's management RPC after defaulting.
    Without an [orchard.mint.rpc] section it follows [managementRPC.port], the
    port the mint is told to listen on; with one that leaves the port out it
    is 8086 whatever that port is, so any other [managementRPC.port] leaves
    Orchard on a port nobody serves. *)
Theorem orchard_rpc_port mint o rpc :
  mint.(mint_Spec).(spec_Orchard) = Some o -> o.(or_Enabled) = true ->
  mint.(mint_Spec).(spec_ManagementRPC) = Some rpc -> rpc.(rpc_Enabled) = true -> (rpc.(rpc_Port) <> 0)%Z ->
  let m := Default mint in
  In (envValue "CDK_MINTD_MANAGEMENT_PORT" (Itoa rpc.(rpc_Port))) (generateEnvironmentVariables m) /\
  (orchardMintRPC mint = None -> orchardMintRPCPort m = rpc.(rpc_Port)) /\
  (forall r, orchardMintRPC mint = Some r -> orchardMintRPCPort m = default_int 8086 r.(omr_Port)) /\
  (forall r, orchardMintRPC mint = Some r -> r.(omr_Port) = 0%Z ->
     orchardMintRPCPort m = rpc.(rpc_Port) <-> rpc.(rpc_Port) = 8086%Z).
Proof.
  intros Ho He Hr Hre Hp m. pose proof (default_management _ _ _ Ho He Hr Hre) as Hm.
  assert (Hport : rpc_Port (defaultManagementRPC rpc) = rpc_Port rpc) by (apply default_int_id, Hp).
  destruct (default_orchard_mint mint o Ho He) as [tls Hom].
  assert (Hrpc : orchardMintRPC mint = om ← o.(or_Mint); om.(orm_RPC))
    by (unfold orchardMintRPC, orchardMint; by rw Ho).
  unfold m. revert Hm Hom. generalize (Default mint) as d. intros d Hm Hom.
  split.
  { pose proof (management_port_env d _ Hm Hre) as Henv. unfold managementPort in Henv.
    rewrite -> Hport, default_int_id in Henv; done. }
  assert (Hp' : (rpc_Port (defaultManagementRPC rpc) <> 0)%Z) by congruence.
  pose proof (orchardMintRPCPort_spec d _ _ Hm Hp' Hom) as Ht. clear Hm Hom.
  rewrite -> Hport in Ht. rewrite -> Ht, Hrpc. clear Ht.
  unfold alloc_upd, defaultOrchardMint, ptr_upd. cbn [upd orm_RPC].
  destruct (or_Mint o) as [om|]; cbn; [|by split].
  destruct (orm_RPC om) as [r|]; cbn; [|by split].
  assert (Hd : (default_int 8086 (omr_Port r) <> 0)%Z) by (by apply default_int_nonzero).
  assert (Hid : default_int (rpc_Port rpc) (default_int 8086 (omr_Port r)) = default_int 8086 (omr_Port r)) by by apply default_int_id.
  rewrite -> Hid. split; [done|]. split; [by intros r' [= <-]|].
  intros r' [= <-] Hz. rewrite -> Hz. change (default_int 8086 0) with 8086%Z. split; congruence.
Qed.

Section Witnesses.
#[local] Existing Instance std_ControllerUtil.
#[local] Existing Instance std_ControllerUtilLaws.
#[local] Existing Instance std_Quantities.
#[local] Existing Instance std_QuantitiesLaws.

Lemma GenerateDeployment_wellformed_witness :
  exists d, GenerateDeployment fullMint "h" = Ok d /\ NoDup (volume_names d.(dep_Template).(pt_Spec)).
Proof.
  destruct (GenerateDeployment_wellformed fullMint "h" fullSpec_valid) as (d & Hd & _ & _ & _ & Hn & _).
  exists d. exact (conj Hd Hn).
Defined.

Definition sampleMnemonicSecret : Secret :=
  ok_or (mkSecret (mkTypeMeta "" "") sampleMeta "" ∅ ∅) (GenerateMnemonicSecret fullMint "seed words" (Ok [])).

Definition zeroDeployment : Deployment :=
  mkDeployment (mkTypeMeta "" "") sampleMeta None ∅ "" (FromInt 0) (FromInt 0)
    (mkPodTemplateSpec ∅ None (newPodSpec [])) 0 0 0.
Definition sampleDeployment : Deployment := ok_or zeroDeployment (GenerateDeployment fullMint "h").
Definition zeroContainer : Container := newContainer "" "".
Definition sampleMintd : Container := List.hd zeroContainer sampleDeployment.(dep_Template).(pt_Spec).(ps_Containers).

Lemma mnemonic_env_provided_witness :
  exists phrase, env_secret "CDK_MINTD_MNEMONIC" sampleMnemonicSecret phrase sampleMintd /\ phrase = "seed words".
Proof.
  assert (H : GenerateMnemonicSecret fullMint "seed words" (Ok []) = Ok sampleMnemonicSecret) by (vm_compute; reflexivity).
  assert (Hd : GenerateDeployment fullMint "h" = Ok sampleDeployment) by (vm_compute; reflexivity).
  assert (Hin : In sampleMintd sampleDeployment.(dep_Template).(pt_Spec).(ps_Containers)) by (left; reflexivity).
  assert (Hn : sampleMintd.(c_Name) = "mintd") by (vm_compute; reflexivity).
  destruct (proj2 (proj2 (mnemonic_env_provided fullMint _ _ _ _ _ _ Hd Hin Hn H)) eq_refl eq_refl) as (_ & p & He & Hp & _).
  exists p. exact (conj He (Hp ltac:(discriminate))).
Defined.

Definition portMint : CashuMint :=
  fullMint <| mint_Spec ::= fun s =>
    s <| spec_ManagementRPC := Some (mkManagementRPCConfig true "" 9999 None) |>
      <| spec_Orchard := Some (sampleOrchard <| or_Mint :=
           Some (emptyOrchardMint <| orm_RPC := Some (mkOrchardMintRPCConfig "" 0 None) |>) |>) |> |>.

Lemma orchard_rpc_port_witness : orchardMintRPCPort (Default portMint) = 8086%Z.
Proof.
  apply (proj1 (proj2 (proj2 (orchard_rpc_port portMint _ _ eq_refl eq_refl eq_refl eq_refl ltac:(discriminate))))
    (mkOrchardMintRPCConfig "" 0 None) eq_refl).
Defined.
End Witnesses.
