(* ===== verification/Storage.v ===== *)
(** * Persistent storage: [pvc.go] and [GenerateOrchardPVC] of [orchard.go]

    The claims for the mint's data directory and for Orchard's, and the proof
    that they are the claims the pod mounts. *)

From S2P Require Import Prelude Kube Types Platform Samples Common Validation Toml ConfigToml Mnemonic.
From S2P Require Import Postgres ManagementRPC Orchard Workload.

Section Claims.
Context `{Quantities, ControllerUtil}.

(** The size and class a storage section asks for. [pvc.go: GeneratePVC 44-47] *)
Definition storageSize (s : option StorageConfig) : string :=
  match s with
  | Some s => if negb (str_empty s.(sto_Size)) then s.(sto_Size) else DefaultStorageSize
  | None => DefaultStorageSize
  end.
Definition storageClass (s : option StorageConfig) : option string := c ← s; c.(sto_StorageClassName).

(** The claim both generators build. [pvc.go: GeneratePVC 49-79] *)
Definition claim (mint : CashuMint) (name : string) (labels : StringMap) (s : option StorageConfig) :
    res (option PersistentVolumeClaim) :=
  let? size := MustParse (storageSize s) in
  let? meta := set_reference mint (newMeta name (mint_Namespace mint) labels None) in
  Ok (Some (mkPersistentVolumeClaim (mkTypeMeta "v1" "PersistentVolumeClaim") meta [ReadWriteOnce]
    {[ "storage" := size ]} (storageClass s))).

(** [mint.Spec.Database.Engine] keeps its data in a file. *)
Definition file_engine (engine : string) : bool :=
  String.eqb engine DatabaseEngineSQLite || String.eqb engine DatabaseEngineRedb.

(** [pvc.go: GeneratePVC] *)
Definition GeneratePVC (mint : CashuMint) : res (option PersistentVolumeClaim) :=
  let engine := mint.(mint_Spec).(spec_Database).(db_Engine) in
  if negb (String.eqb engine "sqlite") && negb (String.eqb engine "redb") then Ok None
  else claim mint (mint_Name mint +:+ "-data") (componentLabels mint "storage") mint.(mint_Spec).(spec_Storage).

(** [orchard.go: GenerateOrchardPVC] *)
Definition GenerateOrchardPVC (mint : CashuMint) : res (option PersistentVolumeClaim) :=
  match mint.(mint_Spec).(spec_Orchard) with
  | Some o => if o.(or_Enabled)
              then claim mint (orchardPVCName mint) (orchardLabels mint) o.(or_Storage)
              else Ok None
  | None => Ok None
  end.
End Claims.

(** ** What the pod's volumes refer to *)

(** A volume is backed by the generated config map or by a claim whose
    generator does not skip. *)
Definition source_known (mint : CashuMint) (v : Volume) : Prop :=
  match v.(vol_Source) with
  | VolumeConfigMap n => n = mint_Name mint +:+ "-config"
  | VolumePVC n =>
      (n = mint_Name mint +:+ "-data" /\ file_engine mint.(mint_Spec).(spec_Database).(db_Engine) = true) \/
      (n = orchardPVCName mint /\ orchardEnabled mint = true)
  | VolumeEmptyDir | VolumeSecret _ => True
  end.

Lemma secretVolume_known mint n ref : Forall (source_known mint) (secretVolume n ref).
Proof. by destruct ref; repeat constructor. Qed.

#[local] Hint Resolve secretVolume_known Forall_app_2 Forall_nil_2 : core.

Lemma mint_volumes_known mint : Forall (source_known mint) (generateVolumes mint).
Proof.
  unfold generateVolumes. apply Forall_app_2; [by repeat constructor|].
  apply Forall_app_2.
  { apply Forall_cons_2; [|done]. unfold source_known. cbn.
    destruct (_ || _) eqn:E; [by left; split|done]. }
  apply Forall_app_2; [by destruct (activeLND mint); auto|].
  apply Forall_app_2; [by destruct (activeGRPC mint); auto|].
  apply Forall_app_2; [by destruct (ManagementRPCTLSEnabled _); repeat constructor|].
  destruct (activeSidecar mint) as [sc|]; [|done]. by destruct (sc_EnableTLS sc); auto.
Qed.

Lemma orchard_volumes_known mint : Forall (source_known mint) (GenerateOrchardVolumes mint).
Proof.
  unfold GenerateOrchardVolumes. destruct (spec_Orchard _) as [o|] eqn:Eo; [|done].
  destruct (or_Enabled o) eqn:Ee; [|done]. cbn [negb].
  apply Forall_app_2; [|apply Forall_app_2; [destruct (or_Lightning o)|destruct (or_TaprootAssets o)]; auto 10].
  apply Forall_cons_2; [right|by repeat constructor].
  split; [done|]. unfold orchardEnabled. by rw Eo.
Qed.

Section Provision.
Context `{Quantities, ControllerUtilLaws}.

Lemma claim_named mint name labels s p :
  labels !! "app.kubernetes.io/instance" = Some (mint_Name mint) ->
  claim mint name labels s = Ok (Some p) -> managed mint name p.(pvc_Meta).
Proof.
  intros Hl Hc. unfold claim, set_reference in Hc. op_inv. simplify_eq. cbn.
  match goal with E : SetControllerReference _ _ = Ok _ |- _ =>
    by apply set_reference_managed in E as (? & _ & _) end.
Qed.

Lemma claim_ok mint name labels s q :
  labels !! "app.kubernetes.io/instance" = Some (mint_Name mint) ->
  MustParse (storageSize s) = Ok q ->
  exists p, claim mint name labels s = Ok (Some p) /\ managed mint name p.(pvc_Meta) /\
    p.(pvc_Requests) !! "storage" = Some q /\ p.(pvc_StorageClassName) = storageClass s.
Proof.
  intros Hl Hq. destruct (set_reference_fresh mint name labels None) as [m Hm].
  assert (Hc : claim mint name labels s = Ok (Some (mkPersistentVolumeClaim
     (mkTypeMeta "v1" "PersistentVolumeClaim") m [ReadWriteOnce] {[ "storage" := q ]} (storageClass s)))).
  { unfold claim, set_reference. rw Hq. simpl. by rw Hm. }
  eexists. split; [exact Hc|]. split; [by eapply claim_named|]. split; [apply lookup_singleton_eq|done].
Qed.

Lemma GeneratePVC_engine mint :
  GeneratePVC mint =
  if file_engine mint.(mint_Spec).(spec_Database).(db_Engine)
  then claim mint (mint_Name mint +:+ "-data") (componentLabels mint "storage") mint.(mint_Spec).(spec_Storage)
  else Ok None.
Proof.
  unfold GeneratePVC, file_engine. rw -negb_orb.
  change DatabaseEngineSQLite with "sqlite". change DatabaseEngineRedb with "redb".
  by destruct (_ || _).
Qed.

Lemma GenerateOrchardPVC_enabled mint :
  orchardEnabled mint = true ->
  GenerateOrchardPVC mint =
  claim mint (orchardPVCName mint) (orchardLabels mint) (o ← mint.(mint_Spec).(spec_Orchard); o.(or_Storage)).
Proof.
  unfold orchardEnabled, GenerateOrchardPVC. destruct (spec_Orchard _) as [o|]; [|done].
  unfold ptr_test. by intros ->.
Qed.
End Provision.

Section Sources.
Context `{Quantities, ControllerUtilLaws, UnicodeTables, X509}.

(** C29: what the pod mounts is what the operator creates.  The config volume is
    the generated config map; every claim the pod names is generated under that
    name, owned by the mint and with the requested size and class; the
    management TLS volume is the generated Secret; and the mint's data
    directory is on the generated claim whenever there is one. *)
Theorem pod_volumes_provided mint pod pw cm :
  generatePodSpec mint = Ok pod -> GenerateConfigMap mint pw = Ok cm ->
  (forall v n, In v pod.(ps_Volumes) -> v.(vol_Source) = VolumeConfigMap n -> n = cm.(cfg_Meta).(om_Name)) /\
  (forall v n, In v pod.(ps_Volumes) -> v.(vol_Source) = VolumePVC n ->
     exists gen storage, In (gen, storage)
         [(GeneratePVC mint, mint.(mint_Spec).(spec_Storage));
          (GenerateOrchardPVC mint, o ← mint.(mint_Spec).(spec_Orchard); o.(or_Storage))] /\
       forall q, MustParse (storageSize storage) = Ok q ->
         exists p, gen = Ok (Some p) /\ managed mint n p.(pvc_Meta) /\
           p.(pvc_Requests) !! "storage" = Some q /\ p.(pvc_StorageClassName) = storageClass storage) /\
  (forall d s, GenerateManagementRPCTLSSecret mint d = Ok (Some s) ->
     In (mkVolume managementRPCTLSVolumeName (VolumeSecret s.(sec_Meta).(om_Name))) pod.(ps_Volumes)) /\
  (forall p, GeneratePVC mint = Ok (Some p) ->
     In (mkVolume "data" (VolumePVC p.(pvc_Meta).(om_Name))) pod.(ps_Volumes)).
Proof.
  intros Hp Hc. rw (generatePodSpec_volumes _ _ Hp).
  assert (Hk : Forall (source_known mint) (generateVolumes mint ++ GenerateOrchardVolumes mint))
    by (apply Forall_app_2; [apply mint_volumes_known|apply orchard_volumes_known]).
  rewrite -> Forall_forall in Hk.
  split; [|split; [|split]].
  - intros v n Hin%list_elem_of_In Hs. specialize (Hk v Hin). unfold source_known in Hk. rw Hs in Hk. subst n.
    unfold GenerateConfigMap in Hc. op_inv. subst cm. cbn.
    match goal with E : SetControllerReference _ _ = Ok _ |- _ =>
      apply set_reference_managed in E as (Hm & _ & _); [|reflexivity] end.
    by erewrite managed_name.
  - intros v n Hin%list_elem_of_In Hs. specialize (Hk v Hin). unfold source_known in Hk. rw Hs in Hk.
    destruct Hk as [[-> He]|[-> He]].
    + exists (GeneratePVC mint), (mint_Spec mint).(spec_Storage). split; [by left|]. intros q Hq.
      rw GeneratePVC_engine He. by apply claim_ok.
    + eexists _, _. split; [right; left; reflexivity|]. intros q Hq.
      rw GenerateOrchardPVC_enabled //. by apply claim_ok.
  - intros d s Hs. unfold GenerateManagementRPCTLSSecret, set_reference in Hs.
    destruct (ManagementRPCTLSEnabled _) eqn:Et; [|done]. cbn [negb] in Hs. op_inv. simplify_eq. cbn [sec_Meta].
    match goal with E : SetControllerReference _ _ = Ok _ |- _ =>
      apply set_reference_managed in E as (Hm & _ & _); [|reflexivity] end.
    erewrite managed_name; [|done]. apply in_or_app. left. by apply management_volume.
  - intros p Hpvc. rw GeneratePVC_engine in Hpvc. destruct (file_engine _) eqn:He; [|done].
    apply claim_named in Hpvc; [|reflexivity]. erewrite managed_name; [|done].
    apply in_or_app. left. right. left. unfold file_engine in He. by rw He.
Qed.
End Sources.

(** C40: the storage size is not validated: whatever size is written, the
    validating webhook gives the same verdict, but for a file-backed database
    [GeneratePVC] panics exactly when [resource.MustParse] does on that text. *)
Theorem GeneratePVC_panics `{Quantities, MapRange, ControllerUtilLaws} mint sc :
  sc.(sto_Size) <> "" -> file_engine mint.(mint_Spec).(spec_Database).(db_Engine) = true ->
  let m := mint <| mint_Spec ::= fun s => s <| spec_Storage := Some sc |> |> in
  ValidateCreate m = ValidateCreate mint /\
  (forall msg, GeneratePVC m = Panic msg <-> MustParse sc.(sto_Size) = Panic msg) /\
  (forall q, MustParse sc.(sto_Size) = Ok q -> exists p, GeneratePVC m = Ok (Some p)).
Proof.
  intros Hs He m. split; [reflexivity|].
  assert (Hsize : storageSize (Some sc) = sc.(sto_Size)).
  { unfold storageSize. apply str_empty_false in Hs. by rw Hs. }
  assert (Hg : GeneratePVC m = claim m (mint_Name m +:+ "-data") (componentLabels m "storage") (Some sc))
    by (rewrite -> GeneratePVC_engine; unfold m; cbn; by rewrite -> He).
  rewrite -> Hg. split.
  - intros msg. unfold claim, set_reference. rewrite -> Hsize.
    destruct (MustParse (sto_Size sc)) as [q|e|s]; simpl;
      [split; [|done]|done|by split; intros [= ->]].
    destruct (set_reference_fresh m (mint_Name m +:+ "-data") (componentLabels m "storage") None) as [x Hx].
    intros Hp. exfalso. revert Hp. change (mint_Namespace m) with (mint_Namespace mint) in *. by rewrite -> Hx.
  - intros q Hq. destruct (claim_ok m (mint_Name m +:+ "-data") (componentLabels m "storage") (Some sc) q)
      as (p & Hp & _); [done|by rewrite -> Hsize|by exists p].
Qed.

Section Witnesses.
#[local] Existing Instance std_ControllerUtil.
#[local] Existing Instance std_ControllerUtilLaws.
#[local] Existing Instance std_Quantities.
#[local] Existing Instance std_MapRange.
#[local] Existing Instance std_UnicodeTables.
#[local] Existing Instance std_X509.

Definition zeroPod : PodSpec := newPodSpec [].
Definition minimalPod : PodSpec := ok_or zeroPod (generatePodSpec minimalMint).
Definition zeroConfigMap : ConfigMap := mkConfigMap (mkTypeMeta "" "") sampleMeta None.
Definition minimalConfigMap : ConfigMap := ok_or zeroConfigMap (GenerateConfigMap minimalMint "").
Definition zeroPVC : PersistentVolumeClaim := mkPersistentVolumeClaim (mkTypeMeta "" "") sampleMeta [] ∅ None.
Definition minimalPVC : PersistentVolumeClaim := ok_some zeroPVC (GeneratePVC minimalMint).

Lemma pod_volumes_provided_witness :
  In (mkVolume "data" (VolumePVC minimalPVC.(pvc_Meta).(om_Name))) minimalPod.(ps_Volumes).
Proof.
  assert (H1 : generatePodSpec minimalMint = Ok minimalPod) by (vm_compute; reflexivity).
  assert (H2 : GenerateConfigMap minimalMint "" = Ok minimalConfigMap) by (vm_compute; reflexivity).
  assert (H3 : GeneratePVC minimalMint = Ok (Some minimalPVC)) by (vm_compute; reflexivity).
  exact (proj2 (proj2 (proj2 (pod_volumes_provided minimalMint minimalPod "" minimalConfigMap H1 H2))) minimalPVC H3).
Defined.

Lemma GeneratePVC_panics_witness :
  exists msg, GeneratePVC (minimalMint <| mint_Spec ::= fun s =>
    s <| spec_Storage := Some (mkStorageConfig "large" None) |> |>) = Panic msg.
Proof.
  assert (H1 : (mkStorageConfig "large" None).(sto_Size) <> "") by discriminate.
  eexists. apply (proj1 (proj2 (GeneratePVC_panics minimalMint (mkStorageConfig "large" None) H1 eq_refl))).
  reflexivity.
Defined.
End Witnesses.
