(* ===== verification/Networking.v ===== *)
(** * Exposure: [service.go], [ingress.go], [certificate.go], [podmonitor.go]
    and the Orchard counterparts

    How traffic reaches the pod: Services, Ingresses, their certificates and the
    PodMonitor, and the proof that names, ports and selectors line up with the
    Deployment. *)

From S2P Require Import Prelude Kube Types Platform Fmt Samples Common Validation Toml ConfigToml Mnemonic.
From S2P Require Import Postgres Backup ManagementRPC Orchard Workload.

(** ** Services *)

Definition servicePort (name : string) (port : Z) (target : IntOrString) : ServicePort :=
  mkServicePort name port target ProtocolTCP.

(** The type, annotations and load balancer address a service section asks
    for. [service.go: GenerateService 39-42] *)
Definition serviceType (s : option ServiceConfig) : string :=
  match s with
  | Some s => if negb (str_empty s.(svc_Type)) then s.(svc_Type) else ServiceTypeClusterIP
  | None => ServiceTypeClusterIP
  end.
(** [service.go: GenerateService 113-116] *)
Definition serviceAnnotations (s : option ServiceConfig) : option StringMap :=
  match s ≫= svc_Annotations with Some a => Some a | None => Some ∅ end.
(** [service.go: GenerateService 137-140] *)
Definition serviceLoadBalancerIP (s : option ServiceConfig) : string :=
  if String.eqb (serviceType s) ServiceTypeLoadBalancer
  then match s with Some s => s.(svc_LoadBalancerIP) | None => "" end else "".

(** The ports of the mint's Service. [service.go: GenerateService 44-111] *)
Definition mintServicePorts (mint : CashuMint) : list ServicePort :=
  [servicePort "api" (listenPort mint) (FromString "api")] ++
  match mint.(mint_Spec).(spec_LDKNode) with
  | Some ldk =>
      append_if ldk.(ldk_Enabled)
        [servicePort "ldk" (ldkPort ldk) (FromString "ldk");
         servicePort "ldk-webserver" (ldkWebserverPort ldk) (FromString "webserver")]
  | None => []
  end ++
  match mint.(mint_Spec).(spec_ManagementRPC) with
  | Some rpc =>
      append_if rpc.(rpc_Enabled)
        [servicePort "management" (managementPort rpc) (FromInt (managementPort rpc))]
  | None => []
  end ++
  match mint.(mint_Spec).(spec_Prometheus) with
  | Some p =>
      append_if p.(prom_Enabled)
        [servicePort prometheusMetricsPortName (prometheusPort p) (FromString prometheusMetricsPortName)]
  | None => []
  end.

Section Exposure.
Context `{ControllerUtil}.

(** [service.go: GenerateService] *)
Definition GenerateService (mint : CashuMint) : res Service :=
  let labels := mintSelectorLabels mint in
  let cfg := mint.(mint_Spec).(spec_Service) in
  let? meta := set_reference mint
    (newMeta (mint_Name mint) (mint_Namespace mint) labels (serviceAnnotations cfg)) in
  Ok (mkService (mkTypeMeta "v1" "Service") meta (serviceType cfg) labels (mintServicePorts mint)
        "" (serviceLoadBalancerIP cfg)).

(** [orchard.go: GenerateOrchardService] *)
Definition GenerateOrchardService (mint : CashuMint) : res (option Service) :=
  if negb (orchardEnabled mint) then Ok None
  else
    let cfg := o ← mint.(mint_Spec).(spec_Orchard); o.(or_Service) in
    let? meta := set_reference mint
      (newMeta (orchardResourceName mint) (mint_Namespace mint) (orchardLabels mint) (serviceAnnotations cfg)) in
    Ok (Some (mkService (mkTypeMeta "v1" "Service") meta (serviceType cfg) (mintSelectorLabels mint)
      [servicePort orchardStr (orchardPort mint) (FromString orchardStr)] "" (serviceLoadBalancerIP cfg))).

(** ** Ingresses and certificates *)

(** [.TLS != nil && .TLS.Enabled] *)
Definition enabledTLS (i : IngressConfig) : option IngressTLSConfig :=
  t ← i.(ing_TLS); if t.(tls_Enabled) then Some t else None.
(** [... && .TLS.CertManager != nil && .TLS.CertManager.Enabled] *)
Definition enabledCertManager (i : IngressConfig) : option CertManagerConfig :=
  t ← enabledTLS i; c ← t.(tls_CertManager); if c.(cm_Enabled) then Some c else None.

(** [ingress.go: GenerateIngress 49-54] *)
Definition nginxAnnotations : StringMap :=
  {[ "nginx.ingress.kubernetes.io/ssl-redirect" := trueStr;
     "nginx.ingress.kubernetes.io/backend-protocol" := "HTTP";
     "nginx.ingress.kubernetes.io/enable-cors" := trueStr;
     "nginx.ingress.kubernetes.io/cors-allow-origin" := "*" ]}.

(** The generated annotations; the user's override. [ingress.go: GenerateIngress 49-74] *)
Definition ingressAnnotations (i : IngressConfig) : StringMap :=
  let annotations := nginxAnnotations in
  let annotations :=
    match enabledCertManager i with
    | Some c =>
        <[ "cert-manager.io/issuer-kind" := default_str DefaultClusterIssuerKind c.(cm_IssuerKind) ]>
        (<[ "cert-manager.io/issuer" := c.(cm_IssuerName) ]> annotations)
    | None => annotations
    end in
  match i.(ing_Annotations) with
  | Some user => user ∪ annotations
  | None => annotations
  end.

(** The secret of the TLS section, [name-tls] when unset. *)
Definition tlsSecretName (name : string) (t : IngressTLSConfig) : string :=
  default_str (name +:+ "-tls") t.(tls_SecretName).

(** The Ingress both generators build for a service port.
    [ingress.go: GenerateIngress 81-133] *)
Definition ingressFor (mint : CashuMint) (name : string) (labels : StringMap) (port : Z) (i : IngressConfig) :
    res (option Ingress) :=
  let tls := match enabledTLS i with
             | Some t => [mkIngressTLS [i.(ing_Host)] (tlsSecretName name t)]
             | None => []
             end in
  let? meta := set_reference mint
    (newMeta name (mint_Namespace mint) labels (Some (ingressAnnotations i))) in
  Ok (Some (mkIngress (mkTypeMeta "networking.k8s.io/v1" "Ingress") meta
    (Some (default_str DefaultIngressClassName i.(ing_ClassName)))
    [mkIngressRule i.(ing_Host) "/" "Prefix" name port] tls [])).

(** [p != nil && p.Enabled] *)
Definition enabledIngress (p : option IngressConfig) : option IngressConfig :=
  i ← p; if i.(ing_Enabled) then Some i else None.

(** [ingress.go: GenerateIngress] *)
Definition GenerateIngress (mint : CashuMint) : res (option Ingress) :=
  match enabledIngress mint.(mint_Spec).(spec_Ingress) with
  | None => Ok None
  | Some i => ingressFor mint (mint_Name mint) (mintSelectorLabels mint) (listenPort mint) i
  end.

(** The ingress section of an enabled Orchard. *)
Definition orchardIngress (mint : CashuMint) : option IngressConfig :=
  o ← mint.(mint_Spec).(spec_Orchard); if o.(or_Enabled) then enabledIngress o.(or_Ingress) else None.

(** [orchard.go: GenerateOrchardIngress] *)
Definition GenerateOrchardIngress (mint : CashuMint) : res (option Ingress) :=
  match orchardIngress mint with
  | None => Ok None
  | Some i => ingressFor mint (orchardResourceName mint) (orchardLabels mint) (orchardPort mint) i
  end.



(** [certificate.go: GenerateCertificate 64-92] *)
Definition certificateFor (mint : CashuMint) (name : string) (labels : StringMap) (i : IngressConfig)
    (t : IngressTLSConfig) (c : CertManagerConfig) : res (option Certificate) :=
  let? meta := set_reference mint (newMeta name (mint_Namespace mint) labels i.(ing_Annotations)) in
  Ok (Some (mkCertificate (mkTypeMeta "cert-manager.io/v1" "Certificate") meta (tlsSecretName name t)
    [i.(ing_Host)] c.(cm_IssuerName) (default_str DefaultClusterIssuerKind c.(cm_IssuerKind)) "cert-manager.io"
    (2160 * Hour) (360 * Hour) ["digital signature"; "key encipherment"])).

(** [certificate.go: GenerateCertificate] *)
Definition GenerateCertificate (mint : CashuMint) : res (option Certificate) :=
  match enabledIngress mint.(mint_Spec).(spec_Ingress) with
  | None => Ok None
  | Some i =>
      match enabledTLS i, enabledCertManager i with
      | Some t, Some c => certificateFor mint (mint_Name mint) (mintSelectorLabels mint) i t c
      | _, _ => Ok None
      end
  end.

(** [certificate.go: GenerateOrchardCertificate] *)
Definition GenerateOrchardCertificate (mint : CashuMint) : res (option Certificate) :=
  match orchardIngress mint with
  | None => Ok None
  | Some i =>
      match enabledTLS i, enabledCertManager i with
      | Some t, Some c => certificateFor mint (orchardResourceName mint) (componentLabels mint orchardStr) i t c
      | _, _ => Ok None
      end
  end.

(** ** Monitoring *)

(** [podmonitor.go: GeneratePodMonitor] *)
Definition GeneratePodMonitor (mint : CashuMint) : res (option PodMonitor) :=
  if negb (prometheusEnabled mint) then Ok None
  else
    let labels := mintSelectorLabels mint in
    let? meta := set_reference mint (newMeta (mint_Name mint) (mint_Namespace mint) labels None) in
    Ok (Some (mkPodMonitor (mkTypeMeta "monitoring.coreos.com/v1" "PodMonitor") meta labels
      [mkPodMetricsEndpoint prometheusMetricsPortName "/metrics"])).
End Exposure.

(** ** The ports of the pod *)

Definition pod_ports (pod : PodSpec) : list ContainerPort := pod.(ps_Containers) ≫= c_Ports.

(** The ports the containers declare, in order. *)
Definition sidecarPorts (mint : CashuMint) : list ContainerPort :=
  match activeGRPC mint, activeSidecar mint with
  | Some gp, Some _ => [tcpPort "grpc" (default_int 50051 gp.(gp_Port))]
  | _, _ => []
  end ++
  match mint.(mint_Spec).(spec_LDKNode) with
  | Some ldk => append_if ldk.(ldk_Enabled) [tcpPort "ldk" (ldkPort ldk); tcpPort "webserver" (ldkWebserverPort ldk)]
  | None => []
  end.
Definition metricsPorts (mint : CashuMint) : list ContainerPort :=
  match mint.(mint_Spec).(spec_Prometheus) with
  | Some p => append_if p.(prom_Enabled) [tcpPort prometheusMetricsPortName (prometheusPort p)]
  | None => []
  end.
Definition orchardPorts (mint : CashuMint) : list ContainerPort :=
  append_if (orchardEnabled mint) [tcpPort orchardStr (orchardPort mint)].

Lemma orchardPort_default mint o :
  mint.(mint_Spec).(spec_Orchard) = Some o -> default_int orchardPortDefault o.(or_Port) = orchardPort mint.
Proof. unfold orchardPort, default_int. intros ->. by destruct (or_Port o =? 0)%Z. Qed.

Section Ports.
Context `{Quantities}.

Lemma generateMintContainer_ports mint c :
  generateMintContainer mint = Ok c -> c_Ports c = [tcpPort "api" (listenPort mint)] ++ metricsPorts mint.
Proof. unfold generateMintContainer. intros Hc. op_inv. by subst. Qed.

Lemma orchardContainers_ports mint l : orchardContainers mint = Ok l -> l ≫= c_Ports = orchardPorts mint.
Proof.
  unfold orchardContainers, orchardPorts, orchardEnabled.
  destruct (spec_Orchard _) as [o|] eqn:Eo; [|by intros [= <-]]. unfold ptr_test.
  destruct (or_Enabled o); [|by intros [= <-]]. unfold GenerateOrchardContainer. intros Hc. op_inv. subst.
  by rewrite <- (orchardPort_default mint o Eo).
Qed.

Lemma sidecarContainers_ports mint : sidecarContainers mint ≫= c_Ports = sidecarPorts mint.
Proof.
  unfold sidecarContainers, sidecarPorts. etrans; [apply bind_app|]. f_equal.
  - by destruct (activeGRPC mint), (activeSidecar mint).
  - destruct (spec_LDKNode _) as [ldk|]; [|done]. by destruct (ldk_Enabled ldk).
Qed.

Lemma generatePodSpec_ports mint pod :
  generatePodSpec mint = Ok pod ->
  pod_ports pod = sidecarPorts mint ++ ([tcpPort "api" (listenPort mint)] ++ metricsPorts mint) ++ orchardPorts mint.
Proof.
  unfold generatePodSpec, pod_ports. intros Hp. op_inv. subst pod. cbn [ps_Containers].
  etrans; [apply bind_app|]. f_equal; [apply sidecarContainers_ports|].
  etrans; [apply (bind_app c_Ports [_])|]. f_equal; [|by apply orchardContainers_ports].
  etrans; [apply app_nil_r|]. by apply generateMintContainer_ports.
Qed.

Lemma pod_port_names_NoDup mint pod : generatePodSpec mint = Ok pod -> NoDup (cp_Name <$> pod_ports pod).
Proof.
  intros Hp. rewrite -> (generatePodSpec_ports _ _ Hp).
  apply (sublist_NoDup _ ["grpc"; "ldk"; "webserver"; "api"; prometheusMetricsPortName; orchardStr]).
  { apply (bool_decide_unpack _). vm_compute. exact I. }
  unfold sidecarPorts, metricsPorts, orchardPorts.
  apply (sublist_names _ _ ["grpc"; "ldk"; "webserver"] ["api"; prometheusMetricsPortName; orchardStr]);
    [apply (sublist_names _ _ ["grpc"] ["ldk"; "webserver"])|
     apply (sublist_names _ _ ["api"; prometheusMetricsPortName] [orchardStr]);
       [apply (sublist_names _ _ ["api"] [prometheusMetricsPortName])|]].
  - destruct (activeGRPC mint), (activeSidecar mint); try apply sublist_nil_l. done.
  - destruct (spec_LDKNode _) as [ldk|]; [destruct (ldk_Enabled ldk)|]; try apply sublist_nil_l. done.
  - done.
  - destruct (spec_Prometheus _) as [p|]; [destruct (prom_Enabled p)|]; try apply sublist_nil_l. done.
  - destruct (orchardEnabled mint); [done|apply sublist_nil_l].
Qed.

(** A named target port resolves to the pod port of the same number.  A
    numeric one need not be declared by the pod: it is the port itself, and a
    process of the pod is told to serve its management RPC on it. *)
Definition target_resolves (pod : PodSpec) (p : ServicePort) : Prop :=
  match p.(sp_TargetPort) with
  | FromString s => In (tcpPort s p.(sp_Port)) (pod_ports pod)
  | FromInt n => n = p.(sp_Port) /\ exists c, In c pod.(ps_Containers) /\ c.(c_Name) = "mintd" /\
      env_given "CDK_MINTD_MINT_MANAGEMENT_ENABLED" "true" c /\ env_given "CDK_MINTD_MANAGEMENT_PORT" (Itoa n) c
  end.

Lemma mintServicePorts_resolve mint pod :
  generatePodSpec mint = Ok pod -> Forall (target_resolves pod) (mintServicePorts mint).
Proof.
  intros Hp. unfold mintServicePorts, target_resolves. rewrite -> (generatePodSpec_ports _ _ Hp).
  apply Forall_app_2; [|apply Forall_app_2; [|apply Forall_app_2]].
  - apply Forall_cons_2; [|apply Forall_nil_2]. apply in_or_app. right. by left.
  - unfold sidecarPorts. destruct (spec_LDKNode _) as [ldk|]; [|apply Forall_nil_2].
    destruct (ldk_Enabled ldk); [|apply Forall_nil_2].
    apply Forall_cons_2; [|apply Forall_cons_2; [|apply Forall_nil_2]];
      (apply in_or_app; left; apply in_or_app; right); [by left|by right; left].
  - destruct (spec_ManagementRPC _) as [rpc|] eqn:Hr; [|apply Forall_nil_2].
    destruct (rpc_Enabled rpc) eqn:He; [|apply Forall_nil_2]. apply Forall_cons_2; [|apply Forall_nil_2].
    split; [done|]. destruct (mintd_present mint pod Hp) as (c & Hin & Hn & Hc). exists c. split; [done|]. split; [done|].
    unfold env_given, container_env. rw Hc. split; eexists.
    + by rw (management_named _ mint rpc); [|right; left|..].
    + by rw (management_named _ mint rpc); [|left|..].
  - unfold metricsPorts. destruct (spec_Prometheus _) as [p|]; [|apply Forall_nil_2].
    destruct (prom_Enabled p); [|apply Forall_nil_2]. apply Forall_cons_2; [|apply Forall_nil_2].
    apply in_or_app. right. apply in_or_app. left. by right; left.
Qed.

(** The numeric target is the management port. *)
Lemma mintServicePorts_numeric mint n :
  (exists p, In p (mintServicePorts mint) /\ p.(sp_TargetPort) = FromInt n) <->
  exists rpc, mint.(mint_Spec).(spec_ManagementRPC) = Some rpc /\ rpc.(rpc_Enabled) = true /\
    n = default_int 8086 rpc.(rpc_Port).
Proof.
  unfold mintServicePorts. split.
  - intros (p & Hin & Ht). rw !in_app_iff in Hin.
    destruct (spec_LDKNode _) as [ldk|], (spec_ManagementRPC _) as [rpc|], (spec_Prometheus _) as [pr|];
      try destruct (ldk_Enabled ldk); try destruct (rpc_Enabled rpc) eqn:He; try destruct (prom_Enabled pr);
      cbn in Hin; intuition (subst; try discriminate); injection Ht as <-; by exists rpc.
  - intros (rpc & Hr & He & ->). exists (servicePort "management" (managementPort rpc) (FromInt (managementPort rpc))).
    split; [|done]. rw Hr He. do 2 (apply in_or_app; right). apply in_or_app. left. by left.
Qed.
End Ports.

(** ** Properties *)

Section Properties.
Context `{ControllerUtilLaws, Quantities}.

(** C30: traffic reaches the right container.  The mint's Service selects the
    Deployment's pods, its ports have distinct names, each named target port
    is the name of exactly one port of the pod and that port has the same
    number.  The one numeric target is there exactly if the management RPC is
    on; it is [managementRPC.port], or 8086, and the environment of the mint's
    container switches the RPC on and puts it on this very port.  The Orchard
    Service selects the same pods and reaches the Orchard container. *)
Theorem services_reach_pod mint h d svc :
  GenerateDeployment mint h = Ok d -> GenerateService mint = Ok svc ->
  let pod := d.(dep_Template).(pt_Spec) in
  managed mint (mint_Name mint) svc.(svco_Meta) /\
  selects svc.(svco_Selector) d.(dep_Template).(pt_Labels) /\
  NoDup (sp_Name <$> svc.(svco_Ports)) /\ NoDup (cp_Name <$> pod_ports pod) /\
  Forall (target_resolves pod) svc.(svco_Ports) /\
  (forall n, (exists p, In p svc.(svco_Ports) /\ p.(sp_TargetPort) = FromInt n) <->
     exists rpc, mint.(mint_Spec).(spec_ManagementRPC) = Some rpc /\ rpc.(rpc_Enabled) = true /\
       n = default_int 8086 rpc.(rpc_Port)) /\
  (forall o, GenerateOrchardService mint = Ok (Some o) ->
     managed mint (orchardResourceName mint) o.(svco_Meta) /\
     selects o.(svco_Selector) d.(dep_Template).(pt_Labels) /\
     Forall (target_resolves pod) o.(svco_Ports) /\ orchardEnabled mint = true).
Proof.
  intros Hd Hs. unfold GenerateDeployment in Hd. unfold GenerateService, set_reference in Hs. op_inv. subst d svc.
  cbn [dep_Template pt_Spec pt_Labels svco_Meta svco_Selector svco_Ports].
  match goal with E : generatePodSpec _ = Ok _ |- _ => rename E into Hp end.
  match goal with E : SetControllerReference _ _ = Ok _ |- _ =>
    apply set_reference_managed in E as (Hm & _ & _); [|reflexivity] end.
  split; [done|]. split; [apply map_subseteq_po|]. split.
  { apply (sublist_NoDup _ ["api"; "ldk"; "ldk-webserver"; "management"; prometheusMetricsPortName]).
    - apply (bool_decide_unpack _). vm_compute. exact I.
    - unfold mintServicePorts. apply (sublist_names _ _ ["api"] ["ldk"; "ldk-webserver"; "management"; prometheusMetricsPortName]); [done|].
      apply (sublist_names _ _ ["ldk"; "ldk-webserver"] ["management"; prometheusMetricsPortName]);
        [|apply (sublist_names _ _ ["management"] [prometheusMetricsPortName])].
      + destruct (spec_LDKNode _) as [l|]; [destruct (ldk_Enabled l)|]; try apply sublist_nil_l. done.
      + destruct (spec_ManagementRPC _) as [l|]; [destruct (rpc_Enabled l)|]; try apply sublist_nil_l. done.
      + destruct (spec_Prometheus _) as [l|]; [destruct (prom_Enabled l)|]; try apply sublist_nil_l. done. }
  split; [by eapply pod_port_names_NoDup|]. split; [by apply mintServicePorts_resolve|].
  split; [apply mintServicePorts_numeric|]. intros o Ho. unfold GenerateOrchardService, set_reference in Ho.
  destruct (orchardEnabled mint) eqn:He; [|done]. cbn [negb] in Ho. op_inv. simplify_eq.
  cbn [svco_Meta svco_Selector svco_Ports].
  match goal with E : SetControllerReference _ _ = Ok _ |- _ =>
    apply set_reference_managed in E as (Hm' & _ & _); [|reflexivity] end.
  split; [done|]. split; [apply map_subseteq_po|]. split; [|done].
  apply Forall_cons_2; [|apply Forall_nil_2]. unfold target_resolves. cbn [sp_TargetPort servicePort sp_Port].
  rewrite -> (generatePodSpec_ports _ _ Hp). do 2 (apply in_or_app; right).
  unfold orchardPorts. rewrite -> He. by left.
Qed.

(** The Ingress and certificate of one section, seen from outside. *)
Definition ingress_routes (mint : CashuMint) (i : IngressConfig) (svc : Service) (ing : Ingress) : Prop :=
  managed mint svc.(svco_Meta).(om_Name) ing.(ingo_Meta) /\
  (exists p, hd_error svc.(svco_Ports) = Some p /\
     ing.(ingo_Rules) = [mkIngressRule i.(ing_Host) "/" "Prefix" svc.(svco_Meta).(om_Name) p.(sp_Port)]) /\
  ing.(ingo_ClassName) <> Some "" /\
  (forall k v user, i.(ing_Annotations) = Some user -> user !! k = Some v ->
     default ∅ ing.(ingo_Meta).(om_Annotations) !! k = Some v) /\
  (forall k v, nginxAnnotations !! k = Some v -> default ∅ i.(ing_Annotations) !! k = None ->
     default ∅ ing.(ingo_Meta).(om_Annotations) !! k = Some v).

Lemma ingressAnnotations_user i user k v :
  i.(ing_Annotations) = Some user -> user !! k = Some v -> ingressAnnotations i !! k = Some v.
Proof. intros Hu Hk. unfold ingressAnnotations. rewrite -> Hu. by apply lookup_union_Some_l. Qed.

(** What the generator writes stays unless the user overrides the key. *)
Lemma ingressAnnotations_kept i k :
  default ∅ i.(ing_Annotations) !! k = None ->
  ingressAnnotations i !! k = ingressAnnotations (i <| ing_Annotations := None |>) !! k.
Proof.
  intros Hk. unfold ingressAnnotations. cbn [upd ing_Annotations].
  change (enabledCertManager (i <| ing_Annotations := None |>)) with (enabledCertManager i).
  destruct (ing_Annotations i) as [user|]; [|done]. by apply lookup_union_r.
Qed.

Lemma ingressAnnotations_nginx i k v :
  nginxAnnotations !! k = Some v -> default ∅ i.(ing_Annotations) !! k = None ->
  ingressAnnotations i !! k = Some v.
Proof.
  intros Hn Hk. rewrite -> ingressAnnotations_kept by done. unfold ingressAnnotations. cbn [upd ing_Annotations].
  destruct (enabledCertManager _); [|done].
  rewrite -> !lookup_insert_ne; [done|intros <-; by vm_compute in Hn..].
Qed.

Lemma ingressFor_routes mint name labels i svc ing p :
  labels !! "app.kubernetes.io/instance" = Some (mint_Name mint) ->
  svc.(svco_Meta).(om_Name) = name -> hd_error svc.(svco_Ports) = Some p ->
  ingressFor mint name labels p.(sp_Port) i = Ok (Some ing) -> ingress_routes mint i svc ing.
Proof.
  intros Hl Hn Hp Hi. unfold ingressFor, set_reference in Hi. op_inv. simplify_eq.
  match goal with E : SetControllerReference _ _ = Ok _ |- _ =>
    apply set_reference_managed in E as (Hm & _ & Ha); [|done] end.
  split; [done|]. cbn [ingo_Rules ingo_ClassName ingo_Meta]. rewrite -> Ha. cbn [default].
  split; [by exists p|]. split.
  { intros [= E]. by apply (default_str_nonempty DefaultIngressClassName (ing_ClassName i)) in E. }
  split; [by intros k v user; apply ingressAnnotations_user|by intros k v; apply ingressAnnotations_nginx].
Qed.

(** The certificate is issued for the ingress host into the secret the
    Ingress serves, and is renewed before it expires. *)
Definition certificate_serves (c : CertManagerConfig) (ing : Ingress) (cert : Certificate) : Prop :=
  ing.(ingo_TLS) = [mkIngressTLS cert.(crt_DNSNames) cert.(crt_SecretName)] /\
  ing.(ingo_Meta).(om_Name) = cert.(crt_Meta).(om_Name) /\
  cert.(crt_IssuerName) = c.(cm_IssuerName) /\ (0 < cert.(crt_RenewBefore) < cert.(crt_Duration))%Z.

Lemma certificateFor_serves mint name labels labels' port i t c ing cert :
  labels !! "app.kubernetes.io/instance" = Some (mint_Name mint) ->
  labels' !! "app.kubernetes.io/instance" = Some (mint_Name mint) ->
  enabledTLS i = Some t -> ingressFor mint name labels port i = Ok (Some ing) ->
  certificateFor mint name labels' i t c = Ok (Some cert) -> certificate_serves c ing cert.
Proof.
  intros Hl Hl' Ht Hi Hc. unfold ingressFor, set_reference in Hi. unfold certificateFor, set_reference in Hc.
  op_inv. simplify_eq. rewrite -> Ht. split; [done|].
  repeat match goal with E : SetControllerReference _ _ = Ok _ |- _ =>
    apply set_reference_managed in E as ([] & _ & _); [|done] end.
  split; [cbn; congruence|]. split; [done|]. cbn. unfold Hour. lia.
Qed.

(** C31: each Ingress routes its host to the Service generated next to it, by
    name and port number, with the user's annotations overriding the nginx
    defaults and a class name; the certificate, when there is one, is issued for
    that host into the very secret the Ingress terminates TLS with.  Both hold
    for the mint and for Orchard. *)
Theorem ingress_reaches_service mint svc :
  GenerateService mint = Ok svc ->
  (forall ing, GenerateIngress mint = Ok (Some ing) ->
     exists i, enabledIngress mint.(mint_Spec).(spec_Ingress) = Some i /\ ingress_routes mint i svc ing /\
       forall cert, GenerateCertificate mint = Ok (Some cert) ->
         exists c, enabledCertManager i = Some c /\ certificate_serves c ing cert) /\
  (forall ing osvc, GenerateOrchardIngress mint = Ok (Some ing) -> GenerateOrchardService mint = Ok (Some osvc) ->
     exists i, orchardIngress mint = Some i /\ ingress_routes mint i osvc ing /\
       forall cert, GenerateOrchardCertificate mint = Ok (Some cert) ->
         exists c, enabledCertManager i = Some c /\ certificate_serves c ing cert).
Proof.
  intros Hs. split.
  - intros ing Hi. unfold GenerateIngress, GenerateCertificate in *.
    destruct (enabledIngress _) as [i|]; [|done]. exists i. split; [done|]. split.
    + unfold GenerateService, set_reference in Hs. op_inv. subst svc.
      match goal with E : SetControllerReference _ _ = Ok _ |- _ =>
        apply set_reference_managed in E as ([] & _ & _); [|reflexivity] end.
      by eapply (ingressFor_routes _ _ _ _ _ _ (servicePort "api" _ (FromString "api"))); [| | |exact Hi].
    + intros cert Hc. destruct (enabledTLS i) as [t|] eqn:Et; [|done].
      destruct (enabledCertManager i) as [c|]; [|done]. exists c. split; [done|].
      by eapply certificateFor_serves; [| |exact Et|exact Hi|exact Hc].
  - intros ing osvc Hi Ho. unfold GenerateOrchardIngress, GenerateOrchardCertificate in *.
    destruct (orchardIngress _) as [i|]; [|done]. exists i. split; [done|]. split.
    + unfold GenerateOrchardService, set_reference in Ho. destruct (orchardEnabled mint); [|done].
      cbn [negb] in Ho. op_inv. simplify_eq.
      match goal with E : SetControllerReference _ _ = Ok _ |- _ =>
        apply set_reference_managed in E as ([] & _ & _); [|reflexivity] end.
      by eapply (ingressFor_routes _ _ _ _ _ _ (servicePort orchardStr _ (FromString orchardStr))); [| | |exact Hi].
    + intros cert Hc. destruct (enabledTLS i) as [t|] eqn:Et; [|done].
      destruct (enabledCertManager i) as [c|]; [|done]. exists c. split; [done|].
      by eapply certificateFor_serves; [| |exact Et|exact Hi|exact Hc].
Qed.

(** The PodMonitor scrapes an existing endpoint: it is generated exactly
    when Prometheus is enabled, selects the Deployment's pods and names a port
    the mint container declares with the configured number. *)
Theorem GeneratePodMonitor_scrapes mint h d :
  GenerateDeployment mint h = Ok d ->
  (prometheusEnabled mint = false -> GeneratePodMonitor mint = Ok None) /\
  (forall pm, GeneratePodMonitor mint = Ok (Some pm) ->
     managed mint (mint_Name mint) pm.(pm_Meta) /\ selects pm.(pm_Selector) d.(dep_Template).(pt_Labels) /\
     exists e p, pm.(pm_PodMetricsEndpoints) = [e] /\ mint.(mint_Spec).(spec_Prometheus) = Some p /\
       p.(prom_Enabled) = true /\
       In (tcpPort e.(pme_Port) (prometheusPort p)) (pod_ports d.(dep_Template).(pt_Spec))).
Proof.
  intros Hd. unfold GeneratePodMonitor, prometheusEnabled. split; [by intros ->|].
  intros pm Hpm. destruct (spec_Prometheus _) as [p|] eqn:Ep; [|done]. unfold ptr_test in Hpm.
  destruct (prom_Enabled p) eqn:Ee; [|done]. cbn [negb] in Hpm. unfold set_reference in Hpm. op_inv. simplify_eq.
  match goal with E : SetControllerReference _ (newMeta _ _ _ None) = Ok _ |- _ =>
    apply set_reference_managed in E as (Hm & _ & _); [|reflexivity] end.
  unfold GenerateDeployment in Hd. op_inv. subst d. cbn [dep_Template pt_Spec pt_Labels].
  match goal with E : generatePodSpec _ = Ok _ |- _ => rename E into Hp end.
  split; [done|]. split; [apply map_subseteq_po|]. eexists _, p.
  split; [reflexivity|]. split; [done|]. split; [done|].
  rewrite -> (generatePodSpec_ports _ _ Hp). unfold metricsPorts. rewrite -> Ep, Ee.
  apply in_or_app; right. apply in_or_app; left. by right; left.
Qed.

Lemma select_name_differs labels selector a b :
  selector !! "app.kubernetes.io/name" = Some a -> labels !! "app.kubernetes.io/name" = Some b -> a <> b ->
  ~ selects selector labels.
Proof. intros Hs Hl Hne Hsub. pose proof (lookup_weaken _ _ _ _ Hs Hsub). congruence. Qed.

(** How far the mint's selector reaches.  Neither the mint's Service nor its
    PodMonitor selects the database pods, which carry another name label; but
    the three labels also match the pods of the backup CronJob and of every
    restore Job, so a running backup becomes an endpoint of the Service's
    numeric management port. *)
Theorem mint_selector_reach mint svc :
  GenerateService mint = Ok svc ->
  (forall sts, GeneratePostgresStatefulSet mint = Ok (Some sts) ->
     ~ selects svc.(svco_Selector) sts.(sts_Template).(pt_Labels)) /\
  (forall cj, GeneratePostgresBackupCronJob mint = Ok (Some cj) ->
     selects svc.(svco_Selector) cj.(cj_Template).(pt_Labels)) /\
  (forall job, GeneratePostgresRestoreJob mint = Ok (Some job) ->
     selects svc.(svco_Selector) job.(job_Template).(pt_Labels)).
Proof.
  intros Hs. unfold GenerateService, set_reference in Hs. op_inv. subst svc. cbn [svco_Selector].
  split; [|split].
  - intros sts Hsts. unfold GeneratePostgresStatefulSet in Hsts. destruct (autoProvisioned mint); [|done].
    op_inv. simplify_eq. by eapply select_name_differs.
  - intros cj Hcj. unfold GeneratePostgresBackupCronJob in Hcj. repeat case_match; op_inv; try done.
    all: simplify_eq; by apply with_component_selects.
  - intros job Hj. unfold GeneratePostgresRestoreJob in Hj. repeat case_match; op_inv; try done.
    all: simplify_eq; by apply with_component_selects.
Qed.
End Properties.

Section Witnesses.
#[local] Existing Instance std_ControllerUtil.
#[local] Existing Instance std_ControllerUtilLaws.
#[local] Existing Instance std_Quantities.

Definition mintService : Service := ok_or zeroService (GenerateService fullMint).
Definition orchardService : Service := ok_some zeroService (GenerateOrchardService fullMint).
Definition zeroIngress : Ingress := mkIngress (mkTypeMeta "" "") sampleMeta None [] [] [].
Definition mintIngress : Ingress := ok_some zeroIngress (GenerateIngress fullMint).
Definition mintPodMonitor : PodMonitor := ok_some (mkPodMonitor (mkTypeMeta "" "") sampleMeta ∅ []) (GeneratePodMonitor fullMint).
Definition zeroCronJob : CronJob :=
  mkCronJob (mkTypeMeta "" "") sampleMeta "" "" None None (mkPodTemplateSpec ∅ None (newPodSpec [])).
Definition backupCronJob : CronJob := ok_some zeroCronJob (GeneratePostgresBackupCronJob fullMint).

Lemma sampleDeployment_ok : GenerateDeployment fullMint "h" = Ok sampleDeployment.
Proof. vm_compute. reflexivity. Qed.
Lemma mintService_ok : GenerateService fullMint = Ok mintService.
Proof. vm_compute. reflexivity. Qed.

Lemma services_reach_pod_witness :
  Forall (target_resolves sampleDeployment.(dep_Template).(pt_Spec)) orchardService.(svco_Ports).
Proof.
  assert (H : GenerateOrchardService fullMint = Ok (Some orchardService)) by (vm_compute; reflexivity).
  destruct (services_reach_pod fullMint "h" sampleDeployment mintService sampleDeployment_ok mintService_ok)
    as (_ & _ & _ & _ & _ & _ & Ho).
  exact (proj1 (proj2 (proj2 (Ho orchardService H)))).
Defined.

Lemma ingress_reaches_service_witness :
  exists i, enabledIngress fullSpec.(spec_Ingress) = Some i /\ ingress_routes fullMint i mintService mintIngress.
Proof.
  assert (H : GenerateIngress fullMint = Ok (Some mintIngress)) by (vm_compute; reflexivity).
  destruct (proj1 (ingress_reaches_service fullMint mintService mintService_ok) mintIngress H) as (i & Hi & Hr & _).
  exists i. exact (conj Hi Hr).
Defined.

Lemma GeneratePodMonitor_scrapes_witness :
  managed fullMint "mint" mintPodMonitor.(pm_Meta).
Proof.
  assert (H : GeneratePodMonitor fullMint = Ok (Some mintPodMonitor)) by (vm_compute; reflexivity).
  exact (proj1 (proj2 (GeneratePodMonitor_scrapes fullMint "h" sampleDeployment sampleDeployment_ok) mintPodMonitor H)).
Defined.

Lemma mint_selector_reach_witness :
  selects mintService.(svco_Selector) backupCronJob.(cj_Template).(pt_Labels).
Proof.
  assert (H : GeneratePostgresBackupCronJob fullMint = Ok (Some backupCronJob)) by (vm_compute; reflexivity).
  exact (proj1 (proj2 (mint_selector_reach fullMint mintService mintService_ok)) backupCronJob H).
Defined.
End Witnesses.
