(* ===== verification/Client.v ===== *)
(** * The controller's effects

    A reconciliation is a program that calls the API server, the event
    recorder and the random sources.  [Prog] is the tree of its calls; the
    server is not modelled: a run ([runs]) takes any reply to any call, so what
    is proved of all runs holds for every server, every failure and every
    interleaving with other clients.  [obeys] is the program logic: a
    precondition on each call, given the calls before it, and a postcondition. *)

From S2P Require Import Prelude Kube Types Platform ManagementRPC.

(** ** Calls and replies *)

Inductive call : Type :=
  | GetMint (ns name : string)
  | GetSecret (ns name : string)
  | GetDeployment (ns name : string)
  | GetService (ns name : string)
  | GetIngress (ns name : string)
  | GetConfigMap (ns name : string)
  | CreateSecret (s : Secret)
  | DeleteSecret (s : Secret)
  | DeletePodMonitor (ns name : string)
  | Apply (o : Object)
  | UpdateMint (m : CashuMint)
  | UpdateMintStatus (m : CashuMint)
  | EmitEvent (type reason message : string)
  | RandRead (n : nat)
  | DrawTLS.

(** What a patched object holds afterwards; only the StatefulSet is read. *)
Definition apply_reply (o : Object) : Type :=
  match o with OStatefulSet _ => StatefulSet | _ => unit end.

Section Programs.
Context `{X509}.

Definition response (c : call) : Type :=
  match c with
  | GetMint _ _ => CashuMint + goerror
  | GetSecret _ _ => Secret + goerror
  | GetDeployment _ _ => Deployment + goerror
  | GetService _ _ => Service + goerror
  | GetIngress _ _ => Ingress + goerror
  | GetConfigMap _ _ => ConfigMap + goerror
  | CreateSecret _ | DeleteSecret _ | DeletePodMonitor _ _ | UpdateMint _ | UpdateMintStatus _ => unit + goerror
  | Apply o => apply_reply o + goerror
  | EmitEvent _ _ _ => unit
  | RandRead _ => list Z + goerror
  | DrawTLS => tlsDraws
  end.

Inductive Prog (A : Type) : Type :=
  | Ret (a : A)
  | Call (c : call) (k : response c -> Prog A).
Arguments Ret {A} a.
Arguments Call {A} c k.

Fixpoint prog_bind {A B} (p : Prog A) (f : A -> Prog B) : Prog B :=
  match p with
  | Ret a => f a
  | Call c k => Call c (fun r => prog_bind (k r) f)
  end.

(** ** The monad of the handlers

    A handler works on the [CashuMint] it was given (Go passes a pointer, and
    what was written to it before an error stays) and ends like any Go call. *)

Definition M (A : Type) : Type := CashuMint -> Prog (CashuMint * res A).

Definition m_ret {A} (a : A) : M A := fun s => Ret (s, Ok a).
Definition m_res {A} (r : res A) : M A := fun s => Ret (s, r).
Definition m_bind {A B} (m : M A) (f : A -> M B) : M B := fun s =>
  prog_bind (m s) (fun x =>
    match x.2 with
    | Ok a => f a x.1
    | Err e => Ret (x.1, Err e)
    | Panic p => Ret (x.1, Panic p)
    end).

(** The value of the pointer, and a write through it. *)
Definition m_get : M CashuMint := fun s => Ret (s, Ok s).
Definition m_modify (f : CashuMint -> CashuMint) : M unit := fun s => Ret (f s, Ok tt).

(** [if err := ...; err != nil] without returning: the error as a value. *)
Definition m_try {A} (m : M A) : M (A + goerror) := fun s =>
  prog_bind (m s) (fun x =>
    Ret (x.1, match x.2 with
              | Ok a => Ok (inl a)
              | Err e => Ok (inr e)
              | Panic p => Panic p
              end)).

(** [return fmt.Errorf("prefix: %w", err)] *)
Definition m_wrap {A} (prefix : string) (m : M A) : M A := fun s =>
  prog_bind (m s) (fun x => Ret (x.1, res_wrap prefix x.2)).

(** A call whose error is returned, or kept as a value. *)
Definition m_call (c : call) : M (response c) := fun s => Call c (fun r => Ret (s, Ok r)).
Definition m_lift {A} (r : A + goerror) : M A :=
  m_res (match r with inl a => Ok a | inr e => Err e end).

End Programs.

Arguments Ret {_ A} a.
Arguments Call {_ A} c k.

Notation "'let!' x := m 'in' k" := (m_bind m (fun x => k))
  (at level 10, x pattern, m at level 100, k at level 200,
   format "'[hv' 'let!'  x  :=  m  'in'  '/' k ']'") : op_scope.
Notation "m ;; k" := (m_bind m (fun _ : unit => k))
  (at level 100, k at level 200, right associativity, format "'[v' m  ;;  '/' k ']'") : op_scope.

(** ** Runs *)

(** One call of a run with the reply it got. *)
Inductive event `{X509} : Type := Ev (c : call) (r : response c).
Definition history `{X509} : Type := list event.
Definition ev_call `{X509} (e : event) : call := match e with Ev c _ => c end.

Inductive runs `{X509} {A} : Prog A -> history -> A -> Prop :=
  | runs_ret a : runs (Ret a) [] a
  | runs_call c k r h a : runs (k r) h a -> runs (Call c k) (Ev c r :: h) a.

(** ** Simulation

    A server that answers from the calls so far makes the runs executable. *)
Fixpoint simulate `{X509} {A} (server : history -> forall c, response c) (h : history) (p : Prog A) : history * A :=
  match p with
  | Ret a => ([], a)
  | Call c k =>
      let r := server h c in
      let '(t, a) := simulate server (h ++ [Ev c r]) (k r) in (Ev c r :: t, a)
  end.

Lemma simulate_runs `{X509} {A} server h (p : Prog A) :
  runs p (simulate server h p).1 (simulate server h p).2.
Proof.
  revert h. induction p as [a|c k IH]; intros h; [constructor|]. cbn.
  specialize (IH (server h c) (h ++ [Ev c (server h c)])). destruct (simulate _ _ _) as [t a]. by constructor.
Qed.

(** ** The program logic *)

(** [obeys P h p Q]: after history [h], every call [p] makes satisfies [P] of
    the calls before it, and its result satisfies [Q]. *)
Fixpoint obeys `{X509} {A} (P : history -> call -> Prop) (h : history) (p : Prog A)
    (Q : history -> A -> Prop) : Prop :=
  match p with
  | Ret a => Q h a
  | Call c k => P h c /\ forall r, obeys P (h ++ [Ev c r]) (k r) Q
  end.

(** Every call of a history satisfies [P] of the ones before it. *)
Definition all_calls `{X509} (P : history -> call -> Prop) (h0 h : history) : Prop :=
  forall h1 e h2, h = h1 ++ e :: h2 -> P (h0 ++ h1) (ev_call e).

Section Logic.
Context `{X509}.

Lemma runs_inv {A} (p : Prog A) h a :
  runs p h a ->
  match p with
  | Ret b => h = [] /\ a = b
  | Call c k => exists r h', h = Ev c r :: h' /\ runs (k r) h' a
  end.
Proof. intros Hr. destruct Hr; eauto. Qed.

Lemma runs_bind {A B} (p : Prog A) (f : A -> Prog B) h b :
  runs (prog_bind p f) h b -> exists h1 a h2, h = h1 ++ h2 /\ runs p h1 a /\ runs (f a) h2 b.
Proof.
  induction p as [a|c k IH] in h |- *; cbn.
  - intros Hr. exists [], a, h. split; [done|]. split; [constructor|done].
  - intros (r & h' & -> & Hr)%runs_inv. destruct (IH r h' Hr) as (h1 & a & h2 & -> & H1 & H2).
    exists (Ev c r :: h1), a, h2. split; [done|]. split; [by constructor|done].
Qed.

Lemma obeys_sound {A} P (p : Prog A) Q h0 h a :
  obeys P h0 p Q -> runs p h a -> all_calls P h0 h /\ Q (h0 ++ h) a.
Proof.
  intros Ho Hr. revert h0 Ho. induction Hr as [a|c k r h a Hr IH]; intros h0 Ho.
  - split; [|by rw app_nil_r]. intros h1 e h2 Hh. by apply app_cons_not_nil in Hh.
  - destruct Ho as [Hc Hk]. destruct (IH _ (Hk r)) as [Hall HQ]. split.
    + intros [|e1 h1] e h2 Hh; [injection Hh as <- <-; by rw app_nil_r|].
      injection Hh as <- Hh. specialize (Hall h1 e h2 Hh). by rw -app_assoc in Hall.
    + by rw -app_assoc in HQ.
Qed.

Lemma obeys_mono {A} (P P' : history -> call -> Prop) h (p : Prog A) (Q Q' : history -> A -> Prop) :
  (forall h' c, P h' c -> P' h' c) -> (forall h' a, Q h' a -> Q' h' a) ->
  obeys P h p Q -> obeys P' h p Q'.
Proof.
  intros HP HQ. revert h. induction p as [a|c k IH]; intros h; [apply HQ|].
  intros [Hc Hk]. split; [by apply HP|]. intros r. by apply IH.
Qed.

Lemma obeys_bind {A B} P h (p : Prog A) (f : A -> Prog B) Q :
  obeys P h p (fun h' a => obeys P h' (f a) Q) -> obeys P h (prog_bind p f) Q.
Proof.
  revert h. induction p as [a|c k IH]; intros h; [done|].
  intros [Hc Hk]. split; [done|]. intros r. by apply IH.
Qed.

(** A program only adds to the history. *)
Lemma obeys_extends {A} P h (p : Prog A) Q :
  obeys P h p Q -> obeys P h p (fun h' a => Q h' a /\ exists h1, h' = h ++ h1).
Proof.
  revert h. induction p as [a|c k IH]; intros h; [intros HQ; split; [done|by exists []; rw app_nil_r]|].
  intros [Hc Hk]. split; [done|]. intros r. eapply obeys_mono; [done| |by apply IH, Hk].
  intros h' a [HQ [h1 ->]]. split; [done|]. exists (Ev c r :: h1). by rw -app_assoc.
Qed.

(** ... and the calls it adds are the ones of the policy. *)
Lemma obeys_record {A} P h (p : Prog A) Q :
  obeys P h p Q -> obeys P h p (fun h' a => Q h' a /\ exists h1, h' = h ++ h1 /\ all_calls P h h1).
Proof.
  revert h. induction p as [a|c k IH]; intros h.
  { intros HQ. split; [done|]. exists []. split; [by rw app_nil_r|]. intros h1 e h2 Hh. by apply app_cons_not_nil in Hh. }
  intros [Hc Hk]. split; [done|]. intros r. eapply obeys_mono; [done| |by apply IH, Hk].
  intros h' a (HQ & h1 & -> & Hall). split; [done|]. exists (Ev c r :: h1). split; [by rw -app_assoc|].
  intros [|e1 h2] e h3 Hh; [injection Hh as <- <-; by rw app_nil_r|].
  injection Hh as <- Hh. specialize (Hall h2 e h3 Hh). by rw -app_assoc in Hall.
Qed.

(** Handlers end: under any environment that always answers, a program runs
    to a result, with one event per call. *)
Lemma runs_total {A} (p : Prog A) (answer : forall c, response c) : exists h a, runs p h a.
Proof.
  induction p as [a|c k IH]; [by eexists _, _; constructor|].
  destruct (IH (answer c)) as (h & a & Hr). by eexists _, _; constructor.
Qed.

(** ** Triples

    [hoare P I m Q]: started on a mint satisfying [I h], the handler makes calls
    that satisfy [P] and ends in [Q]. *)
Definition hoare {A} (P : history -> call -> Prop) (I : history -> CashuMint -> Prop) (m : M A)
    (Q : history -> CashuMint -> res A -> Prop) : Prop :=
  forall h s, I h s -> obeys P h (m s) (fun h' x => Q h' x.1 x.2).

Lemma hoare_weaken {A} P I I' (m : M A) (Q Q' : history -> CashuMint -> res A -> Prop) :
  hoare P I' m Q' -> (forall h s, I h s -> I' h s) -> (forall h s r, Q' h s r -> Q h s r) -> hoare P I m Q.
Proof. intros Hm HI HQ h s Hs. eapply obeys_mono; [done| |by apply Hm, HI]. intros h' [s' r]. apply HQ. Qed.

Lemma hoare_pre {A} P I I' (m : M A) Q : hoare P I' m Q -> (forall h s, I h s -> I' h s) -> hoare P I m Q.
Proof. intros Hm HI h s Hs. by apply Hm, HI. Qed.

Lemma hoare_res {A} P (r : res A) (Q : history -> CashuMint -> res A -> Prop) :
  hoare P (fun h s => Q h s r) (m_res r) Q.
Proof. by intros h s. Qed.

Lemma hoare_ret {A} P (a : A) (Q : history -> CashuMint -> res A -> Prop) :
  hoare P (fun h s => Q h s (Ok a)) (m_ret a) Q.
Proof. by intros h s. Qed.

Lemma hoare_get P (Q : history -> CashuMint -> res CashuMint -> Prop) :
  hoare P (fun h s => Q h s (Ok s)) m_get Q.
Proof. by intros h s. Qed.

Lemma hoare_modify P f (Q : history -> CashuMint -> res unit -> Prop) :
  hoare P (fun h s => Q h (f s) (Ok tt)) (m_modify f) Q.
Proof. by intros h s. Qed.

Lemma hoare_call P c (Q : history -> CashuMint -> res (response c) -> Prop) :
  hoare P (fun h s => P h c /\ forall r, Q (h ++ [Ev c r]) s (Ok r)) (m_call c) Q.
Proof. by intros h s [Hc HQ]. Qed.

(** The rule of [m_bind]: the first handler's outcome is either passed on or
    ends the second. *)
Lemma hoare_bind {A B} P I (m : M A) (f : A -> M B) R Q :
  hoare P I m R ->
  (forall a, hoare P (fun h s => R h s (Ok a)) (f a) Q) ->
  (forall h s e, R h s (Err e) -> Q h s (Err e)) ->
  (forall h s p, R h s (Panic p) -> Q h s (Panic p)) ->
  hoare P I (m_bind m f) Q.
Proof.
  intros Hm Hf He Hp h s Hs. apply obeys_bind. eapply obeys_mono; [done| |by apply Hm].
  intros h' [s' [a|e|p]]; [apply (Hf a)|apply He|apply Hp].
Qed.

Lemma hoare_try {A} P I (m : M A) Q :
  hoare P I m (fun h s r => match r with
                            | Ok a => Q h s (Ok (inl a))
                            | Err e => Q h s (Ok (inr e))
                            | Panic p => Q h s (Panic p)
                            end) ->
  hoare P I (m_try m) Q.
Proof.
  intros Hm h s Hs. apply obeys_bind. eapply obeys_mono; [done| |by apply Hm].
  by intros h' [s' [a|e|p]].
Qed.

Lemma hoare_wrap {A} P I prefix (m : M A) Q :
  hoare P I m (fun h s r => Q h s (res_wrap prefix r)) -> hoare P I (m_wrap prefix m) Q.
Proof.
  intros Hm h s Hs. apply obeys_bind. eapply obeys_mono; [done| |by apply Hm].
  by intros h' [s' r].
Qed.

Lemma hoare_lift {A} P (r : A + goerror) (Q : history -> CashuMint -> res A -> Prop) :
  hoare P (fun h s => Q h s (match r with inl a => Ok a | inr e => Err e end)) (m_lift r) Q.
Proof. by intros h s. Qed.

(** ** Invariants

    [inv P I m]: every call of the handler satisfies [P], and the mint it works
    on satisfies [I] at its end, however it ends, if it did at its start. *)
Definition inv (P : history -> call -> Prop) (I : CashuMint -> Prop) {A} (m : M A) : Prop :=
  hoare P (fun _ s => I s) m (fun _ s _ => I s).

(** With a fact about the value of a handler that succeeds. *)
Definition inv_value (P : history -> call -> Prop) (I : CashuMint -> Prop) {A} (m : M A) (fact : A -> Prop) : Prop :=
  hoare P (fun _ s => I s) m (fun _ s r => I s /\ forall a, r = Ok a -> fact a).

Section Invariants.
Variables (P : history -> call -> Prop) (I : CashuMint -> Prop).

Lemma inv_res {A} (r : res A) : inv P I (m_res r).
Proof. by intros h s Hs. Qed.
Lemma inv_ret {A} (a : A) : inv P I (m_ret a).
Proof. by intros h s Hs. Qed.
Lemma inv_lift {A} (r : A + goerror) : inv P I (m_lift r).
Proof. by intros h s Hs. Qed.
Lemma inv_modify f : (forall s, I s -> I (f s)) -> inv P I (m_modify f).
Proof. intros Hf h s Hs. by apply Hf. Qed.
Lemma inv_call c : (forall h, P h c) -> inv P I (m_call c).
Proof. intros Hc h s Hs. by split. Qed.

Lemma inv_bind {A B} (m : M A) (f : A -> M B) :
  inv P I m -> (forall a, inv P I (f a)) -> inv P I (m_bind m f).
Proof. intros Hm Hf. by eapply hoare_bind. Qed.

Lemma inv_get {B} (f : CashuMint -> M B) :
  (forall s, I s -> inv P I (f s)) -> inv P I (m_bind m_get f).
Proof. intros Hf h s Hs. by apply Hf. Qed.

Lemma inv_bind_value {A B} (m : M A) (f : A -> M B) fact :
  inv_value P I m fact -> (forall a, fact a -> inv P I (f a)) -> inv P I (m_bind m f).
Proof.
  intros Hm Hf. eapply hoare_bind; [exact Hm| |by intros h s e []|by intros h s p []].
  intros a h s [Hs Ha]. by apply Hf; [apply Ha|].
Qed.

Lemma inv_bind_wrap {A B} prefix (r : res A) (f : A -> M B) :
  (forall a, r = Ok a -> inv P I (f a)) -> inv P I (m_bind (m_wrap prefix (m_res r)) f).
Proof. intros Hf h s Hs. destruct r as [a|e|p]; [by apply Hf|done..]. Qed.

Lemma inv_wrap {A} prefix (m : M A) : inv P I m -> inv P I (m_wrap prefix m).
Proof. intros Hm. by apply hoare_wrap. Qed.

Lemma inv_try {A} (m : M A) : inv P I m -> inv P I (m_try m).
Proof.
  intros Hm. apply hoare_try. eapply hoare_weaken; [exact Hm|done|]. by intros h s [a|e|p].
Qed.

Lemma inv_if {A} (b : bool) (m1 m2 : M A) :
  (b = true -> inv P I m1) -> (b = false -> inv P I m2) -> inv P I (if b then m1 else m2).
Proof. destruct b; auto. Qed.
End Invariants.
End Logic.

(** One step through the structure of a handler; [inv_auto] leaves the calls,
    the writes and the named sub-handlers. *)
Ltac inv_step :=
  match goal with
  | |- inv _ _ (m_bind m_get _) => apply inv_get; intros ? ?
  | |- inv _ _ (m_bind (m_wrap _ (m_res _)) _) => apply inv_bind_wrap; intros ? ?
  | |- inv _ _ (m_bind _ _) => apply inv_bind; [|intros ?]
  | |- inv _ _ (m_ret _) => apply inv_ret
  | |- inv _ _ (m_res _) => apply inv_res
  | |- inv _ _ (m_lift _) => apply inv_lift
  | |- inv _ _ (m_modify _) => apply inv_modify; intros ? ?; solve [auto with op_db]
  | |- inv _ _ (m_wrap _ _) => apply inv_wrap
  | |- inv _ _ (m_try _) => apply inv_try
  | |- inv _ _ (if ?b then _ else _) =>
      lazymatch type of b with bool => apply inv_if; intros ? | _ => destruct b end
  | |- inv _ _ (match ?x with _ => _ end) => destruct x eqn:?
  | |- inv _ _ (m_call _) => apply inv_call; intros ?
  end.
Ltac inv_auto := repeat (progress cbv beta || inv_step).
