(* ===== verification/Controller.v ===== *)
(** * The reconciler: [internal/controller/cashumint_controller.go], [helpers.go]

    Every handler of [CashuMintReconciler], as a program of [Client].  The
    receiver's client, recorder and scheme are the calls; logging is left out. *)

From S2P Require Import Prelude Kube Types Platform Fmt Samples Defaulting Encoding Validation Common Toml.
From S2P Require Import ConfigToml Postgres Backup Mnemonic ManagementRPC Orchard Workload Storage Networking.
From S2P Require Import Client.

(** ** Constants and results *)

Definition Millisecond : Z := 1000000.
Definition Second : Z := 1000 * Millisecond.

(** [cashumint_controller.go: ReconcileInterval] *)
Definition ReconcileInterval : Z := 5 * 60 * Second.
(** [cashumint_controller.go: UpdateReconcileInterval] *)
Definition UpdateReconcileInterval : Z := 30 * Second.
(** [cashumint_controller.go: NotReadyRetryInterval] *)
Definition NotReadyRetryInterval : Z := 10 * Second.
(** [cashumint_controller.go: cashuMintFinalizer] *)
Definition cashuMintFinalizer : string := "mint.cashu.asmogo.github.io/finalizer".

(** [ctrl.Result] *)
Record Result := mkResult { res_Requeue : bool; res_RequeueAfter : Z }.
Definition noResult : Result := mkResult false 0.

(** ** Helpers *)

(** [helpers.go: calculateConfigHash]; the caller never passes nil. *)
Definition calculateConfigHash (configMap : ConfigMap) : string :=
  match configMap.(cfg_Data) with
  | None => ""
  | Some data => sha256_hex (match data !! "config.toml" with Some t => t | None => "" end)
  end.

(** [helpers.go: isDeploymentReady] *)
Definition isDeploymentReady (d : Deployment) : bool :=
  match d.(dep_Replicas) with
  | None => false
  | Some n => (d.(dep_ReadyReplicas) =? n)%Z && (d.(dep_UpdatedReplicas) =? n)%Z &&
              (d.(dep_AvailableReplicas) =? n)%Z
  end.

(** [helpers.go: isStatefulSetReady] *)
Definition isStatefulSetReady (s : StatefulSet) : bool :=
  match s.(sts_Replicas) with
  | None => false
  | Some n => (s.(sts_ReadyReplicas) =? n)%Z && (s.(sts_CurrentReplicas) =? n)%Z &&
              (s.(sts_UpdatedReplicas) =? n)%Z
  end.

(** [cashumint_controller.go: needsPVCReconciliation] *)
Definition needsPVCReconciliation (m : CashuMint) : bool :=
  String.eqb m.(mint_Spec).(spec_Database).(db_Engine) DatabaseEngineSQLite ||
  String.eqb m.(mint_Spec).(spec_Database).(db_Engine) DatabaseEngineRedb ||
  ptr_test or_Enabled m.(mint_Spec).(spec_Orchard).

(** [cashumint_controller.go: needsIngressReconciliation] *)
Definition needsIngressReconciliation (m : CashuMint) : bool :=
  ptr_test ing_Enabled m.(mint_Spec).(spec_Ingress) ||
  ptr_test (fun o => or_Enabled o && ptr_test ing_Enabled o.(or_Ingress)) m.(mint_Spec).(spec_Orchard).

(** An enabled ingress whose TLS is handed to cert-manager.
    [cashumint_controller.go: needsCertificateReconciliation 438-440] *)
Definition wantsCertificate (p : option IngressConfig) : bool :=
  ptr_test (fun i => ing_Enabled i &&
    ptr_test (fun t => tls_Enabled t && ptr_test cm_Enabled t.(tls_CertManager)) i.(ing_TLS)) p.

(** [cashumint_controller.go: needsCertificateReconciliation] *)
Definition needsCertificateReconciliation (m : CashuMint) : bool :=
  wantsCertificate m.(mint_Spec).(spec_Ingress) ||
  ptr_test (fun o => or_Enabled o && wantsCertificate o.(or_Ingress)) m.(mint_Spec).(spec_Orchard).

(** [cashumint_controller.go: reconcileResultForPhase] *)
Definition reconcileResultForPhase (phase : MintPhase) : Result :=
  match phase with
  | MintPhaseUpdating | MintPhaseProvisioning => mkResult false UpdateReconcileInterval
  | _ => mkResult false ReconcileInterval
  end.

(** [cashuMint.Status.Phase = p] *)
Definition set_phase (p : MintPhase) (m : CashuMint) : CashuMint :=
  m <| mint_Status ::= fun s => s <| st_Phase := p |> |>.

(** [meta.SetStatusCondition(&cashuMint.Status.Conditions, ...)] with the
    generation of the same object. *)
Definition condition `{StatusConditions} (t : string) (st : ConditionStatus) (reason message : string)
    (m : CashuMint) : CashuMint :=
  m <| mint_Status ::= fun s => s <| st_Conditions ::= fun l =>
    SetStatusCondition l (mkCondition t st m.(mint_Meta).(om_Generation) reason message) |> |>.

Section Handlers.
Context `{X509, ControllerUtil, StatusConditions, Quantities, UnicodeTables}.

(** [r.Recorder.Event(cashuMint, ...)] *)
Definition emit (type reason message : string) : M unit := m_call (EmitEvent type reason message).
Definition EventTypeNormal : string := "Normal".
Definition EventTypeWarning : string := "Warning".

(** [helpers.go: applyResource] *)
Definition applyResource (o : Object) : M (apply_reply o) :=
  let! r := m_call (Apply o) in m_lift r.

(** [if obj != nil { applyResource(...) }] after a generator, with the two
    error prefixes. *)
Definition reconcileObject {X} (what : string) (g : res (option X)) (inj : X -> Object) : M unit :=
  let! o := m_wrap ("failed to generate " +:+ what +:+ ": ") (m_res g) in
  match o with
  | None => m_ret tt
  | Some x => let! _ := m_wrap ("failed to apply " +:+ what +:+ ": ") (applyResource (inj x)) in m_ret tt
  end.

(** [Create] tolerating an object that exists already. *)
Definition createSecret (prefix : string) (s : Secret) : M unit :=
  let! r := m_call (CreateSecret s) in
  match r with
  | inl _ => m_ret tt
  | inr e => if has_reason ReasonAlreadyExists e then m_ret tt else m_res (Err (Wrapf prefix e))
  end.

(** ** Deletion *)

(** [cashumint_controller.go: handleDeletion 145-168] *)
Definition cleanupPostgresSecret : M unit :=
  let! m := m_get in
  if negb (ptr_test pg_AutoProvision m.(mint_Spec).(spec_Database).(db_Postgres)) then m_ret tt
  else
    let! r := m_call (GetSecret (mint_Namespace m) (mint_Name m +:+ "-postgres-secret")) in
    match r with
    | inl secret =>
        let! d := m_call (DeleteSecret secret) in
        match d with
        | inr e =>
            if has_reason ReasonNotFound e
            then emit EventTypeNormal "SecretDeleted" "Auto-provisioned PostgreSQL secret deleted"
            else emit EventTypeWarning "CleanupFailed" ("Failed to delete PostgreSQL secret: " +:+ err_msg e);;
                 m_res (Err e)
        | inl _ => emit EventTypeNormal "SecretDeleted" "Auto-provisioned PostgreSQL secret deleted"
        end
    | inr e => if has_reason ReasonNotFound e then m_ret tt else m_res (Err e)
    end.

(** [cashumint_controller.go: handleDeletion] *)
Definition handleDeletion : M Result :=
  let! m := m_get in
  if negb (ContainsFinalizer m.(mint_Meta) cashuMintFinalizer) then m_ret noResult
  else
    cleanupPostgresSecret;;
    emit EventTypeNormal "Deleted" "CashuMint cleanup completed";;
    m_modify (fun m => m <| mint_Meta ::= fun o => RemoveFinalizer o cashuMintFinalizer |>);;
    let! m := m_get in
    let! r := m_call (UpdateMint m) in
    let! _ := m_lift r in
    m_ret noResult.

(** ** Phases *)

(** [cashumint_controller.go: transitionReconciliationPhase] *)
Definition transitionReconciliationPhase : M unit :=
  let! m := m_get in
  (if decide (m.(mint_Status).(st_Phase) = MintPhasePending) then
     m_modify (set_phase MintPhaseProvisioning);;
     m_modify (condition ConditionTypeReady ConditionFalse "Provisioning" "Starting resource provisioning");;
     emit EventTypeNormal "Provisioning" "Starting resource provisioning"
   else m_ret tt);;
  let! m := m_get in
  if negb (m.(mint_Status).(st_ObservedGeneration) =? 0)%Z &&
     negb (m.(mint_Status).(st_ObservedGeneration) =? m.(mint_Meta).(om_Generation))%Z then
    m_modify (set_phase MintPhaseUpdating);;
    m_modify (condition ConditionTypeReady ConditionFalse "Updating" "Updating resources due to spec change");;
    emit EventTypeNormal "Updating" "Spec changed, updating resources"
  else m_ret tt.

(** [cashumint_controller.go: updateDeploymentReadiness] *)
Definition updateDeploymentReadiness : M unit :=
  let! m := m_get in
  let! r := m_call (GetDeployment (mint_Namespace m) (mint_Name m)) in
  match r with
  | inr e => if has_reason ReasonNotFound e then m_ret tt
             else m_res (Err (Wrapf "failed to get Deployment readiness: " e))
  | inl d =>
      if isDeploymentReady d then
        (if decide (m.(mint_Status).(st_Phase) = MintPhaseReady) then m_ret tt
         else emit EventTypeNormal "Ready" "CashuMint is ready and operational");;
        m_modify (set_phase MintPhaseReady);;
        m_modify (condition ConditionTypeReady ConditionTrue "ReconciliationComplete"
          "All resources reconciled successfully")
      else
        m_modify (condition ConditionTypeReady ConditionFalse "DeploymentNotReady"
          "Waiting for deployment to be ready")
  end.

(** ** Secrets that are created once *)

(** [cashumint_controller.go: reconcileOptionalMnemonic] *)
Definition reconcileOptionalMnemonic : M unit :=
  let! m := m_get in
  let mi := m.(mint_Spec).(spec_MintInfo) in
  if negb mi.(mi_AutoGenerateMnemonic) || non_nil mi.(mi_MnemonicSecretRef) then m_ret tt
  else
    let! r := m_call (GetSecret (mint_Namespace m) (MnemonicSecretName (mint_Name m))) in
    match r with
    | inl _ => m_ret tt
    | inr e =>
        if negb (has_reason ReasonNotFound e) then m_res (Err (Wrapf "failed to get mnemonic secret: " e))
        else
          let! rnd := m_call (RandRead 32) in
          let! s := m_wrap "failed to generate mnemonic secret: "
            (m_res (GenerateMnemonicSecret m "" (match rnd with inl l => Ok l | inr e => Err e end))) in
          createSecret "failed to create mnemonic secret: " s;;
          emit EventTypeNormal "MnemonicCreated" "Auto-generated BIP39 mnemonic secret created"
    end.

(** The password secret. [cashumint_controller.go: reconcilePostgreSQL 583-609] *)
Definition reconcilePostgresSecret : M unit :=
  let! m := m_get in
  let! r := m_call (GetSecret (mint_Namespace m) (mint_Name m +:+ "-postgres-secret")) in
  match r with
  | inl _ => m_ret tt
  | inr e =>
      if negb (has_reason ReasonNotFound e) then m_res (Err (Wrapf "failed to get postgres secret: " e))
      else
        let! rnd := m_call (RandRead 32) in
        let! o := m_wrap "failed to generate PostgreSQL secret: "
          (m_res (GeneratePostgresSecret m "" (match rnd with inl l => Ok l | inr e => Err e end))) in
        match o with
        | None => m_ret tt
        | Some s => createSecret "failed to create PostgreSQL secret: " s
        end
  end.

(** [cashumint_controller.go: reconcilePostgreSQL] *)
Definition reconcilePostgreSQL : M unit :=
  reconcilePostgresSecret;;
  let! m := m_get in
  reconcileObject "PostgreSQL service" (GeneratePostgresService m) OService;;
  let! o := m_wrap "failed to generate PostgreSQL StatefulSet: " (m_res (GeneratePostgresStatefulSet m)) in
  match o with
  | None => m_ret tt
  | Some sts =>
      let! sts := m_wrap "failed to apply PostgreSQL StatefulSet: " (applyResource (OStatefulSet sts)) in
      if isStatefulSetReady sts
      then m_modify (condition ConditionTypeDatabaseReady ConditionTrue "PostgreSQLReady" "PostgreSQL database is ready")
      else m_modify (condition ConditionTypeDatabaseReady ConditionFalse "PostgreSQLNotReady"
                       "Waiting for PostgreSQL to be ready")
  end.

(** [cashumint_controller.go: reconcileOptionalPostgreSQL] *)
Definition reconcileOptionalPostgreSQL : M unit :=
  let! m := m_get in
  if negb (ptr_test pg_AutoProvision m.(mint_Spec).(spec_Database).(db_Postgres)) then m_ret tt
  else
    let! r := m_try reconcilePostgreSQL in
    match r with
    | inl _ => m_ret tt
    | inr e =>
        emit EventTypeWarning "PostgreSQLFailed" ("Failed to reconcile PostgreSQL: " +:+ err_msg e);;
        m_res (Err (Wrapf "failed to reconcile PostgreSQL: " e))
    end.

(** [cashumint_controller.go: reconcileManagementRPCTLSSecret] *)
Definition reconcileManagementRPCTLSSecret : M unit :=
  let! m := m_get in
  if negb (ManagementRPCTLSEnabled m.(mint_Spec)) then m_ret tt
  else
    let! r := m_call (GetSecret (mint_Namespace m) (ManagementRPCTLSSecretName m.(mint_Spec) (mint_Name m))) in
    match r with
    | inl _ => m_ret tt
    | inr e =>
        if negb (has_reason ReasonNotFound e)
        then m_res (Err (Wrapf "failed to get management RPC TLS secret: " e))
        else
          let! d := m_call DrawTLS in
          let! o := m_wrap "failed to generate management RPC TLS secret: "
            (m_res (GenerateManagementRPCTLSSecret m d)) in
          match o with
          | None => m_ret tt
          | Some s => createSecret "failed to create management RPC TLS secret: " s
          end
    end.

(** ** Backups *)

(** [cashumint_controller.go: reconcileBackup] *)
Definition reconcileBackup : M unit :=
  let! m := m_get in
  let! o := m_wrap "failed to generate backup CronJob: " (m_res (GeneratePostgresBackupCronJob m)) in
  match o with
  | None =>
      m_modify (condition ConditionTypeBackupReady ConditionFalse "BackupNotReconciled"
        "Backup is enabled but no backup resources were generated")
  | Some cronJob =>
      let! _ := m_wrap "failed to apply backup CronJob: " (applyResource (OCronJob cronJob)) in
      let! o := m_wrap "failed to generate restore Job: " (m_res (GeneratePostgresRestoreJob m)) in
      match o with
      | None =>
          m_modify (condition ConditionTypeBackupReady ConditionTrue "BackupScheduleReady"
            ("Backup CronJob " +:+ cronJob.(cj_Meta).(om_Name) +:+ " reconciled"))
      | Some job =>
          let! _ := m_wrap "failed to apply restore Job: " (applyResource (OJob job)) in
          m_modify (condition ConditionTypeBackupReady ConditionTrue "RestoreJobReconciled"
            ("Restore Job " +:+ job.(job_Meta).(om_Name) +:+ " reconciled for requested backup object"))
      end
  end.

(** [cashumint_controller.go: reconcileOptionalBackup] *)
Definition reconcileOptionalBackup : M unit :=
  let! m := m_get in
  if negb (ptr_test bk_Enabled m.(mint_Spec).(spec_Backup)) then m_ret tt
  else m_wrap "failed to reconcile backup resources: " reconcileBackup.

(** ** The configuration *)

(** [cashumint_controller.go: resolveRequiredSecretValue] *)
Definition resolveRequiredSecretValue (namespace : string) (ref : option SecretKeySelector) (fieldPath : string) :
    M string :=
  match ref with
  | None => m_ret ""
  | Some ref =>
      if str_empty ref.(sks_Name) || str_empty ref.(sks_Key)
      then m_res (Err (Errorf (fieldPath +:+ " must specify both secret name and key")))
      else
        let! r := m_call (GetSecret namespace ref.(sks_Name)) in
        match r with
        | inr e => m_res (Err (Wrapf (fieldPath +:+ " secret " +:+ ref.(sks_Name) +:+ " not ready yet: ") e))
        | inl secret =>
            match secret.(sec_Data) !! ref.(sks_Key) with
            | Some value =>
                if str_empty value
                then m_res (Err (Errorf (fieldPath +:+ " references secret " +:+ ref.(sks_Name) +:+ " key " +:+
                                         ref.(sks_Key) +:+ ", but it is missing or empty")))
                else m_ret value
            | None => m_res (Err (Errorf (fieldPath +:+ " references secret " +:+ ref.(sks_Name) +:+ " key " +:+
                                          ref.(sks_Key) +:+ ", but it is missing or empty")))
            end
        end
  end.

(** Writing a resolved URL into the copy: [pg.URL = url; pg.URLSecretRef = nil]. *)
Definition with_url (url : string) (pg : PostgresConfig) : PostgresConfig :=
  pg <| pg_URL := url |> <| pg_URLSecretRef := None |>.

(** The database part: the copied mint and the password.
    [cashumint_controller.go: reconcileConfigMap 713-742] *)
Definition resolveDatabase (m : CashuMint) : M (CashuMint * string) :=
  let db := m.(mint_Spec).(spec_Database) in
  match (if String.eqb db.(db_Engine) DatabaseEnginePostgres then db.(db_Postgres) else None) with
  | None => m_ret (m, "")
  | Some pg =>
      if pg.(pg_AutoProvision) then
        let secretName := mint_Name m +:+ "-postgres-secret" in
        let! r := m_call (GetSecret (mint_Namespace m) secretName) in
        match r with
        | inr e => m_res (Err (Wrapf ("postgres secret " +:+ secretName +:+ " not ready yet: ") e))
        | inl secret =>
            let dbPassword := match secret.(sec_Data) !! "password" with Some p => p | None => "" end in
            if str_empty dbPassword
            then m_res (Err (Errorf ("postgres secret " +:+ secretName +:+ " exists but password key is empty")))
            else m_ret (m, dbPassword)
        end
      else if non_nil pg.(pg_URLSecretRef) then
        let! url := resolveRequiredSecretValue (mint_Namespace m) pg.(pg_URLSecretRef)
          "spec.database.postgres.urlSecretRef" in
        m_ret (m <| mint_Spec ::= fun s => s <| spec_Database ::= fun d =>
                 d <| db_Postgres := Some (with_url url pg) |> |> |>, "")
      else m_ret (m, "")
  end.

(** The auth database that has a secret reference to resolve.
    [cashumint_controller.go: reconcileConfigMap 744-747] *)
Definition authSecretRef (m : CashuMint) : option (AuthConfig * PostgresConfig) :=
  auth ← m.(mint_Spec).(spec_Auth);
  if negb auth.(auth_Enabled) then None
  else adb ← auth.(auth_Database); pg ← adb.(adb_Postgres);
       if non_nil pg.(pg_URLSecretRef) then Some (auth, pg) else None.

(** [cashumint_controller.go: reconcileConfigMap 744-755] *)
Definition resolveAuthDatabase (m : CashuMint) : M CashuMint :=
  match authSecretRef m with
  | None => m_ret m
  | Some (auth, pg) =>
      let! url := resolveRequiredSecretValue (mint_Namespace m) pg.(pg_URLSecretRef)
        "spec.auth.database.postgres.urlSecretRef" in
      let auth := auth <| auth_Database ::= ptr_upd (fun d => d <| adb_Postgres := Some (with_url url pg) |>) |> in
      m_ret (m <| mint_Spec ::= fun s => s <| spec_Auth := Some auth |> |>)
  end.

(** [cashumint_controller.go: reconcileConfigMap] *)
Definition reconcileConfigMap : M unit :=
  let! m := m_get in
  let! (configMint, dbPassword) := resolveDatabase m in
  let! configMint := resolveAuthDatabase configMint in
  let! configMap := m_wrap "failed to generate ConfigMap: " (m_res (GenerateConfigMap configMint dbPassword)) in
  let! _ := m_wrap "failed to apply ConfigMap: " (applyResource (OConfigMap configMap)) in
  m_modify (condition ConditionTypeConfigValid ConditionTrue "ConfigurationValid"
    "Configuration is valid and applied").

(** ** Workload and exposure *)

(** [cashumint_controller.go: reconcilePVC] *)
Definition reconcilePVC : M unit :=
  let! m := m_get in
  reconcileObject "PVC" (GeneratePVC m) OPVC;;
  reconcileObject "Orchard PVC" (GenerateOrchardPVC m) OPVC.

(** A generator that always returns an object. *)
Definition some_object {X} (g : res X) : res (option X) := let? x := g in Ok (Some x).

(** [cashumint_controller.go: reconcileDeployment] *)
Definition reconcileDeployment : M unit :=
  let! m := m_get in
  let! r := m_call (GetConfigMap (mint_Namespace m) (mint_Name m +:+ "-config")) in
  let! configMap := m_wrap "failed to get ConfigMap for hash calculation: " (m_lift r) in
  reconcileObject "Deployment" (some_object (GenerateDeployment m (calculateConfigHash configMap))) ODeployment.

(** [cashumint_controller.go: reconcileService] *)
Definition reconcileService : M unit :=
  let! m := m_get in
  reconcileObject "Service" (some_object (GenerateService m)) OService;;
  reconcileObject "Orchard Service" (GenerateOrchardService m) OService.

(** [cashumint_controller.go: reconcilePodMonitor] *)
Definition reconcilePodMonitor : M unit :=
  let! m := m_get in
  if negb (prometheusEnabled m) then
    let! r := m_call (DeletePodMonitor (mint_Namespace m) (mint_Name m)) in
    match r with
    | inl _ => m_ret tt
    | inr e => if has_reason ReasonNotFound e || has_reason ReasonNoMatch e then m_ret tt
               else m_res (Err (Wrapf "failed to delete PodMonitor: " e))
    end
  else
    let! o := m_wrap "failed to generate PodMonitor: " (m_res (GeneratePodMonitor m)) in
    match o with
    | None => m_ret tt
    | Some podMonitor =>
        let! r := m_try (applyResource (OPodMonitor podMonitor)) in
        match r with
        | inl _ => m_ret tt
        | inr e =>
            if has_reason ReasonNoMatch e
            then m_res (Err (Wrapf "failed to apply PodMonitor: Prometheus Operator PodMonitor CRD is not installed: " e))
            else m_res (Err (Wrapf "failed to apply PodMonitor: " e))
        end
    end.

(** [cashumint_controller.go: reconcileIngress] *)
Definition reconcileIngress : M unit :=
  let! m := m_get in
  reconcileObject "Ingress" (GenerateIngress m) OIngress;;
  reconcileObject "Orchard Ingress" (GenerateOrchardIngress m) OIngress.

(** [cashumint_controller.go: reconcileCertificate] *)
Definition reconcileCertificate : M unit :=
  let! m := m_get in
  reconcileObject "Certificate" (GenerateCertificate m) OCertificate;;
  reconcileObject "Orchard Certificate" (GenerateOrchardCertificate m) OCertificate.

(** [cashumint_controller.go: reconcileOptionalIngressResources] *)
Definition reconcileOptionalIngressResources : M unit :=
  let! m := m_get in
  if negb (needsIngressReconciliation m) then m_ret tt
  else
    m_wrap "failed to reconcile Ingress: " reconcileIngress;;
    if negb (needsCertificateReconciliation m) then m_ret tt
    else m_wrap "failed to reconcile Certificate: " reconcileCertificate.

(** [cashumint_controller.go: reconcileCoreResources] *)
Definition reconcileCoreResources : M unit :=
  let! m := m_get in
  m_wrap "failed to reconcile management RPC TLS secret: " reconcileManagementRPCTLSSecret;;
  m_wrap "failed to reconcile ConfigMap: " reconcileConfigMap;;
  (if needsPVCReconciliation m then m_wrap "failed to reconcile PVC: " reconcilePVC else m_ret tt);;
  m_wrap "failed to reconcile Deployment: " reconcileDeployment;;
  m_wrap "failed to reconcile Service: " reconcileService;;
  m_wrap "failed to reconcile PodMonitor: " reconcilePodMonitor.

(** [cashumint_controller.go: reconcileResources] *)
Definition reconcileResources : M Result :=
  transitionReconciliationPhase;;
  reconcileOptionalMnemonic;;
  reconcileOptionalPostgreSQL;;
  reconcileOptionalBackup;;
  reconcileCoreResources;;
  reconcileOptionalIngressResources;;
  updateDeploymentReadiness;;
  let! m := m_get in
  m_ret (reconcileResultForPhase m.(mint_Status).(st_Phase)).

(** ** Outcomes *)

(** [cashumint_controller.go: handleError] *)
Definition handleError (err : goerror) : M Result :=
  if has_reason ReasonConflict err then m_ret (mkResult false Millisecond)
  else if has_reason ReasonNotFound err then
    emit EventTypeWarning "DependencyNotFound" "Waiting for dependencies to be created";;
    m_ret (mkResult false NotReadyRetryInterval)
  else
    m_modify (set_phase MintPhaseFailed);;
    m_modify (condition ConditionTypeReady ConditionFalse "ReconciliationFailed" (err_msg err));;
    emit EventTypeWarning "ReconciliationFailed" (err_msg err);;
    let! m := m_get in
    let! _ := m_call (UpdateMintStatus m) in
    m_res (Err err).

(** What [updateStatus] copies from the objects it finds.
    [cashumint_controller.go: updateStatus 511-517] *)
Definition observeDeployment (d : Deployment) (m : CashuMint) : CashuMint :=
  m <| mint_Status ::= fun s => s <| st_ReadyReplicas := d.(dep_ReadyReplicas) |>
                                  <| st_DeploymentName := d.(dep_Meta).(om_Name) |> |>.
(** [cashumint_controller.go: updateStatus 519-524] *)
Definition observeService (s : Service) (m : CashuMint) : CashuMint :=
  m <| mint_Status ::= fun st => st <| st_ServiceName := s.(svco_Meta).(om_Name) |> |>.
(** [cashumint_controller.go: updateStatus 557-562] *)
Definition observeConfigMap (c : ConfigMap) (m : CashuMint) : CashuMint :=
  m <| mint_Status ::= fun st => st <| st_ConfigMapName := c.(cfg_Meta).(om_Name) |> |>.

(** [cashumint_controller.go: updateStatus 526-555] *)
Definition observeIngress (host : string) (i : Ingress) (m : CashuMint) : CashuMint :=
  let m := m <| mint_Status ::= fun st => st <| st_IngressName := i.(ingo_Meta).(om_Name) |> |> in
  if non_empty i.(ingo_LoadBalancerIngress) then
    let scheme := if non_empty i.(ingo_TLS) then "https://" else "http://" in
    condition ConditionTypeIngressReady ConditionTrue "IngressReady" "Ingress is ready and accessible"
      (m <| mint_Status ::= fun st => st <| st_URL := scheme +:+ host |> |>)
  else
    condition ConditionTypeIngressReady ConditionFalse "IngressNotReady" "Waiting for ingress to be assigned" m.

(** [if err == nil { observe(x) } else if !IsNotFound(err) { log }] *)
Definition observed {X} (f : X -> CashuMint -> CashuMint) (r : X + goerror) (m : CashuMint) : CashuMint :=
  match r with inl x => f x m | inr _ => m end.

(** [cashumint_controller.go: updateStatus] *)
Definition updateStatus : M unit :=
  let! desired := m_get in
  let! r := m_call (GetMint (mint_Namespace desired) (mint_Name desired)) in
  let! current := m_wrap "failed to re-fetch CashuMint for status update: " (m_lift r) in
  let ns := mint_Namespace current in
  let name := mint_Name current in
  let current := current <| mint_Status := desired.(mint_Status) |> in
  let! d := m_call (GetDeployment ns name) in
  let current := observed observeDeployment d current in
  let! s := m_call (GetService ns name) in
  let current := observed observeService s current in
  let! current :=
    (match enabledIngress current.(mint_Spec).(spec_Ingress) with
     | None => m_ret current
     | Some ing => let! i := m_call (GetIngress ns name) in
                   m_ret (observed (observeIngress ing.(ing_Host)) i current)
     end) in
  let! c := m_call (GetConfigMap ns (name +:+ "-config")) in
  let current := observed observeConfigMap c current in
  let current := current <| mint_Status ::= fun st =>
    st <| st_ObservedGeneration := current.(mint_Meta).(om_Generation) |> |> in
  let! r := m_call (UpdateMintStatus current) in
  match r with
  | inl _ => m_ret tt
  | inr e => if has_reason ReasonConflict e then m_ret tt else m_res (Err e)
  end.

(** ** The entry point *)

(** [cashumint_controller.go: Reconcile 101-109] *)
Definition addFinalizer : M Result :=
  m_modify (fun m => m <| mint_Meta ::= fun o => AddFinalizer o cashuMintFinalizer |>);;
  let! m := m_get in
  let! r := m_call (UpdateMint m) in
  let! _ := m_lift r in
  m_ret (mkResult true 0).

(** [cashumint_controller.go: Reconcile 111-120] *)
Definition initializeStatus : M Result :=
  m_modify (set_phase MintPhasePending);;
  let! m := m_get in
  let! r := m_call (UpdateMintStatus m) in
  let! _ := m_lift r in
  emit EventTypeNormal "Created" "CashuMint resource created";;
  m_ret (mkResult true 0).

(** [cashumint_controller.go: Reconcile 122-134] *)
Definition reconcileActive : M Result :=
  let! r := m_try reconcileResources in
  match r with
  | inr e => handleError e
  | inl result => updateStatus;; m_ret result
  end.

(** After the fetch. [cashumint_controller.go: Reconcile 96-134] *)
Definition reconcileMint : M Result :=
  let! m := m_get in
  if non_nil m.(mint_Meta).(om_DeletionTimestamp) then handleDeletion
  else if negb (ContainsFinalizer m.(mint_Meta) cashuMintFinalizer) then addFinalizer
  else if decide (m.(mint_Status).(st_Phase) = PhaseUnset) then initializeStatus
  else reconcileActive.

(** [cashumint_controller.go: Reconcile] *)
Definition Reconcile (ns name : string) : M Result :=
  let! r := m_call (GetMint ns name) in
  match r with
  | inr e => if has_reason ReasonNotFound e then m_ret noResult else m_res (Err e)
  | inl m => m_modify (fun _ => m);; reconcileMint
  end.
End Handlers.
