(* ===== verification/Server.v ===== *)
(** * An executable API server

    A small server for the witnesses: it keeps what the history applied,
    created and updated, and runs every deployment it is given.  Nothing is
    proved from it but closed examples. *)

From S2P Require Import Prelude Kube Types Platform Fmt Samples Defaulting Encoding Validation Common Toml.
From S2P Require Import ConfigToml Postgres Backup Mnemonic ManagementRPC Orchard Workload Storage Networking.
From S2P Require Import Client Controller.

#[local] Existing Instance std_ControllerUtil.
#[local] Existing Instance std_StatusConditions.
#[local] Existing Instance std_Quantities.
#[local] Existing Instance std_UnicodeTables.
#[local] Existing Instance std_X509.

Definition notFound : goerror := mk_goerror "not found" (Some ReasonNotFound).

(** The last event that [f] recognises. *)
Fixpoint latest {A} (f : event -> option A) (h : history) : option A :=
  match h with
  | [] => None
  | e :: h => match latest f h with Some a => Some a | None => f e end
  end.

Definition found {A} (o : option A) : A + goerror := match o with Some a => inl a | None => inr notFound end.

Definition stored_mint (e : event) : option CashuMint :=
  match ev_call e with UpdateMint m | UpdateMintStatus m => Some m | _ => None end.
Definition stored_secret (name : string) (e : event) : option Secret :=
  match ev_call e with
  | CreateSecret s => if String.eqb s.(sec_Meta).(om_Name) name
                      then Some (s <| sec_Data := s.(sec_StringData) ∪ s.(sec_Data) |>) else None
  | _ => None
  end.
Definition stored_object {A} (f : Object -> option A) (e : event) : option A :=
  match ev_call e with Apply o => f o | _ => None end.

(** Deployments and stateful sets are up at once. *)
Definition up (d : Deployment) : Deployment :=
  match d.(dep_Replicas) with
  | Some n => d <| dep_ReadyReplicas := n |> <| dep_UpdatedReplicas := n |> <| dep_AvailableReplicas := n |>
  | None => d
  end.
Definition sts_up (s : StatefulSet) : StatefulSet :=
  match s.(sts_Replicas) with
  | Some n => s <| sts_ReadyReplicas := n |> <| sts_CurrentReplicas := n |> <| sts_UpdatedReplicas := n |>
  | None => s
  end.

Definition named (name : string) (o : Object) : bool := String.eqb (object_meta o).(om_Name) name.

Definition server (m0 : CashuMint) (h : history) (c : call) : response c :=
  match c return response c with
  | GetMint _ _ => inl (match latest stored_mint h with Some m => m | None => m0 end)
  | GetSecret _ n => found (latest (stored_secret n) h)
  | GetDeployment _ n => found (latest (stored_object (fun o => match o with ODeployment d => Some (up d) | _ => None end)) h)
  | GetService _ n => found (latest (stored_object (fun o =>
      match o with OService s => if named n o then Some s else None | _ => None end)) h)
  | GetIngress _ n => found (latest (stored_object (fun o =>
      match o with OIngress s => if named n o then Some s else None | _ => None end)) h)
  | GetConfigMap _ n => found (latest (stored_object (fun o => match o with OConfigMap s => Some s | _ => None end)) h)
  | CreateSecret _ | DeleteSecret _ | DeletePodMonitor _ _ | UpdateMint _ | UpdateMintStatus _ => inl tt
  | Apply o => match o return apply_reply o + goerror with OStatefulSet s => inl (sts_up s) | _ => inl tt end
  | EmitEvent _ _ _ => tt
  | RandRead n => inl (replicate n 7%Z)
  | DrawTLS => sampleDraws
  end.

(** [n] reconciliations in a row: their histories and the outcome of the last. *)
Fixpoint reconcile_times (m0 : CashuMint) (n : nat) (h : history) : history :=
  match n with
  | O => h
  | S n => reconcile_times m0 n
             (h ++ (simulate (server m0) h (Reconcile (mint_Namespace m0) (mint_Name m0) m0)).1)
  end.

Definition stored_phase (h : history) : option MintPhase :=
  (fun m => m.(mint_Status).(st_Phase)) <$> latest stored_mint h.

(** A fresh mint gets its finalizer, then the phase Pending, and is Ready after
    the third reconciliation. *)
Example fresh_mint_becomes_ready :
  (fun n => stored_phase (reconcile_times fullMint n [])) <$> [1; 2; 3; 4] =
  [Some PhaseUnset; Some MintPhasePending; Some MintPhaseReady; Some MintPhaseReady].
Proof. vm_compute. reflexivity. Qed.

(** The calls of a run, by kind. *)
Definition call_name (c : call) : string :=
  match c with
  | GetMint _ _ => "get mint" | GetSecret _ n => "get secret " +:+ n | GetDeployment _ _ => "get deployment"
  | GetService _ _ => "get service" | GetIngress _ _ => "get ingress" | GetConfigMap _ _ => "get configmap"
  | CreateSecret s => "create secret " +:+ s.(sec_Meta).(om_Name) | DeleteSecret _ => "delete secret"
  | DeletePodMonitor _ _ => "delete podmonitor"
  | Apply o => "apply " +:+ (object_type o).(tm_Kind) +:+ " " +:+ (object_meta o).(om_Name)
  | UpdateMint _ => "update mint" | UpdateMintStatus _ => "update status" | EmitEvent _ r _ => "event " +:+ r
  | RandRead _ => "random" | DrawTLS => "tls keys"
  end.

(** The mint as the third reconciliation fetches it. *)
Definition pendingMint : CashuMint :=
  match latest stored_mint (reconcile_times fullMint 2 []) with Some m => m | None => fullMint end.
Definition firstRun : history * (CashuMint * res Result) :=
  simulate (server pendingMint) [] (reconcileMint pendingMint).

Example first_run_calls :
  (call_name ∘ ev_call) <$> firstRun.1 =
  ["event Provisioning"; "get secret mint-mnemonic"; "random"; "create secret mint-mnemonic"; "event MnemonicCreated";
   "get secret mint-postgres-secret"; "random"; "create secret mint-postgres-secret"; "apply Service mint-postgres";
   "apply StatefulSet mint-postgres"; "apply CronJob mint-backup"; "get secret mint-postgres-secret";
   "apply ConfigMap mint-config"; "apply PersistentVolumeClaim mint-orchard-data"; "get configmap";
   "apply Deployment mint"; "apply Service mint"; "apply Service mint-orchard"; "apply PodMonitor mint";
   "apply Ingress mint"; "apply Certificate mint"; "get deployment"; "event Ready"; "get mint"; "get deployment";
   "get service"; "get ingress"; "get configmap"; "update status"].
Proof. vm_compute. reflexivity. Qed.

(** A run on a fetched mint, after the fetch. *)
Lemma Reconcile_fetched ns name s0 m0 h r :
  runs (reconcileMint m0) h r -> runs (Reconcile ns name s0) (Ev (GetMint ns name) (inl m0) :: h) r.
Proof. intros Hr. by apply (runs_call (GetMint ns name) _ (inl m0)). Qed.

Definition firstHistory : history := firstRun.1.

Lemma firstRun_runs :
  runs (Reconcile "wallets" "mint" fullMint) (Ev (GetMint "wallets" "mint") (inl pendingMint) :: firstHistory) firstRun.2.
Proof. exact (Reconcile_fetched _ _ _ pendingMint _ _ (simulate_runs (server pendingMint) [] (reconcileMint pendingMint))). Qed.

(** The same mint, deleted, with the secrets of the first run in place. *)
Definition deletedMint : CashuMint :=
  pendingMint <| mint_Meta ::= fun o => o <| om_DeletionTimestamp := Some 1%Z |> |>.
Definition deletionRun : history * (CashuMint * res Result) :=
  simulate (fun h => server deletedMint (firstHistory ++ h)) [] (reconcileMint deletedMint).

Lemma deletionRun_runs :
  runs (Reconcile "wallets" "mint" fullMint) (Ev (GetMint "wallets" "mint") (inl deletedMint) :: deletionRun.1) deletionRun.2.
Proof.
  exact (Reconcile_fetched _ _ _ deletedMint _ _
    (simulate_runs (fun h => server deletedMint (firstHistory ++ h)) [] (reconcileMint deletedMint))).
Qed.

Example deletion_calls :
  (call_name ∘ ev_call) <$> deletionRun.1 =
  ["get secret mint-postgres-secret"; "delete secret"; "event SecretDeleted"; "event Deleted"; "update mint"].
Proof. vm_compute. reflexivity. Qed.
