(* ===== verification/Safety.v ===== *)
(** * What the reconciler may do: safety over all runs

    Proved of every run of [Reconcile], whatever the API server replies: which
    objects it reads, creates, patches and deletes, and after which replies. *)

From S2P Require Import Prelude Kube Types Platform Fmt Samples Defaulting Encoding Validation Common Toml.
From S2P Require Import ConfigToml Postgres Backup Mnemonic ManagementRPC Orchard Workload Storage Networking.
From S2P Require Import Client Controller Server.

(** The in-memory mint differs from the fetched one at most in its status. *)
Definition same (m0 s : CashuMint) : Prop := mint_Meta s = mint_Meta m0 /\ mint_Spec s = mint_Spec m0.

Lemma same_refl m : same m m.
Proof. by split. Qed.

Lemma same_phase m0 p s : same m0 s -> same m0 (set_phase p s).
Proof. by intros [? ?]. Qed.

Lemma same_condition `{StatusConditions} m0 t st reason msg s : same m0 s -> same m0 (condition t st reason msg s).
Proof. by intros [? ?]. Qed.

#[export] Hint Resolve same_refl same_phase same_condition : op_db.

(** The object belongs to the mint: its namespace, and it as controller. *)
Definition owned (m : CashuMint) (o : Object) : Prop :=
  (object_meta o).(om_Namespace) = mint_Namespace m /\ controlled_by m (object_meta o).

(** A lookup of the secret has been answered with NotFound. *)
Definition seen_missing `{X509} (h : history) (ns name : string) : Prop :=
  exists e, In (Ev (GetSecret ns name) (inr e)) h /\ has_reason ReasonNotFound e = true.

(** The deployment carries the hash of a config map that was read. *)
Definition hash_seen `{X509} (m : CashuMint) (h : history) (d : Deployment) : Prop :=
  exists c, In (Ev (GetConfigMap (mint_Namespace m) (mint_Name m +:+ "-config")) (inl c)) h /\
    d.(dep_Template).(pt_Annotations) = Some {[ "config-hash" := calculateConfigHash c ]}.

(** ** Every generated object is owned by its mint *)

Section Owned.
Context `{ControllerUtilLaws, Quantities, UnicodeTables, X509}.

Lemma set_reference_owned mint name labels annotations m :
  SetControllerReference mint (newMeta name (mint_Namespace mint) labels annotations) = Ok m ->
  om_Namespace m = mint_Namespace mint /\ controlled_by mint m.
Proof.
  intros Hs. pose proof (scr_controlled _ _ _ Hs). apply scr_refs_only in Hs. by rw Hs.
Qed.

(** Unfolds a generator down to its owner reference. *)
Ltac owned_tac :=
  unfold set_reference in *; intros Hg;
  repeat (case_match; try discriminate); op_inv; simplify_eq;
  eapply set_reference_owned; eassumption.

Lemma GeneratePVC_owned m x : GeneratePVC m = Ok (Some x) -> owned m (OPVC x).
Proof. unfold GeneratePVC, claim. owned_tac. Qed.
Lemma GenerateOrchardPVC_owned m x : GenerateOrchardPVC m = Ok (Some x) -> owned m (OPVC x).
Proof. unfold GenerateOrchardPVC, claim. owned_tac. Qed.
Lemma GenerateService_owned m x : GenerateService m = Ok x -> owned m (OService x).
Proof. unfold GenerateService. owned_tac. Qed.
Lemma GenerateOrchardService_owned m x : GenerateOrchardService m = Ok (Some x) -> owned m (OService x).
Proof. unfold GenerateOrchardService. owned_tac. Qed.
Lemma GenerateIngress_owned m x : GenerateIngress m = Ok (Some x) -> owned m (OIngress x).
Proof. unfold GenerateIngress, ingressFor. owned_tac. Qed.
Lemma GenerateOrchardIngress_owned m x : GenerateOrchardIngress m = Ok (Some x) -> owned m (OIngress x).
Proof. unfold GenerateOrchardIngress, ingressFor. owned_tac. Qed.
Lemma GenerateCertificate_owned m x : GenerateCertificate m = Ok (Some x) -> owned m (OCertificate x).
Proof. unfold GenerateCertificate, certificateFor. owned_tac. Qed.
Lemma GenerateOrchardCertificate_owned m x : GenerateOrchardCertificate m = Ok (Some x) -> owned m (OCertificate x).
Proof. unfold GenerateOrchardCertificate, certificateFor. owned_tac. Qed.
Lemma GeneratePodMonitor_owned m x : GeneratePodMonitor m = Ok (Some x) -> owned m (OPodMonitor x).
Proof. unfold GeneratePodMonitor. owned_tac. Qed.
Lemma GeneratePostgresService_owned m x : GeneratePostgresService m = Ok (Some x) -> owned m (OService x).
Proof. unfold GeneratePostgresService. owned_tac. Qed.
Lemma GeneratePostgresStatefulSet_owned m x :
  GeneratePostgresStatefulSet m = Ok (Some x) -> owned m (OStatefulSet x).
Proof. unfold GeneratePostgresStatefulSet. owned_tac. Qed.
Lemma GeneratePostgresBackupCronJob_owned m x :
  GeneratePostgresBackupCronJob m = Ok (Some x) -> owned m (OCronJob x).
Proof. unfold GeneratePostgresBackupCronJob. owned_tac. Qed.
Lemma GeneratePostgresRestoreJob_owned m x :
  GeneratePostgresRestoreJob m = Ok (Some x) -> owned m (OJob x).
Proof. unfold GeneratePostgresRestoreJob. owned_tac. Qed.
Lemma GenerateConfigMap_owned m pw x : GenerateConfigMap m pw = Ok x -> owned m (OConfigMap x).
Proof. unfold GenerateConfigMap. owned_tac. Qed.
Lemma GenerateDeployment_owned m h x : GenerateDeployment m h = Ok x -> owned m (ODeployment x).
Proof. unfold GenerateDeployment. owned_tac. Qed.
End Owned.

(** A namespace the reconciliation may read: the mint's, also as it appears on
    the object fetched again at the end. *)
Definition own_namespace `{X509} (m0 : CashuMint) (h : history) (ns : string) : Prop :=
  ns = mint_Namespace m0 \/
  exists cur, In (Ev (GetMint (mint_Namespace m0) (mint_Name m0)) (inl cur)) h /\ ns = mint_Namespace cur.

(** ** The policy

    [good m0 h c]: call [c] is allowed after history [h] in a reconciliation of
    [m0] that is not being deleted and has its finalizer and phase. *)

Section Policy.
Context `{X509}.

Definition good (m0 : CashuMint) (h : history) (c : call) : Prop :=
  match c with
  | GetMint ns name => ns = mint_Namespace m0 /\ name = mint_Name m0
  | GetSecret ns _ | GetDeployment ns _ | GetService ns _ | GetIngress ns _ | GetConfigMap ns _ =>
      own_namespace m0 h ns
  | CreateSecret s =>
      s.(sec_Meta).(om_Namespace) = mint_Namespace m0 /\
      seen_missing h (mint_Namespace m0) s.(sec_Meta).(om_Name)
  | DeleteSecret _ | UpdateMint _ => False
  | DeletePodMonitor ns name =>
      ns = mint_Namespace m0 /\ name = mint_Name m0 /\ prometheusEnabled m0 = false
  | Apply (OSecret _) => False
  | Apply (ODeployment d) => owned m0 (ODeployment d) /\ hash_seen m0 h d
  | Apply o => owned m0 o
  | UpdateMintStatus _ | EmitEvent _ _ _ | RandRead _ | DrawTLS => True
  end.

Variable m0 : CashuMint.

(** A handler that keeps to the policy and to the mint's metadata and spec. *)
Abbreviation safe := (inv (good m0) (same m0)).

Lemma safe_emit t r msg : safe (emit t r msg).
Proof. by apply inv_call. Qed.

Lemma safe_apply o : (forall h, good m0 h (Apply o)) -> safe (applyResource o).
Proof. intros Ho. apply inv_bind; [by apply inv_call|intros r; apply inv_lift]. Qed.

Lemma safe_object {X} what (g : res (option X)) inj :
  (forall x, g = Ok (Some x) -> forall h, good m0 h (Apply (inj x))) -> safe (reconcileObject what g inj).
Proof.
  intros Hg. apply inv_bind_wrap. intros [x|] Ho; [|apply inv_ret].
  apply inv_bind; [apply inv_wrap, safe_apply; by apply Hg|intros; apply inv_ret].
Qed.

(** ** Creating a secret after it was seen missing *)

Definition since (h0 h : history) : Prop := exists h1, h = h0 ++ h1.

(** [safe] for what runs after history [h0]. *)
Definition safe_since (h0 : history) {A} (m : M A) : Prop :=
  hoare (good m0) (fun h s => same m0 s /\ since h0 h) m (fun h s _ => same m0 s /\ since h0 h).

Lemma safe_since_safe h0 {A} (m : M A) : safe m -> safe_since h0 m.
Proof.
  intros Hm h s [Hs [h1 ->]]. eapply obeys_mono; [done| |by apply obeys_extends, Hm].
  intros h' x [Hx [h2 ->]]. split; [done|]. exists (h1 ++ h2). by rw app_assoc.
Qed.

Lemma safe_since_bind h0 {A B} (m : M A) (f : A -> M B) :
  safe_since h0 m -> (forall a, safe_since h0 (f a)) -> safe_since h0 (m_bind m f).
Proof. intros Hm Hf. by eapply hoare_bind. Qed.

Lemma safe_since_wrap h0 {A B} prefix (r : res A) (f : A -> M B) :
  (forall a, r = Ok a -> safe_since h0 (f a)) -> safe_since h0 (m_bind (m_wrap prefix (m_res r)) f).
Proof. intros Hf h s Hs. destruct r as [a|e|p]; [by apply Hf|done..]. Qed.

Lemma safe_since_create h0 prefix s :
  s.(sec_Meta).(om_Namespace) = mint_Namespace m0 ->
  seen_missing h0 (mint_Namespace m0) s.(sec_Meta).(om_Name) -> safe_since h0 (createSecret prefix s).
Proof.
  intros Hn (e & He & Hr). apply safe_since_bind.
  - intros h x [Hx [h1 ->]]. split.
    + split; [done|]. exists e. split; [apply in_or_app; by left|done].
    + intros r. split; [done|]. exists (h1 ++ [Ev (CreateSecret s) r]). by rw app_assoc.
  - intros [[]|e']; apply safe_since_safe; [apply inv_ret|destruct (has_reason _ e'); [apply inv_ret|apply inv_res]].
Qed.

(** Reading a secret: what may follow depends on the reply. *)
Lemma safe_get_secret {B} ns name (f : Secret + goerror -> M B) :
  ns = mint_Namespace m0 ->
  (forall s, safe (f (inl s))) ->
  (forall e, has_reason ReasonNotFound e = false -> safe (f (inr e))) ->
  (forall e h0, has_reason ReasonNotFound e = true -> seen_missing h0 ns name -> safe_since h0 (f (inr e))) ->
  safe (m_bind (m_call (GetSecret ns name)) f).
Proof.
  intros Hns Hok Herr Hmissing h s Hs. split; [by left|]. intros [x|e]; [by apply Hok|].
  destruct (has_reason ReasonNotFound e) eqn:He; [|by apply Herr].
  eapply obeys_mono; [done|..].
  2: { apply (Hmissing e (h ++ [Ev (GetSecret ns name) (inr e)])); [done| |].
       - exists e. split; [apply in_or_app; right; by left|done].
       - split; [done|]. exists []. by rw app_nil_r. }
  by intros h' y [? _].
Qed.
End Policy.


(** ** Every handler keeps to the policy *)

Section Handlers.
Context `{X509, ControllerUtilLaws, StatusConditions, Quantities, UnicodeTables}.
Variable m0 : CashuMint.

Abbreviation safe := (inv (good m0) (same m0)).
Abbreviation safe_value := (inv_value (good m0) (same m0)).
Ltac safe_auto := inv_auto; try apply safe_emit.

(** Objects and names of the current mint are those of the fetched one. *)
Lemma meta_owned c o : mint_Meta c = mint_Meta m0 -> owned c o -> owned m0 o.
Proof.
  intros Hm [Hn (r & Hr)]. unfold owned, controlled_by, mint_Namespace, mint_Name in *.
  rewrite -> Hm in *. split; [done|by exists r].
Qed.
Lemma same_owned s o : same m0 s -> owned s o -> owned m0 o.
Proof. intros [Hm _]. by apply meta_owned. Qed.
Lemma same_ns s : same m0 s -> mint_Namespace s = mint_Namespace m0.
Proof. intros [Hm _]. unfold mint_Namespace. by rw Hm. Qed.
Lemma same_name s : same m0 s -> mint_Name s = mint_Name m0.
Proof. intros [Hm _]. unfold mint_Name. by rw Hm. Qed.
Lemma same_spec s : same m0 s -> mint_Spec s = mint_Spec m0.
Proof. by intros [_ Hs]. Qed.

Lemma transition_safe : safe transitionReconciliationPhase.
Proof. unfold transitionReconciliationPhase. safe_auto. Qed.

Lemma readiness_safe : safe updateDeploymentReadiness.
Proof. unfold updateDeploymentReadiness. safe_auto. left. by apply same_ns. Qed.

Lemma resolve_safe ns ref path : ns = mint_Namespace m0 -> safe (resolveRequiredSecretValue ns ref path).
Proof. intros ->. unfold resolveRequiredSecretValue. safe_auto. by left. Qed.

(** The three secrets are created after a lookup that found none. *)
Lemma mnemonic_safe : safe reconcileOptionalMnemonic.
Proof.
  unfold reconcileOptionalMnemonic. apply inv_get. intros s Hs. apply inv_if; intros _; [apply inv_ret|].
  apply safe_get_secret; [by apply same_ns|intros; apply inv_ret|intros e ->; apply inv_res|].
  intros e h0 He Hseen. rw He. cbn [negb].
  apply safe_since_bind; [apply safe_since_safe, inv_call; done|]. intros rnd.
  apply safe_since_wrap. intros x Hg. unfold GenerateMnemonicSecret in Hg. op_inv. subst x.
  match goal with E : SetControllerReference _ _ = Ok _ |- _ => apply scr_refs_only in E; rewrite -> E end.
  apply safe_since_bind; [|intros _; apply safe_since_safe; first [apply inv_ret|apply safe_emit]].
  rewrite -> (same_ns s Hs) in Hseen |- *. by apply safe_since_create.
Qed.

Lemma postgres_secret_safe : safe reconcilePostgresSecret.
Proof.
  unfold reconcilePostgresSecret. apply inv_get. intros s Hs.
  apply safe_get_secret; [by apply same_ns|intros; apply inv_ret|intros e ->; apply inv_res|].
  intros e h0 He Hseen. rw He. cbn [negb].
  apply safe_since_bind; [apply safe_since_safe, inv_call; done|]. intros rnd.
  apply safe_since_wrap. intros o Hg. unfold GeneratePostgresSecret in Hg.
  destruct (autoProvisioned s); op_inv; subst o; [|apply safe_since_safe; first [apply inv_ret|apply safe_emit]].
  rewrite -> (same_ns s Hs) in Hseen |- *. by apply safe_since_create.
Qed.

Lemma rpc_secret_safe : safe reconcileManagementRPCTLSSecret.
Proof.
  unfold reconcileManagementRPCTLSSecret. apply inv_get. intros s Hs. apply inv_if; intros _; [apply inv_ret|].
  apply safe_get_secret; [by apply same_ns|intros; apply inv_ret|intros e ->; apply inv_res|].
  intros e h0 He Hseen. rw He. cbn [negb].
  apply safe_since_bind; [apply safe_since_safe, inv_call; done|]. intros d.
  apply safe_since_wrap. intros o Hg. unfold GenerateManagementRPCTLSSecret, set_reference in Hg.
  destruct (ManagementRPCTLSEnabled _); cbn [negb] in Hg; op_inv; subst o; [|apply safe_since_safe; first [apply inv_ret|apply safe_emit]].
  match goal with E : SetControllerReference _ _ = Ok _ |- _ => apply scr_refs_only in E; rewrite -> E end.
  rewrite -> (same_ns s Hs) in Hseen |- *. by apply safe_since_create.
Qed.

Ltac owned_step lem :=
  match goal with
  | Hs : same m0 ?s, Hg : _ = Ok _ |- _ => by apply (same_owned s); [|eapply lem]
  end.

Lemma postgres_safe : safe reconcileOptionalPostgreSQL.
Proof.
  unfold reconcileOptionalPostgreSQL, reconcilePostgreSQL. safe_auto; [apply postgres_secret_safe|..].
  - apply safe_object. intros x Hg h. cbn. owned_step GeneratePostgresService_owned.
  - subst. apply safe_apply. intros h. cbn. owned_step GeneratePostgresStatefulSet_owned.
Qed.

Lemma backup_safe : safe reconcileOptionalBackup.
Proof.
  unfold reconcileOptionalBackup, reconcileBackup. safe_auto; subst; apply safe_apply; intros h; cbn.
  - owned_step GeneratePostgresBackupCronJob_owned.
  - by apply (same_owned _ _ ltac:(eassumption)), GeneratePostgresRestoreJob_owned.
Qed.

(** The copy of the mint the configuration is generated from keeps the
    metadata, so the config map is owned by the mint all the same. *)
Lemma resolveDatabase_safe s :
  same m0 s -> safe_value (resolveDatabase s) (fun x => mint_Meta x.1 = mint_Meta m0).
Proof.
  intros Hs. unfold resolveDatabase. assert (Hm : mint_Meta s = mint_Meta m0) by apply Hs.
  assert (Hret : forall pw, safe_value (m_ret (s, pw)) (fun x : CashuMint * string => mint_Meta x.1 = mint_Meta m0))
    by (intros pw h x Hx; split; [done|by intros [c p] [= <- <-]]).
  destruct (if String.eqb _ _ then _ else _) as [pg|]; [|apply Hret].
  destruct (pg_AutoProvision pg).
  { intros h x Hx. split; [left; by apply same_ns|]. intros [sec|e]; cbn; [|by split].
    destruct (sec_Data sec !! "password") as [p|]; cbn; [|by split].
    destruct (str_empty p); cbn; [by split|]. split; [done|by intros [c p'] [= <- <-]]. }
  destruct (non_nil _); [|apply Hret].
  eapply hoare_bind; [apply resolve_safe; by apply same_ns| |by split|by split].
  intros url h x Hx. split; [done|]. by intros [c pw] [= <- <-].
Qed.

Lemma resolveAuthDatabase_safe c :
  mint_Meta c = mint_Meta m0 -> safe_value (resolveAuthDatabase c) (fun c' => mint_Meta c' = mint_Meta m0).
Proof.
  intros Hm. unfold resolveAuthDatabase.
  destruct (authSecretRef c) as [[auth pg]|]; [|by intros h x Hx; split; [|intros c' [= <-]]].
  eapply hoare_bind; [apply resolve_safe; unfold mint_Namespace; by rw Hm| |by split|by split].
  intros url h x Hx. split; [done|]. by intros c' [= <-].
Qed.

Lemma configmap_safe : safe reconcileConfigMap.
Proof.
  unfold reconcileConfigMap. apply inv_get. intros s Hs.
  eapply inv_bind_value; [by apply resolveDatabase_safe|]. intros [c pw] Hc.
  eapply inv_bind_value; [by apply resolveAuthDatabase_safe|]. intros c' Hc'.
  apply inv_bind_wrap. intros cm Hg. safe_auto. apply safe_apply. intros h.
  by apply (meta_owned c'); [|eapply GenerateConfigMap_owned].
Qed.

Lemma pvc_safe : safe reconcilePVC.
Proof.
  unfold reconcilePVC. safe_auto; apply safe_object; intros x Hg h; cbn.
  - owned_step GeneratePVC_owned.
  - owned_step GenerateOrchardPVC_owned.
Qed.

Lemma service_safe : safe reconcileService.
Proof.
  unfold reconcileService, some_object. safe_auto; apply safe_object; intros x Hg h; cbn.
  - op_inv. simplify_eq. owned_step GenerateService_owned.
  - owned_step GenerateOrchardService_owned.
Qed.

Lemma ingress_safe : safe reconcileIngress.
Proof.
  unfold reconcileIngress. safe_auto; apply safe_object; intros x Hg h; cbn.
  - owned_step GenerateIngress_owned.
  - owned_step GenerateOrchardIngress_owned.
Qed.

Lemma certificate_safe : safe reconcileCertificate.
Proof.
  unfold reconcileCertificate. safe_auto; apply safe_object; intros x Hg h; cbn.
  - owned_step GenerateCertificate_owned.
  - owned_step GenerateOrchardCertificate_owned.
Qed.

Lemma ingress_resources_safe : safe reconcileOptionalIngressResources.
Proof.
  unfold reconcileOptionalIngressResources. safe_auto; [apply ingress_safe|apply certificate_safe].
Qed.

Lemma podmonitor_safe : safe reconcilePodMonitor.
Proof.
  unfold reconcilePodMonitor. safe_auto.
  - cbn. rewrite -> (same_ns s), (same_name s) by done. split; [done|]. split; [done|].
    unfold prometheusEnabled in *. rewrite -> (same_spec s) in * by done. by apply negb_true_iff.
  - subst. apply safe_apply. intros h. cbn. owned_step GeneratePodMonitor_owned.
Qed.

Lemma deployment_safe : safe reconcileDeployment.
Proof.
  unfold reconcileDeployment. apply inv_get. intros s Hs h x Hx.
  split; [left; by apply same_ns|]. intros [cm|e]; [|done]. cbn.
  destruct (GenerateDeployment s (calculateConfigHash cm)) as [d|e|p] eqn:Hd; [|done..]. cbn.
  split; [|by intros [[]|e]]. split; [by apply (same_owned s); [|eapply GenerateDeployment_owned]|].
  exists cm. rewrite -> (same_ns s), (same_name s) by done. split; [apply in_or_app; right; by left|].
  unfold GenerateDeployment in Hd. op_inv. by subst d.
Qed.

Lemma core_safe : safe reconcileCoreResources.
Proof.
  unfold reconcileCoreResources. safe_auto;
    auto using rpc_secret_safe, configmap_safe, pvc_safe, deployment_safe, service_safe, podmonitor_safe.
Qed.

Lemma resources_safe : safe reconcileResources.
Proof.
  unfold reconcileResources. safe_auto; auto using transition_safe, mnemonic_safe, postgres_safe, backup_safe,
    core_safe, ingress_resources_safe, readiness_safe.
Qed.

Lemma handleError_safe e : safe (handleError e).
Proof. unfold handleError. by safe_auto. Qed.

(** The status writer reads with the name of the object it fetched again. *)
Lemma updateStatus_safe : safe updateStatus.
Proof.
  unfold updateStatus. apply inv_get. intros s Hs h x Hx.
  rewrite -> (same_ns s), (same_name s) by done. split; [done|]. intros [cur|e]; [|done].
  set (h0 := h ++ _).
  assert (Hns : forall h1, own_namespace m0 (h0 ++ h1) (mint_Namespace cur)).
  { intros h1. right. exists cur. split; [|done]. apply in_or_app. left. apply in_or_app. right. by left. }
  cbn. split; [by rewrite <- (app_nil_r h0)|]. intros d. split; [by apply Hns|]. intros sv.
  set (o := observed observeService _ _).
  destruct (enabledIngress (spec_Ingress (mint_Spec o))) as [i|]; cbn.
  - split; [rewrite <- app_assoc; by apply Hns|]. intros ig. split; [rewrite <- !app_assoc; by apply Hns|].
    intros cm. split; [done|]. intros [[]|e]; cbn; [done|]. by destruct (has_reason _ e).
  - split; [rewrite <- app_assoc; by apply Hns|]. intros cm. split; [done|].
    intros [[]|e]; cbn; [done|]. by destruct (has_reason _ e).
Qed.
End Handlers.

(** ** Runs of the entry point *)

(** A mint that is reconciled in full: not deleted, with finalizer and phase. *)
Definition active `{ControllerUtil} (m : CashuMint) : Prop :=
  m.(mint_Meta).(om_DeletionTimestamp) = None /\ ContainsFinalizer m.(mint_Meta) cashuMintFinalizer = true /\
  m.(mint_Status).(st_Phase) <> PhaseUnset.

(** The reply to a fetch of the mint. *)
Definition ev_mint `{X509} (e : event) : option (CashuMint + goerror) :=
  match e with
  | Ev c r => match c return response c -> option (CashuMint + goerror) with
              | GetMint _ _ => fun r => Some r
              | _ => fun _ => None
              end r
  end.

Section Runs.
Context `{X509, ControllerUtilLaws, StatusConditions, Quantities, UnicodeTables}.

Lemma Reconcile_run ns name s0 reply h r :
  runs (Reconcile ns name s0) (Ev (GetMint ns name) reply :: h) r ->
  match reply with
  | inl m0 => runs (reconcileMint m0) h r
  | inr e => h = [] /\ r = (s0, if has_reason ReasonNotFound e then Ok noResult else Err e)
  end.
Proof.
  intros Hr. apply runs_inv in Hr as (reply' & h' & Heq & Hr).
  assert (h' = h) as -> by congruence. apply (f_equal (fun l => l ≫= option_list ∘ ev_mint)) in Heq.
  assert (reply' = reply) as -> by (cbn in Heq; congruence). destruct reply as [m0|e].
  - exact Hr.
  - cbn in Hr. destruct (has_reason ReasonNotFound e); by apply runs_inv in Hr as [-> ->].
Qed.

(** The four ways of the entry point. *)
Lemma reconcileMint_cases m0 :
  reconcileMint m0 =
    (if non_nil m0.(mint_Meta).(om_DeletionTimestamp) then handleDeletion
     else if negb (ContainsFinalizer m0.(mint_Meta) cashuMintFinalizer) then addFinalizer
     else if decide (m0.(mint_Status).(st_Phase) = PhaseUnset) then initializeStatus
     else reconcileActive) m0.
Proof. reflexivity. Qed.

Lemma reconcileMint_active m0 : active m0 -> reconcileMint m0 = reconcileActive m0.
Proof.
  intros (Hd & Hf & Hp). rewrite -> reconcileMint_cases, Hd, Hf. cbn [non_nil negb]. by destruct (decide _).
Qed.

Lemma active_reconcile m0 h :
  active m0 -> obeys (good m0) h (reconcileMint m0) (fun _ x => same m0 x.1).
Proof.
  intros Ha. rewrite -> (reconcileMint_active m0 Ha).
  assert (Hs : inv (good m0) (same m0) reconcileActive); [|by apply Hs].
  apply inv_bind; [apply inv_try, resources_safe|].
  intros [result|e]; [|apply handleError_safe].
  apply inv_bind; [apply updateStatus_safe|intros; apply inv_ret].
Qed.

(** In a run on an active mint, the event at any position is allowed there. *)
Lemma active_allowed ns name s0 m0 h r :
  runs (Reconcile ns name s0) (Ev (GetMint ns name) (inl m0) :: h) r -> active m0 ->
  all_calls (good m0) [] h.
Proof.
  intros Hr%Reconcile_run Ha. by eapply obeys_sound in Hr as [Hall _]; [|by apply active_reconcile].
Qed.
End Runs.

(** ** Deletion *)

(** The generated password secret is gone, or there never was one to clean up. *)
Definition secret_gone `{X509} (m : CashuMint) (h : history) : Prop :=
  ptr_test pg_AutoProvision m.(mint_Spec).(spec_Database).(db_Postgres) = false \/
  seen_missing h (mint_Namespace m) (mint_Name m +:+ "-postgres-secret") \/
  exists s, In (Ev (GetSecret (mint_Namespace m) (mint_Name m +:+ "-postgres-secret")) (inl s)) h /\
    (In (Ev (DeleteSecret s) (inl tt)) h \/
     exists e, In (Ev (DeleteSecret s) (inr e)) h /\ has_reason ReasonNotFound e = true).

Definition without_finalizer `{ControllerUtil} (m : CashuMint) : CashuMint :=
  m <| mint_Meta ::= fun o => RemoveFinalizer o cashuMintFinalizer |>.

(** What a deletion may do: look the secret up, delete what it found, and give
    the finalizer up once the secret is gone. *)
Definition deletion_policy `{X509, ControllerUtil} (m : CashuMint) (h : history) (c : call) : Prop :=
  match c with
  | GetSecret ns n => ns = mint_Namespace m /\ n = mint_Name m +:+ "-postgres-secret"
  | DeleteSecret s =>
      In (Ev (GetSecret (mint_Namespace m) (mint_Name m +:+ "-postgres-secret")) (inl s)) h /\
      ptr_test pg_AutoProvision m.(mint_Spec).(spec_Database).(db_Postgres) = true
  | UpdateMint m' =>
      ContainsFinalizer m.(mint_Meta) cashuMintFinalizer = true /\ m' = without_finalizer m /\ secret_gone m h
  | EmitEvent _ _ _ => True
  | _ => False
  end.

Section Deletion.
Context `{X509, ControllerUtil}.

Lemma cleanup_hoare m :
  hoare (deletion_policy m) (fun _ s => s = m) cleanupPostgresSecret
    (fun h s r => s = m /\ (forall u, r = Ok u -> secret_gone m h)).
Proof.
  intros h s ->. unfold cleanupPostgresSecret. cbn.
  destruct (ptr_test _ _) eqn:Ha; cbn; [|by split; [|left]].
  split; [done|]. intros [sec|e]; cbn.
  - split; [split; [apply in_or_app; right; by left|done]|].
    intros [[]|e]; cbn.
    + split; [done|]. intros ev. split; [done|]. intros _ _. right. right. exists sec.
      split; [|left]; rewrite <- !app_assoc; apply in_or_app; right; simpl; auto.
    + destruct (has_reason ReasonNotFound e) eqn:He; cbn; [|by split].
      split; [done|]. intros ev. split; [done|]. intros _ _. right. right. exists sec.
      split; [|right; exists e; split; [|done]]; rewrite <- !app_assoc; apply in_or_app; right; simpl; auto.
  - destruct (has_reason ReasonNotFound e) eqn:He; cbn; [|by split].
    split; [done|]. intros _ _. right. left. exists e. split; [apply in_or_app; right; by left|done].
Qed.

Lemma handleDeletion_obeys m :
  obeys (deletion_policy m) [] (handleDeletion m)
    (fun h x => x.2 = Ok noResult ->
       ContainsFinalizer m.(mint_Meta) cashuMintFinalizer = true ->
       In (Ev (UpdateMint (without_finalizer m)) (inl tt)) h).
Proof.
  unfold handleDeletion. cbn. destruct (ContainsFinalizer _ _) eqn:Hf; cbn; [|done].
  apply obeys_bind. eapply obeys_mono; [done| |by apply (cleanup_hoare m [])].
  intros h [s [u|e|p]] [-> Hg]; cbn in *; [|done..].
  split; [done|]. intros ev. split.
  { split; [done|]. split; [done|]. destruct (Hg u eq_refl) as [?|[(e & ? & ?)|(sec & ? & Hd)]]; [by left| |].
    - right. left. exists e. split; [apply in_or_app; by left|done].
    - right. right. exists sec. split; [apply in_or_app; by left|].
      destruct Hd as [?|(e & ? & ?)]; [left|right; exists e; split; [|done]]; apply in_or_app; by left. }
  intros [[]|e]; [|done]. intros _ _. apply in_or_app. right. by left.
Qed.
End Deletion.

(** ** Properties *)

Section Properties.
Context `{X509, ControllerUtilLaws, StatusConditions, Quantities, UnicodeTables}.

Lemma all_calls_lookup P h i e : all_calls P [] h -> h !! i = Some e -> P (take i h) (ev_call e).
Proof. intros Hall Hi. apply (Hall (take i h) e (drop (S i) h)). symmetry. by apply take_drop_middle. Qed.

(** C8: a reconciliation only touches what belongs to its mint.  In every run on
    an active mint, whatever the API server answers: every object that is
    patched lies in the mint's namespace and is controlled by it; secrets are
    created in that namespace and never patched; nothing is deleted but a
    PodMonitor of the mint's name when Prometheus is off; and the mint itself is
    written through its status only. *)
Theorem Reconcile_only_owned ns name s0 m0 h r i e :
  runs (Reconcile ns name s0) (Ev (GetMint ns name) (inl m0) :: h) r -> active m0 -> h !! i = Some e ->
  match ev_call e with
  | Apply (OSecret _) | DeleteSecret _ | UpdateMint _ => False
  | Apply o => owned m0 o
  | CreateSecret s => s.(sec_Meta).(om_Namespace) = mint_Namespace m0
  | DeletePodMonitor ns' name' =>
      ns' = mint_Namespace m0 /\ name' = mint_Name m0 /\ prometheusEnabled m0 = false
  | GetSecret ns' _ => own_namespace m0 (take i h) ns'
  | _ => True
  end.
Proof.
  intros Hr Ha Hi. pose proof (all_calls_lookup _ _ _ _ (active_allowed _ _ _ _ _ _ Hr Ha) Hi) as Hg.
  destruct (ev_call e) as [| | | | | |s| | |o| | | | |]; try done; [by destruct Hg|].
  destruct o; try done. by destruct Hg.
Qed.

(** C10: secrets are created once.  Whenever a run creates a Secret (the seed, the
    database password or the TLS bundle), an earlier reply of the same run said
    that no Secret of that name exists; no run patches or deletes a Secret of an
    active mint, so an existing seed or password is never overwritten. *)
Theorem Reconcile_secrets_once ns name s0 m0 h r i e :
  runs (Reconcile ns name s0) (Ev (GetMint ns name) (inl m0) :: h) r -> active m0 -> h !! i = Some e ->
  (forall s, ev_call e = CreateSecret s ->
     exists j err, j < i /\ has_reason ReasonNotFound err = true /\
       h !! j = Some (Ev (GetSecret (mint_Namespace m0) s.(sec_Meta).(om_Name)) (inr err))) /\
  (forall s, ev_call e <> Apply (OSecret s) /\ ev_call e <> DeleteSecret s).
Proof.
  intros Hr Ha Hi. pose proof (all_calls_lookup _ _ _ _ (active_allowed _ _ _ _ _ _ Hr Ha) Hi) as Hg.
  revert Hg. generalize (ev_call e) as c. intros c Hg.
  split; [|by intros s; split; intros ->].
  intros s ->. destruct Hg as [_ (err & Hin & He)].
  apply list_elem_of_In, list_elem_of_lookup in Hin as [j Hj].
  apply lookup_take_Some in Hj as [Hj Hlt]. by exists j, err.
Qed.

(** C12: the pods follow the configuration.  Every Deployment a run applies is
    the one generated for the mint with the hash of a config map read earlier in
    the same run, so a changed configuration changes the pod template. *)
Theorem Reconcile_config_hash ns name s0 m0 h r i d reply :
  runs (Reconcile ns name s0) (Ev (GetMint ns name) (inl m0) :: h) r -> active m0 ->
  h !! i = Some (Ev (Apply (ODeployment d)) reply) ->
  exists j c, j < i /\
    h !! j = Some (Ev (GetConfigMap (mint_Namespace m0) (mint_Name m0 +:+ "-config")) (inl c)) /\
    d.(dep_Template).(pt_Annotations) = Some {[ "config-hash" := calculateConfigHash c ]}.
Proof.
  intros Hr Ha Hi. pose proof (all_calls_lookup _ _ _ _ (active_allowed _ _ _ _ _ _ Hr Ha) Hi) as [_ (c & Hin & Hc)].
  apply list_elem_of_In, list_elem_of_lookup in Hin as [j Hj].
  apply lookup_take_Some in Hj as [Hj Hlt]. by exists j, c.
Qed.

(** C11: deletion cleans up before it lets go.  In every run on a deleted mint the
    only objects touched are the generated password secret and the mint: the
    secret is deleted only as found, the finalizer is removed only after the
    secret is gone, nothing else of the mint changes, and a run that ends
    without error has removed it. *)
Theorem Reconcile_deletion ns name s0 m0 h r :
  runs (Reconcile ns name s0) (Ev (GetMint ns name) (inl m0) :: h) r ->
  m0.(mint_Meta).(om_DeletionTimestamp) <> None ->
  (forall i e, h !! i = Some e -> deletion_policy m0 (take i h) (ev_call e)) /\
  ContainsFinalizer (without_finalizer m0).(mint_Meta) cashuMintFinalizer = false /\
  (forall f, f <> cashuMintFinalizer ->
     ContainsFinalizer (without_finalizer m0).(mint_Meta) f = ContainsFinalizer m0.(mint_Meta) f) /\
  (r.2 = Ok noResult -> ContainsFinalizer m0.(mint_Meta) cashuMintFinalizer = true ->
     In (Ev (UpdateMint (without_finalizer m0)) (inl tt)) h).
Proof.
  intros Hr%Reconcile_run Hd.
  assert (Hm : reconcileMint m0 = handleDeletion m0).
  { rewrite -> reconcileMint_cases. by destruct (om_DeletionTimestamp _). }
  rewrite -> Hm in Hr. destruct (obeys_sound _ _ _ _ _ _ (handleDeletion_obeys m0) Hr) as [Hall HQ].
  split; [by intros i e; apply all_calls_lookup|]. split; [apply fin_remove_gone|].
  split; [|exact HQ]. intros f Hf. by apply fin_remove_other.
Qed.
End Properties.

Section Witnesses.
#[local] Existing Instance std_ControllerUtil.
#[local] Existing Instance std_ControllerUtilLaws.
#[local] Existing Instance std_StatusConditions.
#[local] Existing Instance std_Quantities.
#[local] Existing Instance std_UnicodeTables.
#[local] Existing Instance std_X509.

Lemma pendingMint_active : active pendingMint.
Proof. split; [vm_compute; reflexivity|]. split; [vm_compute; reflexivity|]. vm_compute. discriminate. Qed.

(** The call at position 8 of the first run patches the database Service. *)
Lemma Reconcile_only_owned_witness :
  exists e, firstHistory !! 8 = Some e /\ match ev_call e with Apply (OService s) => owned pendingMint (OService s) | _ => False end.
Proof.
  destruct (firstHistory !! 8) as [e|] eqn:He; [|vm_compute in He; discriminate].
  exists e. split; [reflexivity|].
  pose proof (Reconcile_only_owned _ _ _ _ _ _ _ _ firstRun_runs pendingMint_active He) as Hg.
  revert Hg. assert (Hk : match ev_call e with Apply (OService _) => True | _ => False end).
  { apply (f_equal (option_map ev_call)) in He. vm_compute in He. injection He as He. unfold ev_call. rewrite <- He. exact I. }
  destruct (ev_call e) as [| | | | | | | | |o| | | | |]; try contradiction. destruct o; try contradiction. exact (fun H => H).
Defined.

Lemma Reconcile_secrets_once_witness :
  exists j err, j < 3 /\ has_reason ReasonNotFound err = true /\
    firstHistory !! j = Some (Ev (GetSecret "wallets" "mint-mnemonic") (inr err)).
Proof.
  destruct (firstHistory !! 3) as [e|] eqn:He; [|vm_compute in He; discriminate].
  destruct (Reconcile_secrets_once _ _ _ _ _ _ _ _ firstRun_runs pendingMint_active He) as [Hc _].
  apply (f_equal (option_map ev_call)) in He. vm_compute in He. injection He as He. exact (Hc _ (eq_sym He)).
Defined.

Lemma Reconcile_deletion_witness : In (Ev (UpdateMint (without_finalizer deletedMint)) (inl tt)) deletionRun.1.
Proof.
  assert (Hd : deletedMint.(mint_Meta).(om_DeletionTimestamp) <> None) by (vm_compute; discriminate).
  destruct (Reconcile_deletion _ _ _ _ _ _ deletionRun_runs Hd) as (_ & _ & _ & H).
  apply H; vm_compute; reflexivity.
Defined.

Lemma Reconcile_config_hash_witness :
  exists j c, j < 15 /\ firstHistory !! j = Some (Ev (GetConfigMap "wallets" "mint-config") (inl c)).
Proof.
  assert (He : exists d reply, firstHistory !! 15 = Some (Ev (Apply (ODeployment d)) reply))
    by (eexists _, _; vm_compute; reflexivity).
  destruct He as (d & reply & He).
  destruct (Reconcile_config_hash _ _ _ _ _ _ _ _ _ firstRun_runs pendingMint_active He) as (j & c & Hj & Hl & _).
  exists j, c. exact (conj Hj Hl).
Defined.
End Witnesses.
