(* ===== verification/Phases.v ===== *)
(** * The life cycle of a mint: [status.phase]

    Which phases a reconciliation may write, when it reports Ready, what it
    records as observed, and what its caller is told about retries.  The
    handlers are shown to refine a small machine on [Outcome]s. *)

From S2P Require Import Prelude Kube Types Platform Fmt Samples Defaulting Encoding Validation Common Toml.
From S2P Require Import ConfigToml Postgres Backup Mnemonic ManagementRPC Orchard Workload Storage Networking.
From S2P Require Import Client Controller Server Safety.

(** ** The machine *)

(** What a status says about progress: the phase, the Ready condition and the
    generation it was written for. *)
Record Outcome := mkOutcome {
  oc_Phase : MintPhase;
  oc_Ready : option ConditionStatus;
  oc_Observed : Z
}.

Definition outcome (m : CashuMint) : Outcome :=
  mkOutcome m.(mint_Status).(st_Phase)
    (cond_Status <$> find_condition ConditionTypeReady m.(mint_Status).(st_Conditions))
    m.(mint_Status).(st_ObservedGeneration).

(** A recorded generation other than the current one. *)
Definition spec_changed (generation : Z) (o : Outcome) : bool :=
  negb (o.(oc_Observed) =? 0)%Z && negb (o.(oc_Observed) =? generation)%Z.

(** What a reconciliation of that generation begins with. *)
Definition started (generation : Z) (o : Outcome) : Outcome :=
  if spec_changed generation o then mkOutcome MintPhaseUpdating (Some ConditionFalse) o.(oc_Observed)
  else if decide (o.(oc_Phase) = MintPhasePending)
       then mkOutcome MintPhaseProvisioning (Some ConditionFalse) o.(oc_Observed)
       else o.

(** After the last look at the deployment. *)
Definition settle (reply : Deployment + goerror) (o : Outcome) : Outcome :=
  match reply with
  | inl d => if isDeploymentReady d then mkOutcome MintPhaseReady (Some ConditionTrue) o.(oc_Observed)
             else mkOutcome o.(oc_Phase) (Some ConditionFalse) o.(oc_Observed)
  | inr _ => o
  end.

Definition failed (o : Outcome) : Outcome := mkOutcome MintPhaseFailed (Some ConditionFalse) o.(oc_Observed).
Definition recorded (generation : Z) (o : Outcome) : Outcome := mkOutcome o.(oc_Phase) o.(oc_Ready) generation.

Definition generation (m : CashuMint) : Z := m.(mint_Meta).(om_Generation).
Definition phase (m : CashuMint) : MintPhase := m.(mint_Status).(st_Phase).

(** The phases as a state machine: one persisted write of one reconciliation. *)
Inductive phase_step (changed : bool) : MintPhase -> MintPhase -> Prop :=
  | step_create : phase_step changed PhaseUnset MintPhasePending
  | step_provision : phase_step changed MintPhasePending MintPhaseProvisioning
  | step_update p : changed = true -> p <> PhaseUnset -> phase_step changed p MintPhaseUpdating
  | step_ready p : p <> PhaseUnset -> phase_step changed p MintPhaseReady
  | step_fail p : p <> PhaseUnset -> phase_step changed p MintPhaseFailed
  | step_stay p : changed = false -> p <> PhaseUnset -> p <> MintPhasePending -> phase_step changed p p.

Lemma started_step g o :
  o.(oc_Phase) <> PhaseUnset -> phase_step (spec_changed g o) o.(oc_Phase) (started g o).(oc_Phase).
Proof.
  intros Hp. unfold started. destruct (spec_changed g o) eqn:Hc; [by apply step_update|].
  destruct (decide _) as [->|Hn]; [apply step_provision|by apply step_stay].
Qed.

Lemma settle_step g o reply :
  o.(oc_Phase) <> PhaseUnset -> phase_step (spec_changed g o) o.(oc_Phase) (settle reply (started g o)).(oc_Phase).
Proof.
  intros Hp. destruct reply as [d|e]; cbn; [destruct (isDeploymentReady d)|]; try by apply started_step.
  by apply step_ready.
Qed.

Lemma started_observed g o : oc_Observed (started g o) = oc_Observed o.
Proof. unfold started. destruct (spec_changed g o); [done|]. by destruct (decide _). Qed.

(** ** The handlers in between leave the outcome alone *)

Section Quiet.
Context `{X509, ControllerUtil, StatusConditionsLaws, Quantities, UnicodeTables}.

Lemma outcome_ready st reason msg m :
  outcome (condition ConditionTypeReady st reason msg m) = mkOutcome (phase m) (Some st) (oc_Observed (outcome m)).
Proof.
  pose (c := mkCondition ConditionTypeReady st (om_Generation (mint_Meta m)) reason msg).
  change (mkOutcome (phase m) (cond_Status <$> find_condition (cond_Type c) (SetStatusCondition (st_Conditions (mint_Status m)) c))
    (oc_Observed (outcome m)) = mkOutcome (phase m) (Some st) (oc_Observed (outcome m))).
  by rewrite -> ssc_set.
Qed.

Lemma outcome_condition t st reason msg m :
  t <> ConditionTypeReady -> outcome (condition t st reason msg m) = outcome m.
Proof.
  intros Ht. pose (c := mkCondition t st (om_Generation (mint_Meta m)) reason msg).
  change (mkOutcome (phase m) (cond_Status <$> find_condition ConditionTypeReady (SetStatusCondition (st_Conditions (mint_Status m)) c))
    (oc_Observed (outcome m)) = outcome m).
  by rewrite -> ssc_other by (cbn; congruence).
Qed.

Definition no_status (h : history) (c : call) : Prop :=
  match c with UpdateMintStatus _ => False | _ => True end.

Variables (m0 : CashuMint) (o : Outcome).

Definition kept (s : CashuMint) : Prop := same m0 s /\ outcome s = o.

Lemma kept_condition t st reason msg s :
  t <> ConditionTypeReady -> kept s -> kept (condition t st reason msg s).
Proof. intros Ht [Hs Ho]. split; [by apply same_condition|by rewrite -> outcome_condition]. Qed.

Abbreviation quiet := (inv no_status kept).

Lemma quiet_emit t r msg : quiet (emit t r msg).
Proof. by apply inv_call. Qed.
Lemma quiet_apply x : quiet (applyResource x).
Proof. unfold applyResource. by inv_auto. Qed.
Lemma quiet_create prefix s : quiet (createSecret prefix s).
Proof. unfold createSecret. by inv_auto. Qed.
Lemma quiet_object {X} what (g : res (option X)) inj : quiet (reconcileObject what g inj).
Proof. unfold reconcileObject. inv_auto. apply quiet_apply. Qed.
Lemma quiet_resolve ns ref path : quiet (resolveRequiredSecretValue ns ref path).
Proof. unfold resolveRequiredSecretValue. by inv_auto. Qed.

Ltac quiet_auto :=
  inv_auto; try (first [apply quiet_emit|apply quiet_apply|apply quiet_create|apply quiet_object|apply quiet_resolve
                       |apply inv_modify; intros ? ?; by apply kept_condition|done]).

Lemma quiet_mnemonic : quiet reconcileOptionalMnemonic.
Proof. unfold reconcileOptionalMnemonic. quiet_auto. Qed.
Lemma quiet_postgres : quiet reconcileOptionalPostgreSQL.
Proof. unfold reconcileOptionalPostgreSQL, reconcilePostgreSQL, reconcilePostgresSecret. quiet_auto. Qed.
Lemma quiet_backup : quiet reconcileOptionalBackup.
Proof. unfold reconcileOptionalBackup, reconcileBackup. quiet_auto. Qed.
Lemma quiet_configmap : quiet reconcileConfigMap.
Proof. unfold reconcileConfigMap, resolveDatabase, resolveAuthDatabase. quiet_auto. Qed.
Lemma quiet_core : quiet reconcileCoreResources.
Proof.
  unfold reconcileCoreResources, reconcileManagementRPCTLSSecret, reconcilePVC, reconcileDeployment, reconcileService,
    reconcilePodMonitor. quiet_auto. apply quiet_configmap.
Qed.
Lemma quiet_ingress : quiet reconcileOptionalIngressResources.
Proof. unfold reconcileOptionalIngressResources, reconcileIngress, reconcileCertificate. quiet_auto. Qed.
End Quiet.

(** ** The phase a reconciliation settles on *)

Definition begin_of (m0 : CashuMint) : Outcome := started (generation m0) (outcome m0).

Definition settled_in `{X509} (m0 : CashuMint) (h : history) (o : Outcome) : Prop :=
  exists reply, In (Ev (GetDeployment (mint_Namespace m0) (mint_Name m0)) reply) h /\ o = settle reply (begin_of m0).

Section Settling.
Context `{X509, ControllerUtil, StatusConditionsLaws, Quantities, UnicodeTables}.

Lemma kept_ready m0 st reason msg s o :
  kept m0 o s -> kept m0 (mkOutcome (oc_Phase o) (Some st) (oc_Observed o)) (condition ConditionTypeReady st reason msg s).
Proof. intros [Hs <-]. split; [by apply same_condition|by rewrite -> outcome_ready]. Qed.

Lemma kept_phase m0 p s o : kept m0 o s -> kept m0 (mkOutcome p (oc_Ready o) (oc_Observed o)) (set_phase p s).
Proof. intros [Hs <-]. split; [by apply same_phase|done]. Qed.

Lemma transition_hoare m0 :
  hoare no_status (fun _ s => s = m0) transitionReconciliationPhase
    (fun _ s r => kept m0 (begin_of m0) s /\ exists u, r = Ok u).
Proof.
  intros h s ->.
  assert (Hp : forall p reason msg s o, kept m0 o s ->
    kept m0 (mkOutcome p (Some ConditionFalse) (oc_Observed o))
      (condition ConditionTypeReady ConditionFalse reason msg (set_phase p s))).
  { intros p reason msg s o Hk. exact (kept_ready _ _ _ _ _ _ (kept_phase _ p _ _ Hk)). }
  assert (Hm : kept m0 (outcome m0) m0) by done.
  assert (Hb : begin_of m0 = if negb (st_ObservedGeneration (mint_Status m0) =? 0)%Z &&
      negb (st_ObservedGeneration (mint_Status m0) =? om_Generation (mint_Meta m0))%Z
    then mkOutcome MintPhaseUpdating (Some ConditionFalse) (oc_Observed (outcome m0))
    else if decide (st_Phase (mint_Status m0) = MintPhasePending)
         then mkOutcome MintPhaseProvisioning (Some ConditionFalse) (oc_Observed (outcome m0)) else outcome m0) by done.
  rewrite -> Hb. clear Hb. unfold transitionReconciliationPhase. cbn.
  destruct (decide (st_Phase (mint_Status m0) = MintPhasePending)); cbn.
  - split; [done|]. intros ev. destruct (_ && _); cbn.
    + split; [done|]. intros ev'. split; [|by eexists].
      exact (Hp MintPhaseUpdating _ _ _ _ (Hp MintPhaseProvisioning _ _ _ _ Hm)).
    + split; [|by eexists]. exact (Hp MintPhaseProvisioning _ _ _ _ Hm).
  - destruct (_ && _); cbn; [split; [done|]; intros ev|]; (split; [|by eexists]); [|done].
    exact (Hp MintPhaseUpdating _ _ _ _ Hm).
Qed.

Lemma readiness_hoare m0 :
  hoare no_status (fun _ s => kept m0 (begin_of m0) s) updateDeploymentReadiness
    (fun h s r => same m0 s /\ oc_Observed (outcome s) = oc_Observed (outcome m0) /\
                  forall u, r = Ok u -> settled_in m0 h (outcome s)).
Proof.
  intros h s Hk. unfold updateDeploymentReadiness. cbn. split; [done|].
  assert (Hin : forall reply (h1 : history) s', kept m0 (settle reply (begin_of m0)) s' ->
    same m0 s' /\ oc_Observed (outcome s') = oc_Observed (outcome m0) /\
    forall u : unit, Ok tt = Ok u -> settled_in m0 ((h ++ [Ev (GetDeployment (mint_Namespace s) (mint_Name s)) reply]) ++ h1) (outcome s')).
  { intros reply h1 s' [Hs' Ho']. split; [done|]. split.
    { rewrite -> Ho'. transitivity (oc_Observed (begin_of m0)); [|apply started_observed].
      destruct reply as [d|e]; cbn; [by destruct (isDeploymentReady d)|done]. }
    intros u _. exists reply. split; [|done]. apply in_or_app. left. apply in_or_app. right. left.
    destruct Hk as [[Hm _] _]. unfold mint_Namespace, mint_Name. by rewrite -> Hm. }
  intros [d|e]; cbn.
  - assert (Hr : forall reason msg, kept m0 (settle (inl d) (begin_of m0))
        (if isDeploymentReady d then condition ConditionTypeReady ConditionTrue reason msg (set_phase MintPhaseReady s)
         else condition ConditionTypeReady ConditionFalse reason msg s)).
    { intros reason msg. cbn. destruct (isDeploymentReady d); [|by apply kept_ready].
      exact (kept_ready _ _ _ _ _ _ (kept_phase _ MintPhaseReady _ _ Hk)). }
    specialize (Hin (inl d)). destruct (isDeploymentReady d); cbn.
    + destruct (decide (st_Phase (mint_Status s) = MintPhaseReady)); cbn; [|split; [done|]; intros ev].
      * rewrite <- (app_nil_r (h ++ _)). apply Hin, Hr.
      * apply Hin, Hr.
    + rewrite <- (app_nil_r (h ++ _)). apply Hin, Hr.
  - destruct (has_reason _ e); cbn.
    + rewrite <- (app_nil_r (h ++ _)). by apply Hin.
    + destruct Hk as [Hs Ho]. split; [done|]. split; [|done].
      exact (eq_trans (f_equal oc_Observed Ho) (started_observed _ _)).
Qed.

Definition resources_post (m0 : CashuMint) (h : history) (s : CashuMint) (r : res Result) : Prop :=
  same m0 s /\ oc_Observed (outcome s) = oc_Observed (outcome m0) /\
  forall result, r = Ok result -> settled_in m0 h (outcome s) /\ result = reconcileResultForPhase (phase s).

(** A pass over the resources. *)
Lemma resources_hoare m0 : hoare no_status (fun _ s => s = m0) reconcileResources (resources_post m0).
Proof.
  assert (Hstop : forall h s r, kept m0 (begin_of m0) s -> (forall result, r <> Ok result) -> resources_post m0 h s r).
  { intros h s r [Hs Ho] Hr. split; [done|]. split; [rewrite -> Ho; apply started_observed|].
    intros result E. by destruct (Hr result). }
  assert (Hseq : forall (m : M unit) (k : M Result), inv no_status (kept m0 (begin_of m0)) m ->
    hoare no_status (fun _ s => kept m0 (begin_of m0) s) k (resources_post m0) ->
    hoare no_status (fun _ s => kept m0 (begin_of m0) s) (m;; k) (resources_post m0)).
  { intros m k Hm Hk. eapply hoare_bind; [exact Hm|intros ?; exact Hk| |]; intros h s x Hx; by apply Hstop. }
  unfold reconcileResources. eapply hoare_bind; [apply transition_hoare| |by intros h s e [_ [u Hu]]|by intros h s p [_ [u Hu]]].
  intros u. apply (hoare_pre _ _ (fun _ s => kept m0 (begin_of m0) s)); [|by intros h s []].
  apply Hseq; [apply quiet_mnemonic|]. apply Hseq; [apply quiet_postgres|]. apply Hseq; [apply quiet_backup|].
  apply Hseq; [apply quiet_core|]. apply Hseq; [apply quiet_ingress|].
  eapply hoare_bind; [apply readiness_hoare| |by intros h s e (? & ? & ?)|by intros h s p (? & ? & ?)].
  intros u' h s (Hs & Ho & Hset). split; [done|]. split; [done|]. intros result [= <-]. split; [by apply (Hset u')|done].
Qed.
End Settling.

(** ** The status writes of a run *)

Definition ev_status `{X509} (e : event) : option (CashuMint * (unit + goerror)) :=
  match e with
  | Ev c r => match c return response c -> option (CashuMint * (unit + goerror)) with
              | UpdateMintStatus m => fun r => Some (m, r)
              | _ => fun _ => None
              end r
  end.

Definition status_writes `{X509} (h : history) : list (CashuMint * (unit + goerror)) :=
  h ≫= (option_list ∘ ev_status).

(** The write of a pass without error: the settled outcome, on the mint as it
    was fetched again, whose generation is recorded as observed. *)
Definition success_write `{X509} (m0 : CashuMint) (h : history) (m : CashuMint) : Prop :=
  exists o cur, settled_in m0 h o /\ In (Ev (GetMint (mint_Namespace m0) (mint_Name m0)) (inl cur)) h /\
    same cur m /\ outcome m = recorded (generation cur) o.

(** The write of [handleError]. *)
Definition failure_write (m0 m : CashuMint) : Prop := same m0 m /\ outcome m = failed (outcome m0).

(** How a run over the resources ends: what it wrote to the status, and what
    its caller is told. *)
Definition outcome_post `{X509} (m0 : CashuMint) (h : history) (r : res Result) : Prop :=
  match r with
  | Ok result =>
      (status_writes h = [] /\ (result = mkResult false Millisecond \/ result = mkResult false NotReadyRetryInterval)) \/
      (exists m reply, status_writes h = [(m, reply)] /\ success_write m0 h m /\
         result = reconcileResultForPhase (phase m) /\ forall e, reply = inr e -> has_reason ReasonConflict e = true)
  | Err e =>
      (exists m reply, status_writes h = [(m, reply)] /\ failure_write m0 m) \/
      (exists m, status_writes h = [(m, inr e)] /\ success_write m0 h m) \/
      (exists cause, status_writes h = [] /\ In (Ev (GetMint (mint_Namespace m0) (mint_Name m0)) (inr cause)) h)
  | Panic _ => status_writes h = []
  end.

Section Writes.
Context `{X509, ControllerUtil, StatusConditionsLaws, Quantities, UnicodeTables}.

Lemma writes_app h1 h2 : status_writes (h1 ++ h2) = status_writes h1 ++ status_writes h2.
Proof. apply bind_app. Qed.

Lemma writes_none h0 h : all_calls no_status h0 h -> status_writes h = [].
Proof.
  induction h as [|e h IH] in h0 |- *; intros Hall; [done|].
  assert (ev_status e = None) as He.
  { specialize (Hall [] e h eq_refl). destruct e as [c r]. by destruct c. }
  unfold status_writes in *. cbn. rewrite -> He. cbn. apply (IH (h0 ++ [e])). intros h1 e' h2 ->.
  rewrite <- app_assoc. by apply (Hall (e :: h1) e' h2).
Qed.

Definition any_call (h : history) (c : call) : Prop := True.

Lemma handleError_hoare m0 e :
  hoare any_call
    (fun h s => status_writes h = [] /\ same m0 s /\ oc_Observed (outcome s) = oc_Observed (outcome m0))
    (handleError e) (fun h _ r => outcome_post m0 h r).
Proof.
  intros h s (Hw & Hs & Ho). unfold handleError.
  destruct (has_reason _ e); cbn; [by left; split; [|left]|].
  destruct (has_reason _ e); cbn.
  { split; [done|]. intros ev. left. rewrite -> writes_app, Hw. by split; [|right]. }
  split; [done|]. intros ev. split; [done|]. intros reply. left.
  pose (m := condition ConditionTypeReady ConditionFalse "ReconciliationFailed" (err_msg e) (set_phase MintPhaseFailed s)).
  exists m, reply. split; [by rewrite -> !writes_app, Hw|]. split; [by apply same_condition, same_phase|].
  subst m. rewrite -> outcome_ready. unfold failed. by rewrite <- Ho.
Qed.

(** What [updateStatus] copies leaves the outcome alone. *)
Lemma observeIngress_outcome host i m : outcome (observeIngress host i m) = outcome m.
Proof. unfold observeIngress. destruct (non_empty (ingo_LoadBalancerIngress i)); by rewrite -> outcome_condition. Qed.

Lemma observeIngress_same host i m : same m (observeIngress host i m).
Proof. unfold observeIngress. by destruct (non_empty (ingo_LoadBalancerIngress i)). Qed.

(** The status [updateStatus] writes, from the replies. *)
Lemma observed_kept {X} (f : X -> CashuMint -> CashuMint) cur o r m :
  (forall x m, outcome (f x m) = outcome m) -> (forall x m, same m (f x m)) ->
  kept cur o m -> kept cur o (observed f r m).
Proof.
  intros Ho Hs [[Hm Hp] Hk]. destruct r as [x|e]; [|done]. destruct (Hs x m) as [Hm' Hp']. unfold kept. cbn [observed].
  rewrite -> Ho. split; [|done]. split; congruence.
Qed.

Lemma recorded_kept cur o m :
  kept cur o m ->
  kept cur (recorded (generation cur) o)
    (m <| mint_Status ::= fun st => st <| st_ObservedGeneration := om_Generation (mint_Meta m) |> |>).
Proof. intros [Hs <-]. split; [exact Hs|]. unfold recorded, generation, outcome. cbn. f_equal. by destruct Hs as [-> _]. Qed.

Definition written (m0 : CashuMint) (p : MintPhase) (h : history) (r : res unit) : Prop :=
  match r with
  | Ok _ => exists m reply, status_writes h = [(m, reply)] /\ success_write m0 h m /\ phase m = p /\
              forall e, reply = inr e -> has_reason ReasonConflict e = true
  | Err e => (exists m, status_writes h = [(m, inr e)] /\ success_write m0 h m /\ phase m = p /\
                has_reason ReasonConflict e = false) \/
             (exists cause, e = Wrapf "failed to re-fetch CashuMint for status update: " cause /\ status_writes h = [] /\
                In (Ev (GetMint (mint_Namespace m0) (mint_Name m0)) (inr cause)) h)
  | Panic _ => False
  end.

(** The last two calls of [updateStatus]. *)
Lemma write_status m0 cur h1 h2 s m :
  settled_in m0 h1 (outcome s) -> status_writes (h1 ++ h2) = [] ->
  In (Ev (GetMint (mint_Namespace m0) (mint_Name m0)) (inl cur)) (h1 ++ h2) -> kept cur (outcome s) m ->
  let w := m <| mint_Status ::= fun st => st <| st_ObservedGeneration := om_Generation (mint_Meta m) |> |> in
  forall reply,
    status_writes ((h1 ++ h2) ++ [Ev (UpdateMintStatus w) reply]) = [(w, reply)] /\
    success_write m0 ((h1 ++ h2) ++ [Ev (UpdateMintStatus w) reply]) w /\ phase w = phase s.
Proof.
  intros (d & Hin & Hd) Hw Hcur Hm w reply. pose proof (recorded_kept _ _ _ Hm) as [Hsame Ho].
  split; [rewrite -> writes_app, Hw; reflexivity|]. split.
  - exists (outcome s), cur. split; [exists d; split; [|exact Hd]; rewrite <- app_assoc; apply in_or_app; by left|].
    split; [apply in_or_app; by left|]. split; [exact Hsame|exact Ho].
  - exact (f_equal oc_Phase Ho).
Qed.

(** ... whatever the update is answered. *)
Lemma write_reply m0 cur h h2 s m (reply : unit + goerror) :
  settled_in m0 h (outcome s) -> same m0 s -> status_writes h = [] -> status_writes h2 = [] -> kept cur (outcome s) m ->
  let w := m <| mint_Status ::= fun st => st <| st_ObservedGeneration := om_Generation (mint_Meta m) |> |> in
  let fetched := Ev (GetMint (mint_Namespace s) (mint_Name s)) (inl cur) in
  obeys any_call (((h ++ [fetched]) ++ h2) ++ [Ev (UpdateMintStatus w) reply])
    (match reply with
     | inl _ => Ret (s, Ok tt)
     | inr e => if has_reason ReasonConflict e then Ret (s, Ok tt) else Ret (s, Err e) end)
    (fun h x => written m0 (phase s) h x.2).
Proof.
  intros Hset [Hs _] Hw Hh2 Hm w fetched. rewrite <- (app_assoc h).
  destruct (write_status m0 cur h ([fetched] ++ h2) s m Hset) with (reply := reply) as (Hws & Hsw & Hph);
    [by rewrite -> !writes_app, Hw, Hh2| |done|].
  { apply in_or_app. right. left. unfold fetched, mint_Namespace, mint_Name. by rewrite -> Hs. }
  destruct reply as [[]|e]; cbn; [by eexists _, _|]. destruct (has_reason _ e) eqn:He; cbn.
  - eexists _, _. split; [exact Hws|]. split; [exact Hsw|]. split; [exact Hph|]. by intros e' [= <-].
  - left. eexists. split; [exact Hws|]. split; [exact Hsw|]. by split.
Qed.

Lemma updateStatus_hoare m0 p :
  hoare any_call
    (fun h s => settled_in m0 h (outcome s) /\ same m0 s /\ status_writes h = [] /\ phase s = p)
    updateStatus (fun h _ r => written m0 p h r).
Proof.
  intros h s (Hset & Hs & Hw & <-). unfold updateStatus. cbn. split; [done|]. intros [cur|e]; cbn.
  2: { right. exists e. split; [done|]. rewrite -> writes_app, Hw. split; [done|]. apply in_or_app. right. left.
       unfold mint_Namespace, mint_Name. by rewrite -> (proj1 Hs). }
  split; [done|]. intros d. split; [done|]. intros sv. set (o := observed observeService _ _).
  assert (Ho : kept cur (outcome s) o) by (by do 2 (apply observed_kept; [done..|])). clearbody o.
  assert (Hcm : forall h2 o' (cm : ConfigMap + goerror) reply, status_writes h2 = [] -> kept cur (outcome s) o' -> _)
    by exact (fun h2 o' cm reply Hh2 Ho' => write_reply m0 cur h h2 s (observed observeConfigMap cm o') reply Hset Hs Hw Hh2
               (observed_kept observeConfigMap _ _ _ _ (fun _ _ => eq_refl) (fun _ m => same_refl m) Ho')).
  cbn zeta in Hcm. set (h0 := h ++ _) in *.
  destruct (enabledIngress (spec_Ingress (mint_Spec o))) as [i|]; cbn.
  - split; [done|]. intros ig. split; [done|]. intros cm. split; [done|]. intros reply.
    specialize (Hcm [Ev (GetDeployment (mint_Namespace cur) (mint_Name cur)) d; Ev (GetService (mint_Namespace cur) (mint_Name cur)) sv;
      Ev (GetIngress (mint_Namespace cur) (mint_Name cur)) ig; Ev (GetConfigMap (mint_Namespace cur) (mint_Name cur +:+ "-config")) cm]
      (observed (observeIngress (ing_Host i)) ig o) cm reply eq_refl
      (observed_kept _ _ _ _ _ (observeIngress_outcome _) (observeIngress_same _) Ho)).
    rewrite <- !(app_assoc h0). rewrite <- !(app_assoc h0) in Hcm. destruct reply as [[]|e]; [exact Hcm|].
    revert Hcm. cbn. by destruct (has_reason ReasonConflict e).
  - split; [done|]. intros cm. split; [done|]. intros reply.
    specialize (Hcm [Ev (GetDeployment (mint_Namespace cur) (mint_Name cur)) d; Ev (GetService (mint_Namespace cur) (mint_Name cur)) sv;
      Ev (GetConfigMap (mint_Namespace cur) (mint_Name cur +:+ "-config")) cm] o cm reply eq_refl Ho).
    rewrite <- !(app_assoc h0). rewrite <- !(app_assoc h0) in Hcm. destruct reply as [[]|e]; [exact Hcm|].
    revert Hcm. cbn. by destruct (has_reason ReasonConflict e).
Qed.

(** A program that follows a policy follows it in the calls it adds. *)
Lemma obeys_quiet {A} h (p : Prog A) Q :
  obeys no_status h p Q -> obeys any_call h p (fun h' a => Q h' a /\ status_writes h' = status_writes h).
Proof.
  intros Hp. eapply (obeys_mono no_status); [done| |by apply obeys_record]. intros h' a (HQ & h1 & -> & Hall).
  split; [done|]. rewrite -> writes_app, (writes_none _ _ Hall). by rewrite -> app_nil_r.
Qed.

Lemma resources_run m0 h s r :
  runs (reconcileResources m0) h (s, r) -> resources_post m0 h s r /\ status_writes h = [].
Proof.
  intros Hr. pose proof (resources_hoare m0 [] m0 eq_refl) as Ho. apply (obeys_sound _ _ _ _ _ _ Ho) in Hr as [Hall Hp].
  split; [exact Hp|by eapply writes_none].
Qed.

(** A reconciliation in full. *)
Lemma reconcileActive_outcome m0 :
  obeys any_call [] (reconcileActive m0) (fun h x => outcome_post m0 h x.2).
Proof.
  assert (Hr : hoare any_call (fun h s => h = [] /\ s = m0) reconcileResources
    (fun h s r => resources_post m0 h s r /\ status_writes h = [])).
  { intros h s [-> ->]. apply (obeys_quiet [] _ (fun h x => resources_post m0 h x.1 x.2)), resources_hoare. done. }
  assert (Ha : hoare any_call (fun h s => h = [] /\ s = m0) reconcileActive (fun h _ r => outcome_post m0 h r)); [|by apply Ha].
  eapply (hoare_bind _ _ _ _ (fun h s r => match r with
    | Ok (inl result) => resources_post m0 h s (Ok result) /\ status_writes h = []
    | Ok (inr e) => resources_post m0 h s (Err e) /\ status_writes h = []
    | Err _ => False | Panic _ => status_writes h = [] end)).
  - apply hoare_try. eapply hoare_weaken; [exact Hr|done|]. by intros h s [result|e|p] [Hp Hw].
  - intros [result|e].
    + intros h s [(Hs & Ho & Hset) Hw]. destruct (Hset result eq_refl) as [Hset' ->].
      pose proof (updateStatus_hoare m0 (phase s)) as Hu.
      assert (Hall : hoare any_call (fun h s' => settled_in m0 h (outcome s') /\ same m0 s' /\ status_writes h = [] /\ phase s' = phase s)
        (updateStatus;; m_ret (reconcileResultForPhase (phase s))) (fun h _ r => outcome_post m0 h r)); [|by apply Hall].
      eapply hoare_bind; [exact Hu| |by intros h1 s1 e [(? & ? & ? & _)|(? & _ & ? & ?)]; [right; left|right; right]; eauto|by intros h1 s1 p []].
      intros u h1 s1 (m & reply & Hws & Hsw & Hph & Hc). cbn. right. exists m, reply. rewrite -> Hph. done.
    + apply (hoare_pre _ _ (fun h s => status_writes h = [] /\ same m0 s /\ oc_Observed (outcome s) = oc_Observed (outcome m0)));
        [apply handleError_hoare|]. by intros h s [(Hs & Ho & _) Hw].
  - done.
  - by intros h s p Hw.
Qed.
End Writes.

(** ** All ways through a reconciliation *)

(** Not deleted, with its finalizer, and not initialised yet. *)
Definition uninitialised `{ControllerUtil} (m : CashuMint) : Prop :=
  m.(mint_Meta).(om_DeletionTimestamp) = None /\ ContainsFinalizer m.(mint_Meta) cashuMintFinalizer = true /\
  phase m = PhaseUnset.

Section Ways.
Context `{X509, ControllerUtil, StatusConditionsLaws, Quantities, UnicodeTables}.

(** What a run did to the status, in each of the three ways through it. *)
Definition run_post (m0 : CashuMint) (h : history) (r : res Result) : Prop :=
  (active m0 /\ outcome_post m0 h r) \/
  (uninitialised m0 /\ exists reply, status_writes h = [(set_phase MintPhasePending m0, reply)] /\
     r = match reply with inl _ => Ok (mkResult true 0) | inr e => Err e end) \/
  (~ active m0 /\ ~ uninitialised m0 /\ status_writes h = [] /\
     (m0.(mint_Meta).(om_DeletionTimestamp) = None -> forall result, r = Ok result -> result = mkResult true 0)).

Lemma handleDeletion_quiet m0 : obeys any_call [] (handleDeletion m0) (fun h _ => status_writes h = []).
Proof.
  assert (Hq : inv no_status (fun _ => True) handleDeletion)
    by (unfold handleDeletion, cleanupPostgresSecret, emit; by inv_auto).
  eapply obeys_mono; [done| |by apply obeys_quiet, (Hq [] m0)]. by intros h x [_ Hw].
Qed.

Lemma reconcileMint_post m0 : obeys any_call [] (reconcileMint m0) (fun h x => run_post m0 h x.2).
Proof.
  rewrite -> reconcileMint_cases. destruct (non_nil _) eqn:Hd; [|destruct (negb _) eqn:Hf; [|destruct (decide _) as [Hu|Hu]]].
  - eapply obeys_mono; [done| |apply handleDeletion_quiet]. intros h x Hw. right. right.
    split; [|split; [|split; [exact Hw|]]]; [intros [Hn _]; by rewrite -> Hn in Hd..|]. intros Hn. by rewrite -> Hn in Hd.
  - cbn. split; [done|]. assert (Hno : ~ active m0 /\ ~ uninitialised m0).
    { by split; intros (_ & Hc & _); rewrite -> Hc in Hf. }
    destruct Hno. intros [[]|e]; cbn; right; right; do 3 (split; [done|]); [|done]. by intros _ result [= <-].
  - cbn. assert (Hun : uninitialised m0).
    { split; [by destruct (om_DeletionTimestamp _)|]. split; [by apply negb_false_iff|done]. }
    split; [done|]. intros [[]|e]; cbn; [split; [done|]; intros ev|]; right; left; (split; [done|]); by eexists.
  - eapply obeys_mono; [done| |apply reconcileActive_outcome]. intros h x Hp. left. split; [|exact Hp].
    split; [by destruct (om_DeletionTimestamp _)|]. split; [by apply negb_false_iff|done].
Qed.

Lemma run_writes ns name s0 m0 h r :
  runs (Reconcile ns name s0) (Ev (GetMint ns name) (inl m0) :: h) r -> run_post m0 h r.2.
Proof. intros Hr%Reconcile_run. by eapply obeys_sound in Hr as [_ Hq]; [|apply reconcileMint_post]. Qed.

Lemma status_writes_in m reply h : In (Ev (UpdateMintStatus m) reply) h <-> In (m, reply) (status_writes h).
Proof.
  unfold status_writes. rewrite <- !list_elem_of_In, list_elem_of_bind. split.
  - intros Hin. exists (Ev (UpdateMintStatus m) reply). split; [by apply list_elem_of_singleton|done].
  - intros ([c r] & Hm & Hin). destruct c; cbn in Hm; try by apply not_elem_of_nil in Hm.
    apply list_elem_of_singleton in Hm. by injection Hm as -> ->.
Qed.

(** Every status a run writes comes from one of three places. *)
Definition write_origin (m0 : CashuMint) (h : history) (w : CashuMint) : Prop :=
  (phase m0 = PhaseUnset /\ w = set_phase MintPhasePending m0) \/
  (phase m0 <> PhaseUnset /\ (failure_write m0 w \/ success_write m0 h w)).

Lemma run_write_origin m0 h r w reply :
  run_post m0 h r -> In (w, reply) (status_writes h) -> write_origin m0 h w /\ length (status_writes h) = 1.
Proof.
  assert (Hone : forall w' reply', write_origin m0 h w' -> status_writes h = [(w', reply')] ->
    In (w, reply) (status_writes h) -> write_origin m0 h w /\ length (status_writes h) = 1).
  { intros w' reply' Ho ->. intros [[= -> ->]|[]]. done. }
  assert (Hnone : status_writes h = [] -> In (w, reply) (status_writes h) -> write_origin m0 h w /\ length (status_writes h) = 1)
    by (by intros ->).
  intros [[(_ & _ & Hp) Hpost]|[[(_ & _ & Hp) (rp & Hw & _)]|(_ & _ & Hw & _)]]; [|by eapply Hone; [left|]|by apply Hnone].
  assert (Hact : forall w', failure_write m0 w' \/ success_write m0 h w' -> write_origin m0 h w') by (intros w' Ho; by right).
  destruct r as [result|e|p]; [| |by apply Hnone].
  - destruct Hpost as [[Hw _]|(m & rp & Hw & Hs & _)]; [by apply Hnone|eapply Hone; [by apply Hact; right|done]].
  - destruct Hpost as [(m & rp & Hw & Hf)|[(m & Hw & Hs)|(c & Hw & _)]]; [| |by apply Hnone];
      (eapply Hone; [by apply Hact; first [left; exact Hf|right; exact Hs]|done]).
Qed.
End Ways.

(** The caller will be called again, at once or within five minutes. *)
Definition comes_back (result : Result) : Prop :=
  res_Requeue result = true \/ (0 < res_RequeueAfter result <= ReconcileInterval)%Z.

(** ** The life of a mint *)

(** The Ready condition is true in phase Ready only. *)
Definition coherent (o : Outcome) : Prop := o.(oc_Ready) = Some ConditionTrue -> o.(oc_Phase) = MintPhaseReady.

Lemma coherent_started g o : coherent o -> coherent (started g o).
Proof. intros Ho. unfold started. destruct (spec_changed g o); [done|]. by destruct (decide _). Qed.
Lemma coherent_settle reply o : coherent o -> coherent (settle reply o).
Proof. intros Ho. destruct reply as [d|e]; [|done]. cbn. by destruct (isDeploymentReady d). Qed.
Lemma coherent_failed o : coherent (failed o).
Proof. done. Qed.
Lemma coherent_recorded g o : coherent o -> coherent (recorded g o).
Proof. done. Qed.

(** The versions of a mint that the API server has stored, newest first, as
    long as the mint exists.  Anyone may edit its metadata and spec; the server
    never lowers the generation.  A reconciliation may work on an old version
    (its cache lags), and the server stores of its write the status only.  The
    server may even accept writes made against an old version. *)
Inductive life_step `{X509, ControllerUtil, StatusConditions, Quantities, UnicodeTables} :
    list CashuMint -> list CashuMint -> Prop :=
  | life_edit cur old m :
      mint_Status m = mint_Status cur -> (generation cur <= generation m)%Z ->
      life_step (cur :: old) (m :: cur :: old)
  | life_reconcile cur old ns name s0 m0 h r w :
      In m0 (cur :: old) ->
      runs (Reconcile ns name s0) (Ev (GetMint ns name) (inl m0) :: h) r ->
      (forall ns' name' m, In (Ev (GetMint ns' name') (inl m)) h -> In m (cur :: old)) ->
      In (Ev (UpdateMintStatus w) (inl tt)) h ->
      life_step (cur :: old) ((cur <| mint_Status := mint_Status w |>) :: cur :: old).

Definition version_ok (m : CashuMint) : Prop :=
  (0 <= oc_Observed (outcome m) <= generation m)%Z /\ coherent (outcome m) /\
  (phase m = PhaseUnset -> mint_Status m = zeroStatus).

Definition life_ok (vs : list CashuMint) : Prop :=
  match vs with
  | [] => False
  | cur :: old => Forall version_ok vs /\ Forall (fun m => (generation m <= generation cur)%Z) vs /\
                  (phase cur = PhaseUnset -> Forall (fun m => phase m = PhaseUnset) old)
  end.

Section Life.
Context `{X509, ControllerUtil, StatusConditionsLaws, Quantities, UnicodeTables}.

(** What any write leaves, if the versions it was made from are in order. *)
Lemma write_ok m0 h w :
  write_origin m0 h w -> version_ok m0 ->
  (forall cur, In (Ev (GetMint (mint_Namespace m0) (mint_Name m0)) (inl cur)) h -> (0 <= generation cur)%Z) ->
  coherent (outcome w) /\ phase w <> PhaseUnset /\ (0 <= oc_Observed (outcome w))%Z /\
  (oc_Observed (outcome w) = oc_Observed (outcome m0) \/
   exists cur, In (Ev (GetMint (mint_Namespace m0) (mint_Name m0)) (inl cur)) h /\ oc_Observed (outcome w) = generation cur).
Proof.
  intros Hw (Hg & Hc & Hz) Hcur. destruct Hw as [[Hu ->]|[Hu [[_ Ho]|(o & cur & (reply & Hin & ->) & Hget & _ & Ho)]]].
  - specialize (Hz Hu). unfold outcome, set_phase, phase. cbn. rewrite -> Hz. cbn. split; [done|]. split; [done|]. split; [lia|by left].
  - unfold phase. change (st_Phase (mint_Status w)) with (oc_Phase (outcome w)). rewrite -> Ho. cbn.
    split; [by apply coherent_failed|]. split; [done|]. split; [apply Hg|by left].
  - unfold phase. change (st_Phase (mint_Status w)) with (oc_Phase (outcome w)). rewrite -> Ho. cbn.
    split; [by apply coherent_recorded, coherent_settle, coherent_started|]. split.
    + pose proof (settle_step (generation m0) (outcome m0) reply Hu) as Hs. unfold begin_of. by inversion Hs; subst.
    + split; [by eapply Hcur|]. right. by exists cur.
Qed.

Lemma life_step_ok vs vs' : life_step vs vs' -> life_ok vs -> life_ok vs'.
Proof.
  intros Hstep. destruct Hstep as [cur old m Hst Hgen|cur old ns name s0 m0 h r w Hm0 Hr Hcache Hw]; intros (Hok & Hle & Hun).
  - assert (Hout : outcome m = outcome cur) by (unfold outcome; by rewrite -> Hst).
    pose proof (Forall_inv Hok) as (Hc1 & Hc2 & Hc3). split; [|split].
    + constructor; [|done]. unfold version_ok, phase. rewrite -> Hout, Hst. split; [lia|by split].
    + constructor; [lia|]. eapply Forall_impl; [exact Hle|]. cbn. lia.
    + unfold phase. rewrite -> Hst. intros Hp. constructor; [done|by apply Hun].
  - rewrite -> Forall_forall in Hok, Hle. setoid_rewrite -> list_elem_of_In in Hok. setoid_rewrite -> list_elem_of_In in Hle.
    apply status_writes_in in Hw. destruct (run_write_origin m0 h _ w _ (run_writes _ _ _ _ _ _ Hr) Hw) as [Hor _].
    destruct (write_ok m0 h w Hor (Hok m0 Hm0)) as (Hc & Hp & Hpos & Hobs).
    { intros m Hin. apply Hcache, Hok in Hin as [? _]. lia. }
    set (m := cur <| mint_Status := mint_Status w |>).
    assert (Hgm : generation m = generation cur) by done. split; [|split].
    + constructor; [|by apply Forall_forall; intros x Hx%list_elem_of_In; apply Hok].
      split; [|split; [exact Hc|by intros Hp'; destruct (Hp Hp')]].
      change (outcome m) with (outcome w). rewrite -> Hgm. split; [exact Hpos|].
      destruct Hobs as [->|(c & Hin & ->)]; [pose proof (Hle _ Hm0); destruct (Hok _ Hm0); lia|by eapply Hle, Hcache].
    + rewrite -> Hgm. constructor; [lia|]. apply Forall_forall. intros x Hx%list_elem_of_In. by apply Hle.
    + intros Hp'. by destruct (Hp Hp').
Qed.
End Life.

(** ** What becomes of a pass *)

Section Handled.
Context `{X509}.
Variable m0 : CashuMint.

(** A pass that ended with the error [e]: what is sent after it and returned. *)
Definition handled (e : goerror) (h : history) (r : res Result) : Prop :=
  if has_reason ReasonConflict e then h = [] /\ r = Ok (mkResult false Millisecond)
  else if has_reason ReasonNotFound e then
    (exists msg, ev_call <$> h = [EmitEvent "Warning" "DependencyNotFound" msg]) /\
    r = Ok (mkResult false NotReadyRetryInterval)
  else exists m,
    ev_call <$> h = [EmitEvent "Warning" "ReconciliationFailed" (err_msg e); UpdateMintStatus m] /\
    failure_write m0 m /\
    find_condition ConditionTypeReady m.(mint_Status).(st_Conditions) =
      Some (mkCondition ConditionTypeReady ConditionFalse (generation m0) "ReconciliationFailed" (err_msg e)) /\
    r = Err e.

(** A pass [h1] without error: the status is written once, after it, unless the
    mint cannot be fetched again. *)
Definition concluded (h1 h2 : history) (result : Result) (r : res Result) : Prop :=
  (exists m reply, status_writes h2 = [(m, reply)] /\ success_write m0 (h1 ++ h2) m /\
     result = reconcileResultForPhase (phase m) /\
     r = match reply with
         | inl _ => Ok result
         | inr e => if has_reason ReasonConflict e then Ok result else Err e
         end) \/
  (exists cause, status_writes h2 = [] /\
     In (Ev (GetMint (mint_Namespace m0) (mint_Name m0)) (inr cause)) (h1 ++ h2) /\
     r = Err (Wrapf "failed to re-fetch CashuMint for status update: " cause)).
End Handled.

Section Endings.
Context `{X509, ControllerUtil, StatusConditionsLaws, Quantities, UnicodeTables}.

Lemma handleError_run m0 s e h x :
  same m0 s -> oc_Observed (outcome s) = oc_Observed (outcome m0) -> runs (handleError e s) h x -> handled m0 e h x.2.
Proof.
  intros Hs Ho. unfold handled, handleError. destruct (has_reason ReasonConflict e); [by intros [-> ->]%runs_inv|].
  destruct (has_reason ReasonNotFound e).
  - cbn. intros (u & h' & -> & [-> ->]%runs_inv)%runs_inv. split; [by eexists|done].
  - cbn. intros (u & h' & -> & (v & h'' & -> & [-> ->]%runs_inv)%runs_inv)%runs_inv.
    set (m := condition ConditionTypeReady ConditionFalse "ReconciliationFailed" (err_msg e) (set_phase MintPhaseFailed s)).
    exists m. split; [done|]. split; [|split; [|done]].
    + split; [by apply same_condition, same_phase|]. subst m. rewrite -> outcome_ready. unfold failed. by rewrite <- Ho.
    + subst m. destruct Hs as [Hm _]. unfold generation. rewrite <- Hm.
      exact (ssc_set _ (mkCondition ConditionTypeReady ConditionFalse (om_Generation (mint_Meta s)) "ReconciliationFailed" (err_msg e))).
Qed.

Lemma updateStatus_run m0 h1 s h2 x :
  settled_in m0 h1 (outcome s) -> same m0 s -> status_writes h1 = [] ->
  runs (updateStatus s) h2 x -> written m0 (phase s) (h1 ++ h2) x.2.
Proof.
  intros Hset Hs Hw Hr.
  pose proof (updateStatus_hoare m0 (phase s) h1 s (conj Hset (conj Hs (conj Hw eq_refl)))) as Ho.
  by apply (obeys_sound _ _ _ _ _ _ Ho) in Hr as [_ Hq].
Qed.

Lemma conclude_run m0 h1 s h2 x :
  settled_in m0 h1 (outcome s) -> same m0 s -> status_writes h1 = [] ->
  let result := reconcileResultForPhase (phase s) in
  runs ((updateStatus;; m_ret result) s) h2 x -> concluded m0 h1 h2 result x.2.
Proof.
  intros Hset Hs Hw result (h2' & [s2 r] & h3 & -> & Hu & Hr)%runs_bind.
  apply (updateStatus_run _ _ _ _ _ Hset Hs Hw) in Hu. cbn in Hu, Hr.
  assert (h3 = [] /\ x = (s2, match r with Ok _ => Ok result | Err e => Err e | Panic p => Panic p end)) as [-> ->]
    by (destruct r; by apply runs_inv in Hr). clear Hr.
  rewrite -> app_nil_r. unfold concluded, written in *. rewrite -> writes_app, Hw in Hu. cbn [app] in Hu.
  destruct r as [u|e|p]; [| |done].
  - destruct Hu as (m & reply & Hm & Hsw & Hp & Hc). left. exists m, reply. split; [done|]. split; [done|].
    split; [by rewrite -> Hp|]. destruct reply as [v|e]; [done|]. cbn. by rewrite -> (Hc e eq_refl).
  - destruct Hu as [(m & Hm & Hsw & Hp & Hc)|(cause & -> & Hn & Hin)]; [left|right].
    + exists m, (inr e). split; [done|]. split; [done|]. split; [by rewrite -> Hp|]. cbn. by rewrite -> Hc.
    + by exists cause.
Qed.
End Endings.

(** ** Properties *)

Section Properties.
Context `{X509, ControllerUtil, StatusConditionsLaws, Quantities, UnicodeTables}.

(** C3: a reconciliation refines the abstract machine.  Every run on an active
    mint is a pass over the resources, which does not touch the status, and what
    its end calls for.  After a pass without error the status is written once:
    the outcome the machine settles on after the deployment's reply, with the
    generation of the mint as fetched again; the run asks for the retry that
    goes with the phase, a conflicting update is not an error, any other failure
    of the update or of the fetch is returned.  A pass that ended in a conflict
    is followed by nothing and retried after 1 ms; one that missed an object by
    an event and a retry after 10 s.  Any other error [e] is followed by an event
    with its message and one write of Failed, with a false Ready condition that
    carries the message and the observed generation untouched, and [e] itself is
    returned whatever the write was answered.  A panic is followed by nothing. *)
Theorem Reconcile_outcome ns name s0 m0 h r :
  runs (Reconcile ns name s0) (Ev (GetMint ns name) (inl m0) :: h) r -> active m0 ->
  exists h1 h2 s1 pass, h = h1 ++ h2 /\ runs (reconcileResources m0) h1 (s1, pass) /\ status_writes h1 = [] /\
    match pass with
    | Ok result => concluded m0 h1 h2 result r.2
    | Err e => handled m0 e h2 r.2
    | Panic p => h2 = [] /\ r.2 = Panic p
    end.
Proof.
  intros Hr%Reconcile_run Ha. rewrite -> (reconcileMint_active m0 Ha) in Hr.
  apply runs_bind in Hr as (h1 & [s1 x] & h2 & -> & Hp1 & Hp2).
  apply runs_bind in Hp1 as (h3 & [s2 pass] & h4 & -> & Hpass & [-> Hx]%runs_inv). injection Hx as -> ->.
  rewrite -> app_nil_r. exists h3, h2, s2, pass. split; [done|]. split; [done|].
  destruct (resources_run _ _ _ _ Hpass) as [(Hs & Ho & Hset) Hw]. split; [done|]. cbn in Hp2.
  destruct pass as [result|e|p].
  - destruct (Hset result eq_refl) as [Hset' ->]. by apply (conclude_run _ _ s2).
  - by apply (handleError_run _ s2).
  - by apply runs_inv in Hp2 as [-> ->].
Qed.

(** C16: the phases form a state machine.  Whatever status a run writes is one
    step of [phase_step] from the phase it fetched: Pending only from an unset
    phase, Updating only when the generation changed, never back to unset; and
    it says Ready only if the Deployment was reported ready in the same run, or
    if it said so before and the generation has not changed. *)
Theorem Reconcile_phase_steps ns name s0 m0 h r w reply :
  runs (Reconcile ns name s0) (Ev (GetMint ns name) (inl m0) :: h) r ->
  In (Ev (UpdateMintStatus w) reply) h ->
  phase_step (spec_changed (generation m0) (outcome m0)) (phase m0) (phase w) /\
  (phase w = MintPhaseReady ->
     (phase m0 = MintPhaseReady /\ spec_changed (generation m0) (outcome m0) = false) \/
     exists d, In (Ev (GetDeployment (mint_Namespace m0) (mint_Name m0)) (inl d)) h /\ isDeploymentReady d = true).
Proof.
  intros Hr%run_writes Hin%status_writes_in. destruct (run_write_origin _ _ _ _ _ Hr Hin) as [Hw _].
  destruct Hw as [[Hu ->]|[Hu [[_ Ho]|(o & cur & (d & Hd & ->) & _ & _ & Ho)]]].
  - split; [|done]. rewrite -> Hu. apply step_create.
  - apply (f_equal oc_Phase) in Ho. change (oc_Phase (outcome w)) with (phase w) in Ho. rewrite -> Ho.
    split; [by apply step_fail|done].
  - apply (f_equal oc_Phase) in Ho. change (oc_Phase (outcome w)) with (phase w) in Ho. rewrite -> Ho.
    split; [by apply settle_step|]. cbn. intros Hready.
    assert (Hs : oc_Phase (begin_of m0) = MintPhaseReady ->
      phase m0 = MintPhaseReady /\ spec_changed (generation m0) (outcome m0) = false).
    { unfold begin_of, started. destruct (spec_changed _ _); [done|]. by destruct (decide _). }
    destruct d as [d|e]; cbn in Hready; [|left; by apply Hs].
    destruct (isDeploymentReady d) eqn:Hdep; [right; by exists d|left; by apply Hs].
Qed.

(** C4: an invariant of the whole life of a mint, over all interleavings of edits
    with runs that may work on stale versions.  In every version stored of a
    mint created with an empty status: the recorded generation is at most the
    current one; the Ready condition is true in phase Ready only; and once the
    phase is set it is never unset again. *)
Theorem life_invariant m vs :
  rtc life_step [m] vs -> mint_Status m = zeroStatus -> (0 <= generation m)%Z -> life_ok vs.
Proof.
  intros Hlife Hz Hg. assert (Hok : life_ok [m]).
  { split; [|split; [by constructor; [lia|]|by constructor]]. constructor; [|done].
    unfold version_ok, outcome. rewrite -> Hz. cbn. split; [lia|by split]. }
  clear Hz Hg. induction Hlife as [vs|vs vs' vs'' Hs Hr IH]; [done|]. by apply IH, (life_step_ok _ _ Hs).
Qed.

(** C18: a living mint is never dropped.  Every run that ends without error on a
    mint that is not being deleted asks to be called again, at once or within
    five minutes, whatever the API server answered. *)
Theorem Reconcile_comes_back ns name s0 m0 h r result :
  runs (Reconcile ns name s0) (Ev (GetMint ns name) (inl m0) :: h) r ->
  m0.(mint_Meta).(om_DeletionTimestamp) = None -> r.2 = Ok result ->
  comes_back result.
Proof.
  intros Hr Hd Hres. apply run_writes in Hr. rewrite -> Hres in Hr.
  destruct Hr as [[_ Hp]|[(_ & reply & _ & Hr)|(_ & _ & _ & Hn)]]; [right|left..].
  - destruct Hp as [[_ [-> | ->]]|(m & reply & _ & _ & -> & _)]; [done..|]. by destruct (phase m).
  - destruct reply as [[]|e]; [by injection Hr as ->|done].
  - by rewrite -> (Hn Hd result eq_refl).
Qed.
End Properties.

Section Witnesses.
#[local] Existing Instance std_ControllerUtil.
#[local] Existing Instance std_StatusConditions.
#[local] Existing Instance std_StatusConditionsLaws.
#[local] Existing Instance std_Quantities.
#[local] Existing Instance std_UnicodeTables.
#[local] Existing Instance std_X509.

Lemma Reconcile_outcome_witness :
  exists h1 h2 s1 result, firstHistory = h1 ++ h2 /\ runs (reconcileResources pendingMint) h1 (s1, Ok result) /\
    concluded pendingMint h1 h2 result firstRun.2.2.
Proof.
  destruct (Reconcile_outcome _ _ _ _ _ _ firstRun_runs pendingMint_active) as (h1 & h2 & s1 & pass & Hh & Hr & Hw & Hp).
  assert (Hok : exists x, firstRun.2.2 = Ok x /\ length (status_writes firstHistory) = 1)
    by (eexists; split; vm_compute; reflexivity).
  destruct Hok as (x & Hx & Hl). exists h1, h2, s1. destruct pass as [result|e|p].
  - exists result. exact (conj Hh (conj Hr Hp)).
  - exfalso. revert Hp. rewrite -> Hx. unfold handled. rewrite -> Hh, writes_app, Hw in Hl. cbn [app] in Hl.
    destruct (has_reason ReasonConflict e); [intros [-> _]; discriminate Hl|].
    destruct (has_reason ReasonNotFound e); [|intros (m & _ & _ & _ & [=])]. intros [[msg Hc] _].
    destruct h2 as [|[c u] [|]]; try discriminate Hc. injection Hc as Hc. cbn in Hc. subst c. discriminate Hl.
  - exfalso. destruct Hp as [_ Hp]. rewrite -> Hx in Hp. discriminate Hp.
Defined.

Lemma last_in {A} (l : list A) x : last l = Some x -> In x l.
Proof. intros Hl. apply last_Some_elem_of in Hl. by apply list_elem_of_In. Qed.

Definition finalMint : CashuMint :=
  match latest stored_mint firstHistory with Some m => m | None => pendingMint end.

Lemma finalMint_written : In (Ev (UpdateMintStatus finalMint) (inl tt)) firstHistory.
Proof. apply last_in. vm_compute. reflexivity. Qed.

Lemma Reconcile_phase_steps_witness :
  phase finalMint = MintPhaseReady /\
  exists d, In (Ev (GetDeployment "wallets" "mint") (inl d)) firstHistory /\ isDeploymentReady d = true.
Proof.
  assert (Hp : phase finalMint = MintPhaseReady) by (vm_compute; reflexivity).
  split; [exact Hp|].
  destruct (Reconcile_phase_steps _ _ _ _ _ _ _ _ firstRun_runs finalMint_written) as [_ Hr].
  destruct (Hr Hp) as [[Hn _]|He]; [vm_compute in Hn; discriminate|exact He].
Defined.

Lemma Reconcile_comes_back_witness :
  exists result, firstRun.2.2 = Ok result /\
    comes_back result.
Proof.
  eexists. split; [vm_compute; reflexivity|].
  apply (Reconcile_comes_back _ _ _ _ _ _ _ firstRun_runs); vm_compute; reflexivity.
Defined.

(** A mint with its finalizer and an empty status: initialised, then edited. *)
Definition newMint : CashuMint :=
  fullMint <| mint_Meta ::= fun o => AddFinalizer o cashuMintFinalizer |>.
Definition initRun : history * (CashuMint * res Result) := simulate (server newMint) [] (reconcileMint newMint).
Definition initMint : CashuMint := newMint <| mint_Status := mint_Status (set_phase MintPhasePending newMint) |>.
Definition editedMint : CashuMint := initMint <| mint_Meta ::= fun o => o <| om_Generation ::= Z.succ |> |>.

Lemma newMint_life : rtc life_step [newMint] [editedMint; initMint; newMint].
Proof.
  eapply rtc_l; [|eapply rtc_l; [|apply rtc_refl]].
  - eapply (life_reconcile newMint [] "wallets" "mint" fullMint newMint initRun.1 initRun.2 (set_phase MintPhasePending newMint)).
    + by left.
    + exact (Reconcile_fetched _ _ _ newMint _ _ (simulate_runs (server newMint) [] (reconcileMint newMint))).
    + intros ns' name' m Hin. exfalso. apply list_elem_of_In, list_elem_of_lookup in Hin as [i Hi].
      apply (f_equal (option_map ev_call)) in Hi. destruct i as [|[|i]]; vm_compute in Hi; discriminate.
    + left. vm_compute. reflexivity.
  - apply life_edit; vm_compute; [reflexivity|discriminate].
Qed.

Lemma life_invariant_witness : life_ok [editedMint; initMint; newMint].
Proof. apply (life_invariant newMint _ newMint_life); vm_compute; [reflexivity|discriminate]. Defined.
End Witnesses.
