(* ===== verification/Pipeline.v ===== *)
(** * The desired state of a mint

    Everything the generators make of a mint, in the order in which the
    controller applies it: the reference that [Sequence] compares the
    reconciler with.  The controller's guards are shown to be those of the
    generators, and the generators to see a mint's metadata and spec only. *)

From S2P Require Import Prelude Kube Types Platform Fmt Samples Defaulting Encoding Validation Common Toml.
From S2P Require Import ConfigToml Postgres Backup Mnemonic ManagementRPC Orchard Workload Storage Networking.
From S2P Require Import Client Controller Server Safety.

(** ** The reference pipeline *)

Definition objects {X} (inj : X -> Object) (g : res (option X)) : res (list Object) :=
  let? o := g in Ok (match o with Some x => [inj x] | None => [] end).

Fixpoint all_objects (l : list (res (list Object))) : res (list Object) :=
  match l with
  | [] => Ok []
  | g :: l => let? x := g in let? y := all_objects l in Ok (x ++ y)
  end.

(** The objects made before the first generator that fails. *)
Fixpoint generated (l : list (res (list Object))) : list Object :=
  match l with
  | Ok x :: l => x ++ generated l
  | _ => []
  end.

(** Where the configuration gets its database password or URL from: the name
    and key of a Secret. *)
Definition database_ref (m : CashuMint) : option (string * string) :=
  let db := m.(mint_Spec).(spec_Database) in
  if String.eqb db.(db_Engine) DatabaseEnginePostgres then
    pg ← db.(db_Postgres);
    if pg.(pg_AutoProvision) then Some (mint_Name m +:+ "-postgres-secret", "password")
    else ref ← pg.(pg_URLSecretRef); Some (ref.(sks_Name), ref.(sks_Key))
  else None.

Definition auth_ref (m : CashuMint) : option (string * string) :=
  '(_, pg) ← authSecretRef m; ref ← pg.(pg_URLSecretRef); Some (ref.(sks_Name), ref.(sks_Key)).

(** The mint the configuration is generated from, and the password, given the
    values of the two references. *)
Definition with_database (m : CashuMint) (v : string) : CashuMint * string :=
  match database_ref m, m.(mint_Spec).(spec_Database).(db_Postgres) with
  | Some _, Some pg =>
      if pg.(pg_AutoProvision) then (m, v)
      else (m <| mint_Spec ::= fun s => s <| spec_Database ::= fun d => d <| db_Postgres := Some (with_url v pg) |> |> |>, "")
  | _, _ => (m, "")
  end.

Definition with_auth (m : CashuMint) (v : string) : CashuMint :=
  match authSecretRef m with
  | Some (auth, pg) =>
      m <| mint_Spec ::= fun s => s <| spec_Auth :=
        Some (auth <| auth_Database ::= ptr_upd (fun d => d <| adb_Postgres := Some (with_url v pg) |>) |>) |> |>
  | None => m
  end.

Section Pipeline.
Context `{X509, ControllerUtil, StatusConditions, Quantities, UnicodeTables}.

Definition config_objects (m : CashuMint) (dbv authv : string) : res (list Object) :=
  let '(cfg, password) := with_database m dbv in
  objects OConfigMap (some_object (GenerateConfigMap (with_auth cfg authv) password)).

Definition database_gens (m : CashuMint) : list (res (list Object)) :=
  [objects OService (GeneratePostgresService m); objects OStatefulSet (GeneratePostgresStatefulSet m);
   objects OCronJob (GeneratePostgresBackupCronJob m); objects OJob (GeneratePostgresRestoreJob m)].

Definition claim_gens (m : CashuMint) : list (res (list Object)) :=
  [objects OPVC (GeneratePVC m); objects OPVC (GenerateOrchardPVC m)].

Definition workload_gens (m : CashuMint) (hash : string) : list (res (list Object)) :=
  claim_gens m ++
  [objects ODeployment (some_object (GenerateDeployment m hash));
   objects OService (some_object (GenerateService m)); objects OService (GenerateOrchardService m);
   objects OPodMonitor (GeneratePodMonitor m)].

Definition exposure_gens (m : CashuMint) : list (res (list Object)) :=
  [objects OIngress (GenerateIngress m); objects OIngress (GenerateOrchardIngress m);
   objects OCertificate (GenerateCertificate m); objects OCertificate (GenerateOrchardCertificate m)].

(** Everything the generators make of the mint, in the order of the controller. *)
Definition all_gens (m : CashuMint) (dbv authv hash : string) : list (res (list Object)) :=
  database_gens m ++ [config_objects m dbv authv] ++ workload_gens m hash ++ exposure_gens m.
Definition desired (m : CashuMint) (dbv authv hash : string) : res (list Object) := all_objects (all_gens m dbv authv hash).

(** ** The guards of the controller are those of the generators *)

Lemma no_postgres_objects m :
  ptr_test pg_AutoProvision m.(mint_Spec).(spec_Database).(db_Postgres) = false ->
  GeneratePostgresService m = Ok None /\ GeneratePostgresStatefulSet m = Ok None.
Proof.
  intros Hp. assert (Ha : autoProvisioned m = None).
  { unfold autoProvisioned. destruct (db_Postgres _) as [pg|]; [|done]. by rewrite -> (Hp : pg_AutoProvision pg = false). }
  unfold GeneratePostgresService, GeneratePostgresStatefulSet. by rewrite -> Ha.
Qed.

Lemma no_backup_objects m :
  ptr_test bk_Enabled m.(mint_Spec).(spec_Backup) = false \/ GeneratePostgresBackupCronJob m = Ok None ->
  GeneratePostgresBackupCronJob m = Ok None /\ GeneratePostgresRestoreJob m = Ok None.
Proof.
  intros Hb. assert (Hn : backupEnabled m = None).
  { destruct Hb as [Hb|Hb].
    - unfold backupEnabled. destruct (spec_Backup _) as [bk|]; [|done]. cbn.
      by rewrite -> (Hb : bk_Enabled bk = false).
    - unfold GeneratePostgresBackupCronJob in Hb. destruct (backupEnabled m); [|done]. by destruct (set_reference _ _). }
  unfold GeneratePostgresBackupCronJob, GeneratePostgresRestoreJob. by rewrite -> Hn.
Qed.

Lemma no_claims m :
  needsPVCReconciliation m = false -> GeneratePVC m = Ok None /\ GenerateOrchardPVC m = Ok None.
Proof.
  unfold needsPVCReconciliation, GeneratePVC, GenerateOrchardPVC, DatabaseEngineSQLite, DatabaseEngineRedb.
  rewrite -> !orb_false_iff. intros [[-> ->] Ho]. split; [done|].
  destruct (spec_Orchard _) as [o|]; [|done]. by rewrite -> (Ho : or_Enabled o = false).
Qed.

Lemma no_ingress m :
  needsIngressReconciliation m = false ->
  enabledIngress m.(mint_Spec).(spec_Ingress) = None /\ orchardIngress m = None.
Proof.
  unfold needsIngressReconciliation, orchardIngress, enabledIngress, ptr_test. rewrite -> orb_false_iff. intros [Hi Ho]. split.
  - destruct (spec_Ingress _) as [i|]; [|done]. cbn.
    by rewrite -> Hi.
  - destruct (spec_Orchard _) as [o|]; [|done]. cbn in *. destruct (or_Enabled o); [|done].
    destruct (or_Ingress o) as [i|]; [|done]. cbn in *. by rewrite -> Ho.
Qed.

Lemma no_ingress_objects m :
  needsIngressReconciliation m = false ->
  GenerateIngress m = Ok None /\ GenerateOrchardIngress m = Ok None /\
  GenerateCertificate m = Ok None /\ GenerateOrchardCertificate m = Ok None.
Proof.
  intros [Hi Ho]%no_ingress.
  unfold GenerateIngress, GenerateOrchardIngress, GenerateCertificate, GenerateOrchardCertificate. by rewrite -> Hi, Ho.
Qed.

Lemma no_certificate_of p i :
  wantsCertificate p = false -> enabledIngress p = Some i -> enabledTLS i = None \/ enabledCertManager i = None.
Proof.
  unfold wantsCertificate, enabledIngress, ptr_test. destruct p as [j|]; [|done]. cbn. destruct (ing_Enabled j) eqn:He; [|done].
  intros Hc [= <-]. unfold enabledCertManager, enabledTLS. destruct (ing_TLS j) as [t|]; [|by left]. cbn in *.
  destruct (tls_Enabled t); [|by left]. cbn in Hc. right. cbn.
  destruct (tls_CertManager t) as [c|]; [|done]. cbn in *. by rewrite -> Hc.
Qed.

Lemma no_certificates m :
  needsCertificateReconciliation m = false ->
  GenerateCertificate m = Ok None /\ GenerateOrchardCertificate m = Ok None.
Proof.
  unfold needsCertificateReconciliation, ptr_test at 1. rewrite -> orb_false_iff. intros [Hi Ho].
  unfold GenerateCertificate, GenerateOrchardCertificate, orchardIngress. split.
  - destruct (enabledIngress _) as [i|] eqn:He; [|done].
    destruct (no_certificate_of _ _ Hi He) as [-> | ->]; [done|by destruct (enabledTLS i)].
  - destruct (spec_Orchard _) as [o|]; [|done]. cbn in *. destruct (or_Enabled o); [|done].
    destruct (enabledIngress _) as [i|] eqn:He; [|done].
    destruct (no_certificate_of _ _ Ho He) as [-> | ->]; [done|by destruct (enabledTLS i)].
Qed.
End Pipeline.

(** ** Prefixes of the pipeline *)

Lemma all_objects_app l1 l2 x y :
  all_objects l1 = Ok x -> all_objects l2 = Ok y -> all_objects (l1 ++ l2) = Ok (x ++ y).
Proof.
  revert x. induction l1 as [|g l1 IH]; intros x; cbn; [by intros [= <-]|]. intros Hx Hy.
  destruct g as [a|e|p]; [|done..]. cbn in *. destruct (all_objects l1) as [b|e|p]; [|done..]. cbn in Hx.
  injection Hx as <-. rewrite -> (IH b eq_refl Hy). cbn. by rewrite -> app_assoc.
Qed.

Lemma generated_all l x : all_objects l = Ok x -> generated l = x.
Proof.
  revert x. induction l as [|g l IH]; intros x; cbn; [by intros [= <-]|]. destruct g as [a|e|p]; [|done..]. cbn.
  destruct (all_objects l) as [b|e|p]; [|done..]. cbn. intros [= <-]. by rewrite -> (IH b eq_refl).
Qed.

Lemma generated_app l1 l2 x : all_objects l1 = Ok x -> generated (l1 ++ l2) = x ++ generated l2.
Proof.
  revert x. induction l1 as [|g l1 IH]; intros x; cbn; [by intros [= <-]|]. destruct g as [a|e|p]; [|done..]. cbn.
  destruct (all_objects l1) as [b|e|p]; [|done..]. cbn. intros [= <-]. by rewrite -> (IH b eq_refl), app_assoc.
Qed.

Lemma generated_prefix l1 l2 : generated l1 `prefix_of` generated (l1 ++ l2).
Proof.
  induction l1 as [|[x|e|p] l1 IH]; cbn; [by apply prefix_nil| |done..]. by apply prefix_app.
Qed.

(** What was applied in two parts of which the first succeeded. *)
Lemma prefix_generated l1 l2 x y :
  all_objects l1 = Ok x -> y `prefix_of` generated l2 -> (x ++ y) `prefix_of` generated (l1 ++ l2).
Proof. intros Hx Hy. rewrite -> (generated_app _ _ _ Hx). by apply prefix_app. Qed.

(** ** The generators see the metadata and the spec only *)

Section Same.
Context `{X509, ControllerUtil, Quantities, UnicodeTables}.
Variables m0 s : CashuMint.
Hypothesis Hsame : same m0 s.

Lemma same_status : s = m0 <| mint_Status := mint_Status s |>.
Proof. destruct Hsame as [Hm Hs]. destruct m0, s. cbn in *. by rewrite -> Hm, Hs. Qed.

Lemma same_generators :
  GeneratePostgresService s = GeneratePostgresService m0 /\ GeneratePostgresStatefulSet s = GeneratePostgresStatefulSet m0 /\
  GeneratePostgresBackupCronJob s = GeneratePostgresBackupCronJob m0 /\
  GeneratePostgresRestoreJob s = GeneratePostgresRestoreJob m0.
Proof. rewrite -> same_status. by do 3 (split; [reflexivity|]). Qed.

Lemma same_exposure :
  GenerateIngress s = GenerateIngress m0 /\ GenerateOrchardIngress s = GenerateOrchardIngress m0 /\
  GenerateCertificate s = GenerateCertificate m0 /\ GenerateOrchardCertificate s = GenerateOrchardCertificate m0.
Proof. rewrite -> same_status. by do 3 (split; [reflexivity|]). Qed.

Lemma same_refs : database_ref s = database_ref m0 /\ auth_ref s = auth_ref m0 /\ mint_Namespace s = mint_Namespace m0.
Proof. rewrite -> same_status. by do 2 (split; [reflexivity|]). Qed.
End Same.

Lemma same_with_database m0 s v :
  same m0 s -> same (with_database m0 v).1 (with_database s v).1 /\ (with_database s v).2 = (with_database m0 v).2.
Proof.
  intros Hs. rewrite -> (same_status _ _ Hs). unfold with_database.
  change (database_ref (m0 <| mint_Status := mint_Status s |>)) with (database_ref m0). cbn.
  destruct (database_ref m0); [|done]. destruct (db_Postgres _) as [pg|]; [|done]. by destruct (pg_AutoProvision pg).
Qed.

Lemma same_with_auth m0 s v : same m0 s -> same (with_auth m0 v) (with_auth s v).
Proof.
  intros Hs. rewrite -> (same_status _ _ Hs). unfold with_auth.
  change (authSecretRef (m0 <| mint_Status := mint_Status s |>)) with (authSecretRef m0).
  by destruct (authSecretRef m0) as [[auth pg]|].
Qed.

Lemma same_config `{ControllerUtil, UnicodeTables} m0 s dbv authv :
  same m0 s -> config_objects s dbv authv = config_objects m0 dbv authv.
Proof.
  intros Hs. destruct (same_with_database m0 s dbv Hs) as [Hd Hp]. unfold config_objects.
  destruct (with_database m0 dbv) as [c p], (with_database s dbv) as [c' p']. cbn in *. rewrite -> Hp.
  rewrite -> (same_status _ _ (same_with_auth _ _ authv Hd)). reflexivity.
Qed.
