(* ===== verification/Segments.v ===== *)
(** * Segments of a run: a logic of consecutive calls

    [Client.obeys] relates every call to the whole history before it; a
    [segment] speaks of the calls one handler makes, so that what two handlers
    do one after the other is the concatenation of what each does. *)

From S2P Require Import Prelude Kube Types Platform ManagementRPC Client Controller Safety.

(** ** What was applied

    Every object sent with [Apply], whatever the server replied. *)

Definition ev_applied `{X509} (e : event) : list Object := match ev_call e with Apply o => [o] | _ => [] end.
Definition applied `{X509} (h : history) : list Object := h ≫= ev_applied.

Section Segments.
Context `{X509}.
Variable m0 : CashuMint.

Lemma applied_app h1 h2 : applied (h1 ++ h2) = applied h1 ++ applied h2.
Proof. apply bind_app. Qed.

(** [segment m A Q]: started on the mint or on one that differs in its status,
    the handler keeps to that; its calls satisfy [A] however it ends, and [Q]
    together with its value if it succeeds. *)
Definition segment {A} (m : M A) (any : history -> Prop) (Q : history -> A -> Prop) : Prop :=
  forall s h x, same m0 s -> runs (m s) h x -> same m0 x.1 /\ any h /\ forall a, x.2 = Ok a -> Q h a.

Lemma segment_mono {A} (m : M A) any any' (Q Q' : history -> A -> Prop) :
  segment m any Q -> (forall h, any h -> any' h) -> (forall h a, Q h a -> Q' h a) -> segment m any' Q'.
Proof.
  intros Hm Ha HQ s h x Hs Hr. destruct (Hm s h x Hs Hr) as (? & ? & Hx). split; [done|]. split; [by apply Ha|].
  intros a E. by apply HQ, Hx.
Qed.

Lemma segment_res {A} (r : res A) (any : history -> Prop) : any [] -> segment (m_res r) any (fun h a => h = [] /\ r = Ok a).
Proof. intros Ha s h x Hs [-> ->]%runs_inv. by split. Qed.

Lemma segment_err {A} e (any : history -> Prop) (Q : history -> A -> Prop) : any [] -> segment (m_res (Err e)) any Q.
Proof. intros Ha s h x Hs [-> ->]%runs_inv. by split. Qed.

Lemma segment_ret {A} (a : A) (any : history -> Prop) (Q : history -> A -> Prop) :
  any [] -> Q [] a -> segment (m_ret a) any Q.
Proof. intros Ha HQ s h x Hs [-> ->]%runs_inv. split; [done|]. split; [done|]. by intros b [= <-]. Qed.

Lemma segment_call c any (Q : history -> response c -> Prop) :
  (forall r, any [Ev c r]) -> (forall r, Q [Ev c r] r) -> segment (m_call c) any Q.
Proof.
  intros Ha HQ s h x Hs (r & h' & -> & [-> ->]%runs_inv)%runs_inv. split; [done|]. split; [done|]. by intros a [= <-].
Qed.

Lemma segment_modify f (any : history -> Prop) (Q : history -> unit -> Prop) :
  (forall s, same m0 s -> same m0 (f s)) -> any [] -> Q [] tt -> segment (m_modify f) any Q.
Proof. intros Hf Ha HQ s h x Hs [-> ->]%runs_inv. split; [by apply Hf|]. split; [done|]. by intros [] _. Qed.

Lemma segment_bind {A B} (m : M A) (f : A -> M B) any1 any Q R :
  segment m any1 Q -> (forall h, any1 h -> any h) ->
  (forall a h1, Q h1 a -> segment (f a) (fun h2 => any (h1 ++ h2)) (fun h2 b => R (h1 ++ h2) b)) ->
  segment (m_bind m f) any R.
Proof.
  intros Hm Ha Hf s h x Hs (h1 & [s1 r] & h2 & -> & H1 & H2)%runs_bind.
  destruct (Hm _ _ _ Hs H1) as (Hs1 & Ha1 & HQ). destruct r as [a|e|p].
  - by apply (Hf a h1 (HQ a eq_refl) s1).
  - apply runs_inv in H2 as [-> ->]. rewrite -> app_nil_r. split; [done|]. split; [by apply Ha|done].
  - apply runs_inv in H2 as [-> ->]. rewrite -> app_nil_r. split; [done|]. split; [by apply Ha|done].
Qed.

Lemma segment_get {B} (f : CashuMint -> M B) any R :
  (forall s, same m0 s -> segment (f s) any R) -> segment (m_bind m_get f) any R.
Proof. intros Hf s h x Hs Hr. exact (Hf s Hs s h x Hs Hr). Qed.

Lemma segment_wrap {A} prefix (m : M A) any Q : segment m any Q -> segment (m_wrap prefix m) any Q.
Proof.
  intros Hm s h x Hs (h1 & [s1 r] & h2 & -> & H1 & H2)%runs_bind. destruct (Hm _ _ _ Hs H1) as (Hs1 & Ha & HQ).
  destruct r as [a|e|p]; apply runs_inv in H2 as [-> ->]; rewrite -> app_nil_r; by split.
Qed.

Lemma segment_try {A} (m : M A) any Q :
  segment m any Q -> segment (m_try m) any (fun h r => match r with inl a => Q h a | inr _ => any h end).
Proof.
  intros Hm s h x Hs (h1 & [s1 r] & h2 & -> & H1 & H2)%runs_bind. destruct (Hm _ _ _ Hs H1) as (Hs1 & Ha & HQ).
  destruct r as [a|e|p]; apply runs_inv in H2 as [-> ->]; rewrite -> app_nil_r; (split; [done|]); (split; [done|]);
    [|by intros b [= <-]|done].
  intros b [= <-]. by apply HQ.
Qed.
End Segments.
