(* ===== verification/Sequence.v ===== *)
(** * What a reconciliation applies: the controller against its generators

    A run that reaches the status update has applied, in order, exactly the
    objects the generators make of the mint: the controller's own guards are
    redundant, nothing is skipped and nothing is added. *)

From S2P Require Import Prelude Kube Types Platform Fmt Samples Defaulting Encoding Validation Common Toml.
From S2P Require Import ConfigToml Postgres Backup Mnemonic ManagementRPC Orchard Workload Storage Networking.
From S2P Require Import Client Controller Server Safety.
From S2P Require Import Pipeline Segments.

(** ** The handlers, one by one *)

Section Applied.
Context `{X509, ControllerUtil, StatusConditions, Quantities, UnicodeTables}.
Variable m0 : CashuMint.

(** The handler applies what [l] makes, in order, up to its first failure or
    its own; if it succeeds, all of [l] could be generated and was applied. *)
Definition gives {A} (m : M A) (l : list (res (list Object))) : Prop :=
  segment m0 m (fun h => applied h `prefix_of` generated l) (fun h _ => all_objects l = Ok (applied h)).

Lemma gives_bind {A B} (m : M A) (f : A -> M B) l1 l2 :
  gives m l1 -> (forall a, gives (f a) l2) -> gives (m_bind m f) (l1 ++ l2).
Proof.
  intros Hm Hf. eapply segment_bind; [exact Hm|intros h Hh; etransitivity; [exact Hh|apply generated_prefix]|].
  intros a h1 Ha. eapply segment_mono; [apply Hf| |]; cbn; rewrite -> ?applied_app.
  - intros h2 Hh. rewrite -> applied_app. by apply prefix_generated.
  - intros h2 b Hb. rewrite -> applied_app. by apply all_objects_app.
Qed.

Lemma gives_ret {A} (a : A) : gives (m_ret a) [].
Proof. by apply segment_ret. Qed.
Lemma gives_get {B} (f : CashuMint -> M B) l : (forall s, same m0 s -> gives (f s) l) -> gives (m_bind m_get f) l.
Proof. apply segment_get. Qed.
Lemma gives_res {A} (r : res A) : gives (m_res r) [].
Proof. eapply segment_mono; [by apply (segment_res m0 r (fun h => h = []))|by intros h ->|by intros h a [-> _]]. Qed.
Lemma gives_wrap {A} prefix (m : M A) l : gives m l -> gives (m_wrap prefix m) l.
Proof. apply segment_wrap. Qed.
Lemma gives_modify f : (forall s, same m0 s -> same m0 (f s)) -> gives (m_modify f) [].
Proof. intros Hf. by apply segment_modify. Qed.
Lemma gives_call c : (forall o, c <> Apply o) -> gives (m_call c) [].
Proof. intros Hc. apply segment_call; intros r; destruct c; try done; by destruct (Hc o). Qed.
Lemma gives_lift {A} (r : A + goerror) : gives (m_lift r) [].
Proof. apply gives_res. Qed.

(** Generators that make nothing need not be called. *)
Lemma gives_nothing {A} (m : M A) l : gives m [] -> all_objects l = Ok [] -> gives m l.
Proof.
  intros Hm Hl. eapply segment_mono; [exact Hm| |]; cbn; rewrite -> ?(generated_all _ _ Hl); [done|].
  intros h a. by rewrite -> Hl.
Qed.

Lemma gives_skip {A} (a : A) l : all_objects l = Ok [] -> gives (m_ret a) l.
Proof. apply gives_nothing, gives_ret. Qed.

(** A handler in two parts of which one applies nothing. *)
Lemma gives_then {A B} (m : M A) (f : A -> M B) l : gives m [] -> (forall a, gives (f a) l) -> gives (m_bind m f) l.
Proof. apply (gives_bind m f []). Qed.
Lemma gives_first {A B} (m : M A) (f : A -> M B) l : gives m l -> (forall a, gives (f a) []) -> gives (m_bind m f) l.
Proof. intros Hm Hf. rewrite <- (app_nil_r l). by apply gives_bind. Qed.

(** A handler that applies nothing and ends with an error. *)
Definition fails {A} (m : M A) : Prop := segment m0 m (fun h => applied h = []) (fun _ _ => False).

(** An error that is looked at before it is returned. *)
Lemma gives_try {A B} (m : M A) (f : A + goerror -> M B) l :
  gives m l -> (forall a, gives (f (inl a)) []) -> (forall e, fails (f (inr e))) -> gives (m_bind (m_try m) f) l.
Proof.
  intros Hm Hok Herr. eapply segment_bind; [apply segment_try, Hm|done|]. intros [a|e] h1 Hh1.
  - eapply segment_mono; [apply Hok| |]; intros h2; cbn.
    + intros Hh2%prefix_nil_inv. rewrite -> applied_app, Hh2, app_nil_r. by rewrite -> (generated_all _ _ Hh1).
    + intros b [= Hb]. by rewrite -> applied_app, <- Hb, app_nil_r.
  - eapply segment_mono; [apply Herr| |by intros h2 b]. intros h2 Hh2. by rewrite -> applied_app, Hh2, app_nil_r.
Qed.

Lemma gives_emit t r msg : gives (emit t r msg) [].
Proof. by apply (gives_call (EmitEvent t r msg)). Qed.
Lemma fails_err {A} e : fails (m_res (Err e) : M A).
Proof. by apply segment_err. Qed.
Lemma fails_emit {A} t r msg e : fails (emit t r msg;; (m_res (Err e) : M A)).
Proof.
  eapply segment_bind; [apply gives_emit|by intros h Hh%prefix_nil_inv|]. intros u h1 [= Hh1].
  eapply segment_mono; [apply (fails_err e)| |done]. intros h2 Hh2. by rewrite -> applied_app, <- Hh1, Hh2.
Qed.

Lemma gives_createSecret prefix s : gives (createSecret prefix s) [].
Proof.
  apply gives_then; [by apply gives_call|]. intros [[]|e]; [apply gives_ret|].
  destruct (has_reason _ e); [apply gives_ret|apply gives_res].
Qed.

Lemma gives_apply {X} (inj : X -> Object) (x : X) : gives (applyResource (inj x)) [objects inj (Ok (Some x))].
Proof.
  assert (Hc : gives (m_call (Apply (inj x))) [objects inj (Ok (Some x))]) by (by apply segment_call).
  apply gives_first; [exact Hc|]. intros r. apply gives_lift.
Qed.

(** The value of a generator, with what it says about its objects. *)
Lemma gives_generated {X B} prefix (g : res X) (f : X -> M B) l :
  (forall x, g = Ok x -> gives (f x) l) -> gives (m_bind (m_wrap prefix (m_res g)) f) l.
Proof.
  intros Hf. eapply segment_bind; [apply segment_wrap, (segment_res m0 g (fun h => h = [])); done| |].
  - intros h ->. apply prefix_nil.
  - intros x h1 [-> Hg]. by apply Hf.
Qed.

Lemma gives_object {X} what (g : res (option X)) inj : gives (reconcileObject what g inj) [objects inj g].
Proof.
  apply gives_generated. intros [x|] ->; [|by apply segment_ret].
  apply gives_first; [apply gives_wrap, gives_apply|intros ?; apply gives_ret].
Qed.

(** One step through a handler that applies nothing. *)
Ltac quiet_step :=
  match goal with
  | |- gives (m_bind m_get _) _ => apply gives_get; intros ? ?
  | |- gives (m_bind _ _) [] => apply gives_then; [|intros ?]
  | |- gives (m_ret _) [] => apply gives_ret
  | |- gives (m_res _) [] => apply gives_res
  | |- gives (m_lift _) [] => apply gives_lift
  | |- gives (m_wrap _ _) _ => apply gives_wrap
  | |- gives (m_call _) [] => by apply gives_call
  | |- gives (emit _ _ _) [] => apply gives_emit
  | |- gives (createSecret _ _) [] => apply gives_createSecret
  | |- gives (m_modify _) [] => apply gives_modify; intros ? ?; solve [auto with op_db]
  | |- gives (if ?b then _ else _) _ => destruct b eqn:?
  | |- gives (match ?x with _ => _ end) _ => destruct x eqn:?
  end.
Ltac quiet_steps := repeat (progress cbv beta || quiet_step).

Lemma gives_transition : gives transitionReconciliationPhase [].
Proof. unfold transitionReconciliationPhase. quiet_steps. Qed.
Lemma gives_mnemonic : gives reconcileOptionalMnemonic [].
Proof. unfold reconcileOptionalMnemonic. quiet_steps. Qed.
Lemma gives_postgres_secret : gives reconcilePostgresSecret [].
Proof. unfold reconcilePostgresSecret. quiet_steps. Qed.
Lemma gives_rpc_secret : gives reconcileManagementRPCTLSSecret [].
Proof. unfold reconcileManagementRPCTLSSecret. quiet_steps. Qed.
Lemma gives_readiness : gives updateDeploymentReadiness [].
Proof. unfold updateDeploymentReadiness. quiet_steps. Qed.

Lemma gives_postgres :
  gives reconcilePostgreSQL [objects OService (GeneratePostgresService m0); objects OStatefulSet (GeneratePostgresStatefulSet m0)].
Proof.
  unfold reconcilePostgreSQL. apply gives_then; [apply gives_postgres_secret|intros _].
  apply gives_get. intros s (-> & -> & _ & _)%same_generators.
  apply (gives_bind _ _ [_] [_]); [apply gives_object|intros _]. apply gives_generated. intros [sts|] ->; [|by apply gives_skip].
  apply gives_first; [apply gives_wrap, gives_apply|intros r]. quiet_steps.
Qed.

Lemma gives_optional_postgres :
  gives reconcileOptionalPostgreSQL
    [objects OService (GeneratePostgresService m0); objects OStatefulSet (GeneratePostgresStatefulSet m0)].
Proof.
  unfold reconcileOptionalPostgreSQL. apply gives_get. intros s Hs. destruct (ptr_test _ _) eqn:Hp; cbn [negb].
  - apply gives_try; [apply gives_postgres|intros u; apply gives_ret|intros e; apply fails_emit].
  - destruct Hs as [_ Hs]. rewrite -> Hs in Hp. destruct (no_postgres_objects m0 Hp) as [-> ->]. by apply gives_skip.
Qed.

Lemma gives_backup :
  gives reconcileOptionalBackup
    [objects OCronJob (GeneratePostgresBackupCronJob m0); objects OJob (GeneratePostgresRestoreJob m0)].
Proof.
  unfold reconcileOptionalBackup, reconcileBackup. apply gives_get. intros s Hs. destruct (ptr_test _ _) eqn:Hp; cbn [negb].
  - apply gives_wrap, gives_get. intros s' (_ & _ & -> & ->)%same_generators.
    apply gives_generated. intros [cron|] Hc.
    + rewrite -> Hc. apply (gives_bind _ _ [_] [_]); [apply gives_wrap, gives_apply|intros r].
      apply gives_generated. intros [job|] ->.
      * apply gives_first; [apply gives_wrap, gives_apply|intros r']. quiet_steps.
      * apply gives_nothing; [quiet_steps|done].
    + destruct (no_backup_objects m0) as [_ ->]; [by right|]. rewrite -> Hc. apply gives_nothing; [quiet_steps|done].
  - destruct Hs as [_ Hs]. rewrite -> Hs in Hp. destruct (no_backup_objects m0) as [-> ->]; [by left|]. by apply gives_skip.
Qed.

Lemma gives_pvc s :
  same m0 s ->
  gives (if needsPVCReconciliation s then m_wrap "failed to reconcile PVC: " reconcilePVC else m_ret tt)
    [objects OPVC (GeneratePVC m0); objects OPVC (GenerateOrchardPVC m0)].
Proof.
  intros Hs. destruct (needsPVCReconciliation s) eqn:Hp.
  - apply gives_wrap, gives_get. intros s' Hs'. rewrite -> (same_status _ _ Hs').
    apply (gives_bind _ _ [_] [_]); [apply gives_object|intros _; apply gives_object].
  - rewrite -> (same_status _ _ Hs) in Hp. destruct (no_claims m0 Hp) as [-> ->]. by apply gives_skip.
Qed.

Lemma gives_service :
  gives reconcileService [objects OService (some_object (GenerateService m0)); objects OService (GenerateOrchardService m0)].
Proof.
  apply gives_get. intros s Hs. rewrite -> (same_status _ _ Hs).
  apply (gives_bind _ _ [_] [_]); [apply gives_object|intros _; apply gives_object].
Qed.

Lemma gives_podmonitor : gives reconcilePodMonitor [objects OPodMonitor (GeneratePodMonitor m0)].
Proof.
  apply gives_get. intros s Hs. assert (Hp : prometheusEnabled s = prometheusEnabled m0)
    by (by rewrite -> (same_status _ _ Hs)). rewrite -> Hp. destruct (prometheusEnabled m0) eqn:He; cbn [negb].
  - apply gives_generated. intros x Hx. assert (Hg : GeneratePodMonitor m0 = Ok x) by (by rewrite -> (same_status _ _ Hs) in Hx).
    rewrite -> Hg. destruct x as [pm|]; [|by apply gives_skip].
    apply gives_try; [apply gives_apply|intros r; apply gives_ret|].
    intros e. destruct (has_reason _ e); apply fails_err.
  - assert (Hg : GeneratePodMonitor m0 = Ok None) by (unfold GeneratePodMonitor; by rewrite -> He).
    rewrite -> Hg. apply gives_nothing; [quiet_steps|done].
Qed.

Lemma gives_ingress :
  gives reconcileOptionalIngressResources
    [objects OIngress (GenerateIngress m0); objects OIngress (GenerateOrchardIngress m0);
     objects OCertificate (GenerateCertificate m0); objects OCertificate (GenerateOrchardCertificate m0)].
Proof.
  apply gives_get. intros s Hs. destruct (needsIngressReconciliation s) eqn:Hi; cbn [negb].
  - apply (gives_bind _ _ [_; _] [_; _]).
    + apply gives_wrap, gives_get. intros s' (-> & -> & _)%same_exposure.
      apply (gives_bind _ _ [_] [_]); [apply gives_object|intros _; apply gives_object].
    + intros _. destruct (needsCertificateReconciliation s) eqn:Hc; cbn [negb].
      * apply gives_wrap, gives_get. intros s' (_ & _ & -> & ->)%same_exposure.
        apply (gives_bind _ _ [_] [_]); [apply gives_object|intros _; apply gives_object].
      * rewrite -> (same_status _ _ Hs) in Hc. destruct (no_certificates m0 Hc) as [-> ->]. by apply gives_skip.
  - rewrite -> (same_status _ _ Hs) in Hi. destruct (no_ingress_objects m0 Hi) as (-> & -> & -> & ->). by apply gives_skip.
Qed.
Lemma gives_updateStatus : gives updateStatus [].
Proof. unfold updateStatus. quiet_steps. Qed.

End Applied.

(** ** The configuration and the hash *)

(** A value read from a Secret of the mint's namespace. *)
Definition reads `{X509} (m : CashuMint) (h : history) (ref : string * string) (v : string) : Prop :=
  exists s, In (Ev (GetSecret (mint_Namespace m) ref.1) (inl s)) h /\ s.(sec_Data) !! ref.2 = Some v /\ v <> "".

Section Configuration.
Context `{X509, ControllerUtil, StatusConditions, Quantities, UnicodeTables}.
Variable m0 : CashuMint.

Lemma reads_app m h1 h2 ref v : reads m h1 ref v \/ reads m h2 ref v -> reads m (h1 ++ h2) ref v.
Proof. intros [(s & Hin & Hv)|(s & Hin & Hv)]; exists s; (split; [apply in_or_app; auto|done]). Qed.

Lemma str_empty_ne v : str_empty v = false -> v <> "".
Proof. by intros He ->. Qed.

(** A handler that applies nothing, with what it finds out. *)
Definition finds {A} (m : M A) (Q : history -> A -> Prop) : Prop :=
  segment m0 m (fun h => applied h = []) (fun h a => applied h = [] /\ Q h a).

Lemma finds_call_bind {A} c (f : response c -> M A) Q :
  (forall o, c <> Apply o) -> (forall r, finds (f r) (fun h a => Q (Ev c r :: h) a)) -> finds (m_bind (m_call c) f) Q.
Proof.
  intros Hc Hf. assert (Hn : forall r, ev_applied (Ev c r) = []) by (intros r; destruct c; try done; by destruct (Hc o)).
  apply (segment_bind m0 _ _ (fun h => applied h = []) _ (fun h r => h = [Ev c r])).
  - apply segment_call; intros r; [|done]. cbn. by rewrite -> Hn.
  - done.
  - intros r h1 ->. eapply segment_mono; [apply Hf| |]; cbn; unfold applied; cbn; by rewrite -> Hn.
Qed.

Lemma finds_ret {A} (a : A) (Q : history -> A -> Prop) : Q [] a -> finds (m_ret a) Q.
Proof. intros HQ. by apply segment_ret. Qed.
Lemma finds_err {A} e (Q : history -> A -> Prop) : finds (m_res (Err e)) Q.
Proof. by apply segment_err. Qed.
Lemma finds_bind {A B} (m : M A) (f : A -> M B) Q R :
  finds m Q -> (forall a h1, Q h1 a -> finds (f a) (fun h2 b => R (h1 ++ h2) b)) -> finds (m_bind m f) R.
Proof.
  intros Hm Hf. eapply segment_bind; [exact Hm|done|]. intros a h1 [Ha HQ].
  eapply segment_mono; [by apply Hf| |]; intros h2; cbn; rewrite -> applied_app, Ha; [done|]. by intros b.
Qed.

Lemma finds_resolve m ref path :
  finds (resolveRequiredSecretValue (mint_Namespace m) (Some ref) path) (fun h v => reads m h (ref.(sks_Name), ref.(sks_Key)) v).
Proof.
  unfold resolveRequiredSecretValue. destruct (_ || _); [apply finds_err|].
  apply finds_call_bind; [done|]. intros [secret|e]; [|apply finds_err].
  destruct (sec_Data secret !! sks_Key ref) as [v|] eqn:Hv; [|apply finds_err].
  destruct (str_empty v) eqn:He; [apply finds_err|]. apply finds_ret.
  exists secret. split; [by left|]. split; [exact Hv|by apply str_empty_ne].
Qed.

Lemma finds_database m :
  finds (resolveDatabase m) (fun h x => exists v, x = with_database m v /\
    forall ref, database_ref m = Some ref -> reads m h ref v).
Proof.
  unfold resolveDatabase, with_database, database_ref. destruct (String.eqb _ _).
  2: { apply finds_ret. by exists "". }
  destruct (db_Postgres _) as [pg|]; cbn [mbind option_bind].
  2: { apply finds_ret. by exists "". }
  destruct (pg_AutoProvision pg).
  - apply finds_call_bind; [done|]. intros [secret|e]; [|apply finds_err]. set (v := match _ with Some p => p | None => "" end).
    destruct (str_empty v) eqn:He; [apply finds_err|]. apply finds_ret.
    exists v. split; [done|]. intros ref [= <-]. exists secret. split; [by left|].
    split; [|by apply str_empty_ne]. subst v. cbn. by destruct (sec_Data secret !! "password").
  - destruct (pg_URLSecretRef pg) as [ref|]; cbn [non_nil mbind option_bind].
    + eapply finds_bind; [apply finds_resolve|]. intros v h1 Hv. apply finds_ret. rewrite -> app_nil_r.
      exists v. split; [done|]. by intros r [= <-].
    + apply finds_ret. by exists "".
Qed.

(** An auth database to resolve has a reference. *)
Lemma authSecretRef_some m auth pg : authSecretRef m = Some (auth, pg) -> exists ref, pg.(pg_URLSecretRef) = Some ref.
Proof.
  unfold authSecretRef. destruct (spec_Auth _) as [a|]; [|done]. cbn. destruct (negb _); [done|].
  destruct (auth_Database a) as [d|]; [|done]. cbn. destruct (adb_Postgres d) as [q|]; [|done]. cbn.
  destruct (pg_URLSecretRef q) as [ref|] eqn:Hq; [|done]. cbn. intros [= _ <-]. by exists ref.
Qed.

Lemma finds_auth m :
  finds (resolveAuthDatabase m) (fun h x => exists v, x = with_auth m v /\ forall ref, auth_ref m = Some ref -> reads m h ref v).
Proof.
  unfold resolveAuthDatabase, with_auth, auth_ref. destruct (authSecretRef m) as [[auth pg]|] eqn:Hr.
  2: { apply finds_ret. by exists "". }
  destruct (authSecretRef_some _ _ _ Hr) as [ref Hu]. cbn. rewrite -> Hu.
  eapply finds_bind; [apply finds_resolve|]. intros v h1 Hv. apply finds_ret. rewrite -> app_nil_r.
  exists v. split; [done|]. by intros r [= <-].
Qed.

Lemma auth_ref_database m v :
  auth_ref (with_database m v).1 = auth_ref m /\ mint_Namespace (with_database m v).1 = mint_Namespace m.
Proof.
  unfold with_database. destruct (database_ref m); [|done]. destruct (db_Postgres _) as [pg|]; [|done].
  by destruct (pg_AutoProvision pg).
Qed.

(** What the configuration was made of. *)
Definition configured (h : history) (dbv authv : string) : Prop :=
  (forall ref, database_ref m0 = Some ref -> reads m0 h ref dbv) /\
  (forall ref, auth_ref m0 = Some ref -> reads m0 h ref authv).

Lemma configured_app h1 h2 dbv authv : configured h1 dbv authv \/ configured h2 dbv authv -> configured (h1 ++ h2) dbv authv.
Proof. intros Hc. split; intros ref Hr; apply reads_app; destruct Hc as [[H5 H6]|[H5 H6]]; auto. Qed.

(** The config map the hash was taken of. *)
Definition hashed (h : history) (hash : string) : Prop :=
  exists c, In (Ev (GetConfigMap (mint_Namespace m0) (mint_Name m0 +:+ "-config")) (inl c)) h /\
    hash = calculateConfigHash c.

Lemma hashed_app h1 h2 hash : hashed h1 hash \/ hashed h2 hash -> hashed (h1 ++ h2) hash.
Proof. intros [(c & Hin & ->)|(c & Hin & ->)]; exists c; (split; [apply in_or_app; auto|done]). Qed.

(** A handler that first finds something out, then applies what [g] makes of it. *)
Definition gives_found {A X} (m : M A) (found : history -> X -> Prop) (g : X -> list (res (list Object))) : Prop :=
  segment m0 m (fun h => applied h = [] \/ exists x, found h x /\ applied h `prefix_of` generated (g x))
    (fun h _ => exists x, found h x /\ all_objects (g x) = Ok (applied h)).

Lemma gives_configmap :
  gives_found reconcileConfigMap (fun h x => configured h x.1 x.2) (fun x => [config_objects m0 x.1 x.2]).
Proof.
  unfold reconcileConfigMap. apply segment_get. intros s Hs.
  destruct (same_refs m0 s Hs) as (Hdb & Hauth & Hns).
  eapply segment_bind; [apply finds_database|by intros h Hh; left|]. intros [cfg pw] h1 (Ha1 & dbv & Hcfg & Hdbv).
  eapply segment_bind; [apply finds_auth|intros h Hh; left; by rewrite -> applied_app, Ha1|].
  intros cfg' h2 (Ha2 & authv & -> & Hauthv).
  destruct (auth_ref_database s dbv) as [Har Han]. rewrite <- Hcfg in Har, Han. cbn in Har, Han.
  assert (Hconf : configured (h1 ++ h2) dbv authv).
  { split; intros ref Href; apply reads_app; [left|right]; unfold reads in *.
    - rewrite <- Hns. apply Hdbv. by rewrite -> Hdb.
    - rewrite <- Hns, <- Han. apply Hauthv. by rewrite -> Har, Hauth. }
  assert (Hg : gives m0 (let! configMap := m_wrap "failed to generate ConfigMap: " (m_res (GenerateConfigMap (with_auth cfg authv) pw)) in
     let! _ := m_wrap "failed to apply ConfigMap: " (applyResource (OConfigMap configMap)) in
     m_modify (condition ConditionTypeConfigValid ConditionTrue "ConfigurationValid"
       "Configuration is valid and applied")) [config_objects m0 dbv authv]).
  { rewrite <- (same_config m0 s dbv authv Hs). unfold config_objects. rewrite <- Hcfg.
    apply gives_generated. intros cm ->. apply gives_first; [apply gives_wrap, (gives_apply m0 OConfigMap)|].
    intros r. apply gives_modify. intros s' Hs'. by apply same_condition. }
  assert (Hx : forall h3, configured (h1 ++ (h2 ++ h3)) dbv authv /\ applied (h1 ++ (h2 ++ h3)) = applied h3).
  { intros h3. rewrite -> app_assoc. split; [apply configured_app; by left|]. by rewrite -> !applied_app, Ha1, Ha2. }
  eapply segment_mono; [exact Hg| |]; intros h3; destruct (Hx h3) as [Hc3 ->].
  - intros Hp. right. by exists (dbv, authv).
  - intros u Hp. by exists (dbv, authv).
Qed.

Lemma gives_deployment :
  gives_found reconcileDeployment hashed (fun hash => [objects ODeployment (some_object (GenerateDeployment m0 hash))]).
Proof.
  unfold reconcileDeployment. apply segment_get. intros s Hs. rewrite -> (same_status _ _ Hs).
  change (mint_Namespace (m0 <| mint_Status := mint_Status s |>)) with (mint_Namespace m0).
  change (mint_Name (m0 <| mint_Status := mint_Status s |>)) with (mint_Name m0).
  set (ev := fun r => Ev (GetConfigMap (mint_Namespace m0) (mint_Name m0 +:+ "-config")) r).
  apply (segment_bind m0 _ _ (fun h => applied h = []) _ (fun h r => h = [ev r])); [by apply segment_call|by intros h Hh; left|].
  intros r h1 ->. eapply segment_bind; [apply segment_wrap, (segment_res m0 _ (fun h => h = [])); done|by intros h ->; left|].
  intros c h2 [-> Hc]. assert (Hh : forall h3, hashed ([ev r] ++ [] ++ h3) (calculateConfigHash c)).
  { intros h3. exists c. split; [|done]. left. destruct r as [c'|e]; [by injection Hc as ->|done]. }
  eapply segment_mono; [apply gives_object| |]; intros h3; cbn beta.
  - intros Hp. right. exists (calculateConfigHash c). split; [apply Hh|exact Hp].
  - intros u Hp. exists (calculateConfigHash c). split; [apply Hh|exact Hp].
Qed.
End Configuration.

(** ** The whole pass *)

Section Pass.
Context `{X509, ControllerUtil, StatusConditions, Quantities, UnicodeTables}.
Variable m0 : CashuMint.

(** What a pass has applied when it stops, after the objects of [before]: none
    yet; the configuration, made of values it read, and the claims up to some
    point; or everything up to some point, with the hash it read. *)
Definition partial_after (before : list (res (list Object))) (h : history) (x : list Object) : Prop :=
  x `prefix_of` generated before \/
  exists dbv authv, configured m0 h dbv authv /\
    (x `prefix_of` generated (before ++ [config_objects m0 dbv authv] ++ claim_gens m0) \/
     exists hash, hashed m0 h hash /\
       x `prefix_of` generated (before ++ [config_objects m0 dbv authv] ++ workload_gens m0 hash ++ exposure_gens m0)).

Lemma partial_app before h1 h2 x :
  partial_after before h2 x -> partial_after before (h1 ++ h2) x.
Proof.
  intros [Hp|(dbv & authv & Hc & Hx)]; [by left|]. right. exists dbv, authv. split; [apply configured_app; by right|].
  destruct Hx as [Hx|(hash & Hh & Hx)]; [by left|]. right. exists hash. split; [apply hashed_app; by right|done].
Qed.

Lemma gives_core :
  segment m0 reconcileCoreResources (fun h => partial_after [] h (applied h))
    (fun h _ => exists dbv authv hash, configured m0 h dbv authv /\ hashed m0 h hash /\
       all_objects ([config_objects m0 dbv authv] ++ workload_gens m0 hash) = Ok (applied h)).
Proof.
  unfold reconcileCoreResources. apply segment_get. intros s Hs.
  eapply segment_bind; [apply gives_wrap, gives_rpc_secret|by intros h Hh; left|]. intros u1 h1 [= Ha1].
  assert (Happ : forall h, applied (h1 ++ h) = applied h) by (intros h; by rewrite -> applied_app, <- Ha1).
  eapply segment_bind; [apply segment_wrap, gives_configmap| |].
  { intros h Hh. apply partial_app. rewrite -> Happ. destruct Hh as [-> |([dbv authv] & Hc & Hp)]; [by left|].
    right. exists dbv, authv. split; [done|]. left. etransitivity; [exact Hp|apply (generated_prefix [_])]. }
  intros u2 h2 ([dbv authv] & Hc & Ha2). cbn [fst snd] in *.
  assert (Hc' : forall h, configured m0 (h1 ++ h2 ++ h) dbv authv)
    by (intros h; apply configured_app; right; apply configured_app; by left).
  eapply segment_bind; [by apply gives_pvc| |].
  { intros h Hh. right. exists dbv, authv. split; [done|]. left. rewrite -> Happ, applied_app.
    by apply (prefix_generated [_]). }
  intros u3 h3 Ha3. eapply segment_bind; [apply segment_wrap, gives_deployment| |].
  { intros h Hh. right. exists dbv, authv. split; [done|]. rewrite -> Happ, !applied_app.
    destruct Hh as [-> |(hash & Hh & Hp)]; [left|right].
    - apply (prefix_generated [_]); [exact Ha2|]. by rewrite -> app_nil_r, (generated_all (claim_gens m0) _ Ha3).
    - exists hash. split; [by do 3 (apply hashed_app; right)|].
      apply (prefix_generated [_]); [exact Ha2|]. apply (prefix_generated [_; _]); [exact Ha3|].
      etransitivity; [exact Hp|apply (generated_prefix [_])]. }
  intros u4 h4 (hash & Hh & Ha4). assert (Hh' : forall h, hashed m0 (h1 ++ h2 ++ h3 ++ h4 ++ h) hash)
    by (intros h; do 3 (apply hashed_app; right); apply hashed_app; by left).
  eapply segment_mono.
  { eapply (gives_bind m0 _ _ [_; _] [_]); [apply gives_wrap, gives_service|intros ?; apply gives_wrap, gives_podmonitor]. }
  - intros h Hp. cbn beta in *. right. exists dbv, authv. split; [done|]. right. exists hash. split; [done|].
    rewrite -> Happ, !applied_app.
    apply (prefix_generated [_]); [exact Ha2|]. apply (prefix_generated [_; _]); [exact Ha3|].
    apply (prefix_generated [_]); [exact Ha4|]. etransitivity; [exact Hp|apply (generated_prefix [_; _; _])].
  - intros h u Ha5. cbn beta in *. exists dbv, authv, hash. split; [done|]. split; [done|]. rewrite -> Happ, !applied_app.
    apply (all_objects_app [_]); [exact Ha2|]. apply (all_objects_app [_; _]); [exact Ha3|].
    apply (all_objects_app [_]); [exact Ha4|exact Ha5].
Qed.

Lemma partial_before before h x y :
  all_objects before = Ok x -> partial_after [] h y -> partial_after before h (x ++ y).
Proof.
  intros Hx [Hy%prefix_nil_inv|(dbv & authv & Hc & Hy)].
  - left. by rewrite -> Hy, app_nil_r, (generated_all _ _ Hx).
  - right. exists dbv, authv. split; [done|]. destruct Hy as [Hy|(hash & Hh & Hy)]; [left|right].
    + by apply prefix_generated.
    + exists hash. split; [done|]. by apply prefix_generated.
Qed.

(** The whole desired state, applied in one run. *)
Definition complete (h : history) : Prop :=
  exists dbv authv hash, configured m0 h dbv authv /\ hashed m0 h hash /\ desired m0 dbv authv hash = Ok (applied h).

Lemma complete_partial h : complete h -> partial_after (database_gens m0) h (applied h).
Proof.
  intros (dbv & authv & hash & Hc & Hh & Hd). right. exists dbv, authv. split; [done|]. right. exists hash.
  split; [done|]. pose proof (generated_all _ _ Hd) as E. unfold all_gens in E. by rewrite -> E.
Qed.

(** Calls that apply nothing change nothing about it. *)
Lemma partial_more h1 h2 :
  applied h2 = [] -> partial_after (database_gens m0) h1 (applied h1) ->
  partial_after (database_gens m0) (h1 ++ h2) (applied (h1 ++ h2)).
Proof.
  intros Hn. rewrite -> applied_app, Hn, app_nil_r. intros [Hp|(dbv & authv & Hc & Hx)]; [by left|].
  right. exists dbv, authv. split; [apply configured_app; by left|].
  destruct Hx as [Hx|(hash & Hh & Hx)]; [by left|]. right. exists hash. split; [apply hashed_app; by left|done].
Qed.

Lemma complete_more h1 h2 : applied h2 = [] -> complete h1 -> complete (h1 ++ h2).
Proof.
  intros Hn (dbv & authv & hash & Hc & Hh & Hd). exists dbv, authv, hash.
  split; [apply configured_app; by left|]. split; [apply hashed_app; by left|].
  by rewrite -> applied_app, Hn, app_nil_r.
Qed.

Lemma gives_resources :
  segment m0 reconcileResources (fun h => partial_after (database_gens m0) h (applied h)) (fun h _ => complete h).
Proof.
  unfold reconcileResources. eapply segment_bind; [apply gives_transition|intros h Hh%prefix_nil_inv; left; rewrite -> Hh; apply prefix_nil|].
  intros u1 h1 [= Ha1]. eapply segment_bind; [apply gives_mnemonic| |].
  { intros h Hh%prefix_nil_inv. left. rewrite -> applied_app, <- Ha1, Hh. apply prefix_nil. }
  intros u2 h2 [= Ha2]. assert (Happ : forall h, applied (h1 ++ h2 ++ h) = applied h)
    by (intros h; by rewrite -> !applied_app, <- Ha1, <- Ha2).
  eapply segment_bind; [apply gives_optional_postgres| |].
  { intros h Hh. left. rewrite -> Happ. etransitivity; [exact Hh|apply (generated_prefix [_; _])]. }
  intros u3 h3 Ha3. eapply segment_bind; [apply gives_backup| |].
  { intros h Hh. left. rewrite -> Happ, applied_app. by apply (prefix_generated [_; _]). }
  intros u4 h4 Ha4. assert (Hdb : all_objects (database_gens m0) = Ok (applied h3 ++ applied h4))
    by exact (all_objects_app _ _ _ _ Ha3 Ha4).
  assert (Happ' : forall h, applied (h1 ++ h2 ++ h3 ++ h4 ++ h) = (applied h3 ++ applied h4) ++ applied h)
    by (intros h; by rewrite -> Happ, !applied_app, app_assoc).
  eapply segment_bind; [apply gives_core| |].
  { intros h Hh. rewrite -> Happ'. do 4 apply partial_app. by apply partial_before. }
  intros u5 h5 (dbv & authv & hash & Hc & Hh5 & Ha5).
  assert (Hc' : forall h, configured m0 (h1 ++ h2 ++ h3 ++ h4 ++ h5 ++ h) dbv authv)
    by (intros h; do 4 (apply configured_app; right); apply configured_app; by left).
  assert (Hh' : forall h, hashed m0 (h1 ++ h2 ++ h3 ++ h4 ++ h5 ++ h) hash)
    by (intros h; do 4 (apply hashed_app; right); apply hashed_app; by left).
  eapply segment_bind; [apply gives_ingress| |].
  { intros h Hh. right. exists dbv, authv. split; [done|]. right. exists hash. split; [done|].
    rewrite -> Happ', applied_app. apply prefix_generated; [exact Hdb|].
    rewrite -> app_assoc. by apply prefix_generated. }
  intros u6 h6 Ha6. assert (Hall : forall h, applied h = [] -> complete (h1 ++ h2 ++ h3 ++ h4 ++ h5 ++ h6 ++ h)).
  { intros h Hn. exists dbv, authv, hash. split; [done|]. split; [done|].
    rewrite -> Happ', !applied_app, Hn, app_nil_r. apply all_objects_app; [exact Hdb|].
    rewrite -> app_assoc. by apply all_objects_app. }
  eapply segment_mono; [apply gives_then; [apply gives_readiness|intros ?; apply gives_get; intros ? ?; apply gives_ret]| |].
  - intros h Hh%prefix_nil_inv. by apply complete_partial, Hall.
  - intros h r [= Hn]. by apply Hall.
Qed.

Lemma finds_handleError e :
  finds m0 (handleError e) (fun _ r => r = mkResult false Millisecond \/ r = mkResult false NotReadyRetryInterval).
Proof.
  unfold handleError. destruct (has_reason _ e); [by apply finds_ret; left|].
  destruct (has_reason _ e); [by apply finds_call_bind; [|intros r; apply finds_ret; right]|].
  eapply (finds_bind m0 _ _ (fun _ _ => True)); [by apply segment_modify; [apply same_phase|..]|intros u1 h1 _].
  eapply (finds_bind m0 _ _ (fun _ _ => True)); [by apply segment_modify; [intros s; apply same_condition|..]|intros u2 h2 _].
  apply finds_call_bind; [done|intros r]. apply segment_get. intros s Hs.
  apply finds_call_bind; [done|intros r']. apply finds_err.
Qed.

Lemma gives_active :
  segment m0 reconcileActive (fun h => partial_after (database_gens m0) h (applied h))
    (fun h r => forall p, r = reconcileResultForPhase p -> complete h).
Proof.
  unfold reconcileActive. eapply segment_bind; [apply segment_try, gives_resources|done|].
  intros [result|e] h1 Hh1.
  - eapply segment_mono; [apply gives_then; [apply gives_updateStatus|intros ?; apply gives_ret]| |].
    + intros h Hh%prefix_nil_inv. by apply complete_partial, complete_more.
    + intros h r [= Hn] p _. by apply complete_more.
  - eapply segment_mono; [apply finds_handleError| |].
    + intros h Hn. by apply partial_more.
    + intros h r [_ [-> | ->]] p; by destruct p.
Qed.
End Pass.

(** The result of a run that went through: the retry interval of a phase. *)
Definition completed (r : res Result) : Prop := exists p, r = Ok (reconcileResultForPhase p).

(** ** Properties *)

Section Properties.
Context `{X509, ControllerUtil, StatusConditions, Quantities, UnicodeTables}.

Lemma active_run ns name s0 m0 h r :
  runs (Reconcile ns name s0) (Ev (GetMint ns name) (inl m0) :: h) r -> active m0 -> runs (reconcileActive m0) h r.
Proof.
  intros Hr%Reconcile_run (Hd & Hf & Hp). rewrite -> reconcileMint_cases, Hd, Hf in Hr. cbn [non_nil negb] in Hr.
  by destruct (decide _).
Qed.

Lemma active_applies ns name s0 m0 h r :
  runs (Reconcile ns name s0) (Ev (GetMint ns name) (inl m0) :: h) r -> active m0 ->
  partial_after m0 (database_gens m0) h (applied h) /\
  (completed r.2 -> complete m0 h).
Proof.
  intros Hr Ha. pose proof (active_run _ _ _ _ _ _ Hr Ha) as Hrun.
  destruct (gives_active m0 m0 h r (same_refl m0) Hrun) as (_ & Hp & Hc). split; [done|]. intros [p Hres]. by apply (Hc _ Hres p).
Qed.

(** The values that were read determine what is desired. *)
Lemma desired_read m0 m1 h h' dbv authv hash dbv' authv' :
  same m0 m1 -> configured m0 h dbv authv -> configured m1 h' dbv' authv' ->
  (forall name s s', In (Ev (GetSecret (mint_Namespace m0) name) (inl s)) h ->
     In (Ev (GetSecret (mint_Namespace m0) name) (inl s')) h' -> s = s') ->
  desired m1 dbv' authv' hash = desired m0 dbv authv hash.
Proof.
  intros Hs [Hd Ha] [Hd' Ha'] Hagree. destruct (same_refs m0 m1 Hs) as (Hdb & Hauth & Hns).
  assert (Hread : forall ref v v', reads m0 h ref v -> reads m1 h' ref v' -> v' = v).
  { intros ref v v' (s & Hin & Hv & _) (s' & Hin' & Hv' & _). rewrite -> Hns in Hin'.
    rewrite -> (Hagree _ _ _ Hin Hin') in Hv. congruence. }
  assert (Hc : config_objects m0 dbv' authv' = config_objects m0 dbv authv).
  { assert (Ew : with_database m0 dbv' = with_database m0 dbv).
    { unfold with_database. destruct (database_ref m0) as [ref|] eqn:Hr; [|done].
      by rewrite -> (Hread ref dbv dbv' (Hd _ eq_refl) (Hd' _ Hdb)). }
    unfold config_objects. rewrite -> Ew. pose proof (auth_ref_database m0 dbv) as [Har _].
    destruct (with_database m0 dbv) as [cfg pw]. cbn in Har.
    assert (Ea : with_auth cfg authv' = with_auth cfg authv); [|by rewrite -> Ea].
    unfold with_auth. unfold auth_ref at 1 in Har. destruct (authSecretRef cfg) as [[auth pg]|] eqn:Hr; [|done].
    destruct (auth_ref m0) as [ref|] eqn:Hr0.
    - by rewrite -> (Hread ref authv authv' (Ha _ eq_refl) (Ha' _ Hauth)).
    - destruct (authSecretRef_some _ _ _ Hr) as [ref Hq]. cbn in Har. by rewrite -> Hq in Har. }
  unfold desired, all_gens. rewrite -> (same_config m0 m1 dbv' authv' Hs), Hc. rewrite -> (same_status _ _ Hs). reflexivity.
Qed.

(** C1: a run that completes has applied exactly the desired state.  Whenever a
    run on an active mint ends with the retry interval of a phase, every
    generator succeeded and the objects that were applied are, in order, all
    that the generators make of the mint: database, backup, configuration,
    storage, workload, services, monitoring and exposure.  The configuration
    holds the database and auth credentials read from the Secrets in the same
    run, and the Deployment the hash of the config map read there. *)
Theorem Reconcile_applies_desired ns name s0 m0 h r :
  runs (Reconcile ns name s0) (Ev (GetMint ns name) (inl m0) :: h) r -> active m0 ->
  completed r.2 ->
  exists dbv authv hash, configured m0 h dbv authv /\ hashed m0 h hash /\ desired m0 dbv authv hash = Ok (applied h).
Proof. intros Hr Ha. exact (proj2 (active_applies _ _ _ _ _ _ Hr Ha)). Qed.

(** C15: a run that stops half way has applied a beginning of the desired state.
    However a run on an active mint ends, with success, error or panic, the
    objects it applied are a prefix, in order, of what the generators make up
    to their first failure; nothing of the configuration was applied before
    the credentials it holds were read, and no Deployment before the config
    map its hash is of. *)
Theorem Reconcile_partial ns name s0 m0 h r :
  runs (Reconcile ns name s0) (Ev (GetMint ns name) (inl m0) :: h) r -> active m0 ->
  applied h `prefix_of` generated (database_gens m0) \/
  exists dbv authv, configured m0 h dbv authv /\
    (applied h `prefix_of` generated (database_gens m0 ++ [config_objects m0 dbv authv] ++ claim_gens m0) \/
     exists hash, hashed m0 h hash /\ applied h `prefix_of` generated (all_gens m0 dbv authv hash)).
Proof. intros Hr Ha. exact (proj1 (active_applies _ _ _ _ _ _ Hr Ha)). Qed.

(** C17: reconciliation is level based.  Two completed runs on the same metadata
    and spec, whatever the statuses, that read the same Secrets and the same
    config map apply the same objects in the same order: repeating a run changes
    nothing, and nothing depends on what earlier runs did. *)
Theorem Reconcile_level_based ns name s0 m0 h r ns' name' s0' m1 h' r' :
  runs (Reconcile ns name s0) (Ev (GetMint ns name) (inl m0) :: h) r -> active m0 ->
  completed r.2 ->
  runs (Reconcile ns' name' s0') (Ev (GetMint ns' name') (inl m1) :: h') r' -> active m1 ->
  completed r'.2 ->
  same m0 m1 ->
  (forall n s s', In (Ev (GetSecret (mint_Namespace m0) n) (inl s)) h ->
     In (Ev (GetSecret (mint_Namespace m0) n) (inl s')) h' -> s = s') ->
  (forall n c c', In (Ev (GetConfigMap (mint_Namespace m0) n) (inl c)) h ->
     In (Ev (GetConfigMap (mint_Namespace m0) n) (inl c')) h' -> c = c') ->
  applied h' = applied h.
Proof.
  intros Hr Ha Hp Hr' Ha' Hp' Hs Hsec Hcm.
  destruct (proj2 (active_applies _ _ _ _ _ _ Hr Ha) Hp) as (dbv & authv & hash & Hc & (c & Hin & ->) & Hd).
  destruct (proj2 (active_applies _ _ _ _ _ _ Hr' Ha') Hp') as (dbv' & authv' & hash' & Hc' & (c' & Hin' & ->) & Hd').
  destruct Hs as [Hm Hsp]. assert (Hns : mint_Namespace m1 = mint_Namespace m0) by (unfold mint_Namespace; by rewrite -> Hm).
  assert (Hnm : mint_Name m1 = mint_Name m0) by (unfold mint_Name; by rewrite -> Hm).
  rewrite -> Hns, Hnm in Hin'. rewrite <- (Hcm _ _ _ Hin Hin') in Hd'.
  rewrite -> (desired_read m0 m1 h h' dbv authv _ dbv' authv' (conj Hm Hsp) Hc Hc' Hsec) in Hd'. congruence.
Qed.
End Properties.

Section Witnesses.
#[local] Existing Instance std_ControllerUtil.
#[local] Existing Instance std_StatusConditions.
#[local] Existing Instance std_Quantities.
#[local] Existing Instance std_UnicodeTables.
#[local] Existing Instance std_X509.

Lemma Reconcile_applies_desired_witness :
  length (applied firstHistory) = 11 /\
  exists dbv authv hash, desired pendingMint dbv authv hash = Ok (applied firstHistory).
Proof.
  split; [vm_compute; reflexivity|].
  assert (Hr : completed firstRun.2.2) by (exists MintPhaseReady; vm_compute; reflexivity).
  destruct (Reconcile_applies_desired _ _ _ _ _ _ firstRun_runs pendingMint_active Hr) as (dbv & authv & hash & _ & _ & Hd).
  exists dbv, authv, hash. exact Hd.
Defined.

(** A run that ends early: the stateful set is refused. *)
Definition refused (o : Object) : bool := match o with OStatefulSet _ => true | _ => false end.
Definition flaky (h : history) (c : call) : response c :=
  match c return response c with
  | Apply o => if refused o then inr (mk_goerror "refused" (Some ReasonOther)) else server pendingMint h (Apply o)
  | c => server pendingMint h c
  end.
Definition failingRun : history * (CashuMint * res Result) := simulate flaky [] (reconcileMint pendingMint).

Lemma failingRun_runs :
  runs (Reconcile "wallets" "mint" fullMint) (Ev (GetMint "wallets" "mint") (inl pendingMint) :: failingRun.1) failingRun.2.
Proof. exact (Reconcile_fetched _ _ _ pendingMint _ _ (simulate_runs flaky [] (reconcileMint pendingMint))). Qed.

Lemma Reconcile_partial_witness :
  length (applied failingRun.1) = 2 /\ (exists e, failingRun.2.2 = Err e) /\
  partial_after pendingMint (database_gens pendingMint) failingRun.1 (applied failingRun.1).
Proof.
  split; [vm_compute; reflexivity|]. split; [eexists; vm_compute; reflexivity|].
  exact (Reconcile_partial _ _ _ _ _ _ failingRun_runs pendingMint_active).
Defined.

(** The mint as the first run leaves it, reconciled once more. *)
Definition readyMint : CashuMint := pendingMint <| mint_Status ::= fun s => s <| st_Phase := MintPhaseReady |> |>.
Definition secondRun : history * (CashuMint * res Result) :=
  simulate (fun h => server pendingMint (firstHistory ++ h)) [] (reconcileMint readyMint).

Lemma secondRun_runs :
  runs (Reconcile "wallets" "mint" fullMint) (Ev (GetMint "wallets" "mint") (inl readyMint) :: secondRun.1) secondRun.2.
Proof.
  exact (Reconcile_fetched _ _ _ readyMint _ _
    (simulate_runs (fun h => server pendingMint (firstHistory ++ h)) [] (reconcileMint readyMint))).
Qed.

Definition ev_secret (e : event) : list (string * Secret) :=
  match e with
  | Ev c r => match c return response c -> list (string * Secret) with
              | GetSecret _ n => fun r => match r with inl s => [(n, s)] | inr _ => [] end
              | _ => fun _ => []
              end r
  end.
Definition ev_config (e : event) : list (string * ConfigMap) :=
  match e with
  | Ev c r => match c return response c -> list (string * ConfigMap) with
              | GetConfigMap _ n => fun r => match r with inl s => [(n, s)] | inr _ => [] end
              | _ => fun _ => []
              end r
  end.

Lemma in_secrets ns n s h : In (Ev (GetSecret ns n) (inl s)) h -> In (n, s) (h ≫= ev_secret).
Proof.
  rewrite <- !list_elem_of_In, list_elem_of_bind. intros Hin. exists (Ev (GetSecret ns n) (inl s)).
  split; [by apply list_elem_of_singleton|done].
Qed.
Lemma in_configs ns n s h : In (Ev (GetConfigMap ns n) (inl s)) h -> In (n, s) (h ≫= ev_config).
Proof.
  rewrite <- !list_elem_of_In, list_elem_of_bind. intros Hin. exists (Ev (GetConfigMap ns n) (inl s)).
  split; [by apply list_elem_of_singleton|done].
Qed.

(** The reads of the two runs agree, decided by evaluation. *)
#[local] Instance TypeMeta_eq_dec : EqDecision TypeMeta.
Proof. solve_decision. Defined.
#[local] Instance OwnerReference_eq_dec : EqDecision OwnerReference.
Proof. solve_decision. Defined.
#[local] Instance ObjectMeta_eq_dec : EqDecision ObjectMeta.
Proof. solve_decision. Defined.
#[local] Instance Secret_eq_dec : EqDecision Secret.
Proof. solve_decision. Defined.
#[local] Instance ConfigMap_eq_dec : EqDecision ConfigMap.
Proof. solve_decision. Defined.

Definition agreeb {X} `{EqDecision X} (l l' : list (string * X)) : bool :=
  forallb (fun a => forallb (fun b => negb (String.eqb a.1 b.1) || bool_decide (a.2 = b.2)) l') l.

Lemma agreeb_spec {X} `{EqDecision X} l l' n (x x' : X) :
  agreeb l l' = true -> In (n, x) l -> In (n, x') l' -> x = x'.
Proof.
  unfold agreeb. rewrite -> forallb_forall. intros Hl Hx Hx'. specialize (Hl _ Hx).
  rewrite -> forallb_forall in Hl. specialize (Hl _ Hx'). cbn in Hl. rewrite -> String.eqb_refl in Hl. cbn in Hl.
  by apply bool_decide_eq_true in Hl.
Qed.

Lemma reads_agree :
  agreeb (firstHistory ≫= ev_secret) (secondRun.1 ≫= ev_secret) = true /\
  agreeb (firstHistory ≫= ev_config) (secondRun.1 ≫= ev_config) = true.
Proof. split; vm_compute; reflexivity. Qed.

Lemma secondRun_result : completed secondRun.2.2.
Proof. exists MintPhaseReady. vm_compute. reflexivity. Qed.
Lemma firstRun_result : completed firstRun.2.2.
Proof. exists MintPhaseReady. vm_compute. reflexivity. Qed.
Lemma readyMint_active : active readyMint.
Proof. split; [vm_compute; reflexivity|]. split; [vm_compute; reflexivity|vm_compute; discriminate]. Qed.

Lemma Reconcile_level_based_witness : applied secondRun.1 = applied firstHistory.
Proof.
  refine (Reconcile_level_based _ _ _ _ _ _ _ _ _ _ _ _
    firstRun_runs pendingMint_active firstRun_result secondRun_runs readyMint_active secondRun_result _ _ _).
  - exact (conj eq_refl eq_refl).
  - intros n s s' H1 H2. apply in_secrets in H1, H2. exact (agreeb_spec _ _ n s s' (proj1 reads_agree) H1 H2).
  - intros n s s' H1 H2. apply in_configs in H1, H2. exact (agreeb_spec _ _ n s s' (proj2 reads_agree) H1 H2).
Defined.
End Witnesses.
