(* ===== verification/Progress.v ===== *)
(** * Every reconciliation ends

    The handlers have no loop: a run makes a bounded number of calls, whatever
    it is answered, and every server that answers its calls gets a run to the
    end. *)

From S2P Require Import Prelude Kube Types Platform Fmt Samples Defaulting Encoding Validation Common Toml.
From S2P Require Import ConfigToml Postgres Backup Mnemonic ManagementRPC Orchard Workload Storage Networking.
From S2P Require Import Client Controller Server.

Section Bounds.
Context `{X509, ControllerUtil, StatusConditions, Quantities, UnicodeTables}.

(** At most [n] calls on every path. *)
Fixpoint within {A} (n : nat) (p : Prog A) {struct p} : Prop :=
  match p with
  | Ret _ => True
  | Call c k => match n with O => False | S n => forall r, within n (k r) end
  end.

Definition bounded {A} (n : nat) (m : M A) : Prop := forall s, within n (m s).

Lemma within_le {A} n n' (p : Prog A) : within n p -> n <= n' -> within n' p.
Proof.
  induction p as [a|c k IH] in n, n' |- *; [done|]. destruct n as [|n]; [done|]. destruct n' as [|n']; [lia|].
  cbn. intros Hk Hn r. apply (IH r n n'); [apply Hk|lia].
Qed.

Lemma within_bind {A B} n1 n2 (p : Prog A) (f : A -> Prog B) :
  within n1 p -> (forall a, within n2 (f a)) -> within (n1 + n2) (prog_bind p f).
Proof.
  intros Hp Hf. induction p as [a|c k IH] in n1, Hp |- *; cbn.
  - apply (within_le n2); [apply Hf|lia].
  - destruct n1 as [|n1]; [done|]. cbn in *. intros r. by apply IH.
Qed.

Lemma within_length {A} n (p : Prog A) h a : within n p -> runs p h a -> length h <= n.
Proof.
  intros Hp Hr. induction Hr as [a|c k r h a Hr IH] in n, Hp |- *; [cbn; lia|].
  destruct n as [|n]; [done|]. cbn. specialize (IH n (Hp r)). lia.
Qed.

Lemma bounded_le {A} n n' (m : M A) : bounded n m -> n <= n' -> bounded n' m.
Proof. intros Hm Hn s. by apply (within_le n). Qed.
Lemma bounded_ret {A} (a : A) : bounded 0 (m_ret a).
Proof. done. Qed.
Lemma bounded_res {A} (r : res A) : bounded 0 (m_res r).
Proof. done. Qed.
Lemma bounded_lift {A} (r : A + goerror) : bounded 0 (m_lift r).
Proof. done. Qed.
Lemma bounded_get : bounded 0 m_get.
Proof. done. Qed.
Lemma bounded_modify f : bounded 0 (m_modify f).
Proof. done. Qed.
Lemma bounded_call c : bounded 1 (m_call c).
Proof. done. Qed.
Lemma bounded_bind {A B} n1 n2 (m : M A) (f : A -> M B) :
  bounded n1 m -> (forall a, bounded n2 (f a)) -> bounded (n1 + n2) (m_bind m f).
Proof. intros Hm Hf s. apply within_bind; [apply Hm|]. intros [s' [a|e|p]]; [apply Hf|done..]. Qed.
Lemma bounded_wrap {A} n prefix (m : M A) : bounded n m -> bounded n (m_wrap prefix m).
Proof. intros Hm s. rewrite <- (Nat.add_0_r n). by apply within_bind. Qed.
Lemma bounded_try {A} n (m : M A) : bounded n m -> bounded n (m_try m).
Proof. intros Hm s. rewrite <- (Nat.add_0_r n). by apply within_bind. Qed.

Lemma bounded_if {A} n1 n2 (b : bool) (m1 m2 : M A) :
  bounded n1 m1 -> bounded n2 m2 -> bounded (Nat.max n1 n2) (if b then m1 else m2).
Proof. intros H1' H2'. destruct b; eapply bounded_le; eauto with lia. Qed.
Lemma bounded_dec {A} n1 n2 P (b : {P} + {~ P}) (m1 m2 : M A) :
  bounded n1 m1 -> bounded n2 m2 -> bounded (Nat.max n1 n2) (if b then m1 else m2).
Proof. intros H1' H2'. destruct b; eapply bounded_le; eauto with lia. Qed.
Lemma bounded_option {A X} n1 n2 (o : option X) (f : X -> M A) (m : M A) :
  (forall x, bounded n1 (f x)) -> bounded n2 m -> bounded (Nat.max n1 n2) (match o with Some x => f x | None => m end).
Proof. intros H1' H2'. destruct o; eapply bounded_le; eauto with lia. Qed.
Lemma bounded_sum {A X Y} n1 n2 (o : X + Y) (f : X -> M A) (g : Y -> M A) :
  (forall x, bounded n1 (f x)) -> (forall y, bounded n2 (g y)) ->
  bounded (Nat.max n1 n2) (match o with inl x => f x | inr y => g y end).
Proof. intros H1' H2'. destruct o; eapply bounded_le; eauto with lia. Qed.
Lemma bounded_pair {A X Y} n (o : X * Y) (f : X -> Y -> M A) :
  (forall x y, bounded n (f x y)) -> bounded n (match o with (x, y) => f x y end).
Proof. intros Hf. by destruct o. Qed.

Lemma emit_bounded t r msg : bounded 1 (emit t r msg).
Proof. done. Qed.

(** Follows the shape of a handler; the bound is left to be computed. *)
Ltac bound_step :=
  lazymatch goal with
  | |- bounded _ (m_bind _ _) => eapply bounded_bind; [|intros ?]
  | |- bounded _ (m_ret _) => apply bounded_ret
  | |- bounded _ (m_res _) => apply bounded_res
  | |- bounded _ (m_lift _) => apply bounded_lift
  | |- bounded _ m_get => apply bounded_get
  | |- bounded _ (m_modify _) => apply bounded_modify
  | |- bounded _ (m_call _) => apply bounded_call
  | |- bounded _ (emit _ _ _) => apply emit_bounded
  | |- bounded _ (m_wrap _ _) => apply bounded_wrap
  | |- bounded _ (m_try _) => apply bounded_try
  | |- bounded _ (match ?x with _ => _ end) =>
      first [ eapply (bounded_if _ _ x) | eapply (bounded_dec _ _ _ x) | eapply (bounded_option _ _ x); [intros ?|]
            | eapply (bounded_sum _ _ x); intros ? | eapply (bounded_pair _ x); intros ? ? ]
  end.
Ltac bound_by unfolding :=
  eapply bounded_le; [unfolding; repeat (progress cbv beta || bound_step)|cbn; lia].

Lemma apply_bounded o : bounded 1 (applyResource o).
Proof. bound_by ltac:(unfold applyResource). Qed.
Lemma object_bounded {X} what (g : res (option X)) inj : bounded 1 (reconcileObject what g inj).
Proof. bound_by ltac:(unfold reconcileObject, applyResource). Qed.

Lemma deletion_bounded : bounded 5 handleDeletion.
Proof. bound_by ltac:(unfold handleDeletion, cleanupPostgresSecret). Qed.
Lemma transition_bounded : bounded 2 transitionReconciliationPhase.
Proof. bound_by ltac:(unfold transitionReconciliationPhase). Qed.
Lemma mnemonic_bounded : bounded 4 reconcileOptionalMnemonic.
Proof. bound_by ltac:(unfold reconcileOptionalMnemonic, createSecret). Qed.
Lemma postgres_bounded : bounded 6 reconcileOptionalPostgreSQL.
Proof.
  bound_by ltac:(unfold reconcileOptionalPostgreSQL, reconcilePostgreSQL, reconcilePostgresSecret, createSecret,
    reconcileObject, applyResource).
Qed.
Lemma backup_bounded : bounded 2 reconcileOptionalBackup.
Proof. bound_by ltac:(unfold reconcileOptionalBackup, reconcileBackup, applyResource). Qed.
Lemma configmap_bounded : bounded 3 reconcileConfigMap.
Proof.
  bound_by ltac:(unfold reconcileConfigMap, resolveDatabase, resolveAuthDatabase, resolveRequiredSecretValue, applyResource).
Qed.
Lemma rpc_bounded : bounded 3 reconcileManagementRPCTLSSecret.
Proof. bound_by ltac:(unfold reconcileManagementRPCTLSSecret, createSecret). Qed.
Lemma core_bounded : bounded 13 reconcileCoreResources.
Proof.
  unfold reconcileCoreResources. eapply bounded_le.
  - eapply bounded_bind; [apply bounded_get|intros ?].
    eapply bounded_bind; [apply bounded_wrap, rpc_bounded|intros ?].
    eapply bounded_bind; [apply bounded_wrap, configmap_bounded|intros ?].
    unfold reconcilePVC, reconcileDeployment, reconcileService, reconcilePodMonitor, reconcileObject, applyResource.
    repeat (progress cbv beta || bound_step).
  - cbn. lia.
Qed.
Lemma ingress_bounded : bounded 4 reconcileOptionalIngressResources.
Proof.
  bound_by ltac:(unfold reconcileOptionalIngressResources, reconcileIngress, reconcileCertificate, reconcileObject, applyResource).
Qed.
Lemma readiness_bounded : bounded 2 updateDeploymentReadiness.
Proof. bound_by ltac:(unfold updateDeploymentReadiness). Qed.
Lemma handleError_bounded e : bounded 2 (handleError e).
Proof. bound_by ltac:(unfold handleError). Qed.
Lemma updateStatus_bounded : bounded 6 updateStatus.
Proof. bound_by ltac:(unfold updateStatus). Qed.

Lemma resources_bounded : bounded 33 reconcileResources.
Proof.
  unfold reconcileResources.
  eapply (bounded_bind 2 31); [apply transition_bounded|intros ?].
  eapply (bounded_bind 4 27); [apply mnemonic_bounded|intros ?].
  eapply (bounded_bind 6 21); [apply postgres_bounded|intros ?].
  eapply (bounded_bind 2 19); [apply backup_bounded|intros ?].
  eapply (bounded_bind 13 6); [apply core_bounded|intros ?].
  eapply (bounded_bind 4 2); [apply ingress_bounded|intros ?].
  eapply (bounded_bind 2 0); [apply readiness_bounded|intros ?]. by bound_by idtac.
Qed.

Lemma active_bounded : bounded 39 reconcileActive.
Proof.
  eapply (bounded_bind 33 6); [apply bounded_try, resources_bounded|]. intros [result|e].
  - eapply (bounded_bind 6 0); [apply updateStatus_bounded|intros ?; apply bounded_ret].
  - eapply bounded_le; [apply handleError_bounded|lia].
Qed.

Lemma reconcileMint_bounded : bounded 39 reconcileMint.
Proof.
  eapply (bounded_bind 0 39); [apply bounded_get|]. intros m.
  destruct (non_nil _); [eapply bounded_le; [apply deletion_bounded|lia]|].
  destruct (negb _); [bound_by ltac:(unfold addFinalizer)|].
  destruct (decide _); [bound_by ltac:(unfold initializeStatus)|apply active_bounded].
Qed.

Lemma Reconcile_bounded ns name : bounded 40 (Reconcile ns name).
Proof.
  eapply (bounded_bind 1 39); [apply bounded_call|]. intros [m|e]; [|bound_by idtac].
  eapply (bounded_bind 0 39); [apply bounded_modify|intros ?; apply reconcileMint_bounded].
Qed.

(** The replies of a run are those of the server. *)
Definition served_by (server : history -> forall c, response c) (h0 h : history) : Prop :=
  forall h1 e h2, h = h1 ++ e :: h2 -> e = Ev (ev_call e) (server (h0 ++ h1) (ev_call e)).

Lemma simulate_served {A} server h0 (p : Prog A) : served_by server h0 (simulate server h0 p).1.
Proof.
  induction p as [a|c k IH] in h0 |- *; cbn; [by intros [|e1 h1] e h2|].
  specialize (IH (server h0 c) (h0 ++ [Ev c (server h0 c)])). destruct (simulate _ _ _) as [t a]. cbn in *.
  intros [|e1 h1] e h2 Hh; injection Hh as Hh1 Hh2; [by rewrite -> app_nil_r, <- Hh1|].
  specialize (IH h1 e h2 Hh2). by rewrite <- app_assoc, Hh1 in IH.
Qed.

(** C19: reconciliation terminates.  Against every server, that is every way of
    answering a call from the calls before it, the handler runs to a result;
    and no run, however it is answered, makes more than forty calls, so there
    is no busy loop inside one reconciliation. *)
Theorem Reconcile_terminates ns name s0 :
  (forall server, exists h r, runs (Reconcile ns name s0) h r /\ served_by server [] h) /\
  (forall h r, runs (Reconcile ns name s0) h r -> length h <= 40).
Proof.
  split.
  - intros server. exists (simulate server [] (Reconcile ns name s0)).1, (simulate server [] (Reconcile ns name s0)).2.
    split; [apply simulate_runs|apply simulate_served].
  - intros h r. apply within_length, Reconcile_bounded.
Qed.
End Bounds.

Section Witnesses.
#[local] Existing Instance std_ControllerUtil.
#[local] Existing Instance std_StatusConditions.
#[local] Existing Instance std_Quantities.
#[local] Existing Instance std_UnicodeTables.
#[local] Existing Instance std_X509.

Lemma Reconcile_terminates_witness : length firstHistory < 40.
Proof. exact (proj2 (Reconcile_terminates "wallets" "mint" fullMint) _ _ firstRun_runs). Defined.
End Witnesses.
