(* ===== verification/Convergence.v ===== *)
(** * Convergence: with a server that cooperates, a mint becomes ready

    [Safety] and [Phases] say what no run ever does; this file says that a run
    does its work.  The API server cooperates with a mint if it fails no call,
    serves the secrets the configuration refers to, and misses a secret the
    operator generates at most the first time it is asked for it.  Then no
    handler returns an error, and after at most two more passes the mint is
    Ready whenever its Deployment is. *)

From S2P Require Import Prelude Kube Types Platform Fmt Samples Defaulting Encoding Validation Common Toml.
From S2P Require Import ConfigToml Postgres Backup Mnemonic ManagementRPC Orchard Workload Storage Networking.
From S2P Require Import Client Controller Server Safety Phases Pipeline Segments Sequence.

(** ** What the operator needs of the mint *)

(** The storage sizes the generators parse. *)
Definition requested_sizes (m : CashuMint) : list string :=
  append_if (file_engine m.(mint_Spec).(spec_Database).(db_Engine)) [storageSize m.(mint_Spec).(spec_Storage)] ++
  match m.(mint_Spec).(spec_Orchard) with
  | Some o => append_if o.(or_Enabled) [storageSize o.(or_Storage)]
  | None => []
  end ++
  match autoProvisioned m with
  | Some pg => [default_str DefaultStorageSize (provisionSpec pg).(ap_StorageSize)]
  | None => []
  end.

(** The secrets the configuration reads: names and keys. *)
Definition config_refs (m : CashuMint) : list (string * string) :=
  option_list (database_ref m) ++ option_list (auth_ref m).

(** The sizes are quantities, and the references name a secret and a key. *)
Record workable `{Quantities} (m : CashuMint) : Prop := {
  work_sizes : Forall (fun s => exists q, MustParse s = Ok q) (requested_sizes m);
  work_refs : Forall (fun ref => ref.1 <> "" /\ ref.2 <> "") (config_refs m)
}.

(** The secrets the operator makes when they are missing. *)
Definition wantsMnemonic (m : CashuMint) : bool :=
  m.(mint_Spec).(spec_MintInfo).(mi_AutoGenerateMnemonic) && negb (non_nil m.(mint_Spec).(spec_MintInfo).(mi_MnemonicSecretRef)).
Definition wantsPostgres (m : CashuMint) : bool := ptr_test pg_AutoProvision m.(mint_Spec).(spec_Database).(db_Postgres).

Definition mnemonic_secrets (m : CashuMint) : list string :=
  append_if (wantsMnemonic m) [MnemonicSecretName (mint_Name m)].
Definition postgres_secrets (m : CashuMint) : list string := append_if (wantsPostgres m) [mint_Name m +:+ "-postgres-secret"].
Definition rpc_secrets (m : CashuMint) : list string :=
  append_if (ManagementRPCTLSEnabled m.(mint_Spec)) [ManagementRPCTLSSecretName m.(mint_Spec) (mint_Name m)].

Definition generated_secrets (m : CashuMint) : list string := mnemonic_secrets m ++ postgres_secrets m ++ rpc_secrets m.

Lemma same_needs m s :
  same m s ->
  requested_sizes s = requested_sizes m /\ config_refs s = config_refs m /\ generated_secrets s = generated_secrets m.
Proof. intros Hs. by rewrite -> (same_status _ _ Hs). Qed.

Lemma same_workable `{Quantities} m s : same m s -> workable m -> workable s.
Proof. intros (Hz & Hr & _)%same_needs [H1 H2]. split; [by rewrite -> Hz|by rewrite -> Hr]. Qed.

(** ** Every generator succeeds *)

Section Generators.
Context `{X509, ControllerUtilLaws, QuantitiesLaws, UnicodeTables}.

(** A generator that returns an object, or nil, without error. *)
Definition generates {X} (g : res X) : Prop := exists x, g = Ok x.

Lemma generates_reference mint name labels annotations :
  generates (set_reference mint (newMeta name (mint_Namespace mint) labels annotations)).
Proof. unfold set_reference. destruct (set_reference_fresh mint name labels annotations) as [m ->]. by eexists. Qed.

Lemma generates_bind {X Y} (g : res X) (f : X -> res Y) :
  generates g -> (forall x, generates (f x)) -> generates (res_bind g f).
Proof. intros [x ->] Hf. apply Hf. Qed.

Lemma generates_ok {X} (x : X) : generates (Ok x).
Proof. by exists x. Qed.

Lemma generates_some {X} (g : res X) : generates g -> generates (some_object g).
Proof. intros Hg. apply generates_bind; [exact Hg|intros x; apply generates_ok]. Qed.

Ltac generate :=
  repeat (progress cbv beta zeta ||
    match goal with
    | |- generates (Ok _) => apply generates_ok
    | |- generates (set_reference _ _) => apply generates_reference
    | |- generates (res_bind _ _) => apply generates_bind; [|intros ?]
    | |- generates (if ?b then _ else _) => destruct b eqn:?
    | |- generates (match ?x with _ => _ end) => destruct x eqn:?
    end).

Lemma PostgresService_ok m : generates (GeneratePostgresService m).
Proof. unfold GeneratePostgresService. generate. Qed.
Lemma BackupCronJob_ok m : generates (GeneratePostgresBackupCronJob m).
Proof. unfold GeneratePostgresBackupCronJob. generate. Qed.
Lemma RestoreJob_ok m : generates (GeneratePostgresRestoreJob m).
Proof. unfold GeneratePostgresRestoreJob. generate. Qed.
Lemma Deployment_ok m hash : generates (GenerateDeployment m hash).
Proof. apply GenerateDeployment_ok. Qed.
Lemma Service_ok m : generates (GenerateService m).
Proof. unfold GenerateService. generate. Qed.
Lemma OrchardService_ok m : generates (GenerateOrchardService m).
Proof. unfold GenerateOrchardService. generate. Qed.
Lemma PodMonitor_ok m : generates (GeneratePodMonitor m).
Proof. unfold GeneratePodMonitor. generate. Qed.
Lemma Ingress_ok m : generates (GenerateIngress m).
Proof. unfold GenerateIngress, ingressFor. generate. Qed.
Lemma OrchardIngress_ok m : generates (GenerateOrchardIngress m).
Proof. unfold GenerateOrchardIngress, ingressFor. generate. Qed.
Lemma Certificate_ok m : generates (GenerateCertificate m).
Proof. unfold GenerateCertificate, certificateFor. generate. Qed.
Lemma OrchardCertificate_ok m : generates (GenerateOrchardCertificate m).
Proof. unfold GenerateOrchardCertificate, certificateFor. generate. Qed.

Lemma ConfigMap_ok m password : generates (GenerateConfigMap m password).
Proof.
  unfold GenerateConfigMap. apply generates_bind; [|intros x; apply generates_ok].
  destruct (generates_reference m (mint_Name m +:+ "-config") (componentLabels m "config") None) as [x Hx]. by exists x.
Qed.

Lemma claim_generates m name labels s :
  (exists q, MustParse (storageSize s) = Ok q) -> generates (claim m name labels s).
Proof. intros [q Hq]. unfold claim. rewrite -> Hq. cbn. generate. Qed.

Lemma PVC_ok m : workable m -> generates (GeneratePVC m).
Proof.
  intros [Hz _]. rewrite -> GeneratePVC_engine. destruct (file_engine _) eqn:He; [|apply generates_ok].
  apply claim_generates. unfold requested_sizes in Hz. rewrite -> He in Hz. by apply Forall_inv in Hz.
Qed.

Lemma OrchardPVC_ok m : workable m -> generates (GenerateOrchardPVC m).
Proof.
  intros [Hz _]. unfold GenerateOrchardPVC. unfold requested_sizes in Hz.
  destruct (spec_Orchard _) as [o|]; [|apply generates_ok]. destruct (or_Enabled o); [|apply generates_ok].
  apply Forall_app in Hz as [_ Hz]. apply claim_generates. by apply Forall_inv in Hz.
Qed.

Lemma PostgresStatefulSet_ok m : workable m -> generates (GeneratePostgresStatefulSet m).
Proof.
  intros [Hz _]. unfold GeneratePostgresStatefulSet. unfold requested_sizes in Hz.
  destruct (autoProvisioned m) as [pg|]; [|apply generates_ok].
  apply Forall_app in Hz as [_ Hz]. apply Forall_app in Hz as [_ Hz]. apply Forall_inv in Hz as [q Hq].
  apply generates_bind.
  - unfold getPostgresResources. destruct (ap_Resources _); [apply generates_ok|].
    do 2 (apply generates_bind; [apply resourceList_ok; repeat constructor; cbn; tauto|intros ?]). apply generates_ok.
  - intros rr. rewrite -> Hq. cbn. generate.
Qed.

(** The generators of secrets, given their random draws. *)
Lemma MnemonicSecret_ok m bytes : generates (GenerateMnemonicSecret m "" (Ok bytes)).
Proof.
  unfold GenerateMnemonicSecret. apply generates_bind; [by eexists|intros phrase].
  apply generates_bind; [|intros x; apply generates_ok].
  destruct (set_reference_fresh m (MnemonicSecretName (mint_Name m)) (componentLabels m "mnemonic") None) as [x ->].
  by exists x.
Qed.

Lemma PostgresSecret_ok m bytes : generates (GeneratePostgresSecret m "" (Ok bytes)).
Proof. unfold GeneratePostgresSecret. destruct (autoProvisioned m); by eexists. Qed.

Lemma TLSSecret_ok m d : generates (generateManagementRPCTLSBundle d) -> generates (GenerateManagementRPCTLSSecret m d).
Proof.
  intros Hd. unfold GenerateManagementRPCTLSSecret. destruct (negb _); [apply generates_ok|].
  apply generates_bind; [exact Hd|intros bundle]. generate.
Qed.
End Generators.

Create HintDb converge_db discriminated.
#[export] Hint Resolve PostgresService_ok BackupCronJob_ok RestoreJob_ok Deployment_ok Service_ok OrchardService_ok
  PodMonitor_ok Ingress_ok OrchardIngress_ok Certificate_ok OrchardCertificate_ok ConfigMap_ok PVC_ok OrchardPVC_ok
  PostgresStatefulSet_ok MnemonicSecret_ok PostgresSecret_ok TLSSecret_ok generates_some : converge_db.

(** ** A server that cooperates *)

(** The secret was asked for before. *)
Definition asked `{X509} (n : string) (h : history) : Prop := exists ns reply, In (Ev (GetSecret ns n) reply) h.

(** A secret that holds what the configuration refers to. *)
Definition usable (m0 : CashuMint) (n : string) (s : Secret) : Prop :=
  forall key, In (n, key) (config_refs m0) -> exists v, s.(sec_Data) !! key = Some v /\ v <> "".

(** The reply lets the run go on: no call fails, a fetched mint has the same
    metadata and spec, a secret is usable, or it is one the operator makes and
    is asked for the first time. *)
Definition helpful `{X509} (m0 : CashuMint) (h : history) (e : event) : Prop :=
  match e with
  | Ev c r =>
      match c return response c -> Prop with
      | GetMint _ _ => fun r => exists m, r = inl m /\ same m0 m
      | GetSecret _ n => fun r =>
          match r with
          | inl s => usable m0 n s
          | inr err => has_reason ReasonNotFound err = true /\ In n (generated_secrets m0) /\ ~ asked n h
          end
      | GetDeployment _ _ => fun r => exists d, r = inl d
      | GetConfigMap _ _ => fun r => exists c, r = inl c
      | GetService _ _ | GetIngress _ _ | EmitEvent _ _ _ => fun _ => True
      | CreateSecret _ | DeleteSecret _ | DeletePodMonitor _ _ | UpdateMint _ | UpdateMintStatus _ => fun r => r = inl tt
      | Apply o => fun r => exists x, r = inl x
      | RandRead n => fun r => exists bytes, r = inl bytes
      | DrawTLS => fun r => generates (generateManagementRPCTLSBundle r)
      end r
  end.

Definition cooperative `{X509} (m0 : CashuMint) (h0 h : history) : Prop :=
  forall h1 e h2, h = h1 ++ e :: h2 -> helpful m0 (h0 ++ h1) e.

(** Under helpful replies the program ends in [Q]. *)
Fixpoint finishes `{X509} {A} (m0 : CashuMint) (h : history) (p : Prog A) (Q : history -> A -> Prop) : Prop :=
  match p with
  | Ret a => Q h a
  | Call c k => forall r, helpful m0 h (Ev c r) -> finishes m0 (h ++ [Ev c r]) (k r) Q
  end.

Section Finishing.
Context `{X509}.
Variable m0 : CashuMint.

Lemma cooperative_cons h0 e h : cooperative m0 h0 (e :: h) -> helpful m0 h0 e /\ cooperative m0 (h0 ++ [e]) h.
Proof.
  intros Hc. split; [rewrite <- (app_nil_r h0); by apply (Hc [] e h)|].
  intros h1 e' h2 ->. rewrite <- app_assoc. by apply (Hc (e :: h1) e' h2).
Qed.

Lemma finishes_sound {A} (p : Prog A) Q h0 h a :
  finishes m0 h0 p Q -> runs p h a -> cooperative m0 h0 h -> Q (h0 ++ h) a.
Proof.
  intros Hf Hr. induction Hr as [a|c k r h a Hr IH] in h0, Hf |- *; intros Hc; [by rewrite -> app_nil_r|].
  apply cooperative_cons in Hc as [Hh Hc]. specialize (IH _ (Hf r Hh) Hc). by rewrite <- app_assoc in IH.
Qed.

Lemma finishes_mono {A} h (p : Prog A) (Q Q' : history -> A -> Prop) :
  (forall h' a, h `prefix_of` h' -> Q h' a -> Q' h' a) -> finishes m0 h p Q -> finishes m0 h p Q'.
Proof.
  induction p as [a|c k IH] in h |- *; intros HQ; cbn; [by apply HQ|]. intros Hk r Hr.
  apply IH; [|by apply Hk]. intros h' a Hp. apply HQ. etransitivity; [by apply prefix_app_r|exact Hp].
Qed.

Lemma finishes_bind {A B} h (p : Prog A) (f : A -> Prog B) Q :
  finishes m0 h p (fun h' a => finishes m0 h' (f a) Q) -> finishes m0 h (prog_bind p f) Q.
Proof. induction p as [a|c k IH] in h |- *; cbn; [done|]. intros Hk r Hr. by apply IH, Hk. Qed.

Lemma finishes_runs {A} h (p : Prog A) Q :
  finishes m0 h p Q -> finishes m0 h p (fun h' a => Q h' a /\ exists h1, runs p h1 a).
Proof.
  induction p as [a|c k IH] in h |- *; cbn; [intros HQ; split; [done|by exists []; constructor]|].
  intros Hk r Hr. eapply finishes_mono; [|by apply IH, Hk]. intros h' a _ (HQ & h1 & Hruns).
  split; [done|]. exists (Ev c r :: h1). by constructor.
Qed.

Definition all_asked (l : list string) (h : history) : Prop := forall n, In n l -> asked n h.

Lemma asked_prefix n h h' : h `prefix_of` h' -> asked n h -> asked n h'.
Proof. intros [t ->] (ns & r & Hin). exists ns, r. apply in_or_app. by left. Qed.

(** [succeeds l m l']: after the secrets of [l] were asked for, the handler
    returns a value, keeps the metadata and spec, and has asked for [l'] too. *)
Definition succeeds {A} (l : list string) (m : M A) (l' : list string) : Prop :=
  forall h s, same m0 s -> all_asked l h ->
    finishes m0 h (m s) (fun h' x => same m0 x.1 /\ all_asked l' h' /\ exists a, x.2 = Ok a).

Lemma succeeds_ret {A} l (a : A) : succeeds l (m_ret a) [].
Proof. intros h s Hs Hl. split; [exact Hs|]. split; [by intros n []|by exists a]. Qed.

Lemma succeeds_bind {A B} l l1 l2 (m : M A) (f : A -> M B) :
  succeeds l m l1 -> (forall a, succeeds (l ++ l1) (f a) l2) -> succeeds l (m_bind m f) (l1 ++ l2).
Proof.
  intros Hm Hf h s Hs Hl. apply finishes_bind. eapply finishes_mono; [|by apply Hm].
  intros h1 [s1 r] Hp (Hs1 & Hl1 & a & Ha). cbn in Ha. subst r.
  assert (Hboth : all_asked (l ++ l1) h1).
  { intros n [Hin|Hin]%in_app_or; [|by apply Hl1]. by eapply asked_prefix; [exact Hp|apply Hl]. }
  eapply finishes_mono; [|by apply (Hf a)]. intros h2 x Hp2 (Hs2 & Hl2 & Hx). split; [done|]. split; [|done].
  intros n [Hin|Hin]%in_app_or; [|by apply Hl2]. by eapply asked_prefix; [exact Hp2|apply Hl1].
Qed.

Lemma succeeds_weaken {A} l l' (m : M A) : (forall n, In n l -> In n l') -> succeeds l m [] -> succeeds l' m [].
Proof. intros Hl Hm h s Hs Hl'. apply Hm; [exact Hs|]. intros n Hn. by apply Hl', Hl. Qed.

(** Handlers one after the other of which only one asks for secrets. *)
Lemma succeeds_then {A B} l (m : M A) (f : A -> M B) l' :
  succeeds l m [] -> (forall a, succeeds l (f a) l') -> succeeds l (m_bind m f) l'.
Proof. intros Hm Hf. apply (succeeds_bind l [] l'); [exact Hm|]. by rewrite -> app_nil_r. Qed.

(** What any run of the first handler finds out, the second may use. *)
Lemma succeeds_found {A B} l (m : M A) (f : A -> M B) any Q l' :
  succeeds l m [] -> segment m0 m any Q -> (forall a, (exists h, Q h a) -> succeeds l (f a) l') -> succeeds l (m_bind m f) l'.
Proof.
  intros Hm Hseg Hf h s Hs Hl. apply finishes_bind. eapply finishes_mono; [|by apply finishes_runs, Hm].
  intros h1 [s1 r] Hp [(Hs1 & _ & a & Ha) (h2 & Hruns)]. cbn in Ha. subst r.
  destruct (Hseg s h2 _ Hs Hruns) as (_ & _ & HQ). apply (Hf a); [exists h2; by apply HQ|exact Hs1|].
  intros n Hn. eapply asked_prefix; [exact Hp|by apply Hl].
Qed.

Lemma succeeds_get {B} l (f : CashuMint -> M B) l' :
  (forall s, same m0 s -> succeeds l (f s) l') -> succeeds l (m_bind m_get f) l'.
Proof. intros Hf h s Hs Hl. exact (Hf s Hs h s Hs Hl). Qed.

Lemma succeeds_modify l f : (forall s, same m0 s -> same m0 (f s)) -> succeeds l (m_modify f) [].
Proof. intros Hf h s Hs Hl. split; [by apply Hf|]. split; [by intros n []|by exists tt]. Qed.

Lemma succeeds_wrap {A} l prefix (m : M A) l' : succeeds l m l' -> succeeds l (m_wrap prefix m) l'.
Proof.
  intros Hm h s Hs Hl. apply finishes_bind. eapply finishes_mono; [|by apply Hm].
  intros h1 [s1 r] _ (Hs1 & Hl1 & a & Ha). cbn in *. subst r. split; [done|]. split; [done|by exists a].
Qed.

Lemma succeeds_try {A B} l (m : M A) (f : A + goerror -> M B) l' :
  succeeds l m l' -> (forall a, succeeds (l ++ l') (f (inl a)) []) -> succeeds l (m_bind (m_try m) f) l'.
Proof.
  intros Hm Hf h s Hs Hl. apply finishes_bind, finishes_bind. eapply finishes_mono; [|by apply Hm].
  intros h1 [s1 r] Hp (Hs1 & Hl1 & a & Ha). cbn in *. subst r. cbn.
  assert (Hboth : all_asked (l ++ l') h1).
  { intros n [Hin|Hin]%in_app_or; [|by apply Hl1]. by eapply asked_prefix; [exact Hp|apply Hl]. }
  eapply finishes_mono; [|by apply (Hf a)]. intros h2 x Hp2 (Hs2 & _ & Hx). split; [done|]. split; [|done].
  intros n Hin. by eapply asked_prefix; [exact Hp2|apply Hl1].
Qed.

(** A call, with the reply it may get. *)
Lemma succeeds_call {B} l c (f : response c -> M B) l' :
  (forall r, (exists h, helpful m0 h (Ev c r) /\ all_asked l h) -> succeeds l (f r) l') -> succeeds l (m_bind (m_call c) f) l'.
Proof.
  intros Hf h s Hs Hl r Hr. apply (Hf r); [by exists h|exact Hs|].
  intros n Hin. by eapply asked_prefix; [by apply prefix_app_r|apply Hl].
Qed.

(** A secret is asked for. *)
Lemma succeeds_secret {B} l ns n (f : response (GetSecret ns n) -> M B) l' :
  (forall r, (exists h, helpful m0 h (Ev (GetSecret ns n) r)) -> succeeds l (f r) l') ->
  succeeds l (m_bind (m_call (GetSecret ns n)) f) (n :: l').
Proof.
  intros Hf h s Hs Hl r Hr. cbn. eapply finishes_mono; [|apply (Hf r); [by exists h|exact Hs|]].
  - intros h2 x Hp (Hs2 & Hl2 & Hx). split; [done|]. split; [|done].
    intros n' [<-|Hin]; [|by apply Hl2]. eapply asked_prefix; [exact Hp|]. exists ns, r. apply in_or_app. right. by left.
  - intros n' Hin. by eapply asked_prefix; [by apply prefix_app_r|apply Hl].
Qed.

Lemma succeeds_generated {X B} l prefix (g : res X) (f : X -> M B) l' :
  generates g -> (forall x, g = Ok x -> succeeds l (f x) l') -> succeeds l (m_bind (m_wrap prefix (m_res g)) f) l'.
Proof. intros [x ->] Hf h s Hs Hl. by apply Hf. Qed.
End Finishing.

(** ** The handlers *)

Section Handlers.
Context `{X509, ControllerUtilLaws, StatusConditions, QuantitiesLaws, UnicodeTables}.
Variable m0 : CashuMint.
Hypothesis Hwork : workable m0.

Abbreviation succeeds := (succeeds m0).

Lemma succeeds_emit l t r msg : succeeds l (emit t r msg) [].
Proof. intros h s Hs Hl ev _. split; [exact Hs|]. split; [by intros n []|by eexists]. Qed.

Lemma succeeds_apply l o : succeeds l (applyResource o) [].
Proof. apply succeeds_call. intros r (h & [x ->] & _). apply succeeds_ret. Qed.

Lemma succeeds_create l prefix s : succeeds l (createSecret prefix s) [].
Proof. apply succeeds_call. intros r (h & -> & _). apply succeeds_ret. Qed.

Lemma succeeds_object {X} l what (g : res (option X)) inj : generates g -> succeeds l (reconcileObject what g inj) [].
Proof.
  intros Hg. apply succeeds_generated; [exact Hg|]. intros [x|] _; [|apply succeeds_ret].
  apply succeeds_then; [apply succeeds_wrap, succeeds_apply|intros _; apply succeeds_ret].
Qed.

(** One step through a handler that asks for no secret. *)
Ltac succeed_step :=
  match goal with
  | |- succeeds _ (m_bind m_get _) _ => apply succeeds_get; intros ? ?
  | |- succeeds _ (m_bind (m_wrap _ (m_res _)) _) _ =>
      apply succeeds_generated; [solve [eauto using same_workable with converge_db]|intros ? ?]
  | |- succeeds _ (m_bind _ _) [] => apply succeeds_then; [|intros ?]
  | |- succeeds _ (m_ret _) [] => apply succeeds_ret
  | |- succeeds _ (m_wrap _ _) _ => apply succeeds_wrap
  | |- succeeds _ (emit _ _ _) [] => apply succeeds_emit
  | |- succeeds _ (applyResource _) [] => apply succeeds_apply
  | |- succeeds _ (createSecret _ _) [] => apply succeeds_create
  | |- succeeds _ (reconcileObject _ _ _) [] => apply succeeds_object; solve [eauto using same_workable with converge_db]
  | |- succeeds _ (m_modify _) [] => apply succeeds_modify; intros ? ?; solve [auto with op_db]
  | |- succeeds _ (if ?b then _ else _) _ => destruct b eqn:?
  | |- succeeds _ (match ?x with _ => _ end) _ => destruct x eqn:?
  end.
Ltac succeed_steps := repeat (progress cbv beta || succeed_step).

Lemma succeeds_transition l : succeeds l transitionReconciliationPhase [].
Proof. unfold transitionReconciliationPhase. succeed_steps. Qed.

Lemma succeeds_mnemonic l : succeeds l reconcileOptionalMnemonic (mnemonic_secrets m0).
Proof.
  apply succeeds_get. intros s Hs. unfold mnemonic_secrets, wantsMnemonic. rewrite -> (same_status _ _ Hs).
  change (mint_Spec (m0 <| mint_Status := mint_Status s |>)) with (mint_Spec m0). cbv zeta.
  destruct (mi_AutoGenerateMnemonic _), (mi_MnemonicSecretRef _); cbn -[m_bind m_call]; try apply succeeds_ret.
  apply succeeds_secret. intros [secret|e] (h & Hh); [apply succeeds_ret|]. destruct Hh as (-> & _). cbn [negb].
  apply succeeds_call. intros r (_ & [bytes ->] & _). succeed_steps.
Qed.

Lemma succeeds_postgres_secret l :
  succeeds l reconcilePostgresSecret [mint_Name m0 +:+ "-postgres-secret"].
Proof.
  apply succeeds_get. intros s Hs. rewrite -> (same_status _ _ Hs).
  apply succeeds_secret. intros [secret|e] (h & Hh); [apply succeeds_ret|]. destruct Hh as (-> & _). cbn [negb].
  apply succeeds_call. intros r (_ & [bytes ->] & _). succeed_steps.
Qed.

Lemma succeeds_postgres l : succeeds l reconcileOptionalPostgreSQL (postgres_secrets m0).
Proof.
  apply succeeds_get. intros s Hs. rewrite -> (same_status _ _ Hs).
  change (mint_Spec (m0 <| mint_Status := mint_Status s |>)) with (mint_Spec m0).
  unfold postgres_secrets, wantsPostgres. destruct (ptr_test _ _); cbn [negb append_if]; [|apply succeeds_ret].
  apply succeeds_try; [|intros u; apply succeeds_ret].
  apply (succeeds_bind m0 l [_] []); [apply succeeds_postgres_secret|intros _]. succeed_steps.
Qed.

Lemma succeeds_backup l : succeeds l reconcileOptionalBackup [].
Proof. unfold reconcileOptionalBackup, reconcileBackup. succeed_steps. Qed.

Lemma succeeds_rpc l : succeeds l reconcileManagementRPCTLSSecret (rpc_secrets m0).
Proof.
  apply succeeds_get. intros s Hs. rewrite -> (same_status _ _ Hs).
  change (mint_Spec (m0 <| mint_Status := mint_Status s |>)) with (mint_Spec m0).
  change (mint_Name (m0 <| mint_Status := mint_Status s |>)) with (mint_Name m0).
  unfold rpc_secrets. destruct (ManagementRPCTLSEnabled _); cbn [negb append_if]; [|apply succeeds_ret].
  apply succeeds_secret. intros [secret|e] (h & Hh); [apply succeeds_ret|]. destruct Hh as (-> & _). cbn [negb].
  apply succeeds_call. intros d (h' & Hd & _). succeed_steps.
Qed.

(** ** The configuration *)

(** A secret that was asked for before is served. *)
Lemma config_secret {B} l ns n key (f : response (GetSecret ns n) -> M B) :
  In (n, key) (config_refs m0) -> incl (generated_secrets m0) l ->
  (forall s v, s.(sec_Data) !! key = Some v -> v <> "" -> succeeds l (f (inl s)) []) ->
  succeeds l (m_bind (m_call (GetSecret ns n)) f) [].
Proof.
  intros Href Hl Hf. apply succeeds_call. intros [secret|e] (h & Hh & Hasked).
  - destruct (Hh key Href) as (v & Hv & Hne). by apply (Hf secret v).
  - destruct Hh as (_ & Hin & Hno). destruct Hno. by apply Hasked, Hl.
Qed.

Lemma str_empty_not v : v <> "" -> str_empty v = false.
Proof. by destruct v. Qed.

Lemma succeeds_resolve l ns ref path :
  In (ref.(sks_Name), ref.(sks_Key)) (config_refs m0) -> incl (generated_secrets m0) l ->
  succeeds l (resolveRequiredSecretValue ns (Some ref) path) [].
Proof.
  intros Href Hl. destruct Hwork as [_ Hrefs]. rewrite -> List.Forall_forall in Hrefs.
  destruct (Hrefs _ Href) as [Hn Hk]. cbn in Hn, Hk. unfold resolveRequiredSecretValue.
  rewrite -> (str_empty_not _ Hn), (str_empty_not _ Hk). cbn [orb].
  eapply config_secret; [exact Href|exact Hl|]. intros s v -> Hv. rewrite -> (str_empty_not _ Hv). apply succeeds_ret.
Qed.

Lemma succeeds_database l s :
  same m0 s -> incl (generated_secrets m0) l -> succeeds l (resolveDatabase s) [].
Proof.
  intros Hs Hl. destruct (same_refs m0 s Hs) as (Hdb & _ & _).
  assert (Hin : forall ref, database_ref s = Some ref -> In ref (config_refs m0)).
  { intros ref Hr. apply in_or_app. left. rewrite <- Hdb, Hr. by left. }
  revert Hin. unfold resolveDatabase, database_ref. destruct (String.eqb _ _); [|intros _; apply succeeds_ret].
  destruct (db_Postgres _) as [pg|]; cbn [mbind option_bind]; [|intros _; apply succeeds_ret].
  destruct (pg_AutoProvision pg).
  - intros Hin. eapply config_secret; [by apply Hin|exact Hl|]. intros secret v -> Hv. cbv zeta.
    rewrite -> (str_empty_not _ Hv). apply succeeds_ret.
  - destruct (pg_URLSecretRef pg) as [ref|]; cbn [non_nil mbind option_bind]; [|intros _; apply succeeds_ret].
    intros Hin. apply succeeds_then; [by apply succeeds_resolve; [apply Hin|]|intros url; apply succeeds_ret].
Qed.

Lemma succeeds_auth l s :
  auth_ref s = auth_ref m0 -> incl (generated_secrets m0) l -> succeeds l (resolveAuthDatabase s) [].
Proof.
  intros Ha Hl. assert (Hin : forall ref, auth_ref s = Some ref -> In ref (config_refs m0)).
  { intros ref Hr. apply in_or_app. right. rewrite <- Ha, Hr. by left. }
  revert Hin. unfold resolveAuthDatabase, auth_ref.
  destruct (authSecretRef s) as [[auth pg]|] eqn:Hr; [|intros _; apply succeeds_ret].
  destruct (authSecretRef_some _ _ _ Hr) as [ref Hu]. cbn. rewrite -> Hu. intros Hin.
  apply succeeds_then; [by apply succeeds_resolve; [apply Hin|]|intros url; apply succeeds_ret].
Qed.

Lemma succeeds_configmap l : incl (generated_secrets m0) l -> succeeds l reconcileConfigMap [].
Proof.
  intros Hl. apply succeeds_get. intros s Hs. destruct (same_refs m0 s Hs) as (_ & Hauth & _).
  eapply succeeds_found; [by apply succeeds_database|apply (finds_database m0 s)|].
  intros [cfg password] (h & _ & v & Hcfg & _). destruct (auth_ref_database s v) as [Har _]. rewrite <- Hcfg in Har.
  apply succeeds_then; [apply succeeds_auth; [by transitivity (auth_ref s)|exact Hl]|]. intros cfg'. succeed_steps.
Qed.

Lemma succeeds_deployment l : succeeds l reconcileDeployment [].
Proof.
  apply succeeds_get. intros s Hs. apply succeeds_call. intros r (h & [c ->] & _).
  apply succeeds_then; [apply succeeds_wrap, succeeds_ret|]. intros c'. succeed_steps.
Qed.

Lemma succeeds_podmonitor l : succeeds l reconcilePodMonitor [].
Proof.
  apply succeeds_get. intros s Hs. destruct (prometheusEnabled s); cbn [negb].
  - apply succeeds_generated; [by auto with converge_db|]. intros [x|] _; [|apply succeeds_ret].
    apply succeeds_try; [apply succeeds_apply|intros u; apply succeeds_ret].
  - apply succeeds_call. intros r (h & -> & _). apply succeeds_ret.
Qed.

Lemma succeeds_exposure l : succeeds l reconcileOptionalIngressResources [].
Proof. unfold reconcileOptionalIngressResources, reconcileIngress, reconcileCertificate. succeed_steps. Qed.

Lemma succeeds_core l :
  incl (mnemonic_secrets m0 ++ postgres_secrets m0) l -> succeeds l reconcileCoreResources (rpc_secrets m0).
Proof.
  intros Hl. apply succeeds_get. intros s Hs. rewrite <- (app_nil_r (rpc_secrets m0)).
  eapply succeeds_bind; [apply succeeds_wrap, succeeds_rpc|intros u].
  apply succeeds_then; [apply succeeds_wrap, succeeds_configmap|intros u1].
  { unfold generated_secrets. rewrite -> app_assoc. apply incl_app_app; [exact Hl|apply incl_refl]. }
  apply succeeds_then; [unfold reconcilePVC; succeed_steps|intros u2].
  apply succeeds_then; [apply succeeds_wrap, succeeds_deployment|intros u3].
  apply succeeds_then; [unfold reconcileService; succeed_steps|intros u4]. apply succeeds_wrap, succeeds_podmonitor.
Qed.

Lemma succeeds_readiness l : succeeds l updateDeploymentReadiness [].
Proof. apply succeeds_get. intros s Hs. apply succeeds_call. intros r (h & [d ->] & _). succeed_steps. Qed.

Lemma succeeds_resources l : succeeds l reconcileResources (generated_secrets m0).
Proof.
  apply succeeds_then; [apply succeeds_transition|intros u1].
  eapply succeeds_bind; [apply succeeds_mnemonic|intros u2]. eapply succeeds_bind; [apply succeeds_postgres|intros u3].
  apply succeeds_then; [apply succeeds_backup|intros u4]. rewrite <- (app_nil_r (rpc_secrets m0)).
  eapply succeeds_bind; [apply succeeds_core|intros u5].
  { rewrite <- app_assoc. apply incl_appr, incl_refl. }
  apply succeeds_then; [apply succeeds_exposure|intros u6]. apply succeeds_then; [apply succeeds_readiness|intros u7].
  succeed_steps.
Qed.

Lemma succeeds_status l : succeeds l updateStatus [].
Proof.
  apply succeeds_get. intros desired Hd. apply succeeds_call. intros r (h & (m & -> & Hm) & _).
  apply succeeds_then; [apply succeeds_wrap, succeeds_ret|intros cur]. cbv zeta.
  apply succeeds_call. intros rd _. apply succeeds_call. intros rs _.
  apply succeeds_then.
  { destruct (enabledIngress _); [|apply succeeds_ret]. apply succeeds_call. intros ri _. apply succeeds_ret. }
  intros cur'. apply succeeds_call. intros rc _. apply succeeds_call. intros ru (h' & -> & _). apply succeeds_ret.
Qed.
End Handlers.

(** ** Passes: a run and what the server stores of it *)

(** An accepted update replaces all but the status, a status update the status. *)
Definition store `{X509} (cur : CashuMint) (e : event) : CashuMint :=
  match e with
  | Ev c r =>
      match c return response c -> CashuMint with
      | UpdateMint m => fun r => match r with inl _ => m <| mint_Status := cur.(mint_Status) |> | inr _ => cur end
      | UpdateMintStatus m => fun r => match r with inl _ => cur <| mint_Status := m.(mint_Status) |> | inr _ => cur end
      | _ => fun _ => cur
      end r
  end.

Definition stored_after `{X509} (m : CashuMint) (h : history) : CashuMint := fold_left store h m.

(** Every Deployment that was looked at is up. *)
Definition deployment_up `{X509} (h : history) : Prop :=
  forall ns n d, In (Ev (GetDeployment ns n) (inl d)) h -> isDeploymentReady d = true.

Section Passes.
Context `{X509, ControllerUtil, StatusConditions, Quantities, UnicodeTables}.

(** One reconciliation of the stored mint under helpful replies. *)
Inductive pass (m m' : CashuMint) : Prop :=
  | pass_run ns name s0 h r :
      runs (Reconcile ns name s0) (Ev (GetMint ns name) (inl m) :: h) r -> cooperative m [] h ->
      m' = stored_after m h -> pass m m'.

Inductive ready_pass (m m' : CashuMint) : Prop :=
  | ready_pass_run ns name s0 h r :
      runs (Reconcile ns name s0) (Ev (GetMint ns name) (inl m) :: h) r -> cooperative m [] h -> deployment_up h ->
      m' = stored_after m h -> ready_pass m m'.

Lemma cooperative_in m0 h e : cooperative m0 [] h -> In e h -> exists h1, helpful m0 h1 e.
Proof. intros Hc (h1 & h2 & Hh)%in_split. exists ([] ++ h1). by apply (Hc h1 e h2). Qed.

(** Without a write to the mint, only the status writes count. *)
Lemma stored_status cur h :
  (forall m r, ~ In (Ev (UpdateMint m) r) h) -> (forall m r, In (Ev (UpdateMintStatus m) r) h -> r = inl tt) ->
  stored_after cur h = fold_left (fun c w => c <| mint_Status := mint_Status w.1 |>) (status_writes h) cur.
Proof.
  induction h as [|[c r] h IH] in cur |- *; intros Hu Hs; [done|].
  assert (IH' : forall cur', stored_after cur' h =
    fold_left (fun c w => c <| mint_Status := mint_Status w.1 |>) (status_writes h) cur').
  { intros cur'. apply IH; [intros m r' Hin; by apply (Hu m r'); right|intros m r' Hin; by apply (Hs m r'); right]. }
  unfold stored_after, status_writes in *. cbn [fold_left]. rewrite -> IH'. clear IH IH'. destruct c; try done.
  - destruct (Hu m r). by left.
  - pose proof (Hs m r (or_introl eq_refl)) as ->. done.
Qed.
End Passes.

(** ** Runs under helpful replies *)

Section Runs.
Context `{X509, ControllerUtilLaws, StatusConditionsLaws, QuantitiesLaws, UnicodeTables}.

Lemma cooperative_app m0 h0 h1 h2 : cooperative m0 h0 (h1 ++ h2) -> cooperative m0 h0 h1 /\ cooperative m0 (h0 ++ h1) h2.
Proof.
  intros Hc. split.
  - intros h3 e h4 ->. apply (Hc h3 e (h4 ++ h2)). by rewrite <- app_assoc.
  - intros h3 e h4 ->. rewrite <- app_assoc. apply (Hc (h1 ++ h3) e h4). by rewrite <- app_assoc.
Qed.

(** A run over the resources of an active mint goes through. *)
Lemma active_completes m0 h r :
  workable m0 -> runs (reconcileActive m0) h r -> cooperative m0 [] h -> same m0 r.1 /\ completed r.2.
Proof.
  intros Hw (h1 & [s1 r1] & h2 & -> & Hr1 & Hr2)%runs_bind [Hc1 Hc2]%cooperative_app.
  apply runs_bind in Hr1 as (h1' & [s1' r1'] & h1'' & -> & Hr1 & Hret). apply runs_inv in Hret as [-> [= -> Hx]].
  rewrite -> app_nil_r in *. cbn [fst snd] in *.
  pose proof (finishes_sound m0 _ _ _ _ _
    (succeeds_resources m0 Hw [] [] m0 (same_refl m0) (fun n Hn => match Hn with end)) Hr1 Hc1)
    as (Hs1 & _ & result & Hres). cbn in Hs1, Hres. subst r1' r1. cbn [fst snd] in Hr2.
  destruct (obeys_sound _ _ _ [] _ _ (resources_hoare m0 [] m0 eq_refl) Hr1) as [_ (_ & _ & Hq)].
  destruct (Hq result eq_refl) as [_ Hresult].
  assert (Hlast : succeeds m0 [] (updateStatus;; m_ret result) []).
  { apply succeeds_then; [apply succeeds_status|intros u; apply succeeds_ret]. }
  pose proof (finishes_sound m0 _ _ _ _ _ (Hlast _ s1' Hs1 (fun n Hn => match Hn with end)) Hr2 Hc2) as (Hs2 & _ & a & Ha).
  split; [exact Hs2|]. exists (phase s1').
  change (reconcileResultForPhase (phase s1')) with (reconcileResultForPhase (phase (s1', Ok result).1)). rewrite <- Hresult.
  apply runs_bind in Hr2 as (h2' & [s2 r2] & h2'' & -> & _ & Hr2). cbn [fst snd] in Hr2.
  destruct r2 as [u|e|p]; [|by apply runs_inv in Hr2 as [-> Hr2]; rewrite -> Hr2 in Ha..].
  by apply runs_inv in Hr2 as [_ ->].
Qed.

Lemma run_fetched ns name s0 m h r :
  runs (reconcileMint m) h r -> runs (Reconcile ns name s0) (Ev (GetMint ns name) (inl m) :: h) r.
Proof. intros Hr. by apply (runs_call (GetMint ns name) _ (inl m)). Qed.

(** What a pass over an active mint leaves: the settled outcome of this
    generation, on the same metadata and spec. *)
Lemma active_pass m0 ns name s0 h r :
  workable m0 -> active m0 -> runs (Reconcile ns name s0) (Ev (GetMint ns name) (inl m0) :: h) r ->
  cooperative m0 [] h ->
  completed r.2 /\ same m0 (stored_after m0 h) /\
  exists d, In (Ev (GetDeployment (mint_Namespace m0) (mint_Name m0)) (inl d)) h /\
    outcome (stored_after m0 h) = recorded (generation m0) (settle (inl d) (begin_of m0)).
Proof.
  intros Hw Ha Hr Hc. destruct (active_completes m0 h r Hw (active_run _ _ _ _ _ _ Hr Ha) Hc) as [_ [p Hp]].
  split; [by exists p|]. destruct (run_writes _ _ _ _ _ _ Hr) as [[_ Hpost]|[[(_ & _ & Hu) _]|[Hn _]]];
    [|by destruct Ha as (_ & _ & Ha)|done].
  rewrite -> Hp in Hpost. destruct Hpost as [[_ [Hres|Hres]]|(w & reply & Hw' & Hs & _)]; [by destruct p..|].
  assert (Hin : forall e, In e h -> exists h1, helpful m0 h1 e) by (intros e He; by eapply cooperative_in).
  assert (Hst : stored_after m0 h = m0 <| mint_Status := mint_Status w |>).
  { rewrite -> stored_status; [by rewrite -> Hw'| |].
    - intros m rep (h1 & h2 & ->)%in_split. by apply (active_allowed _ _ _ _ _ _ Hr Ha h1 (Ev (UpdateMint m) rep) h2).
    - intros m rep He. by destruct (Hin _ He) as [h1 Hh]. }
  rewrite -> Hst. split; [by split|]. destruct Hs as (o & cur & (rep & Hd & ->) & Hget & _ & Ho).
  destruct (Hin _ Hd) as [h1 [d ->]]. destruct (Hin _ Hget) as (h2 & cur' & [= <-] & Hcm & _).
  exists d. split; [exact Hd|]. change (outcome (m0 <| mint_Status := mint_Status w |>)) with (outcome w).
  rewrite -> Ho. unfold generation. by rewrite -> Hcm.
Qed.

(** ** Towards an active mint *)

(** What passes keep of a mint that is not being deleted. *)
Definition lives (m0 m : CashuMint) : Prop :=
  m.(mint_Meta).(om_DeletionTimestamp) = None /\ mint_Name m = mint_Name m0 /\ mint_Namespace m = mint_Namespace m0 /\
  generation m = generation m0 /\ m.(mint_Spec) = m0.(mint_Spec).

Lemma lives_workable m0 m : lives m0 m -> workable m0 -> workable m.
Proof.
  intros (_ & Hn & _ & _ & Hs) [Hz Hr].
  assert (Hr' : config_refs m = config_refs m0).
  { unfold config_refs, database_ref, auth_ref, authSecretRef. by rewrite -> Hs, Hn. }
  split; [|by rewrite -> Hr']. unfold requested_sizes, autoProvisioned in *. by rewrite -> Hs.
Qed.

Lemma lives_same m0 m m' : lives m0 m -> same m m' -> lives m0 m'.
Proof. unfold lives, mint_Name, mint_Namespace, generation. intros Hl [-> ->]. exact Hl. Qed.

(** How far a mint has come: any, with its finalizer, with its phase. *)
Definition stage (k : nat) (m : CashuMint) : Prop :=
  match k with
  | O => True
  | 1 => ContainsFinalizer m.(mint_Meta) cashuMintFinalizer = true
  | _ => active m
  end.

Lemma stage_weaken k m : stage (S k) m -> stage k m.
Proof. destruct k as [|[|k]]; [done|by intros (_ & ? & _)|done]. Qed.

(** The first pass over a mint without its finalizer adds it and nothing else. *)
Lemma finalizer_pass m h r :
  runs (addFinalizer m) h r -> cooperative m [] h ->
  stored_after m h = m <| mint_Meta ::= fun o => AddFinalizer o cashuMintFinalizer |>.
Proof.
  intros Hr Hc. apply runs_inv in Hr as (reply & h' & -> & Hr).
  destruct (cooperative_in _ _ _ Hc (or_introl eq_refl)) as [h1 Hh]. cbn in Hh. subst reply.
  apply runs_inv in Hr as [-> _]. by destruct m.
Qed.

Lemma status_pass m h r :
  runs (initializeStatus m) h r -> cooperative m [] h -> stored_after m h = set_phase MintPhasePending m.
Proof.
  intros Hr Hc. apply runs_inv in Hr as (reply & h' & -> & Hr).
  destruct (cooperative_in _ _ _ Hc (or_introl eq_refl)) as [h1 Hh]. cbn in Hh. subst reply.
  apply runs_inv in Hr as (ev & h2 & -> & Hr). apply runs_inv in Hr as [-> _]. by destruct m.
Qed.

Lemma active_stage k m : active m -> stage k m.
Proof. destruct k as [|[|k]]; [done|by intros (_ & ? & _)|done]. Qed.

(** A pass that leaves the outcome of an active mint keeps it active. *)
Lemma settled_active m m' d :
  active m -> same m m' -> outcome m' = recorded (generation m) (settle (inl d) (begin_of m)) -> active m'.
Proof.
  intros (Hd & Hf & Hp) [Hm _] Ho. unfold active. rewrite -> Hm. do 2 (split; [done|]).
  apply (f_equal oc_Phase) in Ho. change (oc_Phase (outcome m')) with (st_Phase (mint_Status m')) in Ho. rewrite -> Ho.
  pose proof (settle_step (generation m) (outcome m) (inl d) Hp) as Hs. unfold begin_of. cbn in *. by inversion Hs; subst.
Qed.

Lemma pass_stage m0 k m m' :
  workable m0 -> lives m0 m -> stage k m -> pass m m' -> lives m0 m' /\ stage (S k) m'.
Proof.
  intros Hw Hl Hk [ns name s0 h r Hr Hc ->]. pose proof (lives_workable _ _ Hl Hw) as Hwm.
  pose proof (Reconcile_run _ _ _ _ _ _ Hr) as Hrun. cbv beta iota in Hrun. rewrite -> reconcileMint_cases in Hrun.
  destruct Hl as (Hd & Hn & Hns & Hg & Hs). rewrite -> Hd in Hrun. cbn [non_nil] in Hrun.
  destruct (ContainsFinalizer _ _) eqn:Hf; cbn [negb] in Hrun.
  - destruct (decide _) as [Hp|Hp].
    + rewrite -> (status_pass _ _ _ Hrun Hc). split; [by apply (lives_same m0 m); [|apply same_phase]|].
      by apply active_stage.
    + assert (Ha : active m) by done. destruct (active_pass _ _ _ _ _ _ Hwm Ha Hr Hc) as (_ & Hsame & d & _ & Ho).
      split; [by apply (lives_same m0 m)|]. by eapply active_stage, settled_active.
  - rewrite -> (finalizer_pass _ _ _ Hrun Hc). split.
    { unfold lives, mint_Name, mint_Namespace, generation. cbn. by rewrite -> fin_add_only. }
    destruct k as [|[|k]]; [apply fin_add_contains|by rewrite -> Hk in Hf|].
    destruct Hk as (_ & Hk & _). by rewrite -> Hk in Hf.
Qed.

Lemma passes_active m n m' :
  workable m -> m.(mint_Meta).(om_DeletionTimestamp) = None -> 2 <= n -> nsteps pass n m m' -> lives m m' /\ active m'.
Proof.
  intros Hw Hd Hn Hsteps. assert (Hall : forall k cur, lives m cur -> stage k cur -> nsteps pass n cur m' ->
    lives m m' /\ stage (n + k) m').
  { clear Hn Hsteps. induction n as [|n IH]; intros k cur Hl Hk Hs; inversion Hs as [|? ? y ? H1' H2']; subst; [done|].
    destruct (pass_stage m k cur y Hw Hl Hk H1') as [Hl' Hk']. replace (S n + k) with (n + S k) by lia. by eapply IH. }
  destruct (Hall 0 m) as [Hl Hk]; [done|done|exact Hsteps|]. split; [exact Hl|].
  destruct n as [|[|n]]; [lia..|exact Hk].
Qed.
End Runs.

(** ** Deletion *)

Section Deletion.
Context `{X509, ControllerUtil, StatusConditions, Quantities, UnicodeTables}.

(** What the server stores once the handler is done with a mint. *)
Definition released (m : CashuMint) : CashuMint :=
  if ContainsFinalizer m.(mint_Meta) cashuMintFinalizer
  then m <| mint_Meta ::= fun o => RemoveFinalizer o cashuMintFinalizer |> else m.

Lemma stored_snoc m h e : stored_after m (h ++ [e]) = store (stored_after m h) e.
Proof. apply fold_left_app. Qed.

Lemma cleanup_finishes m0 h :
  finishes m0 h (cleanupPostgresSecret m0)
    (fun h' x => x = (m0, Ok tt) /\ stored_after m0 h' = stored_after m0 h).
Proof.
  unfold cleanupPostgresSecret. cbn. destruct (ptr_test _ _); cbn; [|done].
  intros [secret|e] Hr; cbn.
  - intros r ->. cbn. intros [] _. split; [done|]. by rewrite -> !stored_snoc.
  - destruct Hr as (-> & _). cbn. split; [done|]. by rewrite -> stored_snoc.
Qed.

Lemma deletion_finishes m0 :
  finishes m0 [] (handleDeletion m0) (fun h x => x.2 = Ok noResult /\ stored_after m0 h = released m0).
Proof.
  unfold handleDeletion, released. cbn. destruct (ContainsFinalizer _ _); cbn [negb]; [|done].
  apply finishes_bind. eapply finishes_mono; [|apply cleanup_finishes]. intros h x _ [-> Hst]. cbn.
  intros ev _ r ->. cbn. split; [done|]. rewrite -> !stored_snoc, Hst. by destruct m0.
Qed.
End Deletion.

(** ** There is such a server *)

Section Existence.
Context `{X509}.
Variables (m0 : CashuMint) (draws : tlsDraws).
Hypothesis Hdraws : generates (generateManagementRPCTLSBundle draws).

(** Every key the configuration refers to, whatever the secret. *)
Definition config_data : StringMap := foldr (fun ref => <[ ref.2 := "value" ]>) ∅ (config_refs m0).

Lemma config_data_usable n s : s.(sec_Data) = config_data -> usable m0 n s.
Proof.
  intros Hs key Hin. exists "value". split; [|done]. rewrite -> Hs. unfold config_data.
  induction (config_refs m0) as [|[n' key'] l IH]; [done|]. cbn. destruct Hin as [[= -> ->]|Hin]; [by apply lookup_insert_eq|].
  destruct (decide (key' = key)) as [->|Hne]; [by apply lookup_insert_eq|]. by rewrite -> lookup_insert_ne; [apply IH|].
Qed.

Definition upDeployment : Deployment :=
  mkDeployment (mkTypeMeta "" "") (newMeta "" "" ∅ None) (Some 1%Z) ∅ "" (FromInt 0) (FromInt 1)
    (mkPodTemplateSpec ∅ None (newPodSpec [])) 1 1 1.

Definition answer (c : call) : response c :=
  match c return response c with
  | GetMint _ _ => inl m0
  | GetSecret _ _ => inl (mkSecret (mkTypeMeta "" "") (newMeta "" "" ∅ None) "" config_data ∅)
  | GetDeployment _ _ => inl upDeployment
  | GetService _ _ | GetIngress _ _ => inr (Errorf "none")
  | GetConfigMap _ _ => inl (mkConfigMap (mkTypeMeta "" "") (newMeta "" "" ∅ None) None)
  | CreateSecret _ | DeleteSecret _ | DeletePodMonitor _ _ | UpdateMint _ | UpdateMintStatus _ => inl tt
  | Apply o => match o return apply_reply o + goerror with OStatefulSet s => inl s | _ => inl tt end
  | EmitEvent _ _ _ => tt
  | RandRead n => inl (replicate n 0%Z)
  | DrawTLS => draws
  end.

Lemma answer_helpful h c : helpful m0 h (Ev c (answer c)).
Proof.
  destruct c; cbn -[usable]; try done; try by eexists.
  - by apply config_data_usable.
  - destruct o; by eexists.
Qed.

Definition ev_deployment (e : event) : option Deployment :=
  match e with
  | Ev c r => match c return response c -> option Deployment with
              | GetDeployment _ _ => fun r => match r with inl d => Some d | inr _ => None end
              | _ => fun _ => None
              end r
  end.

(** Every program runs to its end against these answers. *)
Lemma answered {A} (p : Prog A) h0 : exists h a, runs p h a /\ cooperative m0 h0 h /\ deployment_up h.
Proof.
  induction p as [a|c k IH] in h0 |- *.
  - exists [], a. split; [constructor|]. split; [intros h1 e h2 Hh; by apply app_cons_not_nil in Hh|by intros ns n d []].
  - destruct (IH (answer c) (h0 ++ [Ev c (answer c)])) as (h & a & Hr & Hc & Hd).
    exists (Ev c (answer c) :: h), a. split; [by constructor|]. split.
    + intros [|e1 h1] e h2 Heq; injection Heq as <- Heq; [rewrite -> app_nil_r; apply answer_helpful|].
      specialize (Hc h1 e h2 Heq). by rewrite <- app_assoc in Hc.
    + intros ns n d [Heq|Hin]; [|by eapply Hd]. apply (f_equal ev_deployment) in Heq. cbn in Heq.
      destruct c; try done. by injection Heq as <-.
Qed.
End Existence.

(** ** Properties *)

Section Properties.
Context `{X509, ControllerUtilLaws, StatusConditionsLaws, QuantitiesLaws, UnicodeTables}.

(** C2: a living mint becomes ready.  Whatever state a mint is in that is not
    being deleted, if its storage sizes are quantities and its references name a
    secret and a key: there always is a server that cooperates with the next
    pass; and after at least two passes under cooperating servers, a pass that
    finds the Deployment up leaves the phase Ready, the Ready condition true and
    the generation observed, on an active mint with the same spec. *)
Theorem Reconcile_becomes_ready m draws :
  workable m -> m.(mint_Meta).(om_DeletionTimestamp) = None -> generates (generateManagementRPCTLSBundle draws) ->
  (forall m', exists m'', ready_pass m' m'') /\
  forall n m' m'', 2 <= n -> nsteps pass n m m' -> ready_pass m' m'' ->
    outcome m'' = mkOutcome MintPhaseReady (Some ConditionTrue) (generation m) /\
    lives m m'' /\ active m''.
Proof.
  intros Hw Hd Hdraws. split.
  - intros m'. destruct (answered m' draws Hdraws (reconcileMint m') []) as (h & r & Hr & Hc & Hup).
    exists (stored_after m' h). by eapply (ready_pass_run _ _ "" "" m'); [apply run_fetched|..].
  - intros n m' m'' Hn Hsteps [ns name s0 h r Hr Hc Hup ->].
    destruct (passes_active m n m' Hw Hd Hn Hsteps) as [Hl Ha].
    destruct (active_pass _ _ _ _ _ _ (lives_workable _ _ Hl Hw) Ha Hr Hc) as (_ & Hs & d & Hin & Ho).
    split; [|split; [by apply (lives_same m m')|by eapply settled_active]].
    rewrite -> Ho. cbn. rewrite -> (Hup _ _ _ Hin). unfold recorded. cbn. by destruct Hl as (_ & _ & _ & <- & _).
Qed.

(** C7: no error is the operator's own.  A run on an active mint whose storage
    sizes are quantities and whose references name a secret and a key, under a
    server that fails no call, serves the referenced secrets and misses a
    generated secret at most once, ends without error or panic, with the whole
    desired state applied and with the generation recorded as observed. *)
Theorem Reconcile_completes ns name s0 m0 h r :
  runs (Reconcile ns name s0) (Ev (GetMint ns name) (inl m0) :: h) r -> active m0 -> workable m0 ->
  cooperative m0 [] h ->
  completed r.2 /\ complete m0 h /\ oc_Observed (outcome (stored_after m0 h)) = generation m0.
Proof.
  intros Hr Ha Hw Hc. destruct (active_pass _ _ _ _ _ _ Hw Ha Hr Hc) as (Hcomp & _ & d & _ & Ho).
  split; [exact Hcomp|]. split; [exact (proj2 (active_applies _ _ _ _ _ _ Hr Ha) Hcomp)|]. by rewrite -> Ho.
Qed.

(** C21: deletion goes through.  A run on a mint that is being deleted, under a
    server that fails no call, ends without error and without a retry, and what
    is stored afterwards no longer carries the finalizer, so that the API server
    can drop the mint; nothing else of it is changed. *)
Theorem Reconcile_releases ns name s0 m0 h r :
  runs (Reconcile ns name s0) (Ev (GetMint ns name) (inl m0) :: h) r ->
  m0.(mint_Meta).(om_DeletionTimestamp) <> None -> cooperative m0 [] h ->
  r.2 = Ok noResult /\
  ContainsFinalizer (mint_Meta (stored_after m0 h)) cashuMintFinalizer = false /\
  stored_after m0 h = m0 <| mint_Meta ::= fun o => o <| om_Finalizers := om_Finalizers (mint_Meta (stored_after m0 h)) |> |>.
Proof.
  intros Hr%Reconcile_run Hd Hc. cbv beta iota in Hr. rewrite -> reconcileMint_cases in Hr.
  destruct (om_DeletionTimestamp _); [|done]. cbn [non_nil] in Hr.
  destruct (finishes_sound m0 _ _ _ _ _ (deletion_finishes m0) Hr Hc) as [Hres Hst].
  split; [exact Hres|]. cbn [app] in Hst. rewrite -> Hst. unfold released. destruct (ContainsFinalizer _ _) eqn:Hf.
  - split; [apply fin_remove_gone|]. cbn. by rewrite -> fin_remove_only at 1.
  - split; [done|]. by destruct m0 as [[] ? ?].
Qed.
End Properties.

Section Witnesses.
#[local] Existing Instance std_ControllerUtil.
#[local] Existing Instance std_ControllerUtilLaws.
#[local] Existing Instance std_StatusConditions.
#[local] Existing Instance std_StatusConditionsLaws.
#[local] Existing Instance std_Quantities.
#[local] Existing Instance std_QuantitiesLaws.
#[local] Existing Instance std_UnicodeTables.
#[local] Existing Instance std_X509.

Lemma fullMint_workable : workable fullMint.
Proof. split; vm_compute; repeat constructor; try discriminate; eexists; reflexivity. Qed.

Lemma pendingMint_workable : workable pendingMint.
Proof. split; vm_compute; repeat constructor; try discriminate; eexists; reflexivity. Qed.

Lemma sampleDraws_ok : generates (generateManagementRPCTLSBundle sampleDraws).
Proof. exists sampleBundle. vm_compute. reflexivity. Qed.

Lemma ready_is_pass m m' : ready_pass m m' -> pass m m'.
Proof. intros [ns name s0 h r Hr Hc _ ->]. by eapply pass_run. Qed.

Lemma Reconcile_becomes_ready_witness :
  exists m', outcome m' = mkOutcome MintPhaseReady (Some ConditionTrue) (generation fullMint) /\
    mint_Spec m' = mint_Spec fullMint.
Proof.
  destruct (Reconcile_becomes_ready fullMint sampleDraws fullMint_workable eq_refl sampleDraws_ok) as [Hex Hready].
  destruct (Hex fullMint) as [m1 H1]. destruct (Hex m1) as [m2 H2]. destruct (Hex m2) as [m3 H3].
  exists m3. destruct (Hready 2 m2 m3) as (Ho & (_ & _ & _ & _ & Hs) & _); [lia| |exact H3|by split].
  eapply nsteps_l; [exact (ready_is_pass _ _ H1)|]. eapply nsteps_l; [exact (ready_is_pass _ _ H2)|constructor].
Defined.

Lemma Reconcile_completes_witness :
  exists h r, runs (Reconcile "wallets" "mint" fullMint) (Ev (GetMint "wallets" "mint") (inl pendingMint) :: h) r /\
    completed r.2 /\ oc_Observed (outcome (stored_after pendingMint h)) = generation pendingMint.
Proof.
  destruct (answered pendingMint sampleDraws sampleDraws_ok (reconcileMint pendingMint) []) as (h & r & Hr & Hc & _).
  pose proof (run_fetched "wallets" "mint" fullMint _ _ _ Hr) as Hrun. exists h, r. split; [exact Hrun|].
  destruct (Reconcile_completes _ _ _ _ _ _ Hrun pendingMint_active pendingMint_workable Hc) as (Hcomp & _ & Ho).
  exact (conj Hcomp Ho).
Defined.

Lemma Reconcile_releases_witness :
  exists h r, runs (Reconcile "wallets" "mint" fullMint) (Ev (GetMint "wallets" "mint") (inl deletedMint) :: h) r /\
    r.2 = Ok noResult /\ ContainsFinalizer (mint_Meta (stored_after deletedMint h)) cashuMintFinalizer = false.
Proof.
  destruct (answered deletedMint sampleDraws sampleDraws_ok (reconcileMint deletedMint) []) as (h & r & Hr & Hc & _).
  pose proof (run_fetched "wallets" "mint" fullMint _ _ _ Hr) as Hrun. exists h, r. split; [exact Hrun|].
  assert (Hd : om_DeletionTimestamp (mint_Meta deletedMint) <> None) by (intros Hn; discriminate Hn).
  destruct (Reconcile_releases _ _ _ _ _ _ Hrun Hd Hc) as (Hres & Hf & _). exact (conj Hres Hf).
Defined.
End Witnesses.
