(* ===== verification/Wiring.v ===== *)
(** * Wiring: what the controller is registered for, and allowed to do

    [groupversion_info.go], [SetupWithManager] and the RBAC markers of
    [cashumint_controller.go], compared with what the runs of the reconciler
    do: every call needs only permissions that were asked for, every applied
    object says which resource it is, of a group the client knows, and changes
    to it wake its mint up, with one exception. *)

From S2P Require Import Prelude Kube Types Platform Fmt Samples Defaulting Encoding Validation Common Toml.
From S2P Require Import ConfigToml Postgres Backup Mnemonic ManagementRPC Orchard Workload Storage Networking.
From S2P Require Import Client Controller Server Safety Pipeline Segments Sequence.

(** ** API groups and resources *)

Record GroupVersion := mkGroupVersion { gv_Group : string; gv_Version : string }.

#[export] Instance GroupVersion_eq_dec : EqDecision GroupVersion.
Proof. solve_decision. Defined.
#[export] Instance TypeMeta_eq_dec : EqDecision TypeMeta.
Proof. solve_decision. Defined.

(** [groupversion_info.go: GroupVersion] *)
Definition CashuMintGroupVersion : GroupVersion := mkGroupVersion "mint.cashu.asmogo.github.io" "v1alpha1".

(** The groups of the objects the operator handles in the scheme of the client:
    those of [clientgoscheme], and the three that are added to it.
    [main.go: init] *)
Definition schemeGroups : list GroupVersion :=
  [mkGroupVersion "" "v1"; mkGroupVersion "apps" "v1"; mkGroupVersion "batch" "v1";
   mkGroupVersion "networking.k8s.io" "v1"] ++
  [CashuMintGroupVersion] ++
  [mkGroupVersion "cert-manager.io" "v1"] ++
  [mkGroupVersion "monitoring.coreos.com" "v1"].

(** [schema.ParseGroupVersion]: "v1" or "group/v1". *)
Fixpoint split_slash (acc s : string) : option (string * string) :=
  match s with
  | EmptyString => None
  | String c s => if Ascii.eqb c "/" then Some (acc, s) else split_slash (acc +:+ String c EmptyString) s
  end.
Definition ParseGroupVersion (apiVersion : string) : GroupVersion :=
  match split_slash "" apiVersion with
  | Some (g, v) => mkGroupVersion g v
  | None => mkGroupVersion "" apiVersion
  end.

(** The resource names of the kinds, as the API server serves them. *)
Definition resources : list (TypeMeta * string) :=
  [(mkTypeMeta "v1" "ConfigMap", "configmaps"); (mkTypeMeta "v1" "Secret", "secrets");
   (mkTypeMeta "v1" "Service", "services"); (mkTypeMeta "v1" "PersistentVolumeClaim", "persistentvolumeclaims");
   (mkTypeMeta "apps/v1" "Deployment", "deployments"); (mkTypeMeta "apps/v1" "StatefulSet", "statefulsets");
   (mkTypeMeta "batch/v1" "CronJob", "cronjobs"); (mkTypeMeta "batch/v1" "Job", "jobs");
   (mkTypeMeta "networking.k8s.io/v1" "Ingress", "ingresses");
   (mkTypeMeta "cert-manager.io/v1" "Certificate", "certificates");
   (mkTypeMeta "monitoring.coreos.com/v1" "PodMonitor", "podmonitors")].

Definition resource_of (t : TypeMeta) : option (string * string) :=
  '(_, r) ← List.find (fun x => bool_decide (x.1 = t)) resources; Some ((ParseGroupVersion t.(tm_APIVersion)).(gv_Group), r).

(** ** Permissions *)

Record PolicyRule := mkPolicyRule { pr_Group : string; pr_Resource : string; pr_Verbs : list string }.

Definition allVerbs : list string := ["get"; "list"; "watch"; "create"; "update"; "patch"; "delete"].

(** [cashumint_controller.go: Reconcile 61-75] *)
Definition managerRole : list PolicyRule :=
  [mkPolicyRule "mint.cashu.asmogo.github.io" "cashumints" allVerbs;
   mkPolicyRule "mint.cashu.asmogo.github.io" "cashumints/status" ["get"; "update"; "patch"];
   mkPolicyRule "mint.cashu.asmogo.github.io" "cashumints/finalizers" ["update"];
   mkPolicyRule "apps" "deployments" allVerbs;
   mkPolicyRule "apps" "statefulsets" allVerbs;
   mkPolicyRule "batch" "jobs" allVerbs;
   mkPolicyRule "batch" "cronjobs" allVerbs;
   mkPolicyRule "" "services" allVerbs;
   mkPolicyRule "" "configmaps" allVerbs;
   mkPolicyRule "" "secrets" allVerbs;
   mkPolicyRule "" "persistentvolumeclaims" allVerbs;
   mkPolicyRule "networking.k8s.io" "ingresses" allVerbs;
   mkPolicyRule "cert-manager.io" "certificates" allVerbs;
   mkPolicyRule "monitoring.coreos.com" "podmonitors" allVerbs;
   mkPolicyRule "" "events" ["create"; "patch"]].

(** A verb on a resource of a group. *)
Definition Permission : Type := string * string * string.

Definition granted (role : list PolicyRule) (p : Permission) : bool :=
  let '(group, resource, verb) := p in
  existsb (fun r => String.eqb r.(pr_Group) group && String.eqb r.(pr_Resource) resource &&
                    existsb (String.eqb verb) r.(pr_Verbs)) role.

(** Reads go through the client's cache, which lists and watches. *)
Definition cachedRead (group resource : string) : list Permission :=
  [(group, resource, "get"); (group, resource, "list"); (group, resource, "watch")].

Definition mintGroup : string := CashuMintGroupVersion.(gv_Group).

(** What the API server demands for a call.  A server-side apply is a patch that
    may create; an owner reference that blocks the owner's deletion takes the
    right to update the owner's finalizers. *)
Definition needed (c : call) : list Permission :=
  match c with
  | GetMint _ _ => cachedRead mintGroup "cashumints"
  | GetSecret _ _ => cachedRead "" "secrets"
  | GetDeployment _ _ => cachedRead "apps" "deployments"
  | GetService _ _ => cachedRead "" "services"
  | GetIngress _ _ => cachedRead "networking.k8s.io" "ingresses"
  | GetConfigMap _ _ => cachedRead "" "configmaps"
  | CreateSecret _ => [("", "secrets", "create"); (mintGroup, "cashumints/finalizers", "update")]
  | DeleteSecret _ => [("", "secrets", "delete")]
  | DeletePodMonitor _ _ => [("monitoring.coreos.com", "podmonitors", "delete")]
  | Apply o =>
      match resource_of (object_type o) with
      | Some (g, r) => [(g, r, "patch"); (g, r, "create"); (mintGroup, "cashumints/finalizers", "update")]
      | None => [("", "unknown", "patch")]
      end
  | UpdateMint _ => [(mintGroup, "cashumints", "update")]
  | UpdateMintStatus _ => [(mintGroup, "cashumints/status", "update")]
  | EmitEvent _ _ _ => [("", "events", "create"); ("", "events", "patch")]
  | RandRead _ | DrawTLS => []
  end.

Definition allowed (c : call) : bool := forallb (granted managerRole) (needed c).

(** ** Watches *)

(** The kinds whose changes are mapped to the owner.
    [cashumint_controller.go: SetupWithManager] *)
Definition ownedKinds : list TypeMeta :=
  [mkTypeMeta "apps/v1" "Deployment"; mkTypeMeta "apps/v1" "StatefulSet"; mkTypeMeta "batch/v1" "CronJob";
   mkTypeMeta "batch/v1" "Job"; mkTypeMeta "v1" "Service"; mkTypeMeta "v1" "ConfigMap";
   mkTypeMeta "v1" "PersistentVolumeClaim"; mkTypeMeta "v1" "Secret"; mkTypeMeta "networking.k8s.io/v1" "Ingress";
   mkTypeMeta "cert-manager.io/v1" "Certificate"].

(** The kind of a Go type. *)
Definition kind_of (o : Object) : TypeMeta :=
  match o with
  | OConfigMap _ => mkTypeMeta "v1" "ConfigMap"
  | OSecret _ => mkTypeMeta "v1" "Secret"
  | OService _ => mkTypeMeta "v1" "Service"
  | OPVC _ => mkTypeMeta "v1" "PersistentVolumeClaim"
  | ODeployment _ => mkTypeMeta "apps/v1" "Deployment"
  | OStatefulSet _ => mkTypeMeta "apps/v1" "StatefulSet"
  | OCronJob _ => mkTypeMeta "batch/v1" "CronJob"
  | OJob _ => mkTypeMeta "batch/v1" "Job"
  | OIngress _ => mkTypeMeta "networking.k8s.io/v1" "Ingress"
  | OCertificate _ => mkTypeMeta "cert-manager.io/v1" "Certificate"
  | OPodMonitor _ => mkTypeMeta "monitoring.coreos.com/v1" "PodMonitor"
  end.

(** What registration promises about an applied object: the patch names its
    resource, the client knows the group, and a change of it is watched unless
    it is a PodMonitor. *)
Record well_registered (o : Object) : Prop := {
  reg_kind : object_type o = kind_of o;
  reg_scheme : In (ParseGroupVersion (object_type o).(tm_APIVersion)) schemeGroups;
  reg_watched : In (object_type o) ownedKinds \/ exists p, o = OPodMonitor p
}.

Lemma kind_registered o : object_type o = kind_of o -> well_registered o.
Proof.
  intros Hk. split; [exact Hk| |]; rewrite -> Hk; destruct o; cbn; try tauto; right; by eexists.
Qed.

Lemma kind_allowed o : object_type o = kind_of o -> allowed (Apply o) = true.
Proof. intros Hk. unfold allowed, needed. rewrite -> Hk. by destruct o. Qed.

Lemma call_allowed c : (forall o, c <> Apply o) -> allowed c = true.
Proof. intros Hc. destruct c; try reflexivity. by destruct (Hc o). Qed.

(** ** Every generator writes the kind of its type *)

Section Kinds.
Context `{X509, ControllerUtil, Quantities, UnicodeTables}.

(** The objects of a generator, if it makes any, have their kind. *)
Definition kinds_ok (g : res (list Object)) : Prop :=
  forall l, g = Ok l -> Forall (fun o => object_type o = kind_of o) l.

Lemma kinds_object {X} (inj : X -> Object) (g : res (option X)) :
  (forall x, g = Ok (Some x) -> object_type (inj x) = kind_of (inj x)) -> kinds_ok (objects inj g).
Proof.
  intros Hg l. unfold objects. destruct g as [[x|]|e|p]; cbn; try done; intros [= <-]; [|done]. repeat constructor. by apply Hg.
Qed.

Lemma kinds_some {X} (inj : X -> Object) (g : res X) :
  (forall x, g = Ok x -> object_type (inj x) = kind_of (inj x)) -> kinds_ok (objects inj (some_object g)).
Proof.
  intros Hg. apply kinds_object. intros x. unfold some_object. destruct g as [y|e|p]; cbn; try done. intros [= <-]. by apply Hg.
Qed.

Ltac kind_by gen :=
  intros x Hx; unfold gen in Hx; repeat case_match; op_inv; by simplify_eq.

Lemma postgresService_kind m : kinds_ok (objects OService (GeneratePostgresService m)).
Proof. apply kinds_object. kind_by @GeneratePostgresService. Qed.
Lemma statefulSet_kind m : kinds_ok (objects OStatefulSet (GeneratePostgresStatefulSet m)).
Proof. apply kinds_object. kind_by @GeneratePostgresStatefulSet. Qed.
Lemma cronJob_kind m : kinds_ok (objects OCronJob (GeneratePostgresBackupCronJob m)).
Proof. apply kinds_object. kind_by @GeneratePostgresBackupCronJob. Qed.
Lemma job_kind m : kinds_ok (objects OJob (GeneratePostgresRestoreJob m)).
Proof. apply kinds_object. kind_by @GeneratePostgresRestoreJob. Qed.
Lemma configMap_kind m password : kinds_ok (objects OConfigMap (some_object (GenerateConfigMap m password))).
Proof. apply kinds_some. kind_by @GenerateConfigMap. Qed.
Lemma deployment_kind m hash : kinds_ok (objects ODeployment (some_object (GenerateDeployment m hash))).
Proof. apply kinds_some. kind_by @GenerateDeployment. Qed.
Lemma service_kind m : kinds_ok (objects OService (some_object (GenerateService m))).
Proof. apply kinds_some. kind_by @GenerateService. Qed.
Lemma orchardService_kind m : kinds_ok (objects OService (GenerateOrchardService m)).
Proof. apply kinds_object. kind_by @GenerateOrchardService. Qed.
Lemma podMonitor_kind m : kinds_ok (objects OPodMonitor (GeneratePodMonitor m)).
Proof. apply kinds_object. kind_by @GeneratePodMonitor. Qed.

Lemma claim_kind m name labels s x : claim m name labels s = Ok (Some x) -> object_type (OPVC x) = kind_of (OPVC x).
Proof. revert x. kind_by @claim. Qed.
Lemma pvc_kind m : kinds_ok (objects OPVC (GeneratePVC m)).
Proof. apply kinds_object. intros x Hx. unfold GeneratePVC in Hx. case_match; [done|]. by eapply claim_kind. Qed.
Lemma orchardPVC_kind m : kinds_ok (objects OPVC (GenerateOrchardPVC m)).
Proof. apply kinds_object. intros x Hx. unfold GenerateOrchardPVC in Hx. repeat case_match; try done. by eapply claim_kind. Qed.

Lemma ingressFor_kind m name labels port i x :
  ingressFor m name labels port i = Ok (Some x) -> object_type (OIngress x) = kind_of (OIngress x).
Proof. intros Hx. unfold ingressFor in Hx. op_inv. by simplify_eq. Qed.
Lemma ingress_kind m : kinds_ok (objects OIngress (GenerateIngress m)).
Proof. apply kinds_object. intros x Hx. unfold GenerateIngress in Hx. case_match; [|done]. by eapply ingressFor_kind. Qed.
Lemma orchardIngress_kind m : kinds_ok (objects OIngress (GenerateOrchardIngress m)).
Proof. apply kinds_object. intros x Hx. unfold GenerateOrchardIngress in Hx. case_match; [|done]. by eapply ingressFor_kind. Qed.

Lemma certificateFor_kind m name labels i t c x :
  certificateFor m name labels i t c = Ok (Some x) -> object_type (OCertificate x) = kind_of (OCertificate x).
Proof. intros Hx. unfold certificateFor in Hx. op_inv. by simplify_eq. Qed.
Lemma certificate_kind m : kinds_ok (objects OCertificate (GenerateCertificate m)).
Proof.
  apply kinds_object. intros x Hx. unfold GenerateCertificate in Hx. repeat case_match; try done.
  by eapply certificateFor_kind.
Qed.
Lemma orchardCertificate_kind m : kinds_ok (objects OCertificate (GenerateOrchardCertificate m)).
Proof.
  apply kinds_object. intros x Hx. unfold GenerateOrchardCertificate in Hx. repeat case_match; try done.
  by eapply certificateFor_kind.
Qed.

Lemma config_kind m dbv authv : kinds_ok (config_objects m dbv authv).
Proof. unfold config_objects. destruct (with_database m dbv). apply configMap_kind. Qed.

Lemma all_kinds m dbv authv hash : Forall kinds_ok (all_gens m dbv authv hash).
Proof.
  repeat apply Forall_cons_2; auto using postgresService_kind, statefulSet_kind, cronJob_kind, job_kind, config_kind,
    pvc_kind, orchardPVC_kind, deployment_kind, service_kind, orchardService_kind, podMonitor_kind, ingress_kind,
    orchardIngress_kind, certificate_kind, orchardCertificate_kind, Forall_nil_2.
Qed.

Lemma generated_kinds l : Forall kinds_ok l -> Forall (fun o => object_type o = kind_of o) (generated l).
Proof.
  induction 1 as [|g l Hg _ IH]; [constructor|]. cbn. destruct g as [x|e|p]; [|constructor..]. apply Forall_app. auto.
Qed.

Lemma prefix_Forall {A} (P : A -> Prop) l l' : l `prefix_of` l' -> Forall P l' -> Forall P l.
Proof. intros [k ->]. by rewrite -> Forall_app; intros []. Qed.
End Kinds.

(** ** Runs *)

Section Runs.
Context `{X509, ControllerUtil, StatusConditions, Quantities, UnicodeTables}.

Definition no_apply (h : history) (c : call) : Prop := forall o, c <> Apply o.

Lemma no_apply_applied h0 h : all_calls no_apply h0 h -> applied h = [].
Proof.
  induction h as [|e h IH] in h0 |- *; intros Hall; [done|].
  assert (He : ev_applied e = []).
  { specialize (Hall [] e h eq_refl). unfold ev_applied. destruct (ev_call e); try done. by destruct (Hall o). }
  unfold applied in *. cbn. rewrite -> He. cbn. apply (IH (h0 ++ [e])). intros h1 e' h2 ->.
  rewrite <- app_assoc. by apply (Hall (e :: h1) e' h2).
Qed.

Abbreviation applies_nothing := (inv no_apply (fun _ => True)).

Lemma emit_nothing t r msg : applies_nothing (emit t r msg).
Proof. by apply inv_call. Qed.
Lemma deletion_nothing : applies_nothing handleDeletion.
Proof. unfold handleDeletion, cleanupPostgresSecret. inv_auto; try apply emit_nothing; try done; by apply inv_modify. Qed.
Lemma finalizer_nothing : applies_nothing addFinalizer.
Proof. unfold addFinalizer. inv_auto; try done; by apply inv_modify. Qed.
Lemma initialize_nothing : applies_nothing initializeStatus.
Proof. unfold initializeStatus. inv_auto; try apply emit_nothing; try done; by apply inv_modify. Qed.

(** Only a run on an active mint applies anything. *)
Lemma inactive_applies_nothing ns name s0 m0 h r :
  runs (Reconcile ns name s0) (Ev (GetMint ns name) (inl m0) :: h) r -> active m0 \/ applied h = [].
Proof.
  intros Hr%Reconcile_run. cbv beta iota in Hr. rewrite -> reconcileMint_cases in Hr.
  assert (Hno : forall m : M Result, applies_nothing m -> runs (m m0) h r -> applied h = []).
  { intros m Hm Hrun. destruct (obeys_sound _ _ _ [] _ _ (Hm [] m0 I) Hrun) as [Hall _]. by eapply no_apply_applied. }
  unfold active. destruct (om_DeletionTimestamp _); cbn [non_nil] in Hr; [right; by eapply Hno, Hr; apply deletion_nothing|].
  destruct (ContainsFinalizer _ _); cbn [negb] in Hr; [|right; by eapply Hno, Hr; apply finalizer_nothing].
  destruct (decide _); [right; by eapply Hno, Hr; apply initialize_nothing|by left].
Qed.

(** What a run applies, the generators made, in their order. *)
Lemma applied_generated ns name s0 m0 h r :
  runs (Reconcile ns name s0) (Ev (GetMint ns name) (inl m0) :: h) r ->
  exists dbv authv hash, applied h `prefix_of` generated (all_gens m0 dbv authv hash).
Proof.
  intros Hr. destruct (inactive_applies_nothing _ _ _ _ _ _ Hr) as [Ha| ->]; [|exists "", "", ""; apply prefix_nil].
  destruct (active_applies _ _ _ _ _ _ Hr Ha) as [[Hp|(dbv & authv & _ & [Hp|(hash & _ & Hp)])] _].
  - exists "", "", "". etransitivity; [exact Hp|]. apply generated_prefix.
  - exists dbv, authv, "". etransitivity; [exact Hp|]. unfold all_gens, workload_gens.
    rewrite <- !app_assoc, !(app_assoc (database_gens m0)), (app_assoc _ (claim_gens m0)). apply generated_prefix.
  - by exists dbv, authv, hash.
Qed.

Lemma applied_kinds ns name s0 m0 h r :
  runs (Reconcile ns name s0) (Ev (GetMint ns name) (inl m0) :: h) r ->
  Forall (fun o => object_type o = kind_of o) (applied h).
Proof.
  intros Hr. destruct (applied_generated _ _ _ _ _ _ Hr) as (dbv & authv & hash & Hp).
  eapply prefix_Forall; [exact Hp|]. apply generated_kinds, all_kinds.
Qed.

Lemma applied_in o reply h : In (Ev (Apply o) reply) h -> In o (applied h).
Proof.
  intros Hin. unfold applied. apply list_elem_of_In, list_elem_of_bind. exists (Ev (Apply o) reply).
  split; [by left|by apply list_elem_of_In].
Qed.
End Runs.

(** ** Properties *)

Section Properties.
Context `{X509, ControllerUtilLaws, StatusConditions, Quantities, UnicodeTables}.

(** C20: the manager may do what it does.  Every call of every run needs only
    permissions the RBAC markers ask for; every object a run applies carries the
    API version and kind of its Go type, in a group of the client's scheme, and
    a change of it wakes the reconciler up for the mint that controls it, since
    its kind is one of those [SetupWithManager] owns, unless it is a PodMonitor. *)
Theorem Reconcile_authorized ns name s0 m0 h r e :
  runs (Reconcile ns name s0) (Ev (GetMint ns name) (inl m0) :: h) r -> In e h ->
  allowed (ev_call e) = true /\
  forall o, ev_call e = Apply o -> well_registered o /\ controlled_by m0 (object_meta o).
Proof.
  intros Hr Hin. pose proof (applied_kinds _ _ _ _ _ _ Hr) as Hk. rewrite -> Forall_forall in Hk.
  destruct e as [c reply]. cbn [ev_call]. destruct c as [| | | | | | | | |o| | | | |];
    try (split; [by apply call_allowed|by intros ? [=]]).
  pose proof (applied_in _ _ _ Hin) as Hap. assert (Hko : object_type o = kind_of o) by (by apply Hk, list_elem_of_In).
  split; [by apply kind_allowed|]. intros o' [= <-]. split; [by apply kind_registered|].
  destruct (inactive_applies_nothing _ _ _ _ _ _ Hr) as [Ha|Hn]; [|by rewrite -> Hn in Hap].
  apply list_elem_of_In, list_elem_of_lookup in Hin as [i Hi].
  pose proof (all_calls_lookup _ _ _ _ (active_allowed _ _ _ _ _ _ Hr Ha) Hi) as Hg. cbn in Hg.
  destruct o; try done; try (by destruct Hg); by destruct Hg as [[_ Hg] _].
Qed.
End Properties.

Section Witnesses.
#[local] Existing Instance std_ControllerUtil.
#[local] Existing Instance std_ControllerUtilLaws.
#[local] Existing Instance std_StatusConditions.
#[local] Existing Instance std_Quantities.
#[local] Existing Instance std_UnicodeTables.
#[local] Existing Instance std_X509.

Lemma Reconcile_authorized_witness :
  Forall (fun e => allowed (ev_call e) = true) firstHistory /\ length (applied firstHistory) = 11.
Proof.
  split; [|vm_compute; reflexivity]. apply List.Forall_forall. intros e Hin.
  exact (proj1 (Reconcile_authorized _ _ _ _ _ _ e firstRun_runs Hin)).
Defined.
End Witnesses.
