(* ===== verification/Isolation.v ===== *)
(** * Isolation: which objects two mints can share

    The names of what the operator makes are the mint's name and a fixed suffix.
    This file tabulates them, shows that every generator fills its place in the
    table, and derives when two reconciliations of different mints patch the
    same object: only when the names of the mints clash, which nothing in the
    webhooks or the controller prevents. *)

From S2P Require Import Prelude Kube Types Platform Fmt Samples Defaulting Encoding Validation Common Toml.
From S2P Require Import ConfigToml Postgres Backup Mnemonic ManagementRPC Orchard Workload Storage Networking.
From S2P Require Import Client Controller Server Safety Pipeline Segments Sequence Wiring.

(** ** Keys *)

(** What a patch is addressed to: the resource, the namespace and the name. *)
Definition object_key : Type := TypeMeta * (string * string).
Definition key_of (o : Object) : object_key :=
  (kind_of o, ((object_meta o).(om_Namespace), (object_meta o).(om_Name))).

(** The place of an object among those of its mint: its kind and the suffix of
    its name. *)
Definition slot : Type := TypeMeta * string.
Definition slot_key (m : CashuMint) (s : slot) : object_key := (s.1, (mint_Namespace m, mint_Name m +:+ s.2)).

Definition batch (kind : string) : TypeMeta := mkTypeMeta "batch/v1" kind.
Definition core (kind : string) : TypeMeta := mkTypeMeta "v1" kind.

(** The suffix of the restore Job, which names the request. *)
Definition restoreSeed (m : CashuMint) : string :=
  match restoreRequest m with
  | Some (key, id) => id +:+ ":" +:+ key
  | None => ""
  end.
Definition restoreSuffix (m : CashuMint) : string := "-restore-" +:+ shortHash (restoreSeed m).

Definition database_slots (m : CashuMint) : list slot :=
  [(core "Service", "-postgres"); (mkTypeMeta "apps/v1" "StatefulSet", "-postgres"); (batch "CronJob", "-backup");
   (batch "Job", restoreSuffix m)].
Definition workload_slots : list slot :=
  [(core "ConfigMap", "-config"); (core "PersistentVolumeClaim", "-data");
   (core "PersistentVolumeClaim", "-orchard-data"); (mkTypeMeta "apps/v1" "Deployment", "");
   (core "Service", ""); (core "Service", "-orchard"); (mkTypeMeta "monitoring.coreos.com/v1" "PodMonitor", "")].
Definition exposure_slots : list slot :=
  [(mkTypeMeta "networking.k8s.io/v1" "Ingress", ""); (mkTypeMeta "networking.k8s.io/v1" "Ingress", "-orchard");
   (mkTypeMeta "cert-manager.io/v1" "Certificate", ""); (mkTypeMeta "cert-manager.io/v1" "Certificate", "-orchard")].
Definition slots (m : CashuMint) : list slot := database_slots m ++ workload_slots ++ exposure_slots.

(** ** Every generator fills its slot *)

Section Fills.
Context `{X509, ControllerUtilLaws, StatusConditions, Quantities, UnicodeTables}.

(** A generator makes the object of its slot, or none. *)
Definition fills (m : CashuMint) (g : res (list Object)) (s : slot) : Prop :=
  forall l, g = Ok l -> key_of <$> l `sublist_of` [slot_key m s].

Lemma fills_object {X} (inj : X -> Object) (g : res (option X)) m s :
  (forall x, g = Ok (Some x) -> key_of (inj x) = slot_key m s) -> fills m (objects inj g) s.
Proof.
  intros Hg l. unfold objects. destruct g as [[x|]|e|p]; cbn; try done; intros [= <-]; [|apply sublist_nil_l].
  cbn. by rewrite -> Hg.
Qed.

Lemma fills_some {X} (inj : X -> Object) (g : res X) m s :
  (forall x, g = Ok x -> key_of (inj x) = slot_key m s) -> fills m (objects inj (some_object g)) s.
Proof.
  intros Hg. apply fills_object. intros x. unfold some_object. destruct g as [y|e|p]; cbn; try done.
  intros [= <-]. by apply Hg.
Qed.

Lemma reference_key m name labels annotations x :
  SetControllerReference m (newMeta name (mint_Namespace m) labels annotations) = Ok x ->
  (om_Namespace x, om_Name x) = (mint_Namespace m, name).
Proof. intros Hs%scr_refs_only. by rewrite -> Hs. Qed.

(** Unfolds a generator down to the metadata it makes. *)
Ltac fills_by :=
  intros x Hx; unfold set_reference in *; repeat case_match; op_inv; simplify_eq;
  unfold key_of, slot_key; cbn; f_equal; by eapply reference_key.

Lemma database_fills m : Forall2 (fills m) (database_gens m) (database_slots m).
Proof.
  repeat apply Forall2_cons_2; [..|by apply Forall2_nil_2]; apply fills_object.
  - unfold GeneratePostgresService. fills_by.
  - unfold GeneratePostgresStatefulSet. fills_by.
  - unfold GeneratePostgresBackupCronJob. fills_by.
  - intros x Hx. unfold GeneratePostgresRestoreJob in Hx. unfold slot_key, restoreSuffix, restoreSeed.
    destruct (backupEnabled m); [|done]. destruct (restoreRequest m) as [[key id]|]; [|done].
    revert x Hx. fills_by.
Qed.

Lemma with_database_meta m v : (with_database m v).1.(mint_Meta) = m.(mint_Meta).
Proof. unfold with_database. by repeat case_match. Qed.
Lemma with_auth_meta m v : (with_auth m v).(mint_Meta) = m.(mint_Meta).
Proof. unfold with_auth. by repeat case_match. Qed.

Lemma config_fills m dbv authv : fills m (config_objects m dbv authv) (core "ConfigMap", "-config").
Proof.
  unfold config_objects. destruct (with_database m dbv) as [cfg password] eqn:E. apply fills_some.
  assert (Hm : (with_auth cfg authv).(mint_Meta) = m.(mint_Meta)).
  { rewrite -> with_auth_meta, <- (with_database_meta m dbv). by rewrite -> E. }
  unfold slot_key, mint_Name, mint_Namespace. rewrite <- Hm. fold (mint_Name (with_auth cfg authv)).
  fold (mint_Namespace (with_auth cfg authv)). unfold GenerateConfigMap. fills_by.
Qed.

Lemma claim_fills m name labels s x :
  claim m name labels s = Ok (Some x) -> key_of (OPVC x) = (core "PersistentVolumeClaim", (mint_Namespace m, name)).
Proof. revert x. unfold claim. fills_by. Qed.

Lemma workload_fills m hash : Forall2 (fills m) (workload_gens m hash) (tail workload_slots).
Proof.
  repeat apply Forall2_cons_2; [..|by apply Forall2_nil_2]; first [apply fills_some|apply fills_object].
  - intros x Hx. unfold GeneratePVC in Hx. case_match; [done|]. by eapply claim_fills.
  - intros x Hx. unfold GenerateOrchardPVC in Hx. repeat case_match; try done. apply claim_fills in Hx. rewrite -> Hx.
    unfold slot_key, orchardPVCName, orchardResourceName. by rewrite <- string_app_assoc.
  - unfold GenerateDeployment, slot_key. cbn [snd]. rewrite -> string_app_nil_r. fills_by.
  - unfold GenerateService, slot_key. cbn [snd]. rewrite -> string_app_nil_r. fills_by.
  - unfold GenerateOrchardService. fills_by.
  - unfold GeneratePodMonitor, slot_key. cbn [snd]. rewrite -> string_app_nil_r. fills_by.
Qed.

Lemma ingressFor_fills m name labels port i x :
  ingressFor m name labels port i = Ok (Some x) -> key_of (OIngress x) = (kind_of (OIngress x), (mint_Namespace m, name)).
Proof. revert x. unfold ingressFor. fills_by. Qed.
Lemma certificateFor_fills m name labels i t c x :
  certificateFor m name labels i t c = Ok (Some x) ->
  key_of (OCertificate x) = (kind_of (OCertificate x), (mint_Namespace m, name)).
Proof. revert x. unfold certificateFor. fills_by. Qed.

Lemma exposure_fills m : Forall2 (fills m) (exposure_gens m) exposure_slots.
Proof.
  repeat apply Forall2_cons_2; [..|by apply Forall2_nil_2]; apply fills_object; intros x Hx;
    unfold slot_key; cbn [fst snd]; rewrite -> ?string_app_nil_r.
  - unfold GenerateIngress in Hx. case_match; [|done]. by eapply ingressFor_fills.
  - unfold GenerateOrchardIngress in Hx. case_match; [|done]. by eapply ingressFor_fills.
  - unfold GenerateCertificate in Hx. repeat case_match; try done. by eapply certificateFor_fills.
  - unfold GenerateOrchardCertificate in Hx. repeat case_match; try done. by eapply certificateFor_fills.
Qed.

Lemma all_fills m dbv authv hash : Forall2 (fills m) (all_gens m dbv authv hash) (slots m).
Proof.
  apply Forall2_app; [apply database_fills|]. constructor; [apply config_fills|].
  change (Forall2 (fills m) (workload_gens m hash ++ exposure_gens m) (tail workload_slots ++ exposure_slots)).
  apply Forall2_app; [apply workload_fills|apply exposure_fills].
Qed.

Lemma generated_fills m gens sl : Forall2 (fills m) gens sl -> key_of <$> generated gens `sublist_of` slot_key m <$> sl.
Proof.
  induction 1 as [|g s gens sl Hg _ IH]; [apply sublist_nil_l|]. cbn.
  destruct g as [l|e|p]; [|apply sublist_nil_l..]. rewrite -> fmap_app.
  apply (sublist_app _ [slot_key m s]); [by apply Hg|exact IH].
Qed.

(** The keys of what a run patches are among those of the table, in its order. *)
Lemma applied_keys ns name s0 m h r :
  runs (Reconcile ns name s0) (Ev (GetMint ns name) (inl m) :: h) r ->
  key_of <$> applied h `sublist_of` slot_key m <$> slots m.
Proof.
  intros (dbv & authv & hash & [k Hk])%applied_generated. etrans; [|apply generated_fills, (all_fills m dbv authv hash)].
  rewrite -> Hk, fmap_app. by apply sublist_inserts_r.
Qed.
End Fills.

(** ** The table *)

Lemma slots_NoDup m : NoDup (slots m).
Proof.
  unfold slots, database_slots, workload_slots, exposure_slots, core, batch. cbn [app].
  repeat (apply NoDup_cons_2;
    [rewrite -> ?not_elem_of_cons; repeat split; first [apply not_elem_of_nil|by intros [=]]|]). apply NoDup_nil_2.
Qed.

#[local] Instance slot_key_inj m : Inj (=) (=) (slot_key m).
Proof. intros [k s] [k' s'] [= -> Hn%string_app_inj_l]. by subst. Qed.

(** One name is the other with a suffix that the operator hands out itself. *)
Definition extends (a b : string) : Prop := exists u, In u [""; "-orchard"; "-postgres"] /\ a = b +:+ u.

Lemma restoreSuffix_length m : String.length (restoreSuffix m) = 19.
Proof. unfold restoreSuffix. by rewrite -> string_length_app, shortHash_length. Qed.

(** Two suffixes of one kind differ by such a suffix. *)
Lemma slot_suffix m1 m2 k u s :
  (k, s) ∈ slots m1 -> (k, u +:+ s) ∈ slots m2 -> In u [""; "-orchard"; "-postgres"].
Proof.
  assert (Hlen : u +:+ restoreSuffix m1 = restoreSuffix m2 -> u = "").
  { intros Hu%(f_equal String.length). rewrite -> string_length_app, !restoreSuffix_length in Hu.
    destruct u; [done|]. simpl in Hu. lia. }
  unfold slots, database_slots, workload_slots, exposure_slots, core, batch. cbn [app].
  rewrite -> !list_elem_of_In. intros H1 H2.
  repeat (destruct H1 as [[= <- <-]|H1]); try destruct H1;
    repeat (destruct H2 as [E|H2]; [first [discriminate E|apply (f_equal snd) in E; cbn [snd] in E]|]); try destruct H2;
    (* equal suffixes, an extended one, or none *)
    first [by left; rewrite -> (Hlen (eq_sym E))
          |left; exact (string_app_inj_r _ "" u E)
          |right; left; exact (string_app_inj_r _ "-orchard" u E)
          |right; right; left; exact (string_app_inj_r _ "-postgres" u E)
          |exfalso; repeat (destruct u as [|? u]; [discriminate E|first [discriminate E|injection E as _ E]])].
Qed.

(** Keys of two tables meet only where the names clash. *)
Lemma slot_keys_clash m1 m2 k :
  k ∈ slot_key m1 <$> slots m1 -> k ∈ slot_key m2 <$> slots m2 ->
  mint_Namespace m1 = mint_Namespace m2 /\ (extends (mint_Name m1) (mint_Name m2) \/ extends (mint_Name m2) (mint_Name m1)).
Proof.
  intros ([k1 s1] & -> & H1)%list_elem_of_fmap ([k2 s2] & Hk & H2)%list_elem_of_fmap. injection Hk as Ek Hns Hn.
  cbn [fst snd] in Ek. subst k2. split; [done|]. cbn [snd] in Hn.
  destruct (Nat.le_ge_cases (String.length s1) (String.length s2)) as [Hl|Hl].
  - destruct (string_app_suffix _ _ _ _ Hn Hl) as (u & -> & Hu).
    left. exists u. split; [exact (slot_suffix _ _ _ _ _ H1 H2)|done].
  - symmetry in Hn. destruct (string_app_suffix _ _ _ _ Hn Hl) as (u & -> & Hu).
    right. exists u. split; [exact (slot_suffix _ _ _ _ _ H2 H1)|done].
Qed.

(** ** Properties *)

Section Properties.
Context `{X509, ControllerUtilLaws, StatusConditions, Quantities, UnicodeTables}.

(** C9: reconciliations of different mints do not interfere, up to a clash of
    names.  Take any two runs, against any servers.  The first patches no object
    twice; and an object that both patch lies in the namespace of both mints,
    whose names are equal or differ by a trailing "-orchard" or "-postgres". *)
Theorem Reconcile_isolated ns1 name1 s1 m1 h1 r1 ns2 name2 s2 m2 h2 r2 :
  runs (Reconcile ns1 name1 s1) (Ev (GetMint ns1 name1) (inl m1) :: h1) r1 ->
  runs (Reconcile ns2 name2 s2) (Ev (GetMint ns2 name2) (inl m2) :: h2) r2 ->
  NoDup (key_of <$> applied h1) /\
  forall o1 o2, In o1 (applied h1) -> In o2 (applied h2) -> key_of o1 = key_of o2 ->
    mint_Namespace m1 = mint_Namespace m2 /\
    (extends (mint_Name m1) (mint_Name m2) \/ extends (mint_Name m2) (mint_Name m1)).
Proof.
  intros Hr1%applied_keys Hr2%applied_keys. split.
  { eapply sublist_NoDup; [|exact Hr1]. apply NoDup_fmap_2; [apply slot_key_inj|apply slots_NoDup]. }
  intros o1 o2 Hi1%list_elem_of_In Hi2%list_elem_of_In Hk. apply (slot_keys_clash m1 m2 (key_of o1)).
  - eapply elem_of_sublist; [by apply list_elem_of_fmap_2|exact Hr1].
  - rewrite -> Hk. eapply elem_of_sublist; [by apply list_elem_of_fmap_2|exact Hr2].
Qed.
End Properties.

(** ** A clash

    The mint "mint" has an Orchard companion, whose Service is "mint-orchard";
    another mint of the namespace is called "mint-orchard", and so is its
    Service. *)

Section Witnesses.
#[local] Existing Instance std_ControllerUtil.
#[local] Existing Instance std_ControllerUtilLaws.
#[local] Existing Instance std_StatusConditions.
#[local] Existing Instance std_Quantities.
#[local] Existing Instance std_UnicodeTables.
#[local] Existing Instance std_X509.

Definition namesake : CashuMint :=
  pendingMint <| mint_Meta ::= fun o => o <| om_Name := "mint-orchard" |> <| om_UID := "uid-2" |> |>.
Definition namesakeRun : history * (CashuMint * res Result) :=
  simulate (server namesake) [] (reconcileMint namesake).

Lemma namesakeRun_runs :
  runs (Reconcile "wallets" "mint-orchard" fullMint) (Ev (GetMint "wallets" "mint-orchard") (inl namesake) :: namesakeRun.1)
    namesakeRun.2.
Proof.
  exact (Reconcile_fetched _ _ _ namesake _ _ (simulate_runs (server namesake) [] (reconcileMint namesake))).
Qed.

Definition patched (k : object_key) (h : history) : option Object :=
  List.find (fun o => bool_decide (key_of o = k)) (applied h).
Lemma patched_in k h o : patched k h = Some o -> In o (applied h) /\ key_of o = k.
Proof. intros [Hin Hk]%find_some. split; [done|]. by apply bool_decide_eq_true_1 in Hk. Qed.

Definition clashKey : object_key := (core "Service", ("wallets", "mint-orchard")).

(** Both runs patch the Service, each as that of its own mint. *)
Lemma Reconcile_isolated_witness :
  (patched clashKey firstHistory ≫= fun o => head (object_meta o).(om_OwnerReferences)) <>
  (patched clashKey namesakeRun.1 ≫= fun o => head (object_meta o).(om_OwnerReferences)) /\
  NoDup (key_of <$> applied firstHistory) /\ extends "mint-orchard" "mint".
Proof.
  destruct (Reconcile_isolated _ _ _ _ _ _ _ _ _ _ _ _ firstRun_runs namesakeRun_runs) as [Hd Hc].
  split; [by vm_compute|]. split; [exact Hd|].
  assert (H1 : is_Some (patched clashKey firstHistory)) by (vm_compute; by eexists).
  assert (H2 : is_Some (patched clashKey namesakeRun.1)) by (vm_compute; by eexists).
  destruct H1 as [o1 [Hi1 Hk1]%patched_in], H2 as [o2 [Hi2 Hk2]%patched_in].
  destruct (Hc o1 o2 Hi1 Hi2 (eq_trans Hk1 (eq_sym Hk2))) as [_ [(u & Hu & Hn)|Hn]].
  - exfalso. change (mint_Name pendingMint = mint_Name namesake +:+ u) in Hn. vm_compute in Hn. discriminate Hn.
  - exact Hn.
Defined.
End Witnesses.
