(* ===== verification/Memory.v ===== *)
(** * Go memory: cells, references and what a copy shares

    The other files treat Go values as immutable, which is faithful only where
    no two references lead to the same memory.  Here memory is explicit: a
    [heap] of cells, values that refer to cells, and the statements that
    generated copying code is made of ([*out = *in], [new], [make], [copy],
    [range]), in a small state monad whose failure is a nil dereference.

    [copied] says what a deep copy is: a value that no reader can tell from the
    original and that reaches no cell there was before.  [copies_over] is the
    contract of a copying statement; [CopyRules] has a rule for each. *)

From S2P Require Import Prelude Kube Types Platform.

(** ** Values *)

Definition loc : Set := positive.

(** The parts of a struct are its fields, those of an array its elements. *)
Inductive key : Set := Field (f : string) | Index (i : nat).

#[export] Instance key_eq_dec : EqDecision key.
Proof. solve_decision. Defined.

(** [Zero] is memory fresh from [new] or [make]; a [Ref] is a pointer, a slice
    (to the whole of its array) or a map; [Entries] is the cell of a
    [map[string]string]. *)
#[warnings="-register-all"]
Inductive val : Type :=
  | Zero
  | Scalar (s : string)
  | Ref (p : option loc)
  | Node (parts : list (key * val))
  | Entries (m : gmap string string).

Abbreviation heap := (gmap loc val).

Section ValInd.
Variable P : val -> Prop.
Hypotheses (HZ : P Zero) (HS : forall s, P (Scalar s)) (HR : forall p, P (Ref p)) (HE : forall m, P (Entries m))
  (HN : forall l, Forall (fun kv => P kv.2) l -> P (Node l)).

Fixpoint val_nested_ind (v : val) : P v :=
  match v with
  | Zero => HZ
  | Scalar s => HS s
  | Ref p => HR p
  | Entries m => HE m
  | Node l => HN l ((fix go l := match l return Forall (fun kv => P kv.2) l with
                                | [] => Forall_nil_2 _
                                | kv :: l => Forall_cons_2 _ kv l (val_nested_ind kv.2) (go l)
                                end) l)
  end.
End ValInd.

(** The references a value holds itself. *)
Fixpoint refs (v : val) : list loc :=
  match v with
  | Ref (Some l) => [l]
  | Node parts => (fix go parts := match parts with [] => [] | (_, u) :: r => refs u ++ go r end) parts
  | _ => []
  end.

(** A value without references. *)
Definition plain (v : val) : Prop := refs v = [].

(** ** Reading a value as far as its references go *)

#[warnings="-register-all"]
Inductive tree : Type :=
  | TZero
  | TScalar (s : string)
  | TNil
  | TCut
  | TDangling
  | TRef (t : tree)
  | TNode (parts : list (key * tree))
  | TEntries (m : gmap string string).

(** What a value looks like when a reference looks like [look] says. *)
Fixpoint see (look : loc -> tree) (v : val) : tree :=
  match v with
  | Zero => TZero
  | Scalar s => TScalar s
  | Ref None => TNil
  | Ref (Some l) => look l
  | Node parts => TNode ((fix go parts := match parts with [] => [] | (k, u) :: r => (k, see look u) :: go r end) parts)
  | Entries m => TEntries m
  end.

(** A cell, following at most [n] references from it. *)
Fixpoint look (n : nat) (h : heap) (l : loc) : tree :=
  match n with
  | O => TCut
  | S n => match h !! l with Some c => TRef (see (look n h) c) | None => TDangling end
  end.

Definition unfold (n : nat) (h : heap) (v : val) : tree := see (look n h) v.

Inductive reaches (h : heap) : val -> loc -> Prop :=
  | reaches_ref v l : In l (refs v) -> reaches h v l
  | reaches_cell v l c l' : In l (refs v) -> h !! l = Some c -> reaches h c l' -> reaches h v l'.

(** Nothing dangles. *)
Definition closed (h : heap) (v : val) : Prop := forall l, reaches h v l -> is_Some (h !! l).

(** A copy of [v]: no reader can tell them apart, and no cell of it existed before. *)
Definition copied (h : heap) (v : val) (h' : heap) (v' : val) : Prop :=
  closed h' v' /\ (forall n, unfold n h' v' = unfold n h v) /\ (forall l, reaches h' v' l -> h !! l = None).

Lemma see_ext f g v : (forall l, In l (refs v) -> f l = g l) -> see f v = see g v.
Proof.
  induction v as [|s|[l|]|m|parts IH] using val_nested_ind; intros Hl; cbn; try done; [by apply Hl; left|].
  f_equal. induction parts as [|[k u] parts IHp]; [done|]. apply Forall_cons in IH as [Hu IH]. f_equal.
  - f_equal. apply Hu. intros l Hin. apply Hl. cbn. apply in_or_app. by left.
  - apply IHp; [exact IH|]. intros l Hin. apply Hl. cbn. apply in_or_app. by right.
Qed.

Section Agree.
Variables (h h' : heap).

Lemma look_agree n l : (forall l', l' = l \/ (exists c, h !! l = Some c /\ reaches h c l') -> h' !! l' = h !! l') ->
  look n h' l = look n h l.
Proof.
  induction n as [|n IH] in l |- *; intros Hl; [done|]. cbn. rewrite -> (Hl l (or_introl eq_refl)).
  destruct (h !! l) as [c|] eqn:Hc; [|done]. f_equal. apply see_ext. intros l1 H1. apply IH.
  intros l2 [-> |(c2 & Hc2 & Hr)]; apply Hl; right; exists c; (split; [done|]); [by apply reaches_ref|].
  by eapply reaches_cell.
Qed.

Lemma unfold_agree n v : (forall l, reaches h v l -> h' !! l = h !! l) -> unfold n h' v = unfold n h v.
Proof.
  intros Hl. apply see_ext. intros l Hin. apply look_agree. intros l' [-> |(c & Hc & Hr)]; apply Hl.
  - by apply reaches_ref.
  - by eapply reaches_cell.
Qed.

Lemma reaches_agree v l : (forall l, reaches h v l -> h' !! l = h !! l) -> reaches h' v l -> reaches h v l.
Proof.
  intros Hl Hr. induction Hr as [v l Hin|v l c l' Hin Hc Hr IH]; [by apply reaches_ref|].
  rewrite -> Hl in Hc by by apply reaches_ref. eapply reaches_cell; [exact Hin|exact Hc|]. apply IH.
  intros l2 H2. apply Hl. by eapply reaches_cell.
Qed.

Lemma closed_agree v : (forall l, reaches h v l -> h' !! l = h !! l) -> closed h v -> closed h' v.
Proof. intros Hl Hc l Hr%reaches_agree; [|done]. rewrite -> Hl by done. by apply Hc. Qed.
End Agree.

Lemma plain_reaches h v l : plain v -> ~ reaches h v l.
Proof. intros Hp Hr. unfold plain in Hp. destruct Hr as [v l Hin|v l c l' Hin _ _]; by rewrite -> Hp in Hin. Qed.

Lemma plain_copied h h' v : plain v -> copied h v h' v.
Proof.
  intros Hp. split; [by intros l Hr%plain_reaches|]. split; [|by intros l Hr%plain_reaches].
  intros n. apply unfold_agree. by intros l Hr%plain_reaches.
Qed.

(** Later steps leave a copy alone that they do not know of. *)
Lemma copied_later h v h1 h2 v' :
  copied h v h1 v' -> (forall l, is_Some (h1 !! l) -> h !! l = None -> h2 !! l = h1 !! l) -> copied h v h2 v'.
Proof.
  intros (Hc & Hu & Hf) Hl. assert (Ha : forall l, reaches h1 v' l -> h2 !! l = h1 !! l) by (intros l Hr; auto).
  split; [by apply (closed_agree h1)|]. split; [intros n; by rewrite -> (unfold_agree h1)|].
  intros l Hr. by apply Hf, (reaches_agree h1 h2).
Qed.

(** ... and a copy made later is one of what was there before. *)
Lemma copied_earlier h v h1 h2 v' :
  copied h1 v h2 v' -> (forall l, reaches h v l -> h1 !! l = h !! l) -> (forall l, h1 !! l = None -> h !! l = None) ->
  copied h v h2 v'.
Proof.
  intros (Hc & Hu & Hf) Ha Hd. split; [exact Hc|]. split; [intros n; by rewrite -> Hu, (unfold_agree h)|].
  intros l Hr. by apply Hd, Hf.
Qed.

Lemma copied_ref h h' l l' c c' :
  h !! l = Some c -> h' !! l' = Some c' -> h !! l' = None -> copied h c h' c' -> copied h (Ref (Some l)) h' (Ref (Some l')).
Proof.
  intros Hl Hl' Hn (Hc & Hu & Hf).
  assert (Hr : forall l0, reaches h' (Ref (Some l')) l0 -> l0 = l' \/ reaches h' c' l0).
  { intros l0 Hr. inversion Hr as [? ? Hi|? l1 c0 ? Hi Hc0 Hr0]; subst; destruct Hi as [<-|[]]; [by left|right]. by simplify_eq. }
  split; [intros l0 H0; apply Hr in H0 as [-> |H0]; [by eexists|by apply Hc]|]. split; [|intros l0 H0; apply Hr in H0 as [-> |H0]; [done|by apply Hf]].
  intros [|n]; [done|]. unfold unfold. cbn. rewrite -> Hl, Hl'. f_equal. apply Hu.
Qed.

Lemma copied_node h h' l l' :
  Forall2 (fun x y => y.1 = x.1 /\ copied h x.2 h' y.2) l l' -> copied h (Node l) h' (Node l').
Proof.
  intros Hall.
  assert (Hin : forall l0, In l0 (refs (Node l')) -> exists x y, copied h x h' y /\ In l0 (refs y)).
  { induction Hall as [|[k x] [k' y] l l' [Hk Hc] Hall IH]; intros l0; [by intros []|]. cbn.
    intros [Hl|Hl]%in_app_or; [by exists x, y|by apply IH]. }
  assert (Hr : forall l0, reaches h' (Node l') l0 -> exists x y, copied h x h' y /\ reaches h' y l0).
  { intros l0 Hr. inversion Hr as [? ? Hi|? l1 c0 ? Hi Hc0 Hr0]; subst; destruct (Hin _ Hi) as (x & y & Hc & Hy);
      exists x, y; (split; [exact Hc|]); [by apply reaches_ref|by eapply reaches_cell]. }
  split; [|split].
  - intros l0 H0. apply Hr in H0 as (x & y & (Hc & _) & Hy). by apply Hc.
  - intros n. unfold unfold. cbn. f_equal. clear Hin Hr.
    induction Hall as [|[k x] [k' y] l l' [Hk (_ & Hu & _)] Hall IH]; [done|]. cbn in *. subst k'. f_equal; [|exact IH].
    f_equal. apply Hu.
  - intros l0 H0. apply Hr in H0 as (x & y & (_ & _ & Hf) & Hy). by apply Hf.
Qed.

(** ** Addresses: a cell and a path into it *)

Record addr := mkAddr { a_loc : loc; a_path : list key }.

(** [&x.f], [&x[i]] *)
Definition at_part (a : addr) (k : key) : addr := mkAddr a.(a_loc) (a.(a_path) ++ [k]).
Definition whole (l : loc) : addr := mkAddr l [].

Fixpoint part (k : key) (parts : list (key * val)) : option val :=
  match parts with
  | [] => None
  | (k', u) :: r => if decide (k' = k) then Some u else part k r
  end.

Fixpoint set_part (k : key) (v : val) (parts : list (key * val)) : list (key * val) :=
  match parts with
  | [] => []
  | (k', u) :: r => if decide (k' = k) then (k', v) :: r else (k', u) :: set_part k v r
  end.

Fixpoint get (path : list key) (v : val) : option val :=
  match path with
  | [] => Some v
  | k :: path => match v with Node parts => part k parts ≫= get path | _ => None end
  end.

Fixpoint put (path : list key) (new : val) (v : val) : option val :=
  match path with
  | [] => Some new
  | k :: path =>
      match v with
      | Node parts => u ← part k parts; u' ← put path new u; Some (Node (set_part k u' parts))
      | _ => None
      end
  end.

Lemma part_set k v parts u : part k parts = Some u -> part k (set_part k v parts) = Some v.
Proof.
  induction parts as [|[k' u'] r IH]; [done|]. cbn. destruct (decide (k' = k)) as [Hk|Hk]; cbn.
  - by rewrite -> decide_True.
  - by rewrite -> decide_False.
Qed.

Lemma part_set_other k k' v parts : k' <> k -> part k' (set_part k v parts) = part k' parts.
Proof.
  intros Hne. induction parts as [|[k0 u] r IH]; [done|]. cbn. destruct (decide (k0 = k)) as [Hk|Hk]; cbn.
  - by rewrite -> !decide_False by congruence.
  - by rewrite -> IH.
Qed.

Lemma keys_set k v parts : (set_part k v parts).*1 = parts.*1.
Proof. induction parts as [|[k' u] r IH]; [done|]. cbn. destruct (decide _); cbn; [done|by rewrite -> IH]. Qed.

Lemma set_set k v w parts : set_part k w (set_part k v parts) = set_part k w parts.
Proof.
  induction parts as [|[k' u] r IH]; [done|]. cbn. destruct (decide (k' = k)) as [Hk|Hk]; cbn.
  - by rewrite -> decide_True.
  - by rewrite -> decide_False, IH.
Qed.

Lemma set_same k parts u : part k parts = Some u -> set_part k u parts = parts.
Proof.
  induction parts as [|[k' u'] r IH]; [done|]. cbn. destruct (decide (k' = k)) as [Hk|Hk]; [by intros [= ->]|].
  intros Hp. by rewrite -> IH.
Qed.

Lemma get_app p q v : get (p ++ q) v = get p v ≫= get q.
Proof.
  induction p as [|k p IH] in v |- *; [done|]. cbn. destruct v as [| | |parts|]; try done.
  destruct (part k parts) as [u|]; [apply IH|done].
Qed.

Lemma put_get p u v : is_Some (get p v) -> exists v', put p u v = Some v'.
Proof.
  induction p as [|k p IH] in v |- *; [by eexists|]. cbn. destruct v as [| | |parts|]; try by intros [? ?].
  destruct (part k parts) as [w|]; [|by intros [? ?]]. cbn. intros [v' ->]%IH. by eexists.
Qed.

Lemma get_put p u v v' : put p u v = Some v' -> get p v' = Some u.
Proof.
  induction p as [|k p IH] in v, v' |- *; cbn; [by intros [= ->]|]. destruct v as [| | |parts|]; try done.
  destruct (part k parts) as [w|] eqn:Hw; [|done]. cbn. destruct (put p u w) as [w'|] eqn:Hp; [|done].
  intros [= <-]. rewrite -> (part_set _ _ _ _ Hw). by eapply IH.
Qed.

Lemma put_put p u w v v' : put p u v = Some v' -> put p w v' = put p w v.
Proof.
  induction p as [|k p IH] in v, v' |- *; cbn; [done|]. destruct v as [| | |parts|]; try done.
  destruct (part k parts) as [x|] eqn:Hx; [|done]. cbn. destruct (put p u x) as [x'|] eqn:Hp; [|done].
  intros [= <-]. rewrite -> (part_set _ _ _ _ Hx). cbn. rewrite -> (IH _ _ Hp).
  destruct (put p w x); [|done]. cbn. by rewrite -> set_set.
Qed.

Lemma put_same p u v : get p v = Some u -> put p u v = Some v.
Proof.
  induction p as [|k p IH] in v |- *; cbn; [by intros [= ->]|]. destruct v as [| | |parts|]; try done.
  destruct (part k parts) as [x|] eqn:Hx; [|done]. cbn. intros Hg. rewrite -> (IH _ Hg). cbn. by rewrite -> (set_same _ _ _ Hx).
Qed.

(** Writing a part is writing the whole with the part changed. *)
Lemma put_part p k u v parts :
  get p v = Some (Node parts) -> is_Some (part k parts) -> put (p ++ [k]) u v = put p (Node (set_part k u parts)) v.
Proof.
  intros Hg [x Hx]. induction p as [|k' p IH] in v, Hg |- *; cbn in *.
  - injection Hg as ->. cbn. by rewrite -> Hx.
  - destruct v as [| | |parts'|]; try done. destruct (part k' parts') as [y|]; [|done]. cbn in *. by rewrite -> IH.
Qed.

(** ** Statements *)

(** A statement works on the heap; [None] is a panic. *)
Definition H (A : Type) : Type := heap -> option (A * heap).
#[export] Instance H_ret : MRet H := fun A a h => Some (a, h).
#[export] Instance H_bind : MBind H := fun A B f m h => match m h with Some (a, h') => f a h' | None => None end.

Definition stuck {A} : H A := fun _ => None.

Definition load (a : addr) : H val := fun h => c ← h !! a.(a_loc); v ← get a.(a_path) c; Some (v, h).
Definition store (a : addr) (v : val) : H unit := fun h =>
  c ← h !! a.(a_loc); c' ← put a.(a_path) v c; Some (tt, <[a.(a_loc) := c']> h).
Definition alloc (c : val) : H loc := fun h => let l := fresh (dom h) in Some (l, <[l := c]> h).

Lemma bind_some {A B} (m : H A) (f : A -> H B) h a h' : m h = Some (a, h') -> (m ≫= f) h = f a h'.
Proof. intros Hm. unfold mbind, H_bind. by rewrite -> Hm. Qed.

(** [*x], of a pointer, a slice or a map. *)
Definition deref (a : addr) : H addr :=
  v ← load a; match v with Ref (Some l) => mret (whole l) | _ => stuck end.

(** A statement that copies from the first address to the second. *)
Definition copier : Type := addr -> addr -> H unit.

(** [*out = *in] *)
Definition assign : copier := fun in_ out => v ← load in_; store out v.

(** [if in.F != nil { ... }] *)
Definition if_set (c : copier) : copier := fun in_ out =>
  v ← load in_; match v with Ref (Some _) => c in_ out | Ref None => mret tt | _ => stuck end.

(** [*out = new(T)] and then [**out = **in] or [( *in).DeepCopyInto( *out)];
    [*out = ( *in).DeepCopy()] of a library type is the same. *)
Definition new_copy (c : copier) : copier := fun in_ out =>
  l ← alloc Zero; store out (Ref (Some l));;
  in_ ← deref in_; out ← deref out; c in_ out.

Fixpoint each {A} (l : list A) (f : A -> H unit) : H unit :=
  match l with
  | [] => mret tt
  | x :: l => f x;; each l f
  end.

Definition elements (v : val) : H (list (key * val)) :=
  fun h => match v with Node parts => Some (parts, h) | _ => None end.

(** [make([]T, n)] *)
Definition zeros (n : nat) : val := Node ((fun i => (Index i, Zero)) <$> seq 0 n).

(** [*out = make([]T, len( *in))] and then, for each index, [( *in)[i].DeepCopyInto(&( *out)[i])]. *)
Definition make_each (c : copier) : copier := fun in_ out =>
  in_ ← deref in_; v ← load in_; parts ← elements v; let n := length parts in
  l ← alloc (zeros n); store out (Ref (Some l));;
  out ← deref out; each (seq 0 n) (fun i => c (at_part in_ (Index i)) (at_part out (Index i))).

(** [*out = make([]T, len( *in))] and then [copy( *out, *in)], element by element. *)
Definition make_copy : copier := make_each assign.

(** [*out = make(map[string]string, len( *in))] and then the entries in the order of [range]. *)
Definition make_map `{MapRange} : copier := fun in_ out =>
  in_ ← deref in_; v ← load in_;
  match v with
  | Entries m =>
      l ← alloc (Entries ∅); store out (Ref (Some l));;
      out ← deref out;
      each (map_range m) (fun kv => v ← load out;
        match v with Entries m' => store out (Entries (<[kv.1 := kv.2]> m')) | _ => stuck end)
  | _ => stuck
  end.

(** [*out = *in] and then a statement for each of some fields. *)
Definition copy_struct (stmts : list (string * copier)) : copier := fun in_ out =>
  assign in_ out;;
  each stmts (fun s => s.2 (at_part in_ (Field s.1)) (at_part out (Field s.1))).

(** The [DeepCopy] of a type with a [DeepCopyInto]. *)
Definition deep_copy (into : copier) (in_ : option loc) : H (option loc) :=
  match in_ with
  | None => mret None
  | Some l => out ← alloc Zero; into (whole l) (whole out);; mret (Some out)
  end.

(** ** The contract of a copier *)

Definition reading (h : heap) (a : addr) : option val := h !! a.(a_loc) ≫= get a.(a_path).

(** From [h] to [h'] nothing that was allocated has changed but the memory at
    [a], which now holds [u]. *)
Definition writes (h : heap) (a : addr) (u : val) (h' : heap) : Prop :=
  (forall l, is_Some (h !! l) -> l <> a.(a_loc) -> h' !! l = h !! l) /\
  exists c c', h !! a.(a_loc) = Some c /\ put a.(a_path) u c = Some c' /\ h' !! a.(a_loc) = Some c'.

(** The values of a type: nothing of them dangles, and what they are depends on
    no more than what they reach. *)
Class Shape (T : heap -> val -> Prop) : Prop := {
  shape_closed h v : T h v -> closed h v;
  shape_agree h h' v : T h v -> (forall l, reaches h v l -> h' !! l = h !! l) -> T h' v
}.

(** Copying [u] of type [T] over [w], where [W u w], from memory that does not
    reach the target. *)
Definition copies_over (W : val -> val -> Prop) (T : heap -> val -> Prop) (c : copier) : Prop :=
  forall h i o u w,
    reading h i = Some u -> T h u -> reading h o = Some w -> W u w ->
    o.(a_loc) <> i.(a_loc) -> ~ reaches h u o.(a_loc) ->
    exists h' u', c i o h = Some (tt, h') /\ copied h u h' u' /\ writes h o u' h'.

Definition anything : val -> val -> Prop := fun _ _ => True.
Definition not_nil : val -> val -> Prop := fun u _ => u <> Ref None.

(** The contract of a [DeepCopyInto]: whatever the target held. *)
Class Copies (T : heap -> val -> Prop) (c : copier) : Prop := copies : copies_over anything T c.
(** That of the body of [if in.F != nil]. *)
Class CopiesSet (T : heap -> val -> Prop) (c : copier) : Prop := copies_set : copies_over not_nil T c.
(** That of a statement about a field, which [*out = *in] has filled already. *)
Class CopiesField (T : heap -> val -> Prop) (c : copier) : Prop := copies_field : copies_over eq T c.

Section Heap.
Variable h : heap.

Lemma load_reading a u : reading h a = Some u -> load a h = Some (u, h).
Proof.
  unfold reading, load. intros Hr. destruct (h !! a_loc a) as [c|]; [|done]. cbn in *.
  destruct (get (a_path a) c); [|done]. cbn. by injection Hr as ->.
Qed.

Lemma store_writes a u w : reading h a = Some w -> exists h', store a u h = Some (tt, h') /\ writes h a u h' /\
  forall l, h' !! l = None -> h !! l = None.
Proof.
  unfold reading, store. intros Hr. destruct (h !! a_loc a) as [c|] eqn:Hc; [|done]. cbn [mbind option_bind] in *.
  destruct (put_get (a_path a) u c) as [c' Hp]; [by eexists|]. cbn [mbind option_bind]. rewrite -> Hp. cbn [mbind option_bind].
  eexists. split; [reflexivity|]. split; [split|].
  - intros l _ Hne. by rewrite -> lookup_insert_ne.
  - exists c, c'. by rewrite -> lookup_insert_eq.
  - intros l. destruct (decide (a_loc a = l)) as [<-|Hne]; [by rewrite -> lookup_insert_eq|by rewrite -> lookup_insert_ne].
Qed.

Lemma writes_self a u : reading h a = Some u -> writes h a u h.
Proof.
  unfold reading. intros Hr. split; [done|]. destruct (h !! a_loc a) as [c|]; [|done]. exists c, c.
  split; [done|]. split; [by apply put_same|done].
Qed.

Lemma alloc_fresh c : exists l, h !! l = None /\ alloc c h = Some (l, <[l := c]> h).
Proof. exists (fresh (dom h)). split; [|done]. apply not_elem_of_dom, is_fresh. Qed.

Lemma reading_whole l c : h !! l = Some c -> reading h (whole l) = Some c.
Proof. unfold reading, whole. cbn [a_loc a_path]. by intros ->. Qed.

Lemma deref_reading a l : reading h a = Some (Ref (Some l)) -> deref a h = Some (whole l, h).
Proof. intros Hr. unfold deref, mbind, H_bind. by rewrite -> (load_reading _ _ Hr). Qed.

Lemma reading_part a k parts : reading h a = Some (Node parts) -> reading h (at_part a k) = part k parts.
Proof.
  unfold reading, at_part. cbn. destruct (h !! a_loc a) as [c|]; [|done]. cbn. intros Hg.
  rewrite -> get_app, Hg. cbn. by destruct (part k parts).
Qed.
End Heap.

Lemma writes_reading h a u h' : writes h a u h' -> reading h' a = Some u.
Proof. intros (_ & c & c' & _ & Hp & Hc'). unfold reading. rewrite -> Hc'. by eapply get_put. Qed.

Lemma writes_other h a u h' b : writes h a u h' -> b.(a_loc) <> a.(a_loc) -> is_Some (reading h b) ->
  reading h' b = reading h b.
Proof.
  intros [Ho _] Hne [x Hx]. unfold reading in *. rewrite -> Ho; [done| |done].
  destruct (h !! a_loc b); [by eexists|done].
Qed.

Lemma writes_lookup h a u h' l : writes h a u h' -> is_Some (h !! l) -> is_Some (h' !! l).
Proof.
  intros (Ho & c & c' & _ & _ & Hc') Hl. destruct (decide (l = a_loc a)) as [->|Hne]; [by eexists|]. by rewrite -> Ho.
Qed.

Lemma writes_nothing h a u h' l : writes h a u h' -> h' !! l = None -> h !! l = None.
Proof.
  intros Hw Hn. destruct (h !! l) eqn:Hl; [|done]. destruct (writes_lookup _ _ _ _ l Hw) as [c Hc]; [by eexists|].
  by rewrite -> Hn in Hc.
Qed.

(** Writes at the same place one after the other. *)
Lemma writes_trans h a u h1 v h2 : writes h a u h1 -> writes h1 a v h2 -> writes h a v h2.
Proof.
  intros Hw1 Hw2. pose proof Hw1 as (Ho1 & c & c1 & Hc & Hp1 & Hc1). pose proof Hw2 as (Ho2 & c1' & c2 & Hc1' & Hp2 & Hc2).
  split.
  - intros l Hl Hne. rewrite -> Ho2; [by apply Ho1| |done]. by eapply writes_lookup.
  - simplify_eq. exists c, c2. split; [done|]. split; [|done]. by rewrite <- (put_put _ _ _ _ _ Hp1).
Qed.

(** An allocation before a write. *)
Lemma writes_alloc h l c a u h' : h !! l = None -> is_Some (h !! a.(a_loc)) -> writes (<[l := c]> h) a u h' -> writes h a u h'.
Proof.
  intros Hn Ha (Ho & x & x' & Hx & Hp & Hx').
  assert (Hne : forall l', is_Some (h !! l') -> l' <> l) by (intros l' [? Hl'] ->; by rewrite -> Hn in Hl').
  split.
  - intros l' Hl' Hla. rewrite -> Ho; [| |done]; by rewrite -> lookup_insert_ne; [|by apply not_eq_sym, Hne].
  - exists x, x'. rewrite -> lookup_insert_ne in Hx; [done|]. by apply not_eq_sym, Hne.
Qed.

(** A write elsewhere afterwards, into memory that was not there. *)
Lemma writes_then h a u h1 b v h2 :
  writes h a u h1 -> writes h1 b v h2 -> h !! b.(a_loc) = None -> writes h a u h2.
Proof.
  intros Hw1 [Ho2 _] Hb. pose proof Hw1 as (Ho & c & c' & Hc & Hp & Hc').
  assert (Hne : forall l, is_Some (h !! l) -> l <> a_loc b) by (intros l [? Hl] ->; by rewrite -> Hb in Hl).
  split.
  - intros l Hl Hla. rewrite -> Ho2; [by apply Ho|by eapply writes_lookup|by apply Hne].
  - exists c, c'. split; [done|]. split; [done|]. rewrite -> Ho2; [done|by eexists|]. apply Hne. by eexists.
Qed.

(** Writing a part of a struct or an array. *)
Lemma writes_part h a k u parts h' :
  reading h a = Some (Node parts) -> is_Some (part k parts) -> writes h (at_part a k) u h' ->
  writes h a (Node (set_part k u parts)) h'.
Proof.
  intros Hr Hk (Ho & c & c' & Hc & Hp & Hc'). split; [exact Ho|]. exists c, c'. split; [exact Hc|]. split; [|exact Hc'].
  rewrite <- Hp. symmetry. apply put_part; [|exact Hk]. unfold reading in Hr. cbn in Hc. by rewrite -> Hc in Hr.
Qed.
