(* ===== verification/CopyRules.v ===== *)
(** * The rules of copying

    One rule for each statement of [Memory], from which [DeepCopy] proves every
    generated function: the assignment of a value without references, a pointer
    to a new variable, an array or a map made anew, the fields of a struct one
    after the other.  The shape of a Go type is a predicate on values in a
    heap, and type class search puts the rules together along it. *)

From S2P Require Import Prelude Kube Types Platform.
From S2P Require Import Memory.

(** ** Rule: parts one after the other *)

Lemma part_refs k parts u l : part k parts = Some u -> In l (refs u) -> In l (refs (Node parts)).
Proof.
  intros Hk Hl. cbn. induction parts as [|[k' u'] r IH]; [done|]. cbn in *. apply in_or_app.
  destruct (decide (k' = k)) as [Hkk|Hkk]; [injection Hk as ->; by left|right; by apply IH].
Qed.

Lemma reaches_part h k parts u l : part k parts = Some u -> reaches h u l -> reaches h (Node parts) l.
Proof.
  intros Hk Hr. destruct Hr as [u l Hin|u l c l' Hin Hc Hr]; [by eapply reaches_ref, part_refs|].
  eapply reaches_cell; [by eapply part_refs|exact Hc|exact Hr].
Qed.

Definition run_parts (steps : list (key * copier)) (i o : addr) : H unit :=
  each steps (fun s => s.2 (at_part i s.1) (at_part o s.1)).

(** What the part is after the steps. *)
Definition part_after (steps : list (key * copier)) (h : heap) (fvs gvs : list (key * val)) (h' : heap)
    (gvs' : list (key * val)) (k : key) : Prop :=
  if decide (k ∈ steps.*1)
  then exists u u', part k fvs = Some u /\ part k gvs' = Some u' /\ copied h u h' u'
  else part k gvs' = part k gvs.

(** A step copies the part it is for. *)
Definition step_ok (W : val -> val -> Prop) (h : heap) (fvs gvs : list (key * val)) (s : key * copier) : Prop :=
  exists T u w, Shape T /\ copies_over W T s.2 /\ part s.1 fvs = Some u /\ T h u /\ part s.1 gvs = Some w /\ W u w.

Section Parts.
Variable W : val -> val -> Prop.
Variables (i o : addr) (fvs : list (key * val)).
Hypothesis Hio : o.(a_loc) <> i.(a_loc).

(** What the steps rely on: the source is there and out of reach of the target. *)
Definition source_ok (h : heap) : Prop :=
  reading h i = Some (Node fvs) /\ closed h (Node fvs) /\ ~ reaches h (Node fvs) o.(a_loc).

Lemma source_agree h g h' :
  source_ok h -> writes h o g h' -> forall l, reaches h (Node fvs) l -> h' !! l = h !! l.
Proof. intros (_ & Hc & Hn) [Ho _] l Hl. apply Ho; [by apply Hc|]. by intros ->. Qed.

Lemma source_kept h g h' : source_ok h -> writes h o g h' -> source_ok h'.
Proof.
  intros Hs Hw. pose proof (source_agree _ _ _ Hs Hw) as Ha. destruct Hs as (Hr & Hc & Hn). split; [|split].
  - rewrite <- Hr. eapply writes_other; [exact Hw|by apply not_eq_sym|]. rewrite -> Hr. by eexists.
  - by apply (closed_agree h).
  - intros Hx. by apply Hn, (reaches_agree h h').
Qed.

Lemma step_kept h g h' gvs k u s :
  source_ok h -> writes h o g h' -> k <> s.1 -> step_ok W h fvs gvs s -> step_ok W h' fvs (set_part k u gvs) s.
Proof.
  intros Hs Hw Hk (T & x & w & HT & Hc & Hx & Ht & Hwp & HW). exists T, x, w.
  do 3 (split; [done|]). split; [|by rewrite -> part_set_other by auto].
  apply (shape_agree h); [exact Ht|]. intros l Hl. eapply source_agree; [exact Hs|exact Hw|by eapply reaches_part].
Qed.

Lemma parts_copied steps h gvs :
  source_ok h -> reading h o = Some (Node gvs) -> NoDup steps.*1 -> Forall (step_ok W h fvs gvs) steps ->
  exists h' gvs', run_parts steps i o h = Some (tt, h') /\ writes h o (Node gvs') h' /\ gvs'.*1 = gvs.*1 /\
    forall k, part_after steps h fvs gvs h' gvs' k.
Proof.
  induction steps as [|[k c] steps IH] in h, gvs |- *; intros Hs Ho Hnd Hall.
  { exists h, gvs. split; [done|]. split; [by apply writes_self|]. done. }
  apply NoDup_cons in Hnd as [Hk Hnd]. apply Forall_cons in Hall as [Hstep Hall].
  destruct Hstep as (T & u & w & HT & Hc & Hu & Ht & Hw & HW). cbn [fst snd] in *. pose proof Hs as (Hri & Hcl & Hn).
  destruct (Hc h (at_part i k) (at_part o k) u w) as (h1 & u1 & Hrun & Hcop & Hwr); [by rewrite -> (reading_part _ _ _ _ Hri)|
    exact Ht|by rewrite -> (reading_part _ _ _ _ Ho)|exact HW|exact Hio|intros Hr; by eapply Hn, reaches_part|].
  apply (writes_part _ _ _ _ gvs) in Hwr; [|exact Ho|by eexists].
  destruct (IH h1 (set_part k u1 gvs)) as (h2 & gvs2 & Hrun2 & Hwr2 & Hkeys & Hafter).
  - by eapply source_kept.
  - by eapply writes_reading.
  - exact Hnd.
  - rewrite -> Forall_forall in Hall |- *. intros s Hin. eapply step_kept; [exact Hs|exact Hwr| |by apply Hall].
    intros Heq. apply Hk. rewrite -> Heq. by apply (list_elem_of_fmap_2 fst) in Hin.
  - exists h2, gvs2. unfold run_parts in *. cbn [each fst snd]. unfold mbind, H_bind. rewrite -> Hrun.
    split; [exact Hrun2|]. split; [by eapply writes_trans|]. rewrite -> Hkeys, keys_set. split; [done|].
    intros k'. specialize (Hafter k'). unfold part_after in *. cbn [fmap list_fmap fst].
    destruct (decide (k' = k)) as [->|Hne].
    + rewrite -> decide_False in Hafter by done. rewrite -> decide_True by by left.
      exists u, u1. split; [exact Hu|]. rewrite -> Hafter. split; [by eapply part_set|].
      eapply copied_later; [exact Hcop|]. intros l Hl Hnone. apply Hwr2; [exact Hl|]. intros ->.
      destruct Hwr as (_ & ? & ? & Hx & _). by rewrite -> Hnone in Hx.
    + destruct (decide (k' ∈ steps.*1)) as [Hin|Hnin].
      * rewrite -> decide_True by by right. destruct Hafter as (x & x' & Hx & Hx' & Hcx). exists x, x'.
        split; [done|]. split; [done|]. eapply copied_earlier; [exact Hcx| |].
        -- intros l Hl. eapply source_agree; [exact Hs|exact Hwr|by eapply reaches_part].
        -- intros l. by eapply writes_nothing.
      * rewrite -> decide_False by by apply not_elem_of_cons. by rewrite -> Hafter, part_set_other.
Qed.
End Parts.

(** ** The shapes of Go types *)

(** Strings, numbers, booleans and whatever else holds no reference. *)
Definition Plain : heap -> val -> Prop := fun _ v => plain v.

Definition PointerTo (T : heap -> val -> Prop) : heap -> val -> Prop := fun h v =>
  v = Ref None \/ exists l c, v = Ref (Some l) /\ h !! l = Some c /\ T h c.

(** Elements are indexed from zero. *)
Definition indexed (parts : list (key * val)) : Prop := parts.*1 = Index <$> seq 0 (length parts).

Definition SliceOf (T : heap -> val -> Prop) : heap -> val -> Prop := fun h v =>
  v = Ref None \/ exists l parts, v = Ref (Some l) /\ h !! l = Some (Node parts) /\ indexed parts /\
    Forall (fun kv => T h kv.2) parts.

Definition StringEntries : heap -> val -> Prop := fun h v =>
  v = Ref None \/ exists l m, v = Ref (Some l) /\ h !! l = Some (Entries m).

Definition StructOf (fs : list (string * (heap -> val -> Prop))) : heap -> val -> Prop := fun h v =>
  exists parts, v = Node parts /\ Forall2 (fun f kv => kv.1 = Field f.1 /\ f.2 h kv.2) fs parts.

(** Types without references. *)
Class PlainType (T : heap -> val -> Prop) : Prop := plain_type h v : T h v -> plain v.
(** Types whose values are references or nil. *)
Class Nullable (T : heap -> val -> Prop) : Prop := nullable h v : T h v -> exists p, v = Ref p.
(** All fields of a struct have a shape. *)
Class Shapes (fs : list (string * (heap -> val -> Prop))) : Prop := shapes : Forall (fun f => Shape f.2) fs.
Class PlainTypes (fs : list (string * (heap -> val -> Prop))) : Prop := plain_types : Forall (fun f => PlainType f.2) fs.

#[export] Instance Plain_plain : PlainType Plain.
Proof. by intros h v. Qed.

Lemma plain_shape T : PlainType T -> (forall h h' v, T h v -> T h' v) -> Shape T.
Proof. intros HT Hi. split; [intros h v Hv l Hr; by apply HT, (plain_reaches h v l) in Hv|intros; by eapply Hi]. Qed.

#[export] Instance Plain_shape : Shape Plain.
Proof. apply plain_shape; [apply Plain_plain|by intros h h' v]. Qed.

#[export] Instance Pointer_nullable T : Nullable (PointerTo T).
Proof. intros h v [-> |(l & c & -> & _)]; by eexists. Qed.
#[export] Instance Slice_nullable T : Nullable (SliceOf T).
Proof. intros h v [-> |(l & c & -> & _)]; by eexists. Qed.
#[export] Instance StringEntries_nullable : Nullable StringEntries.
Proof. intros h v [-> |(l & c & -> & _)]; by eexists. Qed.

Lemma reaches_nil h l : ~ reaches h (Ref None) l.
Proof. by apply plain_reaches. Qed.

Lemma reaches_through h l c l' : h !! l = Some c -> reaches h c l' -> reaches h (Ref (Some l)) l'.
Proof. intros Hl Hr. eapply reaches_cell; [by left|exact Hl|exact Hr]. Qed.

Lemma reaches_here h l : reaches h (Ref (Some l)) l.
Proof. apply reaches_ref. by left. Qed.

Lemma reaches_ref_inv h l c l' : h !! l = Some c -> reaches h (Ref (Some l)) l' -> l' = l \/ reaches h c l'.
Proof.
  intros Hl Hr. inversion Hr as [? ? Hi|? l1 c0 ? Hi Hc0 Hr0]; subst; destruct Hi as [<-|[]]; [by left|right].
  by simplify_eq.
Qed.

Lemma closed_ref h l c : h !! l = Some c -> closed h c -> closed h (Ref (Some l)).
Proof. intros Hl Hc l' Hr. destruct (reaches_ref_inv _ _ _ _ Hl Hr) as [-> |Hr']; [by eexists|by apply Hc]. Qed.

Lemma reaches_node_inv h parts l : reaches h (Node parts) l -> exists kv, kv ∈ parts /\ reaches h kv.2 l.
Proof.
  assert (Hin : forall l0, In l0 (refs (Node parts)) -> exists kv, kv ∈ parts /\ In l0 (refs kv.2)).
  { intros l0. cbn. induction parts as [|[k u] r IH]; [done|]. intros [Hl|Hl]%in_app_or.
    - exists (k, u). split; [by left|done].
    - destruct (IH Hl) as (kv & Hkv & Hr). exists kv. split; [by right|done]. }
  intros Hr. inversion Hr as [? ? Hi|? l1 c0 ? Hi Hc0 Hr0]; subst; destruct (Hin _ Hi) as (kv & Hkv & Hx); exists kv;
    (split; [done|]); [by apply reaches_ref|by eapply reaches_cell].
Qed.

Lemma closed_node h parts : Forall (fun kv => closed h kv.2) parts -> closed h (Node parts).
Proof. rewrite -> Forall_forall. intros Hall l (kv & Hin & Hr)%reaches_node_inv. by apply (Hall kv). Qed.

Lemma reaches_element h parts kv l : kv ∈ parts -> reaches h kv.2 l -> reaches h (Node parts) l.
Proof.
  intros Hin Hr. assert (Hrefs : forall l0, In l0 (refs kv.2) -> In l0 (refs (Node parts))).
  { intros l0 Hl. cbn. induction Hin as [kv parts|kv [k' u'] parts Hin IH]; [destruct kv|]; apply in_or_app; auto. }
  destruct kv as [k u]. cbn in *. destruct Hr as [u l Hi|u l c l' Hi Hc Hr]; [by apply reaches_ref, Hrefs|].
  eapply reaches_cell; [by apply Hrefs|exact Hc|exact Hr].
Qed.

#[export] Instance Pointer_shape T : Shape T -> Shape (PointerTo T).
Proof.
  intros HT. split.
  - intros h v [-> |(l & c & -> & Hl & Hc)]; [intros l Hr; by apply reaches_nil in Hr|].
    by eapply closed_ref, shape_closed.
  - intros h h' v [-> |(l & c & -> & Hl & Hc)] Ha; [by left|right]. exists l, c. split; [done|].
    split; [by rewrite -> Ha by apply reaches_here|]. apply (shape_agree h); [exact Hc|].
    intros l' Hr. by eapply Ha, reaches_through.
Qed.

#[export] Instance Slice_shape T : Shape T -> Shape (SliceOf T).
Proof.
  intros HT. split.
  - intros h v [-> |(l & parts & -> & Hl & _ & Hall)]; [intros l Hr; by apply reaches_nil in Hr|].
    eapply closed_ref; [exact Hl|]. apply closed_node. eapply Forall_impl; [exact Hall|]. intros kv. apply shape_closed.
  - intros h h' v [-> |(l & parts & -> & Hl & Hi & Hall)] Ha; [by left|right]. exists l, parts. split; [done|].
    split; [by rewrite -> Ha by apply reaches_here|]. split; [exact Hi|].
    rewrite -> Forall_forall in Hall |- *. intros kv Hin. apply (shape_agree h); [by apply Hall|].
    intros l' Hr. by eapply Ha, reaches_through, reaches_element.
Qed.

#[export] Instance StringEntries_shape : Shape StringEntries.
Proof.
  split.
  - intros h v [-> |(l & m & -> & Hl)]; [intros l Hr; by apply reaches_nil in Hr|].
    eapply closed_ref; [exact Hl|]. intros l' Hr. by apply plain_reaches in Hr.
  - intros h h' v [-> |(l & m & -> & Hl)] Ha; [by left|right]. exists l, m. split; [done|].
    by rewrite -> Ha by apply reaches_here.
Qed.

#[export] Instance Struct_shape fs : Shapes fs -> Shape (StructOf fs).
Proof.
  intros Hfs. unfold Shapes in Hfs. split.
  - intros h v (parts & -> & Hall). apply closed_node. induction Hall as [|f kv fs' parts [_ Ht] Hall IH]; [done|].
    apply Forall_cons in Hfs as [Hf Hfs]. constructor; [by eapply shape_closed|by apply IH].
  - intros h h' v (parts & -> & Hall) Ha. exists parts. split; [done|].
    induction Hall as [|f kv fs' parts [Hk Ht] Hall IH]; [done|]. apply Forall_cons in Hfs as [Hf Hfs]. constructor.
    + split; [done|]. apply (shape_agree h); [exact Ht|]. intros l Hr. eapply Ha, reaches_element; [by left|exact Hr].
    + apply IH; [exact Hfs|]. intros l (kv' & Hin & Hr)%reaches_node_inv. eapply Ha, reaches_element; [by right|exact Hr].
Qed.

#[export] Instance Struct_plain fs : PlainTypes fs -> PlainType (StructOf fs).
Proof.
  intros Hfs h v (parts & -> & Hall). unfold PlainTypes in Hfs. unfold plain. cbn.
  induction Hall as [|f [k u] fs' parts [Hk Ht] Hall IH]; [done|]. apply Forall_cons in Hfs as [Hf Hfs]. cbn in *.
  rewrite -> (IH Hfs), app_nil_r. by eapply Hf.
Qed.

#[export] Instance Shapes_nil : Shapes [].
Proof. constructor. Qed.
#[export] Instance Shapes_cons f T fs : Shape T -> Shapes fs -> Shapes ((f, T) :: fs).
Proof. intros HT Hfs. by constructor. Qed.
#[export] Instance PlainTypes_nil : PlainTypes [].
Proof. constructor. Qed.
#[export] Instance PlainTypes_cons f T fs : PlainType T -> PlainTypes fs -> PlainTypes ((f, T) :: fs).
Proof. intros HT Hfs. by constructor. Qed.

(** ** Rules for the statements *)

Lemma copies_assign W T : PlainType T -> copies_over W T assign.
Proof.
  intros HT h i o u w Hi Ht Ho _ _ _. destruct (store_writes h o u w Ho) as (h' & Hs & Hw & _).
  exists h', u. unfold assign, mbind, H_bind. rewrite -> (load_reading _ _ _ Hi). split; [exact Hs|].
  split; [by eapply plain_copied, HT|exact Hw].
Qed.

#[export] Instance Copies_assign T : PlainType T -> Copies T assign.
Proof. apply copies_assign. Qed.

(** An embedded struct, copied over what [*out = *in] left. *)
#[export] Instance CopiesField_into T c : Copies T c -> CopiesField T c | 10.
Proof. intros Hc h i o u w Hi Ht Ho _. by eapply Hc. Qed.

#[export] Instance CopiesField_set T c : Nullable T -> CopiesSet T c -> CopiesField T (if_set c) | 5.
Proof.
  intros Hn Hc h i o u w Hi Ht Ho <- Hne Hr. unfold if_set, mbind, H_bind. rewrite -> (load_reading _ _ _ Hi).
  destruct (Hn h u Ht) as [[l|] ->]; [by apply (Hc h i o (Ref (Some l)) (Ref (Some l)))|].
  exists h, (Ref None). split; [done|]. split; [by apply plain_copied|by apply writes_self].
Qed.

(** The new cell and the reference to it: nothing of the source has changed, and
    the new cell is the target of what follows. *)
Lemma allocated h o w u c0 :
  reading h o = Some w -> closed h u -> ~ reaches h u o.(a_loc) ->
  exists l' h', h !! l' = None /\ h' !! l' = Some c0 /\ writes h o (Ref (Some l')) h' /\
    (forall l, reaches h u l -> h' !! l = h !! l) /\ (forall l, h' !! l = None -> h !! l = None) /\
    forall A (K : loc -> H A), (l ← alloc c0; store o (Ref (Some l));; K l) h = K l' h'.
Proof.
  intros Ho Hc Hr. destruct (alloc_fresh h c0) as (l' & Hn & Ha).
  assert (Hol : is_Some (h !! o.(a_loc))).
  { unfold reading in Ho. destruct (h !! o.(a_loc)); [by eexists|done]. }
  assert (Hne : l' <> o.(a_loc)) by (intros ->; rewrite -> Hn in Hol; by destruct Hol).
  assert (Ho' : reading (<[l' := c0]> h) o = Some w) by (unfold reading in *; by rewrite -> lookup_insert_ne).
  destruct (store_writes _ _ (Ref (Some l')) _ Ho') as (h' & Hs & Hw & Hdom). exists l', h'.
  assert (Hkeep : forall l, l <> a_loc o -> is_Some (<[l' := c0]> h !! l) -> h' !! l = <[l' := c0]> h !! l)
    by (intros l Hl Hx; by apply Hw).
  split; [exact Hn|]. split; [rewrite -> Hkeep; rewrite -> ?lookup_insert_eq; [done|exact Hne|by eexists]|].
  split; [by eapply writes_alloc|]. split; [|split].
  - intros l Hl. assert (Hll : l' <> l) by (intros ->; destruct (Hc _ Hl) as [? Hx]; by rewrite -> Hn in Hx).
    rewrite -> Hkeep; rewrite -> ?lookup_insert_ne by done; [done|by intros ->|by apply Hc].
  - intros l Hl. apply Hdom in Hl. destruct (decide (l' = l)) as [<-|Hll]; [done|]. by rewrite -> lookup_insert_ne in Hl.
  - intros A K. unfold mbind, H_bind. rewrite -> Ha. by rewrite -> Hs.
Qed.

(** What was copied into the new cell is what the reference now leads to. *)
Lemma copied_through h l c o l' h1 c' h2 :
  h !! l = Some c -> h !! l' = None -> writes h o (Ref (Some l')) h1 ->
  (forall l0, reaches h c l0 -> h1 !! l0 = h !! l0) -> (forall l0, h1 !! l0 = None -> h !! l0 = None) ->
  copied h1 c h2 c' -> writes h1 (whole l') c' h2 ->
  copied h (Ref (Some l)) h2 (Ref (Some l')) /\ writes h o (Ref (Some l')) h2.
Proof.
  intros Hl Hn Hw Ha Hd Hc Hw'. split.
  - apply (copied_ref h h2 l l' c c'); [exact Hl| |exact Hn|by eapply copied_earlier].
    pose proof (writes_reading _ _ _ _ Hw') as Hr. unfold reading, whole in Hr. cbn in Hr.
    destruct (h2 !! l') as [x|]; [by injection Hr as ->|done].
  - by eapply writes_then.
Qed.

(** A reference that is not nil: its cell, which the target cannot be reached from. *)
Lemma source_cell h i o l c :
  reading h i = Some (Ref (Some l)) -> h !! l = Some c -> ~ reaches h (Ref (Some l)) o ->
  l <> o /\ ~ reaches h c o.
Proof.
  intros Hi Hl Hr. split; [intros <-; apply Hr, reaches_here|]. intros Hx. by eapply Hr, reaches_through.
Qed.

#[export] Instance CopiesSet_new T c : Shape T -> Copies T c -> CopiesSet (PointerTo T) (new_copy c).
Proof.
  intros HT Hc h i o u w Hi [-> |(l & cell & -> & Hl & Ht)] Ho Hnn Hio Hr; [by destruct Hnn|].
  pose proof (closed_ref _ _ _ Hl (shape_closed _ _ Ht)) as Hcl.
  destruct (allocated h o w _ Zero Ho Hcl Hr) as (l' & h1 & Hn & Hl' & Hw & Ha & Hd & Hrun).
  destruct (source_cell _ _ _ _ _ Hi Hl Hr) as [Hlo Hro].
  assert (Hl1 : h1 !! l = Some cell) by (rewrite -> Ha; [exact Hl|apply reaches_here]).
  assert (Hac : forall l0, reaches h cell l0 -> h1 !! l0 = h !! l0) by (intros l0 H0; by eapply Ha, reaches_through).
  destruct (Hc h1 (whole l) (whole l') cell Zero) as (h2 & c' & Hrun2 & Hcop & Hw2).
  - by apply reading_whole.
  - by apply (shape_agree h).
  - by apply reading_whole.
  - done.
  - cbn. intros ->. by rewrite -> Hl in Hn.
  - cbn. intros Hx. apply (reaches_agree h) in Hx; [|exact Hac]. destruct (shape_closed _ _ Ht _ Hx) as [? Hy]. by rewrite -> Hn in Hy.
  - exists h2, (Ref (Some l')). split.
    + unfold new_copy. rewrite -> Hrun. unfold mbind, H_bind.
      rewrite -> (deref_reading h1 i l), (deref_reading h1 o l'); [exact Hrun2|by eapply writes_reading|].
      rewrite -> (writes_other _ _ _ _ _ Hw); [exact Hi|by apply not_eq_sym|by rewrite -> Hi; eexists].
    + by eapply copied_through.
Qed.

Lemma each_fmap {A B} (g : A -> B) l (f : B -> H unit) h : each (g <$> l) f h = each l (fun x => f (g x)) h.
Proof.
  induction l as [|x l IH] in h |- *; [done|]. cbn [fmap list_fmap each]. unfold mbind, H_bind.
  destruct (f (g x) h) as [[u h']|]; [apply IH|done].
Qed.

Lemma part_in k u parts : NoDup parts.*1 -> (k, u) ∈ parts -> part k parts = Some u.
Proof.
  induction parts as [|[k' u'] r IH]; cbn; [by intros _ ?%elem_of_nil|]. intros [Hk Hnd]%NoDup_cons [[= -> ->]|Hin]%elem_of_cons.
  - by rewrite -> decide_True.
  - rewrite -> decide_False; [by apply IH|]. intros ->. apply (list_elem_of_fmap_2 fst) in Hin. by apply Hk.
Qed.

Lemma part_elem k u parts : part k parts = Some u -> (k, u) ∈ parts.
Proof.
  induction parts as [|[k' u'] r IH]; cbn; [done|]. destruct (decide (k' = k)) as [->|Hk]; [intros [= ->]; by left|].
  intros Hp. right. by apply IH.
Qed.

(** Parts with the same keys, each a copy of its counterpart. *)
Lemma copied_parts h h' fvs gvs :
  gvs.*1 = fvs.*1 -> NoDup fvs.*1 ->
  (forall k u, part k fvs = Some u -> exists u', part k gvs = Some u' /\ copied h u h' u') ->
  copied h (Node fvs) h' (Node gvs).
Proof.
  intros Hk Hnd Hall. apply copied_node. induction fvs as [|[k u] fvs IH] in gvs, Hk, Hnd, Hall |- *.
  - by destruct gvs.
  - destruct gvs as [|[k' u'] gvs]; [done|]. cbn in Hk. injection Hk as -> Hk. apply NoDup_cons in Hnd as [Hnin Hnd].
    constructor.
    + split; [done|]. destruct (Hall k u) as (x & Hx & Hc); [cbn; by rewrite -> decide_True|]. cbn in Hx |- *.
      rewrite -> decide_True in Hx by done. by injection Hx as ->.
    + apply IH; [exact Hk|exact Hnd|]. intros k0 u0 H0. assert (Hne : k <> k0).
      { intros ->. by apply part_elem, (list_elem_of_fmap_2 fst) in H0. }
      destruct (Hall k0 u0) as (x & Hx & Hc); [cbn; by rewrite -> decide_False|]. exists x. split; [|exact Hc].
      cbn in Hx. by rewrite -> decide_False in Hx.
Qed.

Lemma Index_NoDup n : NoDup (Index <$> seq 0 n).
Proof. apply NoDup_fmap_2; [by intros x y [= ->]|apply NoDup_seq]. Qed.

Lemma zeros_part n i : i < n -> part (Index i) ((fun i => (Index i, Zero)) <$> seq 0 n) = Some Zero.
Proof.
  intros Hi. apply part_in; [rewrite <- list_fmap_compose; apply Index_NoDup|].
  apply (list_elem_of_fmap_2 (fun i => (Index i, Zero))), elem_of_seq. lia.
Qed.

(** The elements of an array, each copied into a new one. *)
Lemma elements_copied T c h i o parts n :
  Shape T -> Copies T c -> n = length parts -> indexed parts -> Forall (fun kv => T h kv.2) parts ->
  reading h i = Some (Node parts) -> reading h o = Some (zeros n) -> o.(a_loc) <> i.(a_loc) ->
  ~ reaches h (Node parts) o.(a_loc) ->
  exists h' parts', each (seq 0 n) (fun j => c (at_part i (Index j)) (at_part o (Index j))) h = Some (tt, h') /\
    copied h (Node parts) h' (Node parts') /\ writes h o (Node parts') h'.
Proof.
  intros HT Hc -> Hidx Hall Hi Ho Hio Hr. pose proof (Index_NoDup (length parts)) as Hnd.
  set (steps := (fun j => (Index j, c)) <$> seq 0 (length parts)).
  assert (Hsteps : steps.*1 = parts.*1) by (unfold steps; rewrite <- list_fmap_compose; by rewrite -> Hidx).
  rewrite <- Hidx in Hnd.
  destruct (parts_copied anything i o parts Hio steps h ((fun i => (Index i, Zero)) <$> seq 0 (length parts)))
    as (h' & gvs' & Hrun & Hw & Hkeys & Hafter).
  - split; [exact Hi|]. split; [|exact Hr]. apply closed_node. eapply Forall_impl; [exact Hall|]. intros kv. apply shape_closed.
  - exact Ho.
  - by rewrite -> Hsteps.
  - apply Forall_forall. intros s (j & -> & Hj%elem_of_seq)%list_elem_of_fmap. cbn.
    assert (Hin : Index j ∈ parts.*1) by (rewrite -> Hidx; apply list_elem_of_fmap_2, elem_of_seq; lia).
    apply list_elem_of_fmap in Hin as ([k u] & Hk & Hin). cbn in Hk. subst k. exists T, u, Zero.
    split; [done|]. split; [exact Hc|]. split; [by apply part_in|]. rewrite -> Forall_forall in Hall.
    split; [exact (Hall _ Hin)|]. split; [apply zeros_part; lia|done].
  - exists h', gvs'. split; [unfold steps, run_parts in Hrun; by rewrite -> each_fmap in Hrun|]. split; [|exact Hw].
    apply copied_parts; [|exact Hnd|].
    + rewrite -> Hkeys, Hidx, <- list_fmap_compose. done.
    + intros k u Hu. specialize (Hafter k). unfold part_after in Hafter. rewrite -> decide_True in Hafter.
      * destruct Hafter as (x & x' & Hx & Hx' & Hcx). exists x'. split; [exact Hx'|]. by simplify_eq.
      * rewrite -> Hsteps. by apply part_elem, (list_elem_of_fmap_2 fst) in Hu.
Qed.

#[export] Instance CopiesSet_make T c : Shape T -> Copies T c -> CopiesSet (SliceOf T) (make_each c).
Proof.
  intros HT Hc h i o u w Hi [-> |(l & parts & -> & Hl & Hidx & Hall)] Ho Hnn Hio Hr; [by destruct Hnn|].
  assert (Hcp : closed h (Node parts)).
  { apply closed_node. eapply Forall_impl; [exact Hall|]. intros kv. apply shape_closed. }
  pose proof (closed_ref _ _ _ Hl Hcp) as Hcl.
  destruct (allocated h o w _ (zeros (length parts)) Ho Hcl Hr) as (l' & h1 & Hn & Hl' & Hw & Ha & Hd & Hrun).
  destruct (source_cell _ _ _ _ _ Hi Hl Hr) as [Hlo Hro].
  assert (Hl1 : h1 !! l = Some (Node parts)) by (rewrite -> Ha; [exact Hl|apply reaches_here]).
  assert (Hac : forall l0, reaches h (Node parts) l0 -> h1 !! l0 = h !! l0) by (intros l0 H0; by eapply Ha, reaches_through).
  destruct (elements_copied T c h1 (whole l) (whole l') parts (length parts)) as (h2 & parts' & Hrun2 & Hcop & Hw2).
  - done.
  - exact Hc.
  - done.
  - exact Hidx.
  - rewrite -> Forall_forall in Hall |- *. intros kv Hin. apply (shape_agree h); [by apply Hall|].
    intros l0 H0. by eapply Hac, reaches_element.
  - by apply reading_whole.
  - by apply reading_whole.
  - cbn. intros ->. by rewrite -> Hl in Hn.
  - cbn. intros Hx. apply (reaches_agree h) in Hx; [|exact Hac]. destruct (Hcp _ Hx) as [? Hy]. by rewrite -> Hn in Hy.
  - exists h2, (Ref (Some l')). split.
    + unfold make_each. unfold mbind at 1, H_bind at 1. rewrite -> (deref_reading h i l Hi). unfold mbind at 1, H_bind at 1.
      rewrite -> (load_reading h (whole l) (Node parts)) by by apply reading_whole. unfold mbind at 1, H_bind at 1.
      cbn [elements]. rewrite -> Hrun. unfold mbind, H_bind. by rewrite -> (deref_reading h1 o l') by by eapply writes_reading.
    + by eapply copied_through.
Qed.

(** The entries of a map, set one after the other. *)
Definition set_entries (l : list (string * string)) (m : gmap string string) : gmap string string :=
  foldl (fun m kv => <[kv.1 := kv.2]> m) m l.

Lemma set_entries_app l m : set_entries l m = list_to_map (reverse l) ∪ m.
Proof.
  induction l as [|[k v] l IH] in m |- *; [rewrite -> reverse_nil; symmetry; apply (left_id_L ∅ (∪))|].
  change (set_entries ((k, v) :: l) m) with (set_entries l (<[k := v]> m)). rewrite -> IH, reverse_cons.
  rewrite -> list_to_map_app, insert_union_singleton_l, (assoc_L (∪)). reflexivity.
Qed.

Lemma map_range_entries `{MapRangeLaws} (m : gmap string string) : set_entries (map_range m) ∅ = m.
Proof.
  rewrite -> set_entries_app, (right_id_L ∅ (∪)). rewrite <- (list_to_map_to_list m) at 2.
  apply list_to_map_proper.
  - rewrite -> fmap_reverse, reverse_Permutation, map_range_perm. apply NoDup_fst_map_to_list.
  - by rewrite -> reverse_Permutation, map_range_perm.
Qed.

Lemma entries_loop l h l' m :
  h !! l' = Some (Entries m) ->
  exists h', each l (fun kv => v ← load (whole l');
      match v with Entries m' => store (whole l') (Entries (<[kv.1 := kv.2]> m')) | _ => stuck end) h = Some (tt, h') /\
    writes h (whole l') (Entries (set_entries l m)) h'.
Proof.
  induction l as [|[k v] l IH] in h, m |- *; intros Hl.
  { exists h. split; [done|]. by apply writes_self, reading_whole. }
  destruct (store_writes h (whole l') (Entries (<[k := v]> m)) (Entries m)) as (h1 & Hs & Hw & _); [by apply reading_whole|].
  destruct (IH h1 (<[k := v]> m)) as (h2 & Hrun & Hw2).
  { apply writes_reading in Hw. unfold reading, whole in Hw. cbn in Hw. by destruct (h1 !! l') as [x|]; [injection Hw as ->|]. }
  exists h2. split; [|by eapply writes_trans]. cbn [each fst snd]. rewrite -> (bind_some _ _ h tt h1); [exact Hrun|].
  rewrite -> (bind_some _ _ h (Entries m) h); [exact Hs|by apply load_reading, reading_whole].
Qed.

#[export] Instance CopiesSet_map `{MapRangeLaws} : CopiesSet StringEntries make_map.
Proof.
  intros h i o u w Hi [-> |(l & m & -> & Hl)] Ho Hnn Hio Hr; [by destruct Hnn|].
  assert (Hcl : closed h (Ref (Some l))).
  { eapply closed_ref; [exact Hl|]. intros l0 Hx. by apply plain_reaches in Hx. }
  destruct (allocated h o w _ (Entries ∅) Ho Hcl Hr) as (l' & h1 & Hn & Hl' & Hw & Ha & Hd & Hrun).
  assert (Hac : forall l0, reaches h (Entries m) l0 -> h1 !! l0 = h !! l0) by (intros l0 Hx; by apply plain_reaches in Hx).
  destruct (entries_loop (map_range m) h1 l' ∅ Hl') as (h2 & Hrun2 & Hw2). rewrite -> map_range_entries in Hw2.
  exists h2, (Ref (Some l')). split.
  - unfold make_map. unfold mbind at 1, H_bind at 1. rewrite -> (deref_reading h i l Hi). unfold mbind at 1, H_bind at 1.
    rewrite -> (load_reading h (whole l) (Entries m)) by by apply reading_whole. rewrite -> Hrun.
    unfold mbind at 1, H_bind at 1. rewrite -> (deref_reading h1 o l') by by eapply writes_reading. exact Hrun2.
  - eapply copied_through; [exact Hl|exact Hn|exact Hw|exact Hac|exact Hd| |exact Hw2]. by apply plain_copied.
Qed.

(** ** Structs *)

(** A statement for every field that holds references. *)
Inductive Fields : list (string * (heap -> val -> Prop)) -> list (string * copier) -> Prop :=
  | fields_nil : Fields [] []
  | fields_plain f T fs stmts : PlainType T -> Fields fs stmts -> Fields ((f, T) :: fs) stmts
  | fields_stmt f T fs c stmts :
      Shape T -> CopiesField T c -> Fields fs stmts -> Fields ((f, T) :: fs) ((f, c) :: stmts).

Definition field_names (fs : list (string * (heap -> val -> Prop))) : list string := fs.*1.

Lemma struct_keys h fs parts :
  Forall2 (fun f kv => kv.1 = Field f.1 /\ f.2 h kv.2) fs parts -> parts.*1 = Field <$> field_names fs.
Proof. induction 1 as [|f kv fs parts [Hk _] _ IH]; [done|]. cbn. by rewrite -> Hk, IH. Qed.

(** Every statement is for a field it copies, and every other field is plain. *)
Lemma fields_cover h fs stmts parts :
  Fields fs stmts -> Forall2 (fun f kv => kv.1 = Field f.1 /\ f.2 h kv.2) fs parts ->
  (forall s, s ∈ stmts -> exists T u, Shape T /\ CopiesField T s.2 /\ (Field s.1, u) ∈ parts /\ T h u) /\
  (forall k u, (k, u) ∈ parts -> plain u \/ exists s, s ∈ stmts /\ k = Field s.1) /\
  stmts.*1 `sublist_of` field_names fs.
Proof.
  intros Hf. induction Hf as [|f T fs stmts HT Hf IH|f T fs c stmts HT Hc Hf IH] in parts |- *; intros Hall.
  - inversion Hall; subst. split; [by intros s ?%elem_of_nil|]. split; [by intros k u ?%elem_of_nil|constructor].
  - inversion Hall as [|? [k u] ? parts' [Hk Ht] Hall']; subst. cbn in Hk, Ht. subst k.
    destruct (IH _ Hall') as (H1 & H2 & H3). split; [|split].
    + intros s Hs. destruct (H1 s Hs) as (T' & u' & ? & ? & ? & ?). exists T', u'. by do 2 (split; [done|]); split; [right|].
    + intros k u' [[= -> ->]|Hin]%elem_of_cons; [left; by eapply HT|by apply H2].
    + by apply sublist_cons.
  - inversion Hall as [|? [k u] ? parts' [Hk Ht] Hall']; subst. cbn in Hk, Ht. subst k.
    destruct (IH _ Hall') as (H1 & H2 & H3). split; [|split].
    + intros s [-> |Hs]%elem_of_cons; [exists T, u; by do 2 (split; [done|]); split; [left|]|].
      destruct (H1 s Hs) as (T' & u' & ? & ? & ? & ?). exists T', u'. by do 2 (split; [done|]); split; [right|].
    + intros k u' [[= -> ->]|Hin]%elem_of_cons; [right; exists (f, c); by split; [left|]|].
      destruct (H2 k u' Hin) as [Hp|(s & Hs & ->)]; [by left|right; exists s; by split; [right|]].
    + by apply sublist_skip.
Qed.

Lemma copies_struct fs stmts :
  Fields fs stmts -> Shapes fs -> NoDup (field_names fs) -> Copies (StructOf fs) (copy_struct stmts).
Proof.
  intros Hf Hsh Hnd h i o u w Hi Ht Ho _ Hio Hr.
  pose proof (shape_closed h u Ht) as Hcl. destruct Ht as (parts & -> & Hall).
  pose proof (struct_keys _ _ _ Hall) as Hkeys. destruct (fields_cover _ _ _ _ Hf Hall) as (Hst & Hcov & Hsub).
  assert (Hndk : NoDup parts.*1) by (rewrite -> Hkeys; by apply NoDup_fmap_2; [intros x y [= ->]|]).
  destruct (store_writes h o (Node parts) w Ho) as (h1 & Hs & Hw & Hd).
  assert (Hsrc : source_ok i o parts h) by done.
  pose proof (source_agree i o parts h _ h1 Hsrc Hw) as Ha.
  pose proof (source_kept i o parts Hio h _ h1 Hsrc Hw) as Hsrc1.
  set (steps := (fun s => (Field s.1, s.2)) <$> stmts).
  assert (Hks : steps.*1 = Field <$> stmts.*1) by (unfold steps; by rewrite <- !list_fmap_compose).
  destruct (parts_copied eq i o parts Hio steps h1 parts Hsrc1) as (h2 & gvs & Hrun & Hw2 & Hk2 & Hafter).
  - by eapply writes_reading.
  - rewrite -> Hks. apply NoDup_fmap_2; [by intros x y [= ->]|]. by eapply sublist_NoDup.
  - apply Forall_forall. intros s (s0 & -> & Hs0)%list_elem_of_fmap. destruct (Hst s0 Hs0) as (T & x & HT & Hc & Hin & Htx).
    exists T, x, x. cbn. split; [exact HT|]. split; [exact Hc|]. pose proof (part_in _ _ _ Hndk Hin) as Hp. split; [exact Hp|].
    split; [|by split]. apply (shape_agree h); [exact Htx|]. intros l Hl. by eapply Ha, reaches_part.
  - exists h2, (Node gvs). split; [|split].
    + unfold copy_struct, assign. unfold mbind at 1 2, H_bind at 1 2. rewrite -> (load_reading _ _ _ Hi), Hs.
      unfold steps, run_parts in Hrun. by rewrite -> each_fmap in Hrun.
    + apply copied_parts; [exact Hk2|exact Hndk|]. intros k x Hx. specialize (Hafter k). unfold part_after in Hafter.
      destruct (Hcov k x (part_elem _ _ _ Hx)) as [Hp|(s & Hs0 & ->)].
      * destruct (decide (k ∈ steps.*1)); [|exists x; rewrite -> Hafter; split; [exact Hx|by apply plain_copied]].
        destruct Hafter as (y & y' & Hy & Hy' & Hcy). simplify_eq. exists y'. split; [exact Hy'|].
        eapply copied_earlier; [exact Hcy| |exact Hd]. intros l Hl. by apply plain_reaches in Hl.
      * rewrite -> decide_True in Hafter.
        -- destruct Hafter as (y & y' & Hy & Hy' & Hcy). simplify_eq. exists y'. split; [exact Hy'|].
           eapply copied_earlier; [exact Hcy| |exact Hd]. intros l Hl. by eapply Ha, reaches_part.
        -- rewrite -> Hks. by apply list_elem_of_fmap_2, list_elem_of_fmap_2.
    + by eapply writes_trans.
Qed.

(** ** [DeepCopy] *)

Lemma deep_copy_copies T c h l v :
  Shape T -> Copies T c -> h !! l = Some v -> T h v ->
  exists h' l' v', deep_copy c (Some l) h = Some (Some l', h') /\ h !! l' = None /\ h' !! l' = Some v' /\
    copied h v h' v' /\ (forall l0, is_Some (h !! l0) -> h' !! l0 = h !! l0).
Proof.
  intros HT Hc Hl Ht. destruct (alloc_fresh h Zero) as (l' & Hn & Ha). set (h1 := <[l' := Zero]> h) in *.
  assert (Hold : forall l0, is_Some (h !! l0) -> h1 !! l0 = h !! l0).
  { intros l0 [? Hx]. unfold h1. rewrite -> lookup_insert_ne; [done|]. intros ->. by rewrite -> Hx in Hn. }
  assert (Hag : forall l0, reaches h v l0 -> h1 !! l0 = h !! l0) by (intros l0 Hr; by apply Hold, (shape_closed _ _ Ht)).
  assert (Hne : l' <> l) by (intros ->; by rewrite -> Hl in Hn).
  destruct (Hc h1 (whole l) (whole l') v Zero) as (h2 & v' & Hrun & Hcop & Hw).
  - apply reading_whole. rewrite -> Hold; [done|by eexists].
  - by apply (shape_agree h).
  - apply reading_whole. unfold h1. by rewrite -> lookup_insert_eq.
  - done.
  - exact Hne.
  - cbn. intros Hx. apply (reaches_agree h) in Hx; [|exact Hag]. destruct (shape_closed _ _ Ht _ Hx) as [? Hy]. by rewrite -> Hn in Hy.
  - exists h2, l', v'. split; [|split; [exact Hn|split; [|split]]].
    + unfold deep_copy. rewrite -> (bind_some _ _ h l' h1) by exact Ha. by rewrite -> (bind_some _ _ h1 tt h2).
    + apply writes_reading in Hw. unfold reading, whole in Hw. cbn in Hw. by destruct (h2 !! l') as [x|]; [injection Hw as ->|].
    + eapply copied_earlier; [exact Hcop|exact Hag|]. intros l0 Hx. unfold h1 in Hx.
      destruct (decide (l' = l0)) as [<-|Hd]; [exact Hn|by rewrite -> lookup_insert_ne in Hx].
    + intros l0 Hx. destruct Hw as [Ho _]. rewrite -> Ho; [by apply Hold|by rewrite -> Hold|].
      cbn. intros ->. destruct Hx as [? Hx]. by rewrite -> Hn in Hx.
Qed.

(** ** Library types *)

(** A type of another package: its values and its [DeepCopyInto]. *)
Class ForeignCopies := {
  foreign_ok : string -> heap -> val -> Prop;
  foreign_into : string -> copier
}.

(** The documented contract of [DeepCopyInto]. *)
Class ForeignCopiesLaws `{ForeignCopies} : Prop := {
  foreign_shape name : Shape (foreign_ok name);
  foreign_copies name : Copies (foreign_ok name) (foreign_into name)
}.

#[export] Instance Foreign_shape `{ForeignCopiesLaws} name : Shape (foreign_ok name).
Proof. apply foreign_shape. Qed.
#[export] Instance Foreign_copies `{ForeignCopiesLaws} name : Copies (foreign_ok name) (foreign_into name).
Proof. apply foreign_copies. Qed.

(** Types whose values hold no references satisfy it. *)
#[local] Instance std_ForeignCopies : ForeignCopies := {
  foreign_ok name := Plain;
  foreign_into name := assign
}.

#[local] Instance std_ForeignCopiesLaws : ForeignCopiesLaws.
Proof. split; intros name; apply _. Qed.

(** ** Automation: a struct's statements cover its fields *)

Ltac solve_fields :=
  lazymatch goal with
  | |- Fields [] _ => apply fields_nil
  | |- Fields ((?f, _) :: _) ((?f, _) :: _) => apply fields_stmt; [apply _|apply _|solve_fields]
  | |- Fields _ _ => apply fields_plain; [apply _|solve_fields]
  end.
Ltac solve_struct :=
  apply copies_struct; [solve_fields|apply _|apply (bool_decide_unpack _); vm_compute; exact I].
