(* ===== verification/DeepCopy.v ===== *)
(** * The generated deep copies: [api/v1alpha1/zz_generated.deepcopy.go]

    controller-gen writes a [DeepCopyInto] and a [DeepCopy] for every type of
    the API package, from the package as it was when it ran: a field added since
    would be shared between a value and its copy.  For every type there is its
    shape, from [cashumint_types.go], the two functions, statement for statement,
    and the proof that they fit, for any number, order and kind of fields.

    The reconciler relies on it: [reconcileConfigMap] writes resolved
    credentials into [cashuMint.DeepCopy()]. *)

From S2P Require Import Prelude Kube Types Platform.
From S2P Require Import Memory CopyRules.

(** ** Types and their functions *)

Section Copies.
Context `{MapRangeLaws, ForeignCopiesLaws}.

(** [cashumint_types.go: PostgresAutoProvisionSpec] *)
Definition PostgresAutoProvisionSpec_type : heap -> val -> Prop :=
  StructOf
    [("StorageSize", Plain); ("StorageClassName", PointerTo Plain);
     ("Resources", PointerTo (foreign_ok "corev1.ResourceRequirements")); ("Version", Plain)].

(** [zz_generated.deepcopy.go: PostgresAutoProvisionSpec.DeepCopyInto] *)
Definition PostgresAutoProvisionSpec_DeepCopyInto : copier :=
  copy_struct
    [("StorageClassName", if_set (new_copy assign));
     ("Resources", if_set (new_copy (foreign_into "corev1.ResourceRequirements")))].

(** [zz_generated.deepcopy.go: PostgresAutoProvisionSpec.DeepCopy] *)
Definition PostgresAutoProvisionSpec_DeepCopy : option loc -> H (option loc) :=
  deep_copy PostgresAutoProvisionSpec_DeepCopyInto.

#[export] Instance PostgresAutoProvisionSpec_shape : Shape PostgresAutoProvisionSpec_type.
Proof. unfold PostgresAutoProvisionSpec_type. apply _. Qed.
#[export] Instance PostgresAutoProvisionSpec_copies :
  Copies PostgresAutoProvisionSpec_type PostgresAutoProvisionSpec_DeepCopyInto.
Proof. unfold PostgresAutoProvisionSpec_type, PostgresAutoProvisionSpec_DeepCopyInto. solve_struct. Qed.

(** [cashumint_types.go: PostgresConfig] *)
Definition PostgresConfig_type : heap -> val -> Prop :=
  StructOf
    [("URL", Plain); ("URLSecretRef", PointerTo (foreign_ok "corev1.SecretKeySelector")); ("TLSMode", Plain);
     ("MaxConnections", PointerTo Plain); ("ConnectionTimeoutSeconds", PointerTo Plain);
     ("AutoProvision", Plain); ("AutoProvisionSpec", PointerTo PostgresAutoProvisionSpec_type)].

(** [zz_generated.deepcopy.go: PostgresConfig.DeepCopyInto] *)
Definition PostgresConfig_DeepCopyInto : copier :=
  copy_struct
    [("URLSecretRef", if_set (new_copy (foreign_into "corev1.SecretKeySelector")));
     ("MaxConnections", if_set (new_copy assign)); ("ConnectionTimeoutSeconds", if_set (new_copy assign));
     ("AutoProvisionSpec", if_set (new_copy PostgresAutoProvisionSpec_DeepCopyInto))].

(** [zz_generated.deepcopy.go: PostgresConfig.DeepCopy] *)
Definition PostgresConfig_DeepCopy : option loc -> H (option loc) :=
  deep_copy PostgresConfig_DeepCopyInto.

#[export] Instance PostgresConfig_shape : Shape PostgresConfig_type.
Proof. unfold PostgresConfig_type. apply _. Qed.
#[export] Instance PostgresConfig_copies :
  Copies PostgresConfig_type PostgresConfig_DeepCopyInto.
Proof. unfold PostgresConfig_type, PostgresConfig_DeepCopyInto. solve_struct. Qed.

(** [cashumint_types.go: AuthDatabaseConfig] *)
Definition AuthDatabaseConfig_type : heap -> val -> Prop :=
  StructOf
    [("Postgres", PointerTo PostgresConfig_type)].

(** [zz_generated.deepcopy.go: AuthDatabaseConfig.DeepCopyInto] *)
Definition AuthDatabaseConfig_DeepCopyInto : copier :=
  copy_struct
    [("Postgres", if_set (new_copy PostgresConfig_DeepCopyInto))].

(** [zz_generated.deepcopy.go: AuthDatabaseConfig.DeepCopy] *)
Definition AuthDatabaseConfig_DeepCopy : option loc -> H (option loc) :=
  deep_copy AuthDatabaseConfig_DeepCopyInto.

#[export] Instance AuthDatabaseConfig_shape : Shape AuthDatabaseConfig_type.
Proof. unfold AuthDatabaseConfig_type. apply _. Qed.
#[export] Instance AuthDatabaseConfig_copies :
  Copies AuthDatabaseConfig_type AuthDatabaseConfig_DeepCopyInto.
Proof. unfold AuthDatabaseConfig_type, AuthDatabaseConfig_DeepCopyInto. solve_struct. Qed.

(** [cashumint_types.go: AuthConfig] *)
Definition AuthConfig_type : heap -> val -> Prop :=
  StructOf
    [("Enabled", Plain); ("OpenIDDiscovery", Plain); ("OpenIDClientID", Plain);
     ("MintMaxBat", PointerTo Plain); ("Mint", Plain); ("GetMintQuote", Plain); ("CheckMintQuote", Plain);
     ("Melt", Plain); ("GetMeltQuote", Plain); ("CheckMeltQuote", Plain); ("Swap", Plain); ("Restore", Plain);
     ("CheckProofState", Plain); ("Database", PointerTo AuthDatabaseConfig_type)].

(** [zz_generated.deepcopy.go: AuthConfig.DeepCopyInto] *)
Definition AuthConfig_DeepCopyInto : copier :=
  copy_struct
    [("MintMaxBat", if_set (new_copy assign)); ("Database", if_set (new_copy AuthDatabaseConfig_DeepCopyInto))].

(** [zz_generated.deepcopy.go: AuthConfig.DeepCopy] *)
Definition AuthConfig_DeepCopy : option loc -> H (option loc) :=
  deep_copy AuthConfig_DeepCopyInto.

#[export] Instance AuthConfig_shape : Shape AuthConfig_type.
Proof. unfold AuthConfig_type. apply _. Qed.
#[export] Instance AuthConfig_copies :
  Copies AuthConfig_type AuthConfig_DeepCopyInto.
Proof. unfold AuthConfig_type, AuthConfig_DeepCopyInto. solve_struct. Qed.

(** [cashumint_types.go: S3BackupConfig] *)
Definition S3BackupConfig_type : heap -> val -> Prop :=
  StructOf
    [("Bucket", Plain); ("Prefix", Plain); ("Region", Plain); ("Endpoint", Plain);
     ("AccessKeyIDSecretRef", foreign_ok "corev1.SecretKeySelector");
     ("SecretAccessKeySecretRef", foreign_ok "corev1.SecretKeySelector")].

(** [zz_generated.deepcopy.go: S3BackupConfig.DeepCopyInto] *)
Definition S3BackupConfig_DeepCopyInto : copier :=
  copy_struct
    [("AccessKeyIDSecretRef", foreign_into "corev1.SecretKeySelector");
     ("SecretAccessKeySecretRef", foreign_into "corev1.SecretKeySelector")].

(** [zz_generated.deepcopy.go: S3BackupConfig.DeepCopy] *)
Definition S3BackupConfig_DeepCopy : option loc -> H (option loc) :=
  deep_copy S3BackupConfig_DeepCopyInto.

#[export] Instance S3BackupConfig_shape : Shape S3BackupConfig_type.
Proof. unfold S3BackupConfig_type. apply _. Qed.
#[export] Instance S3BackupConfig_copies :
  Copies S3BackupConfig_type S3BackupConfig_DeepCopyInto.
Proof. unfold S3BackupConfig_type, S3BackupConfig_DeepCopyInto. solve_struct. Qed.

(** [cashumint_types.go: BackupConfig] *)
Definition BackupConfig_type : heap -> val -> Prop :=
  StructOf
    [("Enabled", Plain); ("Schedule", Plain); ("RetentionCount", PointerTo Plain);
     ("S3", PointerTo S3BackupConfig_type)].

(** [zz_generated.deepcopy.go: BackupConfig.DeepCopyInto] *)
Definition BackupConfig_DeepCopyInto : copier :=
  copy_struct
    [("RetentionCount", if_set (new_copy assign)); ("S3", if_set (new_copy S3BackupConfig_DeepCopyInto))].

(** [zz_generated.deepcopy.go: BackupConfig.DeepCopy] *)
Definition BackupConfig_DeepCopy : option loc -> H (option loc) :=
  deep_copy BackupConfig_DeepCopyInto.

#[export] Instance BackupConfig_shape : Shape BackupConfig_type.
Proof. unfold BackupConfig_type. apply _. Qed.
#[export] Instance BackupConfig_copies :
  Copies BackupConfig_type BackupConfig_DeepCopyInto.
Proof. unfold BackupConfig_type, BackupConfig_DeepCopyInto. solve_struct. Qed.

(** [cashumint_types.go: BitcoinRPCConfig] *)
Definition BitcoinRPCConfig_type : heap -> val -> Prop :=
  StructOf
    [("Host", Plain); ("Port", Plain); ("UserSecretRef", foreign_ok "corev1.SecretKeySelector");
     ("PasswordSecretRef", foreign_ok "corev1.SecretKeySelector")].

(** [zz_generated.deepcopy.go: BitcoinRPCConfig.DeepCopyInto] *)
Definition BitcoinRPCConfig_DeepCopyInto : copier :=
  copy_struct
    [("UserSecretRef", foreign_into "corev1.SecretKeySelector");
     ("PasswordSecretRef", foreign_into "corev1.SecretKeySelector")].

(** [zz_generated.deepcopy.go: BitcoinRPCConfig.DeepCopy] *)
Definition BitcoinRPCConfig_DeepCopy : option loc -> H (option loc) :=
  deep_copy BitcoinRPCConfig_DeepCopyInto.

#[export] Instance BitcoinRPCConfig_shape : Shape BitcoinRPCConfig_type.
Proof. unfold BitcoinRPCConfig_type. apply _. Qed.
#[export] Instance BitcoinRPCConfig_copies :
  Copies BitcoinRPCConfig_type BitcoinRPCConfig_DeepCopyInto.
Proof. unfold BitcoinRPCConfig_type, BitcoinRPCConfig_DeepCopyInto. solve_struct. Qed.

(** [cashumint_types.go: CLNConfig] *)
Definition CLNConfig_type : heap -> val -> Prop :=
  StructOf
    [("RPCPath", Plain); ("Bolt12", PointerTo Plain); ("FeePercent", PointerTo Plain);
     ("ReserveFeeMin", PointerTo Plain)].

(** [zz_generated.deepcopy.go: CLNConfig.DeepCopyInto] *)
Definition CLNConfig_DeepCopyInto : copier :=
  copy_struct
    [("Bolt12", if_set (new_copy assign)); ("FeePercent", if_set (new_copy assign));
     ("ReserveFeeMin", if_set (new_copy assign))].

(** [zz_generated.deepcopy.go: CLNConfig.DeepCopy] *)
Definition CLNConfig_DeepCopy : option loc -> H (option loc) :=
  deep_copy CLNConfig_DeepCopyInto.

#[export] Instance CLNConfig_shape : Shape CLNConfig_type.
Proof. unfold CLNConfig_type. apply _. Qed.
#[export] Instance CLNConfig_copies :
  Copies CLNConfig_type CLNConfig_DeepCopyInto.
Proof. unfold CLNConfig_type, CLNConfig_DeepCopyInto. solve_struct. Qed.

(** [cashumint_types.go: QuoteTTLConfig] *)
Definition QuoteTTLConfig_type : heap -> val -> Prop :=
  StructOf
    [("MintTTL", PointerTo Plain); ("MeltTTL", PointerTo Plain)].

(** [zz_generated.deepcopy.go: QuoteTTLConfig.DeepCopyInto] *)
Definition QuoteTTLConfig_DeepCopyInto : copier :=
  copy_struct
    [("MintTTL", if_set (new_copy assign)); ("MeltTTL", if_set (new_copy assign))].

(** [zz_generated.deepcopy.go: QuoteTTLConfig.DeepCopy] *)
Definition QuoteTTLConfig_DeepCopy : option loc -> H (option loc) :=
  deep_copy QuoteTTLConfig_DeepCopyInto.

#[export] Instance QuoteTTLConfig_shape : Shape QuoteTTLConfig_type.
Proof. unfold QuoteTTLConfig_type. apply _. Qed.
#[export] Instance QuoteTTLConfig_copies :
  Copies QuoteTTLConfig_type QuoteTTLConfig_DeepCopyInto.
Proof. unfold QuoteTTLConfig_type, QuoteTTLConfig_DeepCopyInto. solve_struct. Qed.

(** [cashumint_types.go: MintInfo] *)
Definition MintInfo_type : heap -> val -> Prop :=
  StructOf
    [("URL", Plain); ("ListenHost", Plain); ("ListenPort", Plain);
     ("MnemonicSecretRef", PointerTo (foreign_ok "corev1.SecretKeySelector")); ("AutoGenerateMnemonic", Plain);
     ("Name", Plain); ("Description", Plain); ("DescriptionLong", Plain); ("MOTD", Plain);
     ("PubkeyHex", Plain); ("IconURL", Plain); ("ContactEmail", Plain); ("ContactNostrPubkey", Plain);
     ("TosURL", Plain); ("InputFeePPK", PointerTo Plain); ("EnableSwaggerUI", Plain);
     ("UseKeysetV2", PointerTo Plain); ("QuoteTTL", PointerTo QuoteTTLConfig_type)].

(** [zz_generated.deepcopy.go: MintInfo.DeepCopyInto] *)
Definition MintInfo_DeepCopyInto : copier :=
  copy_struct
    [("MnemonicSecretRef", if_set (new_copy (foreign_into "corev1.SecretKeySelector")));
     ("InputFeePPK", if_set (new_copy assign)); ("UseKeysetV2", if_set (new_copy assign));
     ("QuoteTTL", if_set (new_copy QuoteTTLConfig_DeepCopyInto))].

(** [zz_generated.deepcopy.go: MintInfo.DeepCopy] *)
Definition MintInfo_DeepCopy : option loc -> H (option loc) :=
  deep_copy MintInfo_DeepCopyInto.

#[export] Instance MintInfo_shape : Shape MintInfo_type.
Proof. unfold MintInfo_type. apply _. Qed.
#[export] Instance MintInfo_copies :
  Copies MintInfo_type MintInfo_DeepCopyInto.
Proof. unfold MintInfo_type, MintInfo_DeepCopyInto. solve_struct. Qed.

(** [cashumint_types.go: SQLiteConfig] *)
Definition SQLiteConfig_type : heap -> val -> Prop :=
  StructOf
    [("DataDir", Plain)].

(** [zz_generated.deepcopy.go: SQLiteConfig.DeepCopyInto] *)
Definition SQLiteConfig_DeepCopyInto : copier :=
  copy_struct
    [].

(** [zz_generated.deepcopy.go: SQLiteConfig.DeepCopy] *)
Definition SQLiteConfig_DeepCopy : option loc -> H (option loc) :=
  deep_copy SQLiteConfig_DeepCopyInto.

#[export] Instance SQLiteConfig_plain : PlainType SQLiteConfig_type.
Proof. unfold SQLiteConfig_type. apply _. Qed.
#[export] Instance SQLiteConfig_shape : Shape SQLiteConfig_type.
Proof. unfold SQLiteConfig_type. apply _. Qed.
#[export] Instance SQLiteConfig_copies :
  Copies SQLiteConfig_type SQLiteConfig_DeepCopyInto.
Proof. unfold SQLiteConfig_type, SQLiteConfig_DeepCopyInto. solve_struct. Qed.

(** [cashumint_types.go: DatabaseConfig] *)
Definition DatabaseConfig_type : heap -> val -> Prop :=
  StructOf
    [("Engine", Plain); ("Postgres", PointerTo PostgresConfig_type); ("SQLite", PointerTo SQLiteConfig_type)].

(** [zz_generated.deepcopy.go: DatabaseConfig.DeepCopyInto] *)
Definition DatabaseConfig_DeepCopyInto : copier :=
  copy_struct
    [("Postgres", if_set (new_copy PostgresConfig_DeepCopyInto)); ("SQLite", if_set (new_copy assign))].

(** [zz_generated.deepcopy.go: DatabaseConfig.DeepCopy] *)
Definition DatabaseConfig_DeepCopy : option loc -> H (option loc) :=
  deep_copy DatabaseConfig_DeepCopyInto.

#[export] Instance DatabaseConfig_shape : Shape DatabaseConfig_type.
Proof. unfold DatabaseConfig_type. apply _. Qed.
#[export] Instance DatabaseConfig_copies :
  Copies DatabaseConfig_type DatabaseConfig_DeepCopyInto.
Proof. unfold DatabaseConfig_type, DatabaseConfig_DeepCopyInto. solve_struct. Qed.

(** [cashumint_types.go: LNDConfig] *)
Definition LNDConfig_type : heap -> val -> Prop :=
  StructOf
    [("Address", Plain); ("MacaroonSecretRef", PointerTo (foreign_ok "corev1.SecretKeySelector"));
     ("CertSecretRef", PointerTo (foreign_ok "corev1.SecretKeySelector")); ("FeePercent", PointerTo Plain);
     ("ReserveFeeMin", PointerTo Plain)].

(** [zz_generated.deepcopy.go: LNDConfig.DeepCopyInto] *)
Definition LNDConfig_DeepCopyInto : copier :=
  copy_struct
    [("MacaroonSecretRef", if_set (new_copy (foreign_into "corev1.SecretKeySelector")));
     ("CertSecretRef", if_set (new_copy (foreign_into "corev1.SecretKeySelector")));
     ("FeePercent", if_set (new_copy assign)); ("ReserveFeeMin", if_set (new_copy assign))].

(** [zz_generated.deepcopy.go: LNDConfig.DeepCopy] *)
Definition LNDConfig_DeepCopy : option loc -> H (option loc) :=
  deep_copy LNDConfig_DeepCopyInto.

#[export] Instance LNDConfig_shape : Shape LNDConfig_type.
Proof. unfold LNDConfig_type. apply _. Qed.
#[export] Instance LNDConfig_copies :
  Copies LNDConfig_type LNDConfig_DeepCopyInto.
Proof. unfold LNDConfig_type, LNDConfig_DeepCopyInto. solve_struct. Qed.

(** [cashumint_types.go: LNBitsConfig] *)
Definition LNBitsConfig_type : heap -> val -> Prop :=
  StructOf
    [("API", Plain); ("AdminAPIKeySecretRef", foreign_ok "corev1.SecretKeySelector");
     ("InvoiceAPIKeySecretRef", foreign_ok "corev1.SecretKeySelector"); ("RetroAPI", Plain);
     ("FeePercent", PointerTo Plain); ("ReserveFeeMin", PointerTo Plain)].

(** [zz_generated.deepcopy.go: LNBitsConfig.DeepCopyInto] *)
Definition LNBitsConfig_DeepCopyInto : copier :=
  copy_struct
    [("AdminAPIKeySecretRef", foreign_into "corev1.SecretKeySelector");
     ("InvoiceAPIKeySecretRef", foreign_into "corev1.SecretKeySelector");
     ("FeePercent", if_set (new_copy assign)); ("ReserveFeeMin", if_set (new_copy assign))].

(** [zz_generated.deepcopy.go: LNBitsConfig.DeepCopy] *)
Definition LNBitsConfig_DeepCopy : option loc -> H (option loc) :=
  deep_copy LNBitsConfig_DeepCopyInto.

#[export] Instance LNBitsConfig_shape : Shape LNBitsConfig_type.
Proof. unfold LNBitsConfig_type. apply _. Qed.
#[export] Instance LNBitsConfig_copies :
  Copies LNBitsConfig_type LNBitsConfig_DeepCopyInto.
Proof. unfold LNBitsConfig_type, LNBitsConfig_DeepCopyInto. solve_struct. Qed.

(** [cashumint_types.go: FakeWalletConfig] *)
Definition FakeWalletConfig_type : heap -> val -> Prop :=
  StructOf
    [("SupportedUnits", SliceOf Plain); ("FeePercent", PointerTo Plain); ("ReserveFeeMin", PointerTo Plain);
     ("MinDelayTime", PointerTo Plain); ("MaxDelayTime", PointerTo Plain)].

(** [zz_generated.deepcopy.go: FakeWalletConfig.DeepCopyInto] *)
Definition FakeWalletConfig_DeepCopyInto : copier :=
  copy_struct
    [("SupportedUnits", if_set make_copy); ("FeePercent", if_set (new_copy assign));
     ("ReserveFeeMin", if_set (new_copy assign)); ("MinDelayTime", if_set (new_copy assign));
     ("MaxDelayTime", if_set (new_copy assign))].

(** [zz_generated.deepcopy.go: FakeWalletConfig.DeepCopy] *)
Definition FakeWalletConfig_DeepCopy : option loc -> H (option loc) :=
  deep_copy FakeWalletConfig_DeepCopyInto.

#[export] Instance FakeWalletConfig_shape : Shape FakeWalletConfig_type.
Proof. unfold FakeWalletConfig_type. apply _. Qed.
#[export] Instance FakeWalletConfig_copies :
  Copies FakeWalletConfig_type FakeWalletConfig_DeepCopyInto.
Proof. unfold FakeWalletConfig_type, FakeWalletConfig_DeepCopyInto. solve_struct. Qed.

(** [cashumint_types.go: SidecarProcessorConfig] *)
Definition SidecarProcessorConfig_type : heap -> val -> Prop :=
  StructOf
    [("Enabled", Plain); ("Image", Plain); ("ImagePullPolicy", Plain); ("Command", SliceOf Plain);
     ("Args", SliceOf Plain); ("Env", SliceOf (foreign_ok "corev1.EnvVar")); ("WorkingDir", Plain);
     ("Resources", PointerTo (foreign_ok "corev1.ResourceRequirements")); ("EnableTLS", Plain);
     ("TLSSecretRef", PointerTo (foreign_ok "corev1.SecretKeySelector"))].

(** [zz_generated.deepcopy.go: SidecarProcessorConfig.DeepCopyInto] *)
Definition SidecarProcessorConfig_DeepCopyInto : copier :=
  copy_struct
    [("Command", if_set make_copy); ("Args", if_set make_copy);
     ("Env", if_set (make_each (foreign_into "corev1.EnvVar")));
     ("Resources", if_set (new_copy (foreign_into "corev1.ResourceRequirements")));
     ("TLSSecretRef", if_set (new_copy (foreign_into "corev1.SecretKeySelector")))].

(** [zz_generated.deepcopy.go: SidecarProcessorConfig.DeepCopy] *)
Definition SidecarProcessorConfig_DeepCopy : option loc -> H (option loc) :=
  deep_copy SidecarProcessorConfig_DeepCopyInto.

#[export] Instance SidecarProcessorConfig_shape : Shape SidecarProcessorConfig_type.
Proof. unfold SidecarProcessorConfig_type. apply _. Qed.
#[export] Instance SidecarProcessorConfig_copies :
  Copies SidecarProcessorConfig_type SidecarProcessorConfig_DeepCopyInto.
Proof. unfold SidecarProcessorConfig_type, SidecarProcessorConfig_DeepCopyInto. solve_struct. Qed.

(** [cashumint_types.go: GRPCProcessorConfig] *)
Definition GRPCProcessorConfig_type : heap -> val -> Prop :=
  StructOf
    [("Address", Plain); ("Port", Plain); ("SupportedUnits", SliceOf Plain);
     ("TLSSecretRef", PointerTo (foreign_ok "corev1.SecretKeySelector"));
     ("SidecarProcessor", PointerTo SidecarProcessorConfig_type)].

(** [zz_generated.deepcopy.go: GRPCProcessorConfig.DeepCopyInto] *)
Definition GRPCProcessorConfig_DeepCopyInto : copier :=
  copy_struct
    [("SupportedUnits", if_set make_copy);
     ("TLSSecretRef", if_set (new_copy (foreign_into "corev1.SecretKeySelector")));
     ("SidecarProcessor", if_set (new_copy SidecarProcessorConfig_DeepCopyInto))].

(** [zz_generated.deepcopy.go: GRPCProcessorConfig.DeepCopy] *)
Definition GRPCProcessorConfig_DeepCopy : option loc -> H (option loc) :=
  deep_copy GRPCProcessorConfig_DeepCopyInto.

#[export] Instance GRPCProcessorConfig_shape : Shape GRPCProcessorConfig_type.
Proof. unfold GRPCProcessorConfig_type. apply _. Qed.
#[export] Instance GRPCProcessorConfig_copies :
  Copies GRPCProcessorConfig_type GRPCProcessorConfig_DeepCopyInto.
Proof. unfold GRPCProcessorConfig_type, GRPCProcessorConfig_DeepCopyInto. solve_struct. Qed.

(** [cashumint_types.go: PaymentBackendConfig] *)
Definition PaymentBackendConfig_type : heap -> val -> Prop :=
  StructOf
    [("MinMint", PointerTo Plain); ("MaxMint", PointerTo Plain); ("MinMelt", PointerTo Plain);
     ("MaxMelt", PointerTo Plain); ("LND", PointerTo LNDConfig_type); ("CLN", PointerTo CLNConfig_type);
     ("LNBits", PointerTo LNBitsConfig_type); ("FakeWallet", PointerTo FakeWalletConfig_type);
     ("GRPCProcessor", PointerTo GRPCProcessorConfig_type)].

(** [zz_generated.deepcopy.go: PaymentBackendConfig.DeepCopyInto] *)
Definition PaymentBackendConfig_DeepCopyInto : copier :=
  copy_struct
    [("MinMint", if_set (new_copy assign)); ("MaxMint", if_set (new_copy assign));
     ("MinMelt", if_set (new_copy assign)); ("MaxMelt", if_set (new_copy assign));
     ("LND", if_set (new_copy LNDConfig_DeepCopyInto)); ("CLN", if_set (new_copy CLNConfig_DeepCopyInto));
     ("LNBits", if_set (new_copy LNBitsConfig_DeepCopyInto));
     ("FakeWallet", if_set (new_copy FakeWalletConfig_DeepCopyInto));
     ("GRPCProcessor", if_set (new_copy GRPCProcessorConfig_DeepCopyInto))].

(** [zz_generated.deepcopy.go: PaymentBackendConfig.DeepCopy] *)
Definition PaymentBackendConfig_DeepCopy : option loc -> H (option loc) :=
  deep_copy PaymentBackendConfig_DeepCopyInto.

#[export] Instance PaymentBackendConfig_shape : Shape PaymentBackendConfig_type.
Proof. unfold PaymentBackendConfig_type. apply _. Qed.
#[export] Instance PaymentBackendConfig_copies :
  Copies PaymentBackendConfig_type PaymentBackendConfig_DeepCopyInto.
Proof. unfold PaymentBackendConfig_type, PaymentBackendConfig_DeepCopyInto. solve_struct. Qed.

(** [cashumint_types.go: LDKNodeConfig] *)
Definition LDKNodeConfig_type : heap -> val -> Prop :=
  StructOf
    [("Enabled", Plain); ("Image", Plain); ("FeePercent", PointerTo Plain); ("ReserveFeeMin", PointerTo Plain);
     ("BitcoinNetwork", Plain); ("ChainSourceType", Plain); ("EsploraURL", Plain);
     ("BitcoinRPC", PointerTo BitcoinRPCConfig_type); ("StorageDirPath", Plain); ("LogDirPath", Plain);
     ("MnemonicSecretRef", PointerTo (foreign_ok "corev1.SecretKeySelector")); ("Host", Plain);
     ("Port", Plain); ("AnnounceAddresses", SliceOf Plain); ("GossipSourceType", Plain); ("RGSURL", Plain);
     ("WebserverHost", Plain); ("WebserverPort", Plain)].

(** [zz_generated.deepcopy.go: LDKNodeConfig.DeepCopyInto] *)
Definition LDKNodeConfig_DeepCopyInto : copier :=
  copy_struct
    [("FeePercent", if_set (new_copy assign)); ("ReserveFeeMin", if_set (new_copy assign));
     ("BitcoinRPC", if_set (new_copy BitcoinRPCConfig_DeepCopyInto));
     ("MnemonicSecretRef", if_set (new_copy (foreign_into "corev1.SecretKeySelector")));
     ("AnnounceAddresses", if_set make_copy)].

(** [zz_generated.deepcopy.go: LDKNodeConfig.DeepCopy] *)
Definition LDKNodeConfig_DeepCopy : option loc -> H (option loc) :=
  deep_copy LDKNodeConfig_DeepCopyInto.

#[export] Instance LDKNodeConfig_shape : Shape LDKNodeConfig_type.
Proof. unfold LDKNodeConfig_type. apply _. Qed.
#[export] Instance LDKNodeConfig_copies :
  Copies LDKNodeConfig_type LDKNodeConfig_DeepCopyInto.
Proof. unfold LDKNodeConfig_type, LDKNodeConfig_DeepCopyInto. solve_struct. Qed.

(** [cashumint_types.go: RedisCacheConfig] *)
Definition RedisCacheConfig_type : heap -> val -> Prop :=
  StructOf
    [("KeyPrefix", Plain); ("ConnectionString", Plain);
     ("ConnectionStringSecretRef", PointerTo (foreign_ok "corev1.SecretKeySelector"))].

(** [zz_generated.deepcopy.go: RedisCacheConfig.DeepCopyInto] *)
Definition RedisCacheConfig_DeepCopyInto : copier :=
  copy_struct
    [("ConnectionStringSecretRef", if_set (new_copy (foreign_into "corev1.SecretKeySelector")))].

(** [zz_generated.deepcopy.go: RedisCacheConfig.DeepCopy] *)
Definition RedisCacheConfig_DeepCopy : option loc -> H (option loc) :=
  deep_copy RedisCacheConfig_DeepCopyInto.

#[export] Instance RedisCacheConfig_shape : Shape RedisCacheConfig_type.
Proof. unfold RedisCacheConfig_type. apply _. Qed.
#[export] Instance RedisCacheConfig_copies :
  Copies RedisCacheConfig_type RedisCacheConfig_DeepCopyInto.
Proof. unfold RedisCacheConfig_type, RedisCacheConfig_DeepCopyInto. solve_struct. Qed.

(** [cashumint_types.go: HTTPCacheConfig] *)
Definition HTTPCacheConfig_type : heap -> val -> Prop :=
  StructOf
    [("Backend", Plain); ("TTL", PointerTo Plain); ("TTI", PointerTo Plain);
     ("Redis", PointerTo RedisCacheConfig_type)].

(** [zz_generated.deepcopy.go: HTTPCacheConfig.DeepCopyInto] *)
Definition HTTPCacheConfig_DeepCopyInto : copier :=
  copy_struct
    [("TTL", if_set (new_copy assign)); ("TTI", if_set (new_copy assign));
     ("Redis", if_set (new_copy RedisCacheConfig_DeepCopyInto))].

(** [zz_generated.deepcopy.go: HTTPCacheConfig.DeepCopy] *)
Definition HTTPCacheConfig_DeepCopy : option loc -> H (option loc) :=
  deep_copy HTTPCacheConfig_DeepCopyInto.

#[export] Instance HTTPCacheConfig_shape : Shape HTTPCacheConfig_type.
Proof. unfold HTTPCacheConfig_type. apply _. Qed.
#[export] Instance HTTPCacheConfig_copies :
  Copies HTTPCacheConfig_type HTTPCacheConfig_DeepCopyInto.
Proof. unfold HTTPCacheConfig_type, HTTPCacheConfig_DeepCopyInto. solve_struct. Qed.

(** [cashumint_types.go: ManagementRPCConfig] *)
Definition ManagementRPCConfig_type : heap -> val -> Prop :=
  StructOf
    [("Enabled", Plain); ("Address", Plain); ("Port", Plain); ("TLSSecretRef", PointerTo Plain)].

(** [zz_generated.deepcopy.go: ManagementRPCConfig.DeepCopyInto] *)
Definition ManagementRPCConfig_DeepCopyInto : copier :=
  copy_struct
    [("TLSSecretRef", if_set (new_copy assign))].

(** [zz_generated.deepcopy.go: ManagementRPCConfig.DeepCopy] *)
Definition ManagementRPCConfig_DeepCopy : option loc -> H (option loc) :=
  deep_copy ManagementRPCConfig_DeepCopyInto.

#[export] Instance ManagementRPCConfig_shape : Shape ManagementRPCConfig_type.
Proof. unfold ManagementRPCConfig_type. apply _. Qed.
#[export] Instance ManagementRPCConfig_copies :
  Copies ManagementRPCConfig_type ManagementRPCConfig_DeepCopyInto.
Proof. unfold ManagementRPCConfig_type, ManagementRPCConfig_DeepCopyInto. solve_struct. Qed.

(** [cashumint_types.go: OrchardMintRPCConfig] *)
Definition OrchardMintRPCConfig_type : heap -> val -> Prop :=
  StructOf
    [("Host", Plain); ("Port", Plain); ("MTLS", PointerTo Plain)].

(** [zz_generated.deepcopy.go: OrchardMintRPCConfig.DeepCopyInto] *)
Definition OrchardMintRPCConfig_DeepCopyInto : copier :=
  copy_struct
    [("MTLS", if_set (new_copy assign))].

(** [zz_generated.deepcopy.go: OrchardMintRPCConfig.DeepCopy] *)
Definition OrchardMintRPCConfig_DeepCopy : option loc -> H (option loc) :=
  deep_copy OrchardMintRPCConfig_DeepCopyInto.

#[export] Instance OrchardMintRPCConfig_shape : Shape OrchardMintRPCConfig_type.
Proof. unfold OrchardMintRPCConfig_type. apply _. Qed.
#[export] Instance OrchardMintRPCConfig_copies :
  Copies OrchardMintRPCConfig_type OrchardMintRPCConfig_DeepCopyInto.
Proof. unfold OrchardMintRPCConfig_type, OrchardMintRPCConfig_DeepCopyInto. solve_struct. Qed.

(** [cashumint_types.go: OrchardMintConfig] *)
Definition OrchardMintConfig_type : heap -> val -> Prop :=
  StructOf
    [("Type", Plain); ("API", Plain); ("Database", Plain);
     ("DatabaseCASecretRef", PointerTo (foreign_ok "corev1.SecretKeySelector"));
     ("DatabaseCertSecretRef", PointerTo (foreign_ok "corev1.SecretKeySelector"));
     ("DatabaseKeySecretRef", PointerTo (foreign_ok "corev1.SecretKeySelector"));
     ("RPC", PointerTo OrchardMintRPCConfig_type)].

(** [zz_generated.deepcopy.go: OrchardMintConfig.DeepCopyInto] *)
Definition OrchardMintConfig_DeepCopyInto : copier :=
  copy_struct
    [("DatabaseCASecretRef", if_set (new_copy (foreign_into "corev1.SecretKeySelector")));
     ("DatabaseCertSecretRef", if_set (new_copy (foreign_into "corev1.SecretKeySelector")));
     ("DatabaseKeySecretRef", if_set (new_copy (foreign_into "corev1.SecretKeySelector")));
     ("RPC", if_set (new_copy OrchardMintRPCConfig_DeepCopyInto))].

(** [zz_generated.deepcopy.go: OrchardMintConfig.DeepCopy] *)
Definition OrchardMintConfig_DeepCopy : option loc -> H (option loc) :=
  deep_copy OrchardMintConfig_DeepCopyInto.

#[export] Instance OrchardMintConfig_shape : Shape OrchardMintConfig_type.
Proof. unfold OrchardMintConfig_type. apply _. Qed.
#[export] Instance OrchardMintConfig_copies :
  Copies OrchardMintConfig_type OrchardMintConfig_DeepCopyInto.
Proof. unfold OrchardMintConfig_type, OrchardMintConfig_DeepCopyInto. solve_struct. Qed.

(** [cashumint_types.go: OrchardBitcoinConfig] *)
Definition OrchardBitcoinConfig_type : heap -> val -> Prop :=
  StructOf
    [("Type", Plain); ("RPCHost", Plain); ("RPCPort", Plain);
     ("RPCUserSecretRef", PointerTo (foreign_ok "corev1.SecretKeySelector"));
     ("RPCPasswordSecretRef", PointerTo (foreign_ok "corev1.SecretKeySelector"))].

(** [zz_generated.deepcopy.go: OrchardBitcoinConfig.DeepCopyInto] *)
Definition OrchardBitcoinConfig_DeepCopyInto : copier :=
  copy_struct
    [("RPCUserSecretRef", if_set (new_copy (foreign_into "corev1.SecretKeySelector")));
     ("RPCPasswordSecretRef", if_set (new_copy (foreign_into "corev1.SecretKeySelector")))].

(** [zz_generated.deepcopy.go: OrchardBitcoinConfig.DeepCopy] *)
Definition OrchardBitcoinConfig_DeepCopy : option loc -> H (option loc) :=
  deep_copy OrchardBitcoinConfig_DeepCopyInto.

#[export] Instance OrchardBitcoinConfig_shape : Shape OrchardBitcoinConfig_type.
Proof. unfold OrchardBitcoinConfig_type. apply _. Qed.
#[export] Instance OrchardBitcoinConfig_copies :
  Copies OrchardBitcoinConfig_type OrchardBitcoinConfig_DeepCopyInto.
Proof. unfold OrchardBitcoinConfig_type, OrchardBitcoinConfig_DeepCopyInto. solve_struct. Qed.

(** [cashumint_types.go: OrchardLightningConfig] *)
Definition OrchardLightningConfig_type : heap -> val -> Prop :=
  StructOf
    [("Type", Plain); ("RPCHost", Plain); ("RPCPort", Plain);
     ("MacaroonSecretRef", PointerTo (foreign_ok "corev1.SecretKeySelector"));
     ("CertSecretRef", PointerTo (foreign_ok "corev1.SecretKeySelector"));
     ("KeySecretRef", PointerTo (foreign_ok "corev1.SecretKeySelector"));
     ("CASecretRef", PointerTo (foreign_ok "corev1.SecretKeySelector"))].

(** [zz_generated.deepcopy.go: OrchardLightningConfig.DeepCopyInto] *)
Definition OrchardLightningConfig_DeepCopyInto : copier :=
  copy_struct
    [("MacaroonSecretRef", if_set (new_copy (foreign_into "corev1.SecretKeySelector")));
     ("CertSecretRef", if_set (new_copy (foreign_into "corev1.SecretKeySelector")));
     ("KeySecretRef", if_set (new_copy (foreign_into "corev1.SecretKeySelector")));
     ("CASecretRef", if_set (new_copy (foreign_into "corev1.SecretKeySelector")))].

(** [zz_generated.deepcopy.go: OrchardLightningConfig.DeepCopy] *)
Definition OrchardLightningConfig_DeepCopy : option loc -> H (option loc) :=
  deep_copy OrchardLightningConfig_DeepCopyInto.

#[export] Instance OrchardLightningConfig_shape : Shape OrchardLightningConfig_type.
Proof. unfold OrchardLightningConfig_type. apply _. Qed.
#[export] Instance OrchardLightningConfig_copies :
  Copies OrchardLightningConfig_type OrchardLightningConfig_DeepCopyInto.
Proof. unfold OrchardLightningConfig_type, OrchardLightningConfig_DeepCopyInto. solve_struct. Qed.

(** [cashumint_types.go: OrchardTaprootAssetsConfig] *)
Definition OrchardTaprootAssetsConfig_type : heap -> val -> Prop :=
  StructOf
    [("Type", Plain); ("RPCHost", Plain); ("RPCPort", Plain);
     ("MacaroonSecretRef", PointerTo (foreign_ok "corev1.SecretKeySelector"));
     ("CertSecretRef", PointerTo (foreign_ok "corev1.SecretKeySelector"))].

(** [zz_generated.deepcopy.go: OrchardTaprootAssetsConfig.DeepCopyInto] *)
Definition OrchardTaprootAssetsConfig_DeepCopyInto : copier :=
  copy_struct
    [("MacaroonSecretRef", if_set (new_copy (foreign_into "corev1.SecretKeySelector")));
     ("CertSecretRef", if_set (new_copy (foreign_into "corev1.SecretKeySelector")))].

(** [zz_generated.deepcopy.go: OrchardTaprootAssetsConfig.DeepCopy] *)
Definition OrchardTaprootAssetsConfig_DeepCopy : option loc -> H (option loc) :=
  deep_copy OrchardTaprootAssetsConfig_DeepCopyInto.

#[export] Instance OrchardTaprootAssetsConfig_shape : Shape OrchardTaprootAssetsConfig_type.
Proof. unfold OrchardTaprootAssetsConfig_type. apply _. Qed.
#[export] Instance OrchardTaprootAssetsConfig_copies :
  Copies OrchardTaprootAssetsConfig_type OrchardTaprootAssetsConfig_DeepCopyInto.
Proof. unfold OrchardTaprootAssetsConfig_type, OrchardTaprootAssetsConfig_DeepCopyInto. solve_struct. Qed.

(** [cashumint_types.go: OrchardAIConfig] *)
Definition OrchardAIConfig_type : heap -> val -> Prop :=
  StructOf
    [("API", Plain)].

(** [zz_generated.deepcopy.go: OrchardAIConfig.DeepCopyInto] *)
Definition OrchardAIConfig_DeepCopyInto : copier :=
  copy_struct
    [].

(** [zz_generated.deepcopy.go: OrchardAIConfig.DeepCopy] *)
Definition OrchardAIConfig_DeepCopy : option loc -> H (option loc) :=
  deep_copy OrchardAIConfig_DeepCopyInto.

#[export] Instance OrchardAIConfig_plain : PlainType OrchardAIConfig_type.
Proof. unfold OrchardAIConfig_type. apply _. Qed.
#[export] Instance OrchardAIConfig_shape : Shape OrchardAIConfig_type.
Proof. unfold OrchardAIConfig_type. apply _. Qed.
#[export] Instance OrchardAIConfig_copies :
  Copies OrchardAIConfig_type OrchardAIConfig_DeepCopyInto.
Proof. unfold OrchardAIConfig_type, OrchardAIConfig_DeepCopyInto. solve_struct. Qed.

(** [cashumint_types.go: ServiceConfig] *)
Definition ServiceConfig_type : heap -> val -> Prop :=
  StructOf
    [("Type", Plain); ("Annotations", StringEntries); ("LoadBalancerIP", Plain)].

(** [zz_generated.deepcopy.go: ServiceConfig.DeepCopyInto] *)
Definition ServiceConfig_DeepCopyInto : copier :=
  copy_struct
    [("Annotations", if_set make_map)].

(** [zz_generated.deepcopy.go: ServiceConfig.DeepCopy] *)
Definition ServiceConfig_DeepCopy : option loc -> H (option loc) :=
  deep_copy ServiceConfig_DeepCopyInto.

#[export] Instance ServiceConfig_shape : Shape ServiceConfig_type.
Proof. unfold ServiceConfig_type. apply _. Qed.
#[export] Instance ServiceConfig_copies :
  Copies ServiceConfig_type ServiceConfig_DeepCopyInto.
Proof. unfold ServiceConfig_type, ServiceConfig_DeepCopyInto. solve_struct. Qed.

(** [cashumint_types.go: CertManagerConfig] *)
Definition CertManagerConfig_type : heap -> val -> Prop :=
  StructOf
    [("Enabled", Plain); ("IssuerName", Plain); ("IssuerKind", Plain)].

(** [zz_generated.deepcopy.go: CertManagerConfig.DeepCopyInto] *)
Definition CertManagerConfig_DeepCopyInto : copier :=
  copy_struct
    [].

(** [zz_generated.deepcopy.go: CertManagerConfig.DeepCopy] *)
Definition CertManagerConfig_DeepCopy : option loc -> H (option loc) :=
  deep_copy CertManagerConfig_DeepCopyInto.

#[export] Instance CertManagerConfig_plain : PlainType CertManagerConfig_type.
Proof. unfold CertManagerConfig_type. apply _. Qed.
#[export] Instance CertManagerConfig_shape : Shape CertManagerConfig_type.
Proof. unfold CertManagerConfig_type. apply _. Qed.
#[export] Instance CertManagerConfig_copies :
  Copies CertManagerConfig_type CertManagerConfig_DeepCopyInto.
Proof. unfold CertManagerConfig_type, CertManagerConfig_DeepCopyInto. solve_struct. Qed.

(** [cashumint_types.go: IngressTLSConfig] *)
Definition IngressTLSConfig_type : heap -> val -> Prop :=
  StructOf
    [("Enabled", Plain); ("SecretName", Plain); ("CertManager", PointerTo CertManagerConfig_type)].

(** [zz_generated.deepcopy.go: IngressTLSConfig.DeepCopyInto] *)
Definition IngressTLSConfig_DeepCopyInto : copier :=
  copy_struct
    [("CertManager", if_set (new_copy assign))].

(** [zz_generated.deepcopy.go: IngressTLSConfig.DeepCopy] *)
Definition IngressTLSConfig_DeepCopy : option loc -> H (option loc) :=
  deep_copy IngressTLSConfig_DeepCopyInto.

#[export] Instance IngressTLSConfig_shape : Shape IngressTLSConfig_type.
Proof. unfold IngressTLSConfig_type. apply _. Qed.
#[export] Instance IngressTLSConfig_copies :
  Copies IngressTLSConfig_type IngressTLSConfig_DeepCopyInto.
Proof. unfold IngressTLSConfig_type, IngressTLSConfig_DeepCopyInto. solve_struct. Qed.

(** [cashumint_types.go: IngressConfig] *)
Definition IngressConfig_type : heap -> val -> Prop :=
  StructOf
    [("Enabled", Plain); ("ClassName", Plain); ("Host", Plain); ("TLS", PointerTo IngressTLSConfig_type);
     ("Annotations", StringEntries)].

(** [zz_generated.deepcopy.go: IngressConfig.DeepCopyInto] *)
Definition IngressConfig_DeepCopyInto : copier :=
  copy_struct
    [("TLS", if_set (new_copy IngressTLSConfig_DeepCopyInto)); ("Annotations", if_set make_map)].

(** [zz_generated.deepcopy.go: IngressConfig.DeepCopy] *)
Definition IngressConfig_DeepCopy : option loc -> H (option loc) :=
  deep_copy IngressConfig_DeepCopyInto.

#[export] Instance IngressConfig_shape : Shape IngressConfig_type.
Proof. unfold IngressConfig_type. apply _. Qed.
#[export] Instance IngressConfig_copies :
  Copies IngressConfig_type IngressConfig_DeepCopyInto.
Proof. unfold IngressConfig_type, IngressConfig_DeepCopyInto. solve_struct. Qed.

(** [cashumint_types.go: StorageConfig] *)
Definition StorageConfig_type : heap -> val -> Prop :=
  StructOf
    [("Size", Plain); ("StorageClassName", PointerTo Plain)].

(** [zz_generated.deepcopy.go: StorageConfig.DeepCopyInto] *)
Definition StorageConfig_DeepCopyInto : copier :=
  copy_struct
    [("StorageClassName", if_set (new_copy assign))].

(** [zz_generated.deepcopy.go: StorageConfig.DeepCopy] *)
Definition StorageConfig_DeepCopy : option loc -> H (option loc) :=
  deep_copy StorageConfig_DeepCopyInto.

#[export] Instance StorageConfig_shape : Shape StorageConfig_type.
Proof. unfold StorageConfig_type. apply _. Qed.
#[export] Instance StorageConfig_copies :
  Copies StorageConfig_type StorageConfig_DeepCopyInto.
Proof. unfold StorageConfig_type, StorageConfig_DeepCopyInto. solve_struct. Qed.

(** [cashumint_types.go: OrchardConfig] *)
Definition OrchardConfig_type : heap -> val -> Prop :=
  StructOf
    [("Enabled", Plain); ("Image", Plain); ("ImagePullPolicy", Plain); ("Host", Plain); ("Port", Plain);
     ("BasePath", Plain); ("LogLevel", Plain);
     ("SetupKeySecretRef", PointerTo (foreign_ok "corev1.SecretKeySelector"));
     ("ThrottleTTL", PointerTo Plain); ("ThrottleLimit", PointerTo Plain); ("Proxy", Plain);
     ("Compression", PointerTo Plain); ("Mint", PointerTo OrchardMintConfig_type);
     ("Bitcoin", PointerTo OrchardBitcoinConfig_type); ("Lightning", PointerTo OrchardLightningConfig_type);
     ("TaprootAssets", PointerTo OrchardTaprootAssetsConfig_type); ("AI", PointerTo OrchardAIConfig_type);
     ("Service", PointerTo ServiceConfig_type); ("Ingress", PointerTo IngressConfig_type);
     ("Storage", PointerTo StorageConfig_type);
     ("Resources", PointerTo (foreign_ok "corev1.ResourceRequirements"));
     ("ContainerSecurityContext", PointerTo (foreign_ok "corev1.SecurityContext"));
     ("ExtraEnv", SliceOf (foreign_ok "corev1.EnvVar"))].

(** [zz_generated.deepcopy.go: OrchardConfig.DeepCopyInto] *)
Definition OrchardConfig_DeepCopyInto : copier :=
  copy_struct
    [("SetupKeySecretRef", if_set (new_copy (foreign_into "corev1.SecretKeySelector")));
     ("ThrottleTTL", if_set (new_copy assign)); ("ThrottleLimit", if_set (new_copy assign));
     ("Compression", if_set (new_copy assign)); ("Mint", if_set (new_copy OrchardMintConfig_DeepCopyInto));
     ("Bitcoin", if_set (new_copy OrchardBitcoinConfig_DeepCopyInto));
     ("Lightning", if_set (new_copy OrchardLightningConfig_DeepCopyInto));
     ("TaprootAssets", if_set (new_copy OrchardTaprootAssetsConfig_DeepCopyInto));
     ("AI", if_set (new_copy assign)); ("Service", if_set (new_copy ServiceConfig_DeepCopyInto));
     ("Ingress", if_set (new_copy IngressConfig_DeepCopyInto));
     ("Storage", if_set (new_copy StorageConfig_DeepCopyInto));
     ("Resources", if_set (new_copy (foreign_into "corev1.ResourceRequirements")));
     ("ContainerSecurityContext", if_set (new_copy (foreign_into "corev1.SecurityContext")));
     ("ExtraEnv", if_set (make_each (foreign_into "corev1.EnvVar")))].

(** [zz_generated.deepcopy.go: OrchardConfig.DeepCopy] *)
Definition OrchardConfig_DeepCopy : option loc -> H (option loc) :=
  deep_copy OrchardConfig_DeepCopyInto.

#[export] Instance OrchardConfig_shape : Shape OrchardConfig_type.
Proof. unfold OrchardConfig_type. apply _. Qed.
#[export] Instance OrchardConfig_copies :
  Copies OrchardConfig_type OrchardConfig_DeepCopyInto.
Proof. unfold OrchardConfig_type, OrchardConfig_DeepCopyInto. solve_struct. Qed.

(** [cashumint_types.go: PrometheusConfig] *)
Definition PrometheusConfig_type : heap -> val -> Prop :=
  StructOf
    [("Enabled", Plain); ("Address", Plain); ("Port", PointerTo Plain)].

(** [zz_generated.deepcopy.go: PrometheusConfig.DeepCopyInto] *)
Definition PrometheusConfig_DeepCopyInto : copier :=
  copy_struct
    [("Port", if_set (new_copy assign))].

(** [zz_generated.deepcopy.go: PrometheusConfig.DeepCopy] *)
Definition PrometheusConfig_DeepCopy : option loc -> H (option loc) :=
  deep_copy PrometheusConfig_DeepCopyInto.

#[export] Instance PrometheusConfig_shape : Shape PrometheusConfig_type.
Proof. unfold PrometheusConfig_type. apply _. Qed.
#[export] Instance PrometheusConfig_copies :
  Copies PrometheusConfig_type PrometheusConfig_DeepCopyInto.
Proof. unfold PrometheusConfig_type, PrometheusConfig_DeepCopyInto. solve_struct. Qed.

(** [cashumint_types.go: LimitsConfig] *)
Definition LimitsConfig_type : heap -> val -> Prop :=
  StructOf
    [("MaxInputs", PointerTo Plain); ("MaxOutputs", PointerTo Plain)].

(** [zz_generated.deepcopy.go: LimitsConfig.DeepCopyInto] *)
Definition LimitsConfig_DeepCopyInto : copier :=
  copy_struct
    [("MaxInputs", if_set (new_copy assign)); ("MaxOutputs", if_set (new_copy assign))].

(** [zz_generated.deepcopy.go: LimitsConfig.DeepCopy] *)
Definition LimitsConfig_DeepCopy : option loc -> H (option loc) :=
  deep_copy LimitsConfig_DeepCopyInto.

#[export] Instance LimitsConfig_shape : Shape LimitsConfig_type.
Proof. unfold LimitsConfig_type. apply _. Qed.
#[export] Instance LimitsConfig_copies :
  Copies LimitsConfig_type LimitsConfig_DeepCopyInto.
Proof. unfold LimitsConfig_type, LimitsConfig_DeepCopyInto. solve_struct. Qed.

(** [cashumint_types.go: LoggingConfig] *)
Definition LoggingConfig_type : heap -> val -> Prop :=
  StructOf
    [("Level", Plain); ("FileLevel", Plain); ("Format", Plain)].

(** [zz_generated.deepcopy.go: LoggingConfig.DeepCopyInto] *)
Definition LoggingConfig_DeepCopyInto : copier :=
  copy_struct
    [].

(** [zz_generated.deepcopy.go: LoggingConfig.DeepCopy] *)
Definition LoggingConfig_DeepCopy : option loc -> H (option loc) :=
  deep_copy LoggingConfig_DeepCopyInto.

#[export] Instance LoggingConfig_plain : PlainType LoggingConfig_type.
Proof. unfold LoggingConfig_type. apply _. Qed.
#[export] Instance LoggingConfig_shape : Shape LoggingConfig_type.
Proof. unfold LoggingConfig_type. apply _. Qed.
#[export] Instance LoggingConfig_copies :
  Copies LoggingConfig_type LoggingConfig_DeepCopyInto.
Proof. unfold LoggingConfig_type, LoggingConfig_DeepCopyInto. solve_struct. Qed.

(** [cashumint_types.go: CashuMintSpec] *)
Definition CashuMintSpec_type : heap -> val -> Prop :=
  StructOf
    [("Image", Plain); ("ImagePullPolicy", Plain); ("ImagePullSecrets", SliceOf Plain);
     ("Replicas", PointerTo Plain); ("MintInfo", MintInfo_type); ("Database", DatabaseConfig_type);
     ("PaymentBackend", PaymentBackendConfig_type); ("LDKNode", PointerTo LDKNodeConfig_type);
     ("Auth", PointerTo AuthConfig_type); ("HTTPCache", PointerTo HTTPCacheConfig_type);
     ("ManagementRPC", PointerTo ManagementRPCConfig_type); ("Orchard", PointerTo OrchardConfig_type);
     ("Prometheus", PointerTo PrometheusConfig_type); ("Limits", PointerTo LimitsConfig_type);
     ("Ingress", PointerTo IngressConfig_type); ("Service", PointerTo ServiceConfig_type);
     ("Resources", PointerTo (foreign_ok "corev1.ResourceRequirements")); ("NodeSelector", StringEntries);
     ("Tolerations", SliceOf (foreign_ok "corev1.Toleration"));
     ("Affinity", PointerTo (foreign_ok "corev1.Affinity")); ("Logging", PointerTo LoggingConfig_type);
     ("Storage", PointerTo StorageConfig_type); ("Backup", PointerTo BackupConfig_type);
     ("PodSecurityContext", PointerTo (foreign_ok "corev1.PodSecurityContext"));
     ("ContainerSecurityContext", PointerTo (foreign_ok "corev1.SecurityContext"))].

(** [zz_generated.deepcopy.go: CashuMintSpec.DeepCopyInto] *)
Definition CashuMintSpec_DeepCopyInto : copier :=
  copy_struct
    [("ImagePullSecrets", if_set make_copy); ("Replicas", if_set (new_copy assign));
     ("MintInfo", MintInfo_DeepCopyInto); ("Database", DatabaseConfig_DeepCopyInto);
     ("PaymentBackend", PaymentBackendConfig_DeepCopyInto);
     ("LDKNode", if_set (new_copy LDKNodeConfig_DeepCopyInto));
     ("Auth", if_set (new_copy AuthConfig_DeepCopyInto));
     ("HTTPCache", if_set (new_copy HTTPCacheConfig_DeepCopyInto));
     ("ManagementRPC", if_set (new_copy ManagementRPCConfig_DeepCopyInto));
     ("Orchard", if_set (new_copy OrchardConfig_DeepCopyInto));
     ("Prometheus", if_set (new_copy PrometheusConfig_DeepCopyInto));
     ("Limits", if_set (new_copy LimitsConfig_DeepCopyInto));
     ("Ingress", if_set (new_copy IngressConfig_DeepCopyInto));
     ("Service", if_set (new_copy ServiceConfig_DeepCopyInto));
     ("Resources", if_set (new_copy (foreign_into "corev1.ResourceRequirements")));
     ("NodeSelector", if_set make_map); ("Tolerations", if_set (make_each (foreign_into "corev1.Toleration")));
     ("Affinity", if_set (new_copy (foreign_into "corev1.Affinity"))); ("Logging", if_set (new_copy assign));
     ("Storage", if_set (new_copy StorageConfig_DeepCopyInto));
     ("Backup", if_set (new_copy BackupConfig_DeepCopyInto));
     ("PodSecurityContext", if_set (new_copy (foreign_into "corev1.PodSecurityContext")));
     ("ContainerSecurityContext", if_set (new_copy (foreign_into "corev1.SecurityContext")))].

(** [zz_generated.deepcopy.go: CashuMintSpec.DeepCopy] *)
Definition CashuMintSpec_DeepCopy : option loc -> H (option loc) :=
  deep_copy CashuMintSpec_DeepCopyInto.

#[export] Instance CashuMintSpec_shape : Shape CashuMintSpec_type.
Proof. unfold CashuMintSpec_type. apply _. Qed.
#[export] Instance CashuMintSpec_copies :
  Copies CashuMintSpec_type CashuMintSpec_DeepCopyInto.
Proof. unfold CashuMintSpec_type, CashuMintSpec_DeepCopyInto. solve_struct. Qed.

(** [cashumint_types.go: DatabaseStatus] *)
Definition DatabaseStatus_type : heap -> val -> Prop :=
  StructOf
    [("Connected", Plain); ("Message", Plain); ("LastChecked", PointerTo (foreign_ok "metav1.Time"))].

(** [zz_generated.deepcopy.go: DatabaseStatus.DeepCopyInto] *)
Definition DatabaseStatus_DeepCopyInto : copier :=
  copy_struct
    [("LastChecked", if_set (new_copy (foreign_into "metav1.Time")))].

(** [zz_generated.deepcopy.go: DatabaseStatus.DeepCopy] *)
Definition DatabaseStatus_DeepCopy : option loc -> H (option loc) :=
  deep_copy DatabaseStatus_DeepCopyInto.

#[export] Instance DatabaseStatus_shape : Shape DatabaseStatus_type.
Proof. unfold DatabaseStatus_type. apply _. Qed.
#[export] Instance DatabaseStatus_copies :
  Copies DatabaseStatus_type DatabaseStatus_DeepCopyInto.
Proof. unfold DatabaseStatus_type, DatabaseStatus_DeepCopyInto. solve_struct. Qed.

(** [cashumint_types.go: PaymentBackendStatus] *)
Definition PaymentBackendStatus_type : heap -> val -> Prop :=
  StructOf
    [("Connected", Plain); ("Message", Plain); ("LastChecked", PointerTo (foreign_ok "metav1.Time"))].

(** [zz_generated.deepcopy.go: PaymentBackendStatus.DeepCopyInto] *)
Definition PaymentBackendStatus_DeepCopyInto : copier :=
  copy_struct
    [("LastChecked", if_set (new_copy (foreign_into "metav1.Time")))].

(** [zz_generated.deepcopy.go: PaymentBackendStatus.DeepCopy] *)
Definition PaymentBackendStatus_DeepCopy : option loc -> H (option loc) :=
  deep_copy PaymentBackendStatus_DeepCopyInto.

#[export] Instance PaymentBackendStatus_shape : Shape PaymentBackendStatus_type.
Proof. unfold PaymentBackendStatus_type. apply _. Qed.
#[export] Instance PaymentBackendStatus_copies :
  Copies PaymentBackendStatus_type PaymentBackendStatus_DeepCopyInto.
Proof. unfold PaymentBackendStatus_type, PaymentBackendStatus_DeepCopyInto. solve_struct. Qed.

(** [cashumint_types.go: CashuMintStatus] *)
Definition CashuMintStatus_type : heap -> val -> Prop :=
  StructOf
    [("Phase", Plain); ("Conditions", SliceOf (foreign_ok "metav1.Condition")); ("ObservedGeneration", Plain);
     ("BackendType", Plain); ("DeploymentName", Plain); ("ServiceName", Plain); ("IngressName", Plain);
     ("ConfigMapName", Plain); ("DatabaseStatus", DatabaseStatus_type);
     ("PaymentBackendStatus", PaymentBackendStatus_type); ("URL", Plain); ("ReadyReplicas", Plain)].

(** [zz_generated.deepcopy.go: CashuMintStatus.DeepCopyInto] *)
Definition CashuMintStatus_DeepCopyInto : copier :=
  copy_struct
    [("Conditions", if_set (make_each (foreign_into "metav1.Condition")));
     ("DatabaseStatus", DatabaseStatus_DeepCopyInto);
     ("PaymentBackendStatus", PaymentBackendStatus_DeepCopyInto)].

(** [zz_generated.deepcopy.go: CashuMintStatus.DeepCopy] *)
Definition CashuMintStatus_DeepCopy : option loc -> H (option loc) :=
  deep_copy CashuMintStatus_DeepCopyInto.

#[export] Instance CashuMintStatus_shape : Shape CashuMintStatus_type.
Proof. unfold CashuMintStatus_type. apply _. Qed.
#[export] Instance CashuMintStatus_copies :
  Copies CashuMintStatus_type CashuMintStatus_DeepCopyInto.
Proof. unfold CashuMintStatus_type, CashuMintStatus_DeepCopyInto. solve_struct. Qed.

(** [cashumint_types.go: CashuMint] *)
Definition CashuMint_type : heap -> val -> Prop :=
  StructOf
    [("TypeMeta", Plain); ("ObjectMeta", foreign_ok "metav1.ObjectMeta"); ("Spec", CashuMintSpec_type);
     ("Status", CashuMintStatus_type)].

(** [zz_generated.deepcopy.go: CashuMint.DeepCopyInto] *)
Definition CashuMint_DeepCopyInto : copier :=
  copy_struct
    [("TypeMeta", assign); ("ObjectMeta", foreign_into "metav1.ObjectMeta");
     ("Spec", CashuMintSpec_DeepCopyInto); ("Status", CashuMintStatus_DeepCopyInto)].

(** [zz_generated.deepcopy.go: CashuMint.DeepCopy] *)
Definition CashuMint_DeepCopy : option loc -> H (option loc) :=
  deep_copy CashuMint_DeepCopyInto.

#[export] Instance CashuMint_shape : Shape CashuMint_type.
Proof. unfold CashuMint_type. apply _. Qed.
#[export] Instance CashuMint_copies :
  Copies CashuMint_type CashuMint_DeepCopyInto.
Proof. unfold CashuMint_type, CashuMint_DeepCopyInto. solve_struct. Qed.

(** [cashumint_types.go: CashuMintList] *)
Definition CashuMintList_type : heap -> val -> Prop :=
  StructOf
    [("TypeMeta", Plain); ("ListMeta", foreign_ok "metav1.ListMeta"); ("Items", SliceOf CashuMint_type)].

(** [zz_generated.deepcopy.go: CashuMintList.DeepCopyInto] *)
Definition CashuMintList_DeepCopyInto : copier :=
  copy_struct
    [("TypeMeta", assign); ("ListMeta", foreign_into "metav1.ListMeta");
     ("Items", if_set (make_each CashuMint_DeepCopyInto))].

(** [zz_generated.deepcopy.go: CashuMintList.DeepCopy] *)
Definition CashuMintList_DeepCopy : option loc -> H (option loc) :=
  deep_copy CashuMintList_DeepCopyInto.

#[export] Instance CashuMintList_shape : Shape CashuMintList_type.
Proof. unfold CashuMintList_type. apply _. Qed.
#[export] Instance CashuMintList_copies :
  Copies CashuMintList_type CashuMintList_DeepCopyInto.
Proof. unfold CashuMintList_type, CashuMintList_DeepCopyInto. solve_struct. Qed.

(** ** Every type of the package *)

Definition generated_copiers : list ((heap -> val -> Prop) * copier) :=
  [(AuthConfig_type, AuthConfig_DeepCopyInto); (AuthDatabaseConfig_type, AuthDatabaseConfig_DeepCopyInto);
   (BackupConfig_type, BackupConfig_DeepCopyInto); (BitcoinRPCConfig_type, BitcoinRPCConfig_DeepCopyInto);
   (CLNConfig_type, CLNConfig_DeepCopyInto); (CashuMint_type, CashuMint_DeepCopyInto);
   (CashuMintList_type, CashuMintList_DeepCopyInto); (CashuMintSpec_type, CashuMintSpec_DeepCopyInto);
   (CashuMintStatus_type, CashuMintStatus_DeepCopyInto);
   (CertManagerConfig_type, CertManagerConfig_DeepCopyInto);
   (DatabaseConfig_type, DatabaseConfig_DeepCopyInto); (DatabaseStatus_type, DatabaseStatus_DeepCopyInto);
   (FakeWalletConfig_type, FakeWalletConfig_DeepCopyInto);
   (GRPCProcessorConfig_type, GRPCProcessorConfig_DeepCopyInto);
   (HTTPCacheConfig_type, HTTPCacheConfig_DeepCopyInto); (IngressConfig_type, IngressConfig_DeepCopyInto);
   (IngressTLSConfig_type, IngressTLSConfig_DeepCopyInto); (LDKNodeConfig_type, LDKNodeConfig_DeepCopyInto);
   (LNBitsConfig_type, LNBitsConfig_DeepCopyInto); (LNDConfig_type, LNDConfig_DeepCopyInto);
   (LimitsConfig_type, LimitsConfig_DeepCopyInto); (LoggingConfig_type, LoggingConfig_DeepCopyInto);
   (ManagementRPCConfig_type, ManagementRPCConfig_DeepCopyInto); (MintInfo_type, MintInfo_DeepCopyInto);
   (OrchardAIConfig_type, OrchardAIConfig_DeepCopyInto);
   (OrchardBitcoinConfig_type, OrchardBitcoinConfig_DeepCopyInto);
   (OrchardConfig_type, OrchardConfig_DeepCopyInto);
   (OrchardLightningConfig_type, OrchardLightningConfig_DeepCopyInto);
   (OrchardMintConfig_type, OrchardMintConfig_DeepCopyInto);
   (OrchardMintRPCConfig_type, OrchardMintRPCConfig_DeepCopyInto);
   (OrchardTaprootAssetsConfig_type, OrchardTaprootAssetsConfig_DeepCopyInto);
   (PaymentBackendConfig_type, PaymentBackendConfig_DeepCopyInto);
   (PaymentBackendStatus_type, PaymentBackendStatus_DeepCopyInto);
   (PostgresAutoProvisionSpec_type, PostgresAutoProvisionSpec_DeepCopyInto);
   (PostgresConfig_type, PostgresConfig_DeepCopyInto); (PrometheusConfig_type, PrometheusConfig_DeepCopyInto);
   (QuoteTTLConfig_type, QuoteTTLConfig_DeepCopyInto); (RedisCacheConfig_type, RedisCacheConfig_DeepCopyInto);
   (S3BackupConfig_type, S3BackupConfig_DeepCopyInto); (SQLiteConfig_type, SQLiteConfig_DeepCopyInto);
   (ServiceConfig_type, ServiceConfig_DeepCopyInto);
   (SidecarProcessorConfig_type, SidecarProcessorConfig_DeepCopyInto);
   (StorageConfig_type, StorageConfig_DeepCopyInto)].
End Copies.

Section Objects.
Context `{MapRange, ForeignCopies}.

(** [zz_generated.deepcopy.go: CashuMint.DeepCopyObject] *)
Definition CashuMint_DeepCopyObject (in_ : option loc) : H (option loc) :=
  c ← CashuMint_DeepCopy in_; match c with Some c => mret (Some c) | None => mret None end.

(** [zz_generated.deepcopy.go: CashuMintList.DeepCopyObject] *)
Definition CashuMintList_DeepCopyObject (in_ : option loc) : H (option loc) :=
  c ← CashuMintList_DeepCopy in_; match c with Some c => mret (Some c) | None => mret None end.
End Objects.

(** [DeepCopy] with this [DeepCopyInto] returns a new variable that no reader can
    tell from the original, shares no memory with it, and leaves what there was
    as it was. *)
Definition copies_deeply (T : heap -> val -> Prop) (into : copier) : Prop :=
  forall h l v, h !! l = Some v -> T h v ->
    exists h' l' v', deep_copy into (Some l) h = Some (Some l', h') /\ h !! l' = None /\ h' !! l' = Some v' /\
      copied h v h' v' /\ forall l0, is_Some (h !! l0) -> h' !! l0 = h !! l0.

Section Properties.
Context `{MapRangeLaws, ForeignCopiesLaws}.

Lemma copies_deep T into : Shape T -> Copies T into -> copies_deeply T into.
Proof. intros HT Hc h l v Hl Ht. by eapply deep_copy_copies. Qed.

(** C14: the generated copies are deep.  For each of the 43 types of the package,
    [DeepCopy] of any value of the type, nil or set in any of its fields, does
    not panic and returns a new variable that unfolds to the same tree however
    far one reads, reaches only memory allocated by the call, and leaves all
    memory there was untouched: no field that holds a reference is forgotten. *)
Theorem generated_copies_deep : Forall (fun p => copies_deeply p.1 p.2) generated_copiers.
Proof. repeat (constructor; [apply copies_deep; apply _|]). constructor. Qed.

(** C23: a copied mint can be written to.  Whatever is written afterwards to
    memory the copy reaches, as [reconcileConfigMap] writes credentials to it,
    the original reads as before, however far one follows its references; the
    copy of nil is nil, and [DeepCopyObject] returns the same. *)
Theorem CashuMint_DeepCopy_independent h l v :
  h !! l = Some v -> CashuMint_type h v ->
  CashuMint_DeepCopy None h = Some (None, h) /\
  exists h' l', CashuMint_DeepCopy (Some l) h = Some (Some l', h') /\
    CashuMint_DeepCopyObject (Some l) h = Some (Some l', h') /\
    (forall n, unfold n h' (Ref (Some l')) = unfold n h (Ref (Some l))) /\
    forall h2, (forall l0, ~ reaches h' (Ref (Some l')) l0 -> h2 !! l0 = h' !! l0) ->
      forall n, unfold n h2 (Ref (Some l)) = unfold n h (Ref (Some l)).
Proof.
  intros Hl Ht. split; [done|].
  destruct (deep_copy_copies CashuMint_type CashuMint_DeepCopyInto h l v) as (h' & l' & v' & Hrun & Hn & Hl' & Hcop & Hold);
    [apply _|apply _|exact Hl|exact Ht|].
  exists h', l'. split; [exact Hrun|]. split; [unfold CashuMint_DeepCopyObject; by rewrite -> (bind_some _ _ _ _ _ Hrun)|].
  destruct (copied_ref h h' l l' v v' Hl Hl' Hn Hcop) as (Hc & Hu & Hf). split; [exact Hu|].
  intros h2 Hwrite n. apply unfold_agree. intros l0 Hr.
  assert (Hx : is_Some (h !! l0)) by (eapply closed_ref; [exact Hl|exact (shape_closed h v Ht)|exact Hr]).
  rewrite -> Hwrite; [by apply Hold|]. intros Hr'. apply Hf in Hr'. rewrite -> Hr' in Hx. by destruct Hx.
Qed.
End Properties.

Section Witnesses.
#[local] Existing Instance std_MapRange.
#[local] Existing Instance std_MapRangeLaws.
#[local] Existing Instance std_ForeignCopies.
#[local] Existing Instance std_ForeignCopiesLaws.

(** A mint with a database section that refers to a secret, a node selector and a toleration. *)
Definition mintValue : val :=
  Node [(Field "TypeMeta", Scalar ""); (Field "ObjectMeta", Scalar ""); (Field "Spec", Node [(Field "Image",
    Scalar ""); (Field "ImagePullPolicy", Scalar ""); (Field "ImagePullSecrets", Ref None); (Field "Replicas",
    Ref None); (Field "MintInfo", Node [(Field "URL", Scalar "https://mint.example"); (Field "ListenHost",
    Scalar ""); (Field "ListenPort", Scalar ""); (Field "MnemonicSecretRef", Ref None); (Field
    "AutoGenerateMnemonic", Scalar ""); (Field "Name", Scalar ""); (Field "Description", Scalar ""); (Field
    "DescriptionLong", Scalar ""); (Field "MOTD", Scalar ""); (Field "PubkeyHex", Scalar ""); (Field "IconURL",
    Scalar ""); (Field "ContactEmail", Scalar ""); (Field "ContactNostrPubkey", Scalar ""); (Field "TosURL",
    Scalar ""); (Field "InputFeePPK", Ref None); (Field "EnableSwaggerUI", Scalar ""); (Field "UseKeysetV2", Ref
    None); (Field "QuoteTTL", Ref None)]); (Field "Database", Node [(Field "Engine", Scalar ""); (Field
    "Postgres", Ref (Some 2%positive)); (Field "SQLite", Ref None)]); (Field "PaymentBackend", Node [(Field
    "MinMint", Ref None); (Field "MaxMint", Ref None); (Field "MinMelt", Ref None); (Field "MaxMelt", Ref None);
    (Field "LND", Ref None); (Field "CLN", Ref None); (Field "LNBits", Ref None); (Field "FakeWallet", Ref
    None); (Field "GRPCProcessor", Ref None)]); (Field "LDKNode", Ref None); (Field "Auth", Ref None); (Field
    "HTTPCache", Ref None); (Field "ManagementRPC", Ref None); (Field "Orchard", Ref None); (Field "Prometheus",
    Ref None); (Field "Limits", Ref None); (Field "Ingress", Ref None); (Field "Service", Ref None); (Field
    "Resources", Ref None); (Field "NodeSelector", Ref (Some 4%positive)); (Field "Tolerations", Ref (Some
    5%positive)); (Field "Affinity", Ref None); (Field "Logging", Ref None); (Field "Storage", Ref None); (Field
    "Backup", Ref None); (Field "PodSecurityContext", Ref None); (Field "ContainerSecurityContext", Ref None)]);
    (Field "Status", Node [(Field "Phase", Scalar ""); (Field "Conditions", Ref None); (Field
    "ObservedGeneration", Scalar ""); (Field "BackendType", Scalar ""); (Field "DeploymentName", Scalar "");
    (Field "ServiceName", Scalar ""); (Field "IngressName", Scalar ""); (Field "ConfigMapName", Scalar "");
    (Field "DatabaseStatus", Node [(Field "Connected", Scalar ""); (Field "Message", Scalar ""); (Field
    "LastChecked", Ref None)]); (Field "PaymentBackendStatus", Node [(Field "Connected", Scalar ""); (Field
    "Message", Scalar ""); (Field "LastChecked", Ref None)]); (Field "URL", Scalar ""); (Field "ReadyReplicas",
    Scalar "")])].
Definition postgresValue : val :=
  Node [(Field "URL", Scalar ""); (Field "URLSecretRef", Ref (Some 3%positive)); (Field "TLSMode", Scalar "");
    (Field "MaxConnections", Ref None); (Field "ConnectionTimeoutSeconds", Ref None); (Field "AutoProvision",
    Scalar ""); (Field "AutoProvisionSpec", Ref None)].
Definition mintHeap : heap :=
  {[ 1%positive := mintValue; 2%positive := postgresValue; 3%positive := Scalar "db-credentials";
     4%positive := Entries {[ "disk" := "ssd"; "zone" := "a" ]}; 5%positive := Node [(Index 0, Scalar "taint")] ]}.

Ltac solve_type :=
  lazymatch goal with
  | |- Plain _ _ => reflexivity
  | |- foreign_ok _ _ _ => reflexivity
  | |- PointerTo _ _ (Ref None) => left; reflexivity
  | |- SliceOf _ _ (Ref None) => left; reflexivity
  | |- StringEntries _ (Ref None) => left; reflexivity
  | |- PointerTo _ _ _ => right; eexists _, _; split; [reflexivity|split; [reflexivity|solve_type]]
  | |- SliceOf _ _ _ => right; eexists _, _; split; 
      [reflexivity|split; [reflexivity|split; [reflexivity|repeat constructor; solve_type]]]
  | |- StringEntries _ _ => right; eexists _, _; split; reflexivity
  | |- StructOf _ _ _ => eexists; split; [reflexivity|
      repeat (apply Forall2_cons; split; [split; [reflexivity|cbn [fst snd]; solve_type]|]); apply Forall2_nil_2]
  | |- ?T _ _ => let T' := eval red in T in change T with T'; solve_type
  end.

Lemma mintValue_typed : CashuMint_type mintHeap mintValue.
Proof. solve_type. Qed.

Lemma mintHeap_mint : mintHeap !! 1%positive = Some mintValue.
Proof. reflexivity. Qed.

Lemma generated_copies_deep_witness :
  exists h' l' v', deep_copy CashuMint_DeepCopyInto (Some 1%positive) mintHeap = Some (Some l', h') /\
    copied mintHeap mintValue h' v'.
Proof.
  pose proof (proj1 (Forall_forall _ _) generated_copies_deep (CashuMint_type, CashuMint_DeepCopyInto)) as Hd.
  destruct (Hd ltac:(repeat first [apply list_elem_of_here|apply list_elem_of_further])
    mintHeap 1%positive mintValue mintHeap_mint mintValue_typed)
    as (h' & l' & v' & Hrun & _ & _ & Hc & _).
  exists h', l', v'. exact (conj Hrun Hc).
Defined.

Lemma CashuMint_DeepCopy_independent_witness :
  exists h' l', CashuMint_DeepCopy (Some 1%positive) mintHeap = Some (Some l', h') /\
    forall n, unfold n (<[l' := Zero]> h') (Ref (Some 1%positive)) = unfold n mintHeap (Ref (Some 1%positive)).
Proof.
  destruct (CashuMint_DeepCopy_independent mintHeap 1%positive mintValue mintHeap_mint mintValue_typed)
    as (_ & h' & l' & Hrun & _ & _ & Hw).
  exists h', l'. split; [exact Hrun|]. apply Hw. intros l0 Hl0. apply lookup_insert_ne. intros ->.
  apply Hl0, reaches_here.
Defined.

(** The first database section and its secret reference in the copy are new;
    with a plain assignment they would be the old ones. *)
Definition database_ref_of (into : copier) : option (option loc * option loc) :=
  '(c, h) ← deep_copy into (Some 1%positive) mintHeap; l ← c; v ← h !! l;
  p ← get [Field "Spec"; Field "Database"; Field "Postgres"] v;
  match p with
  | Ref q => l ← q; v ← h !! l; r ← get [Field "URLSecretRef"] v; match r with Ref r => Some (q, r) | _ => None end
  | _ => None
  end.

Example database_refs :
  database_ref_of assign = Some (Some 2%positive, Some 3%positive) /\
  database_ref_of CashuMint_DeepCopyInto = Some (Some 7%positive, Some 8%positive).
Proof. split; vm_compute; reflexivity. Qed.
End Witnesses.
