(* ===== verification/Manager.v ===== *)
(** * The manager binary: [cmd/main.go]

    Flag parsing, as Go's [flag] package does it, and the start-up sequence: the
    manager's options, the controller, the webhooks, the health checks, the
    start, each of which may fail and ends the process.  The flags of other
    packages, the environment and the outcome of each library call are
    arguments. *)

From S2P Require Import Prelude Kube Types Platform.

(** ** The command line *)

(** [main.go: ServerConfig] *)
Record ServerConfig := mkServerConfig {
  sv_MetricsAddr : string;
  sv_ProbeAddr : string;
  sv_LeaderElection : bool;
  sv_SecureMetrics : bool;
  sv_EnableHTTP2 : bool;
  sv_WebhookCertPath : string;
  sv_WebhookCertName : string;
  sv_WebhookCertKey : string;
  sv_MetricsCertPath : string;
  sv_MetricsCertName : string;
  sv_MetricsCertKey : string
}.
#[export] Instance eta_ServerConfig : Settable ServerConfig := fun r =>
  mkServerConfig r.(sv_MetricsAddr) r.(sv_ProbeAddr) r.(sv_LeaderElection) r.(sv_SecureMetrics) r.(sv_EnableHTTP2)
    r.(sv_WebhookCertPath) r.(sv_WebhookCertName) r.(sv_WebhookCertKey)
    r.(sv_MetricsCertPath) r.(sv_MetricsCertName) r.(sv_MetricsCertKey).

(** A variable of the command line: how a value is written to it. *)
Inductive FlagValue : Type :=
  | StringVar (set : string -> ServerConfig -> ServerConfig)
  | BoolVar (set : bool -> ServerConfig -> ServerConfig).

(** The defaults the flags are declared with. [main.go: parseFlags 79-102] *)
Definition flagDefaults : ServerConfig :=
  mkServerConfig "0" ":8081" false true false "" "tls.crt" "tls.key" "" "tls.crt" "tls.key".

(** [main.go: parseFlags 79-102] *)
Definition serverFlags : list (string * FlagValue) :=
  [("metrics-bind-address", StringVar (fun v c => c <| sv_MetricsAddr := v |>));
   ("health-probe-bind-address", StringVar (fun v c => c <| sv_ProbeAddr := v |>));
   ("leader-elect", BoolVar (fun v c => c <| sv_LeaderElection := v |>));
   ("metrics-secure", BoolVar (fun v c => c <| sv_SecureMetrics := v |>));
   ("webhook-cert-path", StringVar (fun v c => c <| sv_WebhookCertPath := v |>));
   ("webhook-cert-name", StringVar (fun v c => c <| sv_WebhookCertName := v |>));
   ("webhook-cert-key", StringVar (fun v c => c <| sv_WebhookCertKey := v |>));
   ("metrics-cert-path", StringVar (fun v c => c <| sv_MetricsCertPath := v |>));
   ("metrics-cert-name", StringVar (fun v c => c <| sv_MetricsCertName := v |>));
   ("metrics-cert-key", StringVar (fun v c => c <| sv_MetricsCertKey := v |>));
   ("enable-http2", BoolVar (fun v c => c <| sv_EnableHTTP2 := v |>))].

(** The flags other packages declare on the same command line: whether there is
    one of that name, whether it is boolean, and whether it takes a value. *)
Class OtherFlags := {
  otherFlag : string -> option bool;
  otherAccepts : string -> string -> bool
}.

(** [strconv.ParseBool] *)
Definition ParseBool (s : string) : option bool :=
  if existsb (String.eqb s) ["1"; "t"; "T"; "TRUE"; "true"; "True"] then Some true
  else if existsb (String.eqb s) ["0"; "f"; "F"; "FALSE"; "false"; "False"] then Some false
  else None.

(** [name=value]: the first [=] that is not the first character. *)
Fixpoint split_equals (acc s : string) : string * option string :=
  match s with
  | EmptyString => (acc, None)
  | String c s => if Ascii.eqb c "=" && negb (String.eqb acc "") then (acc, Some s)
                  else split_equals (acc +:+ String c EmptyString) s
  end.

(** An argument of the command line. *)
Inductive Token : Type :=
  | Positional
  | Terminator
  | BadSyntax
  | FlagToken (name : string) (value : option string).

Definition starts_with (c : ascii) (s : string) : bool :=
  match s with String c' _ => Ascii.eqb c' c | EmptyString => false end.

Definition token (s : string) : Token :=
  match s with
  | String "-" (String c rest) =>
      let name := if Ascii.eqb c "-" then rest else String c rest in
      if Ascii.eqb c "-" && String.eqb rest "" then Terminator
      else if String.eqb name "" || starts_with "-" name || starts_with "=" name then BadSyntax
      else let '(n, v) := split_equals "" name in FlagToken n v
  | _ => Positional
  end.

(** How parsing ends: with the rest of the work to do, or with an exit code. *)
Definition parsed : Type := ServerConfig + Z.

(** Go exits with 0 after printing the help that was asked for, with 2 on an error. *)
Definition helpExit : Z := 0.
Definition errorExit : Z := 2.

Definition find_flag (name : string) : option FlagValue :=
  snd <$> List.find (fun f => String.eqb f.1 name) serverFlags.

Section Parsing.
Context `{OtherFlags}.

(** A boolean flag takes no further argument; any other takes one. *)
Definition is_bool (name : string) : option bool :=
  match find_flag name with
  | Some (BoolVar _) => Some true
  | Some (StringVar _) => Some false
  | None => otherFlag name
  end.

(** [flag.Value.Set]; [None] is an invalid value. *)
Definition set_flag (name value : string) (c : ServerConfig) : option ServerConfig :=
  match find_flag name with
  | Some (StringVar set) => Some (set value c)
  | Some (BoolVar set) => b ← ParseBool value; Some (set b c)
  | None => if otherAccepts name value then Some c else None
  end.

(** [flag.Parse] *)
Fixpoint parse (args : list string) (c : ServerConfig) : parsed :=
  match args with
  | [] => inl c
  | arg :: args' =>
      match token arg with
      | Positional | Terminator => inl c
      | BadSyntax => inr errorExit
      | FlagToken name value =>
          match is_bool name with
          | None => if String.eqb name "help" || String.eqb name "h" then inr helpExit else inr errorExit
          | Some true =>
              match set_flag name (match value with Some v => v | None => "true" end) c with
              | Some c => parse args' c
              | None => inr errorExit
              end
          | Some false =>
              match value, args' with
              | Some v, _ => match set_flag name v c with Some c => parse args' c | None => inr errorExit end
              | None, v :: args'' => match set_flag name v c with Some c => parse args'' c | None => inr errorExit end
              | None, [] => inr errorExit
              end
          end
      end
  end.

(** [main.go: parseFlags] *)
Definition parseFlags (args : list string) : parsed := parse args flagDefaults.
End Parsing.

(** ** Start-up *)

(** The part of [tls.Config] that is set. *)
Record TLSConfig := mkTLSConfig { tc_NextProtos : list string }.
Definition TLSOpt : Type := TLSConfig -> TLSConfig.

(** [main.go: buildTLSOptions] *)
Definition buildTLSOptions (enableHTTP2 : bool) : list TLSOpt :=
  if enableHTTP2 then [] else [fun c => mkTLSConfig ["http/1.1"]].

(** [webhook.Options], [metricsserver.Options] and [ctrl.Options]: the fields
    that are set; an empty name stands for the library's default. *)
Record CertFiles := mkCertFiles { cf_Dir : string; cf_Name : string; cf_Key : string }.
Record WebhookOptions := mkWebhookOptions { wo_TLSOpts : list TLSOpt; wo_Cert : CertFiles }.
Record MetricsOptions := mkMetricsOptions {
  mo_BindAddress : string;
  mo_SecureServing : bool;
  mo_TLSOpts : list TLSOpt;
  mo_Authenticated : bool;
  mo_Cert : CertFiles
}.
Record ManagerOptions := mkManagerOptions {
  mg_Metrics : MetricsOptions;
  mg_Webhook : WebhookOptions;
  mg_HealthProbeBindAddress : string;
  mg_LeaderElection : bool;
  mg_LeaderElectionID : string
}.

(** The files of a certificate, if there is a directory of them. *)
Definition certFiles (dir name key : string) : CertFiles :=
  if negb (String.eqb dir "") then mkCertFiles dir name key else mkCertFiles "" "" "".

(** [main.go: configureWebhookServer] *)
Definition configureWebhookServer (config : ServerConfig) (tlsOpts : list TLSOpt) : WebhookOptions :=
  mkWebhookOptions tlsOpts (certFiles config.(sv_WebhookCertPath) config.(sv_WebhookCertName) config.(sv_WebhookCertKey)).

(** [main.go: configureMetricsServer] *)
Definition configureMetricsServer (config : ServerConfig) (tlsOpts : list TLSOpt) : MetricsOptions :=
  mkMetricsOptions config.(sv_MetricsAddr) config.(sv_SecureMetrics) tlsOpts config.(sv_SecureMetrics)
    (certFiles config.(sv_MetricsCertPath) config.(sv_MetricsCertName) config.(sv_MetricsCertKey)).

(** The calls into the libraries, in the order they happen. *)
Inductive boot_call : Type :=
  | GetConfigOrDie
  | NewManager (o : ManagerOptions)
  | SetupWithManager (name : string)
  | SetupWebhookWithManager
  | AddHealthzCheck (name : string)
  | AddReadyzCheck (name : string)
  | StartManager.

(** A statement of [main]: it is answered call by call, keeps the trace, and
    ends with an error or goes on. *)
Definition answers : Type := boot_call -> option goerror.
Definition boot : Type := list boot_call -> list boot_call * option goerror.

Definition boot_do (a : answers) (c : boot_call) : boot := fun trace => (trace ++ [c], a c).
Definition boot_skip : boot := fun trace => (trace, None).
Definition boot_then (m k : boot) : boot := fun trace =>
  match m trace with
  | (trace, None) => k trace
  | (trace, Some e) => (trace, Some e)
  end.
(** [fmt.Errorf("prefix: %w", err)] *)
Definition boot_wrap (prefix : string) (m : boot) : boot := fun trace =>
  let '(trace, e) := m trace in (trace, Wrapf prefix <$> e).

Section Boot.
Variables (a : answers) (enableWebhooks : option string).

(** [main.go: setupManager] *)
Definition setupManager (config : ServerConfig) (tlsOpts : list TLSOpt) : boot :=
  boot_then (boot_do a GetConfigOrDie)
    (boot_wrap "unable to create manager: "
       (boot_do a (NewManager (mkManagerOptions (configureMetricsServer config tlsOpts)
          (configureWebhookServer config tlsOpts) config.(sv_ProbeAddr) config.(sv_LeaderElection)
          "80fff680.cashu.asmogo.github.io")))).

(** [os.Getenv] of a variable that may be unset. *)
Definition getenv (v : option string) : string := match v with Some s => s | None => "" end.

(** [main.go: setupControllers] *)
Definition setupControllers : boot :=
  boot_then (boot_wrap "unable to create CashuMint controller: " (boot_do a (SetupWithManager "cashumint")))
    (if negb (String.eqb (getenv enableWebhooks) "false")
     then boot_wrap "unable to create CashuMint webhook: " (boot_do a SetupWebhookWithManager)
     else boot_skip).

(** [main.go: setupHealthChecks] *)
Definition setupHealthChecks : boot :=
  boot_then (boot_wrap "unable to set up health check: " (boot_do a (AddHealthzCheck "healthz")))
    (boot_wrap "unable to set up ready check: " (boot_do a (AddReadyzCheck "readyz"))).

(** The calls that were made and the exit code. [main.go: main] *)
Definition main `{OtherFlags} (args : list string) : list boot_call * Z :=
  match parseFlags args with
  | inr code => ([], code)
  | inl config =>
      let tlsOpts := buildTLSOptions config.(sv_EnableHTTP2) in
      let '(trace, e) := boot_then (setupManager config tlsOpts) (boot_then setupControllers
                           (boot_then setupHealthChecks (boot_do a StartManager))) [] in
      (trace, match e with None => 0%Z | Some _ => 1%Z end)
  end.
End Boot.

(** ** The command line, written and read *)

Definition bool_text (b : bool) : string := if b then "true" else "false".

(** The value of every flag. *)
Definition settings (c : ServerConfig) : list (string * string) :=
  [("metrics-bind-address", c.(sv_MetricsAddr)); ("health-probe-bind-address", c.(sv_ProbeAddr));
   ("leader-elect", bool_text c.(sv_LeaderElection)); ("metrics-secure", bool_text c.(sv_SecureMetrics));
   ("webhook-cert-path", c.(sv_WebhookCertPath)); ("webhook-cert-name", c.(sv_WebhookCertName));
   ("webhook-cert-key", c.(sv_WebhookCertKey)); ("metrics-cert-path", c.(sv_MetricsCertPath));
   ("metrics-cert-name", c.(sv_MetricsCertName)); ("metrics-cert-key", c.(sv_MetricsCertKey));
   ("enable-http2", bool_text c.(sv_EnableHTTP2))].

(** The ways of writing a flag, with one dash or two. *)
Inductive spelled `{OtherFlags} (name value : string) : list string -> Prop :=
  | spelled_equals dash : In dash ["-"; "--"] -> spelled name value [dash +:+ name +:+ "=" +:+ value]
  | spelled_next dash : In dash ["-"; "--"] -> is_bool name = Some false -> spelled name value [dash +:+ name; value]
  | spelled_bare dash : In dash ["-"; "--"] -> is_bool name = Some true -> value = "true" -> spelled name value [dash +:+ name].

Section Spelling.
Context `{OtherFlags}.

(** What a flag does to the configuration. *)
Definition apply_flag (nv : string * string) (c : ServerConfig) : ServerConfig :=
  match set_flag nv.1 nv.2 c with Some c => c | None => c end.

Lemma ParseBool_text b : ParseBool (bool_text b) = Some b.
Proof. by destruct b. Qed.

Ltac each_setting Hin :=
  repeat (destruct Hin as [Hin|Hin]; [injection Hin as <- <-|]); [..|destruct Hin].

Lemma settings_set c0 name value c : In (name, value) (settings c0) -> set_flag name value c = Some (apply_flag (name, value) c).
Proof.
  intros Hin. unfold apply_flag. cbn [fst snd]. destruct (set_flag name value c) eqn:E; [done|].
  each_setting Hin; cbn in E; rewrite -> ?ParseBool_text in E; discriminate.
Qed.

Lemma settings_bool c0 name value : In (name, value) (settings c0) -> exists b, is_bool name = Some b.
Proof. intros Hin. each_setting Hin; by eexists. Qed.

Lemma settings_token c0 name value dash :
  In (name, value) (settings c0) -> In dash ["-"; "--"] ->
  token (dash +:+ name) = FlagToken name None /\ forall v, token (dash +:+ name +:+ "=" +:+ v) = FlagToken name (Some v).
Proof. intros Hin Hd. each_setting Hin; destruct Hd as [<-|[<-|[]]]; split; reflexivity. Qed.

(** However a flag is written, it is set and the rest is parsed. *)
Lemma parse_spelled c0 name value args rest c :
  In (name, value) (settings c0) -> spelled name value args ->
  parse (args ++ rest) c = parse rest (apply_flag (name, value) c).
Proof.
  intros Hin Hs. pose proof (settings_set c0 name value c Hin) as Hset.
  destruct (settings_bool _ _ _ Hin) as [b Hb].
  destruct Hs as [dash Hd|dash Hd Hn|dash Hd Hn ->]; destruct (settings_token _ _ _ _ Hin Hd) as [Ht Hte];
    cbn [app parse]; rewrite -> ?Ht, ?Hte.
  - rewrite -> Hb. destruct b; by rewrite -> Hset.
  - rewrite -> Hn. by rewrite -> Hset.
  - rewrite -> Hn. by rewrite -> Hset.
Qed.

Lemma settings_commute c0 x y c :
  In x (settings c0) -> In y (settings c0) -> apply_flag x (apply_flag y c) = apply_flag y (apply_flag x c).
Proof.
  destruct x as [nx vx], y as [ny vy]. intros Hx Hy.
  each_setting Hx; each_setting Hy; unfold apply_flag; cbn; rewrite -> ?ParseBool_text; reflexivity.
Qed.

Definition apply_flags (l : list (string * string)) (c : ServerConfig) : ServerConfig := foldl (fun c nv => apply_flag nv c) c l.

Lemma apply_settings_perm c0 l l' c :
  l ≡ₚ l' -> (forall x, In x l -> In x (settings c0)) -> apply_flags l c = apply_flags l' c.
Proof.
  intros Hp. induction Hp as [|x l l' Hp IH|x y l|l1 l2 l3 H1 IH1 H2 IH2] in c |- *; intros Hin; [done|..]; cbn.
  - apply IH. intros z Hz. apply Hin. by right.
  - f_equal. apply (settings_commute c0); apply Hin; cbn; tauto.
  - rewrite -> IH1 by done. apply IH2. intros z Hz. apply Hin. eapply Permutation_in; [symmetry; exact H1|exact Hz].
Qed.

Lemma apply_all_settings c : apply_flags (settings c) flagDefaults = c.
Proof. destruct c. unfold apply_flags, apply_flag. cbn. rewrite -> !ParseBool_text. reflexivity. Qed.

Lemma parse_settings c0 l argss c :
  (forall x, In x l -> In x (settings c0)) -> Forall2 (fun nv args => spelled nv.1 nv.2 args) l argss ->
  parse (concat argss) c = inl (apply_flags l c).
Proof.
  intros Hin Hall. induction Hall as [|[n v] args l argss Hs Hall IH] in c, Hin |- *; [done|]. cbn [concat].
  rewrite -> (parse_spelled c0 n v args _ c); [|apply Hin; by left|exact Hs]. apply IH. intros z Hz. apply Hin. by right.
Qed.
End Spelling.

(** ** The start-up sequence *)

(** The options a configuration stands for. *)
Definition managerOptions (config : ServerConfig) : ManagerOptions :=
  let tlsOpts := buildTLSOptions config.(sv_EnableHTTP2) in
  mkManagerOptions (configureMetricsServer config tlsOpts) (configureWebhookServer config tlsOpts)
    config.(sv_ProbeAddr) config.(sv_LeaderElection) "80fff680.cashu.asmogo.github.io".

(** Everything that is done before the manager is started, in order. *)
Definition bootSequence (config : ServerConfig) (enableWebhooks : option string) : list boot_call :=
  [GetConfigOrDie; NewManager (managerOptions config); SetupWithManager "cashumint"] ++
  append_if (negb (String.eqb (getenv enableWebhooks) "false")) [SetupWebhookWithManager] ++
  [AddHealthzCheck "healthz"; AddReadyzCheck "readyz"; StartManager].

(** A list of calls up to the first that fails, and whether all succeeded. *)
Fixpoint walk (a : answers) (l : list boot_call) : list boot_call * bool :=
  match l with
  | [] => ([], true)
  | c :: l => match a c with
              | None => let '(t, ok) := walk a l in (c :: t, ok)
              | Some _ => ([c], false)
              end
  end.

(** How far a sequence of calls got: to its end, or to a call that failed. *)
Inductive got_to (a : answers) (l : list boot_call) : list boot_call -> Z -> Prop :=
  | got_all : Forall (fun c => a c = None) l -> got_to a l l 0
  | got_failed before c after :
      l = before ++ c :: after -> Forall (fun c => a c = None) before -> is_Some (a c) -> got_to a l (before ++ [c]) 1.

Lemma walk_got a l : got_to a l (walk a l).1 (if (walk a l).2 then 0 else 1)%Z.
Proof.
  induction l as [|c l IH]; cbn; [by apply got_all|]. destruct (a c) as [e|] eqn:Hc.
  - apply (got_failed a (c :: l) [] c l); [done|constructor|by rewrite -> Hc].
  - destruct (walk a l) as [t ok]. cbn in *. inversion IH as [Hall Ht Hcode|before c' after Hl Hb Hs Ht Hcode]; subst.
    + apply got_all. by constructor.
    + apply (got_failed a _ (c :: before) c' after); [done|by constructor|done].
Qed.

Lemma main_walk `{OtherFlags} a env args :
  main a env args =
  match parseFlags args with
  | inr code => ([], code)
  | inl config => let '(t, ok) := walk a (bootSequence config env) in (t, if ok then 0 else 1)%Z
  end.
Proof.
  unfold main. destruct (parseFlags args) as [config|code]; [|done].
  unfold setupManager, setupControllers, setupHealthChecks, boot_then, boot_wrap, boot_do, boot_skip, bootSequence, managerOptions.
  cbn. destruct (a GetConfigOrDie); [done|]. cbn. destruct (a (NewManager _)); [done|]. cbn.
  destruct (a (SetupWithManager _)); [done|]. cbn. destruct (negb _); cbn.
  - destruct (a SetupWebhookWithManager); [done|]. cbn. destruct (a (AddHealthzCheck _)); [done|]. cbn.
    destruct (a (AddReadyzCheck _)); [done|]. cbn. by destruct (a StartManager).
  - destruct (a (AddHealthzCheck _)); [done|]. cbn. destruct (a (AddReadyzCheck _)); [done|]. cbn. by destruct (a StartManager).
Qed.

Lemma parse_exit `{OtherFlags} args c code : parse args c = inr code -> code = helpExit \/ code = errorExit.
Proof.
  revert c. induction args as [args IH] using (induction_ltof1 _ (@length string)); unfold ltof in IH. intros c.
  destruct args as [|arg args]; [done|]. cbn [parse]. destruct (token arg) as [| | |name value]; try done; [by intros [= <-]; right|].
  destruct (is_bool name) as [[|]|].
  - destruct (set_flag _ _ _); [|by intros [= <-]; right]. apply IH. cbn. lia.
  - destruct value as [v|].
    + destruct (set_flag _ _ _); [|by intros [= <-]; right]. apply IH. cbn. lia.
    + destruct args as [|v args]; [by intros [= <-]; right|]. destruct (set_flag _ _ _); [|by intros [= <-]; right]. apply IH. cbn. lia.
  - destruct (_ || _); intros [= <-]; [by left|by right].
Qed.

(** ** Properties *)

(** C24: the command line reads back.  Any configuration can be given on the
    command line: whatever the values, with the flags in any order, each with one
    or two dashes, as [name=value] or as two arguments (a boolean that is true
    also by its name alone), [parseFlags] returns exactly that configuration. *)
Theorem parseFlags_roundtrip `{OtherFlags} c flags argss :
  flags ≡ₚ settings c -> Forall2 (fun nv args => spelled nv.1 nv.2 args) flags argss ->
  parseFlags (concat argss) = inl c.
Proof.
  intros Hp Hall. assert (Hin : forall x, In x flags -> In x (settings c)) by (intros x Hx; by eapply Permutation_in).
  unfold parseFlags. rewrite -> (parse_settings c flags argss _ Hin Hall). f_equal.
  by rewrite -> (apply_settings_perm c flags (settings c) _ Hp Hin), apply_all_settings.
Qed.

(** The protocols a server negotiates once its options are applied. *)
Definition protocols (opts : list TLSOpt) (base : TLSConfig) : list string :=
  (foldl (fun c (f : TLSOpt) => f c) base opts).(tc_NextProtos).

(** C22: the binary starts the manager last, and safely.  A command line that does
    not parse makes no call and exits with 0 (help) or 2.  Otherwise the calls
    made are the start-up sequence (options, controller, the webhooks unless
    ENABLE_WEBHOOKS is "false", both health checks, start) up to the first that
    fails, which makes the exit code 1; and the manager it creates speaks
    nothing but HTTP/1.1 on either server unless HTTP/2 was asked for, and serves
    metrics over TLS only with authentication. *)
Theorem main_boots `{OtherFlags} a env args :
  let '(trace, code) := main a env args in
  match parseFlags args with
  | inr exit => trace = [] /\ code = exit /\ (exit = helpExit \/ exit = errorExit)
  | inl config =>
      got_to a (bootSequence config env) trace code /\
      forall o, In (NewManager o) trace ->
        (config.(sv_EnableHTTP2) = false -> forall base,
           protocols o.(mg_Metrics).(mo_TLSOpts) base = ["http/1.1"] /\
           protocols o.(mg_Webhook).(wo_TLSOpts) base = ["http/1.1"]) /\
        (o.(mg_Metrics).(mo_SecureServing) = true -> o.(mg_Metrics).(mo_Authenticated) = true)
  end.
Proof.
  rewrite -> main_walk. destruct (parseFlags args) as [config|exit] eqn:Hp.
  2: { do 2 (split; [done|]). by eapply parse_exit. }
  pose proof (walk_got a (bootSequence config env)) as Hg.
  destruct (walk a (bootSequence config env)) as [t ok]. cbn [fst snd] in Hg. split; [exact Hg|].
  intros o Hin. assert (Ho : o = managerOptions config).
  { assert (Hin' : In (NewManager o) (bootSequence config env)).
    { inversion Hg as [Hall Ht Hc|before c after Hl Hb Hs Ht Hc]; subst; [done|]. rewrite -> Hl.
      apply in_app_or in Hin as [Hin|[Hin|[]]]; apply in_or_app; [by left|right; by left]. }
    revert Hin'. unfold bootSequence, append_if. destruct (negb _); cbn; intuition congruence. }
  subst o. split; [|done]. unfold managerOptions, buildTLSOptions. by intros ->.
Qed.

Section Witnesses.

(** Two of the flags of the logging library. *)
#[local] Instance std_OtherFlags : OtherFlags := {
  otherFlag name := if String.eqb name "zap-devel" then Some true else if String.eqb name "zap-log-level" then Some false else None;
  otherAccepts name value := negb (String.eqb value "")
}.

(** The arguments of the deployed manager, and the same with a failing webhook set-up. *)
Definition deployedArgs : list string := ["--leader-elect"; "--health-probe-bind-address=:8081"].

Example deployed_boot :
  main (fun _ => None) None deployedArgs =
  (bootSequence (flagDefaults <| sv_LeaderElection := true |>) None, 0%Z).
Proof. reflexivity. Qed.

Example bad_flags :
  parseFlags ["-metrics-secure=maybe"] = inr 2%Z /\ parseFlags ["--help"] = inr 0%Z /\
  parseFlags ["-zap-log-level"; "debug"; "-enable-http2"; "--"; "-x"] = inl (flagDefaults <| sv_EnableHTTP2 := true |>).
Proof. do 2 (split; [reflexivity|]). reflexivity. Qed.

Lemma main_boots_witness :
  got_to (fun c => match c with SetupWebhookWithManager => Some (Errorf "no certificate") | _ => None end)
    (bootSequence (flagDefaults <| sv_LeaderElection := true |>) None)
    [GetConfigOrDie; NewManager (managerOptions (flagDefaults <| sv_LeaderElection := true |>));
     SetupWithManager "cashumint"; SetupWebhookWithManager] 1.
Proof.
  exact (proj1 (main_boots (fun c => match c with SetupWebhookWithManager => Some (Errorf "no certificate") | _ => None end)
    None deployedArgs)).
Defined.

Definition sampleConfig : ServerConfig := mkServerConfig ":8443" "" true false true "/a=b" "-x" "" "" "--" "tls.key".

Lemma parseFlags_roundtrip_witness :
  parseFlags ["-enable-http2"; "--metrics-bind-address"; ":8443"; "-health-probe-bind-address="; "--leader-elect=true";
              "-metrics-secure=false"; "--webhook-cert-path=/a=b"; "-webhook-cert-name"; "-x"; "-webhook-cert-key="; 
              "-metrics-cert-path"; ""; "--metrics-cert-name=--"; "--metrics-cert-key"; "tls.key"] = inl sampleConfig.
Proof.
  apply (parseFlags_roundtrip sampleConfig
    (("enable-http2", "true") :: take 10 (settings sampleConfig))
    [["-enable-http2"]; ["--metrics-bind-address"; ":8443"]; ["-health-probe-bind-address="]; ["--leader-elect=true"];
     ["-metrics-secure=false"]; ["--webhook-cert-path=/a=b"]; ["-webhook-cert-name"; "-x"]; ["-webhook-cert-key="];
     ["-metrics-cert-path"; ""]; ["--metrics-cert-name=--"]; ["--metrics-cert-key"; "tls.key"]]).
  - change (settings sampleConfig) with (take 10 (settings sampleConfig) ++ [("enable-http2", "true")]).
    apply (Permutation_cons_append (take 10 (settings sampleConfig))).
  - repeat (apply Forall2_cons_2; [cbn [fst snd]|]); [..|apply Forall2_nil_2];
      match goal with
      | |- spelled ?n ?v _ =>
          first [ exact (spelled_equals n v "-" (or_introl eq_refl))
                | exact (spelled_equals n v "--" (or_intror (or_introl eq_refl)))
                | exact (spelled_bare n v "-" (or_introl eq_refl) eq_refl eq_refl)
                | exact (spelled_next n v "-" (or_introl eq_refl) eq_refl)
                | exact (spelled_next n v "--" (or_intror (or_introl eq_refl)) eq_refl) ]
      end.
Defined.
End Witnesses.
